(* ===== verification/_CoqProject ===== *)
-Q . S2P
Prelude.v
Globals.v
Interrupt.v
Timer.v
Bitmap.v
LinkedList.v
Paging.v
PageAlloc.v
PageFree.v
PageInit.v
Loader.v
LoadKernel.v
LoadBoot.v
Pages.v
Supply.v
Heap.v
HeapInit.v
HeapAlloc.v
HeapFree.v
HeapUse.v
CString.v
Print.v
PrintStr.v
Stdio.v
Descriptor.v
Thread.v
Sync.v
PoolLocks.v
ThreadCreate.v
System.v
Console.v
Messages.v
Syscall.v
PageDir.v
UserEntry.v
Entry.v
HeapShare.v
Process.v
IoQueue.v
Keyboard.v
Programs.v
Boot.v
PowerOn.v
Main.v
