(* ===== verification/Prelude.v ===== *)
(** * GOOS: a verification of the kernel

    GOOS is a teaching kernel for 32-bit x86 machines: a boot sector and a
    loader in assembly (src/boot), and a kernel in C (src/kernel, src/thread,
    src/userprog, src/device, src/lib) that has paging with two pools of
    frames, a heap, kernel threads and processes under a round-robin scheduler,
    locks, a keyboard driver with a ring buffer, a console, and four system
    calls.  The development models all of these as functions in a small state
    and error monad and proves, for each, what its callers rely on; the last
    file runs [main] from the state the loader leaves.

    ** How the code is rendered

    A C function is a function [args -> M St A] on the state [St] of its
    component, where [M St A] is [St -> outcome A St].  The outcomes: [Ok], the
    function returns; [Panic], [ASSERT] or [PANIC] reached [panic_spin];
    [Fault], an access without meaning (a dangling pointer, an index outside an
    array, a page that is not mapped); [Switched], [schedule] gives the
    processor to another thread, with the rest of the call as a continuation;
    [Window], a point between two statements at which an interrupt may come;
    [NoFuel], an artefact of loops with fuel.  Integers are [Z] with the
    conversions of the C types ([u8] ... [s32]) written where they act;
    pointers are integers; memory is, by component, words behind the page
    tables ([Paging]), bytes ([CString], [LoadKernel]) or records by address
    (list nodes, tasks, locks, arenas).  Link-time addresses are classes
    ([Layout], [PoolLayout], [ConsoleLayout], [SyscallText], [KbdLayout],
    [BootLayout], [MainCode]).

    Statements are total: [wp m s Q] says that [m] returns from [s] in a state
    with [Q] (no panic, fault or lack of fuel), [wpp] and [wpu] also name the
    condition of a panic, [wpk] follows a call to the point where it switches,
    and [undisturbed] is the outcome when no interrupt comes in the windows.
    [outcome_equiv] equates computations that agree at all points where others
    may run.  A component runs inside a larger state through a [lens] ([zoom]):
    threads and memory make up [kernel] (PoolLocks), with heap, bytes, screen
    and table of system calls it is [system] (System), with interrupt tables,
    keyboard and TSS it is [boot_state] (Boot).

    ** Files

    - Prelude: integers, outcomes, the monad, its logics, loops, arrays, lenses,
      automation.  Globals: kernel/global.h, lib/stdint.h.
    - Interrupt (kernel/interrupt.c), Timer (device/timer.c), Descriptor
      (userprog/tss.c, tss.h), Entry (kernel/kernel.S): the tables and chips of
      the interrupt system, and the way of an interrupt in and out.
    - Bitmap (lib/kernel/bitmap.c), LinkedList (lib/kernel/list.c), CString
      (lib/string.c), Stdio (lib/stdio.c), Print and PrintStr
      (lib/kernel/print.S): the libraries.  Messages: what [panic_spin]
      (kernel/debug.c) and the default interrupt handler (kernel/interrupt.c)
      print.
    - Paging, PageAlloc, PageFree, PageInit, Pages (kernel/memory.c): page
      tables through their window, the allocator of pages, its inverse, the
      pools, and the callers that hold a pool's lock.  Supply: how much free
      memory at the start is enough for a sequence of requests.  Heap,
      HeapInit, HeapAlloc, HeapFree, HeapUse, HeapShare (kernel/memory.c):
      [sys_malloc] and [sys_free] over the page allocator, sequences of calls
      to them, and what others leave of the heap.
    - Thread (thread/thread.c, thread/switch.S, device/timer.c), Sync
      (thread/sync.c), ThreadCreate (thread/thread.c): the scheduler,
      semaphores and locks, the making of threads.  PoolLocks implements with
      them the interface [Pages.PoolLocks] the allocator and the heap are
      proved against.
    - Console (device/console.c), IoQueue (device/ioqueue.c), Keyboard
      (device/keyboard.c): the devices.
    - Syscall (userprog/syscallInit.c, lib/user/syscall.c), PageDir, Process
      (userprog/process.c), UserEntry ([start_process], [intr_exit]): processes.
    - Loader, LoadKernel, LoadBoot (boot/loader.S, boot/mbr.S): from the disk to
      the entry point.  Boot (kernel/init.c), PowerOn, Programs and Main
      (kernel/main.c): [init_all], the same after the loader, the four
      demonstration programs, [main].

    ** What is shown

    - Memory.  An invariant ties pools, bitmaps and page tables together
      ([PageAlloc]); [malloc_page] maps a first-fit run of fresh addresses to
      distinct free frames, says exactly when it panics or fails, and succeeds
      when there is room; freeing undoes it.  [sys_malloc] and [sys_free] keep
      the heap in order, serve every request a block that meets no other and
      give back what is free; a pair of them is the identity on what is held,
      and over any sequence of requests what is held never overlaps.
      [mem_pool_init] lays pools and bitmaps out without overlap.  Where an
      operation may stop the machine for lack of memory, its theorem names what
      is lacking in the state it starts from ([malloc_panics], [supply]), so
      that with that much memory it does not stop.
    - Threads.  [schedule] runs the head of the ready queue and every ready
      thread gets its turn within one round; a lock is handed over in order, is
      re-entrant, and its owner's acquisition fails only by waiting; a new
      thread enters its function with its argument.
    - Devices.  The ring buffer refines a bounded queue, the keyboard handler a
      transducer from key events to characters (typing a text and reading it
      yields the text), [put_char] a terminal of 25 lines.
    - Processes.  A new address space has the kernel's part and nothing else, a
      process is entered in ring 3 on a mapped stack, system calls through
      [int 0x80] equal direct calls, an interrupt returns to what it
      interrupted.
    - Start-up.  The loader reaches the kernel with its file in place and tables
      as [mem_init] needs them, provided the memory the tables lie in was zero;
      the headers of the file are those a linker makes, with segments from
      0xc0001000.  [init_all] establishes the invariants of every component,
      the names of the exceptions and both interrupt controllers included (by a
      model of the 8259A from its data sheet), with 2 MB to about 343 MB of
      memory: with more the allocator's bitmaps run into the main thread's
      page.  From 2.5 MB on [main] leaves two threads and two processes ready
      to run, and their programs terminate up to their last loops.

    ** Loops and fuel

    Counted loops are [for_loop] or recursion on the count.  String loops get
    one more unit than memory has bytes, enough since every round reads a
    mapped byte at the next address; [itoa] gets 33 for at most 32 digits.
    Lock and semaphore loops take the number of times a thread may look: one
    suffices when the lock is free, and the theorems about waiting hold for any
    positive number.  The delay loops of the programs take their counter, the
    polling of the drive more than the drive's latency.  No theorem has a result
    that running out of fuel satisfies.

    ** What is not modelled

    The messages of [init_all] and its parts.  In the loader the BIOS calls
    (the memory map is their result), A20, CR0.PE and the stack.  The TLB and
    caches; [invlpg] is a no-op.  The memory of different components is not one
    array: the pages behind the heap are known by their mappings, headers and
    list nodes, a task by its fields and the words of its stack, a bitmap by its
    bytes.  That the bitmaps meet nothing else where they lie is stated of their
    addresses ([PageInit.bitmaps_between]).  The registers and the stack pointer
    [switch_to] saves for the thread it leaves are the continuation of
    [Switched], not words in memory.  Access to
    machine words is aligned, and [memset] of a fresh page clears words.  The
    heap is what the running thread sees: descriptors of other address spaces
    stay out of its state.  Where a theorem says [undisturbed], interrupts in
    the windows of the lock operations are not considered; the lock and
    scheduler theorems themselves do.  Drivers and chips beyond the registers
    the code uses are not modelled.  debug.h is taken without NDEBUG, as the
    makefile builds it. *)
From Stdlib Require Ascii String.
From Stdlib Require Import ZArith Lia Zbitwise.
From stdpp Require Import base numbers list gmap fin_maps.

#[global] Open Scope Z_scope.
#[global] Set Default Goal Selector "!".

(** ** Machine integers

    A [w]-bit C integer is a [Z]; every arithmetic operation that can wrap is
    followed by the conversion of its C type. *)
Definition u8 (z : Z) : Z := z mod 0x100.
Definition u16 (z : Z) : Z := z mod 0x10000.
Definition u32 (z : Z) : Z := z mod 0x100000000.
Definition u64 (z : Z) : Z := z mod 0x10000000000000000.
Definition s8 (z : Z) : Z := (z + 0x80) mod 0x100 - 0x80.
Definition s16 (z : Z) : Z := (z + 0x8000) mod 0x10000 - 0x8000.
Definition s32 (z : Z) : Z := (z + 0x80000000) mod 0x100000000 - 0x80000000.

(** The ranges the types denote. *)
Definition is_u8 (z : Z) : Prop := 0 <= z < 0x100.
Definition is_u16 (z : Z) : Prop := 0 <= z < 0x10000.
Definition is_u32 (z : Z) : Prop := 0 <= z < 0x100000000.

Lemma u8_range z : is_u8 (u8 z).
Proof. unfold is_u8, u8. apply Z.mod_pos_bound. lia. Qed.

Lemma u16_range z : is_u16 (u16 z).
Proof. unfold is_u16, u16. apply Z.mod_pos_bound. lia. Qed.

Lemma u32_range z : is_u32 (u32 z).
Proof. unfold is_u32, u32. apply Z.mod_pos_bound. lia. Qed.

Lemma u8_id z : is_u8 z -> u8 z = z.
Proof. apply Z.mod_small. Qed.

Lemma u16_id z : is_u16 z -> u16 z = z.
Proof. apply Z.mod_small. Qed.

Lemma u32_id z : is_u32 z -> u32 z = z.
Proof. apply Z.mod_small. Qed.

Lemma s32_id z : - 0x80000000 <= z < 0x80000000 -> s32 z = z.
Proof. intros ?. unfold s32. rewrite Z.mod_small; lia. Qed.

(** *** Bits *)
Lemma land_pow2_eqb y n : 0 <= n -> (Z.land y (2 ^ n) =? 0) = negb (Z.testbit y n).
Proof.
  intros Hn. apply eq_true_iff_eq. rewrite Z.eqb_eq, negb_true_iff. split; intros H.
  - assert (Z.testbit (Z.land y (2 ^ n)) n = false) as E by (rewrite H; apply Z.bits_0).
    by rewrite Z.land_spec, Z.pow2_bits_true, andb_true_r in E by lia.
  - apply Z.bits_inj_iff'. intros k Hk.
    rewrite Z.land_spec, Z.bits_0, Z.pow2_bits_eqb by lia.
    destruct (Z.eqb_spec n k) as [<-|]; [by rewrite H | apply andb_false_r].
Qed.

Lemma testbit_lor_pow2 y n k :
  0 <= n -> Z.testbit (Z.lor y (2 ^ n)) k = (n =? k) || Z.testbit y k.
Proof. intros Hn. rewrite Z.lor_spec, Z.pow2_bits_eqb by lia. apply orb_comm. Qed.

Lemma testbit_land_lnot_pow2 y n k :
  0 <= n -> 0 <= k ->
  Z.testbit (Z.land y (Z.lnot (2 ^ n))) k = negb (n =? k) && Z.testbit y k.
Proof.
  intros Hn Hk. rewrite Z.land_spec, Z.lnot_spec, Z.pow2_bits_eqb by lia. apply andb_comm.
Qed.

(** A [w]-bit value is below [2^w] exactly when no bit from [w] on is set. *)
Lemma testbit_high y w k : 0 <= y < 2 ^ w -> 0 <= w <= k -> Z.testbit y k = false.
Proof.
  intros Hy Hk. rewrite <- (Z.mod_small y (2 ^ w)) by done.
  apply Z.mod_pow2_bits_high. lia.
Qed.

Lemma below_pow2 y w :
  0 <= w -> 0 <= y -> (forall k, w <= k -> Z.testbit y k = false) -> y < 2 ^ w.
Proof.
  intros Hw Hy H. assert (y = y mod 2 ^ w) as ->.
  { apply Z.bits_inj_iff'. intros k Hk. rewrite Z.testbit_mod_pow2 by lia.
    destruct (Z.ltb_spec k w); [done | by rewrite H by lia]. }
  apply Z.mod_pos_bound. lia.
Qed.

(** ** Outcomes

    A C function returns ([Ok]).  Inside [schedule] it may hand the processor
    to another thread ([Switched s k]: [s] is the state at the switch and [k]
    the rest of the call, which runs from the state of the moment when the
    thread is chosen again).  Between two statements an interrupt may arrive
    ([Window s k]: if the interrupt flag of [s] is set the timer handler may
    run before the rest [k]; only code that can run with interrupts on has
    windows).  Or the function never returns because [ASSERT]/[PANIC] reached
    [panic_spin] ([Panic]: interrupts off, message, [while(1)]), or because it
    performs an access the language gives no meaning to ([Fault]: a load or
    store outside the objects the model knows).  [NoFuel] is the artefact of a
    fuelled loop; every theorem about a loop shows it does not occur. *)
Inductive outcome (R St : Type) : Type :=
| Ok (r : R * St)
| Switched (s : St) (k : St -> outcome R St)
| Window (s : St) (k : St -> outcome R St)
| Panic
| Fault
| NoFuel.
Arguments Ok {R St} r.
Arguments Switched {R St} s k.
Arguments Window {R St} s k.
Arguments Panic {R St}.
Arguments Fault {R St}.
Arguments NoFuel {R St}.

(** ** The state and error monad of the development *)
Definition M (St A : Type) : Type := St -> outcome A St.

Fixpoint outcome_bind {St A B} (o : outcome A St) (k : A -> M St B) : outcome B St :=
  match o with
  | Ok (a, s) => k a s
  | Switched s r => Switched s (fun s' => outcome_bind (r s') k)
  | Window s r => Window s (fun s' => outcome_bind (r s') k)
  | Panic => Panic
  | Fault => Fault
  | NoFuel => NoFuel
  end.

#[export] Instance M_ret St : MRet (M St) := fun A a s => Ok (a, s).

#[export] Instance M_bind St : MBind (M St) := fun A B k m s => outcome_bind (m s) k.

Declare Scope goos_scope.
Delimit Scope goos_scope with goos.
Notation "m ;;; k" := (mbind (fun _ => k) m)
  (at level 100, right associativity) : goos_scope.
#[global] Open Scope goos_scope.

Section Primitives.
Context {St : Type}.

Definition get : M St St := fun s => Ok (s, s).
Definition gets {A} (f : St -> A) : M St A := fun s => Ok (f s, s).
Definition modify (f : St -> St) : M St unit := fun s => Ok (tt, f s).
Definition fault {A} : M St A := fun _ => Fault.
Definition nofuel {A} : M St A := fun _ => NoFuel.
(** [PANIC(...)]: panic_spin never returns. *)
Definition PANIC {A} : M St A := fun _ => Panic.
(** [ASSERT(c)] without NDEBUG, as the makefile builds it. *)
Definition ASSERT (c : bool) : M St unit := if c then mret tt else PANIC.
(** A partial read: a dangling access is a fault. *)
Definition from_option_M {A} (o : option A) : M St A :=
  match o with Some a => mret a | None => fault end.
(** A conditional statement without [else]. *)
Definition when (c : bool) (m : M St unit) : M St unit := if c then m else mret tt.
End Primitives.

(** ** Total weakest preconditions

    [wp m s Q]: run from [s], [m] returns (no switch, no panic, no fault, fuel
    enough) and the result and final state satisfy [Q]. *)
Definition wp {St A} (m : M St A) (s : St) (Q : A -> St -> Prop) : Prop :=
  match m s with Ok (a, s') => Q a s' | _ => False end.

Section WP.
Context {St : Type}.
Implicit Types s : St.

Lemma wp_ret {A} (a : A) s (Q : A -> St -> Prop) : Q a s -> wp (mret a) s Q.
Proof. done. Qed.

Lemma wp_bind {A B} (m : M St A) (k : A -> M St B) s (Q : B -> St -> Prop) :
  wp m s (fun a s' => wp (k a) s' Q) -> wp (m ≫= k) s Q.
Proof.
  unfold wp, mbind, M_bind. destruct (m s) as [[a s']|s' r|s' r| | |]; auto.
Qed.

Lemma wp_bind_inv {A B} (m : M St A) (k : A -> M St B) s (Q : B -> St -> Prop) :
  wp (m ≫= k) s Q -> wp m s (fun a s' => wp (k a) s' Q).
Proof.
  unfold wp, mbind, M_bind. destruct (m s) as [[a s']|s' r|s' r| | |]; auto.
Qed.

Lemma wp_mono {A} (m : M St A) s (Q R : A -> St -> Prop) :
  wp m s Q -> (forall a s', Q a s' -> R a s') -> wp m s R.
Proof.
  unfold wp. intros H HQR. destruct (m s) as [[a s']|s' r|s' r| | |]; eauto.
Qed.

Lemma wp_ok {A} (m : M St A) s a s' (Q : A -> St -> Prop) :
  m s = Ok (a, s') -> Q a s' -> wp m s Q.
Proof. unfold wp. by intros ->. Qed.

Lemma wp_ok_inv {A} (m : M St A) s (Q : A -> St -> Prop) :
  wp m s Q -> exists a s', m s = Ok (a, s') /\ Q a s'.
Proof. unfold wp. destruct (m s) as [[a s']|s' r|s' r| | |]; naive_solver. Qed.

Lemma wp_get s (Q : St -> St -> Prop) : Q s s -> wp get s Q.
Proof. done. Qed.

Lemma wp_gets {A} (f : St -> A) s (Q : A -> St -> Prop) : Q (f s) s -> wp (gets f) s Q.
Proof. done. Qed.

Lemma wp_modify (f : St -> St) s (Q : unit -> St -> Prop) : Q tt (f s) -> wp (modify f) s Q.
Proof. done. Qed.

Lemma wp_ASSERT c s (Q : unit -> St -> Prop) : c = true -> Q tt s -> wp (ASSERT c) s Q.
Proof. by intros ->. Qed.

Lemma wp_from_option {A} (o : option A) a s (Q : A -> St -> Prop) :
  o = Some a -> Q a s -> wp (from_option_M o) s Q.
Proof. by intros ->. Qed.

Lemma wp_if {A} (c : bool) (m1 m2 : M St A) s (Q : A -> St -> Prop) :
  (c = true -> wp m1 s Q) -> (c = false -> wp m2 s Q) -> wp (if c then m1 else m2) s Q.
Proof. destruct c; auto. Qed.

Lemma wp_when c (m : M St unit) s (Q : unit -> St -> Prop) :
  (c = true -> wp m s Q) -> (c = false -> Q tt s) -> wp (when c m) s Q.
Proof. destruct c; [auto | intros _ HQ; exact (HQ eq_refl)]. Qed.

Lemma bind_ok {A B} (m : M St A) (k : A -> M St B) s a s' :
  m s = Ok (a, s') -> (m ≫= k) s = k a s'.
Proof. unfold mbind, M_bind. by intros ->. Qed.

Lemma bind_panic {A B} (m : M St A) (k : A -> M St B) s :
  m s = Panic -> (m ≫= k) s = Panic.
Proof. unfold mbind, M_bind. by intros ->. Qed.

Lemma bind_fault {A B} (m : M St A) (k : A -> M St B) s :
  m s = Fault -> (m ≫= k) s = Fault.
Proof. unfold mbind, M_bind. by intros ->. Qed.

Lemma bind_switched {A B} (m : M St A) (k : A -> M St B) s s' r :
  m s = Switched s' r -> (m ≫= k) s = Switched s' (fun s'' => outcome_bind (r s'') k).
Proof. unfold mbind, M_bind. by intros ->. Qed.
End WP.

(** [wpp m s Q P]: as [wp], but [m] may also stop in a panic, and then [P]
    holds: the condition under which the code panics. *)
Definition wpp {St A} (m : M St A) (s : St) (Q : A -> St -> Prop) (P : Prop) : Prop :=
  match m s with Ok (a, s') => Q a s' | Panic => P | _ => False end.

Section WPP.
Context {St : Type}.
Implicit Types (s : St) (P : Prop).

Lemma wpp_wp {A} (m : M St A) s (Q : A -> St -> Prop) P : wp m s Q -> wpp m s Q P.
Proof. unfold wp, wpp. destruct (m s) as [[a s']|s' r|s' r| | |]; naive_solver. Qed.

Lemma wp_wpp {A} (m : M St A) s (Q : A -> St -> Prop) P : wpp m s Q P -> ~ P -> wp m s Q.
Proof. unfold wp, wpp. destruct (m s) as [[a s']|s' r|s' r| | |]; naive_solver. Qed.

Lemma wpp_bind {A B} (m : M St A) (k : A -> M St B) s (Q : B -> St -> Prop) P :
  wpp m s (fun a s' => wpp (k a) s' Q P) P -> wpp (m ≫= k) s Q P.
Proof. unfold wpp, mbind, M_bind. destruct (m s) as [[a s']|s' r|s' r| | |]; auto. Qed.

Lemma wpp_bind_inv {A B} (m : M St A) (k : A -> M St B) s (Q : B -> St -> Prop) P :
  wpp (m ≫= k) s Q P -> wpp m s (fun a s' => wpp (k a) s' Q P) P.
Proof. unfold wpp, mbind, M_bind. destruct (m s) as [[a s']|s' r|s' r| | |]; auto. Qed.

Lemma wpp_mono {A} (m : M St A) s (Q R : A -> St -> Prop) P P' :
  wpp m s Q P -> (forall a s', Q a s' -> R a s') -> (P -> P') -> wpp m s R P'.
Proof. unfold wpp. intros H HQR HP. destruct (m s) as [[a s']|s' r|s' r| | |]; eauto. Qed.

Lemma wpp_ret {A} (a : A) s (Q : A -> St -> Prop) P : Q a s -> wpp (mret a) s Q P.
Proof. done. Qed.

Lemma wpp_ASSERT c s (Q : unit -> St -> Prop) P :
  (c = true -> Q tt s) -> (c = false -> P) -> wpp (ASSERT c) s Q P.
Proof. destruct c; cbv; auto. Qed.

Lemma wpp_outcome {A} (m : M St A) s (Q : A -> St -> Prop) P :
  wpp m s Q P -> (exists a s', m s = Ok (a, s') /\ Q a s') \/ (m s = Panic /\ P).
Proof. unfold wpp. destruct (m s) as [[a s']|s' r|s' r| | |]; naive_solver. Qed.
End WPP.

(** Outcomes that agree at every point where others may run. *)
Inductive outcome_equiv {R St : Type} : outcome R St -> outcome R St -> Prop :=
| oe_refl o : outcome_equiv o o
| oe_switched s k k' : (forall s', outcome_equiv (k s') (k' s')) -> outcome_equiv (Switched s k) (Switched s k')
| oe_window s k k' : (forall s', outcome_equiv (k s') (k' s')) -> outcome_equiv (Window s k) (Window s k').
#[export] Hint Constructors outcome_equiv : core.

#[export] Instance outcome_equiv_equivalence R St : Equivalence (@outcome_equiv R St).
Proof.
  split.
  - by intros o.
  - induction 1; eauto.
  - intros x y z H. revert z. induction H as [o|s k k' Hk IH|s k k' Hk IH]; intros z Hz; [done|..];
      inversion Hz; subst; eauto.
Qed.

Lemma outcome_bind_equiv {St A B} (o o' : outcome A St) (k k' : A -> M St B) :
  outcome_equiv o o' -> (forall a s, outcome_equiv (k a s) (k' a s)) -> outcome_equiv (outcome_bind o k) (outcome_bind o' k').
Proof.
  intros Ho Hk. induction Ho as [o| |]; simpl; eauto.
  induction o as [[a s]| | | | |]; simpl; eauto.
Qed.

Lemma bind_assoc_equiv {St A B C} (m : M St A) (k : A -> M St B) (h : B -> M St C) s :
  outcome_equiv ((x ← (y ← m; k y); h x) s) ((y ← m; x ← k y; h x) s).
Proof.
  unfold mbind, M_bind. induction (m s) as [[a s']| | | | |]; simpl; eauto.
Qed.

(** [wpk m s Q R]: as [wp], for code that may hand the processor over; [R]
    then holds of the state at the switch and the rest of the call.  No
    interrupt is taken at the windows. *)
Fixpoint wpk_out {St A} (o : outcome A St) (Q : A -> St -> Prop)
    (R : St -> (St -> outcome A St) -> Prop) : Prop :=
  match o with
  | Ok (a, s) => Q a s
  | Switched s k => R s k
  | Window s k => wpk_out (k s) Q R
  | _ => False
  end.

Definition wpk {St A} (m : M St A) (s : St) (Q : A -> St -> Prop)
    (R : St -> (St -> outcome A St) -> Prop) : Prop := wpk_out (m s) Q R.

(** The outcome when no interrupt arrives in the windows. *)
Fixpoint undisturbed {St A} (o : outcome A St) : outcome A St :=
  match o with
  | Window s k => undisturbed (k s)
  | o => o
  end.

Section WPK.
Context {St : Type}.
Implicit Types s : St.

Lemma wpk_wp {A} (m : M St A) s Q R : wp m s Q -> wpk m s Q R.
Proof. unfold wp, wpk. by destruct (m s) as [[a s']|s' r|s' r| | |]. Qed.

Lemma wpk_ret {A} (a : A) s Q R : Q a s -> wpk (mret a) s Q R.
Proof. done. Qed.

Lemma wpk_out_bind {A B} (o : outcome A St) (k : A -> M St B) Q R :
  wpk_out o (fun a s' => wpk (k a) s' Q R) (fun s' r => R s' (fun s'' => outcome_bind (r s'') k)) ->
  wpk_out (outcome_bind o k) Q R.
Proof.
  induction o as [[a s]|s r IH|s r IH| | |]; simpl; try done. apply IH.
Qed.

Lemma wpk_bind {A B} (m : M St A) (k : A -> M St B) s Q R :
  wpk m s (fun a s' => wpk (k a) s' Q R) (fun s' r => R s' (fun s'' => outcome_bind (r s'') k)) ->
  wpk (m ≫= k) s Q R.
Proof. apply wpk_out_bind. Qed.

(** A call that does not switch, followed by the rest. *)
Lemma wpk_seq {A B} (m : M St A) (k : A -> M St B) s Q R :
  wp m s (fun a s' => wpk (k a) s' Q R) -> wpk (m ≫= k) s Q R.
Proof. intros H. by apply wpk_bind, wpk_wp. Qed.

Lemma wpk_out_mono {A} (o : outcome A St) Q Q' R R' :
  wpk_out o Q R -> (forall a s', Q a s' -> Q' a s') ->
  (forall s' (r : St -> outcome A St), R s' r -> R' s' r) -> wpk_out o Q' R'.
Proof.
  intros H HQ HR. revert H. induction o as [[a s]|s r IH|s r IH| | |]; simpl; auto.
Qed.

Lemma wpk_mono {A} (m : M St A) s Q Q' R R' :
  wpk m s Q R -> (forall a s', Q a s' -> Q' a s') ->
  (forall s' (r : St -> outcome A St), R s' r -> R' s' r) -> wpk m s Q' R'.
Proof. apply wpk_out_mono. Qed.

Lemma wpk_undisturbed {A} (m : M St A) s Q :
  wpk m s Q (fun _ _ => False) -> exists a s', undisturbed (m s) = Ok (a, s') /\ Q a s'.
Proof.
  unfold wpk. induction (m s) as [[a s1]|s1 r IH|s1 r IH| | |]; simpl; try done; [eauto | apply IH].
Qed.

Lemma wpk_if {A} (c : bool) (m1 m2 : M St A) s Q R :
  (c = true -> wpk m1 s Q R) -> (c = false -> wpk m2 s Q R) -> wpk (if c then m1 else m2) s Q R.
Proof. destruct c; auto. Qed.
End WPK.

(** ** Counting positions *)
Fixpoint count_n (f : Z -> bool) (lo : Z) (n : nat) : Z :=
  match n with
  | O => 0
  | S n' => (if f lo then 1 else 0) + count_n f (lo + 1) n'
  end.

Lemma count_n_nonneg f lo n : 0 <= count_n f lo n.
Proof. revert lo. induction n as [|n IH]; intros lo; simpl; [lia|]. specialize (IH (lo + 1)). destruct (f lo); lia. Qed.

Lemma count_n_le f lo n : count_n f lo n <= Z.of_nat n.
Proof. revert lo. induction n as [|n IH]; intros lo; simpl; [lia|]. specialize (IH (lo + 1)). destruct (f lo); lia. Qed.

Lemma count_n_ext f g lo n :
  (forall i, lo <= i < lo + Z.of_nat n -> f i = g i) -> count_n f lo n = count_n g lo n.
Proof.
  revert lo. induction n as [|n IH]; intros lo H; simpl; [done|].
  rewrite (H lo), (IH (lo + 1)) by (intros; try apply H; lia). done.
Qed.

(** Changing one position from counted to not counted. *)
Lemma count_n_flip f g lo n i :
  lo <= i < lo + Z.of_nat n -> f i = true -> g i = false ->
  (forall j, lo <= j < lo + Z.of_nat n -> j <> i -> f j = g j) ->
  count_n g lo n = count_n f lo n - 1.
Proof.
  intros Hi Hf Hg. revert lo Hi. induction n as [|n IH]; intros lo Hi Hfg; [lia|]. simpl.
  destruct (Z.eq_dec lo i) as [->|Hne].
  - rewrite Hf, Hg, (count_n_ext g f) by (intros; symmetry; apply Hfg; lia). lia.
  - rewrite (IH (lo + 1)) by (intros; try apply Hfg; lia). rewrite (Hfg lo) by lia. lia.
Qed.

Lemma count_n_pos f lo n :
  0 < count_n f lo n -> exists i, lo <= i < lo + Z.of_nat n /\ f i = true.
Proof.
  revert lo. induction n as [|n IH]; intros lo; simpl; [lia|]. destruct (f lo) eqn:E.
  - intros _. exists lo. split; [lia | done].
  - intros H. destruct (IH (lo + 1)) as (i & Hi & Hf); [lia|]. exists i. split; [lia | done].
Qed.

Lemma count_n_all f lo n :
  (forall i, lo <= i < lo + Z.of_nat n -> f i = true) -> count_n f lo n = Z.of_nat n.
Proof.
  revert lo. induction n as [|n IH]; intros lo Hf; simpl; [done|].
  rewrite (Hf lo), IH by (intros; try apply Hf; lia). lia.
Qed.

Lemma count_n_full f lo n i :
  count_n f lo n = Z.of_nat n -> lo <= i < lo + Z.of_nat n -> f i = true.
Proof.
  revert lo. induction n as [|n IH]; intros lo; simpl; [lia|]. intros Hz Hi. pose proof (count_n_le f (lo + 1) n).
  destruct (Z.eq_dec lo i) as [->|Hne].
  - by destruct (f i); [|lia].
  - apply (IH (lo + 1)); [destruct (f lo); lia | lia].
Qed.

Lemma count_n_zero f lo n i :
  count_n f lo n = 0 -> lo <= i < lo + Z.of_nat n -> f i = false.
Proof.
  revert lo. induction n as [|n IH]; intros lo; simpl; [lia|]. intros Hz Hi.
  pose proof (count_n_nonneg f (lo + 1) n). destruct (Z.eq_dec lo i) as [->|Hne].
  - by destruct (f i); [lia|].
  - apply (IH (lo + 1)); [destruct (f lo); lia | lia].
Qed.

(** ** Text: the codes of the characters of a literal *)
Definition code (a : Ascii.ascii) : Z := Z.of_N (Ascii.N_of_ascii a).
Definition codes (s : String.string) : list Z := code <$> String.list_ascii_of_string s.

(** ** Arrays

    A C array is a list; an index outside it is a fault, never a default. *)
Definition array_get {A} (l : list A) (i : Z) : option A :=
  if 0 <=? i then l !! Z.to_nat i else None.

Definition array_set {A} (l : list A) (i : Z) (x : A) : option (list A) :=
  if (0 <=? i) && (i <? Z.of_nat (length l)) then Some (<[Z.to_nat i := x]> l) else None.

Section Arrays.
Context {A : Type}.
Implicit Types l : list A.

Lemma array_get_is_Some l i : 0 <= i < Z.of_nat (length l) -> is_Some (array_get l i).
Proof.
  intros Hi. unfold array_get. destruct (Z.leb_spec 0 i); [|lia].
  apply lookup_lt_is_Some. lia.
Qed.

Lemma array_get_Some_range l i x : array_get l i = Some x -> 0 <= i < Z.of_nat (length l).
Proof.
  unfold array_get. destruct (Z.leb_spec 0 i); [|done].
  intros ?%lookup_lt_Some. lia.
Qed.

Lemma array_set_eq l i x :
  0 <= i < Z.of_nat (length l) -> array_set l i x = Some (<[Z.to_nat i := x]> l).
Proof.
  intros Hi. unfold array_set. destruct (Z.leb_spec 0 i); [|lia].
  by destruct (Z.ltb_spec i (Z.of_nat (length l))); [|lia].
Qed.

Lemma array_set_Some l i x l' :
  array_set l i x = Some l' ->
  0 <= i < Z.of_nat (length l) /\ l' = <[Z.to_nat i := x]> l.
Proof.
  unfold array_set. destruct ((0 <=? i) && (i <? Z.of_nat (length l))) eqn:E; [|done].
  apply andb_true_iff in E as [?%Z.leb_le ?%Z.ltb_lt]. by intros [= <-].
Qed.

Lemma array_get_insert l i j x :
  0 <= i < Z.of_nat (length l) ->
  array_get (<[Z.to_nat i := x]> l) j = if i =? j then Some x else array_get l j.
Proof.
  intros Hi. unfold array_get. destruct (Z.leb_spec 0 j).
  - destruct (Z.eqb_spec i j) as [<-|Hne].
    + apply list_lookup_insert_eq. lia.
    + rewrite list_lookup_insert_ne by lia. done.
  - by destruct (Z.eqb_spec i j); [lia|].
Qed.
End Arrays.

(** ** Counted loops: [for (i = from; i < from + n; i++) body] *)
Fixpoint for_loop {St} (n : nat) (i : Z) (body : Z -> M St unit) : M St unit :=
  match n with
  | O => mret tt
  | S n' => body i ;;; for_loop n' (i + 1) body
  end.

Lemma wp_for_loop {St} (n : nat) (from : Z) (body : Z -> M St unit) (s : St)
    (I : Z -> St -> Prop) (Q : unit -> St -> Prop) :
  I from s ->
  (forall i s', from <= i < from + Z.of_nat n -> I i s' -> wp (body i) s' (fun _ s'' => I (i + 1) s'')) ->
  (forall s', I (from + Z.of_nat n) s' -> Q tt s') ->
  wp (for_loop n from body) s Q.
Proof.
  revert from s. induction n as [|n IH]; intros from s Hs Hb HQ; simpl.
  - apply HQ. by replace (from + Z.of_nat 0) with from by lia.
  - apply wp_bind. eapply wp_mono; [apply Hb; [lia | done] |].
    intros [] s' Hs'. apply IH; [done | |].
    + intros i s'' Hi. apply Hb. lia.
    + intros s''. replace (from + 1 + Z.of_nat n) with (from + Z.of_nat (S n)) by lia. apply HQ.
Qed.

(** ** Components inside a larger state

    An operation of a component runs on the component's own state; a client
    runs it on its field through a lens, so that the rest of the client's
    state is untouched by construction. *)
Record lens (St A : Type) := {
  view : St -> A;
  put : A -> St -> St;
  view_put : forall a s, view (put a s) = a;
  put_view : forall s, put (view s) s = s;
  put_put : forall a b s, put a (put b s) = put a s;
}.
Arguments view {St A} _ _.
Arguments put {St A} _ _ _.
Arguments view_put {St A} _ _ _.
Arguments put_view {St A} _ _.
Arguments put_put {St A} _ _ _ _.

Definition lens_comp {St A B} (l : lens St A) (k : lens A B) : lens St B.
Proof.
  refine {| view := fun s => view k (view l s);
            put := fun b s => put l (put k b (view l s)) s |}.
  - intros a s. by rewrite (view_put l), (view_put k).
  - intros s. by rewrite (put_view k), (put_view l).
  - intros a b s. by rewrite (view_put l), (put_put k), (put_put l).
Defined.

Fixpoint zoom_outcome {St A B} (l : lens St A) (o : outcome B A) (s : St) : outcome B St :=
  match o with
  | Ok (b, a) => Ok (b, put l a s)
  | Switched a k => Switched (put l a s) (fun s' => zoom_outcome l (k (view l s')) s')
  | Window a k => Window (put l a s) (fun s' => zoom_outcome l (k (view l s')) s')
  | Panic => Panic
  | Fault => Fault
  | NoFuel => NoFuel
  end.

Definition zoom {St A B} (l : lens St A) (m : M A B) : M St B :=
  fun s => zoom_outcome l (m (view l s)) s.

Lemma wp_zoom {St A B} (l : lens St A) (m : M A B) s (Q : B -> St -> Prop) :
  wp m (view l s) (fun b a => Q b (put l a s)) -> wp (zoom l m) s Q.
Proof. unfold wp, zoom. by destruct (m (view l s)) as [[b a]|a r|a r| | |]. Qed.

Lemma zoom_ok {St A B} (l : lens St A) (m : M A B) s b a :
  m (view l s) = Ok (b, a) -> zoom l m s = Ok (b, put l a s).
Proof. unfold zoom. by intros ->. Qed.

Lemma zoom_switched {St A B} (l : lens St A) (m : M A B) s a k :
  m (view l s) = Switched a k -> zoom l m s = Switched (put l a s) (fun s' => zoom_outcome l (k (view l s')) s').
Proof. unfold zoom. by intros ->. Qed.

Lemma wpp_zoom {St A B} (l : lens St A) (m : M A B) s (Q : B -> St -> Prop) (P : Prop) :
  wpp m (view l s) (fun b a => Q b (put l a s)) P -> wpp (zoom l m) s Q P.
Proof. unfold wpp, zoom. by destruct (m (view l s)) as [[b a]|a r|a r| | |]. Qed.

Lemma wp_zoom_bind {St A B C} (l : lens St A) (m : M A B) (k : B -> M A C) s (Q : C -> St -> Prop) :
  wp (zoom l (m ≫= k)) s Q -> wp (zoom l m) s (fun b s' => wp (zoom l (k b)) s' Q).
Proof.
  unfold wp, zoom, mbind, M_bind. destruct (m (view l s)) as [[b a]|a r|a r| | |]; simpl; try done.
  rewrite (view_put l). destruct (k b a) as [[c a']|a' r|a' r| | |]; simpl; try done.
  by rewrite (put_put l).
Qed.

Definition id_lens {A} : lens A A.
Proof. by refine {| view := fun s => s; put := fun a _ => a |}. Defined.

Definition fst_lens {A B} : lens (A * B) A.
Proof. by refine {| view := fst; put := fun a s => (a, snd s) |}; intros; try destruct s. Defined.

Definition snd_lens {A B} : lens (A * B) B.
Proof. by refine {| view := snd; put := fun b s => (fst s, b) |}; intros; try destruct s. Defined.

(** [wpu m s Q P]: as [wpp], for code that has windows, when no interrupt
    arrives in them. *)
Definition wpu {St A} (m : M St A) (s : St) (Q : A -> St -> Prop) (P : Prop) : Prop :=
  match undisturbed (m s) with Ok (a, s') => Q a s' | Panic => P | _ => False end.

Section WPU.
Context {St : Type}.
Implicit Types (s : St) (P : Prop).

Lemma wpu_wpp {A} (m : M St A) s (Q : A -> St -> Prop) P : wpp m s Q P -> wpu m s Q P.
Proof. unfold wpp, wpu. by destruct (m s) as [[a s']|s' r|s' r| | |]. Qed.

Lemma wpu_bind {A B} (m : M St A) (k : A -> M St B) s (Q : B -> St -> Prop) P :
  wpu m s (fun a s' => wpu (k a) s' Q P) P -> wpu (m ≫= k) s Q P.
Proof.
  unfold wpu, mbind, M_bind. induction (m s) as [[a s']|s' r|s' r IH| | |]; simpl; try done. apply IH.
Qed.

Lemma wpu_mono {A} (m : M St A) s (Q R : A -> St -> Prop) P P' :
  wpu m s Q P -> (forall a s', Q a s' -> R a s') -> (P -> P') -> wpu m s R P'.
Proof. unfold wpu. intros H HQR HP. destruct (undisturbed (m s)) as [[a s']|s' r|s' r| | |]; eauto. Qed.

Lemma wpu_eq {A} (m : M St A) s a s' (Q : A -> St -> Prop) P :
  undisturbed (m s) = Ok (a, s') -> Q a s' -> wpu m s Q P.
Proof. unfold wpu. by intros ->. Qed.

Lemma undisturbed_bind {A B} (m : M St A) (k : A -> M St B) s a s' :
  undisturbed (m s) = Ok (a, s') -> undisturbed ((m ≫= k) s) = undisturbed (k a s').
Proof.
  unfold mbind, M_bind. induction (m s) as [[b s1]|s1 r|s1 r IH| | |]; simpl; try done; [|apply IH].
  by intros [= -> ->].
Qed.

Lemma undisturbed_switched {A B} (m : M St A) (k : A -> M St B) s s' r :
  undisturbed (m s) = Switched s' r ->
  undisturbed ((m ≫= k) s) = Switched s' (fun s'' => outcome_bind (r s'') k).
Proof.
  unfold mbind, M_bind. induction (m s) as [[b s1]|s1 r1|s1 r1 IH| | |]; simpl; try done; [|apply IH].
  by intros [= -> ->].
Qed.

Lemma wpu_ret {A} (a : A) s (Q : A -> St -> Prop) P : Q a s -> wpu (mret a) s Q P.
Proof. done. Qed.

Lemma wpu_wp {A} (m : M St A) s (Q : A -> St -> Prop) P : wp m s Q -> wpu m s Q P.
Proof. intros H. by apply wpu_wpp, wpp_wp. Qed.

Lemma wpu_ASSERT c s (Q : unit -> St -> Prop) P :
  (c = true -> Q tt s) -> (c = false -> P) -> wpu (ASSERT c) s Q P.
Proof. destruct c; cbv; auto. Qed.

Lemma wpu_if {A} (c : bool) (m1 m2 : M St A) s (Q : A -> St -> Prop) P :
  (c = true -> wpu m1 s Q P) -> (c = false -> wpu m2 s Q P) -> wpu (if c then m1 else m2) s Q P.
Proof. destruct c; auto. Qed.

Lemma wpu_outcome {A} (m : M St A) s (Q : A -> St -> Prop) P :
  wpu m s Q P -> (exists a s', undisturbed (m s) = Ok (a, s') /\ Q a s') \/ (undisturbed (m s) = Panic /\ P).
Proof. unfold wpu. destruct (undisturbed (m s)) as [[a s']|s' r|s' r| | |]; naive_solver. Qed.
End WPU.

Lemma wpu_zoom {St A B} (l : lens St A) (m : M A B) s (Q : B -> St -> Prop) (P : Prop) :
  wpu m (view l s) (fun b a => Q b (put l a s)) P -> wpu (zoom l m) s Q P.
Proof.
  unfold wpu, zoom. generalize (m (view l s)). intros o. revert s.
  induction o as [[b a]|a r IH|a r IH| | |]; simpl; intros s; try done.
  rewrite <- (view_put l a s) at 1. intros H. rewrite view_put in H. rewrite view_put. apply IH.
  destruct (undisturbed (r a)) as [[b a']|? ?|? ?| | |]; try done. by rewrite (put_put l).
Qed.

Lemma undisturbed_zoom {St A B} (l : lens St A) (m : M A B) s b a :
  undisturbed (m (view l s)) = Ok (b, a) -> undisturbed (zoom l m s) = Ok (b, put l a s).
Proof.
  intros E. assert (wpu (zoom l m) s (fun b' s' => b' = b /\ s' = put l a s) False) as H.
  { apply wpu_zoom. by eapply wpu_eq. }
  unfold wpu in H. destruct (undisturbed (zoom l m s)) as [[b' s']|? ?|? ?| | |]; try done.
  by destruct H as [-> ->].
Qed.

(** ** Automation *)
Create HintDb goos discriminated.
#[export] Hint Resolve u8_range u16_range u32_range : goos.

(** One symbolic step of a weakest precondition. *)
Ltac wp_step :=
  lazymatch goal with
  | |- wp (mbind _ _) _ _ => apply wp_bind
  | |- wp (mret _) _ _ => apply wp_ret
  | |- wp get _ _ => apply wp_get
  | |- wp (gets _) _ _ => apply wp_gets
  | |- wp (modify _) _ _ => apply wp_modify
  | |- wp (zoom _ _) _ _ => apply wp_zoom
  | |- wp (when _ _) _ _ => apply wp_when; intros ?
  | |- wp (if _ then _ else _) _ _ => apply wp_if; intros ?
  end.

Ltac wp_steps := repeat (wp_step; cbn beta).

(** Turns boolean comparisons into arithmetic. *)
Ltac b2p :=
  repeat match goal with
  | H : (_ && _)%bool = true |- _ => apply andb_true_iff in H; destruct H
  | H : (_ || _)%bool = false |- _ => apply orb_false_iff in H; destruct H
  | H : (_ =? _) = true |- _ => apply Z.eqb_eq in H
  | H : (_ =? _) = false |- _ => apply Z.eqb_neq in H
  | H : (_ <? _) = true |- _ => apply Z.ltb_lt in H
  | H : (_ <? _) = false |- _ => apply Z.ltb_ge in H
  | H : (_ <=? _) = true |- _ => apply Z.leb_le in H
  | H : (_ <=? _) = false |- _ => apply Z.leb_gt in H
  | H : negb _ = true |- _ => apply negb_true_iff in H
  | H : negb _ = false |- _ => apply negb_false_iff in H
  | H : bool_decide _ = true |- _ => apply bool_decide_eq_true in H
  | H : bool_decide _ = false |- _ => apply bool_decide_eq_false in H
  end.

(** Evaluates lookups in a map of updates, the keys' inequalities being
    hypotheses or linear arithmetic; unlike [simplify_map_eq] it substitutes
    nothing. *)
Ltac map_lookup :=
  repeat first [ rewrite lookup_insert_eq
               | rewrite lookup_insert_ne by first [assumption | apply not_eq_sym; assumption | lia] ].
