(* ===== verification/Globals.v ===== *)
(** * Constants: kernel/global.h, lib/stdint.h

    The named constants of the kernel, each under the name the header gives
    it. *)
From Stdlib Require Import ZArith.
From S2P Require Import Prelude.

(** ** lib/stdint.h *)
Definition NULL : Z := 0.
Definition C_true : Z := 1.
Definition C_false : Z := 0.

(** ** Segment descriptor attributes *)
Definition DESC_G_4K : Z := 1.
Definition DESC_D_32 : Z := 1.
Definition DESC_L : Z := 0.
Definition DESC_AVL : Z := 0.
Definition DESC_P : Z := 1.
Definition DESC_DPL_0 : Z := 0.
Definition DESC_DPL_3 : Z := 3.
Definition DESC_S_CODE : Z := 1.
Definition DESC_S_DATA : Z := DESC_S_CODE.
Definition DESC_S_SYS : Z := 0.
Definition DESC_TYPE_CODE : Z := 8.
Definition DESC_TYPE_DATA : Z := 2.
Definition DESC_TYPE_TSS : Z := 9.

(** ** Selectors *)
Definition RPL0 : Z := 0.
Definition RPL3 : Z := 3.
Definition TI_GDT : Z := 0.
Definition SELECTOR_K_CODE : Z := Z.shiftl 1 3 + Z.shiftl TI_GDT 2 + RPL0.
Definition SELECTOR_K_DATA : Z := Z.shiftl 2 3 + Z.shiftl TI_GDT 2 + RPL0.
Definition SELECTOR_K_STACK : Z := SELECTOR_K_DATA.
Definition SELECTOR_K_GS : Z := Z.shiftl 3 3 + Z.shiftl TI_GDT 2 + RPL0.
Definition SELECTOR_U_CODE : Z := Z.shiftl 5 3 + Z.shiftl TI_GDT 2 + RPL3.
Definition SELECTOR_U_DATA : Z := Z.shiftl 6 3 + Z.shiftl TI_GDT 2 + RPL3.
Definition SELECTOR_U_STACK : Z := SELECTOR_U_DATA.
Definition SELECTOR_TSS : Z := Z.shiftl 4 3 + Z.shiftl TI_GDT 2 + RPL0.

Definition GDT_ATTR_HIGH : Z :=
  Z.shiftl DESC_G_4K 7 + Z.shiftl DESC_D_32 6 + Z.shiftl DESC_L 5 + Z.shiftl DESC_AVL 4.
Definition GDT_CODE_ATTR_LOW_DPL3 : Z :=
  Z.shiftl DESC_P 7 + Z.shiftl DESC_DPL_3 5 + Z.shiftl DESC_S_CODE 4 + DESC_TYPE_CODE.
Definition GDT_DATA_ATTR_LOW_DPL3 : Z :=
  Z.shiftl DESC_P 7 + Z.shiftl DESC_DPL_3 5 + Z.shiftl DESC_S_CODE 4 + DESC_TYPE_DATA.
Definition TSS_DESC_D : Z := 0.
Definition TSS_ATTR_HIGH : Z :=
  Z.shiftl DESC_G_4K 7 + Z.shiftl TSS_DESC_D 6 + Z.shiftl DESC_L 5 + Z.shiftl DESC_AVL 4 + 0.
Definition TSS_ATTR_LOW : Z :=
  Z.shiftl DESC_P 7 + Z.shiftl DESC_DPL_0 5 + Z.shiftl DESC_S_SYS 4 + DESC_TYPE_TSS.

(** ** Gate descriptor attributes *)
Definition IDT_DESC_P : Z := 1.
Definition IDT_DESC_DPL0 : Z := 0.
Definition IDT_DESC_DPL3 : Z := 3.
Definition IDT_DESC_32_TYPE : Z := 0xE.
Definition IDT_DESC_ATTR_DPL0 : Z :=
  Z.shiftl IDT_DESC_P 7 + Z.shiftl IDT_DESC_DPL0 5 + IDT_DESC_32_TYPE.
Definition IDT_DESC_ATTR_DPL3 : Z :=
  Z.shiftl IDT_DESC_P 7 + Z.shiftl IDT_DESC_DPL3 5 + IDT_DESC_32_TYPE.

(** ** 8259A ports *)
Definition PIC_M_CTRL : Z := 0x20.
Definition PIC_M_DATA : Z := 0x21.
Definition PIC_S_CTRL : Z := 0xa0.
Definition PIC_S_DATA : Z := 0xa1.

(** ** Memory layout and page attributes *)
Definition PG_SIZE : Z := 4096.
Definition MEM_BITMAP_BASE : Z := 0xc009a000.
Definition K_HEAP_START : Z := 0xc0100000.
Definition PG_P_1 : Z := 1.
Definition PG_P_0 : Z := 0.
Definition PG_RW_R : Z := 0.
Definition PG_RW_W : Z := 2.
Definition PG_US_S : Z := 0.
Definition PG_US_U : Z := 4.

(** ** EFLAGS *)
Definition EFLAGS_MBS : Z := Z.shiftl 1 1.
Definition EFLAGS_IF_1 : Z := Z.shiftl 1 9.
Definition EFLAGS_IF_0 : Z := 0.
Definition EFLAGS_IOPL_3 : Z := Z.shiftl 3 12.
Definition EFLAGS_IOPL_0 : Z := Z.shiftl 0 12.

(** [((X + STEP - 1) / (STEP))] on [uint32_t] operands. *)
Definition DIV_ROUND_UP (X STEP : Z) : Z := u32 (X + STEP - 1) / STEP.
