(* ===== verification/Interrupt.v ===== *)
(** * Interrupts: kernel/interrupt.c, kernel/interrupt.h, kernel/debug.h

    The processor's interrupt flag and the four functions that read and
    change it, the interrupt descriptor table, the handler table and the
    8259A initialisation.  The default handler is in [Messages]. *)
From stdpp Require Import base numbers list strings.
From Stdlib Require Import ZArith Lia.
From S2P Require Import Prelude Globals.

(** ** The interrupt flag *)
Definition EFLAGS_IF : Z := 0x200.

Inductive intr_status := INTR_OFF | INTR_ON.

#[export] Instance intr_status_eq_dec : EqDecision intr_status.
Proof. solve_decision. Defined.

(** The enumerators' values. *)
Definition intr_status_val (st : intr_status) : Z :=
  match st with INTR_OFF => 0 | INTR_ON => 1 end.

(** The state is the EFLAGS register; [sti] and [cli] are the instructions'
    effect on it. *)
Definition sti : M Z unit := modify (fun eflags => Z.lor eflags EFLAGS_IF).
Definition cli : M Z unit := modify (fun eflags => Z.land eflags (Z.lnot EFLAGS_IF)).

Definition get_intr_status : M Z intr_status :=
  gets (fun eflags => if Z.land eflags EFLAGS_IF =? 0 then INTR_OFF else INTR_ON).

Definition intr_enable : M Z intr_status :=
  old_status ← get_intr_status;
  if decide (old_status = INTR_ON) then mret old_status
  else sti ;;; mret old_status.

Definition intr_disable : M Z intr_status :=
  old_status ← get_intr_status;
  if decide (old_status = INTR_ON) then cli ;;; mret old_status
  else mret old_status.

Definition set_intr_status (status : intr_status) : M Z intr_status :=
  if Z.land (intr_status_val status) (intr_status_val INTR_ON) =? 0
  then intr_disable else intr_enable.

(** *** Specification: the flag is bit 9 *)
Definition if_flag (eflags : Z) : bool := Z.testbit eflags 9.

Definition set_if (b : bool) (eflags : Z) : Z :=
  if b then Z.lor eflags EFLAGS_IF else Z.land eflags (Z.lnot EFLAGS_IF).

Arguments set_if : simpl never.

Definition status_of (b : bool) : intr_status := if b then INTR_ON else INTR_OFF.

Lemma land_IF e : (Z.land e EFLAGS_IF =? 0) = negb (if_flag e).
Proof. apply (land_pow2_eqb e 9). lia. Qed.

Lemma if_flag_set_if b e : if_flag (set_if b e) = b.
Proof.
  unfold if_flag, set_if, EFLAGS_IF. change 0x200 with (2 ^ 9). destruct b.
  - by rewrite testbit_lor_pow2.
  - by rewrite testbit_land_lnot_pow2.
Qed.

Lemma set_if_other b e k : 0 <= k -> k <> 9 -> Z.testbit (set_if b e) k = Z.testbit e k.
Proof.
  intros Hk Hne. unfold set_if, EFLAGS_IF. change 0x200 with (2 ^ 9). destruct b.
  - rewrite testbit_lor_pow2 by lia. by destruct (Z.eqb_spec 9 k); [lia|].
  - rewrite testbit_land_lnot_pow2 by lia. by destruct (Z.eqb_spec 9 k); [lia|].
Qed.

Lemma set_if_eq b e e' :
  (forall k, 0 <= k -> k <> 9 -> Z.testbit e k = Z.testbit e' k) ->
  if_flag e' = b -> set_if b e = e'.
Proof.
  intros He Hb. apply Z.bits_inj_iff'. intros k Hk. destruct (decide (k = 9)) as [->|Hne].
  - change (if_flag (set_if b e) = if_flag e'). by rewrite if_flag_set_if.
  - rewrite set_if_other by done. by apply He.
Qed.

Lemma set_if_self e : set_if (if_flag e) e = e.
Proof. by apply set_if_eq. Qed.

Lemma set_if_set_if b c e : set_if b (set_if c e) = set_if b e.
Proof.
  apply set_if_eq; [|apply if_flag_set_if].
  intros k Hk Hne. by rewrite !set_if_other.
Qed.

Lemma get_intr_status_eq e : get_intr_status e = Ok (status_of (if_flag e), e).
Proof. unfold get_intr_status, gets. rewrite land_IF. by destruct (if_flag e). Qed.

Lemma intr_enable_eq e : intr_enable e = Ok (status_of (if_flag e), set_if true e).
Proof.
  unfold intr_enable. rewrite (bind_ok _ _ _ _ _ (get_intr_status_eq e)).
  pose proof (set_if_self e) as Hself.
  by destruct (if_flag e); simpl; rewrite ?Hself.
Qed.

Lemma intr_disable_eq e : intr_disable e = Ok (status_of (if_flag e), set_if false e).
Proof.
  unfold intr_disable. rewrite (bind_ok _ _ _ _ _ (get_intr_status_eq e)).
  pose proof (set_if_self e) as Hself.
  by destruct (if_flag e); simpl; rewrite ?Hself.
Qed.

Lemma set_intr_status_eq b e :
  set_intr_status (status_of b) e = Ok (status_of (if_flag e), set_if b e).
Proof. destruct b; [apply intr_enable_eq | apply intr_disable_eq]. Qed.

#[export] Hint Rewrite if_flag_set_if set_if_self set_if_set_if : goos.

(** The kernel's bracket [old = intr_disable(); ...; set_intr_status(old)]:
    the body runs with the flag clear, and if it gives EFLAGS back as it found
    it, so does the whole bracket, whatever the flag was before. *)
Lemma intr_bracket_restores {A} (body : M Z A) (e : Z) (Q : A -> Prop) :
  wp body (set_if false e) (fun a e' => e' = set_if false e /\ Q a) ->
  wp (old ← intr_disable; r ← body; _ ← set_intr_status old; mret r) e
     (fun a e' => e' = e /\ Q a).
Proof.
  intros H. wp_step. eapply wp_ok; [apply intr_disable_eq|]. wp_step.
  eapply wp_mono; [exact H|]. intros a e' [-> Ha]. wp_step.
  eapply wp_ok; [apply set_intr_status_eq|]. wp_step. by autorewrite with goos.
Qed.

(** ** The interrupt descriptor table *)
Definition IDT_DESC_CNT : Z := 0x81.

Record gate_desc := GateDesc {
  func_offset_low_word : Z;   (* uint16_t *)
  selector : Z;               (* uint16_t *)
  dcount : Z;                 (* uint8_t *)
  attribute : Z;              (* uint8_t *)
  func_offset_high_word : Z;  (* uint16_t *)
}.

Definition gate_desc_zero : gate_desc := GateDesc 0 0 0 0 0.

Definition init_idt_desc (attr function : Z) : gate_desc :=
  {| func_offset_low_word := u16 (Z.land function 0x0000FFFF);
     selector := u16 SELECTOR_K_CODE;
     dcount := 0;
     attribute := attr;
     func_offset_high_word := u16 (Z.shiftr (Z.land function 0xFFFF0000) 16) |}.

(** The tables the file owns, the IDTR, and the log of port writes. *)
Record intr_state := IntrState {
  idt : list gate_desc;
  intr_name : list string;
  handlers : list Z;
  idtr : Z;
  port_log : list (Z * Z);
}.

Definition outb (port data : Z) : M intr_state unit :=
  modify (fun s => IntrState (idt s) (intr_name s) (handlers s) (idtr s)
                             (port_log s ++ [(port, data)])).

Definition set_gate (i : Z) (g : gate_desc) : M intr_state unit := fun s =>
  match array_set (idt s) i g with
  | Some l => Ok (tt, IntrState l (intr_name s) (handlers s) (idtr s) (port_log s))
  | None => Fault
  end.

Definition set_handler (i : Z) (h : Z) : M intr_state unit := fun s =>
  match array_set (handlers s) i h with
  | Some l => Ok (tt, IntrState (idt s) (intr_name s) l (idtr s) (port_log s))
  | None => Fault
  end.

Definition set_name (i : Z) (n : string) : M intr_state unit := fun s =>
  match array_set (intr_name s) i n with
  | Some l => Ok (tt, IntrState (idt s) l (handlers s) (idtr s) (port_log s))
  | None => Fault
  end.

Section Tables.
(** Link-time addresses: the entry points of kernel/kernel.S, the C default
    handler, and the table itself. *)
Variable intr_entry_table : list Z.
Variable syscall_handler : Z.
Variable general_intr_handler_addr : Z.
Variable idt_addr : Z.

Definition init_idt : M intr_state unit :=
  let lastindex := IDT_DESC_CNT - 1 in
  for_loop (Z.to_nat IDT_DESC_CNT) 0 (fun i =>
    entry ← from_option_M (array_get intr_entry_table i);
    set_gate i (init_idt_desc IDT_DESC_ATTR_DPL0 entry)) ;;;
  set_gate lastindex (init_idt_desc IDT_DESC_ATTR_DPL3 syscall_handler).

Definition init_pic : M intr_state unit :=
  outb PIC_M_CTRL 0x11 ;;; outb PIC_M_DATA 0x20 ;;;
  outb PIC_M_DATA 0x04 ;;; outb PIC_M_DATA 0x01 ;;;
  outb PIC_S_CTRL 0x11 ;;; outb PIC_S_DATA 0x28 ;;;
  outb PIC_S_DATA 0x02 ;;; outb PIC_S_DATA 0x01 ;;;
  outb PIC_M_DATA 0xfc ;;; outb PIC_S_DATA 0xFF.

Definition exception_names : list (Z * string) :=
  [(0, "#DE Divide Error"); (1, "#DB Debug Exception"); (2, "NMI Interrupt");
   (3, "#BP Breakpoint Exception"); (4, "#OF Overflow Exception");
   (5, "#BR BOUND Range Exceeded Exception"); (6, "#UD Invalid Opcode Exception");
   (7, "#NM Device Not Available Exception"); (8, "#DF Double Fault Exception");
   (9, "Coprocessor Segment Overrun"); (10, "#TS Invalid TSS Exception");
   (11, "#NP Segment Not Present"); (12, "#SS Stack Fault Exception");
   (13, "#GP General Protection Exception"); (14, "#PF Page-Fault Exception");
   (16, "#MF x87 FPU Floating-Point Error"); (17, "#AC Alignment Check Exception");
   (18, "#MC Machine-Check Exception"); (19, "#XF SIMD Floating-Point Exception");
   (32, "timer interrupt")]%string.

Fixpoint set_names (l : list (Z * string)) : M intr_state unit :=
  match l with
  | [] => mret tt
  | (i, n) :: l' => set_name i n ;;; set_names l'
  end.

Definition init_exception : M intr_state unit :=
  for_loop (Z.to_nat IDT_DESC_CNT) 0 (fun i =>
    set_handler i general_intr_handler_addr ;;; set_name i "unknown"%string) ;;;
  set_names exception_names.

Definition register_handler (intr_num function : Z) : M intr_state unit :=
  set_handler intr_num function.

(** [lidt] of the 48-bit pseudo-descriptor built in a [uint64_t]. *)
Definition init_intr : M intr_state unit :=
  init_idt ;;; init_exception ;;; init_pic ;;;
  let idt_ptr := Z.lor (u64 (Z.shiftl (u32 idt_addr) 16)) (8 * IDT_DESC_CNT - 1) in
  modify (fun s => IntrState (idt s) (intr_name s) (handlers s) idt_ptr (port_log s)).
End Tables.

(** *** Reading a gate back, as the processor does *)
Definition gate_target (g : gate_desc) : Z :=
  func_offset_low_word g + Z.shiftl (func_offset_high_word g) 16.
Definition gate_dpl (g : gate_desc) : Z := Z.land (Z.shiftr (attribute g) 5) 3.
Definition gate_present (g : gate_desc) : bool := Z.testbit (attribute g) 7.

Lemma u16_land_low f : u16 (Z.land f 0x0000FFFF) = f mod 2 ^ 16.
Proof. unfold u16. change 0xFFFF with (Z.ones 16). rewrite Z.land_ones by lia. by rewrite Zmod_mod. Qed.

Lemma u16_land_high f :
  is_u32 f -> u16 (Z.shiftr (Z.land f 0xFFFF0000) 16) = f / 2 ^ 16.
Proof.
  intros Hf. rewrite Z.shiftr_land. change (Z.shiftr 0xFFFF0000 16) with (Z.ones 16).
  rewrite Z.land_ones, Z.shiftr_div_pow2 by lia. unfold u16.
  change 0x10000 with (2 ^ 16). rewrite Zmod_mod. apply Z.mod_small.
  unfold is_u32 in Hf. split; [apply Z.div_pos; lia | apply Z.div_lt_upper_bound; lia].
Qed.

(** The offset halves of a gate recombine to the handler's address. *)
Lemma init_idt_desc_target attr f : is_u32 f -> gate_target (init_idt_desc attr f) = f.
Proof.
  intros Hf. unfold gate_target, init_idt_desc. cbn [func_offset_low_word func_offset_high_word].
  rewrite u16_land_low, u16_land_high, Z.shiftl_mul_pow2 by (done || lia).
  pose proof (Z.div_mod f (2 ^ 16)). lia.
Qed.

(** What each gate must be: a present gate to [f] with privilege [dpl]. *)
Definition gate_ok (g : gate_desc) (f dpl : Z) : Prop :=
  gate_target g = f /\ gate_dpl g = dpl /\ gate_present g = true /\
  selector g = SELECTOR_K_CODE /\ dcount g = 0.

Lemma kernel_gate_ok f : is_u32 f -> gate_ok (init_idt_desc IDT_DESC_ATTR_DPL0 f) f 0.
Proof. intros Hf. split; [by apply init_idt_desc_target|]. by vm_compute. Qed.

Lemma user_gate_ok f : is_u32 f -> gate_ok (init_idt_desc IDT_DESC_ATTR_DPL3 f) f 3.
Proof. intros Hf. split; [by apply init_idt_desc_target|]. by vm_compute. Qed.

(** The tables have their declared length. *)
Definition tables_sized (s : intr_state) : Prop :=
  Z.of_nat (length (idt s)) = IDT_DESC_CNT /\
  Z.of_nat (length (intr_name s)) = IDT_DESC_CNT /\
  Z.of_nat (length (handlers s)) = IDT_DESC_CNT.

Lemma wp_set_gate i g s Q :
  0 <= i < Z.of_nat (length (idt s)) ->
  Q tt (IntrState (<[Z.to_nat i := g]> (idt s)) (intr_name s) (handlers s) (idtr s) (port_log s)) ->
  wp (set_gate i g) s Q.
Proof. intros Hi HQ. unfold wp, set_gate. by rewrite array_set_eq. Qed.

Lemma wp_set_handler i h s Q :
  0 <= i < Z.of_nat (length (handlers s)) ->
  Q tt (IntrState (idt s) (intr_name s) (<[Z.to_nat i := h]> (handlers s)) (idtr s) (port_log s)) ->
  wp (set_handler i h) s Q.
Proof. intros Hi HQ. unfold wp, set_handler. by rewrite array_set_eq. Qed.

Lemma wp_set_name i n s Q :
  0 <= i < Z.of_nat (length (intr_name s)) ->
  Q tt (IntrState (idt s) (<[Z.to_nat i := n]> (intr_name s)) (handlers s) (idtr s) (port_log s)) ->
  wp (set_name i n) s Q.
Proof. intros Hi HQ. unfold wp, set_name. by rewrite array_set_eq. Qed.

(** *** The names, as the Intel manual lists the exceptions

    Vector 15 and those from 20 on are reserved; the kernel names its timer. *)
Definition vector_name (i : Z) : string :=
  match i with
  | 0 => "#DE Divide Error"
  | 1 => "#DB Debug Exception"
  | 2 => "NMI Interrupt"
  | 3 => "#BP Breakpoint Exception"
  | 4 => "#OF Overflow Exception"
  | 5 => "#BR BOUND Range Exceeded Exception"
  | 6 => "#UD Invalid Opcode Exception"
  | 7 => "#NM Device Not Available Exception"
  | 8 => "#DF Double Fault Exception"
  | 9 => "Coprocessor Segment Overrun"
  | 10 => "#TS Invalid TSS Exception"
  | 11 => "#NP Segment Not Present"
  | 12 => "#SS Stack Fault Exception"
  | 13 => "#GP General Protection Exception"
  | 14 => "#PF Page-Fault Exception"
  | 16 => "#MF x87 FPU Floating-Point Error"
  | 17 => "#AC Alignment Check Exception"
  | 18 => "#MC Machine-Check Exception"
  | 19 => "#XF SIMD Floating-Point Exception"
  | 32 => "timer interrupt"
  | _ => "unknown"
  end%string.

Definition put_names (l : list (Z * string)) (names : list string) : list string :=
  foldl (fun ns p => <[Z.to_nat p.1 := p.2]> ns) names l.

Lemma set_names_eq l s :
  Forall (fun p => 0 <= p.1 < Z.of_nat (length (intr_name s))) l ->
  set_names l s = Ok (tt, IntrState (idt s) (put_names l (intr_name s)) (handlers s) (idtr s) (port_log s)).
Proof.
  revert s. induction l as [|[i n] l IH]; intros [d ns h r log] Hl; [done|].
  inversion Hl as [|? ? Hi Hl']; subst. simpl set_names.
  erewrite bind_ok by (unfold set_name; simpl; by rewrite array_set_eq).
  apply IH. eapply Forall_impl; [exact Hl'|]. intros p. simpl. by rewrite length_insert.
Qed.

(** All entries "unknown", then the names of the exceptions: the table above. *)
Lemma names_put names i :
  (forall j, 0 <= j < IDT_DESC_CNT -> array_get names j = Some "unknown"%string) ->
  Z.of_nat (length names) = IDT_DESC_CNT -> 0 <= i < IDT_DESC_CNT ->
  array_get (put_names exception_names names) i = Some (vector_name i).
Proof.
  intros Hall Hlen Hi.
  assert (names = replicate (Z.to_nat IDT_DESC_CNT) "unknown"%string) as ->.
  { symmetry. apply replicate_as_elem_of. unfold IDT_DESC_CNT in *. split; [lia|]. intros x Hx.
    apply list_elem_of_lookup in Hx as [k Hk]. pose proof (lookup_lt_Some _ _ _ Hk) as Hlt.
    specialize (Hall (Z.of_nat k) ltac:(lia)). unfold array_get in Hall.
    rewrite Nat2Z.id, Hk in Hall. destruct (0 <=? Z.of_nat k); [by injection Hall | done]. }
  clear Hall Hlen. assert (i ∈ seqZ 0 IDT_DESC_CNT) as Hin by (apply elem_of_seqZ; lia).
  clear Hi. revert i Hin. apply Forall_forall.
  apply (bool_decide_unpack (Forall (fun i => array_get (put_names exception_names
    (replicate (Z.to_nat IDT_DESC_CNT) "unknown"%string)) i = Some (vector_name i)) (seqZ 0 IDT_DESC_CNT))).
  by vm_compute.
Qed.

(** *** The 8259A: what its two ports do (data sheet)

    A word with bit 4 at the control port is ICW1 and starts the
    initialisation; the data port then takes ICW2, ICW3 (unless ICW1 says the
    chip is alone) and ICW4 (if ICW1 asks for it), and after them the mask. *)
Inductive pic_expects := Icw2 | Icw3 | Icw4 | Ocw1.

Record pic := Pic {
  pic_icw1 : Z; pic_icw2 : Z; pic_icw3 : Z; pic_icw4 : Z;
  pic_mask : Z;
  pic_next : pic_expects;
}.

Definition pic_control (v : Z) (c : pic) : pic :=
  if Z.testbit v 4 then Pic v 0 0 0 0 Icw2 else c.

Definition after_icw3 (icw1 : Z) : pic_expects := if Z.testbit icw1 0 then Icw4 else Ocw1.

Definition pic_data (v : Z) (c : pic) : pic :=
  let '(Pic i1 i2 i3 i4 m e) := c in
  match e with
  | Icw2 => Pic i1 v i3 i4 m (if Z.testbit i1 1 then after_icw3 i1 else Icw3)
  | Icw3 => Pic i1 i2 v i4 m (after_icw3 i1)
  | Icw4 => Pic i1 i2 i3 v m Ocw1
  | Ocw1 => Pic i1 i2 i3 i4 v Ocw1
  end.

Definition pic_write (ctrl data : Z) (c : pic) (w : Z * Z) : pic :=
  if w.1 =? ctrl then pic_control w.2 c else if w.1 =? data then pic_data w.2 c else c.

(** The chip after the writes of a log. *)
Definition pic_after (ctrl data : Z) (c : pic) (log : list (Z * Z)) : pic :=
  foldl (pic_write ctrl data) c log.

(** A chip that is ready: it answers line [irq] with vector [base + irq], edge
    triggered, in 8086 mode, with the end of interrupt given by software. *)
Record pic_ready (c : pic) (base : Z) : Prop := {
  pr_done : pic_next c = Ocw1;
  pr_vectors : forall irq, 0 <= irq < 8 -> Z.land (pic_icw2 c) 0xf8 + irq = base + irq;
  pr_edge : Z.testbit (pic_icw1 c) 3 = false;
  pr_cascade : Z.testbit (pic_icw1 c) 1 = false;
  pr_8086 : Z.testbit (pic_icw4 c) 0 = true;
  pr_no_auto_eoi : Z.testbit (pic_icw4 c) 1 = false;
}.

Definition irq_enabled (mask : Z) (irq : Z) : bool := negb (Z.testbit mask irq).

Definition no_pic : pic := Pic 0 0 0 0 0 Ocw1.
Definition master (log : list (Z * Z)) : pic := pic_after PIC_M_CTRL PIC_M_DATA no_pic log.
Definition slave (log : list (Z * Z)) : pic := pic_after PIC_S_CTRL PIC_S_DATA no_pic log.

(** Both chips ready with the slave on line 2 of the master, only the timer
    and the keyboard enabled. *)
Record pics_ready (log : list (Z * Z)) : Prop := {
  ps_master : pic_ready (master log) 0x20;
  ps_slave : pic_ready (slave log) 0x28;
  ps_line : forall irq, 0 <= irq < 8 -> Z.testbit (pic_icw3 (master log)) irq = (irq =? 2);
  ps_identity : Z.land (pic_icw3 (slave log)) 7 = 2;
  ps_masks : forall irq, 0 <= irq < 8 ->
    irq_enabled (pic_mask (master log)) irq = ((irq =? 0) || (irq =? 1)) /\
    irq_enabled (pic_mask (slave log)) irq = false;
}.

(** Writes to other ports do not touch the chips. *)
Definition not_pic (w : Z * Z) : Prop :=
  w.1 <> PIC_M_CTRL /\ w.1 <> PIC_M_DATA /\ w.1 <> PIC_S_CTRL /\ w.1 <> PIC_S_DATA.

Lemma pic_after_other ctrl data c log :
  Forall (fun w => w.1 <> ctrl /\ w.1 <> data) log -> pic_after ctrl data c log = c.
Proof.
  induction log as [|[port v] log IH]; [done|]. intros [[Hc Hd] Hl]%Forall_cons. simpl in *.
  unfold pic_after. cbn [foldl]. unfold pic_write at 2. simpl.
  destruct (Z.eqb_spec port ctrl); [done|]. destruct (Z.eqb_spec port data); [done|]. by apply IH.
Qed.

Lemma pics_ready_app log log' : pics_ready log -> Forall not_pic log' -> pics_ready (log ++ log').
Proof.
  intros Hr Hl.
  assert (master (log ++ log') = master log /\ slave (log ++ log') = slave log) as [Em Es].
  { unfold master, slave, pic_after. rewrite !foldl_app. split; apply pic_after_other;
      (eapply Forall_impl; [exact Hl|]); intros w (? & ? & ? & ?); done. }
  destruct Hr as [R1 R2 R3 R4 R5]. split; rewrite ?Em, ?Es; done.
Qed.

Lemma idtr_or a l : 0 <= l < 2 ^ 16 -> Z.lor (Z.shiftl a 16) l = a * 2 ^ 16 + l.
Proof.
  intros Hl. rewrite <- Z.shiftl_mul_pow2 by lia. symmetry. apply Z.add_nocarry_lor.
  apply Z.bits_inj_iff'. intros k Hk. rewrite Z.land_spec, Z.bits_0.
  destruct (Z.lt_ge_cases k 16).
  - by rewrite Z.shiftl_spec_low.
  - by rewrite (testbit_high l 16), andb_false_r by lia.
Qed.

Lemma idtr_small a : is_u32 a -> u64 (Z.shiftl (u32 a) 16) = Z.shiftl a 16.
Proof.
  intros Ha. rewrite u32_id by done. unfold u64, is_u32 in *.
  rewrite Z.shiftl_mul_pow2 by lia. apply Z.mod_small. lia.
Qed.

Section TablesProofs.
Variable intr_entry_table : list Z.
Variable syscall_handler general_intr_handler_addr idt_addr : Z.
Hypothesis table_length : Z.of_nat (length intr_entry_table) = IDT_DESC_CNT.

Abbreviation init_idt := (init_idt intr_entry_table syscall_handler).
Abbreviation init_exception := (init_exception general_intr_handler_addr).

Definition gates_upto (n : Z) (s s' : intr_state) : Prop :=
  tables_sized s' /\ intr_name s' = intr_name s /\ handlers s' = handlers s /\
  idtr s' = idtr s /\ port_log s' = port_log s /\
  forall i f, 0 <= i < n -> array_get intr_entry_table i = Some f ->
    array_get (idt s') i = Some (init_idt_desc IDT_DESC_ATTR_DPL0 f).

Lemma init_idt_ok s :
  tables_sized s ->
  wp init_idt s (fun _ s' => gates_upto 0x80 s s' /\
    array_get (idt s') 0x80 = Some (init_idt_desc IDT_DESC_ATTR_DPL3 syscall_handler)).
Proof.
  intros Hs. unfold Interrupt.init_idt. wp_step.
  apply (wp_for_loop _ _ _ _ (fun n s' => gates_upto n s s')).
  - destruct Hs as (? & ? & ?). repeat split; auto; intros; lia.
  - intros i s' Hi ((Hl1 & Hl2 & Hl3) & ? & ? & ? & ? & Hg).
    change (Z.of_nat (Z.to_nat IDT_DESC_CNT)) with IDT_DESC_CNT in Hi.
    destruct (array_get_is_Some intr_entry_table i) as [f Hf]; [lia|].
    wp_step. eapply wp_from_option; [exact Hf|]. apply wp_set_gate; [lia|].
    repeat split; simpl; rewrite ?length_insert; auto. intros j f' Hj Hf'.
    rewrite array_get_insert by lia. destruct (Z.eqb_spec i j) as [->|]; [congruence|].
    apply Hg; [lia | done].
  - intros s' ((Hl1 & Hl2 & Hl3) & ? & ? & ? & ? & Hg).
    change (0 + Z.of_nat (Z.to_nat IDT_DESC_CNT)) with IDT_DESC_CNT in Hg.
    unfold IDT_DESC_CNT in *. apply wp_set_gate; [lia|].
    split; [|simpl; by rewrite array_get_insert by lia].
    repeat split; simpl; rewrite ?length_insert; auto. intros j f' Hj Hf'.
    rewrite array_get_insert by lia.
    destruct (Z.eqb_spec (129 - 1) j); [lia|]. apply Hg; [lia | done].
Qed.

Definition handlers_upto (n : Z) (s s' : intr_state) : Prop :=
  tables_sized s' /\ idt s' = idt s /\ idtr s' = idtr s /\ port_log s' = port_log s /\
  forall i, 0 <= i < n -> array_get (handlers s') i = Some general_intr_handler_addr /\
    array_get (intr_name s') i = Some "unknown"%string.

Lemma init_exception_ok s :
  tables_sized s -> wp init_exception s (fun _ s' =>
    idt s' = idt s /\ idtr s' = idtr s /\ port_log s' = port_log s /\
    forall i, 0 <= i < IDT_DESC_CNT -> array_get (handlers s') i = Some general_intr_handler_addr /\
      array_get (intr_name s') i = Some (vector_name i)).
Proof.
  intros Hs. unfold Interrupt.init_exception. wp_step.
  apply (wp_for_loop _ _ _ _ (fun n s' => handlers_upto n s s')).
  - destruct Hs as (? & ? & ?). repeat split; auto; intros; lia.
  - intros i s' Hi ((Hl1 & Hl2 & Hl3) & ? & ? & ? & Hh).
    change (Z.of_nat (Z.to_nat IDT_DESC_CNT)) with IDT_DESC_CNT in Hi.
    wp_step. apply wp_set_handler; [lia|]. apply wp_set_name; [simpl; lia|]. unfold handlers_upto, tables_sized.
    simpl. rewrite !length_insert. do 4 (split; [by auto|]). intros j Hj.
    rewrite !array_get_insert by lia. destruct (Z.eqb_spec i j); [done|]. apply Hh. lia.
  - intros s' ((Hl1 & Hl2 & Hl3) & Ei & Er & El & Hh).
    change (0 + Z.of_nat (Z.to_nat IDT_DESC_CNT)) with IDT_DESC_CNT in Hh. eapply wp_ok.
    + apply set_names_eq. rewrite Hl2. unfold exception_names, IDT_DESC_CNT.
      repeat constructor; simpl; lia.
    + simpl. do 3 (split; [done|]). intros i Hi. split; [by apply Hh|].
      apply names_put; [|done|done]. intros k Hk. by apply Hh.
Qed.

(** The writes [init_pic] performs, in order. *)
Definition pic_log : list (Z * Z) :=
  [(PIC_M_CTRL, 0x11); (PIC_M_DATA, 0x20); (PIC_M_DATA, 0x04); (PIC_M_DATA, 0x01);
   (PIC_S_CTRL, 0x11); (PIC_S_DATA, 0x28); (PIC_S_DATA, 0x02); (PIC_S_DATA, 0x01);
   (PIC_M_DATA, 0xfc); (PIC_S_DATA, 0xFF)].

Lemma outb_eq port data d n h r log :
  outb port data (IntrState d n h r log) = Ok (tt, IntrState d n h r (log ++ [(port, data)])).
Proof. done. Qed.

Lemma init_pic_eq s :
  init_pic s = Ok (tt, IntrState (idt s) (intr_name s) (handlers s) (idtr s) (port_log s ++ pic_log)).
Proof.
  destruct s as [d n h r log]. unfold init_pic.
  do 9 (erewrite bind_ok by apply outb_eq). by rewrite outb_eq, <- !app_assoc.
Qed.

(** Whatever was written before, ICW1 starts both chips afresh. *)
Lemma pic_log_ready log : pics_ready (log ++ pic_log).
Proof.
  assert (master (log ++ pic_log) = Pic 0x11 0x20 0x04 0x01 0xfc Ocw1 /\
          slave (log ++ pic_log) = Pic 0x11 0x28 0x02 0x01 0xff Ocw1) as [Em Es].
  { unfold master, slave, pic_after. rewrite !foldl_app.
    generalize (foldl (pic_write PIC_M_CTRL PIC_M_DATA) no_pic log) (foldl (pic_write PIC_S_CTRL PIC_S_DATA) no_pic log).
    by intros [] []. }
  split; rewrite ?Em, ?Es; try (split; (done || intros; by vm_compute)); try done.
  all: intros irq Hirq; assert (irq ∈ [0; 1; 2; 3; 4; 5; 6; 7]) as Hin
    by (change [0; 1; 2; 3; 4; 5; 6; 7] with (seqZ 0 8); apply elem_of_seqZ; lia);
    clear Hirq; revert irq Hin; apply Forall_forall; by repeat constructor.
Qed.

Definition idt_pseudo_descriptor : Z :=
  Z.lor (u64 (Z.shiftl (u32 idt_addr) 16)) (8 * IDT_DESC_CNT - 1).

Lemma idt_pseudo_descriptor_eq :
  is_u32 idt_addr -> idt_pseudo_descriptor = idt_addr * 2 ^ 16 + (8 * IDT_DESC_CNT - 1).
Proof.
  intros Ha. unfold idt_pseudo_descriptor. rewrite idtr_small by done.
  apply idtr_or. by vm_compute.
Qed.

Lemma idtr_limit : is_u32 idt_addr -> u16 idt_pseudo_descriptor = 8 * IDT_DESC_CNT - 1.
Proof.
  intros Ha. rewrite idt_pseudo_descriptor_eq by done. unfold u16. change 0x10000 with (2 ^ 16).
  rewrite Z.add_comm, Z_mod_plus_full. by vm_compute.
Qed.

Lemma idtr_base : is_u32 idt_addr -> Z.shiftr idt_pseudo_descriptor 16 = idt_addr.
Proof.
  intros Ha. rewrite idt_pseudo_descriptor_eq, Z.shiftr_div_pow2 by (done || lia).
  rewrite Z.div_add_l by lia. change ((8 * IDT_DESC_CNT - 1) / 2 ^ 16) with 0. lia.
Qed.

(** The tables and the interrupt controllers after [init_intr]. *)
Record intr_ready (s : intr_state) : Prop := {
  ir_gates : forall i f, 0 <= i < 0x80 -> array_get intr_entry_table i = Some f ->
    exists g, array_get (idt s) i = Some g /\ gate_ok g f 0;
  ir_syscall : exists g, array_get (idt s) 0x80 = Some g /\ gate_ok g syscall_handler 3;
  ir_handlers : forall i, 0 <= i < IDT_DESC_CNT -> array_get (handlers s) i = Some general_intr_handler_addr;
  ir_names : forall i, 0 <= i < IDT_DESC_CNT -> array_get (intr_name s) i = Some (vector_name i);
  ir_limit : u16 (idtr s) = 8 * IDT_DESC_CNT - 1;
  ir_base : Z.shiftr (idtr s) 16 = idt_addr;
  ir_pics : pics_ready (port_log s);
}.

Lemma init_intr_ok (s : intr_state) :
  tables_sized s -> (forall i f, array_get intr_entry_table i = Some f -> is_u32 f) -> is_u32 syscall_handler -> is_u32 idt_addr ->
  wp (init_intr intr_entry_table syscall_handler general_intr_handler_addr idt_addr) s
    (fun _ s' => intr_ready s').
Proof.
  intros Hsized Hentries Hsys Hidt. unfold init_intr. wp_step. eapply wp_mono; [by apply init_idt_ok|].
  intros [] s1 ((Hs1 & _ & _ & _ & _ & Hg) & Hg80). wp_step.
  eapply wp_mono; [by apply init_exception_ok|]. intros [] s2 (Ei & _ & _ & Hh).
  wp_step. eapply wp_ok; [apply init_pic_eq|]. wp_step.
  split; cbn [idt handlers intr_name idtr port_log]; rewrite ?Ei; try done.
  - intros i f Hi Hf. eexists. split; [by apply Hg|]. apply kernel_gate_ok. eauto.
  - eexists. split; [exact Hg80|]. by apply user_gate_ok.
  - intros i Hi. by apply Hh.
  - intros i Hi. by apply Hh.
  - by apply idtr_limit.
  - by apply idtr_base.
  - apply pic_log_ready.
Qed.

(** C23: after [init_intr] the table the IDTR describes (0x81 entries at [idt])
    sends vector [i < 0x80] to its entry point in kernel.S through a present
    gate only the kernel may call, and vector 0x80 to [syscall_handler]
    through the only gate of privilege 3; every vector has the default
    handler and its name ([vector_name], "unknown" where there is none); and
    the port writes leave both 8259A initialised: the master answers its lines
    with the vectors from 0x20 on, the slave, on line 2 of the master, with
    those from 0x28 on, edge triggered, with the end of interrupt by software,
    and only IRQ0 (timer) and IRQ1 (keyboard) enabled. *)
Theorem init_intr_correct (s : intr_state)
    (Hsized : tables_sized s)
    (Hentries : forall i f, array_get intr_entry_table i = Some f -> is_u32 f)
    (Hsys : is_u32 syscall_handler) (Hidt : is_u32 idt_addr) :
  wp (init_intr intr_entry_table syscall_handler general_intr_handler_addr idt_addr) s
    (fun _ s' => intr_ready s').
Proof. by apply init_intr_ok. Qed.
End TablesProofs.

(** *** Concrete instance *)
Definition example_tables : intr_state :=
  IntrState (replicate 0x81 gate_desc_zero) (replicate 0x81 EmptyString) (replicate 0x81 0) 0 [].

Definition example_entries : list Z := (fun i => 0xc0001500 + 16 * i) <$> seqZ 0 0x81.

Lemma example_entries_u32 i f : array_get example_entries i = Some f -> is_u32 f.
Proof.
  unfold array_get, example_entries. destruct (0 <=? i); [|done].
  intros (x & -> & Hx)%list_lookup_fmap_Some. apply lookup_seqZ in Hx. unfold is_u32. lia.
Qed.

Lemma init_intr_correct_witness :
  wp (init_intr example_entries 0xc0002000 0xc0003000 0xc0010000) example_tables
    (fun _ s' => Z.shiftr (idtr s') 16 = 0xc0010000 /\
       array_get (handlers s') 0x20 = Some 0xc0003000 /\
       array_get (intr_name s') 14 = Some "#PF Page-Fault Exception"%string /\
       Z.land (pic_icw2 (slave (port_log s'))) 0xf8 = 0x28).
Proof.
  eapply wp_mono; [apply (init_intr_correct example_entries 0xc0002000 0xc0003000 0xc0010000 eq_refl example_tables)|].
  - done.
  - exact example_entries_u32.
  - done.
  - done.
  - intros [] s' [_ _ Hh Hn _ Hb Hp]. split; [exact Hb|]. split; [by apply Hh|]. split; [by apply Hn|].
    pose proof (pr_vectors _ _ (ps_slave _ Hp) 0 ltac:(lia)). lia.
Defined.
