(* ===== verification/Timer.v ===== *)
(** * The timer chip: device/timer.c (set_frequency, init_timer)

    The three writes that program counter 0 of the 8253, and the registration
    of the handler of IRQ 0; the handler itself is in Thread.v. *)
From Stdlib Require Import ZArith Lia String.
From stdpp Require Import base numbers list strings.
From S2P Require Import Prelude Globals Interrupt.

Definition IRQ0_FREQUENCY : Z := 100.
Definition INPUT_FREQUENCY : Z := 1193180.
Definition COUNTER0_VALUE : Z := INPUT_FREQUENCY / IRQ0_FREQUENCY.
Definition COUNTER0_PORT : Z := 0x40.
Definition COUNTER0_NO : Z := 0.
Definition COUNTER0_MODE : Z := 2.
Definition READ_WRITE_LATCH : Z := 3.
Definition PIT_CONTROL_PORT : Z := 0x43.

Definition set_frequency (counter_port counter_no rwl counter_mode counter_value : Z) : M intr_state unit :=
  outb PIT_CONTROL_PORT (u8 (Z.lor (Z.lor (Z.shiftl counter_no 6) (Z.shiftl rwl 4)) (Z.shiftl counter_mode 1))) ;;;
  outb counter_port (u8 counter_value) ;;;
  outb counter_port (u8 (Z.shiftr counter_value 8)).

(** [intr_timer_handler_addr]: the address of the handler. *)
Definition init_timer (intr_timer_handler_addr : Z) : M intr_state unit :=
  set_frequency COUNTER0_PORT COUNTER0_NO READ_WRITE_LATCH COUNTER0_MODE (u16 COUNTER0_VALUE) ;;;
  register_handler 0x20 intr_timer_handler_addr.

(** ** The chip

    A control word selects a counter (bits 6-7), how it is loaded (bits 4-5: 3
    is low byte then high byte) and its mode (bits 1-3); the two bytes written
    to the counter's port then give its divisor. *)
Record counter := Counter { c_mode : Z; c_loaded : option Z; c_low : option Z }.

Definition pit_write (c : option counter) (w : Z * Z) : option counter :=
  let '(port, data) := w in
  if port =? 0x43 then
    if (data / 64 =? 0) && (data / 16 mod 4 =? 3) then Some (Counter (data / 2 mod 8) None None) else c
  else if port =? 0x40 then
    match c with
    | Some (Counter m l None) => Some (Counter m l (Some data))
    | Some (Counter m _ (Some lo)) => Some (Counter m (Some (lo + 256 * data)) None)
    | None => None
    end
  else c.

(** Counter 0 after the writes of a log. *)
Definition counter0 (log : list (Z * Z)) : option counter := foldl pit_write None log.

(** ** Properties *)

Lemma set_frequency_log m v s :
  set_frequency 0x40 0 3 m v s = Ok (tt, IntrState (idt s) (intr_name s) (handlers s) (idtr s)
    (port_log s ++ [(0x43, u8 (Z.lor 0x30 (Z.shiftl m 1))); (0x40, u8 v); (0x40, u8 (Z.shiftr v 8))])).
Proof.
  destruct s as [d n h r log]. unfold set_frequency. do 2 erewrite bind_ok by apply outb_eq.
  rewrite outb_eq, <- !app_assoc. done.
Qed.

Lemma foldl_control c m lo hi : is_u8 lo -> 0 <= m < 8 ->
  foldl pit_write c [(0x43, u8 (Z.lor 0x30 (Z.shiftl m 1))); (0x40, lo); (0x40, hi)] =
  Some (Counter m (Some (lo + 256 * hi)) None).
Proof.
  intros Hlo Hm. assert (m ∈ seqZ 0 8) as Hin by (apply elem_of_seqZ; lia). clear Hm. revert m Hin. apply Forall_forall.
  by repeat constructor.
Qed.

(** Whatever the chip was doing, [set_frequency] on counter 0 leaves it in
    the given mode with the given 16-bit divisor. *)
Theorem set_frequency_roundtrip (mode value : Z) (s : intr_state) (Hm : 0 <= mode < 8) (Hv : is_u16 value) :
  exists s', set_frequency COUNTER0_PORT COUNTER0_NO READ_WRITE_LATCH mode value s = Ok (tt, s') /\
    counter0 (port_log s') = Some (Counter mode (Some value) None) /\ handlers s' = handlers s.
Proof.
  eexists. split; [apply set_frequency_log|]. split; [|done]. simpl port_log. unfold counter0.
  rewrite foldl_app, foldl_control by (done || apply u8_range). do 3 f_equal.
  unfold u8. rewrite Z.shiftr_div_pow2 by lia. unfold is_u16 in Hv. Z.div_mod_to_equations; lia.
Qed.

Definition timer_log : list (Z * Z) := [(0x43, 0x34); (0x40, 155); (0x40, 46)].

Lemma init_timer_eq addr s :
  (0x20 < length (handlers s))%nat ->
  init_timer addr s = Ok (tt, IntrState (idt s) (intr_name s) (<[0x20%nat := addr]> (handlers s)) (idtr s) (port_log s ++ timer_log)).
Proof.
  intros Hh. unfold init_timer. erewrite bind_ok by apply set_frequency_log. unfold register_handler, set_handler.
  cbn [handlers]. by rewrite array_set_eq by lia.
Qed.

Lemma timer_counter log : counter0 (log ++ timer_log) = Some (Counter 2 (Some 11931) None).
Proof.
  unfold counter0. rewrite foldl_app. unfold timer_log.
  exact (foldl_control (foldl pit_write None log) 2 155 46 ltac:(unfold is_u8; lia) ltac:(lia)).
Qed.

(** [init_timer] makes counter 0 a rate generator of 100 interrupts a
    second, to within one period of its input clock, and registers the handler
    of IRQ 0. *)
Theorem init_timer_correct (addr : Z) (s : intr_state) (Hh : (0x20 < length (handlers s))%nat) :
  exists s' d, init_timer addr s = Ok (tt, s') /\ counter0 (port_log s') = Some (Counter 2 (Some d) None) /\
    d * IRQ0_FREQUENCY <= INPUT_FREQUENCY < (d + 1) * IRQ0_FREQUENCY /\
    array_get (handlers s') 0x20 = Some addr /\
    (forall i, i <> 0x20 -> array_get (handlers s') i = array_get (handlers s) i).
Proof.
  eexists _, 11931. split; [by apply init_timer_eq|]. cbn [port_log handlers].
  split; [apply timer_counter|]. split; [done|]. change 0x20%nat with (Z.to_nat 0x20). split; [|intros i Hi].
  - by rewrite array_get_insert by lia.
  - rewrite array_get_insert by lia. by destruct (Z.eqb_spec 0x20 i); [congruence|].
Qed.

(** *** Concrete instances *)
Lemma set_frequency_roundtrip_witness : exists s',
  set_frequency COUNTER0_PORT COUNTER0_NO READ_WRITE_LATCH 3 0xbeef example_tables = Ok (tt, s') /\
  counter0 (port_log s') = Some (Counter 3 (Some 0xbeef) None).
Proof.
  destruct (set_frequency_roundtrip 3 0xbeef example_tables ltac:(lia) ltac:(unfold is_u16; lia)) as (s' & E & Hc & _).
  exists s'. split; [exact E | exact Hc].
Defined.

Lemma init_timer_correct_witness : exists s', init_timer 0xc0003000 example_tables = Ok (tt, s') /\
  array_get (handlers s') 0x20 = Some 0xc0003000.
Proof.
  destruct (init_timer_correct 0xc0003000 example_tables ltac:(simpl; lia)) as (s' & d & E & _ & _ & Hh & _).
  exists s'. split; [exact E | exact Hh].
Defined.
