(* ===== verification/Bitmap.v ===== *)
(** * Bitmaps: lib/kernel/bitmap.c, lib/kernel/bitmap.h

    A [struct bitmap] is a length in bytes and the array behind the [bits]
    pointer; [bits_addr] is the pointer's value.  The operations index the
    array as the code does, so an index past its end is a fault. *)
From stdpp Require Import base numbers list.
From Stdlib Require Import ZArith Lia.
From S2P Require Import Prelude Globals.

Record bitmap := Bitmap {
  btmp_bytes_len : Z;  (* uint32_t *)
  bits_addr : Z;       (* uint8_t * *)
  bits : list Z;       (* the bytes at [bits_addr] *)
}.

Definition BITMAP_MASK : Z := 1.

Definition bits_get (byte_idx : Z) : M bitmap Z :=
  btmp ← get; from_option_M (array_get (bits btmp) byte_idx).

Definition bits_set (byte_idx value : Z) : M bitmap unit := fun btmp =>
  match array_set (bits btmp) byte_idx value with
  | Some l => Ok (tt, Bitmap (btmp_bytes_len btmp) (bits_addr btmp) l)
  | None => Fault
  end.

(** [memset(bits, 0, btmp_bytes_len)]. *)
Definition bitmap_init : M bitmap unit :=
  btmp ← get;
  ASSERT (negb (bits_addr btmp =? NULL)) ;;;
  for_loop (Z.to_nat (btmp_bytes_len btmp)) 0 (fun i => bits_set i 0).

Definition bitmap_scan_test (bit_idx : Z) : M bitmap Z :=
  let byte_idx := bit_idx / 8 in
  let bit_off := bit_idx mod 8 in
  y ← bits_get byte_idx;
  mret (Z.land y (Z.shiftl BITMAP_MASK bit_off)).

(** [while (byte_idx < len && 0xff == bits[byte_idx]) byte_idx++]. *)
Fixpoint skip_full_bytes (fuel : nat) (byte_idx : Z) : M bitmap Z :=
  match fuel with
  | O => nofuel
  | S fuel' =>
      btmp ← get;
      if byte_idx <? btmp_bytes_len btmp then
        y ← bits_get byte_idx;
        if y =? 0xff then skip_full_bytes fuel' (u32 (byte_idx + 1)) else mret byte_idx
      else mret byte_idx
  end.

(** [while (bits[byte_idx] & (BITMAP_MASK << bit_off)) bit_off++]. *)
Fixpoint first_zero_bit (fuel : nat) (byte_idx bit_off : Z) : M bitmap Z :=
  match fuel with
  | O => nofuel
  | S fuel' =>
      y ← bits_get byte_idx;
      if Z.land y (Z.shiftl BITMAP_MASK bit_off) =? 0 then mret bit_off
      else first_zero_bit fuel' byte_idx (u32 (bit_off + 1))
  end.

(** The [for] loop: the value of [bit_idx_start] it leaves. *)
Fixpoint find_run (fuel : nat) (btmp_bits_len cnt bit_idx count : Z) : M bitmap Z :=
  match fuel with
  | O => nofuel
  | S fuel' =>
      if bit_idx <? btmp_bits_len then
        t ← bitmap_scan_test bit_idx;
        let count := if t =? 0 then u32 (count + 1) else 0 in
        if count =? cnt then mret (u32 (bit_idx - cnt + 1))
        else find_run fuel' btmp_bits_len cnt (u32 (bit_idx + 1)) count
      else mret (u32 (-1))
  end.

Definition bitmap_scan (cnt : Z) : M bitmap Z :=
  btmp ← get;
  byte_idx ← skip_full_bytes (S (Z.to_nat (btmp_bytes_len btmp))) 0;
  ASSERT (byte_idx <? btmp_bytes_len btmp) ;;;
  if btmp_bytes_len btmp <=? byte_idx then mret (-1)
  else
    bit_off ← first_zero_bit 9 byte_idx 0;
    let bit_idx := u32 (byte_idx * 8 + bit_off) in
    let btmp_bits_len := u32 (btmp_bytes_len btmp * 8) in
    bit_idx_start ← find_run (S (Z.to_nat btmp_bits_len)) btmp_bits_len cnt bit_idx 0;
    mret (s32 bit_idx_start).

Definition bitmap_set (bit_idx value : Z) : M bitmap unit :=
  ASSERT ((value =? 0) || (value =? 1)) ;;;
  let byte_idx := bit_idx / 8 in
  let bit_off := bit_idx mod 8 in
  y ← bits_get byte_idx;
  if negb (value =? 0)
  then bits_set byte_idx (u8 (Z.lor y (Z.shiftl BITMAP_MASK bit_off)))
  else bits_set byte_idx (u8 (Z.land y (Z.lnot (Z.shiftl BITMAP_MASK bit_off)))).

(** ** Specification: a bitmap is a function from positions to booleans *)
Definition nbits (b : bitmap) : Z := 8 * btmp_bytes_len b.

Definition bit (b : bitmap) (i : Z) : bool :=
  match array_get (bits b) (i / 8) with
  | Some y => Z.testbit y (i mod 8)
  | None => false
  end.

(** The length field is the array's length, the elements are bytes, and the
    positions fit the [int] that [bitmap_scan] returns. *)
Record bitmap_ok (b : bitmap) : Prop := {
  ok_len : 0 <= btmp_bytes_len b < 0x10000000;
  ok_array : Z.of_nat (length (bits b)) = btmp_bytes_len b;
  ok_bytes : Forall is_u8 (bits b);
}.

(** [cnt] free positions from [i] on, inside the map. *)
Definition free_run (b : bitmap) (i cnt : Z) : Prop :=
  0 <= i /\ i + cnt <= nbits b /\ forall j, i <= j < i + cnt -> bit b j = false.

(** The contract of the comment over [bitmap_scan]: the first run, or -1. *)
Definition scan_result (b : bitmap) (cnt r : Z) : Prop :=
  (r = -1 /\ forall i, ~ free_run b i cnt) \/
  (free_run b r cnt /\ forall i, free_run b i cnt -> r <= i).

Definition all_used (b : bitmap) : Prop := forall i, 0 <= i < nbits b -> bit b i = true.

Lemma byte_index_range b i :
  0 <= i < nbits b -> 0 <= i / 8 < btmp_bytes_len b.
Proof. unfold nbits. intros Hi. split; [apply Z.div_pos | apply Z.div_lt_upper_bound]; lia. Qed.

Lemma bit_off_range i : 0 <= i mod 8 < 8.
Proof. apply Z.mod_pos_bound. lia. Qed.

Lemma byte_at b i :
  bitmap_ok b -> 0 <= i < btmp_bytes_len b ->
  exists y, array_get (bits b) i = Some y /\ is_u8 y.
Proof.
  intros [_ Ha Hb] Hi. destruct (array_get_is_Some (bits b) i) as [y Hy]; [lia|].
  exists y. split; [done|]. unfold array_get in Hy. destruct (0 <=? i); [|done].
  by eapply Forall_lookup_1.
Qed.

Lemma bit_of_byte b i y :
  array_get (bits b) (i / 8) = Some y -> bit b i = Z.testbit y (i mod 8).
Proof. unfold bit. by intros ->. Qed.

Lemma bit_of_pair b k j y :
  0 <= j < 8 -> array_get (bits b) k = Some y -> bit b (k * 8 + j) = Z.testbit y j.
Proof.
  intros Hj Hy. unfold bit. rewrite Z.div_add_l, Z.div_small, Z.add_0_r, Hy by lia.
  by rewrite Z.add_comm, Z_mod_plus_full, Z.mod_small.
Qed.

Lemma wp_bits_get b i y Q :
  array_get (bits b) i = Some y -> Q y b -> wp (bits_get i) b Q.
Proof. intros Hy HQ. unfold bits_get. wp_steps. by eapply wp_from_option. Qed.

Lemma wp_bits_set b i v Q :
  0 <= i < Z.of_nat (length (bits b)) ->
  Q tt (Bitmap (btmp_bytes_len b) (bits_addr b) (<[Z.to_nat i := v]> (bits b))) ->
  wp (bits_set i v) b Q.
Proof. intros Hi HQ. unfold wp, bits_set. by rewrite array_set_eq. Qed.

Lemma mask_eq0 y k : 0 <= k -> (Z.land y (Z.shiftl BITMAP_MASK k) =? 0) = negb (Z.testbit y k).
Proof. intros Hk. unfold BITMAP_MASK. rewrite Z.shiftl_1_l. by apply land_pow2_eqb. Qed.

(** ** bitmap_scan_test *)
Lemma bitmap_scan_test_ok b i Q :
  bitmap_ok b -> 0 <= i < nbits b ->
  (forall z, (z =? 0) = negb (bit b i) -> Q z b) -> wp (bitmap_scan_test i) b Q.
Proof.
  intros Hok Hi HQ. unfold bitmap_scan_test.
  destruct (byte_at b (i / 8)) as (y & Hy & _); [done | by apply byte_index_range |].
  wp_step. eapply wp_bits_get; [exact Hy|]. wp_step. apply HQ.
  rewrite mask_eq0 by apply bit_off_range. by rewrite (bit_of_byte _ _ _ Hy).
Qed.

(** ** bitmap_init *)
Lemma bit_all_zero b i : Forall (fun y => y = 0) (bits b) -> bit b i = false.
Proof.
  intros Hz. unfold bit, array_get. destruct (0 <=? i / 8); [|done].
  destruct (bits b !! Z.to_nat (i / 8)) as [y|] eqn:E; [|done].
  rewrite (Forall_lookup_1 _ _ _ _ Hz E). apply Z.bits_0.
Qed.

Lemma bitmap_init_ok (b : bitmap) (Hok : bitmap_ok b) (Hbits : bits_addr b <> NULL) :
  wp bitmap_init b (fun _ b' =>
    bitmap_ok b' /\ btmp_bytes_len b' = btmp_bytes_len b /\ bits_addr b' = bits_addr b /\
    forall i, bit b' i = false).
Proof.
  destruct Hok as [Hlen Ha Hb]. unfold bitmap_init. wp_steps.
  apply wp_ASSERT; [by destruct (Z.eqb_spec (bits_addr b) NULL)|].
  apply (wp_for_loop _ _ _ _ (fun n b' =>
    btmp_bytes_len b' = btmp_bytes_len b /\ bits_addr b' = bits_addr b /\
    length (bits b') = length (bits b) /\
    forall k y, bits b' !! k = Some y -> Z.of_nat k < n -> y = 0)).
  - by repeat split; intros; lia.
  - intros n b' Hn (Hl & Haddr & Hlen' & Hz). apply wp_bits_set; [lia|].
    repeat split; simpl; rewrite ?length_insert; auto. intros k y.
    destruct (decide (k = Z.to_nat n)) as [->|Hne].
    + rewrite list_lookup_insert_eq by lia. by intros [= <-].
    + rewrite list_lookup_insert_ne by done. intros Hy Hk. apply (Hz k y); [done | lia].
  - intros b' (Hl & Haddr & Hlen' & Hz).
    assert (Forall (fun y => y = 0) (bits b')) as Hall.
    { apply Forall_lookup. intros k y Hk. apply (Hz k y Hk).
      apply lookup_lt_Some in Hk. lia. }
    repeat split; [lia | lia | lia | | done | done |].
    + eapply Forall_impl; [exact Hall|]. intros y ->. unfold is_u8. lia.
    + intros i. by apply bit_all_zero.
Qed.

(** ** bitmap_set *)
Lemma is_u8_testbit y k : is_u8 y -> 8 <= k -> Z.testbit y k = false.
Proof. intros Hy Hk. apply (testbit_high y 8); [exact Hy | lia]. Qed.

Lemma u8_testbit y k : 0 <= k < 8 -> Z.testbit (u8 y) k = Z.testbit y k.
Proof.
  intros Hk. unfold u8. change 0x100 with (2 ^ 8).
  by rewrite Z.mod_pow2_bits_low by lia.
Qed.

(** The byte [bitmap_set] stores. *)
Definition set_byte (y k value : Z) : Z :=
  if negb (value =? 0) then u8 (Z.lor y (Z.shiftl BITMAP_MASK k))
  else u8 (Z.land y (Z.lnot (Z.shiftl BITMAP_MASK k))).

Lemma set_byte_testbit y k value j :
  0 <= k -> 0 <= j < 8 -> value = 0 \/ value = 1 ->
  Z.testbit (set_byte y k value) j = if k =? j then negb (value =? 0) else Z.testbit y j.
Proof.
  intros Hk Hj Hv. unfold set_byte, BITMAP_MASK. rewrite Z.shiftl_1_l.
  destruct Hv as [-> | ->]; cbn [negb Z.eqb]; rewrite u8_testbit by lia.
  - rewrite testbit_land_lnot_pow2 by lia. by destruct (k =? j).
  - rewrite testbit_lor_pow2 by lia. by destruct (k =? j).
Qed.

Lemma set_byte_u8 y k value : is_u8 (set_byte y k value).
Proof. unfold set_byte. destruct (negb (value =? 0)); apply u8_range. Qed.

(** [bitmap_set] writes exactly the named position: the others, the length
    and the array's place are unchanged and the map stays well formed. *)
Lemma bitmap_set_ok (b : bitmap) (i value : Z)
    (Hok : bitmap_ok b) (Hi : 0 <= i < nbits b) (Hv : value = 0 \/ value = 1) :
  wp (bitmap_set i value) b (fun _ b' =>
    bitmap_ok b' /\ btmp_bytes_len b' = btmp_bytes_len b /\ bits_addr b' = bits_addr b /\
    forall j, 0 <= j -> bit b' j = if i =? j then negb (value =? 0) else bit b j).
Proof.
  unfold bitmap_set. wp_step. apply wp_ASSERT; [by destruct Hv as [-> | ->]|].
  pose proof (byte_index_range b i Hi) as Hk.
  destruct (byte_at b (i / 8) Hok Hk) as (y & Hy & Hy8).
  wp_step. eapply wp_bits_get; [exact Hy|].
  assert (forall Q, wp (bits_set (i / 8) (set_byte y (i mod 8) value)) b Q ->
    wp (if negb (value =? 0) then bits_set (i / 8) (u8 (Z.lor y (Z.shiftl BITMAP_MASK (i mod 8))))
        else bits_set (i / 8) (u8 (Z.land y (Z.lnot (Z.shiftl BITMAP_MASK (i mod 8)))))) b Q) as Hfold.
  { intros Q. unfold set_byte. by destruct (negb (value =? 0)). }
  apply Hfold. destruct Hok as [Hlen Ha Hb]. apply wp_bits_set; [lia|].
  split; [|split; [done | split; [done|]]].
  - split; simpl; [lia | by rewrite length_insert |].
    apply Forall_insert; [done | apply set_byte_u8].
  - intros j Hj. unfold bit at 1. simpl. rewrite array_get_insert by lia.
    pose proof (bit_off_range i) as Hoi. pose proof (bit_off_range j) as Hoj.
    destruct (Z.eqb_spec (i / 8) (j / 8)) as [Heq|Hne].
    + rewrite set_byte_testbit by (done || lia). rewrite (bit_of_byte b j y) by congruence.
      destruct (Z.eqb_spec i j) as [<-|Hij]; [by rewrite Z.eqb_refl|].
      destruct (Z.eqb_spec (i mod 8) (j mod 8)); [|done].
      pose proof (Z.div_mod i 8). pose proof (Z.div_mod j 8). lia.
    + by destruct (Z.eqb_spec i j) as [<-|].
Qed.

(** ** bitmap_scan *)
Lemma byte_full y :
  is_u8 y -> (forall k, 0 <= k < 8 -> Z.testbit y k = true) -> y = 0xff.
Proof.
  intros Hy H. apply Z.bits_inj_iff'. intros k Hk. change 0xff with (Z.ones 8).
  destruct (Z.lt_ge_cases k 8).
  - rewrite Z.ones_spec_low by lia. by apply H.
  - rewrite Z.ones_spec_high by lia. by apply is_u8_testbit.
Qed.

Lemma full_byte_testbit k : 0 <= k < 8 -> Z.testbit 0xff k = true.
Proof. intros Hk. change 0xff with (Z.ones 8). by apply Z.ones_spec_low. Qed.

(** Every position below byte [r] is used. *)
Definition used_below (b : bitmap) (n : Z) : Prop := forall i, 0 <= i < n -> bit b i = true.

Lemma used_below_byte b r :
  0 <= r -> used_below b (8 * r) -> array_get (bits b) r = Some 0xff ->
  used_below b (8 * (r + 1)).
Proof.
  intros Hr Hu Hy i Hi. destruct (Z.lt_ge_cases i (8 * r)); [apply Hu; lia|].
  replace i with (r * 8 + (i - 8 * r)) by lia.
  rewrite (bit_of_pair b r (i - 8 * r) 0xff) by (done || lia).
  apply full_byte_testbit. lia.
Qed.

Lemma skip_full_bytes_ok b fuel idx :
  bitmap_ok b -> 0 <= idx <= btmp_bytes_len b ->
  (Z.to_nat (btmp_bytes_len b - idx) < fuel)%nat -> used_below b (8 * idx) ->
  wp (skip_full_bytes fuel idx) b (fun r b' => b' = b /\ 0 <= r <= btmp_bytes_len b /\
    used_below b (8 * r) /\
    (r < btmp_bytes_len b -> exists y, array_get (bits b) r = Some y /\ is_u8 y /\ y <> 0xff)).
Proof.
  intros Hok. pose proof (ok_len b Hok) as Hlen.
  revert idx. induction fuel as [|fuel IH]; intros idx Hidx Hfuel Hu; [lia|].
  simpl. wp_steps; b2p; [|by repeat split; try lia].
  destruct (byte_at b idx) as (y & Hy & Hy8); [done | lia |].
  eapply wp_bits_get; [exact Hy|]. wp_steps; b2p.
  - subst y. rewrite u32_id by (unfold is_u32; lia).
    apply IH; [lia | lia |]. apply used_below_byte; [lia | done | done].
  - by repeat split; try lia; eauto.
Qed.

Lemma first_zero_bit_ok b fuel idx off y :
  array_get (bits b) idx = Some y -> is_u8 y -> y <> 0xff -> 0 <= off <= 8 ->
  (Z.to_nat (8 - off) < fuel)%nat -> (forall k, 0 <= k < off -> Z.testbit y k = true) ->
  wp (first_zero_bit fuel idx off) b (fun r b' => b' = b /\ 0 <= r < 8 /\
    (forall k, 0 <= k < r -> Z.testbit y k = true)).
Proof.
  intros Hy Hy8 Hne. revert off. induction fuel as [|fuel IH]; intros off Hoff Hfuel Hall; [lia|].
  assert (off < 8) as Hlt.
  { destruct (Z.lt_ge_cases off 8); [done|]. destruct Hne. apply byte_full; [done|].
    intros k Hk. apply Hall. lia. }
  simpl. wp_step. eapply wp_bits_get; [exact Hy|]. rewrite mask_eq0 by lia. wp_steps; b2p.
  - by repeat split; try lia.
  - rewrite u32_id by (unfold is_u32; lia). apply IH; [lia | lia |].
    intros k Hk. destruct (decide (k = off)) as [->|]; [done | apply Hall; lia].
Qed.

Lemma find_run_ok b fuel cnt i c :
  bitmap_ok b -> 0 < cnt -> is_u32 cnt -> 0 <= c < cnt -> c <= i <= nbits b ->
  (Z.to_nat (nbits b - i) < fuel)%nat ->
  (forall j, i - c <= j < i -> bit b j = false) ->
  (forall s, free_run b s cnt -> i - c <= s) ->
  wp (find_run fuel (nbits b) cnt i c) b (fun r b' => b' = b /\ scan_result b cnt (s32 r)).
Proof.
  intros Hok Hcnt Hcnt32. pose proof (ok_len b Hok) as Hlen.
  revert i c. induction fuel as [|fuel IH]; intros i c Hc Hi Hfuel Hfree Hmin; [lia|].
  unfold nbits, is_u32 in *. simpl. wp_step; b2p.
  - wp_step. apply bitmap_scan_test_ok; [done | unfold nbits; lia |].
    intros z Hz. rewrite Hz. destruct (bit b i) eqn:Hbit; cbn [negb].
    + destruct (Z.eqb_spec 0 cnt); [lia|].
      rewrite u32_id by (unfold is_u32; lia). apply IH; try lia.
      intros s Hs. pose proof (Hmin s Hs). destruct (Z.lt_ge_cases i s); [lia|].
      destruct Hs as (_ & _ & Hs). by rewrite Hs in Hbit by lia.
    + rewrite (u32_id (c + 1)) by (unfold is_u32; lia).
      assert (forall j, i - c <= j < i + 1 -> bit b j = false) as Hfree'.
      { intros j Hj. destruct (decide (j = i)) as [->|]; [done | apply Hfree; lia]. }
      destruct (Z.eqb_spec (c + 1) cnt) as [Heq|Hne].
      * wp_step. rewrite u32_id, s32_id by (unfold is_u32; lia).
        split; [done|]. right. split.
        -- repeat split; unfold nbits; try lia. intros j Hj. apply Hfree'. lia.
        -- intros s Hs. pose proof (Hmin s Hs). lia.
      * rewrite u32_id by (unfold is_u32; lia). apply IH; try lia.
        -- intros j Hj. apply Hfree'. lia.
        -- intros s Hs. pose proof (Hmin s Hs). lia.
  - wp_step. split; [done|]. left. split; [done|].
    intros s Hs. pose proof (Hmin s Hs). destruct Hs as (_ & Hs & _). unfold nbits in Hs. lia.
Qed.

Lemma used_below_free_run b n s cnt :
  0 < cnt -> used_below b n -> free_run b s cnt -> n <= s.
Proof.
  intros Hcnt Hu (Hs & _ & Hf). destruct (Z.lt_ge_cases s n); [|done].
  specialize (Hf s ltac:(lia)). rewrite Hu in Hf by lia. done.
Qed.

Lemma bitmap_scan_ok (b : bitmap) (cnt : Z)
    (Hok : bitmap_ok b) (Hcnt : 0 < cnt) (Hcnt32 : is_u32 cnt)
    (Hfree : exists i, 0 <= i < nbits b /\ bit b i = false) :
  wp (bitmap_scan cnt) b (fun r b' => b' = b /\ scan_result b cnt r).
Proof.
  pose proof (ok_len b Hok) as Hlen.
  unfold bitmap_scan. wp_steps. eapply wp_mono.
  { apply (skip_full_bytes_ok b _ 0); [done | lia | lia |]. intros i Hi. lia. }
  intros r b' (-> & Hr & Hu & Hy). wp_step.
  assert (r < btmp_bytes_len b) as Hlt.
  { destruct (Z.lt_ge_cases r (btmp_bytes_len b)); [done|].
    destruct Hfree as (i & Hi & Hbit). rewrite Hu in Hbit; [done|]. unfold nbits in Hi. lia. }
  apply wp_ASSERT; [by apply Z.ltb_lt|]. wp_step; b2p; [lia|].
  destruct (Hy Hlt) as (y & Hget & Hy8 & Hne). wp_step. eapply wp_mono.
  { apply (first_zero_bit_ok b _ r 0 y); try done; [lia | intros; lia]. }
  intros off b' (-> & Hoff & Hbits). cbv zeta.
  unfold nbits in *. rewrite (u32_id (r * 8 + off)) by (unfold is_u32; lia).
  rewrite (u32_id (btmp_bytes_len b * 8)) by (unfold is_u32; lia).
  replace (btmp_bytes_len b * 8) with (nbits b) by (unfold nbits; lia).
  wp_step. eapply wp_mono.
  { apply (find_run_ok b _ cnt (r * 8 + off) 0); try done; unfold nbits; try lia.
    intros s Hs. rewrite Z.sub_0_r. eapply used_below_free_run; [exact Hcnt | | exact Hs].
    intros i Hi. destruct (Z.lt_ge_cases i (8 * r)); [apply Hu; lia|].
    replace i with (r * 8 + (i - 8 * r)) by lia.
    rewrite (bit_of_pair b r (i - 8 * r) y) by (done || lia). apply Hbits. lia. }
  intros start b' (-> & Hres). wp_step. done.
Qed.

Lemma bitmap_scan_full (b : bitmap) (cnt : Z)
    (Hok : bitmap_ok b) (Hfull : all_used b) :
  bitmap_scan cnt b = Panic.
Proof.
  pose proof (ok_len b Hok) as Hlen.
  assert (wp (skip_full_bytes (S (Z.to_nat (btmp_bytes_len b))) 0) b
    (fun r b' => b' = b /\ r = btmp_bytes_len b)) as Hskip.
  { eapply wp_mono; [apply (skip_full_bytes_ok b _ 0); [done | lia | lia |]; intros i Hi; lia|].
    intros r b' (-> & Hr & Hu & Hy). split; [done|].
    destruct (Z.lt_ge_cases r (btmp_bytes_len b)) as [Hlt|]; [|lia].
    destruct (Hy Hlt) as (y & Hget & Hy8 & Hne). destruct Hne. apply byte_full; [done|].
    intros k Hk. rewrite <- (bit_of_pair b r k y) by done. apply Hfull. unfold nbits. lia. }
  apply wp_ok_inv in Hskip as (r & b' & Hs & -> & ->).
  unfold bitmap_scan. rewrite (bind_ok _ _ _ b b) by done. rewrite (bind_ok _ _ _ _ _ Hs).
  by rewrite Z.ltb_irrefl.
Qed.

Lemma all_used_dec b : bitmap_ok b -> all_used b \/ exists i, 0 <= i < nbits b /\ bit b i = false.
Proof.
  intros Hok. pose proof (ok_len b Hok).
  destruct (decide (Forall (fun i => bit b i = true) (seqZ 0 (nbits b)))) as [Hall|Hnot].
  - left. intros i Hi. rewrite Forall_forall in Hall. apply Hall. apply elem_of_seqZ. lia.
  - right. apply (not_Forall_Exists (fun i => bit b i = true)) in Hnot.
    apply Exists_exists in Hnot as (i & Hi & Hb). apply elem_of_seqZ in Hi.
    exists i. split; [lia|]. unfold compose in Hb. by destruct (bit b i).
Qed.

Lemma bitmap_set_outside b i value :
  bitmap_ok b -> nbits b <= i -> value = 0 \/ value = 1 -> bitmap_set i value b = Fault.
Proof.
  intros [Hlen Ha Hb] Hi Hv. unfold bitmap_set, bits_get, nbits in *.
  rewrite (bind_ok _ _ _ tt b) by (by destruct Hv as [-> | ->]).
  assert (btmp_bytes_len b <= i / 8) by (apply Z.div_le_lower_bound; lia).
  assert (array_get (bits b) (i / 8) = None) as Hnone.
  { unfold array_get. destruct (0 <=? i / 8); [|done]. apply lookup_ge_None. lia. }
  apply bind_fault. rewrite (bind_ok _ _ _ b b) by done. by rewrite Hnone.
Qed.

(** C20: on every well-formed map and every [cnt > 0], [bitmap_scan] either
    stops in its [ASSERT], exactly when no position is free, or returns the
    start of the first run of [cnt] free positions, -1 if there is none, and
    changes nothing.  In particular its three loops terminate. *)
Theorem bitmap_scan_correct (b : bitmap) (cnt : Z)
    (Hok : bitmap_ok b) (Hcnt : 0 < cnt) (Hcnt32 : is_u32 cnt) :
  (all_used b /\ bitmap_scan cnt b = Panic) \/
  (~ all_used b /\ exists r, bitmap_scan cnt b = Ok (r, b) /\ scan_result b cnt r).
Proof.
  destruct (all_used_dec b Hok) as [Hall|(i & Hi & Hbit)].
  - left. split; [done | by apply bitmap_scan_full].
  - right. split; [intros Hall; by rewrite Hall in Hbit|].
    destruct (wp_ok_inv _ _ _ (bitmap_scan_ok b cnt Hok Hcnt Hcnt32 ltac:(eauto)))
      as (r & b' & Hr & -> & Hres). eauto.
Qed.

(** [bitmap_set] on a position of the map writes exactly that position (the
    others, the length and the array's address unchanged, the map still well
    formed); a position past the end is an access outside the array, and a
    value other than 0 and 1 stops the kernel. *)
Theorem bitmap_set_correct (b : bitmap) (i value : Z) (Hok : bitmap_ok b) (Hi : 0 <= i) :
  if decide (value = 0 \/ value = 1) then
    if decide (i < nbits b) then
      exists b', bitmap_set i value b = Ok (tt, b') /\ bitmap_ok b' /\
        btmp_bytes_len b' = btmp_bytes_len b /\ bits_addr b' = bits_addr b /\
        forall j, 0 <= j -> bit b' j = if i =? j then (value =? 1) else bit b j
    else bitmap_set i value b = Fault
  else bitmap_set i value b = Panic.
Proof.
  case_decide as Hv; [case_decide as Hlt|].
  - destruct (wp_ok_inv _ _ _ (bitmap_set_ok b i value Hok ltac:(lia) Hv))
      as ([] & b' & Hr & Hok' & Hl & Ha & Hbit).
    exists b'. repeat split; try done; try apply Hok'. intros j Hj. rewrite Hbit by done.
    by destruct Hv as [-> | ->].
  - apply bitmap_set_outside; [done | lia | done].
  - unfold bitmap_set. apply bind_panic. unfold ASSERT, PANIC.
    destruct (Z.eqb_spec value 0); [tauto|]. by destruct (Z.eqb_spec value 1); [tauto|].
Qed.

(** A two-byte map with positions 0 to 8 used and 9 to 15 free. *)
Definition example_map : bitmap := Bitmap 2 MEM_BITMAP_BASE [0xff; 0x01].

Lemma example_map_ok : bitmap_ok example_map.
Proof. split; [done | done |]. repeat constructor; by unfold is_u8. Qed.

Lemma bitmap_scan_correct_witness :
  bitmap_scan 3 example_map = Ok (9, example_map) /\
  ((all_used example_map /\ bitmap_scan 3 example_map = Panic) \/
   (~ all_used example_map /\ exists r, bitmap_scan 3 example_map = Ok (r, example_map) /\
      scan_result example_map 3 r)).
Proof.
  split; [by vm_compute|].
  apply (bitmap_scan_correct example_map 3 example_map_ok); unfold is_u32; lia.
Defined.

Lemma bitmap_set_correct_witness :
  exists b', bitmap_set 12 1 example_map = Ok (tt, b') /\ bitmap_ok b' /\
    btmp_bytes_len b' = 2 /\ bits_addr b' = MEM_BITMAP_BASE /\
    forall j, 0 <= j -> bit b' j = if 12 =? j then (1 =? 1) else bit example_map j.
Proof. apply (bitmap_set_correct example_map 12 1 example_map_ok). lia. Defined.
