(* ===== verification/LinkedList.v ===== *)
(** * Intrusive doubly linked lists: lib/kernel/list.c, lib/kernel/list.h

    Nodes live in a store indexed by address; a [struct list] at address [l]
    is its two sentinel nodes, [head] at [l] and [tail] at [l + 8].  The
    operations follow pointers as the code does, a dangling pointer is a
    fault, and the interrupt flag is part of the state because the two
    functions that change links run with interrupts off.

    The specification is a map [L] from list addresses to their contents:
    [lists_ok] says that the store holds exactly those lists, pairwise
    disjoint, and each operation is shown to be a function on [L]. *)
From stdpp Require Import base numbers list gmap fin_maps.
From Stdlib Require Import ZArith Lia.
From S2P Require Import Prelude Globals Interrupt.

Record list_node := Node { prev : Z; next : Z }.

Record lstate := LState { nodes : gmap Z list_node; eflags : Z }.

(** The interrupt functions act on the [eflags] component. *)
Definition eflags_lens : lens lstate Z.
Proof.
  refine {| view := eflags; put := fun e s => LState (nodes s) e |}; by intros; try destruct s.
Defined.

Definition node_at (n : Z) : M lstate list_node :=
  s ← get; from_option_M (nodes s !! n).

Definition store_node (n : Z) (v : list_node) : M lstate unit :=
  modify (fun s => LState (<[n := v]> (nodes s)) (eflags s)).

Definition get_prev (n : Z) : M lstate Z := v ← node_at n; mret (prev v).
Definition get_next (n : Z) : M lstate Z := v ← node_at n; mret (next v).
Definition set_prev (n p : Z) : M lstate unit := v ← node_at n; store_node n (Node p (next v)).
Definition set_next (n p : Z) : M lstate unit := v ← node_at n; store_node n (Node (prev v) p).

(** [&list->head] and [&list->tail]. *)
Definition head_of (l : Z) : Z := l.
Definition tail_of (l : Z) : Z := l + 8.
Arguments head_of : simpl never.
Arguments tail_of : simpl never.

Definition list_init (l : Z) : M lstate unit :=
  set_prev (head_of l) NULL ;;;
  set_next (head_of l) (tail_of l) ;;;
  set_prev (tail_of l) (head_of l) ;;;
  set_next (tail_of l) NULL.

Definition list_insert_before (before node : Z) : M lstate unit :=
  old_status ← zoom eflags_lens intr_disable;
  p ← get_prev before;
  set_next p node ;;;
  p ← get_prev before;
  set_prev node p ;;;
  set_next node before ;;;
  set_prev before node ;;;
  _ ← zoom eflags_lens (set_intr_status old_status);
  mret tt.

Definition list_push (l node : Z) : M lstate unit :=
  n ← get_next (head_of l); list_insert_before n node.

Definition list_append (l node : Z) : M lstate unit :=
  list_insert_before (tail_of l) node.

Definition list_remove (node : Z) : M lstate unit :=
  old_status ← zoom eflags_lens intr_disable;
  p ← get_prev node;
  n ← get_next node;
  set_next p n ;;;
  n ← get_next node;
  p ← get_prev node;
  set_prev n p ;;;
  _ ← zoom eflags_lens (set_intr_status old_status);
  mret tt.

Definition list_pop (l : Z) : M lstate Z :=
  top ← get_next (head_of l);
  list_remove top ;;;
  mret top.

(** The traversals.  [fuel] bounds the iterations; each caller passes one more
    than the number of nodes in the store. *)
Fixpoint node_find_loop (fuel : nat) (tail node curr : Z) : M lstate Z :=
  match fuel with
  | O => nofuel
  | S fuel' =>
      if curr =? tail then mret 0
      else if curr =? node then mret 1
      else n ← get_next curr; node_find_loop fuel' tail node n
  end.

Definition node_find (l node : Z) : M lstate Z :=
  s ← get;
  curr ← get_next (head_of l);
  node_find_loop (S (size (nodes s))) (tail_of l) node curr.

Fixpoint list_traversal_loop (fuel : nat) (tail : Z) (func : Z -> Z -> Z) (args curr : Z) : M lstate Z :=
  match fuel with
  | O => nofuel
  | S fuel' =>
      if curr =? tail then mret NULL
      else if negb (func curr args =? 0) then mret curr
      else n ← get_next curr; list_traversal_loop fuel' tail func args n
  end.

Definition list_traversal (l : Z) (func : Z -> Z -> Z) (args : Z) : M lstate Z :=
  s ← get;
  curr ← get_next (head_of l);
  list_traversal_loop (S (size (nodes s))) (tail_of l) func args curr.

Fixpoint list_len_loop (fuel : nat) (tail curr len : Z) : M lstate Z :=
  match fuel with
  | O => nofuel
  | S fuel' =>
      if curr =? tail then mret len
      else n ← get_next curr; list_len_loop fuel' tail n (u32 (len + 1))
  end.

Definition list_len (l : Z) : M lstate Z :=
  s ← get;
  curr ← get_next (head_of l);
  list_len_loop (S (size (nodes s))) (tail_of l) curr 0.

Definition list_empty (l : Z) : M lstate Z :=
  n ← get_next (head_of l);
  mret (if n =? tail_of l then 1 else 0).

(** ** Specification *)

(** The nodes of the list at [l] with contents [xs], in order. *)
Definition path (l : Z) (xs : list Z) : list Z := head_of l :: xs ++ [tail_of l].

(** [a] and [b] point at each other. *)
Definition link (ns : gmap Z list_node) (a b : Z) : Prop :=
  (next <$> ns !! a) = Some b /\ (prev <$> ns !! b) = Some a.

Fixpoint chain (ns : gmap Z list_node) (p : list Z) : Prop :=
  match p with
  | a :: (b :: _) as r => link ns a b /\ chain ns r
  | _ => True
  end.
Arguments path : simpl never.

Definition is_list (ns : gmap Z list_node) (l : Z) (xs : list Z) : Prop :=
  chain ns (path l xs) /\ NoDup (path l xs).

Record lists_ok (ns : gmap Z list_node) (L : gmap Z (list Z)) : Prop := {
  ok_lists : forall l xs, L !! l = Some xs -> is_list ns l xs;
  ok_disjoint : forall l1 l2 xs1 xs2, l1 <> l2 ->
    L !! l1 = Some xs1 -> L !! l2 = Some xs2 ->
    forall n, n ∈ path l1 xs1 -> n ∈ path l2 xs2 -> False;
}.

(** A node of the store that is in no list. *)
Definition unlinked (ns : gmap Z list_node) (L : gmap Z (list Z)) (n : Z) : Prop :=
  n ∈ dom ns /\ forall l xs, L !! l = Some xs -> n ∉ path l xs.

(** ** Field accesses *)
Lemma wp_node_at n v s Q : nodes s !! n = Some v -> Q v s -> wp (node_at n) s Q.
Proof. intros Hv HQ. unfold node_at. wp_steps. by eapply wp_from_option. Qed.

Lemma wp_get_prev n v s Q : nodes s !! n = Some v -> Q (prev v) s -> wp (get_prev n) s Q.
Proof. intros Hv HQ. unfold get_prev. wp_step. by eapply wp_node_at. Qed.

Lemma wp_get_next n v s Q : nodes s !! n = Some v -> Q (next v) s -> wp (get_next n) s Q.
Proof. intros Hv HQ. unfold get_next. wp_step. by eapply wp_node_at. Qed.

Lemma get_prev_eq n v s : nodes s !! n = Some v -> get_prev n s = Ok (prev v, s).
Proof. intros Hv. unfold get_prev, node_at. cbv [mbind M_bind get outcome_bind]. by rewrite Hv. Qed.

Lemma get_next_eq n v s : nodes s !! n = Some v -> get_next n s = Ok (next v, s).
Proof. intros Hv. unfold get_next, node_at. cbv [mbind M_bind get outcome_bind]. by rewrite Hv. Qed.

Lemma set_next_eq n p v s :
  nodes s !! n = Some v ->
  set_next n p s = Ok (tt, LState (<[n := Node (prev v) p]> (nodes s)) (eflags s)).
Proof. intros Hv. unfold set_next, node_at. cbv [mbind M_bind get outcome_bind]. by rewrite Hv. Qed.

Lemma set_prev_dangling n p s : nodes s !! n = None -> set_prev n p s = Fault.
Proof. intros Hv. unfold set_prev, node_at. cbv [mbind M_bind get outcome_bind]. by rewrite Hv. Qed.

Lemma wp_set_prev n p v s Q :
  nodes s !! n = Some v -> Q tt (LState (<[n := Node p (next v)]> (nodes s)) (eflags s)) ->
  wp (set_prev n p) s Q.
Proof. intros Hv HQ. unfold set_prev. wp_step. by eapply wp_node_at. Qed.

Lemma wp_set_next n p v s Q :
  nodes s !! n = Some v -> Q tt (LState (<[n := Node (prev v) p]> (nodes s)) (eflags s)) ->
  wp (set_next n p) s Q.
Proof. intros Hv HQ. unfold set_next. wp_step. by eapply wp_node_at. Qed.

Lemma wp_intr_disable s Q :
  Q (status_of (if_flag (eflags s))) (LState (nodes s) (set_if false (eflags s))) ->
  wp (zoom eflags_lens intr_disable) s Q.
Proof. intros HQ. wp_step. by eapply wp_ok; [apply intr_disable_eq|]. Qed.

Lemma wp_set_intr_status b s Q :
  Q (status_of (if_flag (eflags s))) (LState (nodes s) (set_if b (eflags s))) ->
  wp (zoom eflags_lens (set_intr_status (status_of b))) s Q.
Proof. intros HQ. wp_step. by eapply wp_ok; [apply set_intr_status_eq|]. Qed.

(** One step of a list operation; the lookups are left to [eauto] and the map
    simplifier. *)
Ltac node_lookup := simpl; solve [eassumption | simplify_map_eq; eauto].
Ltac list_step :=
  first
  [ apply wp_intr_disable
  | apply wp_set_intr_status
  | wp_step
  | eapply wp_get_prev; [node_lookup|]
  | eapply wp_get_next; [node_lookup|]
  | eapply wp_set_prev; [node_lookup|]
  | eapply wp_set_next; [node_lookup|] ]; simpl.

(** ** Chains *)
Lemma chain_cons ns a b q : chain ns (a :: b :: q) <-> link ns a b /\ chain ns (b :: q).
Proof. done. Qed.

Lemma chain_app ns q0 a q :
  chain ns (q0 ++ a :: q) <-> chain ns (q0 ++ [a]) /\ chain ns (a :: q).
Proof.
  induction q0 as [|x q0 IH]; simpl; [tauto|].
  destruct q0 as [|y q0]; simpl in *; [tauto|]. rewrite IH. tauto.
Qed.

(** A chain only depends on the forward links of all nodes but the last and
    the backward links of all nodes but the first. *)
Lemma chain_frame ns ns' p :
  (forall x, x ∈ removelast p -> next <$> ns' !! x = next <$> ns !! x) ->
  (forall x, x ∈ tl p -> prev <$> ns' !! x = prev <$> ns !! x) ->
  chain ns p -> chain ns' p.
Proof.
  induction p as [|a p IH]; [done|]. destruct p as [|b p]; [done|]. intros Hn Hp [[H1 H2] H3].
  split; [split|].
  - rewrite Hn; [done|]. simpl. destruct p; set_solver.
  - rewrite Hp; [done|]. set_solver.
  - apply IH; [| |done].
    + intros x Hx. apply Hn. change (removelast (a :: b :: p)) with (a :: removelast (b :: p)). set_solver.
    + intros x Hx. apply Hp. set_solver.
Qed.

Lemma chain_same ns ns' p :
  (forall x, x ∈ p -> ns' !! x = ns !! x) -> chain ns p -> chain ns' p.
Proof.
  intros H. apply chain_frame; intros x Hx; rewrite H; try done.
  - destruct p using rev_ind; [done|]. rewrite removelast_last in Hx. set_solver.
  - destruct p; [done|]. set_solver.
Qed.

(** Two kept segments joined by a new middle. *)
Lemma chain_splice ns ns' q0 a m b q2 :
  chain ns (q0 ++ [a]) -> chain ns (b :: q2) ->
  (forall x, x ∈ q0 ++ q2 -> ns' !! x = ns !! x) ->
  prev <$> ns' !! a = prev <$> ns !! a -> next <$> ns' !! b = next <$> ns !! b ->
  chain ns' (a :: m ++ [b]) ->
  chain ns' (q0 ++ a :: m ++ b :: q2).
Proof.
  intros H1 H2 Hsame Ha Hb Hm. apply chain_app. split.
  - revert H1. apply chain_frame.
    + rewrite removelast_last. intros x Hx. rewrite Hsame; [done|]. set_solver.
    + intros x Hx. destruct (decide (x = a)) as [->|]; [done|].
      rewrite Hsame; [done|]. destruct q0; set_solver.
  - apply (chain_app ns' (a :: m)). split; [exact Hm|].
    revert H2. apply chain_frame.
    + intros x Hx. destruct (decide (x = b)) as [->|]; [done|]. rewrite Hsame; [done|].
      destruct q2 as [|y q2] using rev_ind; [set_solver|].
      rewrite app_comm_cons, removelast_last in Hx. set_solver.
    + intros x Hx. simpl in Hx. rewrite Hsame; [done|]. set_solver.
Qed.

Lemma link_nodes ns a b :
  link ns a b -> exists na nb, ns !! a = Some na /\ ns !! b = Some nb /\ next na = b /\ prev nb = a.
Proof.
  intros [H1 H2]. apply fmap_Some in H1 as (na & Ha & ->). apply fmap_Some in H2 as (nb & Hb & ->).
  eauto 10.
Qed.

Lemma link_intro ns a b na nb :
  ns !! a = Some na -> ns !! b = Some nb -> next na = b -> prev nb = a -> link ns a b.
Proof. intros Ha Hb <- <-. unfold link. by rewrite Ha, Hb. Qed.

(** ** The two link changes, on paths *)
Lemma list_insert_before_chain s q0 a b q2 n :
  chain (nodes s) (q0 ++ a :: b :: q2) -> NoDup (q0 ++ a :: b :: q2) ->
  n ∈ dom (nodes s) -> n ∉ q0 ++ a :: b :: q2 ->
  wp (list_insert_before b n) s (fun _ s' =>
    chain (nodes s') (q0 ++ a :: n :: b :: q2) /\ eflags s' = eflags s /\
    dom (nodes s') = dom (nodes s) /\
    forall x, x ∉ [a; n; b] -> nodes s' !! x = nodes s !! x).
Proof.
  intros Hc Hnd Hn Hfresh. apply chain_app in Hc as [H1 Hc].
  apply chain_cons in Hc as [Hl H2].
  destruct (link_nodes _ _ _ Hl) as (na & nb & Ha & Hb & Hna & Hnb).
  apply elem_of_dom in Hn as [nn Hn].
  apply NoDup_app in Hnd as (_ & Hq0 & Hnd). apply NoDup_cons in Hnd as [Hab Hnd].
  apply NoDup_cons in Hnd as [Hbq2 _].
  assert (a <> b /\ n <> a /\ n <> b) as (Hne1 & Hne2 & Hne3) by set_solver.
  unfold list_insert_before. repeat (list_step; rewrite ?Hnb).
  split; [|split; [by autorewrite with goos | split]].
  - apply (chain_splice (nodes s) _ q0 a [n] b q2); try done.
    + intros x Hx. rewrite !lookup_insert_ne; set_solver.
    + map_lookup. by rewrite Ha.
    + map_lookup. by rewrite Hb.
    + simpl. unfold link. by map_lookup.
  - rewrite !dom_insert_L. apply elem_of_dom_2 in Ha, Hb, Hn. set_solver.
  - intros x Hx. rewrite !lookup_insert_ne; set_solver.
Qed.

Lemma list_remove_chain s q0 a n b q2 :
  chain (nodes s) (q0 ++ a :: n :: b :: q2) -> NoDup (q0 ++ a :: n :: b :: q2) ->
  wp (list_remove n) s (fun _ s' =>
    chain (nodes s') (q0 ++ a :: b :: q2) /\ eflags s' = eflags s /\
    dom (nodes s') = dom (nodes s) /\
    forall x, x ∉ [a; b] -> nodes s' !! x = nodes s !! x).
Proof.
  intros Hc Hnd. apply chain_app in Hc as [H1 Hc].
  apply chain_cons in Hc as [Hl1 Hc]. apply chain_cons in Hc as [Hl2 H2].
  destruct (link_nodes _ _ _ Hl1) as (na & nn & Ha & Hn & Hna & Hnn).
  destruct (link_nodes _ _ _ Hl2) as (nn' & nb & Hn' & Hb & Hnn' & Hnb).
  assert (nn' = nn) as -> by congruence.
  apply NoDup_app in Hnd as (_ & Hq0 & Hnd). apply NoDup_cons in Hnd as [Hab Hnd].
  apply NoDup_cons in Hnd as [Hnq Hnd]. apply NoDup_cons in Hnd as [Hbq2 _].
  assert (a <> b /\ a <> n /\ n <> b) as (Hne1 & Hne2 & Hne3) by set_solver.
  unfold list_remove. repeat (list_step; rewrite ?Hnn, ?Hnn').
  split; [|split; [by autorewrite with goos | split]].
  - apply (chain_splice (nodes s) _ q0 a [] b q2); try done.
    + intros x Hx. rewrite !lookup_insert_ne; set_solver.
    + map_lookup. by rewrite Ha.
    + map_lookup. by rewrite Hb.
    + simpl. unfold link. by map_lookup.
  - rewrite !dom_insert_L. apply elem_of_dom_2 in Ha, Hb. set_solver.
  - intros x Hx. rewrite !lookup_insert_ne; set_solver.
Qed.

(** ** Operations as functions on the map of lists *)

(** What every operation guarantees: the store now holds the lists [L'], over
    the same nodes, and EFLAGS is as it was. *)
Definition list_post (s : lstate) (L' : gmap Z (list Z)) (s' : lstate) : Prop :=
  lists_ok (nodes s') L' /\ eflags s' = eflags s /\ dom (nodes s') = dom (nodes s).

Lemma lists_ok_update_gen ns ns' L l xs' :
  lists_ok ns L -> is_list ns' l xs' ->
  (forall x, (forall xs, L !! l = Some xs -> x ∉ path l xs) -> x ∉ path l xs' -> ns' !! x = ns !! x) ->
  (forall x, x ∈ path l xs' -> (exists xs, L !! l = Some xs /\ x ∈ path l xs) \/ unlinked ns L x) ->
  lists_ok ns' (<[l := xs']> L).
Proof.
  intros [Hl Hd] Hnew Hsame Hsub.
  assert (forall l0 xs0 x, l <> l0 -> L !! l0 = Some xs0 -> x ∈ path l xs' -> x ∈ path l0 xs0 -> False)
    as Hcross.
  { intros l0 xs0 x Hne Hl0 Hx Hx0. destruct (Hsub x Hx) as [(xs & HL & Hx')|[_ Hun]].
    - by eapply (Hd l l0).
    - by eapply Hun. }
  split.
  - intros l0 xs0. destruct (decide (l0 = l)) as [->|Hne].
    + rewrite lookup_insert_eq. by intros [= <-].
    + rewrite lookup_insert_ne by done. intros Hl0. destruct (Hl _ _ Hl0) as [Hc Hnd].
      split; [|done]. revert Hc. apply chain_same. intros x Hx. apply Hsame.
      * intros xs HL Hx'. by eapply (Hd l0 l).
      * intros Hx'. by eapply Hcross.
  - intros l1 l2 xs1 xs2 Hne. destruct (decide (l1 = l)) as [->|H1].
    + rewrite lookup_insert_eq, lookup_insert_ne by done. intros [= <-] H2 x. by apply Hcross.
    + rewrite lookup_insert_ne by done. intros HL1. destruct (decide (l2 = l)) as [->|H2].
      * rewrite lookup_insert_eq. intros [= <-] x Hx Hx'. by apply (Hcross l1 xs1 x).
      * rewrite lookup_insert_ne by done. by apply Hd.
Qed.

Lemma lists_ok_update ns ns' L l xs xs' :
  lists_ok ns L -> L !! l = Some xs -> is_list ns' l xs' ->
  (forall x, x ∉ path l xs -> x ∉ path l xs' -> ns' !! x = ns !! x) ->
  (forall x, x ∈ path l xs' -> x ∈ path l xs \/ unlinked ns L x) ->
  lists_ok ns' (<[l := xs']> L).
Proof.
  intros Hok HL Hnew Hsame Hsub. apply (lists_ok_update_gen ns); [done | done | |].
  - intros x Hx. apply Hsame. by apply Hx.
  - intros x Hx. destruct (Hsub x Hx); eauto.
Qed.

Lemma path_split l pre post : path l (pre ++ post) = (head_of l :: pre) ++ (post ++ [tail_of l]).
Proof. unfold path. by rewrite <- app_assoc. Qed.

Lemma snoc_of_cons (x : Z) pre : exists q0 a, x :: pre = q0 ++ [a].
Proof. destruct (@exists_last _ (x :: pre)) as (q0 & a & Heq); [done|]. by exists q0, a. Qed.

Lemma list_insert_before_ok s L l pre post b q2 n :
  lists_ok (nodes s) L -> L !! l = Some (pre ++ post) -> post ++ [tail_of l] = b :: q2 ->
  unlinked (nodes s) L n ->
  wp (list_insert_before b n) s (fun _ s' => list_post s (<[l := pre ++ n :: post]> L) s').
Proof.
  intros Hok HL Hb Hun. destruct (ok_lists _ _ Hok l _ HL) as [Hc Hnd].
  destruct Hun as [Hdom Hun]. pose proof (Hun l _ HL) as Hn.
  assert (path l (pre ++ n :: post) = (head_of l :: pre) ++ n :: b :: q2) as Hpath'.
  { rewrite path_split. simpl. by rewrite Hb. }
  assert (path l (pre ++ post) = (head_of l :: pre) ++ b :: q2) as Hpath by by rewrite path_split, Hb.
  destruct (snoc_of_cons (head_of l) pre) as (q0 & a & Hq0). rewrite Hq0, <- app_assoc in Hpath, Hpath'.
  cbn [app] in Hpath, Hpath'. rewrite Hpath in *.
  eapply wp_mono; [by apply (list_insert_before_chain s q0 a b q2)|].
  intros _ s' (Hc' & He & Hd & Hsame). split; [|done].
  eapply lists_ok_update; [exact Hok | exact HL | | |].
  - split; rewrite Hpath'; [done|]. apply NoDup_app in Hnd as (? & ? & Hnd).
    apply NoDup_cons in Hnd as [? Hnd]. apply NoDup_app. split; [done|]. split; [set_solver|].
    rewrite !NoDup_cons in *. set_solver.
  - rewrite Hpath, Hpath'. intros x _ Hx. apply Hsame. set_solver.
  - rewrite Hpath, Hpath'. intros x Hx. destruct (decide (x = n)) as [->|]; [by right|].
    left. set_solver.
Qed.

Lemma list_remove_ok s L l pre post n :
  lists_ok (nodes s) L -> L !! l = Some (pre ++ n :: post) ->
  wp (list_remove n) s (fun _ s' => list_post s (<[l := pre ++ post]> L) s' /\
    unlinked (nodes s') (<[l := pre ++ post]> L) n).
Proof.
  intros Hok HL. destruct (ok_lists _ _ Hok l _ HL) as [Hc Hnd].
  assert (exists b q2, post ++ [tail_of l] = b :: q2) as (b & q2 & Hb).
  { destruct post; simpl; eauto. }
  assert (path l (pre ++ n :: post) = (head_of l :: pre) ++ n :: b :: q2) as Hpath.
  { rewrite path_split. simpl. by rewrite Hb. }
  assert (path l (pre ++ post) = (head_of l :: pre) ++ b :: q2) as Hpath' by by rewrite path_split, Hb.
  destruct (snoc_of_cons (head_of l) pre) as (q0 & a & Hq0). rewrite Hq0, <- app_assoc in Hpath, Hpath'.
  cbn [app] in Hpath, Hpath'. rewrite Hpath in *.
  assert (n ∈ dom (nodes s)) as Hdom.
  { apply chain_app in Hc as [_ Hc]. apply chain_cons in Hc as [Hl _].
    destruct (link_nodes _ _ _ Hl) as (? & ? & _ & Hn & _). by eapply elem_of_dom_2. }
  assert (NoDup (q0 ++ a :: b :: q2) /\ n ∉ q0 ++ a :: b :: q2) as [Hnd' Hn].
  { rewrite NoDup_app, !NoDup_cons in *. set_solver. }
  eapply wp_mono; [by apply (list_remove_chain s q0 a n b q2)|].
  intros _ s' (Hc' & He & Hd & Hsame). split.
  - split; [|done]. eapply lists_ok_update; [exact Hok | exact HL | | |].
    + split; rewrite Hpath'; done.
    + rewrite Hpath, Hpath'. intros x _ Hx. apply Hsame. set_solver.
    + rewrite Hpath, Hpath'. intros x Hx. left. set_solver.
  - split; [by rewrite Hd|]. intros l0 xs0. destruct (decide (l0 = l)) as [->|Hne].
    + rewrite lookup_insert_eq. intros [= <-]. by rewrite Hpath'.
    + rewrite lookup_insert_ne by done. intros Hl0 Hn0.
      apply (ok_disjoint _ _ Hok l0 l _ _ Hne Hl0 HL n Hn0). rewrite Hpath. set_solver.
Qed.

(** Nodes that are in no list stay so when another node is linked or
    unlinked. *)
Lemma unlinked_insert ns ns' L l pre post n m :
  unlinked ns L m -> L !! l = Some (pre ++ post) -> m <> n -> dom ns' = dom ns ->
  unlinked ns' (<[l := pre ++ n :: post]> L) m.
Proof.
  intros [Hd Hun] HL Hne Hdom. split; [by rewrite Hdom|]. intros l0 xs0.
  destruct (decide (l0 = l)) as [->|].
  - rewrite lookup_insert_eq. intros [= <-]. pose proof (Hun l _ HL).
    rewrite path_split in *. set_solver.
  - rewrite lookup_insert_ne by done. apply Hun.
Qed.

Lemma unlinked_remove ns ns' L l pre post n m :
  unlinked ns L m -> L !! l = Some (pre ++ n :: post) -> dom ns' = dom ns ->
  unlinked ns' (<[l := pre ++ post]> L) m.
Proof.
  intros [Hd Hun] HL Hdom. split; [by rewrite Hdom|]. intros l0 xs0.
  destruct (decide (l0 = l)) as [->|].
  - rewrite lookup_insert_eq. intros [= <-]. pose proof (Hun l _ HL).
    rewrite path_split in *. set_solver.
  - rewrite lookup_insert_ne by done. apply Hun.
Qed.

(** The first node after the head. *)
Lemma wp_first s L l xs Q :
  lists_ok (nodes s) L -> L !! l = Some xs ->
  (forall b q2, xs ++ [tail_of l] = b :: q2 -> Q b s) ->
  wp (get_next (head_of l)) s Q.
Proof.
  intros Hok HL HQ. destruct (ok_lists _ _ Hok l xs HL) as [Hc _].
  assert (exists b q2, xs ++ [tail_of l] = b :: q2) as (b & q2 & Hb) by (destruct xs; simpl; eauto).
  unfold path in Hc. rewrite Hb in Hc. apply chain_cons in Hc as [Hl _].
  destruct (link_nodes _ _ _ Hl) as (na & nb & Ha & _ & Hna & _).
  eapply wp_get_next; [exact Ha|]. rewrite Hna. eauto.
Qed.

Lemma list_push_ok s L l xs n :
  lists_ok (nodes s) L -> L !! l = Some xs -> unlinked (nodes s) L n ->
  wp (list_push l n) s (fun _ s' => list_post s (<[l := n :: xs]> L) s').
Proof.
  intros Hok HL Hun. unfold list_push. wp_step. eapply wp_first; [done | done |].
  intros b q2 Hb. by eapply (list_insert_before_ok s L l [] xs).
Qed.

Lemma list_append_ok s L l xs n :
  lists_ok (nodes s) L -> L !! l = Some xs -> unlinked (nodes s) L n ->
  wp (list_append l n) s (fun _ s' => list_post s (<[l := xs ++ [n]]> L) s').
Proof.
  intros Hok HL Hun. unfold list_append.
  eapply (list_insert_before_ok s L l xs []); [done | by rewrite app_nil_r | done | done].
Qed.

Lemma list_pop_ok s L l x xs :
  lists_ok (nodes s) L -> L !! l = Some (x :: xs) ->
  wp (list_pop l) s (fun r s' => r = x /\ list_post s (<[l := xs]> L) s' /\
    unlinked (nodes s') (<[l := xs]> L) x).
Proof.
  intros Hok HL. unfold list_pop. wp_step. eapply wp_first; [done | done |].
  intros b q2 [= <- _]. wp_step.
  eapply wp_mono; [by apply (list_remove_ok s L l [] xs x)|]. intros [] s' H. by wp_step.
Qed.

Lemma list_init_ok s L l :
  lists_ok (nodes s) L -> unlinked (nodes s) L (head_of l) -> unlinked (nodes s) L (tail_of l) ->
  wp (list_init l) s (fun _ s' => list_post s (<[l := []]> L) s').
Proof.
  intros Hok Hh Ht. pose proof Hh as [[vh Hvh]%elem_of_dom _]. pose proof Ht as [[vt Hvt]%elem_of_dom _].
  assert (head_of l <> tail_of l) as Hne by (unfold head_of, tail_of; lia).
  unfold list_init. repeat list_step. split; [|split; [done|]].
  - apply (lists_ok_update_gen (nodes s)); [done | | |].
    + unfold is_list, path. simpl. split.
      * unfold link. by map_lookup.
      * rewrite NoDup_cons. split; [set_solver | apply NoDup_singleton].
    + intros x _ Hx. unfold path in Hx. simpl in *. rewrite !lookup_insert_ne; set_solver.
    + intros x Hx. right. unfold path in Hx. simpl in Hx.
      apply elem_of_cons in Hx as [->|Hx]; [done|]. by apply list_elem_of_singleton in Hx as ->.
  - simpl. rewrite !dom_insert_L. apply elem_of_dom_2 in Hvh, Hvt. set_solver.
Qed.

(** ** Traversals *)
Lemma chain_dom ns a p : p <> [] -> chain ns (a :: p) -> forall x, x ∈ a :: p -> x ∈ dom ns.
Proof.
  revert a. induction p as [|b p IH]; intros a Hne Hc x Hx; [done|].
  apply chain_cons in Hc as [Hl Hc].
  destruct (link_nodes _ _ _ Hl) as (na & nb & Ha%elem_of_dom_2 & Hb%elem_of_dom_2 & _).
  apply elem_of_cons in Hx as [->|Hx]; [done|]. destruct p as [|c p]; [set_solver|].
  by apply (IH b).
Qed.

(** The iteration bound of the traversals is never reached. *)
(** *** New nodes *)
Lemma lists_path_dom ns L l xs x : lists_ok ns L -> L !! l = Some xs -> x ∈ path l xs -> x ∈ dom ns.
Proof.
  intros Hok HL Hx. destruct (ok_lists _ _ Hok l xs HL) as [Hc _].
  eapply chain_dom; [|exact Hc | exact Hx]. by destruct xs.
Qed.

Lemma chain_weaken ns ns' p : ns ⊆ ns' -> chain ns p -> chain ns' p.
Proof.
  intros Hsub. induction p as [|a [|b p] IH]; simpl; [done | done |]. intros [Hl Hc]. split; [|by apply IH].
  destruct (link_nodes _ _ _ Hl) as (na & nb & Ha & Hb & E1 & E2).
  apply (link_intro _ _ _ na nb); try done; by eapply lookup_weaken.
Qed.

Lemma lists_ok_weaken ns ns' L : ns ⊆ ns' -> lists_ok ns L -> lists_ok ns' L.
Proof.
  intros Hsub [Hl Hd]. split; [|exact Hd]. intros l xs HL. destruct (Hl l xs HL) as [Hc Hnd].
  split; [by eapply chain_weaken | done].
Qed.

Lemma unlinked_weaken ns ns' L n : dom ns ⊆ dom ns' -> unlinked ns L n -> unlinked ns' L n.
Proof. intros Hsub [Hn Hun]. split; [by apply Hsub | done]. Qed.

Lemma unlinked_fresh ns ns' L n : lists_ok ns L -> n ∉ dom ns -> n ∈ dom ns' -> unlinked ns' L n.
Proof.
  intros Hok Hn Hn'. split; [done|]. intros l xs HL Hx. apply Hn. by eapply lists_path_dom.
Qed.

Lemma list_fits ns l xs : is_list ns l xs -> (length xs < size ns)%nat.
Proof.
  intros [Hc Hnd].
  assert (size (list_to_set (path l xs) : gset Z) = length (path l xs)) as Hsize
    by by apply size_list_to_set.
  assert ((list_to_set (path l xs) : gset Z) ⊆ dom ns) as Hsub.
  { intros x Hx%elem_of_list_to_set. eapply chain_dom; [|exact Hc | exact Hx]. by destruct xs. }
  apply subseteq_size in Hsub. rewrite Hsize, size_dom in Hsub.
  unfold path in Hsub. simpl in Hsub. rewrite length_app in Hsub. simpl in Hsub. lia.
Qed.

Lemma chain_next ns s y ys t Q :
  nodes s = ns -> chain ns (y :: ys ++ [t]) ->
  (forall c q, ys ++ [t] = c :: q -> Q c s) -> wp (get_next y) s Q.
Proof.
  intros <- Hc HQ. destruct (ys ++ [t]) as [|c q] eqn:E; [by destruct ys|].
  apply chain_cons in Hc as [Hl _]. destruct (link_nodes _ _ _ Hl) as (na & nb & Ha & _ & Hna & _).
  eapply wp_get_next; [exact Ha|]. rewrite Hna. by eapply HQ.
Qed.

Section Traversals.
Variables (s : lstate) (t : Z).

(** The rest of a list from the cursor on. *)
Definition suffix_ok (ys : list Z) (c : Z) : Prop :=
  chain (nodes s) (ys ++ [t]) /\ NoDup (ys ++ [t]) /\ hd_error (ys ++ [t]) = Some c.

Lemma suffix_nil c : suffix_ok [] c -> c = t.
Proof. by intros (_ & _ & [= <-]). Qed.

Lemma suffix_cons y ys c : suffix_ok (y :: ys) c -> c = y /\ y <> t /\ y ∉ ys.
Proof. intros (_ & Hnd & [= <-]). apply NoDup_cons in Hnd as [H _]. set_solver. Qed.

Lemma suffix_step y ys c Q :
  suffix_ok (y :: ys) c -> (forall c', suffix_ok ys c' -> Q c' s) -> wp (get_next y) s Q.
Proof.
  intros (Hc & Hnd & _) HQ. simpl in *. eapply chain_next; [done | exact Hc |].
  intros c' q Heq. apply HQ. apply NoDup_cons in Hnd as [_ Hnd].
  split; [|split; [done | by rewrite Heq]]. rewrite Heq in *. by apply chain_cons in Hc as [_ Hc].
Qed.

Lemma node_find_loop_ok n fuel ys c :
  suffix_ok ys c -> (length ys < fuel)%nat ->
  wp (node_find_loop fuel t n c) s (fun r s' => s' = s /\ r = if decide (n ∈ ys) then 1 else 0).
Proof.
  revert fuel c. induction ys as [|y ys IH]; intros fuel c Hs Hf; (destruct fuel; [simpl in Hf; lia|]); simpl.
  - rewrite (suffix_nil c), Z.eqb_refl by done. by wp_step.
  - destruct (suffix_cons _ _ _ Hs) as (-> & Hne & Hni). destruct (Z.eqb_spec y t); [done|].
    destruct (Z.eqb_spec y n) as [->|Hyn].
    + wp_step. rewrite decide_True; [done | set_solver].
    + wp_step. eapply suffix_step; [exact Hs|]. intros c' Hs'.
      eapply wp_mono; [apply IH; [done | simpl in Hf; lia]|].
      intros r s' [-> ->]. split; [done|].
      destruct (decide (n ∈ ys)), (decide (n ∈ y :: ys)); set_solver.
Qed.

Lemma list_traversal_loop_ok func args fuel ys c :
  suffix_ok ys c -> (length ys < fuel)%nat ->
  wp (list_traversal_loop fuel t func args c) s (fun r s' => s' = s /\
    r = from_option snd NULL (list_find (fun x => func x args <> 0) ys)).
Proof.
  revert fuel c. induction ys as [|y ys IH]; intros fuel c Hs Hf; (destruct fuel; [simpl in Hf; lia|]); simpl.
  - rewrite (suffix_nil c), Z.eqb_refl by done. by wp_step.
  - destruct (suffix_cons _ _ _ Hs) as (-> & Hne & Hni). destruct (Z.eqb_spec y t); [done|].
    destruct (Z.eqb_spec (func y args) 0) as [Hz|Hz]; simpl.
    + rewrite decide_False by (intros H; by apply H). wp_step. eapply suffix_step; [exact Hs|].
      intros c' Hs'. eapply wp_mono; [apply IH; [done | simpl in Hf; lia]|].
      intros r s' [-> ->]. split; [done|]. by destruct (list_find _ ys) as [[]|].
    + rewrite decide_True by done. by wp_step.
Qed.

Lemma list_len_loop_ok fuel ys c len :
  suffix_ok ys c -> (length ys < fuel)%nat -> is_u32 len ->
  wp (list_len_loop fuel t c len) s (fun r s' => s' = s /\ r = u32 (len + Z.of_nat (length ys))).
Proof.
  revert fuel c len.
  induction ys as [|y ys IH]; intros fuel c len Hs Hf Hlen; (destruct fuel; [simpl in Hf; lia|]); simpl.
  - rewrite (suffix_nil c), Z.eqb_refl by done. wp_step. by rewrite Z.add_0_r, u32_id.
  - destruct (suffix_cons _ _ _ Hs) as (-> & Hne & Hni). destruct (Z.eqb_spec y t); [done|].
    wp_step. eapply suffix_step; [exact Hs|]. intros c' Hs'.
    eapply wp_mono; [apply IH; [done | simpl in Hf; lia | apply u32_range]|].
    intros r s' [-> ->]. split; [done|]. unfold u32. rewrite Zplus_mod_idemp_l. f_equal. lia.
Qed.
End Traversals.

Lemma list_suffix ns l xs s c q :
  nodes s = ns -> is_list ns l xs -> xs ++ [tail_of l] = c :: q -> suffix_ok s (tail_of l) xs c.
Proof.
  intros <- [Hc Hnd] Hq. unfold path in *. apply NoDup_cons in Hnd as [_ Hnd].
  split; [|split; [done | by rewrite Hq]]. rewrite Hq in *. by apply chain_cons in Hc as [_ Hc].
Qed.

Lemma node_find_ok s L l xs n :
  lists_ok (nodes s) L -> L !! l = Some xs ->
  wp (node_find l n) s (fun r s' => s' = s /\ r = if decide (n ∈ xs) then 1 else 0).
Proof.
  intros Hok HL. pose proof (ok_lists _ _ Hok l xs HL) as Hl. unfold node_find. wp_steps.
  eapply wp_first; [done | done|]. intros c q Hq. apply node_find_loop_ok.
  - by eapply list_suffix.
  - pose proof (list_fits _ _ _ Hl). lia.
Qed.

Lemma list_traversal_ok s L l xs func args :
  lists_ok (nodes s) L -> L !! l = Some xs ->
  wp (list_traversal l func args) s (fun r s' => s' = s /\
    r = from_option snd NULL (list_find (fun x => func x args <> 0) xs)).
Proof.
  intros Hok HL. pose proof (ok_lists _ _ Hok l xs HL) as Hl. unfold list_traversal. wp_steps.
  eapply wp_first; [done | done|]. intros c q Hq. apply list_traversal_loop_ok.
  - by eapply list_suffix.
  - pose proof (list_fits _ _ _ Hl). lia.
Qed.

Lemma list_len_ok s L l xs :
  lists_ok (nodes s) L -> L !! l = Some xs ->
  wp (list_len l) s (fun r s' => s' = s /\ r = u32 (Z.of_nat (length xs))).
Proof.
  intros Hok HL. pose proof (ok_lists _ _ Hok l xs HL) as Hl. unfold list_len. wp_steps.
  eapply wp_first; [done | done|]. intros c q Hq.
  apply (list_len_loop_ok s (tail_of l) _ xs c 0).
  - by eapply list_suffix.
  - pose proof (list_fits _ _ _ Hl). lia.
  - unfold is_u32. lia.
Qed.

Lemma list_empty_ok s L l xs :
  lists_ok (nodes s) L -> L !! l = Some xs ->
  wp (list_empty l) s (fun r s' => s' = s /\ r = if decide (xs = []) then 1 else 0).
Proof.
  intros Hok HL. destruct (ok_lists _ _ Hok l xs HL) as [_ Hnd].
  unfold list_empty. wp_steps. eapply wp_first; [done | done|]. intros c q Hq. wp_step.
  split; [done|]. destruct xs as [|x xs]; simpl in *.
  - injection Hq as <- <-. by rewrite Z.eqb_refl.
  - injection Hq as <- <-. apply NoDup_cons in Hnd as [_ Hnd].
    change (NoDup (x :: xs ++ [tail_of l])) in Hnd. apply NoDup_cons in Hnd as [Hx _].
    destruct (Z.eqb_spec x (tail_of l)) as [->|]; [|done]. set_solver.
Qed.

(** ** Refinement: sequences of operations *)
Inductive list_op :=
| OpInit (l : Z)
| OpPush (l n : Z)
| OpAppend (l n : Z)
| OpRemove (l n : Z)     (* [n] is an element of the list at [l] *)
| OpPop (l : Z)
| OpFind (l n : Z)
| OpLen (l : Z)
| OpEmpty (l : Z).

(** The code an operation stands for; operations without a result give 0. *)
Definition run_op (op : list_op) : M lstate Z :=
  match op with
  | OpInit l => list_init l ;;; mret 0
  | OpPush l n => list_push l n ;;; mret 0
  | OpAppend l n => list_append l n ;;; mret 0
  | OpRemove _ n => list_remove n ;;; mret 0
  | OpPop l => list_pop l
  | OpFind l n => node_find l n
  | OpLen l => list_len l
  | OpEmpty l => list_empty l
  end.

Fixpoint run_ops (ops : list list_op) : M lstate (list Z) :=
  match ops with
  | [] => mret []
  | op :: ops' => r ← run_op op; rs ← run_ops ops'; mret (r :: rs)
  end.

(** A free node of the domain [D], decidably. *)
Definition free_node (D : gset Z) (L : gmap Z (list Z)) (n : Z) : bool :=
  bool_decide (n ∈ D) && bool_decide (map_Forall (fun l xs => n ∉ path l xs) L).

Definition mem (n : Z) (xs : list Z) : bool := bool_decide (n ∈ xs).

(** The abstract machine: the result and the new lists, [None] when the
    operation's precondition does not hold. *)
Definition spec_op (D : gset Z) (L : gmap Z (list Z)) (op : list_op) : option (Z * gmap Z (list Z)) :=
  match op with
  | OpInit l =>
      if free_node D L (head_of l) && free_node D L (tail_of l) then Some (0, <[l := []]> L) else None
  | OpPush l n =>
      xs ← L !! l; if free_node D L n then Some (0, <[l := n :: xs]> L) else None
  | OpAppend l n =>
      xs ← L !! l; if free_node D L n then Some (0, <[l := xs ++ [n]]> L) else None
  | OpRemove l n =>
      xs ← L !! l;
      if mem n xs then Some (0, <[l := filter (fun x => x <> n) xs]> L) else None
  | OpPop l =>
      xs ← L !! l; match xs with x :: xs' => Some (x, <[l := xs']> L) | [] => None end
  | OpFind l n => xs ← L !! l; Some (if mem n xs then 1 else 0, L)
  | OpLen l => xs ← L !! l; Some (u32 (Z.of_nat (length xs)), L)
  | OpEmpty l => xs ← L !! l; Some (if bool_decide (xs = []) then 1 else 0, L)
  end.

Fixpoint spec_ops (D : gset Z) (L : gmap Z (list Z)) (ops : list list_op)
    : option (list Z * gmap Z (list Z)) :=
  match ops with
  | [] => Some ([], L)
  | op :: ops' =>
      '(r, L') ← spec_op D L op;
      '(rs, L'') ← spec_ops D L' ops';
      Some (r :: rs, L'')
  end.

Lemma free_node_unlinked ns L n : free_node (dom ns) L n = true <-> unlinked ns L n.
Proof. unfold free_node, unlinked. by rewrite andb_true_iff, !bool_decide_eq_true. Qed.

Lemma filter_ne_split (n : Z) pre post :
  n ∉ pre -> n ∉ post -> filter (fun x => x <> n) (pre ++ n :: post) = pre ++ post.
Proof.
  intros H1 H2.
  assert (forall l : list Z, n ∉ l -> filter (fun x => x <> n) l = l) as Hid.
  { intros l Hl. induction l as [|y l IH]; [done|].
    rewrite filter_cons_True by set_solver. rewrite IH by set_solver. done. }
  rewrite filter_app, filter_cons_False by (intros H; by apply H).
  by rewrite !Hid.
Qed.

Lemma list_post_refl s L : lists_ok (nodes s) L -> list_post s L s.
Proof. done. Qed.

Lemma run_op_refines s L op r L' :
  lists_ok (nodes s) L -> spec_op (dom (nodes s)) L op = Some (r, L') ->
  wp (run_op op) s (fun r' s' => r' = r /\ list_post s L' s').
Proof.
  intros Hok Hspec. destruct op as [l|l n|l n|l n|l|l n|l|l]; simpl in *.
  - destruct (free_node _ L (head_of l)) eqn:E1, (free_node _ L (tail_of l)) eqn:E2; try done.
    apply free_node_unlinked in E1, E2. injection Hspec as <- <-. wp_step.
    eapply wp_mono; [by apply list_init_ok|]. done.
  - destruct (L !! l) as [xs|] eqn:HL; simpl in Hspec; [|done].
    destruct (free_node _ L n) eqn:E; [|done]. apply free_node_unlinked in E.
    injection Hspec as <- <-. wp_step. eapply wp_mono; [by apply list_push_ok|]. done.
  - destruct (L !! l) as [xs|] eqn:HL; simpl in Hspec; [|done].
    destruct (free_node _ L n) eqn:E; [|done]. apply free_node_unlinked in E.
    injection Hspec as <- <-. wp_step. eapply wp_mono; [by apply list_append_ok|]. done.
  - destruct (L !! l) as [xs|] eqn:HL; simpl in Hspec; [|done].
    destruct (mem n xs) eqn:E; [|done]. apply bool_decide_eq_true in E.
    injection Hspec as <- <-. apply list_elem_of_split in E as (pre & post & ->).
    destruct (ok_lists _ _ Hok l _ HL) as [_ Hnd]. unfold path in Hnd.
    apply NoDup_cons in Hnd as [_ Hnd]. rewrite <- app_assoc, NoDup_app in Hnd.
    destruct Hnd as (_ & Hpre & Hnd). simpl in Hnd. apply NoDup_cons in Hnd as [Hpost _].
    rewrite filter_ne_split by set_solver. wp_step.
    eapply wp_mono; [by apply (list_remove_ok s L l pre post n)|]. by intros [] s' [H _].
  - destruct (L !! l) as [[|x xs]|] eqn:HL; simpl in Hspec; [done| |done].
    injection Hspec as <- <-. eapply wp_mono; [by apply (list_pop_ok s L l x xs)|].
    by intros r' s' (-> & H & _).
  - destruct (L !! l) as [xs|] eqn:HL; simpl in Hspec; [|done]. injection Hspec as <- <-.
    eapply wp_mono; [by apply (node_find_ok s L l xs)|]. intros r' s' [-> ->].
    split; [unfold mem; by destruct (decide (n ∈ xs)), (bool_decide_reflect (n ∈ xs))|]. by apply list_post_refl.
  - destruct (L !! l) as [xs|] eqn:HL; simpl in Hspec; [|done]. injection Hspec as <- <-.
    eapply wp_mono; [by apply (list_len_ok s L l xs)|]. intros r' s' [-> ->].
    split; [done|]. by apply list_post_refl.
  - destruct (L !! l) as [xs|] eqn:HL; simpl in Hspec; [|done]. injection Hspec as <- <-.
    eapply wp_mono; [by apply (list_empty_ok s L l xs)|]. intros r' s' [-> ->].
    split; [by destruct xs|]. by apply list_post_refl.
Qed.

(** C19: every sequence of list operations whose preconditions hold in the
    abstract machine (lists as plain sequences) runs on the pointer store
    without fault, panic or endless traversal, returns the same results, and
    leaves a store that holds exactly the abstract machine's lists, over the
    same nodes and with EFLAGS as it was. *)
Theorem list_ops_refine (ops : list list_op) (s : lstate) (L L' : gmap Z (list Z)) (rs : list Z)
    (Hok : lists_ok (nodes s) L) (Hspec : spec_ops (dom (nodes s)) L ops = Some (rs, L')) :
  exists s', run_ops ops s = Ok (rs, s') /\ lists_ok (nodes s') L' /\
    eflags s' = eflags s /\ dom (nodes s') = dom (nodes s).
Proof.
  revert s L rs Hok Hspec. induction ops as [|op ops IH]; intros s L rs Hok Hspec; simpl in *.
  - injection Hspec as <- <-. by exists s.
  - destruct (spec_op (dom (nodes s)) L op) as [[r L1]|] eqn:Hop; simpl in Hspec; [|done].
    destruct (spec_ops (dom (nodes s)) L1 ops) as [[rs1 L2]|] eqn:Hops; simpl in Hspec; [|done].
    injection Hspec as <- <-.
    destruct (wp_ok_inv _ _ _ (run_op_refines s L op r L1 Hok Hop))
      as (r' & s1 & Hr & -> & Hok1 & He1 & Hd1).
    destruct (IH s1 L1 rs1 Hok1) as (s2 & Hrs & Hok2 & He2 & Hd2); [by rewrite Hd1|].
    exists s2. rewrite (bind_ok _ _ _ _ _ Hr), (bind_ok _ _ _ _ _ Hrs).
    split; [done|]. split; [done|]. split; congruence.
Qed.

(** [list_pop] does not test for emptiness: on an empty list it unlinks the
    tail sentinel itself and stores through [tail->next], which [list_init]
    set to NULL. *)
Theorem list_pop_empty_faults (s : lstate) (L : gmap Z (list Z)) (l : Z) (v : list_node)
    (Hok : lists_ok (nodes s) L) (Hempty : L !! l = Some [])
    (Htail : nodes s !! tail_of l = Some v) (Hnext : next v = NULL)
    (Hnull : nodes s !! NULL = None) :
  list_pop l s = Fault.
Proof.
  destruct (ok_lists _ _ Hok l [] Hempty) as [Hc Hnd]. unfold path in Hc. simpl in Hc.
  destruct Hc as [Hl _]. destruct (link_nodes _ _ _ Hl) as (na & nb & Ha & Hb & Hna & Hnb).
  assert (nb = v) as -> by congruence. unfold path in Hnd. simpl in Hnd.
  assert (head_of l <> tail_of l) as Hne by (apply NoDup_cons in Hnd as [H _]; set_solver).
  unfold list_pop. erewrite bind_ok by (by apply get_next_eq). rewrite Hna.
  apply bind_fault. unfold list_remove.
  erewrite bind_ok by apply zoom_ok, intr_disable_eq. simpl.
  erewrite bind_ok by (by apply get_prev_eq). erewrite bind_ok by (by apply get_next_eq).
  rewrite Hnb. erewrite bind_ok by (by apply set_next_eq).
  erewrite bind_ok by (apply get_next_eq; simpl; map_lookup; exact Hb).
  erewrite bind_ok by (apply get_prev_eq; simpl; map_lookup; exact Hb).
  rewrite Hnext. apply bind_fault, set_prev_dangling. simpl.
  rewrite lookup_insert_ne; [done|]. intros Heq. rewrite Heq in *. by rewrite Hnull in Ha.
Qed.

(** *** Concrete instances *)
Lemma lists_ok_single ns l xs : is_list ns l xs -> lists_ok ns {[l := xs]}.
Proof.
  intros Hl. split.
  - by intros l' xs' [<- <-]%lookup_singleton_Some.
  - intros l1 l2 xs1 xs2 Hne [<- _]%lookup_singleton_Some [<- _]%lookup_singleton_Some. done.
Qed.

Lemma lists_ok_two ns l1 xs1 l2 xs2 :
  chain ns (path l1 xs1) -> chain ns (path l2 xs2) -> NoDup (path l1 xs1 ++ path l2 xs2) ->
  lists_ok ns {[l1 := xs1; l2 := xs2]}.
Proof.
  intros H1 H2 (Hn1 & Hd & Hn2)%NoDup_app. split.
  - by intros l xs [[<- <-]|[_ [<- <-]%lookup_singleton_Some]]%lookup_insert_Some.
  - intros l l' xs xs' Hll
      [[<- <-]|[_ [<- <-]%lookup_singleton_Some]]%lookup_insert_Some
      [[<- <-]|[_ [<- <-]%lookup_singleton_Some]]%lookup_insert_Some n; try done; [apply Hd|].
    intros Ha Hb. by apply (Hd n).
Qed.

Definition example_ops : list list_op :=
  [OpInit 0x100; OpAppend 0x100 1; OpAppend 0x100 2; OpPush 0x100 3; OpFind 0x100 2;
   OpPop 0x100; OpRemove 0x100 2; OpLen 0x100; OpEmpty 0x100].

Definition blank_node : list_node := Node NULL NULL.

Definition example_store : lstate :=
  LState {[0x100 := blank_node; 0x108 := blank_node; 1 := blank_node; 2 := blank_node;
           3 := blank_node]} 0x202.

Lemma no_lists_ok ns : lists_ok ns ∅.
Proof. by split; intros *; rewrite lookup_empty. Qed.

Lemma list_ops_refine_witness :
  exists s', run_ops example_ops example_store = Ok ([0; 0; 0; 0; 1; 3; 0; 1; 0], s') /\
    lists_ok (nodes s') {[0x100 := [1]]} /\ eflags s' = eflags example_store /\
    dom (nodes s') = dom (nodes example_store).
Proof.
  apply (list_ops_refine example_ops example_store ∅); [apply no_lists_ok | by vm_compute].
Defined.

Definition empty_list_store : lstate :=
  LState {[0x100 := Node NULL 0x108; 0x108 := Node 0x100 NULL]} 0x202.

Lemma empty_list_store_ok : lists_ok (nodes empty_list_store) {[0x100 := []]}.
Proof.
  apply lists_ok_single. split; [done|].
  unfold path. simpl. rewrite NoDup_cons. split; [|apply NoDup_singleton].
  rewrite list_elem_of_singleton. unfold head_of, tail_of. lia.
Qed.

Lemma list_pop_empty_faults_witness : list_pop 0x100 empty_list_store = Fault.
Proof.
  by apply (list_pop_empty_faults empty_list_store {[0x100 := []]} 0x100 (Node 0x100 NULL)
    empty_list_store_ok).
Defined.
