(* ===== verification/Paging.v ===== *)
(** * Paging: kernel/memory.c (page-table access), kernel/memory.h

    The kernel reads and writes its page tables through the recursive slot:
    the last entry of the page directory points at the directory itself, so
    that page tables appear as ordinary pages at 0xffc00000 and the directory
    at 0xfffff000.  The model has physical memory as words, the processor's
    two-level translation, and loads and stores that go through it; the
    pointer arithmetic of [pte_ptr] and [pde_ptr] is the code's. *)
From stdpp Require Import base numbers list gmap fin_maps.
From Stdlib Require Import ZArith Lia.
From S2P Require Import Prelude Globals.

(** ** The machine: physical words and CR3

    [translate] is the processor's page walk (32-bit, 4 KB pages); an access
    through a missing entry is a page fault, whose handler never returns to
    the code.  Words of memory never written read as 0. *)
Record mmu := Mmu { ram : gmap Z Z; cr3 : Z }.

Definition ram_word (m : mmu) (pa : Z) : Z := default 0 (ram m !! pa).
Definition ram_store (pa v : Z) (m : mmu) : mmu := Mmu (<[pa := v]> (ram m)) (cr3 m).

(** [PDE_IDX(addr)] and [PTE_IDX(addr)] of memory.h. *)
Definition PDE_IDX (addr : Z) : Z := Z.shiftr (Z.land addr 0xffc00000) 22.
Definition PTE_IDX (addr : Z) : Z := Z.shiftr (Z.land addr 0x003ff000) 12.

(** The frame an entry points at, and its present bit. *)
Definition frame_of (entry : Z) : Z := Z.land entry 0xfffff000.
Definition present (entry : Z) : bool := Z.testbit entry 0.

Definition pde_addr (m : mmu) (va : Z) : Z := frame_of (cr3 m) + 4 * PDE_IDX va.
Definition pde_of (m : mmu) (va : Z) : Z := ram_word m (pde_addr m va).
Definition pte_addr (m : mmu) (va : Z) : Z := frame_of (pde_of m va) + 4 * PTE_IDX va.
Definition pte_of (m : mmu) (va : Z) : Z := ram_word m (pte_addr m va).

Definition translate (m : mmu) (va : Z) : option Z :=
  if present (pde_of m va) && present (pte_of m va)
  then Some (frame_of (pte_of m va) + Z.land va 0xfff) else None.

Definition load (va : Z) : M mmu Z := fun m =>
  match translate m va with
  | Some pa => Ok (ram_word m pa, m)
  | None => Fault
  end.

Definition store (va v : Z) : M mmu unit := fun m =>
  match translate m va with
  | Some pa => Ok (tt, ram_store pa v m)
  | None => Fault
  end.

(** ** The code *)
Definition pte_ptr (vaddr : Z) : Z :=
  u32 (0xffc00000 + Z.shiftr (Z.land vaddr 0xffc00000) 10 + PTE_IDX vaddr * 4).

Definition pde_ptr (vaddr : Z) : Z := u32 (0xfffff000 + PDE_IDX vaddr * 4).

Definition addr_v2p (vaddr : Z) : M mmu Z :=
  let pte := pte_ptr vaddr in
  e ← load pte;
  mret (u32 (Z.land e 0xfffff000 + Z.land vaddr 0x00000fff)).

(** [*pte &= ~PG_P_1]; the TLB is not modelled. *)
Definition page_table_pte_remove (vaddr : Z) : M mmu unit :=
  let pte := pte_ptr vaddr in
  e ← load pte;
  store pte (Z.land e (Z.lnot PG_P_1)).

(** [memset(va, 0, 4 * n)] on word-aligned memory. *)
Definition zero_words (va : Z) (n : nat) : M mmu unit :=
  for_loop n 0 (fun i => store (u32 (va + 4 * i)) 0).

(** ** Index arithmetic *)
Lemma PDE_IDX_div va : is_u32 va -> PDE_IDX va = va / 2 ^ 22.
Proof.
  intros Hva. unfold PDE_IDX. rewrite Z.shiftr_land.
  change (Z.shiftr 0xffc00000 22) with (Z.ones 10).
  rewrite Z.land_ones, Z.shiftr_div_pow2 by lia. apply Z.mod_small.
  unfold is_u32 in Hva. split; [apply Z.div_pos; lia | apply Z.div_lt_upper_bound; lia].
Qed.

Lemma PTE_IDX_div va : PTE_IDX va = va / 2 ^ 12 mod 2 ^ 10.
Proof.
  unfold PTE_IDX. rewrite Z.shiftr_land. change (Z.shiftr 0x003ff000 12) with (Z.ones 10).
  by rewrite Z.land_ones, Z.shiftr_div_pow2 by lia.
Qed.

Lemma PDE_IDX_range va : is_u32 va -> 0 <= PDE_IDX va < 1024.
Proof.
  intros Hva. rewrite PDE_IDX_div by done. unfold is_u32 in Hva.
  split; [apply Z.div_pos; lia | apply Z.div_lt_upper_bound; lia].
Qed.

Lemma PTE_IDX_range va : 0 <= PTE_IDX va < 1024.
Proof. rewrite PTE_IDX_div. apply Z.mod_pos_bound. lia. Qed.

Lemma land_high_20 e : is_u32 e -> Z.land e 0xfffff000 = e / 4096 * 4096.
Proof.
  intros He. change 4096 with (2 ^ 12).
  rewrite <- Z.shiftr_div_pow2, <- Z.shiftl_mul_pow2 by lia.
  apply Z.bits_inj_iff'. intros k Hk. rewrite Z.land_spec.
  change 0xfffff000 with (Z.shiftl (Z.ones 20) 12).
  destruct (Z.lt_ge_cases k 12).
  - rewrite !Z.shiftl_spec_low by done. apply andb_false_r.
  - rewrite !Z.shiftl_spec, Z.shiftr_spec by lia. replace (k - 12 + 12) with k by lia.
    destruct (Z.lt_ge_cases k 32).
    + rewrite Z.ones_spec_low by lia. apply andb_true_r.
    + rewrite (testbit_high e 32) by (unfold is_u32 in He; lia). done.
Qed.

Lemma land_low_12 e : Z.land e 0xfff = e mod 4096.
Proof. change 0xfff with (Z.ones 12). by rewrite Z.land_ones by lia. Qed.

Lemma land_high_10 e : is_u32 e -> Z.shiftr (Z.land e 0xffc00000) 10 = PDE_IDX e * 4096.
Proof.
  intros He. unfold PDE_IDX. change 4096 with (2 ^ 12). rewrite <- Z.shiftl_mul_pow2 by lia.
  apply Z.bits_inj_iff'. intros k Hk. rewrite Z.shiftr_spec, Z.land_spec by lia.
  destruct (Z.lt_ge_cases k 12).
  - rewrite (Z.shiftl_spec_low _ 12) by lia. change 0xffc00000 with (Z.shiftl (Z.ones 10) 22).
    rewrite (Z.shiftl_spec_low _ 22) by lia. apply andb_false_r.
  - rewrite (Z.shiftl_spec _ 12), Z.shiftr_spec, Z.land_spec by lia.
    by replace (k - 12 + 22) with (k + 10) by lia.
Qed.

(** An address split into directory index, table index and offset. *)
Lemma split_addr d t o :
  0 <= d < 1024 -> 0 <= t < 1024 -> 0 <= o < 4096 ->
  let va := d * 2 ^ 22 + t * 2 ^ 12 + o in
  is_u32 va /\ PDE_IDX va = d /\ PTE_IDX va = t /\ Z.land va 0xfff = o.
Proof.
  intros Hd Ht Ho va. assert (is_u32 va) as Hva by (unfold is_u32, va; lia).
  split; [done|]. split; [|split].
  - rewrite PDE_IDX_div by done. symmetry. apply (Z.div_unique _ _ _ (t * 2 ^ 12 + o)); unfold va; lia.
  - rewrite PTE_IDX_div.
    replace (va / 2 ^ 12) with (d * 2 ^ 10 + t).
    + symmetry. apply (Z.mod_unique _ _ d); lia.
    + apply (Z.div_unique _ _ _ o); unfold va; lia.
  - rewrite land_low_12. symmetry. apply (Z.mod_unique _ _ (d * 2 ^ 10 + t)); unfold va; lia.
Qed.

Lemma pde_ptr_split va :
  is_u32 va -> pde_ptr va = 1023 * 2 ^ 22 + 1023 * 2 ^ 12 + 4 * PDE_IDX va.
Proof.
  intros Hva. pose proof (PDE_IDX_range va Hva). unfold pde_ptr.
  rewrite u32_id; [lia|]. unfold is_u32. lia.
Qed.

Lemma pte_ptr_split va :
  is_u32 va -> pte_ptr va = 1023 * 2 ^ 22 + PDE_IDX va * 2 ^ 12 + 4 * PTE_IDX va.
Proof.
  intros Hva. pose proof (PDE_IDX_range va Hva). pose proof (PTE_IDX_range va).
  unfold pte_ptr. rewrite land_high_10 by done. rewrite u32_id; [lia|]. unfold is_u32. lia.
Qed.

Lemma va_split va : is_u32 va -> va = PDE_IDX va * 2 ^ 22 + PTE_IDX va * 2 ^ 12 + va mod 4096.
Proof.
  intros Hva. rewrite PDE_IDX_div, PTE_IDX_div by done.
  pose proof (Z.div_mod va (2 ^ 12) ltac:(lia)) as E1.
  pose proof (Z.div_mod (va / 2 ^ 12) (2 ^ 10) ltac:(lia)) as E2.
  rewrite Z.div_div in E2 by lia. change (2 ^ 12 * 2 ^ 10) with (2 ^ 22) in E2.
  change 4096 with (2 ^ 12). lia.
Qed.

(** ** The recursive slot *)
Definition self_mapped (m : mmu) : Prop :=
  let e := ram_word m (frame_of (cr3 m) + 4 * 1023) in
  present e = true /\ frame_of e = frame_of (cr3 m).

Lemma pde_of_window m va :
  PDE_IDX va = 1023 -> pde_of m va = ram_word m (frame_of (cr3 m) + 4 * 1023).
Proof. intros E. unfold pde_of, pde_addr. by rewrite E. Qed.

Lemma translate_pde_ptr m va :
  self_mapped m -> is_u32 va -> translate m (pde_ptr va) = Some (pde_addr m va).
Proof.
  intros [Hp Hf] Hva. pose proof (PDE_IDX_range va Hva).
  destruct (split_addr 1023 1023 (4 * PDE_IDX va)) as (_ & Ed & Et & Eo); [lia..|].
  rewrite <- pde_ptr_split in Ed, Et, Eo by done.
  unfold translate, pte_of, pte_addr. rewrite pde_of_window, Hf, Et, Hp, Eo by done. simpl.
  unfold pde_addr. by rewrite Hf.
Qed.

Lemma translate_pte_ptr m va :
  self_mapped m -> is_u32 va ->
  translate m (pte_ptr va) = if present (pde_of m va) then Some (pte_addr m va) else None.
Proof.
  intros [Hp Hf] Hva. pose proof (PDE_IDX_range va Hva). pose proof (PTE_IDX_range va).
  destruct (split_addr 1023 (PDE_IDX va) (4 * PTE_IDX va)) as (_ & Ed & Et & Eo); [lia..|].
  rewrite <- pte_ptr_split in Ed, Et, Eo by done.
  unfold translate, pte_of. assert (pte_addr m (pte_ptr va) = pde_addr m va) as ->.
  { unfold pte_addr. by rewrite pde_of_window, Hf, Et. }
  rewrite pde_of_window, Hp, Eo by done. simpl. done.
Qed.

Lemma wp_load m va pa Q :
  translate m va = Some pa -> Q (ram_word m pa) m -> wp (load va) m Q.
Proof. intros Ht HQ. unfold wp, load. by rewrite Ht. Qed.

Lemma wp_store m va v pa Q :
  translate m va = Some pa -> Q tt (ram_store pa v m) -> wp (store va v) m Q.
Proof. intros Ht HQ. unfold wp, store. by rewrite Ht. Qed.

(** ** Well-formed page tables

    [dir_entry m i] is entry [i] of the current directory.  Entries from 1 to
    1022 that are present point at distinct frames (entry 0 of the boot
    directory shares the table of entry 768), no table shares the directory's
    frame, and the last entry is the recursive slot. *)
Definition dir_entry (m : mmu) (i : Z) : Z := ram_word m (frame_of (cr3 m) + 4 * i).

Record pt_wf (m : mmu) : Prop := {
  wf_words : map_Forall (fun _ v => is_u32 v) (ram m);
  wf_cr3 : is_u32 (cr3 m);
  wf_self : self_mapped m;
  wf_not_dir : forall i, 0 <= i < 1023 -> present (dir_entry m i) = true ->
    frame_of (dir_entry m i) <> frame_of (cr3 m);
  wf_distinct : forall i j, 1 <= i < 1023 -> 1 <= j < 1023 -> i <> j ->
    present (dir_entry m i) = true -> present (dir_entry m j) = true ->
    frame_of (dir_entry m i) <> frame_of (dir_entry m j);
}.

(** The addresses the kernel maps and unmaps: outside the first 4 MB and the
    window. *)
Definition managed (va : Z) : Prop := is_u32 va /\ 1 <= PDE_IDX va < 1023.

Lemma ram_word_u32 m a : map_Forall (fun _ v => is_u32 v) (ram m) -> is_u32 (ram_word m a).
Proof.
  intros Hw. unfold ram_word. destruct (ram m !! a) as [v|] eqn:E; simpl.
  - by apply (Hw a v).
  - unfold is_u32. lia.
Qed.

Lemma frame_aligned e : is_u32 e -> exists k, frame_of e = 4096 * k /\ 0 <= k < 2 ^ 20.
Proof.
  intros He. unfold frame_of. rewrite land_high_20 by done. exists (e / 4096).
  unfold is_u32 in He. split; [lia|].
  split; [apply Z.div_pos; lia | apply Z.div_lt_upper_bound; lia].
Qed.

(** Words of different frames are different words. *)
Lemma frame_word_neq e1 e2 i j :
  is_u32 e1 -> is_u32 e2 -> 0 <= i < 1024 -> 0 <= j < 1024 ->
  frame_of e1 + 4 * i = frame_of e2 + 4 * j -> frame_of e1 = frame_of e2 /\ i = j.
Proof.
  intros H1 H2 Hi Hj Heq.
  destruct (frame_aligned e1 H1) as (k1 & E1 & ?). destruct (frame_aligned e2 H2) as (k2 & E2 & ?). lia.
Qed.

Lemma ram_word_store m pa v a :
  ram_word (ram_store pa v m) a = if a =? pa then v else ram_word m a.
Proof.
  unfold ram_word, ram_store. simpl. destruct (Z.eqb_spec a pa) as [->|Hne].
  - by rewrite lookup_insert_eq.
  - by rewrite lookup_insert_ne.
Qed.

Lemma pde_of_dir m va : pde_of m va = dir_entry m (PDE_IDX va).
Proof. done. Qed.

Lemma words_store m pa v :
  map_Forall (fun _ v => is_u32 v) (ram m) -> is_u32 v ->
  map_Forall (fun _ v => is_u32 v) (ram (ram_store pa v m)).
Proof. intros Hw Hv. by apply map_Forall_insert_2. Qed.

(** Two pages of the managed range have the same page-table entry only when
    they are the same page. *)
Lemma pte_addr_inj m va va' :
  pt_wf m -> managed va -> managed va' ->
  present (pde_of m va) = true -> present (pde_of m va') = true ->
  pte_addr m va = pte_addr m va' -> va / 4096 = va' / 4096.
Proof.
  intros Hwf [Hva Hd] [Hva' Hd'] Hp Hp' Heq. pose proof (wf_words m Hwf) as Hw.
  unfold pte_addr in Heq. apply frame_word_neq in Heq as [Hf Ht];
    [| by apply ram_word_u32 | by apply ram_word_u32 | apply PTE_IDX_range | apply PTE_IDX_range].
  assert (PDE_IDX va = PDE_IDX va') as Hdd.
  { destruct (Z.eq_dec (PDE_IDX va) (PDE_IDX va')) as [|Hne]; [done|].
    by destruct (wf_distinct m Hwf _ _ Hd Hd' Hne Hp Hp'). }
  pose proof (va_split va Hva) as E. pose proof (va_split va' Hva') as E'. rewrite Hdd in E.
  pose proof (Z.div_mod va 4096 ltac:(lia)). pose proof (Z.div_mod va' 4096 ltac:(lia)). lia.
Qed.

Lemma same_page_idx va va' :
  is_u32 va -> is_u32 va' -> va / 4096 = va' / 4096 ->
  PDE_IDX va = PDE_IDX va' /\ PTE_IDX va = PTE_IDX va'.
Proof.
  intros Hva Hva' Heq. rewrite !PDE_IDX_div, !PTE_IDX_div by done.
  change (2 ^ 22) with (2 ^ 12 * 2 ^ 10). rewrite <- !Z.div_div by lia.
  change (2 ^ 12) with 4096. by rewrite Heq.
Qed.

Lemma translate_page_offset m va va' :
  is_u32 va -> is_u32 va' -> va / 4096 = va' / 4096 ->
  translate m va' = if present (pde_of m va) && present (pte_of m va)
    then Some (frame_of (pte_of m va) + Z.land va' 0xfff) else None.
Proof.
  intros Hva Hva' Heq. destruct (same_page_idx va va' Hva Hva' Heq) as [Hd Ht].
  unfold translate, pte_of, pte_addr, pde_of, pde_addr. by rewrite Hd, Ht.
Qed.

(** A store that misses the words a translation reads leaves it alone. *)
Lemma translate_ext m m' va :
  cr3 m' = cr3 m -> dir_entry m' (PDE_IDX va) = dir_entry m (PDE_IDX va) ->
  (present (pde_of m va) = true -> ram_word m' (pte_addr m va) = ram_word m (pte_addr m va)) ->
  translate m' va = translate m va.
Proof.
  intros Hc Hd Ht. unfold translate, pte_of, pte_addr. rewrite !pde_of_dir, Hd in *.
  destruct (present (dir_entry m (PDE_IDX va))) eqn:Hp; [|done].
  unfold pte_addr in Ht. rewrite pde_of_dir in Ht. simpl. by rewrite Ht.
Qed.

(** Storing an entry of a page table changes that page's translation only. *)
Lemma set_pte_ok m va v :
  pt_wf m -> managed va -> present (pde_of m va) = true -> is_u32 v ->
  let m' := ram_store (pte_addr m va) v m in
  pt_wf m' /\ cr3 m' = cr3 m /\
  (forall i, 0 <= i < 1024 -> dir_entry m' i = dir_entry m i) /\
  (forall va', managed va' -> translate m' va' =
    if va' / 4096 =? va / 4096 then
      if present v then Some (frame_of v + Z.land va' 0xfff) else None
    else translate m va').
Proof.
  intros Hwf [Hva Hd] Hp Hv m'. pose proof (PTE_IDX_range va).
  pose proof (wf_words m Hwf) as Hw. pose proof (wf_cr3 m Hwf) as Hc.
  assert (is_u32 (pde_of m va)) as Hpde by by apply ram_word_u32.
  assert (forall i, 0 <= i < 1024 -> dir_entry m' i = dir_entry m i) as Hdir.
  { intros i Hi. unfold dir_entry, m'. rewrite ram_word_store. change (cr3 (ram_store _ _ m)) with (cr3 m).
    destruct (Z.eqb_spec (frame_of (cr3 m) + 4 * i) (pte_addr m va)) as [E|]; [|done].
    unfold pte_addr in E. apply frame_word_neq in E as [E _]; try done.
    by destruct (wf_not_dir m Hwf (PDE_IDX va) ltac:(lia) Hp). }
  split; [|split; [done | split; [done|]]].
  - split; [by apply words_store | done | | |].
    + unfold self_mapped. fold (dir_entry m' 1023). rewrite Hdir by lia. apply Hwf.
    + intros i Hi. rewrite !Hdir by lia. by apply (wf_not_dir m Hwf).
    + intros i j Hi Hj. rewrite !Hdir by lia. by apply (wf_distinct m Hwf).
  - intros va' [Hva' Hd']. destruct (Z.eqb_spec (va' / 4096) (va / 4096)) as [E|Hne].
    + rewrite (translate_page_offset m' va) by done. rewrite pde_of_dir, Hdir by lia.
      unfold pte_of, pte_addr. rewrite !pde_of_dir, Hdir, <- pde_of_dir, Hp by lia.
      unfold m'. rewrite ram_word_store. unfold pte_addr. by rewrite Z.eqb_refl.
    + apply translate_ext; [done | apply Hdir; lia |]. intros Hp'. unfold m'. rewrite ram_word_store.
      destruct (Z.eqb_spec (pte_addr m va') (pte_addr m va)) as [E|]; [|done].
      by destruct Hne; apply (pte_addr_inj m).
Qed.

(** ** Clearing a page *)
Definition zeroed (m m' : mmu) (f n : Z) : Prop :=
  cr3 m' = cr3 m /\ map_Forall (fun _ v => is_u32 v) (ram m') /\
  (forall i, 0 <= i < n -> ram_word m' (f + 4 * i) = 0) /\
  (forall a, (forall i, 0 <= i < n -> a <> f + 4 * i) -> ram_word m' a = ram_word m a).

Lemma zeroed_refl m f : map_Forall (fun _ v => is_u32 v) (ram m) -> zeroed m m f 0.
Proof. intros Hw. split; [done | split; [done | split; [|done]]]. intros i Hi. lia. Qed.

Lemma zeroed_step m m' f n :
  0 <= n -> zeroed m m' f n -> zeroed m (ram_store (f + 4 * n) 0 m') f (n + 1).
Proof.
  intros Hn (Hc & Hw & Hz & Hr). split; [done | split; [|split]].
  - apply words_store; [done|]. unfold is_u32. lia.
  - intros i Hi. rewrite ram_word_store. destruct (Z.eqb_spec (f + 4 * i) (f + 4 * n)); [done|].
    apply Hz. lia.
  - intros a Ha. rewrite ram_word_store. destruct (Z.eqb_spec a (f + 4 * n)) as [->|].
    + by destruct (Ha n ltac:(lia)).
    + apply Hr. intros i Hi. apply Ha. lia.
Qed.

(** Only words of the frame change. *)
Lemma zeroed_other_frame m m' e e' n k :
  is_u32 e -> is_u32 e' -> 0 <= k < 1024 -> n <= 1024 -> frame_of e' <> frame_of e ->
  zeroed m m' (frame_of e) n -> ram_word m' (frame_of e' + 4 * k) = ram_word m (frame_of e' + 4 * k).
Proof.
  intros He He' Hk Hn Hne (_ & _ & _ & Hr). apply Hr. intros i Hi E.
  apply frame_word_neq in E as [E _]; (done || lia).
Qed.

Lemma page_word_addr va i :
  is_u32 va -> va mod 4096 = 0 -> 0 <= i < 1024 ->
  u32 (va + 4 * i) = va + 4 * i /\ is_u32 (va + 4 * i) /\
  va / 4096 = (va + 4 * i) / 4096 /\ Z.land (va + 4 * i) 0xfff = 4 * i.
Proof.
  intros Hva Hal Hi. pose proof (Z.div_mod va 4096 ltac:(lia)) as E. rewrite Hal in E.
  assert (is_u32 (va + 4 * i)) as Hu.
  { unfold is_u32 in *. assert (va / 4096 < 2 ^ 20) by (apply Z.div_lt_upper_bound; lia). lia. }
  split; [by apply u32_id|]. split; [done|]. rewrite land_low_12.
  split; [apply (Z.div_unique _ _ _ (4 * i)) | symmetry; apply (Z.mod_unique _ _ (va / 4096))]; lia.
Qed.

Lemma zero_words_ok m va :
  map_Forall (fun _ v => is_u32 v) (ram m) -> is_u32 (cr3 m) -> is_u32 va -> va mod 4096 = 0 ->
  present (pde_of m va) = true -> present (pte_of m va) = true ->
  frame_of (cr3 m) <> frame_of (pte_of m va) -> frame_of (pde_of m va) <> frame_of (pte_of m va) ->
  wp (zero_words va 1024) m (fun _ m' => zeroed m m' (frame_of (pte_of m va)) 1024).
Proof.
  intros Hw Hc Hva Hal Hpd Hpt Hnc Hnd. unfold zero_words.
  pose proof (PTE_IDX_range va). pose proof (PDE_IDX_range va Hva).
  apply (wp_for_loop _ _ _ _ (fun n m' => zeroed m m' (frame_of (pte_of m va)) n)).
  - by apply zeroed_refl.
  - intros i m' Hi Hz. destruct (page_word_addr va i Hva Hal) as (-> & Hu & Hpg & Hoff); [lia|].
    assert (pde_of m' va = pde_of m va) as Hpde.
    { unfold pde_of, pde_addr. destruct Hz as (Hc' & Hz). rewrite Hc'.
      eapply zeroed_other_frame; [..| exact (conj Hc' Hz)]; try done; [by apply ram_word_u32 | lia]. }
    assert (pte_of m' va = pte_of m va) as Hpte.
    { unfold pte_of, pte_addr. rewrite Hpde.
      eapply zeroed_other_frame; [..| exact Hz]; try done; [by apply ram_word_u32 .. | lia]. }
    eapply wp_store; [| apply zeroed_step; [lia | exact Hz]].
    rewrite (translate_page_offset m' va) by done. by rewrite Hpde, Hpte, Hpd, Hpt, Hoff.
  - intros m' Hz. exact Hz.
Qed.

(** ** Adding a page table *)
Definition new_table (pgt va : Z) : M mmu unit :=
  store (pde_ptr va) pgt ;;; zero_words (Z.land (pte_ptr va) 0xfffff000) 1024.

(** The frame [f] holds the directory or one of its tables. *)
Definition pt_frame (m : mmu) (f : Z) : Prop :=
  f = frame_of (cr3 m) \/
  exists i, 0 <= i < 1023 /\ present (dir_entry m i) = true /\ frame_of (dir_entry m i) = f.

(** The frames that hold no tables in [m'] have the same words in both. *)
Definition data_kept (m m' : mmu) : Prop := forall f k,
  f mod 4096 = 0 -> 0 <= k < 1024 -> ~ pt_frame m' f -> ram_word m' (f + 4 * k) = ram_word m (f + 4 * k).

Lemma data_kept_refl m : data_kept m m.
Proof. done. Qed.

Lemma data_kept_trans m m1 m2 :
  (forall f, pt_frame m1 f -> pt_frame m2 f) -> data_kept m m1 -> data_kept m1 m2 -> data_kept m m2.
Proof. intros Hsub H1 H2 f k Hf Hk Hn. rewrite H2 by done. apply H1; [done.. |]. intros H. by apply Hn, Hsub. Qed.

(** Aligned frames that share a word are equal. *)
Lemma aligned_word_neq f g i j :
  f mod 4096 = 0 -> g mod 4096 = 0 -> 0 <= i < 1024 -> 0 <= j < 1024 -> f + 4 * i = g + 4 * j -> f = g /\ i = j.
Proof.
  intros Hf Hg Hi Hj E. pose proof (Z.div_mod f 4096 ltac:(lia)). pose proof (Z.div_mod g 4096 ltac:(lia)). lia.
Qed.

Lemma frame_of_aligned e : is_u32 e -> frame_of e mod 4096 = 0.
Proof. intros He. destruct (frame_aligned e He) as (k & -> & _). by rewrite Z.mul_comm, Z_mod_mult. Qed.

Lemma data_kept_store m g i v :
  g mod 4096 = 0 -> 0 <= i < 1024 -> pt_frame (ram_store (g + 4 * i) v m) g -> data_kept m (ram_store (g + 4 * i) v m).
Proof.
  intros Hg Hi Hpt f k Hf Hk Hn. rewrite ram_word_store. destruct (Z.eqb_spec (f + 4 * k) (g + 4 * i)) as [E|]; [|done].
  by apply aligned_word_neq in E as [-> _].
Qed.

Lemma pte_window_page va :
  is_u32 va -> let w := Z.land (pte_ptr va) 0xfffff000 in
  is_u32 w /\ w mod 4096 = 0 /\ PDE_IDX w = 1023 /\ PTE_IDX w = PDE_IDX va.
Proof.
  intros Hva w. pose proof (PDE_IDX_range va Hva). pose proof (PTE_IDX_range va).
  assert (w = 1023 * 2 ^ 22 + PDE_IDX va * 2 ^ 12 + 0) as ->.
  { unfold w. rewrite land_high_20 by apply u32_range. rewrite pte_ptr_split by done.
    rewrite Z.add_0_r. replace (1023 * 2 ^ 22 + PDE_IDX va * 2 ^ 12)
      with ((1023 * 2 ^ 10 + PDE_IDX va) * 4096) by lia.
    rewrite Z.div_add_l, Z.div_small by lia. lia. }
  destruct (split_addr 1023 (PDE_IDX va) 0) as (H1 & H2 & H3 & H4); [lia..|].
  split; [done|]. rewrite land_low_12 in H4. done.
Qed.

(** The directory after the entry of [va] is set. *)
Lemma dir_entry_set m va pgt i :
  dir_entry (ram_store (pde_addr m va) pgt m) i =
  if i =? PDE_IDX va then pgt else dir_entry m i.
Proof.
  unfold dir_entry. rewrite ram_word_store. change (cr3 (ram_store _ _ m)) with (cr3 m).
  unfold pde_addr. destruct (Z.eqb_spec i (PDE_IDX va)) as [->|]; [by rewrite Z.eqb_refl|].
  by destruct (Z.eqb_spec (frame_of (cr3 m) + 4 * i) (frame_of (cr3 m) + 4 * PDE_IDX va)); [lia|].
Qed.

Lemma pt_frame_other m pgt i :
  ~ pt_frame m (frame_of pgt) -> 0 <= i < 1023 -> present (dir_entry m i) = true ->
  frame_of (dir_entry m i) <> frame_of pgt.
Proof. intros Hnf Hi Hpi E. apply Hnf. right. by exists i. Qed.

(** A directory whose missing entry [d] now points at a fresh frame. *)
Lemma pt_wf_extend m m' d pgt :
  pt_wf m -> 1 <= d < 1023 -> is_u32 pgt -> ~ pt_frame m (frame_of pgt) ->
  map_Forall (fun _ v => is_u32 v) (ram m') -> cr3 m' = cr3 m ->
  (forall i, 0 <= i < 1024 -> dir_entry m' i = if i =? d then pgt else dir_entry m i) ->
  pt_wf m'.
Proof.
  intros Hwf Hd Hg Hnf Hw Hc Hdir. destruct (wf_self m Hwf) as [Hsp Hsf].
  split; [done | rewrite Hc; apply Hwf | | |].
  - unfold self_mapped. fold (dir_entry m' 1023). rewrite Hdir by lia. rewrite Hc.
    by destruct (Z.eqb_spec 1023 d); [lia|].
  - intros i Hi. rewrite Hc, Hdir by lia. destruct (Z.eqb_spec i d).
    + intros _ E. apply Hnf. by left.
    + by apply (wf_not_dir m Hwf).
  - intros i j Hi Hj Hij. rewrite !Hdir by lia.
    destruct (Z.eqb_spec i d), (Z.eqb_spec j d).
    + lia.
    + intros _ Hpj E. by apply (pt_frame_other m pgt j Hnf ltac:(lia) Hpj).
    + intros Hpi _ E. by apply (pt_frame_other m pgt i Hnf ltac:(lia) Hpi).
    + by apply (wf_distinct m Hwf).
Qed.

(** The words [new_table] leaves. *)
Lemma new_table_words m va pgt :
  pt_wf m -> managed va -> is_u32 pgt -> present pgt = true -> frame_of (cr3 m) <> frame_of pgt ->
  wp (new_table pgt va) m (fun _ m' =>
    zeroed (ram_store (pde_addr m va) pgt m) m' (frame_of pgt) 1024).
Proof.
  intros Hwf [Hva Hd] Hg Hgp Hnc. unfold new_table. pose proof (wf_cr3 m Hwf) as Hc.
  wp_step. eapply wp_store; [apply translate_pde_ptr; [apply Hwf | done]|].
  set (m1 := ram_store (pde_addr m va) pgt m).
  assert (map_Forall (fun _ v => is_u32 v) (ram m1)) as Hw1 by (apply words_store; [apply Hwf | done]).
  destruct (pte_window_page va Hva) as (Hu & Hal & Hwd & Hwt).
  set (w := Z.land (pte_ptr va) 0xfffff000) in *. destruct (wf_self m Hwf) as [Hsp Hsf].
  assert (pde_of m1 w = dir_entry m 1023) as Hpde.
  { rewrite pde_of_dir, Hwd. unfold m1. rewrite dir_entry_set.
    by destruct (Z.eqb_spec 1023 (PDE_IDX va)); [lia|]. }
  assert (pte_of m1 w = pgt) as Hpte.
  { unfold pte_of, pte_addr. rewrite Hpde. unfold dir_entry. rewrite Hsf, Hwt.
    change (frame_of (cr3 m)) with (frame_of (cr3 m1)). fold (dir_entry m1 (PDE_IDX va)). unfold m1. by rewrite dir_entry_set, Z.eqb_refl. }
  rewrite <- Hpte. apply zero_words_ok; rewrite ?Hpde, ?Hpte; try done. by rewrite <- Hsf in Hnc.
Qed.

Lemma new_table_ok m va pgt :
  pt_wf m -> managed va -> present (pde_of m va) = false -> is_u32 pgt -> present pgt = true ->
  ~ pt_frame m (frame_of pgt) ->
  wp (new_table pgt va) m (fun _ m' =>
    pt_wf m' /\ cr3 m' = cr3 m /\
    (forall i, 0 <= i < 1024 -> dir_entry m' i = if i =? PDE_IDX va then pgt else dir_entry m i) /\
    (forall i, 0 <= i < 1024 -> ram_word m' (frame_of pgt + 4 * i) = 0) /\
    (forall va', managed va' -> translate m' va' = translate m va') /\ data_kept m m').
Proof.
  intros Hwf [Hva Hd] Hp Hg Hgp Hnf. pose proof (wf_cr3 m Hwf) as Hc.
  assert (frame_of (cr3 m) <> frame_of pgt) as Hnc by (intros E; apply Hnf; by left).
  eapply wp_mono; [by apply new_table_words|]. intros [] m' Hz.
  pose proof Hz as (Hc' & Hw' & Hz0 & Hzr).
  assert (forall i, 0 <= i < 1024 ->
    dir_entry m' i = if i =? PDE_IDX va then pgt else dir_entry m i) as Hdir'.
  { intros i Hi. rewrite <- (dir_entry_set m va). unfold dir_entry. rewrite Hc'.
    by eapply (zeroed_other_frame _ m' pgt (cr3 m)). }
  split; [by apply (pt_wf_extend m m' (PDE_IDX va) pgt)|]. do 3 (split; [done|]). split.
  2: { intros f k Hf Hk Hn. destruct (Z.eq_dec f (frame_of pgt)) as [->|Hfp].
    { destruct Hn. right. exists (PDE_IDX va). rewrite Hdir' by lia. rewrite Z.eqb_refl. split; [lia | done]. }
    rewrite Hzr by (intros i Hi E; by apply aligned_word_neq in E as [? _]; [| | apply frame_of_aligned | |]).
    rewrite ram_word_store. destruct (Z.eqb_spec (f + 4 * k) (pde_addr m va)) as [E|]; [|done].
    apply aligned_word_neq in E as [-> _]; [|done | by apply frame_of_aligned | done | lia].
    destruct Hn. left. by rewrite Hc'. }
  intros va' [Hva' Hd']. pose proof (PTE_IDX_range va').
  destruct (Z.eq_dec (PDE_IDX va') (PDE_IDX va)) as [E|Hne].
  { transitivity (@None Z); unfold translate, pte_of, pte_addr.
    - rewrite pde_of_dir, Hdir', E, Z.eqb_refl, Hz0 by lia. by rewrite andb_false_r.
    - rewrite pde_of_dir, E, <- pde_of_dir, Hp. done. }
  apply translate_ext; [done | |].
  { rewrite Hdir' by lia. by destruct (Z.eqb_spec (PDE_IDX va') (PDE_IDX va)). }
  intros Hp'. unfold pte_addr. rewrite pde_of_dir in *.
  assert (is_u32 (dir_entry m (PDE_IDX va'))) by apply ram_word_u32, Hwf.
  etransitivity; [apply (zeroed_other_frame (ram_store (pde_addr m va) pgt m) m' pgt (dir_entry m (PDE_IDX va')) 1024); try done|].
  { apply (pt_frame_other m); try done. lia. }
  rewrite ram_word_store. unfold pde_addr.
  destruct (Z.eqb_spec (frame_of (dir_entry m (PDE_IDX va')) + 4 * PTE_IDX va')
    (frame_of (cr3 m) + 4 * PDE_IDX va)) as [E|]; [|done].
  apply frame_word_neq in E as [E _]; [|done|done|lia|lia].
  by destruct (wf_not_dir m Hwf (PDE_IDX va') ltac:(lia) Hp').
Qed.

(** ** Properties *)
Lemma load_window m va :
  pt_wf m -> is_u32 va ->
  load (pte_ptr va) m = if present (pde_of m va) then Ok (pte_of m va, m) else Fault.
Proof.
  intros Hwf Hva. unfold load. rewrite translate_pte_ptr by (done || apply Hwf).
  by destruct (present (pde_of m va)).
Qed.

Lemma store_window m va v :
  pt_wf m -> is_u32 va -> present (pde_of m va) = true ->
  store (pte_ptr va) v m = Ok (tt, ram_store (pte_addr m va) v m).
Proof.
  intros Hwf Hva Hp. unfold store. rewrite translate_pte_ptr by (done || apply Hwf). by rewrite Hp.
Qed.

Lemma addr_v2p_ok m va :
  pt_wf m -> is_u32 va ->
  addr_v2p va m =
    if present (pde_of m va) then Ok (frame_of (pte_of m va) + Z.land va 0xfff, m) else Fault.
Proof.
  intros Hwf Hva. unfold addr_v2p. pose proof (load_window m va Hwf Hva) as El.
  destruct (present (pde_of m va)); [rewrite (bind_ok _ _ _ _ _ El) | by apply bind_fault].
  unfold mret, M_ret. f_equal. f_equal.
  apply u32_id. assert (is_u32 (pte_of m va)) as Hu by apply ram_word_u32, Hwf.
  destruct (frame_aligned _ Hu) as (k & E & ?). rewrite E, land_low_12.
  pose proof (Z.mod_pos_bound va 4096). unfold is_u32. lia.
Qed.

Lemma clear_present e :
  is_u32 e -> let e' := Z.land e (Z.lnot PG_P_1) in
  is_u32 e' /\ present e' = false /\ frame_of e' = frame_of e.
Proof.
  intros He e'. unfold e', PG_P_1, present, frame_of, is_u32 in *. split; [|split].
  - split; [apply Z.land_nonneg; lia|].
    apply (below_pow2 _ 32); [lia | apply Z.land_nonneg; lia |].
    intros k Hk. by rewrite Z.land_spec, (testbit_high e 32) by lia.
  - rewrite Z.land_spec. apply andb_false_r.
  - by rewrite <- Z.land_assoc.
Qed.

Lemma page_table_pte_remove_ok m va :
  pt_wf m -> managed va -> present (pde_of m va) = true ->
  let e' := Z.land (pte_of m va) (Z.lnot PG_P_1) in
  page_table_pte_remove va m = Ok (tt, ram_store (pte_addr m va) e' m).
Proof.
  intros Hwf [Hva Hd] Hp e'. unfold page_table_pte_remove.
  rewrite (bind_ok _ _ _ (pte_of m va) m) by (by rewrite load_window, Hp). by apply store_window.
Qed.

(** The pointers [pde_ptr] and [pte_ptr] build do reach the entries of
    their address: reading through them gives the page-directory entry and,
    when the directory has a table there, the page-table entry that the
    processor itself uses for the address; without a table the access is a
    page fault.  Writing through them changes exactly that word of memory. *)
Theorem recursive_window_correct (m : mmu) (va v : Z) (Hwf : pt_wf m) (Hva : is_u32 va) :
  load (pde_ptr va) m = Ok (pde_of m va, m) /\
  store (pde_ptr va) v m = Ok (tt, ram_store (pde_addr m va) v m) /\
  load (pte_ptr va) m = (if present (pde_of m va) then Ok (pte_of m va, m) else Fault) /\
  store (pte_ptr va) v m =
    (if present (pde_of m va) then Ok (tt, ram_store (pte_addr m va) v m) else Fault).
Proof.
  split; [|split; [|split]].
  - unfold load. by rewrite translate_pde_ptr by (done || apply Hwf).
  - unfold store. by rewrite translate_pde_ptr by (done || apply Hwf).
  - by apply load_window.
  - unfold store. rewrite translate_pte_ptr by (done || apply Hwf). by destruct (present _).
Qed.

(** [addr_v2p] returns the physical address the processor translates the
    address to, whenever the address is mapped; without a page table there it
    faults.  (It does not look at the present bit of the page-table entry: an
    unmapped page of an existing table still yields the frame it had.) *)
Theorem addr_v2p_correct (m : mmu) (va : Z) (Hwf : pt_wf m) (Hva : is_u32 va) :
  (forall pa, translate m va = Some pa -> addr_v2p va m = Ok (pa, m)) /\
  (present (pde_of m va) = false -> addr_v2p va m = Fault) /\
  (present (pde_of m va) = true -> present (pte_of m va) = false ->
   translate m va = None /\ addr_v2p va m = Ok (frame_of (pte_of m va) + Z.land va 0xfff, m)).
Proof.
  rewrite addr_v2p_ok by done. unfold translate. split; [|split].
  - intros pa. destruct (present (pde_of m va)), (present (pte_of m va)); try done. by intros [= <-].
  - by intros ->.
  - by intros -> ->.
Qed.

(** [page_table_pte_remove] on an address whose page table exists unmaps
    its page and no other, keeps the page tables well formed and leaves the
    frame number in the entry; without a page table it faults. *)
Theorem page_table_pte_remove_correct (m : mmu) (va : Z) (Hwf : pt_wf m) (Hva : managed va) :
  if present (pde_of m va) then
    exists m', page_table_pte_remove va m = Ok (tt, m') /\ pt_wf m' /\
      frame_of (pte_of m' va) = frame_of (pte_of m va) /\
      forall va', managed va' -> translate m' va' =
        if va' / 4096 =? va / 4096 then None else translate m va'
  else page_table_pte_remove va m = Fault.
Proof.
  destruct (present (pde_of m va)) eqn:Hp.
  - assert (is_u32 (pte_of m va)) as Hu by apply ram_word_u32, Hwf.
    destruct (clear_present _ Hu) as (Hu' & Hp' & Hf).
    destruct (set_pte_ok m va _ Hwf Hva Hp Hu') as (Hwf' & Hc' & Hdir & Htr).
    eexists. split; [by apply page_table_pte_remove_ok|]. split; [done|]. split.
    + destruct Hva as [Hva Hd].
      match type of Hwf' with pt_wf ?s => assert (pte_addr s va = pte_addr m va) as Ha end.
      { unfold pte_addr at 1. by rewrite pde_of_dir, Hdir by lia. }
      unfold pte_of at 1. by rewrite Ha, ram_word_store, Z.eqb_refl.
    + intros va' Hva'. rewrite Htr by done. by rewrite Hp'.
  - unfold page_table_pte_remove. apply bind_fault. rewrite load_window by (done || apply Hva). by rewrite Hp.
Qed.

(** A boot-like machine: directory at 0x100000, the table of 0xc0000000 at
    0x101000, and the page 0xc0100000 mapped to the frame 0x200000. *)
Definition example_mmu : mmu :=
  Mmu {[ 0x100000 + 4 * 1023 := 0x100007; 0x100000 + 4 * 768 := 0x101007;
         0x101000 + 4 * 256 := 0x200007 ]} 0x100000.

Lemma example_dir i :
  0 <= i < 1024 -> dir_entry example_mmu i =
    if i =? 1023 then 0x100007 else if i =? 768 then 0x101007 else 0.
Proof.
  intros Hi. unfold dir_entry, ram_word, example_mmu. simpl ram. simpl cr3.
  change (frame_of 0x100000) with 0x100000.
  destruct (Z.eqb_spec i 1023) as [->|]; [done|]. destruct (Z.eqb_spec i 768) as [->|]; [done|].
  rewrite lookup_insert_ne by lia. rewrite lookup_insert_ne by lia.
  rewrite lookup_singleton_ne by lia. done.
Qed.

Lemma example_mmu_wf : pt_wf example_mmu.
Proof.
  split.
  - unfold example_mmu, ram. repeat (apply map_Forall_insert_2; [unfold is_u32; lia|]).
    apply map_Forall_empty.
  - unfold is_u32. simpl. lia.
  - by vm_compute.
  - intros i Hi. rewrite example_dir by lia. destruct (Z.eqb_spec i 1023); [lia|].
    destruct (i =? 768); by vm_compute.
  - intros i j Hi Hj Hij. rewrite !example_dir by lia.
    destruct (Z.eqb_spec i 1023), (Z.eqb_spec j 1023); try lia.
    destruct (Z.eqb_spec i 768), (Z.eqb_spec j 768); try done; lia.
Qed.

Lemma recursive_window_correct_witness :
  load (pte_ptr 0xc0100000) example_mmu = Ok (0x200007, example_mmu) /\
  load (pde_ptr 0xc0100000) example_mmu = Ok (0x101007, example_mmu).
Proof.
  destruct (recursive_window_correct example_mmu 0xc0100000 0 example_mmu_wf) as (Hd & _ & Ht & _);
    [unfold is_u32; lia|]. split; [exact Ht | exact Hd].
Defined.

Lemma addr_v2p_correct_witness : addr_v2p 0xc0100abc example_mmu = Ok (0x200abc, example_mmu).
Proof.
  assert (is_u32 0xc0100abc) as Hu by (unfold is_u32; lia).
  apply (proj1 (addr_v2p_correct example_mmu 0xc0100abc example_mmu_wf Hu)). by vm_compute.
Defined.

Lemma page_table_pte_remove_correct_witness :
  exists m', page_table_pte_remove 0xc0100000 example_mmu = Ok (tt, m') /\ pt_wf m' /\
    frame_of (pte_of m' 0xc0100000) = 0x200000 /\
    forall va', managed va' -> translate m' va' =
      if va' / 4096 =? 0xc0100000 / 4096 then None else translate example_mmu va'.
Proof.
  apply (page_table_pte_remove_correct example_mmu 0xc0100000 example_mmu_wf).
  split; [unfold is_u32; lia | by vm_compute].
Defined.
