(* ===== verification/PageAlloc.v ===== *)
(** * The page allocator: kernel/memory.c (pools, mapping, pages)

    Two pools of physical frames (kernel and user), a bitmap of the kernel's
    heap addresses, the address bitmap of the running process, and the current
    page tables.  The locks around the allocator are in Pages.v: the functions
    here are what runs while the lock is held. *)
From stdpp Require Import base numbers list gmap fin_maps.
From Stdlib Require Import ZArith Lia.
From S2P Require Import Prelude Globals Bitmap Paging.

(** ** State *)
Record virtual_addr_pool := VPool { vaddr_bitmap : bitmap; vaddr_start : Z }.

Record mem_pool := MemPool {
  mem_pool_bitmap : bitmap;
  phy_addr_start : Z;
  pool_size : Z;
}.

Inductive pool_flags := PF_KERNEL | PF_USER.

Definition pool_flags_value (pf : pool_flags) : Z :=
  match pf with PF_KERNEL => 1 | PF_USER => 2 end.

#[export] Instance pool_flags_eq_dec : EqDecision pool_flags.
Proof. solve_decision. Defined.

(** The globals of memory.h, the machine, and the two fields of
    [running_thread()] the allocator uses. *)
Record mem_state := MemState {
  machine : mmu;
  kernel_mem_pool : mem_pool;
  user_mem_pool : mem_pool;
  kernel_vaddr_pool : virtual_addr_pool;
  userprog_vaddr_pool : virtual_addr_pool;
  cur_pgdir : Z;
}.

Definition machine_lens : lens mem_state mmu.
Proof.
  refine {| view := machine; put := fun x s => MemState x (kernel_mem_pool s) (user_mem_pool s)
    (kernel_vaddr_pool s) (userprog_vaddr_pool s) (cur_pgdir s) |}; by intros; try destruct s.
Defined.

(** [&kernel_mem_pool] or [&user_mem_pool]. *)
Definition pool_get (pf : pool_flags) (s : mem_state) : mem_pool :=
  match pf with PF_KERNEL => kernel_mem_pool s | PF_USER => user_mem_pool s end.

Definition pool_lens (pf : pool_flags) : lens mem_state mem_pool.
Proof.
  refine {| view := pool_get pf; put := fun x s => match pf with
    | PF_KERNEL => MemState (machine s) x (user_mem_pool s) (kernel_vaddr_pool s)
        (userprog_vaddr_pool s) (cur_pgdir s)
    | PF_USER => MemState (machine s) (kernel_mem_pool s) x (kernel_vaddr_pool s)
        (userprog_vaddr_pool s) (cur_pgdir s) end |}; by intros; destruct pf; try destruct s.
Defined.

Definition vpool_get (pf : pool_flags) (s : mem_state) : virtual_addr_pool :=
  match pf with PF_KERNEL => kernel_vaddr_pool s | PF_USER => userprog_vaddr_pool s end.

Definition vpool_lens (pf : pool_flags) : lens mem_state virtual_addr_pool.
Proof.
  refine {| view := vpool_get pf; put := fun x s => match pf with
    | PF_KERNEL => MemState (machine s) (kernel_mem_pool s) (user_mem_pool s) x
        (userprog_vaddr_pool s) (cur_pgdir s)
    | PF_USER => MemState (machine s) (kernel_mem_pool s) (user_mem_pool s) (kernel_vaddr_pool s)
        x (cur_pgdir s) end |}; by intros; destruct pf; try destruct s.
Defined.

Definition pool_bitmap_lens : lens mem_pool bitmap.
Proof.
  refine {| view := mem_pool_bitmap;
    put := fun x p => MemPool x (phy_addr_start p) (pool_size p) |}; by intros; try destruct s.
Defined.

Definition vpool_bitmap_lens : lens virtual_addr_pool bitmap.
Proof.
  refine {| view := vaddr_bitmap; put := fun x p => VPool x (vaddr_start p) |}; by intros; try destruct s.
Defined.

(** ** Allocation *)

(** [while (cnt < pg_cnt) bitmap_set(btmp, start + cnt++, value)]. *)
Definition set_range (start cnt value : Z) : M bitmap unit :=
  for_loop (Z.to_nat cnt) 0 (fun i => bitmap_set (u32 (start + i)) value).

Definition vaddr_alloc (pg_cnt : Z) : M virtual_addr_pool (option Z) :=
  bit_idx_start ← zoom vpool_bitmap_lens (bitmap_scan pg_cnt);
  if bit_idx_start =? -1 then mret None
  else
    zoom vpool_bitmap_lens (set_range bit_idx_start pg_cnt 1) ;;;
    p ← get;
    mret (Some (u32 (vaddr_start p + bit_idx_start * PG_SIZE))).

Definition get_virtual_addr (pf : pool_flags) (pg_cnt : Z) : M mem_state Z :=
  match pf with
  | PF_KERNEL =>
      r ← zoom (vpool_lens PF_KERNEL) (vaddr_alloc pg_cnt);
      match r with None => mret NULL | Some vaddr_start => mret vaddr_start end
  | PF_USER =>
      r ← zoom (vpool_lens PF_USER) (vaddr_alloc pg_cnt);
      match r with
      | None => mret NULL
      | Some vaddr_start => ASSERT (vaddr_start <? 0xc0000000 - PG_SIZE) ;;; mret vaddr_start
      end
  end.

Definition palloc : M mem_pool Z :=
  bit_idx ← zoom pool_bitmap_lens (bitmap_scan 1);
  if bit_idx =? -1 then mret NULL
  else
    zoom pool_bitmap_lens (bitmap_set (u32 bit_idx) 1) ;;;
    p ← get;
    mret (u32 (phy_addr_start p + bit_idx * PG_SIZE)).

(** The entry [paddr | PG_US_U | PG_RW_W | PG_P_1]. *)
Definition entry (paddr : Z) : Z := Z.lor (Z.lor (Z.lor paddr PG_US_U) PG_RW_W) PG_P_1.

Definition page_table_map (vaddr paddr : Z) : M mem_state unit :=
  let pde := pde_ptr vaddr in
  let pte := pte_ptr vaddr in
  d ← zoom machine_lens (load pde);
  if negb (Z.land d 1 =? 0) then
    e ← zoom machine_lens (load pte);
    ASSERT (Z.land e 1 =? 0) ;;;
    e ← zoom machine_lens (load pte);
    if Z.land e 1 =? 0 then zoom machine_lens (store pte (entry paddr)) else PANIC
  else
    pgt_paddr ← zoom (pool_lens PF_KERNEL) palloc;
    zoom machine_lens (store pde (entry pgt_paddr)) ;;;
    zoom machine_lens (zero_words (Z.land pte 0xfffff000) 1024) ;;;
    e ← zoom machine_lens (load pte);
    ASSERT (Z.land e 1 =? 0) ;;;
    zoom machine_lens (store pte (entry paddr)).

(** [pf & PF_KERNEL ? &kernel_mem_pool : &user_mem_pool]. *)
Definition flags_pool (pf : pool_flags) : pool_flags :=
  if negb (Z.land (pool_flags_value pf) (pool_flags_value PF_KERNEL) =? 0) then PF_KERNEL else PF_USER.

(** The [for] loop of [malloc_page]; [false] is its early return. *)
Fixpoint map_pages (pool : pool_flags) (cnt : nat) (vaddr : Z) : M mem_state bool :=
  match cnt with
  | O => mret true
  | S cnt' =>
      page_phyaddr ← zoom (pool_lens pool) palloc;
      if page_phyaddr =? NULL then mret false
      else page_table_map vaddr page_phyaddr ;;; map_pages pool cnt' (u32 (vaddr + PG_SIZE))
  end.

Definition malloc_page (pf : pool_flags) (pg_cnt : Z) : M mem_state Z :=
  ASSERT ((0 <? pg_cnt) && (pg_cnt <? 3840)) ;;;
  vaddr_start ← get_virtual_addr pf pg_cnt;
  if vaddr_start =? NULL then mret NULL
  else
    ok ← map_pages (flags_pool pf) (Z.to_nat pg_cnt) vaddr_start;
    mret (if ok : bool then vaddr_start else NULL).

(** ** Specification *)

(** The physical frame the page of [va] is mapped to. *)
Definition page_frame (m : mmu) (va : Z) : option Z :=
  if present (pde_of m va) && present (pte_of m va) then Some (frame_of (pte_of m va)) else None.

Lemma translate_page_frame m va :
  translate m va = (fun f => f + Z.land va 0xfff) <$> page_frame m va.
Proof. unfold translate, page_frame. by destruct (present (pde_of m va) && present (pte_of m va)). Qed.

Lemma page_frame_translate m m' va va' :
  va mod 4096 = va' mod 4096 ->
  translate m' va' = translate m va -> page_frame m' va' = page_frame m va.
Proof.
  intros Hmod. rewrite !translate_page_frame, !land_low_12, Hmod.
  destruct (page_frame m' va'), (page_frame m va); simpl; try done. intros [= E]. f_equal. lia.
Qed.

Record pool_ok (p : mem_pool) : Prop := {
  pool_bitmap_ok : bitmap_ok (mem_pool_bitmap p);
  pool_start : 0 < phy_addr_start p;
  pool_aligned : phy_addr_start p mod 4096 = 0;
  pool_end : phy_addr_start p + nbits (mem_pool_bitmap p) * 4096 <= 0x100000000;
}.

Definition pool_top (p : mem_pool) : Z := phy_addr_start p + nbits (mem_pool_bitmap p) * 4096.

(** Frame [f] belongs to the pool and is not allocated. *)
Definition frame_free (p : mem_pool) (f : Z) : Prop :=
  exists i, 0 <= i < nbits (mem_pool_bitmap p) /\ bit (mem_pool_bitmap p) i = false /\
    f = phy_addr_start p + i * 4096.

(** Frame [f] belongs to the pool and is allocated. *)
Definition frame_used (p : mem_pool) (f : Z) : Prop :=
  exists i, 0 <= i < nbits (mem_pool_bitmap p) /\ bit (mem_pool_bitmap p) i = true /\
    f = phy_addr_start p + i * 4096.

Definition free_count (p : mem_pool) : Z :=
  count_n (fun i => negb (bit (mem_pool_bitmap p) i)) 0 (Z.to_nat (nbits (mem_pool_bitmap p))).

(** The parts of a pool no operation changes. *)
Definition same_pool (p p' : mem_pool) : Prop :=
  phy_addr_start p' = phy_addr_start p /\ pool_size p' = pool_size p /\
  nbits (mem_pool_bitmap p') = nbits (mem_pool_bitmap p).

(** [p'] is [p] with the frame [f] taken. *)
Definition pool_take (p p' : mem_pool) (f : Z) : Prop :=
  pool_ok p' /\ same_pool p p' /\ frame_free p f /\
  (forall g, frame_free p' g <-> frame_free p g /\ g <> f) /\
  free_count p' = free_count p - 1.

Lemma pool_take_free p p' f : pool_take p p' f -> frame_free p f.
Proof. by intros (_ & _ & Hf & _). Qed.

Lemma same_pool_refl p : same_pool p p.
Proof. done. Qed.

Lemma same_pool_trans p q r : same_pool p q -> same_pool q r -> same_pool p r.
Proof. unfold same_pool. intros (H1 & H2 & H3) (H4 & H5 & H6). split; [congruence | split; congruence]. Qed.

Lemma nbits_len b b' : btmp_bytes_len b' = btmp_bytes_len b -> nbits b' = nbits b.
Proof. unfold nbits. by intros ->. Qed.

Lemma frame_free_in p f :
  pool_ok p -> frame_free p f -> phy_addr_start p <= f < pool_top p /\ f mod 4096 = 0 /\ is_u32 f.
Proof.
  intros Hp (i & Hi & _ & ->). pose proof (pool_end p Hp). pose proof (pool_start p Hp).
  unfold pool_top, is_u32. split; [lia|]. split; [|lia].
  rewrite Z_mod_plus_full. apply Hp.
Qed.

Lemma aligned_frame f : is_u32 f -> f mod 4096 = 0 -> frame_of f = f.
Proof.
  intros Hf Hm. unfold frame_of. rewrite land_high_20 by done.
  pose proof (Z.div_mod f 4096 ltac:(lia)). lia.
Qed.

(** Setting the bit of a free frame takes it. *)
Lemma pool_take_bit p b' i :
  pool_ok p -> 0 <= i < nbits (mem_pool_bitmap p) -> bit (mem_pool_bitmap p) i = false ->
  bitmap_ok b' -> btmp_bytes_len b' = btmp_bytes_len (mem_pool_bitmap p) ->
  (forall j, 0 <= j -> bit b' j = if i =? j then true else bit (mem_pool_bitmap p) j) ->
  pool_take p (MemPool b' (phy_addr_start p) (pool_size p)) (phy_addr_start p + i * 4096).
Proof.
  intros Hp Hi Hbit Hb' Hl Hj. apply nbits_len in Hl as Hn. destruct Hp as [H1 H2 H3 H4].
  split; [|split; [|split; [|split]]].
  - split; simpl; try done. by rewrite Hn.
  - done.
  - by exists i.
  - intros g. unfold frame_free. simpl. rewrite Hn. split.
    + intros (j & Hjr & Hbj & ->). rewrite Hj in Hbj by lia.
      destruct (Z.eqb_spec i j); [done|]. split; [by exists j | lia].
    + intros ((j & Hjr & Hbj & ->) & Hne). exists j. rewrite Hj by lia.
      destruct (Z.eqb_spec i j); [subst; done | done].
  - unfold free_count. simpl. rewrite Hn. apply (count_n_flip _ _ _ _ i).
    + lia.
    + by rewrite Hbit.
    + rewrite Hj by lia. by rewrite Z.eqb_refl.
    + intros j Hjr Hne. rewrite Hj by lia. by destruct (Z.eqb_spec i j).
Qed.

(** ** palloc *)

(** The first free frame. *)
Definition first_free (p : mem_pool) (f : Z) : Prop :=
  frame_free p f /\ forall g, frame_free p g -> f <= g.

Lemma free_count_all_used p : all_used (mem_pool_bitmap p) -> free_count p = 0.
Proof.
  intros Hall. unfold free_count. rewrite (count_n_ext _ (fun _ => false)).
  - generalize 0 at 1. induction (Z.to_nat _) as [|n IH]; intros lo; simpl; [done | apply IH].
  - intros i Hi. by rewrite Hall by lia.
Qed.

Lemma palloc_ok p :
  pool_ok p ->
  wpp palloc p (fun f p' => first_free p f /\ f <> NULL /\ pool_take p p' f) (free_count p = 0).
Proof.
  intros Hp. pose proof (pool_bitmap_ok p Hp) as Hb. pose proof (ok_len _ Hb) as Hlen.
  unfold palloc. apply wpp_bind, wpp_zoom.
  destruct (all_used_dec (mem_pool_bitmap p) Hb) as [Hall|Hfree].
  - unfold wpp. simpl view. rewrite bitmap_scan_full by done. by apply free_count_all_used.
  - apply wpp_wp. simpl view. eapply wp_mono; [apply bitmap_scan_ok; try done; unfold is_u32; lia|].
    intros r b' (-> & Hscan). replace (put pool_bitmap_lens (mem_pool_bitmap p) p) with p by (by destruct p).
    change (view pool_bitmap_lens p) with (mem_pool_bitmap p) in *.
    destruct Hscan as [(-> & Hnone)|((Hr & Hend & Hrun) & Hmin)].
    + exfalso. destruct Hfree as (i & Hi & Hbit). apply (Hnone i).
      split; [lia | split; [lia|]]. intros j Hj. by replace j with i by lia.
    + assert (bit (mem_pool_bitmap p) r = false) as Hbit by (apply Hrun; lia).
      assert (0 <= r < nbits (mem_pool_bitmap p)) as Hr' by (simpl in *; lia).
      destruct (Z.eqb_spec r (-1)); [lia|]. apply wpp_wp. wp_step. apply wp_zoom.
      assert (is_u32 r) as Hu by (unfold is_u32, nbits in *; lia). rewrite u32_id by done.
      eapply wp_mono; [apply bitmap_set_ok; auto|]. intros [] b' (Hok' & Hl & _ & Hj). wp_steps.
      simpl in *. pose proof (pool_end p Hp). pose proof (pool_start p Hp). unfold PG_SIZE.
      rewrite u32_id by (unfold is_u32; lia). split; [split|split].
      * by exists r.
      * intros g (i & Hi & Hbi & ->). assert (r <= i); [|lia]. apply Hmin.
        split; [lia | split; [lia|]]. intros j ?. by replace j with i by lia.
      * unfold NULL. lia.
      * by apply pool_take_bit.
Qed.

(** ** The invariant *)
Record vpool_ok (p : virtual_addr_pool) : Prop := {
  vpool_bitmap_ok : bitmap_ok (vaddr_bitmap p);
  vpool_aligned : vaddr_start p mod 4096 = 0;
  vpool_start : 2 ^ 22 <= vaddr_start p;
  vpool_end : vaddr_start p + nbits (vaddr_bitmap p) * 4096 <= 1023 * 2 ^ 22;
}.

Definition vpool_top (p : virtual_addr_pool) : Z := vaddr_start p + nbits (vaddr_bitmap p) * 4096.

(** The page [va] of the pool is not handed out. *)
Definition vaddr_free (p : virtual_addr_pool) (va : Z) : Prop :=
  exists i, 0 <= i < nbits (vaddr_bitmap p) /\ bit (vaddr_bitmap p) i = false /\
    va = vaddr_start p + i * 4096.

Definition free_frame (s : mem_state) (f : Z) : Prop := exists pf, frame_free (pool_get pf s) f.

(** A kernel thread has no user address pool. *)
Definition live (s : mem_state) (pf : pool_flags) : Prop := pf = PF_USER -> cur_pgdir s <> NULL.

(** What the allocator maintains: the pools and page tables are well formed;
    no frame that holds page tables and no mapped frame is free; no frame is
    mapped at two addresses; an address that is free in a pool is unmapped. *)
Record mem_ok (s : mem_state) : Prop := {
  mo_pt : pt_wf (machine s);
  mo_pool : forall pf, pool_ok (pool_get pf s);
  mo_order : pool_top (kernel_mem_pool s) <= phy_addr_start (user_mem_pool s);
  mo_vpool : forall pf, live s pf -> vpool_ok (vpool_get pf s);
  mo_vorder : live s PF_USER -> vpool_top (userprog_vaddr_pool s) <= vaddr_start (kernel_vaddr_pool s);
  mo_tables : forall f, pt_frame (machine s) f -> ~ free_frame s f;
  mo_mapped : forall va f, managed va -> page_frame (machine s) va = Some f -> ~ free_frame s f;
  mo_inj : forall va va' f, managed va -> managed va' -> page_frame (machine s) va = Some f ->
    page_frame (machine s) va' = Some f -> va / 4096 = va' / 4096;
  mo_unmapped : forall pf va, live s pf -> vaddr_free (vpool_get pf s) va ->
    page_frame (machine s) va = None;
}.

Lemma managed_range va : 2 ^ 22 <= va < 1023 * 2 ^ 22 -> managed va.
Proof.
  intros Hva. assert (is_u32 va) as Hu by (unfold is_u32; lia). split; [done|].
  rewrite PDE_IDX_div by done.
  split; [apply Z.div_le_lower_bound; lia | apply Z.div_lt_upper_bound; lia].
Qed.

Lemma vaddr_free_range p va :
  vpool_ok p -> vaddr_free p va -> vaddr_start p <= va < vpool_top p /\ managed va /\ va mod 4096 = 0.
Proof.
  intros Hp (i & Hi & _ & ->). pose proof (vpool_start p Hp). pose proof (vpool_end p Hp).
  unfold vpool_top. split; [lia|]. split; [apply managed_range; lia|].
  rewrite Z_mod_plus_full. apply Hp.
Qed.

(** A frame of one pool is not a frame of the other. *)
Lemma frame_free_disjoint s f :
  mem_ok s -> frame_free (kernel_mem_pool s) f -> ~ frame_free (user_mem_pool s) f.
Proof.
  intros Hok Hk Hu. apply frame_free_in in Hk as (Hk & _); [|apply (mo_pool s Hok PF_KERNEL)].
  apply frame_free_in in Hu as (Hu & _); [|apply (mo_pool s Hok PF_USER)].
  pose proof (mo_order s Hok). lia.
Qed.

Lemma free_frame_aligned s f : mem_ok s -> free_frame s f -> is_u32 f /\ f mod 4096 = 0.
Proof. intros Hok [pf Hf]. apply frame_free_in in Hf; [naive_solver | apply Hok]. Qed.

(** *** Taking a frame *)
Lemma pool_get_put pf pf' p s :
  pool_get pf' (put (pool_lens pf) p s) = if decide (pf' = pf) then p else pool_get pf' s.
Proof. by destruct pf, pf', s. Qed.

Lemma vpool_get_put_pool pf pf' p s : vpool_get pf' (put (pool_lens pf) p s) = vpool_get pf' s.
Proof. by destruct pf, pf', s. Qed.

Lemma machine_put_pool pf p s : machine (put (pool_lens pf) p s) = machine s.
Proof. by destruct pf, s. Qed.

Lemma pgdir_put_pool pf p s : cur_pgdir (put (pool_lens pf) p s) = cur_pgdir s.
Proof. by destruct pf, s. Qed.

Lemma free_frame_take s pf p f g :
  mem_ok s -> pool_take (pool_get pf s) p f ->
  (free_frame (put (pool_lens pf) p s) g <-> free_frame s g /\ g <> f).
Proof.
  intros Hok (_ & _ & Hf & Hg & _). unfold free_frame. split.
  - intros [pf' H]. rewrite pool_get_put in H. destruct (decide (pf' = pf)) as [->|Hne].
    + apply Hg in H as [? ?]. eauto.
    + split; [by exists pf'|]. intros ->. pose proof (frame_free_disjoint s f Hok).
      destruct pf, pf'; naive_solver.
  - intros [[pf' H] Hgf]. exists pf'. rewrite pool_get_put.
    destruct (decide (pf' = pf)) as [->|Hne]; [by apply Hg | done].
Qed.

Lemma mem_ok_take s pf p f :
  mem_ok s -> pool_take (pool_get pf s) p f -> mem_ok (put (pool_lens pf) p s).
Proof.
  intros Hok Ht. pose proof (fun g => proj1 (free_frame_take s pf p f g Hok Ht)) as Hfree.
  destruct Ht as (Hp & (Hs1 & Hs2 & Hs3) & _).
  split; rewrite ?machine_put_pool; unfold live; rewrite ?pgdir_put_pool.
  - apply Hok.
  - intros pf'. rewrite pool_get_put. destruct (decide (pf' = pf)); [done | apply Hok].
  - pose proof (mo_order s Hok) as Ho. unfold pool_top in *.
    destruct pf; simpl in *; by rewrite ?Hs1, ?Hs3.
  - intros pf' Hl. rewrite vpool_get_put_pool. by apply Hok.
  - intros Hl. pose proof (mo_vorder s Hok Hl). by destruct pf.
  - intros g Hg Hfr. apply (mo_tables s Hok g Hg). by apply Hfree.
  - intros va g Hva Hg Hfr. apply (mo_mapped s Hok va g Hva Hg). by apply Hfree.
  - apply Hok.
  - intros pf' va Hl. rewrite vpool_get_put_pool. by apply Hok.
Qed.

(** ** page_table_map *)
Lemma present_land e : (Z.land e 1 =? 0) = negb (present e).
Proof. apply (land_pow2_eqb e 0). lia. Qed.

Lemma entry_ok pa :
  is_u32 pa -> pa mod 4096 = 0 ->
  is_u32 (entry pa) /\ present (entry pa) = true /\ frame_of (entry pa) = pa.
Proof.
  intros Hu Hm. unfold entry, PG_US_U, PG_RW_W, PG_P_1.
  rewrite <- !Z.lor_assoc. change (Z.lor 4 (Z.lor 2 1)) with 7. split; [|split].
  - unfold is_u32 in *. split; [apply Z.lor_nonneg; lia|].
    apply (below_pow2 _ 32); [lia | apply Z.lor_nonneg; lia |]. intros k Hk.
    rewrite Z.lor_spec, (testbit_high pa 32), (testbit_high 7 32) by lia. done.
  - unfold present. rewrite Z.lor_spec. by rewrite orb_true_r.
  - unfold frame_of. rewrite Z.land_lor_distr_l. change (Z.land 7 0xfffff000) with 0.
    rewrite Z.lor_0_r. by apply aligned_frame.
Qed.

Lemma mem_ok_machine s m' :
  mem_ok s -> pt_wf m' -> (forall f, pt_frame m' f -> ~ free_frame s f) ->
  (forall va f, managed va -> page_frame m' va = Some f -> ~ free_frame s f) ->
  (forall va va' f, managed va -> managed va' -> page_frame m' va = Some f ->
    page_frame m' va' = Some f -> va / 4096 = va' / 4096) ->
  (forall pf va, live s pf -> vaddr_free (vpool_get pf s) va -> page_frame m' va = None) ->
  mem_ok (put machine_lens m' s).
Proof. intros Hok H1 H2 H3 H4 H5. split; try done; apply Hok. Qed.

(** A page that can be mapped to [pa]: not mapped, its address handed out,
    and [pa] neither free nor mapped elsewhere. *)
Record mappable (s : mem_state) (va pa : Z) : Prop := {
  mp_managed : managed va;
  mp_aligned : va mod 4096 = 0;
  mp_unmapped : page_frame (machine s) va = None;
  mp_taken : forall pf, live s pf -> ~ vaddr_free (vpool_get pf s) va;
  mp_pa : is_u32 pa /\ pa mod 4096 = 0;
  mp_not_free : ~ free_frame s pa;
  mp_fresh : forall va', managed va' -> page_frame (machine s) va' <> Some pa;
}.

Lemma free_vaddr_managed s pf va :
  mem_ok s -> live s pf -> vaddr_free (vpool_get pf s) va -> managed va /\ va mod 4096 = 0.
Proof. intros Hok Hl Hv. apply vaddr_free_range in Hv; [naive_solver | by apply Hok]. Qed.

Lemma aligned_same_page va va' :
  va mod 4096 = 0 -> va' mod 4096 = 0 -> va / 4096 = va' / 4096 -> va = va'.
Proof.
  intros. pose proof (Z.div_mod va 4096 ltac:(lia)). pose proof (Z.div_mod va' 4096 ltac:(lia)). lia.
Qed.

(** What a machine [m'] is after the page of [va] was mapped to [pa]. *)
Definition maps (m m' : mmu) (va pa : Z) : Prop :=
  cr3 m' = cr3 m /\
  forall va', managed va' ->
    page_frame m' va' = if va' / 4096 =? va / 4096 then Some pa else page_frame m va'.

Lemma set_pte_maps m va pa :
  pt_wf m -> managed va -> present (pde_of m va) = true -> is_u32 pa -> pa mod 4096 = 0 ->
  let m' := ram_store (pte_addr m va) (entry pa) m in
  pt_wf m' /\ maps m m' va pa /\ (forall i, 0 <= i < 1024 -> dir_entry m' i = dir_entry m i) /\
  pte_of m' va = entry pa /\ data_kept m m'.
Proof.
  intros Hwf Hva Hp Hu Hm m'. destruct (entry_ok pa Hu Hm) as (He & Hpe & Hfe).
  destruct (set_pte_ok m va (entry pa) Hwf Hva Hp He) as (Hwf' & Hc & Hdir & Htr).
  split; [done|]. split; [split; [done|] | split; [done|]].
  - intros va' Hva'. specialize (Htr va' Hva'). fold m' in Htr. rewrite Hpe, Hfe in Htr.
    destruct (va' / 4096 =? va / 4096); [|by apply page_frame_translate].
    rewrite translate_page_frame in Htr. destruct (page_frame m' va'); simpl in Htr; [|done].
    injection Htr as E. f_equal. lia.
  - split.
    + unfold pte_of. assert (pte_addr m' va = pte_addr m va) as ->.
      { unfold pte_addr. rewrite !pde_of_dir. destruct Hva. unfold m'. by rewrite Hdir by lia. }
      unfold m'. by rewrite ram_word_store, Z.eqb_refl.
    + destruct Hva as [Hva Hd]. apply data_kept_store; [apply frame_of_aligned, ram_word_u32, Hwf | by apply PTE_IDX_range|].
      right. exists (PDE_IDX va). fold m'. rewrite Hdir, <- pde_of_dir by lia. split; [lia | done].
Qed.

Lemma pt_frame_dir m m' f :
  cr3 m' = cr3 m -> (forall i, 0 <= i < 1024 -> dir_entry m' i = dir_entry m i) ->
  pt_frame m' f -> pt_frame m f.
Proof.
  intros Hc Hdir [->|(i & Hi & Hp & Hf)]; [left; by rewrite Hc|].
  right. exists i. rewrite <- Hdir by lia. done.
Qed.

Lemma mem_ok_map s va pa m' :
  mem_ok s -> mappable s va pa -> pt_wf m' -> maps (machine s) m' va pa ->
  (forall f, pt_frame m' f -> pt_frame (machine s) f) ->
  mem_ok (put machine_lens m' s).
Proof.
  intros Hok Hmp Hwf [Hc Hmap] Hpt. apply mem_ok_machine; try done.
  - intros f Hf. by apply (mo_tables s Hok), Hpt.
  - intros va' f Hva'. rewrite Hmap by done. destruct (va' / 4096 =? va / 4096).
    + intros [= <-]. apply Hmp.
    + by apply (mo_mapped s Hok).
  - intros v1 v2 f H1 H2. rewrite !Hmap by done.
    destruct (Z.eqb_spec (v1 / 4096) (va / 4096)), (Z.eqb_spec (v2 / 4096) (va / 4096)); try lia.
    + intros [= <-] E. by destruct (mp_fresh s va pa Hmp v2 H2).
    + intros E [= <-]. by destruct (mp_fresh s va pa Hmp v1 H1).
    + by apply (mo_inj s Hok).
  - intros pf v Hl Hv. destruct (free_vaddr_managed s pf v Hok Hl Hv) as [Hm Ha].
    rewrite Hmap by done. destruct (Z.eqb_spec (v / 4096) (va / 4096)) as [E|].
    + apply aligned_same_page in E; [|done|apply Hmp]. subst v. by destruct (mp_taken s va pa Hmp pf Hl).
    + by apply (mo_unmapped s Hok pf).
Qed.

Record map_step (s s' : mem_state) (va pa : Z) : Prop := {
  ms_ok : mem_ok s';
  ms_user : user_mem_pool s' = user_mem_pool s;
  ms_kernel : if present (pde_of (machine s) va)
    then kernel_mem_pool s' = kernel_mem_pool s
    else exists g, pool_take (kernel_mem_pool s) (kernel_mem_pool s') g /\ pt_frame (machine s') g;
  ms_vpool : forall pf, vpool_get pf s' = vpool_get pf s;
  ms_pgdir : cur_pgdir s' = cur_pgdir s;
  ms_maps : maps (machine s) (machine s') va pa;
  ms_dir : forall i, 0 <= i < 1023 ->
    present (dir_entry (machine s') i) = (i =? PDE_IDX va) || present (dir_entry (machine s) i);
  ms_pt : forall f, pt_frame (machine s') f -> pt_frame (machine s) f \/ free_frame s f;
  ms_pt_mono : forall f, pt_frame (machine s) f -> pt_frame (machine s') f;
  ms_pte : pte_of (machine s') va = entry pa;
  ms_data : data_kept (machine s) (machine s');
}.

Lemma pte_present_frame m va :
  present (pde_of m va) = true -> page_frame m va = None -> present (pte_of m va) = false.
Proof. unfold page_frame. intros ->. by destruct (present (pte_of m va)). Qed.

(** The case with a page table. *)
Lemma map_with_table s va pa :
  mem_ok s -> mappable s va pa -> present (pde_of (machine s) va) = true ->
  let m' := ram_store (pte_addr (machine s) va) (entry pa) (machine s) in
  map_step s (put machine_lens m' s) va pa.
Proof.
  intros Hok Hmp Hp m'. pose proof (mp_managed s va pa Hmp) as Hva. destruct (mp_pa s va pa Hmp) as [Hu Hm].
  destruct (set_pte_maps (machine s) va pa (mo_pt s Hok) Hva Hp Hu Hm) as (Hwf & Hmaps & Hdir & Hpte & Hdata).
  fold m' in Hwf, Hmaps, Hdir, Hpte, Hdata.
  assert (forall f, pt_frame m' f -> pt_frame (machine s) f) as Hpt.
  { intros f. apply pt_frame_dir; [apply Hmaps | done]. }
  assert (forall f, pt_frame (machine s) f -> pt_frame m' f) as Hpt'.
  { intros f. apply pt_frame_dir; [symmetry; apply Hmaps | intros i Hi; by rewrite Hdir]. }
  split; try done.
  - by eapply mem_ok_map.
  - by rewrite Hp.
  - intros i Hi. simpl machine. rewrite Hdir by lia. destruct (Z.eqb_spec i (PDE_IDX va)) as [->|]; [|done].
    by rewrite <- pde_of_dir, Hp.
  - intros f Hf. left. by apply Hpt.
Qed.

(** Adding an empty table keeps every page's mapping and the invariant. *)
Lemma mem_ok_new_table s va g :
  mem_ok s -> managed va -> present (pde_of (machine s) va) = false ->
  is_u32 g -> g mod 4096 = 0 -> ~ free_frame s g -> ~ pt_frame (machine s) g ->
  wp (zoom machine_lens (new_table (entry g) va)) s (fun _ s' => exists m',
    s' = put machine_lens m' s /\ mem_ok s' /\ cr3 m' = cr3 (machine s) /\
    (forall i, 0 <= i < 1024 -> dir_entry m' i = if i =? PDE_IDX va then entry g else dir_entry (machine s) i) /\
    (forall f, pt_frame m' f -> pt_frame (machine s) f \/ f = g) /\
    (forall va', managed va' -> page_frame m' va' = page_frame (machine s) va') /\ data_kept (machine s) m').
Proof.
  intros Hok Hva Hp Hu Hm Hfree Hpt. destruct (entry_ok g Hu Hm) as (He & Hpe & Hfe).
  apply wp_zoom. simpl view. eapply wp_mono; [apply new_table_ok; rewrite ?Hfe; try done; apply Hok|].
  intros [] m' (Hwf & Hc & Hdir & _ & Htr & Hdata). exists m'. split; [done|].
  assert (forall f, pt_frame m' f -> pt_frame (machine s) f \/ f = g) as Hpt'.
  { intros f [->|(i & Hi & Hpi & Hf)]; [left; left; by rewrite Hc|].
    rewrite Hdir in Hpi, Hf by lia. destruct (i =? PDE_IDX va).
    - right. by rewrite <- Hf.
    - left. right. by exists i. }
  assert (forall va', managed va' -> page_frame m' va' = page_frame (machine s) va') as Hpf.
  { intros va' Hva'. apply page_frame_translate; [done | by apply Htr]. }
  split; [|done]. apply mem_ok_machine; try done.
  - intros f Hf. destruct (Hpt' f Hf) as [?| ->]; [by apply (mo_tables s Hok) | done].
  - intros v f Hv. rewrite Hpf by done. by apply (mo_mapped s Hok).
  - intros v1 v2 f H1 H2. rewrite !Hpf by done. by apply (mo_inj s Hok).
  - intros pf v Hl Hv. destruct (free_vaddr_managed s pf v Hok Hl Hv) as [Hmv _].
    rewrite Hpf by done. by apply (mo_unmapped s Hok pf).
Qed.

(** Mapping survives a frame being taken for the table. *)
Lemma mappable_take s k' g va pa :
  mem_ok s -> mappable s va pa -> pool_take (kernel_mem_pool s) k' g ->
  mappable (put (pool_lens PF_KERNEL) k' s) va pa /\ g <> pa.
Proof.
  intros Hok Hmp Ht. pose proof (free_frame_take s PF_KERNEL k' g) as Hfr.
  assert (g <> pa) as Hne.
  { intros ->. apply (mp_not_free s va pa Hmp). exists PF_KERNEL. by eapply pool_take_free. }
  split; [|done]. destruct Hmp as [H1 H2 H3 H4 H5 H6 H7]. split; try done.
  intros Hf. apply H6. by apply Hfr in Hf as [? _].
Qed.

Lemma zoom_load_pde s va :
  mem_ok s -> is_u32 va ->
  zoom machine_lens (load (pde_ptr va)) s = Ok (pde_of (machine s) va, s).
Proof.
  intros Hok Hva. unfold zoom, load. simpl view. rewrite translate_pde_ptr by (done || apply Hok).
  by destruct s.
Qed.

Lemma zoom_load_pte s va :
  mem_ok s -> is_u32 va -> present (pde_of (machine s) va) = true ->
  zoom machine_lens (load (pte_ptr va)) s = Ok (pte_of (machine s) va, s).
Proof.
  intros Hok Hva Hp. unfold zoom. simpl view. rewrite load_window, Hp by (done || apply Hok). by destruct s.
Qed.

Lemma zoom_store_pte s va v :
  mem_ok s -> is_u32 va -> present (pde_of (machine s) va) = true ->
  zoom machine_lens (store (pte_ptr va) v) s =
  Ok (tt, put machine_lens (ram_store (pte_addr (machine s) va) v (machine s)) s).
Proof. intros Hok Hva Hp. unfold zoom. simpl view. by rewrite store_window by (done || apply Hok). Qed.

Lemma map_step_new_table s k' g m' va pa :
  mem_ok s -> mappable s va pa -> present (pde_of (machine s) va) = false ->
  pool_take (kernel_mem_pool s) k' g ->
  let s2 := put machine_lens m' (put (pool_lens PF_KERNEL) k' s) in
  cr3 m' = cr3 (machine s) ->
  (forall i, 0 <= i < 1024 ->
    dir_entry m' i = if i =? PDE_IDX va then entry g else dir_entry (machine s) i) ->
  (forall f, pt_frame m' f -> pt_frame (machine s) f \/ f = g) ->
  (forall va', managed va' -> page_frame m' va' = page_frame (machine s) va') -> data_kept (machine s) m' ->
  forall s', map_step s2 s' va pa -> map_step s s' va pa.
Proof.
  intros Hok Hmp Hp Ht s2 Hc Hdir Hpt Hpf Hdata s' [K1 K2 K3 K4 K5 [K6c K6] K7 K8 K8' K9 K10].
  destruct (mp_managed s va pa Hmp) as [Hva Hd].
  assert (free_frame s g) as Hg by (exists PF_KERNEL; by eapply pool_take_free).
  destruct (free_frame_aligned s g Hok Hg) as [Hgu Hga].
  assert (present (pde_of (machine s2) va) = true) as Hp2.
  { rewrite pde_of_dir. simpl machine. rewrite Hdir, Z.eqb_refl by lia. by apply entry_ok. }
  rewrite Hp2 in K3. split; try done.
  - rewrite Hp. exists g. rewrite K3. split; [done|]. apply K8'. right. exists (PDE_IDX va).
    rewrite pde_of_dir in Hp2. split; [lia|]. split; [done|]. simpl machine.
    rewrite Hdir, Z.eqb_refl by lia. by apply entry_ok.
  - split; [by rewrite K6c|]. intros va' Hva'. rewrite K6 by done.
    destruct (va' / 4096 =? va / 4096); [done|]. by apply Hpf.
  - intros i Hi. rewrite K7 by done. simpl machine. rewrite Hdir by lia.
    by destruct (i =? PDE_IDX va).
  - intros f Hf. destruct (K8 f Hf) as [Hf'|Hf'].
    + destruct (Hpt f Hf') as [| ->]; [by left|]. right. exists PF_KERNEL. by eapply pool_take_free.
    + right. by apply (free_frame_take s PF_KERNEL k' g f Hok Ht) in Hf' as [? _].
  - intros f Hf. apply K8'. destruct Hf as [->|(i & Hi & Hpi & Hfi)]; [left; by rewrite <- Hc|].
    right. exists i. simpl machine. rewrite Hdir by lia.
    destruct (Z.eqb_spec i (PDE_IDX va)) as [->|]; [by rewrite pde_of_dir, Hpi in Hp | done].
  - by apply (data_kept_trans _ m').
Qed.

Lemma page_table_map_ok s va pa :
  mem_ok s -> mappable s va pa ->
  wpp (page_table_map va pa) s (fun _ s' => map_step s s' va pa)
    (present (pde_of (machine s) va) = false /\ free_count (kernel_mem_pool s) = 0).
Proof.
  intros Hok Hmp. destruct (mp_managed s va pa Hmp) as [Hva Hd].
  unfold page_table_map. apply wpp_bind. unfold wpp at 1. rewrite zoom_load_pde by done.
  rewrite present_land, negb_involutive. destruct (present (pde_of (machine s) va)) eqn:Hp.
  - pose proof (pte_present_frame _ _ Hp (mp_unmapped s va pa Hmp)) as Hpte.
    apply wpp_bind. unfold wpp at 1. rewrite zoom_load_pte by done. rewrite present_land, Hpte. simpl.
    apply wpp_bind. unfold wpp at 1. simpl. apply wpp_bind. unfold wpp at 1.
    rewrite zoom_load_pte by done. rewrite present_land, Hpte. simpl.
    unfold wpp. rewrite zoom_store_pte by done. by apply map_with_table.
  - apply wpp_bind, wpp_zoom. eapply wpp_mono; [apply palloc_ok, (mo_pool s Hok PF_KERNEL)| |done].
    intros g k' (_ & _ & Ht). destruct (mappable_take s k' g va pa Hok Hmp Ht) as [Hmp1 Hne].
    pose proof (mem_ok_take s PF_KERNEL k' g Hok Ht) as Hok1.
    set (s1 := put (pool_lens PF_KERNEL) k' s) in *. apply wpp_wp.
    assert (free_frame s g) as Hg by (exists PF_KERNEL; by eapply pool_take_free).
    destruct (free_frame_aligned s g Hok Hg) as [Hgu Hga].
    assert (~ free_frame s1 g) as Hg1 by (intros Hf; by apply (free_frame_take s _ k' g g Hok Ht) in Hf as [_ ?]).
    pose proof (mem_ok_new_table s1 va g Hok1 (mp_managed s va pa Hmp) Hp Hgu Hga Hg1) as Hnt.
    specialize (Hnt ltac:(intros Hf; by apply (mo_tables s Hok g Hf))).
    apply wp_bind. eapply wp_mono; [exact (wp_zoom_bind _ _ _ _ _ Hnt)|].
    intros [] s1' Hz. apply wp_bind. eapply wp_mono; [exact Hz|].
    intros [] s2 (m' & -> & Hok2 & Hc & Hdir & Hpt & Hpf & Hdata).
    set (s2 := put machine_lens m' s1) in *.
    assert (mappable s2 va pa) as Hmp2.
    { destruct Hmp1 as [H1 H2 H3 H4 H5 H6 H7]. split; try done.
      - change (page_frame m' va = None). by rewrite Hpf.
      - intros va' Hva'. change (page_frame m' va' <> Some pa). rewrite Hpf by done. by apply H7. }
    assert (present (pde_of (machine s2) va) = true) as Hp2.
    { rewrite pde_of_dir. simpl machine. rewrite Hdir, Z.eqb_refl by lia. by apply entry_ok. }
    pose proof (pte_present_frame _ _ Hp2 (mp_unmapped s2 va pa Hmp2)) as Hpte2.
    apply wp_bind. unfold wp at 1. rewrite zoom_load_pte by done. rewrite present_land, Hpte2. simpl.
    apply wp_bind. unfold wp at 1. simpl. unfold wp. rewrite zoom_store_pte by done.
    apply (map_step_new_table s k' g m'); try done. by apply map_with_table.
Qed.

(** ** The mapping loop of malloc_page *)

(** Directory entries in [lo..hi] that have no table. *)
Definition missing (m : mmu) (lo hi : Z) : Z :=
  count_n (fun i => negb (present (dir_entry m i))) lo (Z.to_nat (hi - lo + 1)).

(** Frames enough for [n] pages of the pool and the tables that may be
    needed between the directory entries [lo] and [hi]. *)
Definition enough (s : mem_state) (pool : pool_flags) (lo hi n : Z) : Prop :=
  match pool with
  | PF_KERNEL => n + missing (machine s) lo hi <= free_count (kernel_mem_pool s)
  | PF_USER => n <= free_count (user_mem_pool s) /\
      missing (machine s) lo hi <= free_count (kernel_mem_pool s)
  end.

(** [n] pages from [va] on, handed out and not yet mapped. *)
Definition pages_ready (s : mem_state) (va n : Z) : Prop := forall k, 0 <= k < n ->
  managed (va + k * 4096) /\ page_frame (machine s) (va + k * 4096) = None /\
  forall pf, live s pf -> ~ vaddr_free (vpool_get pf s) (va + k * 4096).

Record pages_mapped (pool : pool_flags) (s s' : mem_state) (va n : Z) : Prop := {
  pm_ok : mem_ok s';
  pm_pool : forall pf, same_pool (pool_get pf s) (pool_get pf s');
  pm_vpool : forall pf, vpool_get pf s' = vpool_get pf s;
  pm_pgdir : cur_pgdir s' = cur_pgdir s;
  pm_cr3 : cr3 (machine s') = cr3 (machine s);
  pm_free : forall pf f, frame_free (pool_get pf s') f -> frame_free (pool_get pf s) f;
  pm_other : forall va', managed va' -> ~ va <= va' < va + n * 4096 ->
    page_frame (machine s') va' = page_frame (machine s) va';
  pm_pages : forall k, 0 <= k < n -> exists f, page_frame (machine s') (va + k * 4096) = Some f /\
    frame_free (pool_get pool s) f /\ ~ pt_frame (machine s') f;
  pm_pt : forall f, pt_frame (machine s') f -> pt_frame (machine s) f \/ free_frame s f;
  pm_pt_mono : forall f, pt_frame (machine s) f -> pt_frame (machine s') f;
  pm_lost : forall q f, frame_free (pool_get q s) f -> frame_free (pool_get q s') f \/
    pt_frame (machine s') f \/ exists k, 0 <= k < n /\ page_frame (machine s') (va + k * 4096) = Some f;
  pm_data : data_kept (machine s) (machine s');
  pm_frames : forall lo hi, 0 <= lo -> hi < 1023 -> (forall k, 0 <= k < n -> lo <= PDE_IDX (va + k * 4096) <= hi) ->
    missing (machine s') lo hi <= missing (machine s) lo hi /\
    forall q, free_count (pool_get q s') = free_count (pool_get q s) - (if decide (q = pool) then n else 0) -
      (if decide (q = PF_KERNEL) then missing (machine s) lo hi - missing (machine s') lo hi else 0);
}.

Lemma missing_nonneg m lo hi : 0 <= missing m lo hi.
Proof. apply count_n_nonneg. Qed.

Lemma missing_step m m' d lo hi :
  0 <= lo -> hi < 1023 -> lo <= d <= hi ->
  (forall i, 0 <= i < 1023 -> present (dir_entry m' i) = (i =? d) || present (dir_entry m i)) ->
  missing m' lo hi = missing m lo hi - (if present (dir_entry m d) then 0 else 1).
Proof.
  intros Hlo Hhi Hd Hdir. unfold missing. destruct (present (dir_entry m d)) eqn:Hp.
  - rewrite Z.sub_0_r. apply count_n_ext. intros i Hi. rewrite Hdir by lia.
    by destruct (Z.eqb_spec i d) as [->|]; [rewrite Hp|].
  - apply (count_n_flip _ _ _ _ d); [lia | by rewrite Hp | |].
    + rewrite Hdir by lia. by rewrite Z.eqb_refl.
    + intros j Hj Hne. rewrite Hdir by lia. by destruct (Z.eqb_spec j d).
Qed.

Lemma pool_take_free_back p p' f g : pool_take p p' f -> frame_free p' g -> frame_free p g.
Proof. intros (_ & _ & _ & Hg & _) H. by apply Hg in H as [? _]. Qed.

Lemma pool_take_count p p' f : pool_take p p' f -> free_count p' = free_count p - 1.
Proof. by intros (_ & _ & _ & _ & H). Qed.

Lemma pool_take_same p p' f : pool_take p p' f -> same_pool p p'.
Proof. by intros (_ & H & _). Qed.

Lemma free_count_nonneg p : 0 <= free_count p.
Proof. apply count_n_nonneg. Qed.

(** The frames a page takes: its own, and one for a table that was missing. *)
Lemma map_step_frames s pool p f va s' lo hi :
  pool_take (pool_get pool s) p f -> map_step (put (pool_lens pool) p s) s' va f ->
  0 <= lo -> hi < 1023 -> lo <= PDE_IDX va <= hi ->
  missing (machine s') lo hi <= missing (machine s) lo hi /\
  forall q, free_count (pool_get q s') = free_count (pool_get q s) - (if decide (q = pool) then 1 else 0) -
    (if decide (q = PF_KERNEL) then missing (machine s) lo hi - missing (machine s') lo hi else 0).
Proof.
  intros Ht [_ K2 K3 _ _ _ K7 _ _ _ _] Hlo Hhi Hd. pose proof (pool_take_count _ _ _ Ht) as Hc.
  rewrite machine_put_pool in *. rewrite pde_of_dir in K3.
  rewrite (missing_step (machine s) (machine s') (PDE_IDX va) lo hi Hlo Hhi Hd K7).
  assert (free_count (kernel_mem_pool s') = free_count (pool_get PF_KERNEL (put (pool_lens pool) p s)) -
    (if present (dir_entry (machine s) (PDE_IDX va)) then 0 else 1)) as Hck.
  { destruct (present _); [rewrite K3; simpl; lia|]. destruct K3 as (g & Hg & _). by apply pool_take_count in Hg. }
  rewrite pool_get_put in Hck. split; [by destruct (present _); lia|].
  intros []; simpl pool_get; rewrite ?Hck, ?K2; by destruct pool; simpl in *; lia.
Qed.

(** One round of the loop. *)
Definition map_one (pool : pool_flags) (va : Z) : M mem_state bool :=
  page_phyaddr ← zoom (pool_lens pool) palloc;
  if page_phyaddr =? NULL then mret false else page_table_map va page_phyaddr ;;; mret true.

Lemma pages_mapped_one s pool p f va s' :
  mem_ok s -> pool_take (pool_get pool s) p f -> managed va -> va mod 4096 = 0 ->
  map_step (put (pool_lens pool) p s) s' va f -> pages_mapped pool s s' va 1.
Proof.
  intros Hok Ht Hva Hal Hms. pose proof (map_step_frames s pool p f va s') as Hfrs.
  pose proof Hms as [K1 K2 K3 K4 K5 [K6c K6] K7 K8 K8' _ K10].
  rewrite machine_put_pool in *. pose proof (free_frame_take s pool p f) as Hfr.
  assert (forall pf, same_pool (pool_get pf (put (pool_lens pool) p s)) (pool_get pf s') /\
    forall g, frame_free (pool_get pf s') g -> frame_free (pool_get pf (put (pool_lens pool) p s)) g) as Hk.
  { intros []; cbn [pool_get] in *; [|by rewrite K2].
    destruct (present _); [by rewrite K3|]. destruct K3 as (g & Hg & _).
    split; [by eapply pool_take_same | intros g'; by eapply pool_take_free_back]. }
  assert (~ pt_frame (machine s') f) as Hnpt.
  { intros H. destruct (K8 f H) as [H'|H'].
    - apply (mo_tables s Hok f H'). exists pool. by eapply pool_take_free.
    - by apply (Hfr f Hok Ht) in H' as [_ ?]. }
  split; try done.
  - intros pf. eapply same_pool_trans; [|apply Hk]. rewrite pool_get_put.
    destruct (decide (pf = pool)) as [->|]; [by eapply pool_take_same | done].
  - intros pf. rewrite K4. apply vpool_get_put_pool.
  - rewrite K5. apply pgdir_put_pool.
  - intros pf g Hg. apply (proj2 (Hk pf)) in Hg. rewrite pool_get_put in Hg.
    destruct (decide (pf = pool)) as [->|]; [by eapply pool_take_free_back | done].
  - intros va' Hva' Hout. rewrite K6 by done. destruct (Z.eqb_spec (va' / 4096) (va / 4096)) as [E|]; [|done].
    pose proof (Z.div_mod va 4096 ltac:(lia)). pose proof (Z.div_mod va' 4096 ltac:(lia)).
    pose proof (Z.mod_pos_bound va' 4096). lia.
  - intros k Hk'. replace (va + k * 4096) with va by lia. exists f. rewrite K6, Z.eqb_refl by done.
    split; [done | split; [by eapply pool_take_free | done]].
  - intros g Hg. destruct (K8 g Hg) as [|H]; [by left | right]. by apply (Hfr g Hok Ht) in H as [? _].
  - intros q g Hg. destruct (Z.eq_dec g f) as [->|Hgf].
    { right. right. exists 0. rewrite Z.mul_0_l, Z.add_0_r, K6, Z.eqb_refl by done. split; [lia | done]. }
    assert (frame_free (pool_get q (put (pool_lens pool) p s)) g) as Hg1.
    { rewrite pool_get_put. destruct (decide (q = pool)) as [->|]; [by apply Ht | done]. }
    destruct q; cbn [pool_get] in *; [|left; by rewrite K2].
    destruct (present _); [left; by rewrite K3|]. destruct K3 as (t & (_ & _ & _ & Ht' & _) & Htp).
    destruct (Z.eq_dec g t) as [->|]; [by right; left | left; by apply Ht'].
  - intros lo hi Hlo Hhi Hd. specialize (Hd 0 ltac:(lia)). rewrite Z.mul_0_l, Z.add_0_r in Hd. by apply Hfrs.
Qed.

Lemma map_one_ok s pool va lo hi n :
  mem_ok s -> va mod 4096 = 0 -> pages_ready s va 1 ->
  0 <= lo -> hi < 1023 -> lo <= PDE_IDX va <= hi -> 0 <= n ->
  wpp (map_one pool va) s (fun b s' => b = true /\ pages_mapped pool s s' va 1 /\
      (enough s pool lo hi (n + 1) -> enough s' pool lo hi n))
    (~ enough s pool lo hi (n + 1)).
Proof.
  intros Hok Hal Hready Hlo Hhi Hd Hn. destruct (Hready 0) as (Hva & Hnone & Htaken); [lia|].
  rewrite Z.add_0_r in *. unfold map_one. pose proof (missing_nonneg (machine s) lo hi).
  apply wpp_bind, wpp_zoom. eapply wpp_mono; [apply palloc_ok, (mo_pool s Hok pool) | |].
  2: { intros Hz. destruct pool; simpl in *; lia. }
  intros f p (_ & Hf0 & Ht). destruct (Z.eqb_spec f NULL); [done|]. apply wpp_bind.
  pose proof (mem_ok_take s pool p f Hok Ht) as Hok1.
  assert (free_frame s f) as Hfree by (exists pool; by eapply pool_take_free).
  eapply wpp_mono; [apply page_table_map_ok; [exact Hok1|] | |].
  - split; rewrite ?machine_put_pool; try done.
    + intros pf. rewrite vpool_get_put_pool. unfold live. rewrite pgdir_put_pool. by apply Htaken.
    + by apply (free_frame_aligned s).
    + intros H'. by apply (free_frame_take s pool p f f Hok Ht) in H' as [_ ?].
    + intros va' Hva' E. by apply (mo_mapped s Hok va' f Hva' E).
  - intros [] s' Hms. apply wpp_ret. split; [done|]. split; [by eapply pages_mapped_one|].
    destruct (map_step_frames s pool p f va s' lo hi Ht Hms Hlo Hhi Hd) as [_ Hfr].
    pose proof (Hfr PF_USER) as Hu. pose proof (Hfr PF_KERNEL) as Hk. simpl in Hu, Hk.
    unfold enough. by destruct pool; simpl in *; lia.
  - rewrite machine_put_pool, pde_of_dir. intros [Hp Hz].
    assert (missing (machine s) lo hi <> 0) as Hm.
    { intros E. apply (count_n_zero _ _ _ (PDE_IDX va)) in E; [|lia]. cbn beta in E. by rewrite Hp in E. }
    pose proof (pool_take_count _ _ _ Ht). destruct pool; simpl in *; lia.
Qed.

Lemma pages_mapped_nil pool s va : mem_ok s -> pages_mapped pool s s va 0.
Proof.
  intros Hok. split; try done; try lia; try (intros; by left). intros lo hi _ _ _. split; [lia|].
  intros q. by do 2 destruct (decide _); lia.
Qed.

Lemma pages_mapped_trans pool s s1 s2 va n :
  0 <= n -> managed va ->
  pages_mapped pool s s1 va 1 -> pages_mapped pool s1 s2 (va + 4096) n ->
  pages_mapped pool s s2 va (n + 1).
Proof.
  intros Hn Hva P1 P2. split.
  - apply P2.
  - intros pf. eapply same_pool_trans; [apply P1 | apply P2].
  - intros pf. rewrite (pm_vpool _ _ _ _ _ P2). apply P1.
  - rewrite (pm_pgdir _ _ _ _ _ P2). apply P1.
  - rewrite (pm_cr3 _ _ _ _ _ P2). apply P1.
  - intros pf f Hf. by apply (pm_free _ _ _ _ _ P1), (pm_free _ _ _ _ _ P2).
  - intros va' Hva' Hout. rewrite (pm_other _ _ _ _ _ P2) by (done || lia).
    apply P1; [done | lia].
  - intros k Hk. destruct (Z.eq_dec k 0) as [->|Hne].
    + destruct (pm_pages _ _ _ _ _ P1 0) as (f & Hpf & Hff & Hnpt); [lia|].
      rewrite Z.add_0_r in *. exists f. rewrite (pm_other _ _ _ _ _ P2) by (done || lia).
      split; [done | split; [done|]]. intros H. destruct (pm_pt _ _ _ _ _ P2 f H) as [|H']; [done|].
      by apply (mo_mapped s1 (pm_ok _ _ _ _ _ P1) va f).
    + destruct (pm_pages _ _ _ _ _ P2 (k - 1)) as (f & Hpf & Hff & Hnpt); [lia|].
      exists f. replace (va + k * 4096) with (va + 4096 + (k - 1) * 4096) by lia.
      split; [done | split; [|done]]. by apply (pm_free _ _ _ _ _ P1).
  - intros f Hf. destruct (pm_pt _ _ _ _ _ P2 f Hf) as [H|[pf H]].
    + by apply (pm_pt _ _ _ _ _ P1).
    + right. exists pf. by apply (pm_free _ _ _ _ _ P1).
  - intros f Hf. by apply (pm_pt_mono _ _ _ _ _ P2), (pm_pt_mono _ _ _ _ _ P1).
  - intros q f Hf. destruct (pm_lost _ _ _ _ _ P1 q f Hf) as [H|[H|(k & Hk & E)]].
    + destruct (pm_lost _ _ _ _ _ P2 q f H) as [?|[?|(k & Hk & E)]]; [by left | by right; left |].
      right. right. exists (k + 1). split; [lia|].
      by replace (va + (k + 1) * 4096) with (va + 4096 + k * 4096) by lia.
    + right. left. by apply (pm_pt_mono _ _ _ _ _ P2).
    + right. right. exists 0. replace (va + k * 4096) with va in E by lia.
      rewrite Z.mul_0_l, Z.add_0_r, (pm_other _ _ _ _ _ P2) by (done || lia). split; [lia | done].
  - eapply data_kept_trans; [apply (pm_pt_mono _ _ _ _ _ P2) | apply P1 | apply P2].
  - intros lo hi Hlo Hhi Hd.
    destruct (pm_frames _ _ _ _ _ P1 lo hi Hlo Hhi) as [M1 F1]; [intros k Hk; apply Hd; lia|].
    destruct (pm_frames _ _ _ _ _ P2 lo hi Hlo Hhi) as [M2 F2].
    { intros k Hk. replace (va + 4096 + k * 4096) with (va + (k + 1) * 4096) by lia. apply Hd. lia. }
    split; [lia|]. intros q. rewrite F2, F1. by do 2 destruct (decide _); lia.
Qed.

Lemma map_pages_S pool n va s Q P :
  wpp (map_one pool va) s (fun b s' =>
    wpp (if b : bool then map_pages pool n (u32 (va + PG_SIZE)) else mret false) s' Q P) P ->
  wpp (map_pages pool (S n) va) s Q P.
Proof.
  unfold map_one. simpl map_pages. unfold wpp, mbind, M_bind.
  destruct (zoom (pool_lens pool) palloc s) as [[f s1]|s1 r|s1 r| | |]; simpl; try done.
  destruct (f =? NULL); [done|]. by destruct (page_table_map va f s1) as [[[] s2]|s2 r|s2 r| | |].
Qed.

Lemma pages_ready_next s s1 pool va n :
  pages_ready s va (n + 1) -> pages_mapped pool s s1 va 1 -> pages_ready s1 (va + 4096) n.
Proof.
  intros Hr P k Hk. destruct (Hr (k + 1)) as (Hm & Hp & Ht); [lia|].
  replace (va + 4096 + k * 4096) with (va + (k + 1) * 4096) by lia.
  split; [done|]. split.
  - rewrite (pm_other _ _ _ _ _ P) by (done || lia). done.
  - intros pf. rewrite (pm_vpool _ _ _ _ _ P). unfold live. rewrite (pm_pgdir _ _ _ _ _ P). apply Ht.
Qed.

Lemma managed_next va : managed va -> va mod 4096 = 0 -> u32 (va + PG_SIZE) = va + 4096.
Proof.
  intros [Hu Hdr] Hal. unfold PG_SIZE. apply u32_id. rewrite PDE_IDX_div in Hdr by done.
  pose proof (Z.div_mod va (2 ^ 22) ltac:(lia)). pose proof (Z.mod_pos_bound va (2 ^ 22)).
  unfold is_u32 in *. lia.
Qed.

Lemma map_pages_ok pool n s va lo hi :
  mem_ok s -> va mod 4096 = 0 -> pages_ready s va (Z.of_nat n) ->
  0 <= lo -> hi < 1023 -> (forall k, 0 <= k < Z.of_nat n -> lo <= PDE_IDX (va + k * 4096) <= hi) ->
  wpp (map_pages pool n va) s (fun b s' => b = true /\ pages_mapped pool s s' va (Z.of_nat n))
    (~ enough s pool lo hi (Z.of_nat n)).
Proof.
  revert s va. induction n as [|n IH]; intros s va Hok Hal Hr Hlo Hhi Hd.
  { apply wpp_ret. split; [done | by apply pages_mapped_nil]. }
  replace (Z.of_nat (S n)) with (Z.of_nat n + 1) in * by lia.
  apply map_pages_S.
  pose proof (Hd 0 ltac:(lia)) as Hd0. rewrite Z.mul_0_l, Z.add_0_r in Hd0.
  assert (managed va) as Hva.
  { destruct (Hr 0) as (H & _); [lia|]. by rewrite Z.mul_0_l, Z.add_0_r in H. }
  eapply wpp_mono; [apply (map_one_ok s pool va lo hi (Z.of_nat n)); try done; [|lia]| |done].
  { intros k Hk. apply Hr. lia. }
  intros b s1 (-> & P1 & Henough).
  rewrite managed_next by done.
  eapply wpp_mono; [apply IH | |]; try done.
  - apply P1.
  - by rewrite <- (Z_mod_plus_full va 1 4096) in Hal.
  - by eapply pages_ready_next.
  - intros k Hk. replace (va + 4096 + k * 4096) with (va + (k + 1) * 4096) by lia. apply Hd. lia.
  - intros b' s' (-> & P2). split; [done|]. apply (pages_mapped_trans pool s s1); try done. lia.
  - intros Hne He. by apply Hne, Henough.
Qed.

(** ** Address pools *)
Lemma set_range_ok b i n value :
  bitmap_ok b -> 0 <= i -> 0 <= n -> i + n <= nbits b -> value = 0 \/ value = 1 ->
  wp (set_range i n value) b (fun _ b' =>
    bitmap_ok b' /\ nbits b' = nbits b /\
    forall j, 0 <= j -> bit b' j =
      if (i <=? j) && (j <? i + n) then negb (value =? 0) else bit b j).
Proof.
  intros Hok Hi Hn Hend Hv. pose proof (ok_len b Hok) as Hlen.
  apply (wp_for_loop _ _ _ _ (fun k b' => bitmap_ok b' /\ nbits b' = nbits b /\
    forall j, 0 <= j -> bit b' j =
      if (i <=? j) && (j <? i + k) then negb (value =? 0) else bit b j)).
  - split; [done | split; [done|]]. intros j Hj.
    destruct (Z.leb_spec i j), (Z.ltb_spec j (i + 0)); simpl; done || lia.
  - intros k b' Hk (Hok' & Hn' & Hj'). rewrite u32_id by (unfold is_u32, nbits in *; lia).
    eapply wp_mono; [apply bitmap_set_ok; try done; lia|].
    intros [] b'' (Hok'' & Hl & _ & Hj''). split; [done | split; [by rewrite (nbits_len _ _ Hl)|]].
    intros j Hj. rewrite Hj'', Hj' by done.
    destruct (Z.eqb_spec (i + k) j), (Z.leb_spec i j), (Z.ltb_spec j (i + k)), (Z.ltb_spec j (i + (k + 1)));
      simpl; done || lia.
  - intros b' (Hok' & Hn' & Hj'). split; [done | split; [done|]].
    intros j Hj. rewrite Hj' by done. by replace (0 + Z.of_nat (Z.to_nat n)) with n by lia.
Qed.

(** [p'] is [p] with the [n] pages from [va] on handed out. *)
Definition vpool_take (p p' : virtual_addr_pool) (va n : Z) : Prop :=
  vpool_ok p' /\ vaddr_start p' = vaddr_start p /\
  nbits (vaddr_bitmap p') = nbits (vaddr_bitmap p) /\
  (forall k, 0 <= k < n -> vaddr_free p (va + k * 4096)) /\
  (forall v, vaddr_free p' v <-> vaddr_free p v /\ ~ va <= v < va + n * 4096).

(** [va] is the first address of a run of [n] free pages. *)
Definition first_run (p : virtual_addr_pool) (va n : Z) : Prop :=
  exists i, scan_result (vaddr_bitmap p) n i /\ 0 <= i /\ va = vaddr_start p + i * 4096.

Lemma vpool_take_range p b' i n :
  vpool_ok p -> free_run (vaddr_bitmap p) i n -> 0 <= n -> bitmap_ok b' ->
  nbits b' = nbits (vaddr_bitmap p) ->
  (forall j, 0 <= j -> bit b' j = if (i <=? j) && (j <? i + n) then true else bit (vaddr_bitmap p) j) ->
  vpool_take p (VPool b' (vaddr_start p)) (vaddr_start p + i * 4096) n.
Proof.
  intros Hp (Hi & Hend & Hrun) Hn Hb' Hnb Hj. destruct Hp as [H1 H2 H3 H4]. split; [|split; [done | split; [done|split]]].
  - split; simpl; rewrite ?Hnb; done.
  - intros k Hk. exists (i + k). split; [lia|]. split; [apply Hrun; lia | lia].
  - intros v. unfold vaddr_free. simpl. rewrite Hnb. split.
    + intros (j & Hjr & Hbj & ->). rewrite Hj in Hbj by lia.
      destruct (Z.leb_spec i j), (Z.ltb_spec j (i + n)); simpl in Hbj; try done; (split; [by exists j | lia]).
    + intros ((j & Hjr & Hbj & ->) & Hout). exists j. split; [done|]. split; [|done]. rewrite Hj by lia.
      destruct (Z.leb_spec i j), (Z.ltb_spec j (i + n)); simpl; try done; lia.
Qed.

Lemma vaddr_alloc_ok p n :
  vpool_ok p -> 0 < n -> is_u32 n ->
  wpp (vaddr_alloc n) p (fun r p' => match r with
    | None => p' = p /\ forall i, ~ free_run (vaddr_bitmap p) i n
    | Some va => first_run p va n /\ vpool_take p p' va n end)
    (all_used (vaddr_bitmap p)).
Proof.
  intros Hp Hn Hu. pose proof (vpool_bitmap_ok p Hp) as Hb. pose proof (ok_len _ Hb) as Hlen.
  unfold vaddr_alloc. apply wpp_bind, wpp_zoom. change (view vpool_bitmap_lens p) with (vaddr_bitmap p).
  destruct (all_used_dec _ Hb) as [Hall|Hfree].
  { unfold wpp. by rewrite bitmap_scan_full. }
  apply wpp_wp. eapply wp_mono; [by apply bitmap_scan_ok|]. intros r b' (-> & Hscan).
  replace (put vpool_bitmap_lens (vaddr_bitmap p) p) with p by (by destruct p).
  destruct (Z.eqb_spec r (-1)) as [->|Hr].
  { apply wpp_wp, wp_ret. split; [done|]. destruct Hscan as [[_ H]|[(Hi & _) _]]; [done | lia]. }
  destruct Hscan as [[? _]|[Hrun Hmin]]; [done|]. pose proof Hrun as (Hi & Hend & _).
  apply wpp_wp, wp_bind, wp_zoom. change (view vpool_bitmap_lens p) with (vaddr_bitmap p).
  eapply wp_mono; [apply set_range_ok; try done; [lia | by right]|].
  intros [] b' (Hok' & Hnb & Hj). wp_steps. simpl vaddr_start.
  pose proof (vpool_end p Hp). pose proof (vpool_start p Hp). unfold PG_SIZE.
  rewrite u32_id by (unfold is_u32; lia). split; [exists r; split; [by right | split; [lia|done]]|].
  apply vpool_take_range; try done. lia.
Qed.

Lemma get_virtual_addr_ok s pf n :
  mem_ok s -> live s pf -> 0 < n -> is_u32 n ->
  wpp (get_virtual_addr pf n) s (fun va s' =>
    (va = NULL /\ s' = s /\ forall i, ~ free_run (vaddr_bitmap (vpool_get pf s)) i n) \/
    (first_run (vpool_get pf s) va n /\ va <> NULL /\ exists p',
      s' = put (vpool_lens pf) p' s /\ vpool_take (vpool_get pf s) p' va n))
  (all_used (vaddr_bitmap (vpool_get pf s)) \/
   exists va, pf = PF_USER /\ first_run (vpool_get pf s) va n /\ 0xc0000000 - PG_SIZE <= va).
Proof.
  intros Hok Hl Hn Hu. pose proof (mo_vpool s Hok pf Hl) as Hv. pose proof (vpool_start _ Hv) as Hst.
  assert (forall va, first_run (vpool_get pf s) va n -> va <> NULL) as Hnn.
  { intros va (i & _ & Hi & ->). unfold NULL. lia. }
  unfold get_virtual_addr. destruct pf; apply wpp_bind, wpp_zoom;
    (eapply wpp_mono; [by apply vaddr_alloc_ok | | by left]); intros [va|] p' Hr.
  - apply wpp_wp, wp_ret. right. naive_solver.
  - apply wpp_wp, wp_ret. left. destruct Hr as [-> Hr]. by destruct s.
  - apply wpp_bind, wpp_ASSERT.
    + intros _. apply wpp_wp, wp_ret. right. naive_solver.
    + intros Hge%Z.ltb_ge. right. exists va. naive_solver.
  - apply wpp_wp, wp_ret. left. destruct Hr as [-> Hr]. by destruct s.
Qed.

(** ** malloc_page *)
Lemma vpool_get_put pf pf' p s :
  vpool_get pf' (put (vpool_lens pf) p s) = if decide (pf' = pf) then p else vpool_get pf' s.
Proof. by destruct pf, pf', s. Qed.

Lemma pool_get_put_vpool pf pf' p s : pool_get pf' (put (vpool_lens pf) p s) = pool_get pf' s.
Proof. by destruct pf, pf', s. Qed.

Lemma machine_put_vpool pf p s : machine (put (vpool_lens pf) p s) = machine s.
Proof. by destruct pf, s. Qed.

Lemma pgdir_put_vpool pf p s : cur_pgdir (put (vpool_lens pf) p s) = cur_pgdir s.
Proof. by destruct pf, s. Qed.

Lemma free_frame_put_vpool pf p s f : free_frame (put (vpool_lens pf) p s) f <-> free_frame s f.
Proof. unfold free_frame. by setoid_rewrite pool_get_put_vpool. Qed.

(** An update of the address bitmap keeps the invariant when every address
    it leaves free is unmapped. *)
Lemma mem_ok_vpool s pf p' :
  mem_ok s -> vpool_ok p' -> vaddr_start p' = vaddr_start (vpool_get pf s) ->
  nbits (vaddr_bitmap p') = nbits (vaddr_bitmap (vpool_get pf s)) ->
  (forall va, vaddr_free p' va -> page_frame (machine s) va = None) ->
  mem_ok (put (vpool_lens pf) p' s).
Proof.
  intros Hok Hv Hst Hnb Hfree.
  split; rewrite ?machine_put_vpool; unfold live; rewrite ?pgdir_put_vpool.
  - apply Hok.
  - intros pf'. rewrite pool_get_put_vpool. apply Hok.
  - pose proof (mo_order s Hok). by destruct pf.
  - intros pf' Hl. rewrite vpool_get_put. destruct (decide (pf' = pf)); [done | by apply Hok].
  - intros Hl. pose proof (mo_vorder s Hok Hl) as Ho. unfold vpool_top in *.
    destruct pf; simpl in *; by rewrite ?Hst, ?Hnb.
  - intros f Hf. rewrite free_frame_put_vpool. by apply Hok.
  - intros va f Hva Hf. rewrite free_frame_put_vpool. by apply (mo_mapped s Hok va).
  - apply Hok.
  - intros pf' va Hl. rewrite vpool_get_put. destruct (decide (pf' = pf)); [apply Hfree | by apply Hok].
Qed.

Lemma mem_ok_vtake s pf p' va n :
  mem_ok s -> live s pf -> vpool_take (vpool_get pf s) p' va n -> mem_ok (put (vpool_lens pf) p' s).
Proof.
  intros Hok Hl (H1 & H2 & H3 & _ & H5). apply mem_ok_vpool; try done.
  intros v Hv. apply H5 in Hv as [Hv _]. by apply (mo_unmapped s Hok pf).
Qed.

(** The address ranges of the two pools are disjoint. *)
Lemma vaddr_free_disjoint s v v' :
  mem_ok s -> live s PF_USER -> vaddr_free (userprog_vaddr_pool s) v ->
  vaddr_free (kernel_vaddr_pool s) v' -> v < v'.
Proof.
  intros Hok Hl Hv Hv'. pose proof (mo_vorder s Hok Hl).
  apply vaddr_free_range in Hv as (Hv & _); [|by apply (mo_vpool s Hok PF_USER)].
  apply vaddr_free_range in Hv' as (Hv' & _); [|by apply (mo_vpool s Hok PF_KERNEL)]. lia.
Qed.

Lemma vtake_ready s pf p' va n :
  mem_ok s -> live s pf -> vpool_take (vpool_get pf s) p' va n ->
  pages_ready (put (vpool_lens pf) p' s) va n.
Proof.
  intros Hok Hl (_ & _ & _ & H4 & H5) k Hk. rewrite machine_put_vpool. specialize (H4 k Hk).
  split; [by eapply free_vaddr_managed|]. split; [by apply (mo_unmapped s Hok pf)|].
  intros pf' Hl'. unfold live in Hl'. rewrite pgdir_put_vpool in Hl'. rewrite vpool_get_put.
  destruct (decide (pf' = pf)) as [->|Hne].
  - intros H. apply H5 in H as [_ H]. lia.
  - intros H. pose proof (vaddr_free_disjoint s) as Hdis.
    destruct pf, pf'; try done; simpl in *.
    + specialize (Hdis _ _ Hok Hl' H H4). lia.
    + specialize (Hdis _ _ Hok Hl H4 H). lia.
Qed.

(** The pages [va .. va + n * 4096) were free and are now handed out, each
    mapped to a frame of the pool that was free. *)
Definition allocated (pf : pool_flags) (s s' : mem_state) (va n : Z) : Prop :=
  first_run (vpool_get pf s) va n /\
  exists p', vpool_take (vpool_get pf s) p' va n /\
    pages_mapped pf (put (vpool_lens pf) p' s) s' va n.

(** Tables that [n] pages can need at most. *)
Definition tables (n : Z) : Z := (n + 2046) / 1024.

Lemma missing_tables m va n :
  0 < n -> is_u32 va -> is_u32 (va + (n - 1) * 4096) -> va mod 4096 = 0 ->
  missing m (PDE_IDX va) (PDE_IDX (va + (n - 1) * 4096)) <= tables n.
Proof.
  intros Hn Hu0 Hu1 Hal. transitivity (Z.max 0 (PDE_IDX (va + (n - 1) * 4096) - PDE_IDX va + 1)).
  - unfold missing. etransitivity; [apply count_n_le|]. lia.
  - unfold tables. rewrite !PDE_IDX_div by done. pose proof (Z.div_mod va 4096 ltac:(lia)). Z.div_mod_to_equations. lia.
Qed.

(** The frames an allocation takes. *)
Lemma allocated_frames pf s s' va n :
  mem_ok s -> live s pf -> 0 < n -> allocated pf s s' va n ->
  forall q, free_count (pool_get q s) - (if decide (q = pf) then n else 0) - (if decide (q = PF_KERNEL) then tables n else 0)
    <= free_count (pool_get q s').
Proof.
  intros Hok Hl Hn (Hrun & p' & Ht & P) q. pose proof (vtake_ready s pf p' va n Hok Hl Ht) as Hr.
  assert (va mod 4096 = 0) as Hal.
  { destruct Hrun as (i & _ & _ & ->). rewrite Z_mod_plus_full. by apply (mo_vpool s Hok pf Hl). }
  destruct (Hr 0) as ([Hu0 Hd0] & _); [lia|]. rewrite Z.add_0_r in Hu0, Hd0.
  destruct (Hr (n - 1)) as ([Hu1 Hd1] & _); [lia|].
  set (lo := PDE_IDX va). set (hi := PDE_IDX (va + (n - 1) * 4096)).
  destruct (pm_frames _ _ _ _ _ P lo hi) as [_ F]; [unfold lo; lia | unfold hi; lia | |].
  - intros k Hk. destruct (Hr k) as ([Huk _] & _); [lia|]. unfold lo, hi.
    unfold is_u32 in *. rewrite !PDE_IDX_div by (unfold is_u32; lia). split; apply Z.div_le_mono; lia.
  - rewrite F, pool_get_put_vpool, machine_put_vpool.
    pose proof (missing_tables (machine s) va n Hn Hu0 Hu1 Hal : missing (machine s) lo hi <= tables n).
    pose proof (missing_nonneg (machine s') lo hi). do 2 destruct (decide _); lia.
Qed.

(** When [malloc_page] panics: a page count outside 1..3839; no free address
    at all; a user run at the top of user space; too few frames. *)
Definition malloc_panics (pf : pool_flags) (s : mem_state) (n : Z) : Prop :=
  ~ 0 < n < 3840 \/ all_used (vaddr_bitmap (vpool_get pf s)) \/
  exists va, first_run (vpool_get pf s) va n /\
    ((pf = PF_USER /\ 0xc0000000 - PG_SIZE <= va) \/
     ~ enough s pf (PDE_IDX va) (PDE_IDX (va + (n - 1) * 4096)) n).

Lemma PDE_IDX_mono a b : is_u32 a -> is_u32 b -> a <= b -> PDE_IDX a <= PDE_IDX b.
Proof. intros Ha Hb Hab. rewrite !PDE_IDX_div by done. apply Z.div_le_mono; lia. Qed.

Lemma malloc_page_ok s pf n :
  mem_ok s -> live s pf ->
  wpp (malloc_page pf n) s (fun va s' =>
    (va = NULL /\ s' = s /\ forall i, ~ free_run (vaddr_bitmap (vpool_get pf s)) i n) \/
    (va <> NULL /\ allocated pf s s' va n)) (malloc_panics pf s n).
Proof.
  intros Hok Hl. unfold malloc_page. apply wpp_bind, wpp_ASSERT.
  2: { intros H. left. apply andb_false_iff in H. lia. }
  intros Hn. b2p. assert (is_u32 n) as Hu by (unfold is_u32; lia). apply wpp_bind.
  eapply wpp_mono; [by apply get_virtual_addr_ok | |].
  2: { intros [?|(va & ? & ? & ?)]; [by right; left | right; right; exists va; naive_solver]. }
  intros va s1 [(-> & -> & Hnone)|(Hrun & Hva & p' & -> & Ht)].
  { apply wpp_ret. by left. }
  destruct (Z.eqb_spec va NULL) as [|_]; [done|]. replace (flags_pool pf) with pf by (by destruct pf).
  apply wpp_bind. pose proof (mem_ok_vtake s pf p' va n Hok Hl Ht) as Hok1.
  pose proof (vtake_ready s pf p' va n Hok Hl Ht) as Hr.
  assert (va mod 4096 = 0) as Hal.
  { destruct Hrun as (i & _ & _ & ->). rewrite Z_mod_plus_full. by apply (mo_vpool s Hok pf Hl). }
  set (lo := PDE_IDX va). set (hi := PDE_IDX (va + (n - 1) * 4096)).
  destruct (Hr 0) as ([Hu0 Hd0] & _); [lia|]. rewrite Z.add_0_r in Hu0, Hd0.
  destruct (Hr (n - 1)) as ([Hu1 Hd1] & _); [lia|].
  eapply wpp_mono; [apply (map_pages_ok pf (Z.to_nat n) _ va lo hi) | |]; try done.
  - by rewrite Z2Nat.id by lia.
  - unfold lo. lia.
  - unfold hi. lia.
  - intros k Hk. destruct (Hr k) as ([Huk _] & _); [lia|].
    unfold lo, hi. split; apply PDE_IDX_mono; (done || lia).
  - rewrite Z2Nat.id by lia. intros b s' (-> & Hpm). apply wpp_ret. right.
    split; [done|]. split; [done|]. by exists p'.
  - rewrite Z2Nat.id by lia. intros Hne. right. right. exists va. split; [done|]. right.
    intros He. apply Hne. unfold enough in *. rewrite machine_put_vpool.
    pose proof (pool_get_put_vpool pf PF_USER p' s). pose proof (pool_get_put_vpool pf PF_KERNEL p' s).
    simpl pool_get in *. by destruct pf.
Qed.

(** ** Properties *)

(** [palloc] takes the first free frame of the pool: it returns the
    frame's address, which is in the pool's range and never NULL, marks that
    frame used and no other; when every frame is used it stops the machine. *)
Theorem palloc_correct (p : mem_pool) (Hp : pool_ok p) :
  (exists f p', palloc p = Ok (f, p') /\ first_free p f /\ phy_addr_start p <= f < pool_top p /\
     f <> NULL /\ pool_ok p' /\ free_count p' = free_count p - 1 /\
     forall g, frame_free p' g <-> frame_free p g /\ g <> f) \/
  (palloc p = Panic /\ free_count p = 0).
Proof.
  destruct (wpp_outcome _ _ _ _ (palloc_ok p Hp)) as [(f & p' & E & Hf & Hn & Ht)|H]; [left | by right].
  pose proof Ht as (T1 & T2 & T3 & T4 & T5). exists f, p'. do 2 (split; [done|]).
  split; [by apply frame_free_in | done].
Qed.

Lemma page_frame_present m va f :
  page_frame m va = Some f -> present (pde_of m va) = true /\ frame_of (pte_of m va) = f.
Proof.
  unfold page_frame. destruct (present (pde_of m va)), (present (pte_of m va)); try done. by intros [= <-].
Qed.

(** A page that already has a mapping is refused. *)
Lemma page_table_map_repeat s va pa f :
  mem_ok s -> managed va -> page_frame (machine s) va = Some f -> page_table_map va pa s = Panic.
Proof.
  intros Hok [Hva _] Hf. pose proof (page_frame_present _ _ _ Hf) as [Hp _].
  assert (present (pte_of (machine s) va) = true) as Hpt.
  { unfold page_frame in Hf. by destruct (present (pde_of _ _)), (present (pte_of _ _)). }
  unfold page_table_map. rewrite (bind_ok _ _ _ _ _ (zoom_load_pde s va Hok Hva)).
  rewrite present_land, Hp. simpl. rewrite (bind_ok _ _ _ _ _ (zoom_load_pte s va Hok Hva Hp)).
  by rewrite present_land, Hpt.
Qed.

(** [page_table_map] maps the page of [va] to the frame [pa] and leaves
    the mapping of every other page alone, whether the page table existed or
    had to be created; the entry is present, writable and open to user mode;
    the invariant is kept, so the new table's frame is now in use.  A page
    that is already mapped, and a missing table with no kernel frame left for
    it, stop the machine. *)
Theorem page_table_map_correct (s : mem_state) (va pa : Z) (Hok : mem_ok s) :
  (forall f, managed va -> page_frame (machine s) va = Some f -> page_table_map va pa s = Panic) /\
  (mappable s va pa ->
    (exists s', page_table_map va pa s = Ok (tt, s') /\ mem_ok s' /\
       pte_of (machine s') va = entry pa /\ user_mem_pool s' = user_mem_pool s /\
       (present (pde_of (machine s) va) = true -> kernel_mem_pool s' = kernel_mem_pool s) /\
       forall v, managed v -> page_frame (machine s') v =
         if v / 4096 =? va / 4096 then Some pa else page_frame (machine s) v) \/
    (page_table_map va pa s = Panic /\
     present (pde_of (machine s) va) = false /\ free_count (kernel_mem_pool s) = 0)).
Proof.
  split; [intros f; by apply page_table_map_repeat|]. intros Hmp.
  destruct (wpp_outcome _ _ _ _ (page_table_map_ok s va pa Hok Hmp)) as [([] & s' & E & Hs)|H]; [left | by right].
  exists s'. split; [done|]. destruct Hs as [K1 K2 K3 K4 K5 K6 K7 K8 K9 K10].
  do 3 (split; [done|]). split; [|apply K6]. intros Hp. by rewrite Hp in K3.
Qed.

Lemma allocated_pages pf s s' va n :
  allocated pf s s' va n ->
  mem_ok s' /\
  (forall k, 0 <= k < n -> vaddr_free (vpool_get pf s) (va + k * 4096) /\
     exists f, page_frame (machine s') (va + k * 4096) = Some f /\ frame_free (pool_get pf s) f) /\
  (forall v, managed v -> ~ va <= v < va + n * 4096 ->
     page_frame (machine s') v = page_frame (machine s) v) /\
  (forall v, vaddr_free (vpool_get pf s') v <->
     vaddr_free (vpool_get pf s) v /\ ~ va <= v < va + n * 4096).
Proof.
  intros (_ & p' & (_ & _ & _ & T4 & T5) & P). split; [apply P|]. split; [|split].
  - intros k Hk. split; [by apply T4|]. destruct (pm_pages _ _ _ _ _ P k Hk) as (f & Hf & Hff & _).
    exists f. by rewrite pool_get_put_vpool in Hff.
  - intros v Hv Hout. rewrite (pm_other _ _ _ _ _ P) by done. by rewrite machine_put_vpool.
  - intros v. rewrite (pm_vpool _ _ _ _ _ P), vpool_get_put, decide_True by done. apply T5.
Qed.

(** C1: [malloc_page] never faults and keeps the invariant.  It returns NULL,
    with nothing changed, when no run of [n] free addresses exists; otherwise
    it hands out the first such run, each page mapped to a frame of the pool
    that was free, all other pages and addresses as before.  It stops the
    machine only in the cases of [malloc_panics]. *)
Theorem malloc_page_correct (s : mem_state) (pf : pool_flags) (n : Z)
    (Hok : mem_ok s) (Hl : live s pf) :
  (malloc_page pf n s = Ok (NULL, s) /\ forall i, ~ free_run (vaddr_bitmap (vpool_get pf s)) i n) \/
  (exists va s', malloc_page pf n s = Ok (va, s') /\ va <> NULL /\ mem_ok s' /\
     first_run (vpool_get pf s) va n /\
     (forall k, 0 <= k < n -> exists f, page_frame (machine s') (va + k * 4096) = Some f /\
        frame_free (pool_get pf s) f) /\
     (forall v, managed v -> ~ va <= v < va + n * 4096 ->
        page_frame (machine s') v = page_frame (machine s) v) /\
     (forall v, vaddr_free (vpool_get pf s') v <->
        vaddr_free (vpool_get pf s) v /\ ~ va <= v < va + n * 4096)) \/
  (malloc_page pf n s = Panic /\ malloc_panics pf s n).
Proof.
  destruct (wpp_outcome _ _ _ _ (malloc_page_ok s pf n Hok Hl)) as [(va & s' & E & H)|H]; [|by right; right].
  destruct H as [(-> & -> & H)|(Hva & Ha)]; [by left | right; left]. exists va, s'.
  destruct (allocated_pages _ _ _ _ _ Ha) as (A1 & A2 & A3 & A4). do 3 (split; [done|]).
  split; [apply Ha|]. split; [|done]. intros k Hk. by apply A2.
Qed.

Lemma scan_result_unique b n r r' : 0 <= r -> 0 <= r' -> scan_result b n r -> scan_result b n r' -> r = r'.
Proof.
  intros Hr Hr' [[? ?]|[H1 H2]] [[? ?]|[H3 H4]]; try lia. apply H2 in H3. apply H4 in H1. lia.
Qed.

Lemma first_run_unique p va va' n : first_run p va n -> first_run p va' n -> va = va'.
Proof.
  intros (i & Hs & Hi & ->) (j & Hs' & Hj & ->). by rewrite (scan_result_unique _ _ _ _ Hi Hj Hs Hs').
Qed.

(** C15: a request for 1 to 3839 pages succeeds, with the first free run as its
    result, as soon as such a run exists (below the user stack's page for a
    user request) and the pools have a frame for every page and for every
    page table the run still needs. *)
Theorem malloc_page_succeeds (s : mem_state) (pf : pool_flags) (va n : Z)
    (Hok : mem_ok s) (Hl : live s pf) (Hn : 0 < n < 3840)
    (Hrun : first_run (vpool_get pf s) va n)
    (Hstack : pf = PF_USER -> va < 0xc0000000 - PG_SIZE)
    (Hframes : enough s pf (PDE_IDX va) (PDE_IDX (va + (n - 1) * 4096)) n) :
  exists s', malloc_page pf n s = Ok (va, s') /\ mem_ok s'.
Proof.
  assert (exists i, free_run (vaddr_bitmap (vpool_get pf s)) i n) as [i Hfr].
  { destruct Hrun as (i & [[-> _]|[Hr _]] & Hi & _); [lia | by exists i]. }
  destruct (wpp_outcome _ _ _ _ (malloc_page_ok s pf n Hok Hl)) as [(v & s' & E & H)|(_ & H)].
  - destruct H as [(_ & _ & Hno)|(Hva & Ha)]; [by destruct (Hno i)|].
    rewrite (first_run_unique _ va v n Hrun (proj1 Ha)). exists s'. split; [done|]. by apply (allocated_pages pf s s' v n).
  - exfalso. destruct H as [H|[Hall|(v & Hv & H)]]; [done | |].
    + destruct Hfr as (Hi & Hend & Hfree). specialize (Hall i). specialize (Hfree i ltac:(lia)).
      rewrite Hall in Hfree by lia. done.
    + rewrite (first_run_unique _ v va n Hv Hrun) in H. destruct H as [[Hu Hge]|Hno]; [|done].
      specialize (Hstack Hu). lia.
Qed.

(** *** A concrete state: the machine of [example_mmu], 64 kernel frames from
    0x200000 (the first mapped), eight user frames, 64 heap pages. *)
Definition example_kpool : mem_pool := MemPool (Bitmap 8 MEM_BITMAP_BASE [1; 0; 0; 0; 0; 0; 0; 0]) 0x200000 0x40000.
Definition example_upool : mem_pool := MemPool (Bitmap 1 (MEM_BITMAP_BASE + 8) [0]) 0x240000 0x8000.
Definition example_mem : mem_state :=
  MemState example_mmu example_kpool example_upool
    (VPool (Bitmap 8 (MEM_BITMAP_BASE + 9) [1; 0; 0; 0; 0; 0; 0; 0]) K_HEAP_START) (VPool (Bitmap 0 0 []) 0) NULL.

Lemma one_byte_ok a y : is_u8 y -> bitmap_ok (Bitmap 1 a [y]).
Proof. intros Hy. split; [done | done |]. by apply Forall_singleton. Qed.

Lemma eight_bytes_ok a l : length l = 8%nat -> Forall is_u8 l -> bitmap_ok (Bitmap 8 a l).
Proof. intros Hl Hf. split; [done | simpl; lia | done]. Qed.

Lemma example_page_frame va :
  managed va -> page_frame example_mmu va = if va / 4096 =? 0xc0100 then Some 0x200000 else None.
Proof.
  intros [Hu Hd]. unfold page_frame. rewrite pde_of_dir, example_dir by lia.
  pose proof (PTE_IDX_range va). pose proof (va_split va Hu) as Hs.
  pose proof (Z.div_mod va 4096 ltac:(lia)).
  destruct (Z.eqb_spec (PDE_IDX va) 1023); [lia|]. destruct (Z.eqb_spec (PDE_IDX va) 768) as [E|Hne].
  - unfold pte_of, pte_addr. rewrite pde_of_dir, example_dir by lia. rewrite E. simpl.
    change (frame_of 0x101007) with 0x101000.
    destruct (Z.eqb_spec (va / 4096) 0xc0100) as [Ep|Hnp].
    + by replace (PTE_IDX va) with 256 by lia.
    + unfold ram_word, example_mmu. simpl ram.
      rewrite lookup_insert_ne by lia. rewrite lookup_insert_ne by lia.
      rewrite lookup_singleton_ne by lia. done.
  - destruct (Z.eqb_spec (va / 4096) 0xc0100); [lia | done].
Qed.

Lemma example_pt_frame f : pt_frame example_mmu f -> f = 0x100000 \/ f = 0x101000.
Proof.
  intros [->|(i & Hi & Hp & Hf)]; [by left|]. rewrite example_dir in Hp, Hf by lia.
  destruct (Z.eqb_spec i 1023); [lia|]. destruct (i =? 768); [by right | done].
Qed.

Lemma example_free_frame f : free_frame example_mem f -> 0x201000 <= f.
Proof.
  intros [[] (i & Hi & Hb & ->)]; cbn in *; [|lia]. assert (i <> 0) by (by intros ->). lia.
Qed.

Lemma example_mem_ok : mem_ok example_mem.
Proof.
  split.
  - apply example_mmu_wf.
  - intros []; (split; [| by cbn | done | done]); [apply eight_bytes_ok; [done | repeat constructor; unfold is_u8; lia] | apply one_byte_ok; unfold is_u8; lia].
  - done.
  - intros [] Hl; [|by specialize (Hl eq_refl)]. split; [apply eight_bytes_ok; [done | repeat constructor; unfold is_u8; lia] | done | done | done].
  - intros Hl. by specialize (Hl eq_refl).
  - intros f Hf%example_pt_frame Hfree%example_free_frame. lia.
  - intros va f Hva. simpl machine. rewrite example_page_frame by done.
    destruct (_ =? _); [|done]. intros [= <-] Hfree%example_free_frame. lia.
  - intros va va' f H1 H2. simpl machine. rewrite !example_page_frame by done.
    by destruct (Z.eqb_spec (va / 4096) 0xc0100) as [->|], (Z.eqb_spec (va' / 4096) 0xc0100) as [->|].
  - intros [] va Hl; [|by specialize (Hl eq_refl)]. intros (i & Hi & Hb & ->).
    assert (i <> 0) by (by intros ->). change (vaddr_start (vpool_get PF_KERNEL example_mem)) with 0xc0100000.
    assert (0 <= i < 64) by exact Hi. simpl machine. rewrite example_page_frame by (apply managed_range; lia).
    rewrite Z.div_add by lia. change (0xc0100000 / 4096) with 0xc0100.
    by destruct (Z.eqb_spec (0xc0100 + i) 0xc0100); [lia|].
Qed.

Lemma example_live : live example_mem PF_KERNEL.
Proof. done. Qed.

Lemma palloc_correct_witness :
  (exists f p', palloc example_kpool = Ok (f, p') /\ f = 0x201000) /\
  ((exists f p', palloc example_kpool = Ok (f, p') /\ first_free example_kpool f /\
     phy_addr_start example_kpool <= f < pool_top example_kpool /\ f <> NULL /\ pool_ok p' /\
     free_count p' = free_count example_kpool - 1 /\
     forall g, frame_free p' g <-> frame_free example_kpool g /\ g <> f) \/
   (palloc example_kpool = Panic /\ free_count example_kpool = 0)).
Proof.
  split; [eexists _, _; split; by vm_compute|]. apply palloc_correct. apply (mo_pool _ example_mem_ok PF_KERNEL).
Defined.

Lemma page_table_map_correct_witness :
  page_table_map 0xc0100000 0x203000 example_mem = Panic.
Proof.
  apply (proj1 (page_table_map_correct example_mem 0xc0100000 0x203000 example_mem_ok) 0x200000).
  - apply managed_range. lia.
  - by vm_compute.
Defined.

Lemma example_first_run : first_run (kernel_vaddr_pool example_mem) 0xc0101000 2.
Proof.
  exists 1. split; [|split; [lia | done]]. right. split.
  - split; [lia | split; [by cbn|]]. intros j Hj. assert (j = 1 \/ j = 2) as [-> | ->] by lia; done.
  - intros i (Hi & _ & Hf). destruct (Z.eq_dec i 0) as [->|]; [|lia]. by specialize (Hf 0 ltac:(lia)).
Qed.

Lemma malloc_page_correct_witness :
  (malloc_page PF_KERNEL 9 example_mem = Ok (NULL, example_mem) /\
    forall i, ~ free_run (vaddr_bitmap (vpool_get PF_KERNEL example_mem)) i 9) \/
  (exists va s', malloc_page PF_KERNEL 9 example_mem = Ok (va, s') /\ va <> NULL /\ mem_ok s' /\
     first_run (vpool_get PF_KERNEL example_mem) va 9 /\
     (forall k, 0 <= k < 9 -> exists f, page_frame (machine s') (va + k * 4096) = Some f /\
        frame_free (pool_get PF_KERNEL example_mem) f) /\
     (forall v, managed v -> ~ va <= v < va + 9 * 4096 ->
        page_frame (machine s') v = page_frame (machine example_mem) v) /\
     (forall v, vaddr_free (vpool_get PF_KERNEL s') v <->
        vaddr_free (vpool_get PF_KERNEL example_mem) v /\ ~ va <= v < va + 9 * 4096)) \/
  (malloc_page PF_KERNEL 9 example_mem = Panic /\ malloc_panics PF_KERNEL example_mem 9).
Proof. exact (malloc_page_correct example_mem PF_KERNEL 9 example_mem_ok example_live). Defined.

Lemma malloc_page_succeeds_witness :
  exists s', malloc_page PF_KERNEL 2 example_mem = Ok (0xc0101000, s') /\ mem_ok s'.
Proof.
  apply (malloc_page_succeeds example_mem PF_KERNEL 0xc0101000 2 example_mem_ok example_live).
  - lia.
  - exact example_first_run.
  - done.
  - by vm_compute.
Defined.
