(* ===== verification/PageFree.v ===== *)
(** * Releasing pages: kernel/memory.c (pfree, vaddr_remove, mfree_page)

    The inverse of the page allocator, and the theorem that freeing what
    [malloc_page] returned restores every mapping, every address and every
    frame that did not become a page table. *)
From stdpp Require Import base numbers list gmap fin_maps.
From Stdlib Require Import ZArith Lia.
From S2P Require Import Prelude Globals Bitmap Paging PageAlloc.

(** ** Release *)
Definition pfree (pg_phy_addr : Z) : M mem_state unit :=
  s ← get;
  let mem_pool := if phy_addr_start (user_mem_pool s) <=? pg_phy_addr then PF_USER else PF_KERNEL in
  let bit_idx := u32 (pg_phy_addr - phy_addr_start (pool_get mem_pool s)) / PG_SIZE in
  zoom (lens_comp (pool_lens mem_pool) pool_bitmap_lens) (bitmap_set bit_idx 0).

Definition vaddr_remove (pf : pool_flags) (vaddr pg_cnt : Z) : M mem_state unit :=
  s ← get;
  let bit_idx := u32 (vaddr - vaddr_start (vpool_get pf s)) / PG_SIZE in
  zoom (lens_comp (vpool_lens pf) vpool_bitmap_lens) (set_range bit_idx pg_cnt 0).

(** The [for] loop of [mfree_page]. *)
Fixpoint unmap_pages (page_cnt : nat) (vaddr : Z) : M mem_state unit :=
  match page_cnt with
  | O => mret tt
  | S page_cnt' =>
      pg_phy_addr ← zoom machine_lens (addr_v2p vaddr);
      pfree pg_phy_addr ;;;
      zoom machine_lens (page_table_pte_remove vaddr) ;;;
      unmap_pages page_cnt' (u32 (vaddr + PG_SIZE))
  end.

Definition mfree_page (pf : pool_flags) (vaddr pg_cnt : Z) : M mem_state unit :=
  _ ← zoom machine_lens (addr_v2p vaddr);
  ASSERT ((1 <=? pg_cnt) && (vaddr mod PG_SIZE =? 0)) ;;;
  unmap_pages (Z.to_nat pg_cnt) vaddr ;;;
  vaddr_remove pf vaddr pg_cnt.

(** ** mfree_page *)

(** [p'] is [p] with the frame [f] given back. *)
Definition pool_give (p p' : mem_pool) (f : Z) : Prop :=
  pool_ok p' /\ same_pool p p' /\ frame_used p f /\
  (forall g, frame_free p' g <-> frame_free p g \/ g = f) /\
  free_count p' = free_count p + 1.

Lemma pool_give_bit p b' i :
  pool_ok p -> 0 <= i < nbits (mem_pool_bitmap p) -> bit (mem_pool_bitmap p) i = true ->
  bitmap_ok b' -> btmp_bytes_len b' = btmp_bytes_len (mem_pool_bitmap p) ->
  (forall j, 0 <= j -> bit b' j = if i =? j then false else bit (mem_pool_bitmap p) j) ->
  pool_give p (MemPool b' (phy_addr_start p) (pool_size p)) (phy_addr_start p + i * 4096).
Proof.
  intros Hp Hi Hbit Hb' Hl Hj. apply nbits_len in Hl as Hn. destruct Hp as [H1 H2 H3 H4].
  split; [|split; [|split; [|split]]].
  - split; simpl; try done. by rewrite Hn.
  - done.
  - by exists i.
  - intros g. unfold frame_free. simpl. rewrite Hn. split.
    + intros (j & Hjr & Hbj & ->). rewrite Hj in Hbj by lia.
      destruct (Z.eqb_spec i j) as [->|]; [by right | left; by exists j].
    + intros [(j & Hjr & Hbj & ->)| ->].
      * exists j. rewrite Hj by lia. by destruct (i =? j).
      * exists i. rewrite Hj, Z.eqb_refl by lia. done.
  - unfold free_count. simpl. rewrite Hn.
    rewrite (count_n_flip (fun k => negb (bit b' k)) (fun k => negb (bit (mem_pool_bitmap p) k)) _ _ i).
    + lia.
    + lia.
    + rewrite Hj, Z.eqb_refl by lia. done.
    + by rewrite Hbit.
    + intros j Hjr Hne. rewrite Hj by lia. by destruct (Z.eqb_spec i j).
Qed.

Lemma frame_used_in p f :
  pool_ok p -> frame_used p f -> phy_addr_start p <= f < pool_top p /\ f mod 4096 = 0 /\ is_u32 f.
Proof.
  intros Hp (i & Hi & _ & ->). pose proof (pool_end p Hp). pose proof (pool_start p Hp).
  unfold pool_top, is_u32. split; [lia|]. split; [|lia].
  rewrite Z_mod_plus_full. apply Hp.
Qed.

Lemma pfree_ok s q f :
  mem_ok s -> frame_used (pool_get q s) f ->
  wp (pfree f) s (fun _ s' => exists p', s' = put (pool_lens q) p' s /\ pool_give (pool_get q s) p' f).
Proof.
  intros Hok Hf. pose proof (mo_pool s Hok q) as Hp.
  apply frame_used_in in Hf as Hr; [|done]. destruct Hr as (Hr & _ & Hu).
  unfold pfree. wp_step. wp_step.
  assert ((if phy_addr_start (user_mem_pool s) <=? f then PF_USER else PF_KERNEL) = q) as ->.
  { pose proof (mo_order s Hok). destruct q; simpl in Hr.
    - by destruct (Z.leb_spec (phy_addr_start (user_mem_pool s)) f); [lia|].
    - by destruct (Z.leb_spec (phy_addr_start (user_mem_pool s)) f); [|lia]. }
  destruct Hf as (i & Hi & Hbit & ->).
  replace (phy_addr_start (pool_get q s) + i * 4096 - phy_addr_start (pool_get q s)) with (i * 4096) by lia.
  pose proof (pool_bitmap_ok _ Hp) as Hb. pose proof (ok_len _ Hb).
  pose proof (pool_end _ Hp). pose proof (pool_start _ Hp).
  rewrite u32_id by (unfold is_u32; lia). unfold PG_SIZE. rewrite Z.div_mul by lia.
  wp_step. eapply wp_mono; [apply bitmap_set_ok; try done; by left|].
  intros [] b' (Hok' & Hl & _ & Hj).
  exists (MemPool b' (phy_addr_start (pool_get q s)) (pool_size (pool_get q s))).
  split; [done | by apply pool_give_bit].
Qed.

Lemma free_frame_give s q p f g :
  pool_give (pool_get q s) p f ->
  (free_frame (put (pool_lens q) p s) g <-> free_frame s g \/ g = f).
Proof.
  intros (_ & _ & Hf & Hg & _). unfold free_frame. split.
  - intros [q' H]. rewrite pool_get_put in H. destruct (decide (q' = q)) as [->|Hne].
    + apply Hg in H as [?| ->]; [left; by exists q | by right].
    + left. by exists q'.
  - intros [[q' H]| ->].
    + exists q'. rewrite pool_get_put. destruct (decide (q' = q)) as [->|]; [apply Hg; by left | done].
    + exists q. rewrite pool_get_put, decide_True by done. apply Hg. by right.
Qed.

(** The page of [va] is unmapped, everything else as before. *)
Definition unmaps (m m' : mmu) (va : Z) : Prop :=
  cr3 m' = cr3 m /\ (forall i, 0 <= i < 1024 -> dir_entry m' i = dir_entry m i) /\
  forall va', managed va' ->
    page_frame m' va' = if va' / 4096 =? va / 4096 then None else page_frame m va'.

Lemma pte_remove_unmaps m va :
  pt_wf m -> managed va -> present (pde_of m va) = true ->
  wp (page_table_pte_remove va) m (fun _ m' => pt_wf m' /\ unmaps m m' va).
Proof.
  intros Hwf Hva Hp. assert (is_u32 (pte_of m va)) as Hu by apply ram_word_u32, Hwf.
  destruct (clear_present _ Hu) as (Hu' & Hp' & _).
  destruct (set_pte_ok m va _ Hwf Hva Hp Hu') as (Hwf' & Hc & Hdir & Htr).
  eapply wp_ok; [by apply page_table_pte_remove_ok|]. split; [done|].
  split; [done | split; [done|]]. intros va' Hva'. specialize (Htr va' Hva'). rewrite Hp' in Htr.
  destruct (va' / 4096 =? va / 4096); [|by apply page_frame_translate].
  rewrite translate_page_frame in Htr. by destruct (page_frame _ va').
Qed.

(** Giving back a mapped frame and unmapping its page. *)
Lemma mem_ok_release s q p f va m' :
  mem_ok s -> managed va -> page_frame (machine s) va = Some f -> ~ pt_frame (machine s) f ->
  pool_give (pool_get q s) p f -> pt_wf m' -> unmaps (machine s) m' va ->
  mem_ok (put machine_lens m' (put (pool_lens q) p s)).
Proof.
  intros Hok Hva Hf Hnpt Hg Hwf (Hc & Hdir & Hun).
  pose proof (fun g => proj1 (free_frame_give s q p f g Hg)) as Hfr.
  destruct Hg as (Hp & (Hs1 & Hs2 & Hs3) & _).
  assert (cur_pgdir (put machine_lens m' (put (pool_lens q) p s)) = cur_pgdir s) as Epg by by destruct q.
  split; unfold live; rewrite ?Epg.
  - done.
  - intros q'. change (pool_ok (pool_get q' (put (pool_lens q) p s))). rewrite pool_get_put.
    destruct (decide (q' = q)); [done | apply Hok].
  - pose proof (mo_order s Hok) as Ho. unfold pool_top in *.
    destruct q; simpl in *; by rewrite ?Hs1, ?Hs3.
  - intros pf Hl. change (vpool_ok (vpool_get pf (put (pool_lens q) p s))).
    rewrite vpool_get_put_pool. by apply Hok.
  - intros Hl. pose proof (mo_vorder s Hok Hl). by destruct q.
  - intros g Hg Hfg. apply (pt_frame_dir (machine s)) in Hg; [|done|done].
    apply Hfr in Hfg as [Hfg| ->]; [by apply (mo_tables s Hok g) | done].
  - intros v g Hv Hvg Hfg. simpl machine in Hvg. rewrite Hun in Hvg by done.
    destruct (Z.eqb_spec (v / 4096) (va / 4096)) as [|Hne]; [done|].
    apply Hfr in Hfg as [Hfg| ->]; [by apply (mo_mapped s Hok v g)|].
    by apply Hne, (mo_inj s Hok v va f).
  - intros v1 v2 g H1 H2. simpl machine. rewrite !Hun by done.
    destruct (v1 / 4096 =? va / 4096); [done|]. destruct (v2 / 4096 =? va / 4096); [done|].
    by apply (mo_inj s Hok).
  - intros pf v Hl Hv. change (vaddr_free (vpool_get pf (put (pool_lens q) p s)) v) in Hv.
    rewrite vpool_get_put_pool in Hv. simpl machine.
    destruct (free_vaddr_managed s pf v Hok Hl Hv) as [Hm _].
    rewrite Hun by done. destruct (v / 4096 =? va / 4096); [done | by apply (mo_unmapped s Hok pf)].
Qed.

(** [n] pages from [va] on, each mapped to an allocated frame that holds no
    page table. *)
Definition freeable (s : mem_state) (va n : Z) : Prop := forall k, 0 <= k < n ->
  managed (va + k * 4096) /\ exists f q, page_frame (machine s) (va + k * 4096) = Some f /\
    frame_used (pool_get q s) f /\ ~ pt_frame (machine s) f.

Record pages_unmapped (s s' : mem_state) (va n : Z) : Prop := {
  pu_ok : mem_ok s';
  pu_pool : forall q, same_pool (pool_get q s) (pool_get q s');
  pu_vpool : forall pf, vpool_get pf s' = vpool_get pf s;
  pu_pgdir : cur_pgdir s' = cur_pgdir s;
  pu_cr3 : cr3 (machine s') = cr3 (machine s);
  pu_dir : forall i, 0 <= i < 1024 -> dir_entry (machine s') i = dir_entry (machine s) i;
  pu_pages : forall va', managed va' -> page_frame (machine s') va' =
    if (va <=? va') && (va' <? va + n * 4096) then None else page_frame (machine s) va';
  pu_free : forall q f, frame_free (pool_get q s') f <->
    frame_free (pool_get q s) f \/ (frame_used (pool_get q s) f /\
      exists k, 0 <= k < n /\ page_frame (machine s) (va + k * 4096) = Some f);
}.

Definition frame_in (p : mem_pool) (f : Z) : Prop :=
  exists i, 0 <= i < nbits (mem_pool_bitmap p) /\ f = phy_addr_start p + i * 4096.

Lemma frame_used_iff p f : frame_used p f <-> frame_in p f /\ ~ frame_free p f.
Proof.
  split.
  - intros (i & Hi & Hb & ->). split; [by exists i|]. intros (j & Hj & Hb' & E).
    assert (i = j) by lia. subst. by rewrite Hb in Hb'.
  - intros [(i & Hi & ->) Hnf]. exists i. split; [done|]. split; [|done].
    destruct (bit (mem_pool_bitmap p) i) eqn:E; [done|]. destruct Hnf. by exists i.
Qed.

Lemma frame_in_same p p' f : same_pool p p' -> frame_in p' f <-> frame_in p f.
Proof. intros (H1 & _ & H3). unfold frame_in. by rewrite H1, H3. Qed.

(** A frame belongs to one pool only. *)
Lemma frame_used_pool s q q' f :
  mem_ok s -> frame_used (pool_get q s) f -> frame_used (pool_get q' s) f -> q = q'.
Proof.
  intros Hok H1 H2. apply frame_used_in in H1 as (H1 & _); [|apply Hok].
  apply frame_used_in in H2 as (H2 & _); [|apply Hok].
  pose proof (mo_order s Hok). destruct q, q'; simpl in *; done || lia.
Qed.

Definition unmap_one (va : Z) : M mem_state unit :=
  pg_phy_addr ← zoom machine_lens (addr_v2p va);
  pfree pg_phy_addr ;;;
  zoom machine_lens (page_table_pte_remove va).

Lemma zoom_addr_v2p s va f :
  mem_ok s -> is_u32 va -> va mod 4096 = 0 -> page_frame (machine s) va = Some f ->
  zoom machine_lens (addr_v2p va) s = Ok (f, s).
Proof.
  intros Hok Hva Hal Hf. apply page_frame_present in Hf as [Hp Hfr].
  unfold zoom. simpl view. rewrite addr_v2p_ok, Hp, Hfr, land_low_12, Hal, Z.add_0_r by (done || apply Hok).
  by destruct s.
Qed.

Lemma aligned_page_test va va' :
  va mod 4096 = 0 -> (va' / 4096 =? va / 4096) = (va <=? va') && (va' <? va + 1 * 4096).
Proof.
  intros Hal. pose proof (Z.div_mod va 4096 ltac:(lia)). pose proof (Z.div_mod va' 4096 ltac:(lia)).
  pose proof (Z.mod_pos_bound va' 4096).
  destruct (Z.eqb_spec (va' / 4096) (va / 4096)), (Z.leb_spec va va'), (Z.ltb_spec va' (va + 1 * 4096));
    simpl; done || lia.
Qed.

Lemma unmap_one_ok s va :
  mem_ok s -> va mod 4096 = 0 -> freeable s va 1 ->
  wp (unmap_one va) s (fun _ s' => pages_unmapped s s' va 1).
Proof.
  intros Hok Hal Hfree. destruct (Hfree 0) as (Hva & f & q & Hf & Hused & Hnpt); [lia|].
  rewrite Z.mul_0_l, Z.add_0_r in *. unfold unmap_one. wp_step.
  eapply wp_ok; [apply zoom_addr_v2p; try done; apply Hva|]. wp_step.
  eapply wp_mono; [by apply (pfree_ok s q)|]. intros [] s1 (p & -> & Hg). wp_step.
  destruct (page_frame_present _ _ _ Hf) as [Hp _].
  change (view machine_lens (put (pool_lens q) p s)) with (machine (put (pool_lens q) p s)).
  rewrite machine_put_pool.
  eapply wp_mono; [apply pte_remove_unmaps; try done; apply Hok|].
  intros [] m' (Hwf & Hun). pose proof Hun as (Hc & Hdir & Hpg).
  assert (forall q', pool_get q' (put machine_lens m' (put (pool_lens q) p s)) =
    if decide (q' = q) then p else pool_get q' s) as Hpool.
  { intros q'. by rewrite <- pool_get_put. }
  split; try done.
  - by apply (mem_ok_release s q p f va).
  - intros q'. rewrite Hpool. destruct (decide (q' = q)) as [->|]; [apply Hg | done].
  - intros pf. change (vpool_get pf (put (pool_lens q) p s) = vpool_get pf s). apply vpool_get_put_pool.
  - by destruct q.
  - intros va' Hva'. rewrite <- aligned_page_test by done. by apply Hpg.
  - intros q' g. rewrite Hpool. destruct (decide (q' = q)) as [->|Hne].
    + destruct Hg as (_ & _ & _ & Hg & _). rewrite Hg. split.
      * intros [?| ->]; [by left | right; split; [done|]]. exists 0. by rewrite Z.add_0_r.
      * intros [?|(_ & k & Hk & E)]; [by left | right]. replace (va + k * 4096) with va in E by lia. congruence.
    + split; [by left|]. intros [?|(Hu & k & Hk & E)]; [done|]. exfalso.
      replace (va + k * 4096) with va in E by lia. assert (g = f) as -> by congruence.
      apply Hne. by apply (frame_used_pool s q' q f).
Qed.

Lemma pages_unmapped_nil s va : mem_ok s -> pages_unmapped s s va 0.
Proof.
  intros Hok. split; try done.
  - intros va' Hva'. by destruct (Z.leb_spec va va'), (Z.ltb_spec va' (va + 0 * 4096)); simpl; try lia.
  - intros q f. split; [by left | intros [?|(_ & k & Hk & _)]; [done | lia]].
Qed.

Lemma freeable_next s s1 va n :
  mem_ok s -> va mod 4096 = 0 -> 0 <= n ->
  freeable s va (n + 1) -> pages_unmapped s s1 va 1 -> freeable s1 (va + 4096) n.
Proof.
  intros Hok Hal Hn Hfree P k Hk. destruct (Hfree (k + 1)) as (Hm & f & q & Hf & Hu & Hpt); [lia|].
  destruct (Hfree 0) as (Hm0 & f0 & q0 & Hf0 & _); [lia|]. rewrite Z.mul_0_l, Z.add_0_r in *.
  replace (va + 4096 + k * 4096) with (va + (k + 1) * 4096) by lia.
  split; [done|]. exists f, q. split; [|split].
  - rewrite (pu_pages _ _ _ _ P) by done.
    by destruct (Z.leb_spec va (va + (k + 1) * 4096)), (Z.ltb_spec (va + (k + 1) * 4096) (va + 1 * 4096));
      simpl; try lia.
  - apply frame_used_iff in Hu as [Hin Hnf]. apply frame_used_iff.
    split; [by apply (frame_in_same _ _ _ (pu_pool _ _ _ _ P q))|].
    intros Hfr. apply (pu_free _ _ _ _ P) in Hfr as [?|(_ & j & Hj & E)]; [done|].
    replace (va + j * 4096) with va in E by lia. pose proof (mo_inj s Hok _ _ f Hm0 Hm E Hf) as Hpg.
    replace (va + (k + 1) * 4096) with ((k + 1) * 4096 + va) in Hpg by lia.
    rewrite Z.div_add_l in Hpg by lia. lia.
  - intros Hpt'. apply Hpt. apply (pt_frame_dir (machine s) (machine s1)); try done; apply P.
Qed.

Lemma pages_unmapped_trans s s1 s2 va n :
  mem_ok s -> va mod 4096 = 0 -> 0 <= n -> freeable s va (n + 1) ->
  pages_unmapped s s1 va 1 -> pages_unmapped s1 s2 (va + 4096) n -> pages_unmapped s s2 va (n + 1).
Proof.
  intros Hok Hal Hn Hfree P1 P2. pose proof (freeable_next s s1 va n Hok Hal Hn Hfree P1) as Hfree1. split.
  - apply P2.
  - intros q. eapply same_pool_trans; [apply P1 | apply P2].
  - intros pf. rewrite (pu_vpool _ _ _ _ P2). apply P1.
  - rewrite (pu_pgdir _ _ _ _ P2). apply P1.
  - rewrite (pu_cr3 _ _ _ _ P2). apply P1.
  - intros i Hi. rewrite (pu_dir _ _ _ _ P2) by done. by apply P1.
  - intros v Hv. rewrite (pu_pages _ _ _ _ P2), (pu_pages _ _ _ _ P1) by done.
    destruct (Z.leb_spec (va + 4096) v), (Z.ltb_spec v (va + 4096 + n * 4096)), (Z.leb_spec va v),
      (Z.ltb_spec v (va + 1 * 4096)), (Z.ltb_spec v (va + (n + 1) * 4096)); simpl; done || lia.
  - intros q f. rewrite (pu_free _ _ _ _ P2), (pu_free _ _ _ _ P1).
    assert (forall k, 0 <= k < n -> page_frame (machine s1) (va + 4096 + k * 4096) =
      page_frame (machine s) (va + (k + 1) * 4096)) as Hpf.
    { intros k Hk. replace (va + 4096 + k * 4096) with (va + (k + 1) * 4096) by lia.
      destruct (Hfree (k + 1)) as (Hm & _); [lia|]. rewrite (pu_pages _ _ _ _ P1) by done.
      by destruct (Z.leb_spec va (va + (k + 1) * 4096)), (Z.ltb_spec (va + (k + 1) * 4096) (va + 1 * 4096));
        simpl; try lia. }
    split.
    + intros [[?|(Hu & k & Hk & E)]|(Hu & k & Hk & E)].
      * by left.
      * right. split; [done|]. exists k. split; [lia | done].
      * right. apply frame_used_iff in Hu as [Hin Hnf]. split.
        -- apply frame_used_iff. split; [by apply (frame_in_same _ _ _ (pu_pool _ _ _ _ P1 q))|].
           intros Hfr. apply Hnf, (pu_free _ _ _ _ P1). by left.
        -- exists (k + 1). rewrite Hpf in E by done. split; [lia | done].
    + intros [?|(Hu & k & Hk & E)]; [by left; left|].
      destruct (Z.eq_dec k 0) as [->|Hne]; [left; right; split; [done|]; exists 0; split; [lia|done]|].
      right. destruct (Hfree1 (k - 1)) as (_ & g & q' & Hg & Hgu & _); [lia|].
      rewrite Hpf in Hg by lia. replace (k - 1 + 1) with k in Hg by lia. assert (g = f) as -> by congruence.
      assert (q' = q) as ->.
      { apply (frame_used_pool s q' q f Hok); [|done]. apply frame_used_iff in Hgu as [Hin Hnf].
        apply frame_used_iff. split; [by apply (frame_in_same _ _ _ (pu_pool _ _ _ _ P1 q'))|].
        intros Hfr. apply Hnf, (pu_free _ _ _ _ P1). by left. }
      split; [done|]. exists (k - 1). rewrite Hpf by lia. replace (k - 1 + 1) with k by lia. split; [lia | done].
Qed.

Lemma unmap_pages_S n va s Q :
  wp (unmap_one va) s (fun _ s' => wp (unmap_pages n (u32 (va + PG_SIZE))) s' Q) ->
  wp (unmap_pages (S n) va) s Q.
Proof.
  unfold unmap_one. simpl unmap_pages. unfold wp, mbind, M_bind.
  destruct (zoom machine_lens (addr_v2p va) s) as [[f s1]|s1 r|s1 r| | |]; simpl; try done.
  destruct (pfree f s1) as [[[] s2]|s2 r|s2 r| | |]; simpl; try done.
  by destruct (zoom machine_lens (page_table_pte_remove va) s2) as [[[] s3]|s3 r|s3 r| | |].
Qed.

Lemma unmap_pages_ok n s va :
  mem_ok s -> va mod 4096 = 0 -> freeable s va (Z.of_nat n) ->
  wp (unmap_pages n va) s (fun _ s' => pages_unmapped s s' va (Z.of_nat n)).
Proof.
  revert s va. induction n as [|n IH]; intros s va Hok Hal Hfree.
  { apply wp_ret. by apply pages_unmapped_nil. }
  replace (Z.of_nat (S n)) with (Z.of_nat n + 1) in * by lia.
  apply unmap_pages_S.
  eapply wp_mono; [apply unmap_one_ok; try done; intros k Hk; apply Hfree; lia|].
  intros [] s1 P1. rewrite managed_next; [|by destruct (Hfree 0) as (H & _); [lia|]; rewrite Z.mul_0_l, Z.add_0_r in H|done].
  eapply wp_mono; [apply IH|].
  - apply P1.
  - by rewrite <- (Z_mod_plus_full va 1 4096) in Hal.
  - apply (freeable_next s); try done. lia.
  - intros [] s2 P2. apply (pages_unmapped_trans s s1); try done. lia.
Qed.

(** *** The address bitmap *)

(** [p'] is [p] with the [n] pages from [va] on free again. *)
Definition vpool_give (p p' : virtual_addr_pool) (va n : Z) : Prop :=
  vpool_ok p' /\ vaddr_start p' = vaddr_start p /\
  nbits (vaddr_bitmap p') = nbits (vaddr_bitmap p) /\
  (forall v, vaddr_free p' v <-> vaddr_free p v \/ exists k, 0 <= k < n /\ v = va + k * 4096).

(** The pages are pages of the pool. *)
Definition vaddr_range (p : virtual_addr_pool) (va n : Z) : Prop :=
  exists i, 0 <= i /\ i + n <= nbits (vaddr_bitmap p) /\ va = vaddr_start p + i * 4096.

Lemma vpool_give_range p b' i n :
  vpool_ok p -> 0 <= i -> 0 <= n -> i + n <= nbits (vaddr_bitmap p) -> bitmap_ok b' ->
  nbits b' = nbits (vaddr_bitmap p) ->
  (forall j, 0 <= j -> bit b' j = if (i <=? j) && (j <? i + n) then false else bit (vaddr_bitmap p) j) ->
  vpool_give p (VPool b' (vaddr_start p)) (vaddr_start p + i * 4096) n.
Proof.
  intros [H1 H2 H3 H4] Hi Hn Hend Hb' Hnb Hj. split; [|split; [done | split; [done|]]].
  - split; simpl; rewrite ?Hnb; done.
  - intros v. unfold vaddr_free. simpl. rewrite Hnb. split.
    + intros (j & Hjr & Hbj & ->). rewrite Hj in Hbj by lia.
      destruct (Z.leb_spec i j), (Z.ltb_spec j (i + n)); simpl in Hbj; try (by left; exists j).
      right. exists (j - i). lia.
    + intros [(j & Hjr & Hbj & ->)|(k & Hk & ->)].
      * exists j. rewrite Hj by lia. by destruct ((i <=? j) && (j <? i + n)).
      * exists (i + k). rewrite Hj by lia. split; [lia|]. split; [|lia].
        by destruct (Z.leb_spec i (i + k)), (Z.ltb_spec (i + k) (i + n)); simpl; try lia.
Qed.

Lemma vaddr_remove_ok s pf va n :
  mem_ok s -> live s pf -> 0 <= n -> vaddr_range (vpool_get pf s) va n ->
  wp (vaddr_remove pf va n) s (fun _ s' => exists p',
    s' = put (vpool_lens pf) p' s /\ vpool_give (vpool_get pf s) p' va n).
Proof.
  intros Hok Hl Hn (i & Hi & Hend & ->). pose proof (mo_vpool s Hok pf Hl) as Hp.
  pose proof (vpool_bitmap_ok _ Hp) as Hb. pose proof (ok_len _ Hb).
  unfold vaddr_remove. wp_steps.
  replace (vaddr_start (vpool_get pf s) + i * 4096 - vaddr_start (vpool_get pf s)) with (i * 4096) by lia.
  pose proof (vpool_end _ Hp). pose proof (vpool_start _ Hp).
  rewrite u32_id by (unfold is_u32, nbits in *; lia). unfold PG_SIZE. rewrite Z.div_mul by lia.
  eapply wp_mono; [apply set_range_ok; try done; by left|].
  intros [] b' (Hok' & Hnb & Hj). exists (VPool b' (vaddr_start (vpool_get pf s))).
  split; [done | by apply vpool_give_range].
Qed.

Lemma pages_unmapped_range s s1 va n v k :
  pages_unmapped s s1 va n -> 0 <= k < n -> v = va + k * 4096 -> managed v ->
  page_frame (machine s1) v = None.
Proof.
  intros P Hk -> Hv. rewrite (pu_pages _ _ _ _ P) by done.
  by destruct (Z.leb_spec va (va + k * 4096)), (Z.ltb_spec (va + k * 4096) (va + n * 4096)); simpl; try lia.
Qed.

(** The state after [mfree_page]: the pages unmapped and their frames free,
    then the addresses free. *)
Definition released (pf : pool_flags) (s s' : mem_state) (va n : Z) : Prop :=
  exists s1 p', pages_unmapped s s1 va n /\ vpool_give (vpool_get pf s) p' va n /\
    s' = put (vpool_lens pf) p' s1.

Lemma mfree_page_ok s pf va n :
  mem_ok s -> live s pf -> 0 < n -> vaddr_range (vpool_get pf s) va n -> freeable s va n ->
  wp (mfree_page pf va n) s (fun _ s' => mem_ok s' /\ released pf s s' va n).
Proof.
  intros Hok Hl Hn Hrange Hfree. pose proof (mo_vpool s Hok pf Hl) as Hp.
  assert (va mod 4096 = 0) as Hal.
  { destruct Hrange as (i & _ & _ & ->). rewrite Z_mod_plus_full. apply Hp. }
  destruct (Hfree 0) as (Hm0 & f0 & _ & Hf0 & _); [lia|]. rewrite Z.mul_0_l, Z.add_0_r in *.
  unfold mfree_page. wp_step. eapply wp_ok; [apply zoom_addr_v2p; try done; apply Hm0|].
  wp_step. apply wp_ASSERT.
  { unfold PG_SIZE. rewrite Hal. by destruct (Z.leb_spec 1 n); [|lia]. }
  wp_step. eapply wp_mono; [apply unmap_pages_ok; rewrite ?Z2Nat.id by lia; done|].
  rewrite Z2Nat.id by lia. intros [] s1 P.
  assert (live s1 pf) as Hl1 by (unfold live; by rewrite (pu_pgdir _ _ _ _ P)).
  eapply wp_mono; [apply vaddr_remove_ok; rewrite ?(pu_vpool _ _ _ _ P); try done; [apply P | lia]|].
  intros [] s' (p' & -> & Hg). rewrite (pu_vpool _ _ _ _ P) in Hg.
  split; [|exists s1, p'; done]. pose proof Hg as (G1 & G2 & G3 & G4).
  apply mem_ok_vpool; rewrite ?(pu_vpool _ _ _ _ P); try done; [apply P|].
  intros v Hv. apply G4 in Hv as [Hv|(k & Hk & ->)].
  - apply (mo_unmapped s1 (pu_ok _ _ _ _ P) pf); [done|]. by rewrite (pu_vpool _ _ _ _ P).
  - apply (pages_unmapped_range s s1 va n _ k); try done. by apply Hfree.
Qed.

(** What [malloc_page] allocated can be freed. *)
Lemma allocated_freeable pf s s1 va n :
  mem_ok s -> live s pf -> 0 < n -> allocated pf s s1 va n ->
  mem_ok s1 /\ live s1 pf /\ vaddr_range (vpool_get pf s1) va n /\ freeable s1 va n.
Proof.
  intros Hok Hl Hn (Hrun & p' & Ht & P). pose proof Ht as (T1 & T2 & T3 & T4 & T5).
  assert (vpool_get pf s1 = p') as Hv1.
  { rewrite (pm_vpool _ _ _ _ _ P), vpool_get_put. by rewrite decide_True. }
  split; [apply P|]. split; [|split].
  - unfold live. rewrite (pm_pgdir _ _ _ _ _ P), pgdir_put_vpool. done.
  - rewrite Hv1. destruct Hrun as (i & [[-> _]|[(Hi & Hend & _) _]] & Hi0 & ->); [lia|].
    exists i. rewrite T2, T3. done.
  - intros k Hk. destruct (free_vaddr_managed s pf _ Hok Hl (T4 k Hk)) as [Hm _]. split; [done|].
    destruct (pm_pages _ _ _ _ _ P k Hk) as (f & Hf & Hff & Hnpt). exists f, pf.
    split; [done|]. split; [|done]. apply frame_used_iff. split.
    + apply (frame_in_same _ _ _ (pm_pool _ _ _ _ _ P pf)). destruct Hff as (i & Hi & _ & ->). by exists i.
    + intros Hfr. apply (mo_mapped s1 (pm_ok _ _ _ _ _ P) _ f Hm Hf). by exists pf.
Qed.

(** ** Properties *)
Lemma released_facts pf s s' va n :
  released pf s s' va n ->
  (forall v, managed v -> page_frame (machine s') v =
     if (va <=? v) && (v <? va + n * 4096) then None else page_frame (machine s) v) /\
  (forall v, vaddr_free (vpool_get pf s') v <->
     vaddr_free (vpool_get pf s) v \/ exists k, 0 <= k < n /\ v = va + k * 4096) /\
  (forall q f, frame_free (pool_get q s') f <->
     frame_free (pool_get q s) f \/ (frame_used (pool_get q s) f /\
       exists k, 0 <= k < n /\ page_frame (machine s) (va + k * 4096) = Some f)).
Proof.
  intros (s1 & p' & P & (_ & _ & _ & G) & ->). split; [|split].
  - intros v Hv. rewrite machine_put_vpool. by apply (pu_pages _ _ _ _ P).
  - intros v. rewrite vpool_get_put, decide_True by done. apply G.
  - intros q f. rewrite pool_get_put_vpool. apply (pu_free _ _ _ _ P).
Qed.

(** C14: [mfree_page] on a range of the pool whose pages are mapped to
    allocated frames returns: it unmaps exactly those pages, gives exactly
    their frames back, each to the pool it came from, makes exactly those
    addresses free again, and keeps the invariant. *)
Theorem mfree_page_correct (s : mem_state) (pf : pool_flags) (va n : Z)
    (Hok : mem_ok s) (Hl : live s pf) (Hn : 0 < n)
    (Hrange : vaddr_range (vpool_get pf s) va n) (Hfree : freeable s va n) :
  exists s', mfree_page pf va n s = Ok (tt, s') /\ mem_ok s' /\
    (forall v, managed v -> page_frame (machine s') v =
       if (va <=? v) && (v <? va + n * 4096) then None else page_frame (machine s) v) /\
    (forall v, vaddr_free (vpool_get pf s') v <->
       vaddr_free (vpool_get pf s) v \/ exists k, 0 <= k < n /\ v = va + k * 4096) /\
    (forall q f, frame_free (pool_get q s') f <->
       frame_free (pool_get q s) f \/ (frame_used (pool_get q s) f /\
         exists k, 0 <= k < n /\ page_frame (machine s) (va + k * 4096) = Some f)).
Proof.
  destruct (wp_ok_inv _ _ _ (mfree_page_ok s pf va n Hok Hl Hn Hrange Hfree)) as ([] & s' & E & Hok' & Hr).
  exists s'. split; [done|]. split; [done|]. by apply (released_facts pf s s' va n).
Qed.

Lemma roundtrip_frames pf s s1 s2 va n q f :
  mem_ok s -> live s pf -> 0 < n -> allocated pf s s1 va n -> released pf s1 s2 va n ->
  (frame_free (pool_get q s2) f -> frame_free (pool_get q s) f) /\
  (frame_free (pool_get q s) f -> frame_free (pool_get q s2) f \/ pt_frame (machine s2) f).
Proof.
  intros Hok Hl Hn Ha Hr. pose proof (released_facts _ _ _ _ _ Hr) as (_ & _ & R3).
  destruct Hr as (s1' & p2 & P2 & _ & Es2). destruct Ha as (_ & p' & (_ & _ & _ & T4 & _) & P).
  assert (forall g, frame_free (pool_get q s1) g -> frame_free (pool_get q s) g) as Hback.
  { intros g Hg. apply (pm_free _ _ _ _ _ P) in Hg. by rewrite pool_get_put_vpool in Hg. }
  split; intros Hf.
  - apply R3 in Hf as [Hf|(Hu & k & Hk & E)]; [by apply Hback|].
    destruct (pm_pages _ _ _ _ _ P k Hk) as (g & Hg & Hgf & _). assert (g = f) as -> by congruence.
    rewrite pool_get_put_vpool in Hgf. destruct (decide (q = pf)) as [->|Hne]; [done|].
    exfalso. apply Hne. apply (frame_used_pool s1 q pf f (pm_ok _ _ _ _ _ P) Hu).
    apply frame_used_iff. split.
    + apply (frame_in_same _ _ _ (pm_pool _ _ _ _ _ P pf)). rewrite pool_get_put_vpool.
      destruct Hgf as (i & Hi & _ & ->). by exists i.
    + intros Hfr. destruct (free_vaddr_managed s pf _ Hok Hl (T4 k Hk)) as [Hm _].
      apply (mo_mapped s1 (pm_ok _ _ _ _ _ P) _ f Hm E). by exists pf.
  - rewrite <- (pool_get_put_vpool pf q p' s) in Hf.
    destruct (pm_lost _ _ _ _ _ P q f Hf) as [H|[H|(k & Hk & E)]].
    + left. apply R3. by left.
    + right. rewrite Es2, machine_put_vpool.
      apply (pt_frame_dir (machine s1') (machine s1)); [symmetry; apply P2 | | done].
      intros i Hi. symmetry. by apply (pu_dir _ _ _ _ P2).
    + left. apply R3. right. split; [|by exists k]. apply frame_used_iff. split.
      * apply (frame_in_same _ _ _ (pm_pool _ _ _ _ _ P q)).
        destruct Hf as (i & Hi & _ & ->). by exists i.
      * intros Hfr. destruct (free_vaddr_managed s pf _ Hok Hl (T4 k Hk)) as [Hm _].
        apply (mo_mapped s1 (pm_ok _ _ _ _ _ P) _ f Hm E). by exists q.
Qed.

(** C2: freeing what [malloc_page] returned undoes it: [mfree_page] returns,
    every page's mapping, every address of both pools and every frame is as
    before the allocation, except the frames that became page tables, which
    stay with the directory. *)
Theorem malloc_mfree_roundtrip (s s1 : mem_state) (pf : pool_flags) (va n : Z)
    (Hok : mem_ok s) (Hl : live s pf)
    (Hm : malloc_page pf n s = Ok (va, s1)) (Hva : va <> NULL) :
  exists s2, mfree_page pf va n s1 = Ok (tt, s2) /\ mem_ok s2 /\
    (forall v, managed v -> page_frame (machine s2) v = page_frame (machine s) v) /\
    (forall v, vaddr_free (vpool_get pf s2) v <-> vaddr_free (vpool_get pf s) v) /\
    (forall q f, (frame_free (pool_get q s2) f -> frame_free (pool_get q s) f) /\
       (frame_free (pool_get q s) f -> frame_free (pool_get q s2) f \/ pt_frame (machine s2) f)).
Proof.
  assert (0 < n /\ allocated pf s s1 va n) as [Hn Ha].
  { pose proof (malloc_page_ok s pf n Hok Hl) as W. unfold wpp in W. rewrite Hm in W.
    destruct W as [(? & _)|(_ & Ha)]; [done|]. split; [|done].
    unfold malloc_page in Hm. destruct (Z.ltb_spec 0 n); [done|]. done. }
  destruct (allocated_freeable pf s s1 va n Hok Hl Hn Ha) as (Hok1 & Hl1 & Hr & Hf).
  destruct (wp_ok_inv _ _ _ (mfree_page_ok s1 pf va n Hok1 Hl1 Hn Hr Hf)) as ([] & s2 & E & Hok2 & Hrel).
  pose proof (allocated_pages _ _ _ _ _ Ha) as (_ & A2 & A3 & A4).
  pose proof (released_facts _ _ _ _ _ Hrel) as (R1 & R2 & _).
  exists s2. split; [done|]. split; [done|]. split; [|split].
  - intros v Hv. rewrite R1 by done. destruct ((va <=? v) && (v <? va + n * 4096)) eqn:Er; [|apply A3; [done|]].
    + b2p. set (k := (v - va) / 4096). pose proof (Z.div_mod (v - va) 4096 ltac:(lia)).
      pose proof (Z.mod_pos_bound (v - va) 4096). assert (0 <= k < n) as Hk by lia.
      destruct (A2 k Hk) as [Hfr _]. pose proof (free_vaddr_managed s pf _ Hok Hl Hfr) as [Hmk Hak].
      symmetry. rewrite <- (mo_unmapped s Hok pf _ Hl Hfr). unfold page_frame.
      destruct (same_page_idx v (va + k * 4096)) as [Ed Et]; [apply Hv | apply Hmk | |].
      * pose proof (Z.div_mod (va + k * 4096) 4096 ltac:(lia)). pose proof (Z.div_mod v 4096 ltac:(lia)).
        pose proof (Z.mod_pos_bound v 4096). lia.
      * unfold pte_of, pte_addr. by rewrite !pde_of_dir, Ed, Et.
    + intros Hin. apply andb_false_iff in Er. lia.
  - intros v. rewrite R2, A4. split.
    + intros [[? _]|(k & Hk & ->)]; [done | by apply A2].
    + intros Hfr. destruct (decide (va <= v < va + n * 4096)) as [Hin|]; [|by left]. right.
      destruct (free_vaddr_managed s pf v Hok Hl Hfr) as [_ Hav].
      destruct (A2 0) as [Hfr0 _]; [lia|]. destruct (free_vaddr_managed s pf _ Hok Hl Hfr0) as [_ Ha0].
      rewrite Z.mul_0_l, Z.add_0_r in Ha0. exists (v / 4096 - va / 4096).
      pose proof (Z.div_mod v 4096 ltac:(lia)). pose proof (Z.div_mod va 4096 ltac:(lia)). lia.
  - intros q f. by apply (roundtrip_frames pf s s1 s2 va n).
Qed.

Lemma example_freeable : freeable example_mem 0xc0100000 1.
Proof.
  intros k Hk. assert (k = 0) as -> by lia. split; [apply managed_range; lia|].
  exists 0x200000, PF_KERNEL. split; [by vm_compute|]. split; [by exists 0|].
  intros Hf. apply example_pt_frame in Hf. lia.
Qed.

Lemma mfree_page_correct_witness :
  exists s', mfree_page PF_KERNEL 0xc0100000 1 example_mem = Ok (tt, s') /\ mem_ok s' /\
    (forall v, managed v -> page_frame (machine s') v =
       if (0xc0100000 <=? v) && (v <? 0xc0100000 + 1 * 4096) then None
       else page_frame (machine example_mem) v) /\
    (forall v, vaddr_free (vpool_get PF_KERNEL s') v <->
       vaddr_free (vpool_get PF_KERNEL example_mem) v \/ exists k, 0 <= k < 1 /\ v = 0xc0100000 + k * 4096) /\
    (forall q f, frame_free (pool_get q s') f <->
       frame_free (pool_get q example_mem) f \/ (frame_used (pool_get q example_mem) f /\
         exists k, 0 <= k < 1 /\ page_frame (machine example_mem) (0xc0100000 + k * 4096) = Some f)).
Proof.
  apply (mfree_page_correct example_mem PF_KERNEL 0xc0100000 1 example_mem_ok example_live).
  - lia.
  - exists 0. split; [lia | split; [by vm_compute | done]].
  - exact example_freeable.
Defined.

Lemma malloc_mfree_roundtrip_witness :
  exists s1 s2, malloc_page PF_KERNEL 2 example_mem = Ok (0xc0101000, s1) /\
    mfree_page PF_KERNEL 0xc0101000 2 s1 = Ok (tt, s2) /\ mem_ok s2.
Proof.
  eexists _. destruct (malloc_mfree_roundtrip example_mem _ PF_KERNEL 0xc0101000 2 example_mem_ok example_live
    ltac:(vm_compute; reflexivity) ltac:(done)) as (s2 & E & Hok2 & _).
  exists s2. split; [vm_compute; reflexivity|]. split; [exact E | exact Hok2].
Defined.
