(* ===== verification/PageInit.v ===== *)
(** * Building the pools: kernel/memory.c (mem_pool_init, get_pages)

    [mem_pool_init] splits the memory above the boot page tables between the
    two pools and lays the three bitmaps out from [MEM_BITMAP_BASE].  The
    messages it prints are not modelled; the pools' locks belong to the thread
    components. *)
From stdpp Require Import base numbers list gmap fin_maps.
From Stdlib Require Import ZArith Lia.
From S2P Require Import Prelude Globals Bitmap Paging PageAlloc.

Section MemPoolInit.
(** The bytes of memory before the call. *)
Variable byte_at : Z -> Z.

(** A bitmap whose [bits] pointer and length have just been assigned.  Its
    bytes are a list of their own: [bitmaps_between] says where in memory they
    lie, and what they must not meet there. *)
Definition place_bitmap (addr len : Z) : bitmap := Bitmap len addr (byte_at <$> seqZ addr len).

Definition mem_pool_init (all_mem : Z) : M mem_state unit :=
  let page_table_size := u32 (PG_SIZE * 256) in
  let used_mem := u32 (page_table_size + 0x100000) in
  let free_mem := u32 (all_mem - used_mem) in
  let free_pages := free_mem / PG_SIZE in
  let kernel_free_pages := free_pages / 2 in
  let user_free_pages := u32 (free_pages - kernel_free_pages) in
  let kbm_len := kernel_free_pages / 8 in
  let ubm_len := user_free_pages / 8 in
  modify (fun s => MemState (machine s)
    (MemPool (place_bitmap MEM_BITMAP_BASE kbm_len) used_mem (u32 (kernel_free_pages * PG_SIZE)))
    (MemPool (place_bitmap (u32 (MEM_BITMAP_BASE + kbm_len)) ubm_len)
       (u32 (used_mem + kernel_free_pages * PG_SIZE)) (u32 (user_free_pages * PG_SIZE)))
    (kernel_vaddr_pool s) (userprog_vaddr_pool s) (cur_pgdir s)) ;;;
  zoom (lens_comp (pool_lens PF_KERNEL) pool_bitmap_lens) bitmap_init ;;;
  zoom (lens_comp (pool_lens PF_USER) pool_bitmap_lens) bitmap_init ;;;
  modify (put (lens_comp (vpool_lens PF_KERNEL) vpool_bitmap_lens)
    (place_bitmap (u32 (MEM_BITMAP_BASE + kbm_len + ubm_len)) kbm_len)) ;;;
  zoom (lens_comp (vpool_lens PF_KERNEL) vpool_bitmap_lens) bitmap_init ;;;
  modify (fun s => put (vpool_lens PF_KERNEL) (VPool (vaddr_bitmap (kernel_vaddr_pool s)) K_HEAP_START) s).

(** ** What it builds *)
Definition kernel_pages (all_mem : Z) : Z := (all_mem - 0x200000) / 4096 / 2.
Definition user_pages (all_mem : Z) : Z := (all_mem - 0x200000) / 4096 - kernel_pages all_mem.

(** A zeroed bitmap of [len] bytes at [addr]. *)
Definition zero_bitmap (b : bitmap) (addr len : Z) : Prop :=
  bitmap_ok b /\ bits_addr b = addr /\ btmp_bytes_len b = len /\ forall i, bit b i = false.

Hypothesis bytes : forall a, is_u8 (byte_at a).

Lemma place_bitmap_ok addr len : 0 <= len < 0x10000000 -> bitmap_ok (place_bitmap addr len).
Proof.
  intros Hl. split; simpl; [done | |].
  - rewrite length_fmap, length_seqZ. lia.
  - apply Forall_fmap, Forall_forall. intros a _. apply bytes.
Qed.

Lemma place_init addr len (Q : unit -> bitmap -> Prop) :
  0 <= len < 0x10000000 -> addr <> NULL ->
  (forall b, zero_bitmap b addr len -> Q tt b) -> wp bitmap_init (place_bitmap addr len) Q.
Proof.
  intros Hl Ha HQ. eapply wp_mono; [apply bitmap_init_ok; [by apply place_bitmap_ok | done]|].
  intros [] b (H1 & H2 & H3 & H4). by apply HQ.
Qed.

Lemma pages_bounds all_mem :
  0x200000 <= all_mem < 0x100000000 ->
  0 <= kernel_pages all_mem /\ kernel_pages all_mem <= user_pages all_mem <= kernel_pages all_mem + 1 /\
  0x200000 + (kernel_pages all_mem + user_pages all_mem) * 4096 <= all_mem /\
  kernel_pages all_mem < 2 ^ 19 /\ user_pages all_mem <= 2 ^ 19.
Proof.
  intros Hm. unfold user_pages, kernel_pages. set (n := (all_mem - 0x200000) / 4096).
  pose proof (Z.div_mod (all_mem - 0x200000) 4096 ltac:(lia)).
  pose proof (Z.mod_pos_bound (all_mem - 0x200000) 4096).
  pose proof (Z.div_mod n 2 ltac:(lia)). pose proof (Z.mod_pos_bound n 2). lia.
Qed.

Lemma mem_pool_init_ok s all_mem :
  0x200000 <= all_mem < 0x100000000 ->
  let k := kernel_pages all_mem in let u := user_pages all_mem in
  wp (mem_pool_init all_mem) s (fun _ s' => exists kb ub vb,
    s' = MemState (machine s) (MemPool kb 0x200000 (k * 4096)) (MemPool ub (0x200000 + k * 4096) (u * 4096))
      (VPool vb K_HEAP_START) (userprog_vaddr_pool s) (cur_pgdir s) /\
    zero_bitmap kb MEM_BITMAP_BASE (k / 8) /\ zero_bitmap ub (MEM_BITMAP_BASE + k / 8) (u / 8) /\
    zero_bitmap vb (MEM_BITMAP_BASE + k / 8 + u / 8) (k / 8)).
Proof.
  intros Hm k u. destruct (pages_bounds all_mem Hm) as (B1 & B2 & B3 & B4 & B5). fold k u in B1, B2, B3, B4, B5.
  pose proof (Z.div_mod k 8 ltac:(lia)). pose proof (Z.mod_pos_bound k 8).
  pose proof (Z.div_mod u 8 ltac:(lia)). pose proof (Z.mod_pos_bound u 8).
  unfold mem_pool_init, PG_SIZE. change (u32 (u32 (4096 * 256) + 0x100000)) with 0x200000.
  rewrite (u32_id (all_mem - 0x200000)) by (unfold is_u32; lia).
  fold (kernel_pages all_mem). fold k.
  change ((all_mem - 0x200000) / 4096 - k) with u.
  rewrite (u32_id u), (u32_id (k * 4096)), (u32_id (u * 4096)), (u32_id (0x200000 + k * 4096)),
    (u32_id (MEM_BITMAP_BASE + k / 8)), (u32_id (MEM_BITMAP_BASE + k / 8 + u / 8))
    by (unfold is_u32, MEM_BITMAP_BASE; lia).
  unfold MEM_BITMAP_BASE. wp_step. wp_step. wp_step. wp_step.
  apply place_init; [lia | by unfold NULL |]. intros kb Hkb. wp_step. wp_step.
  apply place_init; [lia | unfold NULL; lia |]. intros ub Hub. wp_step. wp_step. wp_step. wp_step.
  apply place_init; [lia | unfold NULL; lia |]. intros vb Hvb. wp_step.
  exists kb, ub, vb. done.
Qed.
End MemPoolInit.

(** The page tables of the boot loader: all tables, and all frames mapped
    outside the first 4 MB, lie below 2 MB; nothing is mapped in the heap. *)
Record boot_tables (m : mmu) : Prop := {
  boot_wf : pt_wf m;
  boot_pt : forall f, pt_frame m f -> f < 0x200000;
  boot_low : forall va f, managed va -> page_frame m va = Some f -> f < 0x200000;
  boot_inj : forall va va' f, managed va -> managed va' -> page_frame m va = Some f ->
    page_frame m va' = Some f -> va / 4096 = va' / 4096;
  boot_heap : forall va, managed va -> K_HEAP_START <= va -> page_frame m va = None;
}.

Lemma zero_bitmap_frame b addr len st sz f :
  zero_bitmap b addr len -> frame_free (MemPool b st sz) f -> st <= f < st + 8 * len * 4096.
Proof. intros (_ & _ & Hl & _) (i & Hi & _ & ->). simpl in *. unfold nbits in Hi. rewrite Hl in Hi. lia. Qed.

Lemma zero_pool_ok b addr len st sz :
  zero_bitmap b addr len -> 0 < st -> st mod 4096 = 0 -> st + 8 * len * 4096 <= 0x100000000 ->
  pool_ok (MemPool b st sz).
Proof. intros (H1 & _ & Hl & _) H2 H3 H4. split; simpl; unfold nbits; rewrite ?Hl; try done. Qed.

Lemma boot_mem_ok m kb ub vb ksz usz k u uv :
  boot_tables m -> 0 <= k < 2 ^ 18 -> 0 <= u -> k + u + 512 <= 2 ^ 20 -> 0xc0100000 + k * 4096 <= 1023 * 2 ^ 22 ->
  zero_bitmap kb MEM_BITMAP_BASE (k / 8) -> zero_bitmap ub (MEM_BITMAP_BASE + k / 8) (u / 8) ->
  zero_bitmap vb (MEM_BITMAP_BASE + k / 8 + u / 8) (k / 8) ->
  mem_ok (MemState m (MemPool kb 0x200000 ksz) (MemPool ub (0x200000 + k * 4096) usz)
    (VPool vb K_HEAP_START) uv NULL).
Proof.
  intros Hb Hk Hu Hku Htop Hkb Hub Hvb.
  pose proof (Z.div_mod k 8 ltac:(lia)). pose proof (Z.mod_pos_bound k 8).
  pose proof (Z.div_mod u 8 ltac:(lia)). pose proof (Z.mod_pos_bound u 8).
  set (s := MemState _ _ _ _ _ _).
  assert (forall f, free_frame s f -> 0x200000 <= f) as Hfree.
  { intros f [[] Hf]; [eapply (zero_bitmap_frame kb) in Hf | eapply (zero_bitmap_frame ub) in Hf]; eauto; lia. }
  split.
  - apply Hb.
  - intros []; eapply zero_pool_ok; eauto; try lia. by rewrite Z_mod_plus_full.
  - unfold pool_top, nbits. simpl. destruct Hkb as (_ & _ & -> & _). lia.
  - intros [] Hl; [|by specialize (Hl eq_refl)]. destruct Hvb as (Hz1 & _ & Hl' & _).
    split; simpl; unfold nbits; rewrite ?Hl'; try done. unfold K_HEAP_START. lia.
  - intros Hl. by specialize (Hl eq_refl).
  - intros f Hf Hfr%Hfree. apply (boot_pt m Hb) in Hf. lia.
  - intros va f Hva Hf Hfr%Hfree. apply (boot_low m Hb va) in Hf; [lia | done].
  - apply Hb.
  - intros [] va Hl; [|by specialize (Hl eq_refl)]. intros (i & Hi & _ & ->).
    destruct Hvb as (_ & _ & Hl' & _). simpl in Hi. unfold nbits in Hi. rewrite Hl' in Hi.
    cbn [vpool_get kernel_vaddr_pool s vaddr_start]. unfold K_HEAP_START in *.
    apply (boot_heap m Hb); [apply managed_range; lia | unfold K_HEAP_START; lia].
Qed.

(** The page of the main thread's task structure and stack (global.h:72; the
    loader sets [esp] to its end). *)
Definition MAIN_PCB : Z := 0xc009e000.

(** The bytes of the three bitmaps fill a part of memory from [lo] on, one
    after the other, and end at or below [hi]. *)
Definition bitmaps_between (m : mem_state) (lo hi : Z) : Prop :=
  let kb := mem_pool_bitmap (kernel_mem_pool m) in
  let ub := mem_pool_bitmap (user_mem_pool m) in
  let vb := vaddr_bitmap (kernel_vaddr_pool m) in
  bits_addr kb = lo /\ bits_addr ub = bits_addr kb + btmp_bytes_len kb /\
  bits_addr vb = bits_addr ub + btmp_bytes_len ub /\ bits_addr vb + btmp_bytes_len vb <= hi.

(** [n] frames of the kernel's pool and [n] addresses of its heap, all free. *)
Definition fresh_pools (m : mem_state) (n : Z) : Prop :=
  let kb := mem_pool_bitmap (kernel_mem_pool m) in
  let vb := vaddr_bitmap (kernel_vaddr_pool m) in
  nbits kb = n /\ nbits vb = n /\ forall i, bit kb i = false /\ bit vb i = false.

(** Up to 1 GB, on the loader's page tables, the allocator's invariant holds;
    up to 343 MB the bitmaps keep clear of the main thread's page. *)
Lemma mem_pool_boot_ok byte_at s all_mem :
  (forall a, is_u8 (byte_at a)) -> 0x200000 <= all_mem <= 0x40000000 -> boot_tables (machine s) -> cur_pgdir s = NULL ->
  wp (mem_pool_init byte_at all_mem) s (fun _ s' => mem_ok s' /\ machine s' = machine s /\ cur_pgdir s' = NULL /\
    vaddr_start (kernel_vaddr_pool s') = K_HEAP_START /\
    fresh_pools s' (8 * (kernel_pages all_mem / 8)) /\
    (all_mem <= 0x15755000 -> bitmaps_between s' MEM_BITMAP_BASE MAIN_PCB)).
Proof.
  intros Hbytes Hm Hb Hpg. eapply wp_mono; [apply (mem_pool_init_ok byte_at Hbytes s all_mem); lia|].
  intros [] s' (kb & ub & vb & -> & Hkb & Hub & Hvb). destruct (pages_bounds all_mem ltac:(lia)) as (B1 & B2 & B3 & B4 & B5).
  split; [rewrite Hpg; apply (boot_mem_ok _ _ _ _ _ _ (kernel_pages all_mem) (user_pages all_mem)); try done; lia|].
  do 3 (split; [done|]).
  destruct Hkb as (_ & Ek & Lk & Zk), Hub as (_ & Eu & Lu & _), Hvb as (_ & Ev & Lv & Zv). split.
  { unfold fresh_pools, nbits. simpl. rewrite Lk, Lv. split; [lia|]. split; [lia|]. intros i. by split. }
  intros Hle. unfold bitmaps_between. simpl. rewrite Ek, Eu, Ev, Lk, Lu, Lv.
  unfold MEM_BITMAP_BASE, MAIN_PCB. do 3 (split; [done|]). Z.div_mod_to_equations. lia.
Qed.

(** ** Properties *)

(** C18: with at least 2 MB of memory, [mem_pool_init] gives every pool whole
    pages above the boot page tables, inside the memory there is, the user
    pool right after the kernel pool and at most one page larger; the three
    bitmaps are all free and lie next to each other, without overlap, from
    [MEM_BITMAP_BASE] on.  Up to 1 GB, started on the boot loader's page
    tables, it establishes the allocator's invariant; and up to 343 MB the
    bitmaps end below the kernel's own task page at 0xc009e000. *)
Theorem mem_pool_init_correct (byte_at : Z -> Z) (s : mem_state) (all_mem : Z)
    (Hbytes : forall a, is_u8 (byte_at a)) (Hm : 0x200000 <= all_mem < 0x100000000) :
  exists s', mem_pool_init byte_at all_mem s = Ok (tt, s') /\ machine s' = machine s /\
    (let kp := kernel_mem_pool s' in let up := user_mem_pool s' in
     let vb := vaddr_bitmap (kernel_vaddr_pool s') in
     let kb := mem_pool_bitmap kp in let ub := mem_pool_bitmap up in
     phy_addr_start kp = 0x200000 /\ phy_addr_start up = 0x200000 + pool_size kp /\
     pool_size kp <= pool_size up <= pool_size kp + 4096 /\
     phy_addr_start up + pool_size up <= all_mem /\
     nbits kb * 4096 <= pool_size kp /\ nbits ub * 4096 <= pool_size up /\
     (forall i, bit kb i = false /\ bit ub i = false /\ bit vb i = false) /\
     bits_addr kb = MEM_BITMAP_BASE /\ bits_addr ub = bits_addr kb + btmp_bytes_len kb /\
     bits_addr vb = bits_addr ub + btmp_bytes_len ub /\
     (all_mem <= 0x15755000 -> bits_addr vb + btmp_bytes_len vb <= 0xc009e000)) /\
    (all_mem <= 0x40000000 -> boot_tables (machine s) -> cur_pgdir s = NULL -> mem_ok s').
Proof.
  destruct (wp_ok_inv _ _ _ (mem_pool_init_ok byte_at Hbytes s all_mem Hm))
    as ([] & s' & E & kb & ub & vb & -> & Hkb & Hub & Hvb).
  eexists. split; [exact E|]. split; [done|].
  destruct (pages_bounds all_mem Hm) as (B1 & B2 & B3 & B4 & B5).
  set (k := kernel_pages all_mem) in *. set (u := user_pages all_mem) in *.
  pose proof (Z.div_mod k 8 ltac:(lia)). pose proof (Z.mod_pos_bound k 8).
  pose proof (Z.div_mod u 8 ltac:(lia)). pose proof (Z.mod_pos_bound u 8).
  split.
  - cbn [kernel_mem_pool user_mem_pool kernel_vaddr_pool mem_pool_bitmap vaddr_bitmap phy_addr_start pool_size].
    unfold nbits. destruct Hkb as (_ & -> & -> & Zk), Hub as (_ & -> & -> & Zu), Hvb as (_ & -> & -> & Zv).
    unfold MEM_BITMAP_BASE. do 6 (split; [done || lia|]). split; [done|]. lia.
  - intros Hle Hb Hpg. rewrite Hpg. apply (boot_mem_ok _ _ _ _ _ _ k u); try done; lia.
Qed.

Definition example_boot : mem_state :=
  MemState (Mmu {[ 0x100000 + 4 * 1023 := 0x100007; 0x100000 + 4 * 768 := 0x101007 ]} 0x100000)
    (MemPool (Bitmap 0 0 []) 0 0) (MemPool (Bitmap 0 0 []) 0 0) (VPool (Bitmap 0 0 []) 0)
    (VPool (Bitmap 0 0 []) 0) NULL.

Lemma mem_pool_init_correct_witness :
  exists s', mem_pool_init (fun _ => 0) 0x2000000 example_boot = Ok (tt, s') /\
    machine s' = machine example_boot.
Proof.
  destruct (mem_pool_init_correct (fun _ => 0) example_boot 0x2000000) as (s' & E & Hs & _).
  - intros a. unfold is_u8. lia.
  - lia.
  - exists s'. split; [exact E | exact Hs].
Defined.
