(* ===== verification/Loader.v ===== *)
(** * The page tables of the loader: boot/loader.S (setup_page)

    Paging is off: stores go to physical addresses.  The rest of the loader is
    in [LoadKernel]. *)
From stdpp Require Import base numbers list gmap fin_maps.
From Stdlib Require Import ZArith Lia.
From S2P Require Import Prelude Globals Bitmap Paging PageAlloc PageInit.

Definition PAGE_DIR_TABLE_POS : Z := 0x100000.

Definition store_phys (a v : Z) : M mmu unit := modify (ram_store a v).

(** The bytes of the directory are cleared, here by words; the tables are not. *)
Definition setup_page : M mmu unit :=
  for_loop 1024 0 (fun esi => store_phys (PAGE_DIR_TABLE_POS + 4 * esi) 0) ;;;
  let ebx := PAGE_DIR_TABLE_POS + 0x1000 in
  let eax := Z.lor ebx (Z.lor (Z.lor PG_US_U PG_RW_W) PG_P_1) in
  store_phys (PAGE_DIR_TABLE_POS + 0x0) eax ;;;
  store_phys (PAGE_DIR_TABLE_POS + 0xc00) eax ;;;
  store_phys (PAGE_DIR_TABLE_POS + 4092) (eax - 0x1000) ;;;
  for_loop 256 0 (fun esi => store_phys (ebx + 4 * esi) (Z.lor (Z.lor PG_US_U PG_RW_W) PG_P_1 + 4096 * esi)) ;;;
  let eax := Z.lor (PAGE_DIR_TABLE_POS + 0x2000) (Z.lor (Z.lor PG_US_U PG_RW_W) PG_P_1) in
  for_loop 254 769 (fun esi => store_phys (PAGE_DIR_TABLE_POS + 4 * esi) (eax + 0x1000 * (esi - 769))).

(** The directory is made current. *)
Definition load_cr3 : M mmu unit := modify (fun m => Mmu (ram m) PAGE_DIR_TABLE_POS).

(** ** What it builds *)
Lemma store_loop_ok n k base (f : Z -> Z) m :
  map_Forall (fun _ v => is_u32 v) (ram m) -> (forall i, k <= i < k + Z.of_nat n -> is_u32 (f i)) ->
  wp (for_loop n k (fun i => store_phys (base + 4 * i) (f i))) m (fun _ m' =>
    map_Forall (fun _ v => is_u32 v) (ram m') /\ cr3 m' = cr3 m /\
    (forall j, k <= j < k + Z.of_nat n -> ram_word m' (base + 4 * j) = f j) /\
    (forall a, (forall j, k <= j < k + Z.of_nat n -> a <> base + 4 * j) -> ram_word m' a = ram_word m a)).
Proof.
  intros Hw Hf.
  apply (wp_for_loop _ _ _ _ (fun i m' => map_Forall (fun _ v => is_u32 v) (ram m') /\ cr3 m' = cr3 m /\
    (forall j, k <= j < i -> ram_word m' (base + 4 * j) = f j) /\
    (forall a, (forall j, k <= j < i -> a <> base + 4 * j) -> ram_word m' a = ram_word m a))).
  - split; [done|]. split; [done|]. split; [intros; lia | done].
  - intros i m' Hi (W & C & D & R). apply wp_modify. split; [apply words_store; auto|]. split; [done|]. split.
    + intros j Hj. rewrite ram_word_store. destruct (Z.eqb_spec (base + 4 * j) (base + 4 * i)) as [E|].
      * f_equal. lia.
      * apply D. lia.
    + intros a Ha. rewrite ram_word_store. destruct (Z.eqb_spec a (base + 4 * i)) as [->|]; [by destruct (Ha i ltac:(lia))|].
      apply R. intros j Hj. apply Ha. lia.
  - done.
Qed.

Definition loader_entry (i : Z) : Z :=
  if i =? 1023 then 0x100007 else if (i =? 0) || (i =? 768) then 0x101007
  else if 769 <=? i then 0x102007 + 0x1000 * (i - 769) else 0.

Lemma setup_page_ok m :
  map_Forall (fun _ v => is_u32 v) (ram m) ->
  wp setup_page m (fun _ m' => map_Forall (fun _ v => is_u32 v) (ram m') /\
    (forall i, 0 <= i < 1024 -> ram_word m' (0x100000 + 4 * i) = loader_entry i) /\
    (forall i, 0 <= i < 1024 -> ram_word m' (0x101000 + 4 * i) = if i <? 256 then 7 + 4096 * i else ram_word m (0x101000 + 4 * i)) /\
    (forall a, ~ 0x100000 <= a < 0x102000 -> ram_word m' a = ram_word m a)).
Proof.
  intros Hw. unfold setup_page, PAGE_DIR_TABLE_POS.
  change (Z.lor (Z.lor PG_US_U PG_RW_W) PG_P_1) with 7. change (Z.lor (0x100000 + 0x1000) 7) with 0x101007.
  change (Z.lor (0x100000 + 0x2000) 7) with 0x102007. cbv zeta.
  wp_step. eapply wp_mono; [apply (store_loop_ok 1024 0 0x100000 (fun _ => 0)); [done | unfold is_u32; intros; lia]|].
  intros [] m1 (W1 & _ & D1 & R1). wp_step. apply wp_modify. wp_step. apply wp_modify. wp_step. apply wp_modify.
  set (m2 := ram_store _ _ _). assert (map_Forall (fun _ v => is_u32 v) (ram m2)) as W2.
  { unfold m2. repeat apply words_store; done || (unfold is_u32; lia). }
  wp_step. eapply wp_mono; [apply (store_loop_ok 256 0 (0x100000 + 0x1000) (fun i => 7 + 4096 * i)); [done | unfold is_u32; intros; lia]|].
  intros [] m3 (W3 & _ & D3 & R3).
  eapply wp_mono; [apply (store_loop_ok 254 769 0x100000 (fun i => 0x102007 + 0x1000 * (i - 769))); [done | unfold is_u32; intros; lia]|].
  intros [] m4 (W4 & _ & D4 & R4). split; [done|]. split; [|split].
  - intros i Hi. unfold loader_entry. destruct (Z.eqb_spec i 1023) as [->|N1].
    + rewrite R4, R3 by (intros; lia). unfold m2. by rewrite !ram_word_store.
    + destruct (Z.leb_spec 769 i).
      * destruct (Z.eqb_spec i 0), (Z.eqb_spec i 768); try lia. simpl. apply D4. lia.
      * rewrite R4, R3 by (intros; lia). unfold m2. rewrite !ram_word_store.
        repeat case_match; b2p; try lia; try done; by apply D1; lia.
  - intros i Hi. rewrite R4 by (intros; lia). destruct (Z.ltb_spec i 256).
    + apply (D3 i). lia.
    + rewrite R3 by (intros; lia). unfold m2. rewrite !ram_word_store. repeat case_match; b2p; try lia. by apply R1; intros; lia.
  - intros a Ha. rewrite R4, R3 by (intros; lia). unfold m2. rewrite !ram_word_store. repeat case_match; b2p; try lia. by apply R1; intros; lia.
Qed.

(** The tables of the loader, in closed form: nothing is mapped beyond the
    first megabyte, at its own address and at 0xc0000000. *)
Record loader_tables (m : mmu) : Prop := {
  lt_words : map_Forall (fun _ v => is_u32 v) (ram m);
  lt_cr3 : cr3 m = PAGE_DIR_TABLE_POS;
  lt_dir : forall i, 0 <= i < 1024 -> ram_word m (0x100000 + 4 * i) = loader_entry i;
  lt_low : forall i, 0 <= i < 1024 -> ram_word m (0x101000 + 4 * i) = if i <? 256 then 7 + 4096 * i else 0;
  lt_rest : forall a, 0x102000 <= a < 0x200000 -> a mod 4 = 0 -> ram_word m a = 0;
}.

Lemma entry_bits k : 0 <= k < 2 ^ 20 -> present (4096 * k + 7) = true /\ frame_of (4096 * k + 7) = 4096 * k.
Proof.
  intros Hk. destruct (entry_ok (4096 * k)) as (_ & H1 & H2); [unfold is_u32; lia | by rewrite Z.mul_comm, Z_mod_mult |].
  split.
  - unfold present. rewrite Z.bit0_odd, Z.odd_add, Z.odd_mul. done.
  - unfold frame_of. rewrite land_high_20 by (unfold is_u32; lia). rewrite <- (Z.div_unique (4096 * k + 7) 4096 k 7); lia.
Qed.

Definition loader_frame (i : Z) : Z :=
  if i =? 1023 then 0x100000 else if i =? 0 then 0x101000 else 0x101000 + 0x1000 * (i - 768).

Lemma loader_entry_used i : 0 <= i < 1024 -> (i = 0 \/ 768 <= i) ->
  present (loader_entry i) = true /\ frame_of (loader_entry i) = loader_frame i.
Proof.
  intros Hi Hu. unfold loader_frame. set (k := if i =? 1023 then 0x100 else if i =? 0 then 0x101 else 0x101 + (i - 768)).
  assert (loader_entry i = 4096 * k + 7 /\ 0 <= k < 2 ^ 20) as [-> Hk].
  { unfold loader_entry, k. repeat case_match; b2p; lia. }
  destruct (entry_bits k Hk) as [-> ->]. split; [done|]. unfold k. repeat case_match; b2p; lia.
Qed.

Lemma loader_entry_unused i : 0 < i < 768 -> loader_entry i = 0.
Proof. intros Hi. unfold loader_entry. repeat case_match; b2p; lia. Qed.

Lemma page_number va : is_u32 va -> va / 4096 = 1024 * PDE_IDX va + PTE_IDX va.
Proof.
  intros Hva. rewrite PDE_IDX_div, PTE_IDX_div by done. change (2 ^ 22) with (2 ^ 12 * 2 ^ 10).
  rewrite <- Z.div_div by done. by apply Z.div_mod.
Qed.

Section LoaderTables.
Variables (m : mmu) (Hm : loader_tables m).

Lemma loader_dir i : 0 <= i < 1024 -> dir_entry m i = loader_entry i.
Proof. intros Hi. unfold dir_entry. rewrite (lt_cr3 m Hm). by apply (lt_dir m Hm). Qed.

Lemma loader_present i : 0 <= i < 1024 -> present (dir_entry m i) = true -> i = 0 \/ 768 <= i.
Proof.
  intros Hi. rewrite loader_dir by done. destruct (Z.eq_dec i 0); [by left|]. destruct (Z.le_gt_cases 768 i); [by right|].
  by rewrite loader_entry_unused by lia.
Qed.

Lemma loader_dir_frame i : 0 <= i < 1024 -> present (dir_entry m i) = true -> frame_of (dir_entry m i) = loader_frame i.
Proof. intros Hi Hp%loader_present; [|done]. rewrite loader_dir by done. by apply loader_entry_used. Qed.

Lemma loader_wf : pt_wf m.
Proof.
  split.
  - apply Hm.
  - rewrite (lt_cr3 m Hm). unfold is_u32, PAGE_DIR_TABLE_POS. lia.
  - unfold self_mapped. fold (dir_entry m 1023). rewrite loader_dir, (lt_cr3 m Hm) by lia. done.
  - intros i Hi Hp. rewrite loader_dir_frame by (done || lia). apply loader_present in Hp; [|lia].
    rewrite (lt_cr3 m Hm). change (frame_of PAGE_DIR_TABLE_POS) with 0x100000. unfold loader_frame. repeat case_match; b2p; lia.
  - intros i j Hi Hj Hne Hpi Hpj. rewrite !loader_dir_frame by (done || lia). apply loader_present in Hpi, Hpj; [|lia..].
    unfold loader_frame. repeat case_match; b2p; lia.
Qed.

(** What is mapped outside the window: the first megabyte, twice. *)
Lemma loader_page va f : is_u32 va -> PDE_IDX va < 1023 -> page_frame m va = Some f ->
  (PDE_IDX va = 0 \/ PDE_IDX va = 768) /\ PTE_IDX va < 256 /\ f = 4096 * PTE_IDX va.
Proof.
  intros Hva Hd. pose proof (PDE_IDX_range va Hva). pose proof (PTE_IDX_range va) as Ht. unfold page_frame.
  destruct (present (pde_of m va)) eqn:Hp; [|done]. rewrite pde_of_dir in Hp. simpl.
  assert (pte_of m va = ram_word m (loader_frame (PDE_IDX va) + 4 * PTE_IDX va)) as ->.
  { unfold pte_of, pte_addr. by rewrite pde_of_dir, loader_dir_frame. }
  apply loader_present in Hp; [|lia].
  assert ((PDE_IDX va = 0 \/ PDE_IDX va = 768) \/ 769 <= PDE_IDX va) as [E|E] by lia.
  - assert (loader_frame (PDE_IDX va) = 0x101000) as -> by (destruct E as [-> | ->]; done).
    rewrite (lt_low m Hm) by done. destruct (Z.ltb_spec (PTE_IDX va) 256); [|done].
    rewrite Z.add_comm. destruct (entry_bits (PTE_IDX va) ltac:(lia)) as [-> ->]. intros [= <-]. done.
  - assert (loader_frame (PDE_IDX va) = 0x101000 + 0x1000 * (PDE_IDX va - 768)) as -> by (unfold loader_frame; repeat case_match; b2p; lia).
    rewrite (lt_rest m Hm); [done | lia |]. apply Z.mod_divide; [done|]. exists (0x40400 + 0x400 * (PDE_IDX va - 768) + PTE_IDX va). lia.
Qed.

Lemma loader_boot_tables : boot_tables m.
Proof.
  split.
  - apply loader_wf.
  - intros f [->|(i & Hi & Hp & <-)].
    + rewrite (lt_cr3 m Hm). done.
    + rewrite loader_dir_frame by (done || lia). apply loader_present in Hp; [|lia]. unfold loader_frame. repeat case_match; b2p; lia.
  - intros va f [Hva Hd] E. destruct (loader_page va f Hva ltac:(lia) E) as (_ & ? & ->). lia.
  - intros va va' f [Hva Hd] [Hva' Hd'] E E'. destruct (loader_page va f Hva ltac:(lia) E) as (Ed & _ & ->).
    destruct (loader_page va' _ Hva' ltac:(lia) E') as (Ed' & _ & Et).
    rewrite !page_number by done. lia.
  - intros va [Hva Hd] Hheap. destruct (page_frame m va) as [f|] eqn:E; [exfalso | done].
    destruct (loader_page va f Hva ltac:(lia) E) as (Ed & Et & _).
    assert (0xc0100000 / 4096 <= va / 4096) as Hp by (by apply Z.div_le_mono). rewrite (page_number va) in Hp by done.
    change (0xc0100000 / 4096) with 0xc0100 in Hp. lia.
Qed.

(** The first megabyte, at its own address and in the kernel's part. *)
Lemma loader_translate pa va : 0 <= pa < 0x100000 -> va = pa \/ va = 0xc0000000 + pa -> translate m va = Some pa.
Proof.
  intros Hpa Hva. pose proof (Z.div_mod pa (2 ^ 12)). pose proof (Z.mod_pos_bound pa (2 ^ 12)).
  assert (exists d, (d = 0 \/ d = 768) /\ va = d * 2 ^ 22 + pa / 2 ^ 12 * 2 ^ 12 + pa mod 2 ^ 12) as (d & Ed & Ev).
  { destruct Hva as [-> | ->]; [exists 0 | exists 768]; lia. }
  destruct (split_addr d (pa / 2 ^ 12) (pa mod 2 ^ 12)) as (Hu & Hd & Ht & Ho); [lia.. |]. rewrite <- Ev in Hu, Hd, Ht, Ho.
  assert (present (pde_of m va) = true /\ frame_of (pde_of m va) = 0x101000) as [Hp Hf].
  { rewrite pde_of_dir, Hd, loader_dir by lia. by destruct Ed as [-> | ->]. }
  unfold translate, pte_of, pte_addr. rewrite Hp, Hf, Ht, Ho, (lt_low m Hm) by lia.
  destruct (Z.ltb_spec (pa / 2 ^ 12) 256); [|lia]. rewrite Z.add_comm.
  destruct (entry_bits (pa / 2 ^ 12) ltac:(lia)) as [-> ->]. simpl. f_equal. lia.
Qed.
End LoaderTables.

Lemma loader_ok m :
  map_Forall (fun _ v => is_u32 v) (ram m) -> (forall a, 0x101400 <= a < 0x200000 -> a mod 4 = 0 -> ram_word m a = 0) ->
  wp (setup_page ;;; load_cr3) m (fun _ m' => loader_tables m' /\ (forall a, ~ 0x100000 <= a < 0x102000 -> ram_word m' a = ram_word m a)).
Proof.
  intros Hw Hzero. wp_step. eapply wp_mono; [by apply setup_page_ok|]. intros [] m1 (W & D & T & R). apply wp_modify. split; [|done].
  split; try done.
  - intros i Hi. change (ram_word (Mmu _ _) ?a) with (ram_word m1 a). rewrite T by done. destruct (Z.ltb_spec i 256); [done|].
    apply Hzero; [lia|]. apply Z.mod_divide; [done|]. exists (0x40400 + i). lia.
  - intros a Ha Hal. change (ram_word m1 a = 0). rewrite R by lia. apply Hzero; [lia | done].
Qed.

(** ** Properties *)

(** [setup_page] builds, in memory that is zero above the first table's low
    quarter, the page tables the kernel starts on, and [load_cr3] makes them
    current: the first megabyte is mapped at its own address and at 0xc0000000,
    nothing else of the managed space is, the last entry maps the tables
    themselves, all tables lie below 2 MB; this is what [mem_init] needs of
    them ([boot_tables]).  Memory outside the directory and the first table
    keeps its contents. *)
Theorem setup_page_correct (m : mmu)
    (Hwords : map_Forall (fun _ v => is_u32 v) (ram m))
    (Hzero : forall a, 0x101400 <= a < 0x200000 -> a mod 4 = 0 -> ram_word m a = 0) :
  exists m', (setup_page ;;; load_cr3) m = Ok (tt, m') /\ boot_tables m' /\
    (forall pa, 0 <= pa < 0x100000 -> translate m' pa = Some pa /\ translate m' (0xc0000000 + pa) = Some pa /\
      (pa mod 4 = 0 -> load pa m' = Ok (ram_word m pa, m'))) /\
    (forall va f, is_u32 va -> PDE_IDX va < 1023 -> page_frame m' va = Some f ->
      0 <= f < 0x100000 /\ (va / 4096 * 4096 = f \/ va / 4096 * 4096 = 0xc0000000 + f)) /\
    (forall a, ~ 0x100000 <= a < 0x102000 -> ram_word m' a = ram_word m a).
Proof.
  pose proof (loader_ok m Hwords Hzero) as Hw.
  destruct (wp_ok_inv _ _ _ Hw) as ([] & m' & E & Ht & R). exists m'. split; [exact E|].
  split; [by apply loader_boot_tables|]. split; [|split; [|done]].
  - intros pa Hpa. split; [by apply loader_translate; [..|left]|]. split; [by apply loader_translate; [..|right]|].
    intros _. unfold load. rewrite (loader_translate m' Ht pa) by (done || by left). rewrite R by lia. done.
  - intros va f Hva Hd Hf. destruct (loader_page m' Ht va f Hva Hd Hf) as (Ed & Et & ->).
    pose proof (PTE_IDX_range va). rewrite page_number by done. lia.
Qed.

(** A machine with 32 MB: the BIOS's answer at 0xb00, the rest zero. *)
Definition example_loader : mmu := Mmu {[ 0xb00 := 0x2000000 ]} 0.

Lemma example_loader_words : map_Forall (fun _ v => is_u32 v) (ram example_loader).
Proof. apply map_Forall_singleton. unfold is_u32. lia. Qed.

Lemma example_loader_zero a : 0x101400 <= a < 0x200000 -> a mod 4 = 0 -> ram_word example_loader a = 0.
Proof. intros Ha _. unfold ram_word. simpl. by rewrite lookup_singleton_ne by lia. Qed.

Lemma setup_page_correct_witness :
  exists m', (setup_page ;;; load_cr3) example_loader = Ok (tt, m') /\ boot_tables m' /\ load 0xb00 m' = Ok (0x2000000, m').
Proof.
  destruct (setup_page_correct example_loader example_loader_words example_loader_zero) as (m' & E & Hb & Hl & _).
  exists m'. split; [exact E|]. split; [exact Hb|]. apply Hl; done.
Defined.

(** The machine as the kernel finds it. *)
Definition example_machine : mmu :=
  match (setup_page ;;; load_cr3) example_loader with Ok (_, m) => m | _ => example_loader end.

Lemma example_machine_ok : boot_tables example_machine /\ load 0xb00 example_machine = Ok (0x2000000, example_machine).
Proof.
  destruct (wp_ok_inv _ _ _ (loader_ok example_loader example_loader_words example_loader_zero)) as ([] & m & E & Ht & R).
  unfold example_machine. rewrite E. split; [by apply loader_boot_tables|].
  unfold load. rewrite (loader_translate m Ht 0xb00 0xb00) by (lia || by left). by rewrite R by lia.
Qed.
