(* ===== verification/LoadKernel.v ===== *)
(** * From the disk to the kernel: boot/mbr.S, boot/loader.S

    The boot sector reads the loader, the loader asks the BIOS for the memory
    map, reads the kernel's file, builds the page tables ([Loader]), switches
    paging on and copies the segments of the file to their addresses.  The words
    that calls push on the stack are not part of the modelled memory. *)
From stdpp Require Import base numbers list gmap fin_maps.
From Stdlib Require Import ZArith Lia.
From S2P Require Import Prelude Globals Bitmap Paging PageAlloc PageInit Loader.

(** ** boot.inc *)
Definition LOADER_BASE_ADDR : Z := 0x900.
Definition LOADER_START_SECTOR : Z := 2.
Definition KERNEL_START_SECTOR : Z := 9.
Definition KERNEL_BIN_BASE_ADDR : Z := 0x70000.
Definition KERNEL_ENTRY_POINT : Z := 0xc0001500.
Definition PT_NULL : Z := 0.

(** ** Physical memory by bytes *)
Definition word_byte (w k : Z) : Z := Z.land (Z.shiftr w (8 * k)) 0xff.
Definition word_set_byte (w k b : Z) : Z :=
  Z.lor (Z.ldiff w (Z.shiftl 0xff (8 * k))) (Z.shiftl (u8 b) (8 * k)).

Definition ram_byte (m : mmu) (pa : Z) : Z := word_byte (ram_word m (pa - pa mod 4)) (pa mod 4).
Definition ram_set_byte (pa b : Z) (m : mmu) : mmu :=
  ram_store (pa - pa mod 4) (word_set_byte (ram_word m (pa - pa mod 4)) (pa mod 4) b) m.

Lemma byte_bits v i : 0 <= i -> Z.testbit (Z.land v 0xff) i = (i <? 8) && Z.testbit v i.
Proof.
  intros Hi. rewrite Z.land_spec, andb_comm. f_equal. change 0xff with (Z.ones 8).
  destruct (Z.ltb_spec i 8); [by apply Z.ones_spec_low | by apply Z.ones_spec_high].
Qed.

Lemma u8_land b : u8 b = Z.land b 0xff.
Proof. unfold u8. change 0xff with (Z.ones 8). by rewrite Z.land_ones. Qed.

Lemma word_byte_u8 w k : is_u8 (word_byte w k).
Proof. unfold word_byte. rewrite <- u8_land. apply u8_range. Qed.

Lemma word_set_byte_bits w k b i : 0 <= k -> 0 <= i ->
  Z.testbit (word_set_byte w k b) i = if (8 * k <=? i) && (i <? 8 * k + 8) then Z.testbit b (i - 8 * k) else Z.testbit w i.
Proof.
  intros Hk Hi. unfold word_set_byte. rewrite Z.lor_spec, Z.ldiff_spec, u8_land. destruct (Z.leb_spec (8 * k) i).
  - rewrite !Z.shiftl_spec_high, byte_bits by lia. change 0xff with (Z.ones 8).
    destruct (Z.ltb_spec i (8 * k + 8)); cbn [andb].
    + rewrite Z.ones_spec_low by lia. destruct (Z.ltb_spec (i - 8 * k) 8); [|lia]. by rewrite andb_false_r.
    + rewrite Z.ones_spec_high by lia. destruct (Z.ltb_spec (i - 8 * k) 8); [lia|]. by rewrite andb_true_r, orb_false_r.
  - rewrite !Z.shiftl_spec_low by lia. by rewrite andb_true_r, orb_false_r.
Qed.

Lemma word_byte_set w k b j : 0 <= k -> 0 <= j ->
  word_byte (word_set_byte w k b) j = if j =? k then u8 b else word_byte w j.
Proof.
  intros Hk Hj. apply Z.bits_inj'. intros i Hi. unfold word_byte.
  rewrite byte_bits, Z.shiftr_spec, word_set_byte_bits by lia.
  destruct (Z.eqb_spec j k) as [->|Hne].
  - rewrite u8_land, byte_bits by done. destruct (Z.ltb_spec i 8); [|done].
    destruct (Z.leb_spec (8 * k) (i + 8 * k)), (Z.ltb_spec (i + 8 * k) (8 * k + 8)); try lia. simpl. f_equal. lia.
  - rewrite byte_bits, Z.shiftr_spec by done. destruct (Z.ltb_spec i 8); [|done].
    destruct (Z.leb_spec (8 * k) (i + 8 * j)), (Z.ltb_spec (i + 8 * j) (8 * k + 8)); try lia; done.
Qed.

Lemma word_set_byte_u32 w k b : is_u32 w -> 0 <= k < 4 -> is_u32 (word_set_byte w k b).
Proof.
  intros Hw Hk. assert (0 <= word_set_byte w k b) as H0.
  { unfold word_set_byte. apply Z.lor_nonneg. split; [apply Z.ldiff_nonneg; unfold is_u32 in *; lia|].
    apply Z.shiftl_nonneg. destruct (u8_range b). done. }
  split; [done|]. apply (below_pow2 _ 32); [lia | done |]. intros i Hi. rewrite word_set_byte_bits by lia.
  destruct (Z.leb_spec (8 * k) i), (Z.ltb_spec i (8 * k + 8)); try lia; apply (testbit_high _ 32); unfold is_u32 in Hw; lia.
Qed.

(** A word is its four bytes. *)
Lemma word_bytes w : is_u32 w ->
  w = word_byte w 0 + 256 * word_byte w 1 + 65536 * word_byte w 2 + 16777216 * word_byte w 3.
Proof.
  intros Hw. unfold word_byte. rewrite <- !u8_land. unfold u8, is_u32 in *. rewrite !Z.shiftr_div_pow2 by lia.
  change (2 ^ (8 * 0)) with 1. change (2 ^ (8 * 1)) with 256. change (2 ^ (8 * 2)) with 65536. change (2 ^ (8 * 3)) with 16777216.
  change 0x100 with 256. rewrite Z.div_1_r. change 65536 with (256 * 256) at 2. change 16777216 with (256 * (256 * 256)) at 2.
  rewrite <- !Z.div_div by lia. pose proof (Z.div_mod w 256). pose proof (Z.div_mod (w / 256) 256).
  pose proof (Z.div_mod (w / 256 / 256) 256). rewrite (Z.mod_small (w / 256 / 256 / 256)); [lia|].
  rewrite !Z.div_div by lia. split; [apply Z.div_pos; lia | apply Z.div_lt_upper_bound; lia].
Qed.

Definition words_ok (m : mmu) : Prop := map_Forall (fun _ v => is_u32 v) (ram m).

Lemma ram_set_byte_words pa b m : words_ok m -> words_ok (ram_set_byte pa b m).
Proof. intros Hm. apply words_store; [done|]. apply word_set_byte_u32; [by apply ram_word_u32|]. by apply Z.mod_pos_bound. Qed.

Lemma ram_byte_set pa b m pa' : ram_byte (ram_set_byte pa b m) pa' = if pa' =? pa then u8 b else ram_byte m pa'.
Proof.
  pose proof (Z.mod_pos_bound pa 4). pose proof (Z.mod_pos_bound pa' 4).
  unfold ram_byte, ram_set_byte. rewrite ram_word_store. destruct (Z.eqb_spec (pa' - pa' mod 4) (pa - pa mod 4)) as [E|E].
  - rewrite word_byte_set, E by lia. destruct (Z.eqb_spec (pa' mod 4) (pa mod 4)), (Z.eqb_spec pa' pa); lia || done.
  - destruct (Z.eqb_spec pa' pa) as [->|]; done.
Qed.

Lemma ram_byte_u8 m pa : is_u8 (ram_byte m pa).
Proof. apply word_byte_u8. Qed.

(** ** The drive: reading in LBA mode by programmed I/O

    [sector] is the medium, by 16-bit words.  Before it delivers sector [k] of
    a command the drive is busy for [latency k] accesses to its registers; what
    the data register holds meanwhile is [noise]. *)
Class Drive := { sector : Z -> Z -> Z; latency : Z -> nat; noise : Z }.

Record ata := Ata { a_count : Z; a_lba0 : Z; a_lba1 : Z; a_lba2 : Z; a_dev : Z;
  a_start : Z; a_pos : Z; a_end : Z; a_busy : nat }.

Section Ports.
Context `{!Drive}.

Definition ata_command (al : Z) (d : ata) : ata :=
  if (al =? 0x20) && Z.testbit (a_dev d) 6 then
    Ata (a_count d) (a_lba0 d) (a_lba1 d) (a_lba2 d) (a_dev d)
      (a_lba0 d + 0x100 * a_lba1 d + 0x10000 * a_lba2 d + 0x1000000 * Z.land (a_dev d) 0x0f)
      0 (256 * (if a_count d =? 0 then 256 else a_count d)) (latency 0)
  else d.

Definition ata_out (port al : Z) : M ata unit := modify (fun d =>
  let '(Ata c l0 l1 l2 dv st ps en bs) := d in
  if port =? 0x1f2 then Ata al l0 l1 l2 dv st ps en bs
  else if port =? 0x1f3 then Ata c al l1 l2 dv st ps en bs
  else if port =? 0x1f4 then Ata c l0 al l2 dv st ps en bs
  else if port =? 0x1f5 then Ata c l0 l1 al dv st ps en bs
  else if port =? 0x1f6 then Ata c l0 l1 l2 al st ps en bs
  else if port =? 0x1f7 then ata_command al d
  else d).

Definition busy (d : ata) (n : nat) : ata :=
  Ata (a_count d) (a_lba0 d) (a_lba1 d) (a_lba2 d) (a_dev d) (a_start d) (a_pos d) (a_end d) n.

(** The status: busy (bit 7), or ready, with data to deliver (bit 3). *)
Definition ata_status : M ata Z := fun d =>
  match a_busy d with
  | S n => Ok (0x80, busy d n)
  | O => Ok (if a_pos d <? a_end d then 0x58 else 0x50, d)
  end.

Definition ata_data : M ata Z := fun d =>
  match a_busy d with
  | S n => Ok (noise, busy d n)
  | O =>
      if a_pos d <? a_end d then
        let pos := a_pos d + 1 in
        Ok (sector (a_start d + a_pos d / 256) (a_pos d mod 256),
            Ata (a_count d) (a_lba0 d) (a_lba1 d) (a_lba2 d) (a_dev d) (a_start d) pos (a_end d)
              (if pos mod 256 =? 0 then latency (pos / 256) else O))
      else Ok (noise, d)
  end.
End Ports.

(** ** The machine before the kernel runs

    Memory and page tables, whether paging is on, the GDTR, the stack pointer
    and the drive. *)
Record pc := Pc { p_mem : mmu; p_paging : bool; p_gdtr : Z * Z; p_esp : Z; p_disk : ata }.

Definition pmem : lens pc mmu.
Proof.
  refine {| view := p_mem; put := fun m s => Pc m (p_paging s) (p_gdtr s) (p_esp s) (p_disk s) |}; by intros; try destruct s.
Defined.

Definition pdisk : lens pc ata.
Proof.
  refine {| view := p_disk; put := fun d s => Pc (p_mem s) (p_paging s) (p_gdtr s) (p_esp s) d |}; by intros; try destruct s.
Defined.

(** The physical address the processor uses; a page fault is a fault. *)
Definition physical (a : Z) : M pc Z := fun s =>
  if p_paging s then match translate (p_mem s) a with Some pa => Ok (pa, s) | None => Fault end else Ok (a, s).

Definition load_byte (a : Z) : M pc Z :=
  pa ← physical (u32 a); gets (fun s => ram_byte (p_mem s) pa).

Definition store_byte (a b : Z) : M pc unit :=
  pa ← physical (u32 a); zoom pmem (modify (ram_set_byte pa b)).

Definition load_word16 (a : Z) : M pc Z :=
  b0 ← load_byte a; b1 ← load_byte (a + 1); mret (b0 + 0x100 * b1).

Definition load_dword (a : Z) : M pc Z :=
  w0 ← load_word16 a; w1 ← load_word16 (a + 2); mret (w0 + 0x10000 * w1).

Definition store_word16 (a v : Z) : M pc unit :=
  store_byte a (word_byte v 0) ;;; store_byte (a + 1) (word_byte v 1).

Definition store_dword (a v : Z) : M pc unit :=
  store_word16 a v ;;; store_word16 (a + 2) (Z.shiftr v 16).

(** How often a loop runs that ends with [loop]: the counter is decremented
    before it is tested. *)
Definition loop_count (c width : Z) : nat := Z.to_nat (if c =? 0 then 2 ^ width else c).

(** ** Reading sectors: rd_disk_m_16 (mbr.S), rd_disk_m_32 (loader.S) *)
Section Code.
Context `{!Drive}.

(** The first three steps, which both have. *)
Definition issue_read (eax cl : Z) : M pc unit :=
  zoom pdisk (ata_out 0x1f2 cl) ;;;
  zoom pdisk (ata_out 0x1f3 (u8 eax)) ;;;
  let eax := Z.shiftr eax 8 in
  zoom pdisk (ata_out 0x1f4 (u8 eax)) ;;;
  let eax := Z.shiftr eax 8 in
  zoom pdisk (ata_out 0x1f5 (u8 eax)) ;;;
  let eax := Z.shiftr eax 8 in
  let al := Z.lor (Z.land (u8 eax) 0x0f) 0xe0 in
  zoom pdisk (ata_out 0x1f6 al) ;;;
  zoom pdisk (ata_out 0x1f7 0x20).

(** The fuel is the number of times the status may be read. *)
Fixpoint not_ready (fuel : nat) : M pc unit :=
  match fuel with
  | O => nofuel
  | S fuel' =>
      al ← zoom pdisk ata_status;
      if Z.land al 0x88 =? 0x08 then mret tt else not_ready fuel'
  end.

Definition rd_disk_m_16 (fuel : nat) (eax bx cx : Z) : M pc unit :=
  issue_read eax (u8 cx) ;;;
  not_ready fuel ;;;
  let cx := u16 (cx * 256) in
  for_loop (loop_count cx 16) 0 (fun i =>
    ax ← zoom pdisk ata_data;
    store_word16 (u16 (bx + 2 * i)) ax).

(** [mov cx, ax] leaves the upper half of [ecx]. *)
Definition rd_disk_m_32 (fuel : nat) (eax ebx ecx : Z) : M pc unit :=
  issue_read eax (u8 ecx) ;;;
  not_ready fuel ;;;
  let ecx := Z.lor (Z.ldiff ecx 0xffff) (u16 (u16 ecx * 256)) in
  for_loop (loop_count ecx 32) 0 (fun i =>
    ax ← zoom pdisk ata_data;
    store_word16 (ebx + 2 * i) ax).

(** *** mbr.S: the screen is cleared, the loader read and entered *)
Definition mbr (fuel : nat) : M pc Z :=
  rd_disk_m_16 fuel LOADER_START_SECTOR LOADER_BASE_ADDR 4 ;;;
  mret (LOADER_BASE_ADDR + 0x300).

(** ** The size of the memory: loader_start (loader.S) *)
Definition total_mem_bytes : Z := LOADER_BASE_ADDR + 0x200.
Definition gdt_ptr : Z := total_mem_bytes + 4.
Definition ards_buf : Z := gdt_ptr + 6.
Definition ards_nr : Z := ards_buf + 244.

(** An entry of the memory map. *)
Record ards := Ards { base_add_low : Z; base_add_high : Z; length_low : Z; length_high : Z; ards_type : Z }.

(** [int 0x15] stores the next entry. *)
Definition int_0x15 (e : ards) (di : Z) : M pc unit :=
  store_dword di (base_add_low e) ;;;
  store_dword (di + 4) (base_add_high e) ;;;
  store_dword (di + 8) (length_low e) ;;;
  store_dword (di + 12) (length_high e) ;;;
  store_dword (di + 16) (ards_type e).

(** The entries of the BIOS, one per round until [ebx] is zero. *)
Fixpoint e820_mem_get_loop (map : list ards) (di : Z) : M pc unit :=
  match map with
  | [] => mret tt
  | e :: map' =>
      int_0x15 e di ;;;
      nr ← load_word16 ards_nr;
      store_word16 ards_nr (u16 (nr + 1)) ;;;
      e820_mem_get_loop map' (u16 (di + 20))
  end.

Fixpoint find_max_mem_area (n : nat) (ebx edx : Z) : M pc Z :=
  match n with
  | O => mret edx
  | S n' =>
      base ← load_dword ebx;
      len ← load_dword (ebx + 8);
      let eax := u32 (base + len) in
      find_max_mem_area n' (u32 (ebx + 20)) (if s32 eax <=? s32 edx then edx else eax)
  end.

Definition mem_get (map : list ards) : M pc unit :=
  e820_mem_get_loop map ards_buf ;;;
  cx ← load_word16 ards_nr;
  edx ← find_max_mem_area (loop_count cx 16) ards_buf 0;
  store_dword total_mem_bytes edx.

(** ** The kernel's file: kernel_init, mem_cpy (loader.S) *)
Definition mem_cpy (dst src size : Z) : M pc unit :=
  for_loop (Z.to_nat size) 0 (fun i => b ← load_byte (src + i); store_byte (dst + i) b).

Fixpoint each_segment (n : nat) (ebx edx : Z) : M pc unit :=
  match n with
  | O => mret tt
  | S n' =>
      p_type ← load_byte (ebx + 0);
      (if p_type =? PT_NULL then mret tt
       else
         p_filesz ← load_dword (ebx + 16);
         p_offset ← load_dword (ebx + 4);
         p_vaddr ← load_dword (ebx + 8);
         mem_cpy p_vaddr (u32 (p_offset + KERNEL_BIN_BASE_ADDR)) p_filesz) ;;;
      each_segment n' (u32 (ebx + edx)) edx
  end.

Definition kernel_init : M pc unit :=
  dx ← load_word16 (KERNEL_BIN_BASE_ADDR + 42);
  ebx ← load_dword (KERNEL_BIN_BASE_ADDR + 28);
  let ebx := u32 (ebx + KERNEL_BIN_BASE_ADDR) in
  cx ← load_word16 (KERNEL_BIN_BASE_ADDR + 44);
  each_segment (loop_count cx 32) ebx dx.

(** ** Protected mode (loader.S) *)
Definition LOADER_STACK_TOP : Z := LOADER_BASE_ADDR.

Definition set_esp (v : Z) : M pc unit :=
  modify (fun s => Pc (p_mem s) (p_paging s) (p_gdtr s) v (p_disk s)).

Definition sgdt (a : Z) : M pc unit :=
  r ← gets p_gdtr; store_word16 a (fst r) ;;; store_dword (a + 2) (snd r).

(** With 16-bit operands [lgdt] takes 24 bits of the base. *)
Definition lgdt (base_bits a : Z) : M pc unit :=
  limit ← load_word16 a;
  base ← load_dword (a + 2);
  modify (fun s => Pc (p_mem s) (p_paging s) (limit, Z.land base (Z.ones base_bits)) (p_esp s) (p_disk s)).

Definition enable_paging : M pc unit :=
  modify (fun s => Pc (p_mem s) true (p_gdtr s) (p_esp s) (p_disk s)).

(** [gs:160]; the segment starts at 0xb8000. *)
Definition mark (c : Z) : M pc unit := store_byte (0xb8000 + 160) c.

(** The GDT, and in it the segment of the display, move to the kernel's part. *)
Definition move_gdt : M pc unit :=
  sgdt gdt_ptr ;;;
  ebx ← load_dword (gdt_ptr + 2);
  high ← load_dword (ebx + 0x18 + 4);
  store_dword (ebx + 0x18 + 4) (Z.lor high 0xc0000000) ;;;
  base ← load_dword (gdt_ptr + 2);
  store_dword (gdt_ptr + 2) (u32 (base + 0xc0000000)).

(** The result is where it jumps to. *)
Definition p_mode_start (fuel : nat) : M pc Z :=
  set_esp LOADER_STACK_TOP ;;;
  mark 80 ;;;
  rd_disk_m_32 fuel KERNEL_START_SECTOR KERNEL_BIN_BASE_ADDR 200 ;;;
  zoom pmem setup_page ;;;
  move_gdt ;;;
  esp ← gets p_esp;
  set_esp (u32 (esp + 0xc0000000)) ;;;
  zoom pmem load_cr3 ;;;
  enable_paging ;;;
  lgdt 32 gdt_ptr ;;;
  mark 87 ;;;
  kernel_init ;;;
  set_esp 0xc009f000 ;;;
  mret KERNEL_ENTRY_POINT.

(** From [loader_start] on; the A20 gate and CR0.PE are not modelled. *)
Definition loader_start (map : list ards) (fuel : nat) : M pc Z :=
  mem_get map ;;;
  lgdt 24 gdt_ptr ;;;
  p_mode_start fuel.

(** The boot sector enters the loader behind [ards_nr]. *)
Definition boot (map : list ards) (fuel : nat) : M pc Z :=
  entry ← mbr fuel;
  if entry =? ards_nr + 2 then loader_start map fuel else fault.
End Code.

(** ** Memory as a function from addresses to bytes *)
Definition byte (s : pc) (a : Z) : Z := ram_byte (p_mem s) a.

Definition le16 (f : Z -> Z) (a : Z) : Z := f a + 0x100 * f (a + 1).
Definition le32 (f : Z -> Z) (a : Z) : Z := le16 f a + 0x10000 * le16 f (a + 2).

(** The [n] lowest bytes of [v] at [a]. *)
Definition put_le (n a v : Z) (f : Z -> Z) : Z -> Z :=
  fun x => if (a <=? x) && (x <? a + n) then word_byte v (x - a) else f x.

Lemma le32_put a v f : is_u32 v -> le32 (put_le 4 a v f) a = v.
Proof.
  intros Hv. unfold le32, le16, put_le. rewrite !(proj2 (Z.leb_le _ _)), !(proj2 (Z.ltb_lt _ _)) by lia. cbn [andb].
  replace (a - a) with 0 by lia. replace (a + 1 - a) with 1 by lia.
  replace (a + 2 - a) with 2 by lia. replace (a + 2 + 1 - a) with 3 by lia. pose proof (word_bytes v Hv). lia.
Qed.

Lemma le16_put a v f : is_u16 v -> le16 (put_le 2 a v f) a = v.
Proof.
  intros Hv. unfold le16, put_le. rewrite !(proj2 (Z.leb_le _ _)), !(proj2 (Z.ltb_lt _ _)) by lia. cbn [andb].
  replace (a - a) with 0 by lia. replace (a + 1 - a) with 1 by lia.
  unfold word_byte. rewrite <- !u8_land. unfold u8, is_u16 in *. rewrite !Z.shiftr_div_pow2 by lia.
  change (2 ^ (8 * 0)) with 1. change (2 ^ (8 * 1)) with 256. change 0x100 with 256. rewrite Z.div_1_r.
  pose proof (Z.div_mod v 256). rewrite (Z.mod_small (v / 256)); [lia|].
  split; [apply Z.div_pos; lia | apply Z.div_lt_upper_bound; lia].
Qed.

Lemma le16_ext f g a : (forall x, a <= x < a + 2 -> f x = g x) -> le16 f a = le16 g a.
Proof. intros H. unfold le16. by rewrite !H by lia. Qed.

Lemma le32_ext f g a : (forall x, a <= x < a + 4 -> f x = g x) -> le32 f a = le32 g a.
Proof. intros H. unfold le32. rewrite !(le16_ext f g) by (intros; apply H; lia). done. Qed.

Lemma byte_u8 s a : is_u8 (byte s a).
Proof. apply ram_byte_u8. Qed.

Lemma le16_u16 s a : is_u16 (le16 (byte s) a).
Proof. pose proof (byte_u8 s a). pose proof (byte_u8 s (a + 1)). unfold le16, is_u8, is_u16 in *. lia. Qed.

Lemma le32_u32 s a : is_u32 (le32 (byte s) a).
Proof. pose proof (le16_u16 s a). pose proof (le16_u16 s (a + 2)). unfold le32, is_u16, is_u32 in *. lia. Qed.

Lemma word_byte_shift v k : 0 <= k -> word_byte (Z.shiftr v 16) k = word_byte v (k + 2).
Proof. intros Hk. unfold word_byte. rewrite Z.shiftr_shiftr by lia. do 2 f_equal. lia. Qed.

(** An aligned word is its bytes. *)
Lemma ram_word_le32 m a : words_ok m -> a mod 4 = 0 -> ram_word m a = le32 (ram_byte m) a.
Proof.
  intros Hm Ha. rewrite (word_bytes (ram_word m a)) by (by apply ram_word_u32).
  assert (forall k, 0 <= k < 4 -> ram_byte m (a + k) = word_byte (ram_word m a) k) as H.
  { intros k Hk. unfold ram_byte. assert ((a + k) mod 4 = k) as -> by (pose proof (Z.div_mod a 4); symmetry; apply (Z.mod_unique _ _ (a / 4)); lia).
    by replace (a + k - k) with a by lia. }
  unfold le32, le16. rewrite <- !Z.add_assoc, !H by lia. pose proof (H 0 ltac:(lia)) as H0. rewrite Z.add_0_r in H0. rewrite H0. 
  change (2 + 1) with 3. lia.
Qed.

Lemma ram_word_same m m' a :
  words_ok m -> words_ok m' -> a mod 4 = 0 -> (forall x, a <= x < a + 4 -> ram_byte m' x = ram_byte m x) -> ram_word m' a = ram_word m a.
Proof. intros Hm Hm' Ha H. rewrite !ram_word_le32 by done. by apply le32_ext. Qed.

Lemma ram_byte_same m m' a : ram_word m' (a - a mod 4) = ram_word m (a - a mod 4) -> ram_byte m' a = ram_byte m a.
Proof. unfold ram_byte. by intros ->. Qed.

(** ** Access to the first megabyte *)
Record good (s : pc) : Prop := {
  g_words : words_ok (p_mem s);
  g_tables : p_paging s = true -> loader_tables (p_mem s);
}.

(** [a] is an address of the byte [pa]. *)
Definition maps (s : pc) (a pa : Z) : Prop := 0 <= pa < 0x100000 /\ (a = pa \/ (p_paging s = true /\ a = 0xc0000000 + pa)).

(** Nothing but bytes of memory (and the drive) has changed: they are [f]. *)
Record wrote (f : Z -> Z) (s s' : pc) : Prop := {
  wr_good : good s';
  wr_paging : p_paging s' = p_paging s;
  wr_gdtr : p_gdtr s' = p_gdtr s;
  wr_esp : p_esp s' = p_esp s;
  wr_bytes : forall a, byte s' a = f a;
}.

Lemma wrote_trans f g s s1 s2 : wrote f s s1 -> wrote g s1 s2 -> wrote g s s2.
Proof. intros [G1 P1 R1 E1 B1] [G2 P2 R2 E2 B2]. split; [done|congruence..|done]. Qed.

Lemma wrote_ext f g s s' : wrote f s s' -> (forall a, f a = g a) -> wrote g s s'.
Proof. intros [G P R E B] H. split; try done. intros a. by rewrite B. Qed.

Lemma wrote_refl s : good s -> wrote (byte s) s s.
Proof. by intros. Qed.

Lemma maps_wrote f s s' a pa : wrote f s s' -> maps s' a pa <-> maps s a pa.
Proof. intros W. unfold maps. by rewrite (wr_paging _ _ _ W). Qed.

Lemma loader_tables_same m m' :
  loader_tables m -> words_ok m' -> cr3 m' = cr3 m -> (forall a, 0x100000 <= a -> ram_byte m' a = ram_byte m a) -> loader_tables m'.
Proof.
  intros [W C D L R] W' C' B.
  assert (forall a, 0x100000 <= a -> a mod 4 = 0 -> ram_word m' a = ram_word m a) as H.
  { intros a Ha Hal. apply ram_word_same; [done..|]. intros x Hx. apply B. lia. }
  split; [done | by rewrite C' | ..].
  - intros i Hi. rewrite H; [by apply D | lia |]. apply Z.mod_divide; [done|]. exists (0x40000 + i). lia.
  - intros i Hi. rewrite H; [by apply L | lia |]. apply Z.mod_divide; [done|]. exists (0x40400 + i). lia.
  - intros a Ha Hal. rewrite H; [by apply R | lia | done].
Qed.

Lemma physical_ok s a pa : good s -> maps s a pa -> physical (u32 a) s = Ok (pa, s).
Proof.
  intros [W T] [Hpa Ha]. assert (is_u32 a) by (unfold is_u32; lia). rewrite u32_id by done. unfold physical.
  destruct (p_paging s) eqn:E.
  - by rewrite (loader_translate _ (T eq_refl) pa a) by (done || tauto).
  - by destruct Ha as [-> | [? _]].
Qed.

Lemma load_byte_ok s a pa : good s -> maps s a pa -> load_byte a s = Ok (byte s pa, s).
Proof. intros Hs Ha. unfold load_byte. by erewrite bind_ok by (by apply physical_ok). Qed.

Lemma store_byte_ok s a pa b : good s -> maps s a pa -> wp (store_byte a b) s (fun _ s' =>
  wrote (fun x => if x =? pa then u8 b else byte s x) s s').
Proof.
  intros Hs Ha. unfold store_byte. apply wp_bind. eapply wp_ok; [by apply physical_ok|].
  apply wp_zoom, wp_modify. split; try done; simpl.
  - split; simpl; [by apply ram_set_byte_words, Hs|]. intros Hp. apply (loader_tables_same (p_mem s)); [by apply Hs | by apply ram_set_byte_words, Hs | done |].
    intros x Hx. rewrite ram_byte_set. destruct (Z.eqb_spec x pa) as [->|]; [|done]. destruct Ha. lia.
  - intros x. unfold byte. simpl. apply ram_byte_set.
Qed.

Lemma maps_add s a pa i : maps s a pa -> 0 <= i -> pa + i < 0x100000 -> maps s (a + i) (pa + i).
Proof. intros [? Ha] ? ?. split; [lia|]. destruct Ha as [-> | [? ->]]; [left | right]; lia || (split; [done | lia]). Qed.

Lemma load_word16_ok s a pa : good s -> maps s a pa -> pa + 1 < 0x100000 -> load_word16 a s = Ok (le16 (byte s) pa, s).
Proof.
  intros Hs Ha Hb. unfold load_word16. erewrite bind_ok by (by apply load_byte_ok).
  erewrite bind_ok by (apply (load_byte_ok s (a + 1) (pa + 1)); [done | by apply maps_add]). done.
Qed.

Lemma load_dword_ok s a pa : good s -> maps s a pa -> pa + 3 < 0x100000 -> load_dword a s = Ok (le32 (byte s) pa, s).
Proof.
  intros Hs Ha Hb. unfold load_dword. erewrite bind_ok by (apply load_word16_ok; [done.. | lia]).
  erewrite bind_ok by (apply (load_word16_ok s (a + 2) (pa + 2)); [done | apply maps_add; (done || lia) | lia]). done.
Qed.

Lemma store_word16_ok s a pa v : good s -> maps s a pa -> pa + 1 < 0x100000 ->
  wp (store_word16 a v) s (fun _ s' => wrote (put_le 2 pa v (byte s)) s s').
Proof.
  intros Hs Ha Hb. unfold store_word16. apply wp_bind. eapply wp_mono; [by apply store_byte_ok|]. intros [] s1 W1.
  eapply wp_mono.
  { apply (store_byte_ok s1 (a + 1) (pa + 1)); [apply W1|]. apply (maps_wrote _ _ _ _ _ W1). by apply maps_add. }
  intros [] s2 W2. eapply wrote_trans; [exact W1|]. eapply wrote_ext; [exact W2|]. intros x. cbv beta.
  rewrite (wr_bytes _ _ _ W1). unfold put_le. rewrite !u8_id by apply word_byte_u8.
  repeat case_match; b2p; subst; try lia; try done; f_equal; lia.
Qed.

(** A store does not use the drive. *)
Lemma store_byte_disk a b s s' : store_byte a b s = Ok (tt, s') -> p_disk s' = p_disk s.
Proof.
  unfold store_byte, physical, mbind, M_bind. simpl. destruct (p_paging s); [destruct (translate _ _); [|done]|]; by intros [= <-].
Qed.

Lemma store_word16_disk a v s s' : store_word16 a v s = Ok (tt, s') -> p_disk s' = p_disk s.
Proof.
  unfold store_word16, mbind at 1, M_bind at 1. destruct (store_byte a _ s) as [[[] s1]| | | | |] eqn:E; try done. simpl.
  intros E2. apply store_byte_disk in E, E2. congruence.
Qed.

Lemma store_dword_ok s a pa v : good s -> maps s a pa -> pa + 3 < 0x100000 ->
  wp (store_dword a v) s (fun _ s' => wrote (put_le 4 pa v (byte s)) s s').
Proof.
  intros Hs Ha Hb. unfold store_dword. apply wp_bind. eapply wp_mono; [apply store_word16_ok; [done.. | lia]|]. intros [] s1 W1.
  eapply wp_mono.
  { apply (store_word16_ok s1 (a + 2) (pa + 2)); [apply W1 | | lia]. apply (maps_wrote _ _ _ _ _ W1). apply maps_add; (done || lia). }
  intros [] s2 W2. eapply wrote_trans; [exact W1|]. eapply wrote_ext; [exact W2|]. intros x. unfold put_le at 1.
  rewrite (wr_bytes _ _ _ W1). unfold put_le.
  destruct (Z.leb_spec (pa + 2) x), (Z.ltb_spec x (pa + 2 + 2)), (Z.leb_spec pa x), (Z.ltb_spec x (pa + 2)), (Z.ltb_spec x (pa + 4)); try lia; cbn [andb]; try done.
  rewrite word_byte_shift by lia. f_equal. lia.
Qed.

Lemma loop_count_pos c width : 0 < c -> loop_count c width = Z.to_nat c.
Proof. intros Hc. unfold loop_count. by rewrite (proj2 (Z.eqb_neq c 0)) by lia. Qed.

(** The result together with the run. *)
Lemma wp_run {St A} (m : M St A) s (Q : A -> St -> Prop) : wp m s Q -> wp m s (fun a s' => Q a s' /\ m s = Ok (a, s')).
Proof. unfold wp. destruct (m s) as [[]| | | | |]; auto. Qed.

(** ** Reading sectors *)
Section ReadProofs.
Context `{!Drive}.

(** The medium from the start of a sector on, by words and by bytes. *)
Definition disk_word (lba k : Z) : Z := sector (lba + k / 256) (k mod 256).
Definition disk_byte (lba j : Z) : Z := word_byte (disk_word lba (j / 2)) (j mod 2).

(** The drive has the sectors from [lba] to deliver, [k] words are gone. *)
Definition reading (lba n k : Z) (b : nat) (d : ata) : Prop :=
  a_start d = lba /\ a_pos d = k /\ a_end d = 256 * n /\ a_busy d = b.

(** Only the drive has changed. *)
Definition drove (s s' : pc) : Prop :=
  p_mem s' = p_mem s /\ p_paging s' = p_paging s /\ p_gdtr s' = p_gdtr s /\ p_esp s' = p_esp s.

Lemma drove_good s s' : drove s s' -> good s -> good s'.
Proof. intros (E1 & E2 & _) [W T]. split; rewrite ?E1, ?E2; auto. Qed.

Lemma drove_wrote f s s1 s2 : drove s s1 -> wrote f s1 s2 -> wrote f s s2.
Proof. intros (E1 & E2 & E3 & E4) [G P R E B]. split; try done; congruence. Qed.

Lemma drove_trans s s1 s2 : drove s s1 -> drove s1 s2 -> drove s s2.
Proof. intros (?&?&?&?) (?&?&?&?). repeat split; congruence. Qed.

Lemma device_byte x : 0 <= x < 16 ->
  Z.land (Z.lor (Z.land x 0x0f) 0xe0) 0x0f = x /\ Z.testbit (Z.lor (Z.land x 0x0f) 0xe0) 6 = true.
Proof.
  intros Hx. assert (forallb (fun x => (Z.land (Z.lor (Z.land x 0x0f) 0xe0) 0x0f =? x) && Z.testbit (Z.lor (Z.land x 0x0f) 0xe0) 6)
    (map Z.of_nat (seq 0 16)) = true) as HF by reflexivity.
  rewrite forallb_forall in HF. specialize (HF x). rewrite andb_true_iff, Z.eqb_eq in HF. apply HF.
  apply List.in_map_iff. exists (Z.to_nat x). split; [lia|]. apply List.in_seq. lia.
Qed.

Lemma lba_bytes eax : 0 <= eax < 2 ^ 28 ->
  eax = u8 eax + 0x100 * u8 (Z.shiftr eax 8) + 0x10000 * u8 (Z.shiftr (Z.shiftr eax 8) 8)
        + 0x1000000 * u8 (Z.shiftr (Z.shiftr (Z.shiftr eax 8) 8) 8) /\
  0 <= u8 (Z.shiftr (Z.shiftr (Z.shiftr eax 8) 8) 8) < 16.
Proof.
  intros He. unfold u8. rewrite !Z.shiftr_div_pow2 by lia. change (2 ^ 8) with 256. change 0x100 with 256.
  pose proof (Z.div_mod eax 256). pose proof (Z.div_mod (eax / 256) 256). pose proof (Z.div_mod (eax / 256 / 256) 256).
  assert (0 <= eax / 256 / 256 / 256 < 16) as Hb.
  { rewrite !Z.div_div by lia. split; [apply Z.div_pos; lia | apply Z.div_lt_upper_bound; lia]. }
  rewrite (Z.mod_small (eax / 256 / 256 / 256)) by lia. lia.
Qed.

Lemma issue_read_ok eax cl s : 0 <= eax < 2 ^ 28 -> 1 <= cl < 256 ->
  wp (issue_read eax cl) s (fun _ s' => drove s s' /\ reading eax cl 0 (latency 0) (p_disk s')).
Proof.
  intros He Hc. destruct (lba_bytes eax He) as [El Hd]. destruct (device_byte _ Hd) as [Ed Et].
  unfold issue_read. cbv zeta. destruct s as [m pg r sp [c l0 l1 l2 dv st ps en bs]].
  do 5 (apply wp_bind, wp_zoom, wp_modify). apply wp_zoom, wp_modify.
  cbn -[Z.mul Z.add Z.lor Z.land Z.shiftr u8 Z.testbit]. unfold ata_command. cbn -[Z.mul Z.add Z.lor Z.land Z.shiftr u8 Z.testbit].
  rewrite Et. split; [done|]. unfold reading. cbn -[Z.mul Z.add Z.lor Z.land Z.shiftr u8 Z.testbit].
  rewrite Ed. destruct (Z.eqb_spec cl 0); [lia|]. split; [lia | done].
Qed.

Lemma not_ready_ok fuel lba n b s : (b < fuel)%nat -> 0 < n -> reading lba n 0 b (p_disk s) ->
  wp (not_ready fuel) s (fun _ s' => drove s s' /\ reading lba n 0 0 (p_disk s')).
Proof.
  intros Hf Hn. revert fuel s Hf. induction b as [|b IH]; intros fuel s Hf (E1 & E2 & E3 & E4); (destruct fuel as [|fuel]; [lia|]);
    simpl; apply wp_bind; (eapply wp_ok; [apply zoom_ok; simpl; unfold ata_status; rewrite E4; reflexivity|]).
  - rewrite E2, E3. destruct (Z.ltb_spec 0 (256 * n)); [|lia]. simpl. apply wp_ret. done.
  - simpl. eapply wp_mono; [apply IH; [lia|]; simpl; done|]. intros [] s' [D R]. split; [|done].
    eapply drove_trans; [|exact D]. done.
Qed.

(** The loop over the words. *)
Lemma read_words_ok lba n (addr : Z -> Z) base s :
  (forall k, 0 < k -> latency k = O) -> good s -> reading lba n 0 0 (p_disk s) -> 0 <= base -> 0 <= n -> base + 512 * n <= 0x100000 ->
  (forall i, 0 <= i < 256 * n -> addr i = base + 2 * i) ->
  wp (for_loop (Z.to_nat (256 * n)) 0 (fun i => ax ← zoom pdisk ata_data; store_word16 (addr i) ax)) s (fun _ s' =>
    wrote (fun a => if (base <=? a) && (a <? base + 512 * n) then disk_byte lba (a - base) else byte s a) s s').
Proof.
  intros Hlat Hs Hr Hb0 Hn0 Hb Ha.
  apply (wp_for_loop _ _ _ _ (fun i s' => reading lba n i 0 (p_disk s') /\
    wrote (fun a => if (base <=? a) && (a <? base + 2 * i) then disk_byte lba (a - base) else byte s a) s s')).
  - split; [done|]. eapply wrote_ext; [by apply wrote_refl|]. intros a. by destruct (Z.leb_spec base a), (Z.ltb_spec a (base + 2 * 0)); try lia.
  - intros i s1 Hi [(E1 & E2 & E3 & E4) W]. apply wp_bind.
    eapply wp_ok; [apply zoom_ok; simpl; unfold ata_data; rewrite E4, E2, E3, E1; rewrite (proj2 (Z.ltb_lt i (256 * n))) by lia; reflexivity|].
    rewrite Ha by lia. set (s1' := put pdisk _ _). assert (drove s1 s1') as D by done.
    eapply wp_mono; [apply wp_run, (store_word16_ok s1' (base + 2 * i) (base + 2 * i)); [by apply (drove_good s1), W | split; [lia | by left] | lia]|].
    intros [] s2 [W2 D2]. apply store_word16_disk in D2. split.
    { rewrite D2. unfold s1'. simpl. unfold reading. simpl. split; [done|]. split; [done|]. split; [done|].
      destruct ((i + 1) mod 256 =? 0) eqn:E; [|done]. apply Z.eqb_eq in E. apply Hlat. apply Z.div_str_pos.
      pose proof (Z.div_mod (i + 1) 256). lia. }
    eapply wrote_trans; [exact W|]. eapply wrote_ext; [exact (drove_wrote _ _ _ _ D W2)|]. intros a. unfold put_le.
    change (byte s1' a) with (byte s1 a). rewrite (wr_bytes _ _ _ W). unfold disk_byte.
    destruct (Z.leb_spec (base + 2 * i) a), (Z.ltb_spec a (base + 2 * i + 2)), (Z.leb_spec base a), (Z.ltb_spec a (base + 2 * i)),
      (Z.ltb_spec a (base + 2 * (i + 1))); try lia; cbn [andb]; try done.
    replace ((a - base) / 2) with i by (apply (Z.div_unique _ _ _ (a - (base + 2 * i))); lia).
    f_equal. apply (Z.mod_unique _ _ i); lia.
  - intros s'. intros [_ W]. eapply wrote_ext; [exact W|]. intros a. replace (base + 2 * (0 + Z.of_nat (Z.to_nat (256 * n)))) with (base + 512 * n) by lia. done.
Qed.

(** What the sectors hold, at [base]. *)
Definition with_sectors (lba n base : Z) (f : Z -> Z) : Z -> Z :=
  fun a => if (base <=? a) && (a <? base + 512 * n) then disk_byte lba (a - base) else f a.

(** The drive keeps pace once it has the first sector. *)
Definition keeps_pace : Prop := forall k, 0 < k -> latency k = O.

Lemma rd_disk_ok fuel lba n base cl count (addr : Z -> Z) s :
  keeps_pace -> (latency 0 < fuel)%nat -> good s -> 0 <= lba < 2 ^ 28 -> 1 <= n < 256 -> cl = n -> count = Z.to_nat (256 * n) ->
  0 <= base -> base + 512 * n <= 0x100000 -> (forall i, 0 <= i < 256 * n -> addr i = base + 2 * i) ->
  wp (issue_read lba cl ;;; not_ready fuel ;;; for_loop count 0 (fun i => ax ← zoom pdisk ata_data; store_word16 (addr i) ax)) s
    (fun _ s' => wrote (with_sectors lba n base (byte s)) s s').
Proof.
  intros Hlat Hf Hs Hl Hn -> -> Hb0 Hb Ha. apply wp_bind. eapply wp_mono; [by apply issue_read_ok|]. intros [] s1 [D1 R1].
  apply wp_bind. eapply wp_mono; [apply (not_ready_ok _ lba n _ _ Hf); [lia | done]|]. intros [] s2 [D2 R2].
  pose proof (drove_trans _ _ _ D1 D2) as D. eapply wp_mono.
  { apply (read_words_ok lba n addr base s2); [done | by apply (drove_good s) | done | done | lia | done | done]. }
  intros [] s3 W. eapply wrote_ext; [exact (drove_wrote _ _ _ _ D W)|]. intros a. unfold with_sectors, byte. by rewrite (proj1 D).
Qed.

Lemma rd_disk_m_16_ok fuel lba n base s :
  keeps_pace -> (latency 0 < fuel)%nat -> good s -> 0 <= lba < 2 ^ 28 -> 1 <= n < 256 -> 0 <= base -> base + 512 * n <= 0x10000 ->
  wp (rd_disk_m_16 fuel lba base n) s (fun _ s' => wrote (with_sectors lba n base (byte s)) s s').
Proof.
  intros. unfold rd_disk_m_16. apply (rd_disk_ok _ lba n base); try done; [apply u8_id; unfold is_u8; lia | | lia |].
  - cbv zeta. rewrite u16_id, loop_count_pos by (unfold is_u16; lia). f_equal. lia.
  - intros i Hi. apply u16_id. unfold is_u16. lia.
Qed.

Lemma rd_disk_m_32_ok fuel lba n base s :
  keeps_pace -> (latency 0 < fuel)%nat -> good s -> 0 <= lba < 2 ^ 28 -> 1 <= n < 256 -> 0 <= base -> base + 512 * n <= 0x100000 ->
  wp (rd_disk_m_32 fuel lba base n) s (fun _ s' => wrote (with_sectors lba n base (byte s)) s s').
Proof.
  intros. unfold rd_disk_m_32. apply (rd_disk_ok _ lba n base); try done; [apply u8_id; unfold is_u8; lia |].
  cbv zeta. rewrite !u16_id by (unfold is_u16 in *; try rewrite u16_id; unfold is_u16; lia).
  assert (Z.ldiff n 0xffff = 0) as ->.
  { change 0xffff with (Z.ones 16). rewrite Z.ldiff_ones_r, Z.shiftr_div_pow2, Z.div_small by lia. done. }
  rewrite Z.lor_0_l, loop_count_pos by lia. f_equal. lia.
Qed.
End ReadProofs.

(** ** Copying the segments *)

(** [n] bytes at [dst], from [src]. *)
Definition with_copy (dst src n : Z) (f : Z -> Z) : Z -> Z :=
  fun a => if (dst <=? a) && (a <? dst + n) then f (src + (a - dst)) else f a.

Lemma mem_cpy_ok dst src d n s :
  good s -> maps s dst d -> 0 <= src -> 0 <= n -> d + n <= src -> src + n <= 0x100000 ->
  wp (mem_cpy dst src n) s (fun _ s' => wrote (with_copy d src n (byte s)) s s').
Proof.
  intros Hs Hd Hs0 Hn Hds Hb. unfold mem_cpy.
  apply (wp_for_loop _ _ _ _ (fun i s' => wrote (with_copy d src i (byte s)) s s')).
  - eapply wrote_ext; [by apply wrote_refl|]. intros a. unfold with_copy. by destruct (Z.leb_spec d a), (Z.ltb_spec a (d + 0)); try lia.
  - intros i s1 Hi W. pose proof (proj1 Hd). apply wp_bind.
    eapply wp_ok; [apply (load_byte_ok s1 _ (src + i)); [apply W | split; [lia | by left]]|].
    eapply wp_mono.
    { apply (store_byte_ok s1 (dst + i) (d + i)); [apply W|]. apply (maps_wrote _ _ _ _ _ W). apply maps_add; [done | lia | lia]. }
    intros [] s2 W2. eapply wrote_trans; [exact W|]. eapply wrote_ext; [exact W2|]. intros a. cbv beta.
    rewrite !(wr_bytes _ _ _ W). unfold with_copy.
    destruct (Z.leb_spec d (src + i)), (Z.ltb_spec (src + i) (d + i)); try lia; cbn [andb].
    rewrite (u8_id (byte s (src + i))) by apply byte_u8.
    destruct (Z.eqb_spec a (d + i)) , (Z.leb_spec d a), (Z.ltb_spec a (d + i)), (Z.ltb_spec a (d + (i + 1))); try lia; cbn [andb];
      repeat case_match; b2p; try lia; try done; f_equal; lia.
  - intros s'. by replace (0 + Z.of_nat (Z.to_nat n)) with n by lia.
Qed.

(** *** The kernel's file *)
Record phdr := Phdr { ph_type : Z; ph_offset : Z; ph_vaddr : Z; ph_filesz : Z }.

(** A program header at offset [a] of the file [img]. *)
Definition phdr_at (img : Z -> Z) (a : Z) (p : phdr) : Prop :=
  img a = u8 (ph_type p) /\ le32 img (a + 4) = ph_offset p /\ le32 img (a + 8) = ph_vaddr p /\ le32 img (a + 16) = ph_filesz p.

Fixpoint phdrs_at (img : Z -> Z) (a size : Z) (l : list phdr) : Prop :=
  match l with
  | [] => True
  | p :: l' => phdr_at img a p /\ phdrs_at img (a + size) size l'
  end.

Definition loadable (p : phdr) : Prop := u8 (ph_type p) <> PT_NULL.
#[export] Instance loadable_dec p : Decision (loadable p) := _.

(** Bytes are copied for it: not so for a header like GNU_STACK, whose type is
    not tested but which has none. *)
Definition copied (p : phdr) : Prop := loadable p /\ 0 < ph_filesz p.
#[export] Instance copied_dec p : Decision (copied p) := _.

(** A segment lies in the file, and its place is kernel memory from 0xc0001000,
    above the loader's data, to the copy of the file. *)
Record segment_ok (len : Z) (p : phdr) : Prop := {
  so_offset : 0 <= ph_offset p;
  so_file : ph_offset p + ph_filesz p <= len;
  so_low : 0xc0001000 <= ph_vaddr p;
  so_high : ph_vaddr p + ph_filesz p <= 0xc0070000;
}.

(** An ELF file of at most [len] bytes, as far as the loader looks. *)
Record kernel_file (img : Z -> Z) (len : Z) (l : list phdr) (phoff size : Z) : Prop := {
  kf_phoff : le32 img 28 = phoff;
  kf_size : le16 img 42 = size;
  kf_phnum : le16 img 44 = Z.of_nat (length l);
  kf_some : l <> [];
  kf_headers : phdrs_at img phoff size l;
  kf_pos : 0 <= phoff /\ 20 <= size;
  kf_fits : phoff + size * Z.of_nat (length l) <= len;
  kf_segments : Forall (fun p => copied p -> segment_ok len p) l;
}.

(** Memory after the copies: of two segments that overlap the later one wins. *)
Definition place (p : phdr) (f : Z -> Z) : Z -> Z :=
  if decide (copied p) then with_copy (ph_vaddr p - 0xc0000000) (KERNEL_BIN_BASE_ADDR + ph_offset p) (ph_filesz p) f else f.

Definition place_all (l : list phdr) (f : Z -> Z) : Z -> Z := foldl (fun g p => place p g) f l.

Lemma place_ext p f g : (forall a, f a = g a) -> forall a, place p f a = place p g a.
Proof. intros H a. unfold place, with_copy. destruct (decide _); [|done]. by rewrite !H. Qed.

Lemma place_all_ext l f g : (forall a, f a = g a) -> forall a, place_all l f a = place_all l g a.
Proof. unfold place_all. revert f g. induction l as [|p l IH]; intros f g H; simpl; [done|]. apply IH. by apply place_ext. Qed.

(** The file in memory is not overwritten. *)
Lemma place_file len p f a : (copied p -> segment_ok len p) -> KERNEL_BIN_BASE_ADDR <= a -> place p f a = f a.
Proof.
  intros Hp Ha. unfold place, with_copy. destruct (decide _) as [Hl|]; [|done]. destruct (Hp Hl). unfold KERNEL_BIN_BASE_ADDR in Ha. destruct Hl as [_ Hsz].
  destruct (Z.ltb_spec a (ph_vaddr p - 0xc0000000 + ph_filesz p)); [lia|]. by rewrite andb_false_r.
Qed.

(** Below the loader's end nothing is written either. *)
Lemma place_low len p f a : (copied p -> segment_ok len p) -> a < 0x1000 -> place p f a = f a.
Proof.
  intros Hp Ha. unfold place, with_copy. destruct (decide _) as [Hl|]; [|done]. destruct (Hp Hl).
  destruct (Z.leb_spec (ph_vaddr p - 0xc0000000) a); [lia|done].
Qed.

Lemma phdr_at_memory img len a p f :
  (forall j, 0 <= j < len -> f (KERNEL_BIN_BASE_ADDR + j) = img j) -> 0 <= a -> a + 20 <= len -> phdr_at img a p ->
  phdr_at f (KERNEL_BIN_BASE_ADDR + a) p.
Proof.
  intros Hf Ha Hb (H1 & H2 & H3 & H4). unfold phdr_at.
  assert (forall k, 0 <= k -> a + k + 4 <= len -> le32 f (KERNEL_BIN_BASE_ADDR + a + k) = le32 img (a + k)) as H.
  { intros k Hk Hk'. unfold le32, le16. rewrite <- !Z.add_assoc. rewrite !Hf by lia. by rewrite <- ?Z.add_assoc. }
  rewrite Hf, !H by lia. done.
Qed.

Section Segments.
Variables (img : Z -> Z) (len : Z).
Hypothesis (Hlen : KERNEL_BIN_BASE_ADDR + len <= 0x100000).

Definition holds_file (f : Z -> Z) : Prop := forall j, 0 <= j < len -> f (KERNEL_BIN_BASE_ADDR + j) = img j.

Lemma each_segment_ok size l : forall a s,
  good s -> p_paging s = true -> holds_file (byte s) -> phdrs_at img a size l -> 0 <= a -> 20 <= size < 0x10000 ->
  a + size * Z.of_nat (length l) <= len -> Forall (fun p => copied p -> segment_ok len p) l ->
  wp (each_segment (length l) (KERNEL_BIN_BASE_ADDR + a) size) s (fun _ s' => wrote (place_all l (byte s)) s s').
Proof.
  induction l as [|p l IH]; intros a s Hs Hp Hf Hh Ha Hsz Hb Hseg.
  { apply wp_ret. by apply wrote_refl. }
  destruct Hh as [Hh Hh']. inversion Hseg as [|? ? Hp1 Hseg']; subst. simpl length in Hb. unfold KERNEL_BIN_BASE_ADDR in Hlen.
  destruct (phdr_at_memory img len a p (byte s) Hf Ha ltac:(lia) Hh) as (T1 & T2 & T3 & T4).
  assert (forall k, 0 <= k < 20 -> maps s (KERNEL_BIN_BASE_ADDR + a + k) (KERNEL_BIN_BASE_ADDR + a + k)) as Hm.
  { intros k Hk. split; [unfold KERNEL_BIN_BASE_ADDR; lia | by left]. }
  cbn [each_segment length]. apply wp_bind.
  eapply wp_ok; [apply (load_byte_ok s _ (KERNEL_BIN_BASE_ADDR + a + 0) Hs); apply (Hm 0); lia|]. rewrite Z.add_0_r, T1.
  apply wp_bind. eapply (wp_mono _ _ (fun _ s1 => wrote (place p (byte s)) s s1)).
  - unfold place. destruct (Z.eqb_spec (u8 (ph_type p)) PT_NULL) as [E|E]; destruct (decide _) as [Hl|Hl]; [by destruct Hl | | |].
    + apply wp_ret. by apply wrote_refl.
    + destruct (Hp1 Hl) as [O1 O3 O4 O5]. destruct Hl as [_ O2].
      assert (forall k, 0 <= k <= 16 -> load_dword (KERNEL_BIN_BASE_ADDR + a + k) s = Ok (le32 (byte s) (KERNEL_BIN_BASE_ADDR + a + k), s)) as Hld.
      { intros k Hk. apply load_dword_ok; [done | apply Hm; lia | unfold KERNEL_BIN_BASE_ADDR; lia]. }
      do 3 (apply wp_bind; eapply wp_ok; [apply Hld; lia|]). rewrite T2, T3, T4.
      rewrite u32_id by (unfold is_u32, KERNEL_BIN_BASE_ADDR; lia). rewrite (Z.add_comm (ph_offset p)).
      apply (mem_cpy_ok _ _ (ph_vaddr p - 0xc0000000)); [done | | unfold KERNEL_BIN_BASE_ADDR; lia..].
      split; [lia|]. right. split; [done | lia].
    + assert (forall k, 0 <= k <= 16 -> load_dword (KERNEL_BIN_BASE_ADDR + a + k) s = Ok (le32 (byte s) (KERNEL_BIN_BASE_ADDR + a + k), s)) as Hld.
      { intros k Hk. apply load_dword_ok; [done | apply Hm; lia | unfold KERNEL_BIN_BASE_ADDR; lia]. }
      do 3 (apply wp_bind; eapply wp_ok; [apply Hld; lia|]). pose proof (le32_u32 s (KERNEL_BIN_BASE_ADDR + a + 16)) as Hsz4.
      rewrite T2, T3, T4 in *. unfold is_u32 in Hsz4.
      assert (ph_filesz p = 0) as -> by (destruct (Z.eq_dec (ph_filesz p) 0); [done|]; destruct Hl; split; [done | lia]).
      apply wp_ret. by apply wrote_refl.
  - intros [] s1 W1. rewrite u32_id by (unfold is_u32, KERNEL_BIN_BASE_ADDR; lia). rewrite <- Z.add_assoc.
    eapply wp_mono.
    { apply (IH (a + size) s1); [apply W1 | by rewrite (wr_paging _ _ _ W1) | | done | lia | done | lia | done].
      intros j Hj. rewrite (wr_bytes _ _ _ W1), (place_file len) by (done || (unfold KERNEL_BIN_BASE_ADDR; lia)). by apply Hf. }
    intros [] s2 W2. eapply wrote_trans; [exact W1|]. eapply wrote_ext; [exact W2|]. simpl.
    apply place_all_ext. apply W1.
Qed.

Lemma kernel_init_ok l phoff size s :
  good s -> p_paging s = true -> holds_file (byte s) -> 46 <= len -> kernel_file img len l phoff size ->
  wp kernel_init s (fun _ s' => wrote (place_all l (byte s)) s s').
Proof.
  intros Hs Hp Hf Hl [K1 K2 K3 K4 K5 [K6 K6'] K7 K8]. unfold KERNEL_BIN_BASE_ADDR in Hlen.
  assert (forall k, 0 <= k < len -> maps s (KERNEL_BIN_BASE_ADDR + k) (KERNEL_BIN_BASE_ADDR + k)) as Hm.
  { intros k Hk. split; [unfold KERNEL_BIN_BASE_ADDR; lia | by left]. }
  assert (forall k, 0 <= k -> k + 2 <= len -> le16 (byte s) (KERNEL_BIN_BASE_ADDR + k) = le16 img k) as H16.
  { intros k Hk Hk'. unfold le16. rewrite <- Z.add_assoc, !Hf by lia. done. }
  assert (le32 (byte s) (KERNEL_BIN_BASE_ADDR + 28) = phoff) as E28.
  { rewrite <- K1. unfold le32. rewrite <- Z.add_assoc, !H16 by lia. done. }
  pose proof (le16_u16 s (KERNEL_BIN_BASE_ADDR + 42)) as Hs1. rewrite H16, K2 in Hs1 by lia. unfold is_u16 in Hs1.
  unfold kernel_init. apply wp_bind. eapply wp_ok; [apply load_word16_ok; [done | apply Hm; lia | unfold KERNEL_BIN_BASE_ADDR; lia]|].
  apply wp_bind. eapply wp_ok; [apply load_dword_ok; [done | apply Hm; lia | unfold KERNEL_BIN_BASE_ADDR; lia]|].
  apply wp_bind. eapply wp_ok; [apply load_word16_ok; [done | apply Hm; lia | unfold KERNEL_BIN_BASE_ADDR; lia]|].
  rewrite !H16, K2, K3, E28 by lia.
  assert (u32 (phoff + KERNEL_BIN_BASE_ADDR) = KERNEL_BIN_BASE_ADDR + phoff) as ->.
  { rewrite u32_id; [lia|]. unfold is_u32, KERNEL_BIN_BASE_ADDR. destruct l; [done|]. simpl length in K7. nia. }
  assert (0 < Z.of_nat (length l)) as Hn by (destruct l; [done | simpl length; lia]).
  rewrite loop_count_pos, Nat2Z.id by done. apply each_segment_ok; done || lia.
Qed.
End Segments.

(** ** The memory map *)
Definition ards_ok (e : ards) : Prop := is_u32 (base_add_low e) /\ is_u32 (length_low e).

(** The end of an area, as the loader computes it. *)
Definition area_end (e : ards) : Z := u32 (base_add_low e + length_low e).

Definition ards_at (f : Z -> Z) (a : Z) (e : ards) : Prop :=
  le32 f a = base_add_low e /\ le32 f (a + 8) = length_low e.

Fixpoint map_at (f : Z -> Z) (a : Z) (map : list ards) : Prop :=
  match map with
  | [] => True
  | e :: map' => ards_at f a e /\ map_at f (a + 20) map'
  end.

Lemma put_le_out n a v f x : x < a \/ a + n <= x -> put_le n a v f x = f x.
Proof. intros H. unfold put_le. by destruct (Z.leb_spec a x), (Z.ltb_spec x (a + n)); try lia. Qed.

Lemma maps_low s a : 0 <= a < 0x100000 -> maps s a a.
Proof. intros Ha. split; [done | by left]. Qed.

Lemma int_0x15_ok e di s : good s -> ards_ok e -> 0 <= di -> di + 20 <= 0x100000 ->
  wp (int_0x15 e di) s (fun _ s' => exists f, wrote f s s' /\ ards_at f di e /\
    forall x, x < di \/ di + 20 <= x -> f x = byte s x).
Proof.
  intros Hs [Hb Hl] H0 H1. unfold int_0x15.
  apply wp_bind. eapply wp_mono; [apply (store_dword_ok s di di); [done | apply maps_low; lia | lia]|]. intros [] s1 W1.
  apply wp_bind. eapply wp_mono; [apply (store_dword_ok s1 (di + 4) (di + 4)); [apply W1 | apply maps_low; lia | lia]|]. intros [] s2 W2.
  apply wp_bind. eapply wp_mono; [apply (store_dword_ok s2 (di + 8) (di + 8)); [apply W2 | apply maps_low; lia | lia]|]. intros [] s3 W3.
  apply wp_bind. eapply wp_mono; [apply (store_dword_ok s3 (di + 12) (di + 12)); [apply W3 | apply maps_low; lia | lia]|]. intros [] s4 W4.
  eapply wp_mono; [apply (store_dword_ok s4 (di + 16) (di + 16)); [apply W4 | apply maps_low; lia | lia]|]. intros [] s5 W5.
  exists (byte s5). pose proof (wrote_trans _ _ _ _ _ (wrote_trans _ _ _ _ _ (wrote_trans _ _ _ _ _ (wrote_trans _ _ _ _ _ W1 W2) W3) W4) W5) as W.
  split; [eapply wrote_ext; [exact W|]; intros; symmetry; apply W5|].
  pose proof (wr_bytes _ _ _ W1) as B1. pose proof (wr_bytes _ _ _ W2) as B2. pose proof (wr_bytes _ _ _ W3) as B3.
  pose proof (wr_bytes _ _ _ W4) as B4. pose proof (wr_bytes _ _ _ W5) as B5. split; [split|].
  - rewrite <- (le32_put di (base_add_low e) (byte s)) by done. apply le32_ext. intros x Hx.
    by rewrite B5, put_le_out, B4, put_le_out, B3, put_le_out, B2, put_le_out, B1 by lia.
  - rewrite <- (le32_put (di + 8) (length_low e) (byte s2)) by done. apply le32_ext. intros x Hx.
    by rewrite B5, put_le_out, B4, put_le_out, B3 by lia.
  - intros x Hx. by rewrite B5, put_le_out, B4, put_le_out, B3, put_le_out, B2, put_le_out, B1, put_le_out by lia.
Qed.

Lemma ards_at_ext f g a e : (forall x, a <= x < a + 20 -> f x = g x) -> ards_at f a e -> ards_at g a e.
Proof. intros H [H1 H2]. split; [rewrite <- H1 | rewrite <- H2]; symmetry; apply le32_ext; intros; apply H; lia. Qed.

Lemma e820_ok map : forall k s,
  good s -> Forall ards_ok map -> 0 <= k -> k + Z.of_nat (length map) <= 12 -> le16 (byte s) ards_nr = k ->
  wp (e820_mem_get_loop map (ards_buf + 20 * k)) s (fun _ s' => exists f, wrote f s s' /\ map_at f (ards_buf + 20 * k) map /\
    le16 f ards_nr = k + Z.of_nat (length map) /\
    forall x, x < ards_buf + 20 * k \/ ards_nr + 2 <= x -> f x = byte s x).
Proof.
  induction map as [|e map IH]; intros k s Hs Hm Hk Hn Hnr.
  { apply wp_ret. exists (byte s). split; [by apply wrote_refl|]. simpl. split; [done|]. split; [lia | done]. }
  inversion Hm as [|? ? He Hm']; subst. cbn [length] in Hn. set (k := le16 (byte s) ards_nr) in *.
  assert (ards_nr = 0xbfe /\ ards_buf = 0xb0a) as [En Eb] by done.
  cbn [e820_mem_get_loop]. apply wp_bind. eapply wp_mono; [apply int_0x15_ok; [done..|lia|lia]|]. intros [] s1 (f1 & W1 & A1 & U1).
  apply wp_bind. eapply wp_ok; [apply (load_word16_ok s1 ards_nr ards_nr); [apply W1 | apply maps_low; lia | lia]|].
  assert (le16 (byte s1) ards_nr = k) as E1.
  { unfold k. apply le16_ext. intros x Hx. rewrite (wr_bytes _ _ _ W1). apply U1. lia. }
  rewrite E1, !u16_id by (unfold is_u16; lia).
  apply wp_bind. eapply wp_mono; [apply (store_word16_ok s1 ards_nr ards_nr); [apply W1 | apply maps_low; lia | lia]|]. intros [] s2 W2.
  replace (ards_buf + 20 * k + 20) with (ards_buf + 20 * (k + 1)) by lia.
  eapply wp_mono.
  { apply (IH (k + 1) s2); [apply W2 | done | lia | lia |].
    rewrite <- (le16_put ards_nr (k + 1) (byte s1)) by (unfold is_u16; lia). apply le16_ext. intros; apply W2. }
  intros [] s3 (f & W3 & M3 & N3 & U3). exists f. pose proof (wrote_trans _ _ _ _ _ W1 W2) as W12.
  split; [by eapply wrote_trans|]. cbn [map_at]. split; [split|split].
  - eapply ards_at_ext; [|exact A1]. intros x Hx. rewrite U3, (wr_bytes _ _ _ W2), put_le_out, (wr_bytes _ _ _ W1) by lia. done.
  - by replace (ards_buf + 20 * k + 20) with (ards_buf + 20 * (k + 1)) by lia.
  - cbn [length]. lia.
  - intros x Hx. rewrite U3, (wr_bytes _ _ _ W2), put_le_out, (wr_bytes _ _ _ W1) by lia. apply U1. lia.
Qed.

(** What the loader takes for the size of the memory. *)
Definition max_end (m : Z) (map : list ards) : Z :=
  foldl (fun m e => if s32 (area_end e) <=? s32 m then m else area_end e) m map.

Lemma find_max_ok map : forall a m s,
  good s -> map_at (byte s) a map -> 0 <= a -> a + 20 * Z.of_nat (length map) <= 0x100000 ->
  find_max_mem_area (length map) a m s = Ok (max_end m map, s).
Proof.
  induction map as [|e map IH]; intros a m s Hs Hm Ha Hb; [done|]. destruct Hm as [[A1 A2] Hm]. cbn [length] in Hb.
  cbn [length find_max_mem_area]. erewrite bind_ok by (apply (load_dword_ok s a a); [done | apply maps_low; lia | lia]).
  erewrite bind_ok by (apply (load_dword_ok s (a + 8) (a + 8)); [done | apply maps_low; lia | lia]).
  rewrite A1, A2, u32_id by (unfold is_u32; lia). cbv zeta. rewrite IH by (done || lia). done.
Qed.

Lemma s32_cases x : is_u32 x -> s32 x = if x <? 0x80000000 then x else x - 0x100000000.
Proof.
  intros Hx. unfold is_u32 in Hx. unfold s32. destruct (Z.ltb_spec x 0x80000000); [rewrite Z.mod_small; lia|].
  assert (1 = (x + 0x80000000) / 0x100000000) as E by (apply (Z.div_unique _ _ _ (x - 0x80000000)); lia).
  pose proof (Z.div_mod (x + 0x80000000) 0x100000000). lia.
Qed.

(** It is the largest end below 2 GB; an area that ends at or above is not seen. *)
Lemma max_end_spec map m : 0 <= m < 0x80000000 ->
  m <= max_end m map < 0x80000000 /\ (max_end m map = m \/ max_end m map ∈ area_end <$> map) /\
  forall e, e ∈ map -> area_end e < 0x80000000 -> area_end e <= max_end m map.
Proof.
  revert m. induction map as [|e map IH]; intros m Hm; simpl.
  { split; [lia|]. split; [by left|]. by intros e ?%elem_of_nil. }
  pose proof (u32_range (base_add_low e + length_low e)) as Hu. fold (area_end e) in Hu.
  rewrite !s32_cases by (done || (unfold is_u32; lia)). rewrite (proj2 (Z.ltb_lt m _)) by lia. unfold is_u32 in Hu.
  set (x := if area_end e <? 0x80000000 then _ else _).
  assert (x <=? m = false -> 0 <= area_end e < 0x80000000 /\ m < area_end e) as Hx.
  { intros E. b2p. unfold x in E. destruct (Z.ltb_spec (area_end e) 0x80000000); lia. }
  assert (x <=? m = true -> area_end e < 0x80000000 -> area_end e <= m) as Hx'.
  { intros E Hl. b2p. unfold x in E. destruct (Z.ltb_spec (area_end e) 0x80000000); lia. }
  destruct (x <=? m).
  - destruct (IH m Hm) as (I1 & I2 & I3). split; [done|]. split; [destruct I2; [by left | right; by constructor]|].
    intros e' [->|He']%elem_of_cons Hl; [|by apply I3]. specialize (Hx' eq_refl Hl). lia.
  - destruct (Hx eq_refl) as [H1 H2]. destruct (IH (area_end e) H1) as (I1 & I2 & I3). split; [lia|].
    split; [destruct I2 as [->|I2]; right; [by constructor | by constructor]|].
    intros e' [->|He']%elem_of_cons Hl; [lia | by apply I3].
Qed.

Lemma mem_get_ok map s :
  good s -> Forall ards_ok map -> map <> [] -> (length map <= 12)%nat -> le16 (byte s) ards_nr = 0 ->
  wp (mem_get map) s (fun _ s' => exists f, wrote f s s' /\ le32 f total_mem_bytes = max_end 0 map /\
    forall x, x < total_mem_bytes \/ gdt_ptr <= x < ards_buf \/ ards_nr + 2 <= x -> f x = byte s x).
Proof.
  intros Hs Hm Hne Hl Hnr. assert (ards_nr = 0xbfe /\ ards_buf = 0xb0a /\ total_mem_bytes = 0xb00 /\ gdt_ptr = 0xb04) as (En & Eb & Et & Eg) by done.
  assert (0 < Z.of_nat (length map)) as Hn by (clear - Hne; destruct map; [done | simpl length; lia]).
  unfold mem_get. apply wp_bind. replace ards_buf with (ards_buf + 20 * 0) at 1 by lia.
  eapply wp_mono; [apply (e820_ok map 0); [done..|lia|lia|done]|]. intros [] s1 (f1 & W1 & M1 & N1 & U1).
  rewrite Z.add_0_l in N1. rewrite Z.mul_0_r, Z.add_0_r in M1, U1.
  assert (forall a, byte s1 a = f1 a) as B1 by apply W1.
  apply wp_bind. eapply wp_ok; [apply (load_word16_ok s1 ards_nr ards_nr); [apply W1 | apply maps_low; lia | lia]|].
  rewrite (le16_ext (byte s1) f1), N1, loop_count_pos, Nat2Z.id by done.
  apply wp_bind. eapply wp_ok.
  { apply find_max_ok; [apply W1 | | lia | lia]. clear - M1 B1. revert M1. generalize ards_buf. induction map as [|e map IH]; intros a; [done|].
    intros [A M]. split; [|by apply IH]. by eapply ards_at_ext; [|exact A]; intros; rewrite B1. }
  eapply wp_mono; [apply (store_dword_ok s1 total_mem_bytes total_mem_bytes); [apply W1 | apply maps_low; lia | lia]|].
  intros [] s2 W2. eexists. split; [eapply wrote_trans; [exact W1 | exact W2]|]. split.
  - apply le32_put. destruct (max_end_spec map 0 ltac:(lia)) as [? _]. unfold is_u32. lia.
  - intros x Hx. rewrite put_le_out, B1 by lia. apply U1. lia.
Qed.

(** ** The places of the segments *)
Definition covers (p : phdr) (a : Z) : Prop :=
  copied p /\ ph_vaddr p - 0xc0000000 <= a < ph_vaddr p - 0xc0000000 + ph_filesz p.

#[export] Instance covers_dec p a : Decision (covers p a) := _.

(** Where two segments meet they bring the same bytes of the file, as the
    headers of a linker do. *)
Definition segments_agree (l : list phdr) : Prop := forall p q a, p ∈ l -> q ∈ l -> covers p a -> covers q a ->
  ph_vaddr p - ph_offset p = ph_vaddr q - ph_offset q.

Lemma place_out p f a : ~ covers p a -> place p f a = f a.
Proof.
  intros H. unfold place, with_copy. destruct (decide _) as [Hl|]; [|done].
  destruct ((_ <=? a) && (a <? _)) eqn:E; [|done]. destruct H. b2p. done.
Qed.

Lemma place_in p f a : covers p a ->
  place p f a = f (KERNEL_BIN_BASE_ADDR + ph_offset p + (a - (ph_vaddr p - 0xc0000000))).
Proof.
  intros [Hl Ha]. unfold place, with_copy. destruct (decide _) as [|]; [|done].
  by rewrite (proj2 (Z.leb_le _ _)), (proj2 (Z.ltb_lt _ _)) by lia.
Qed.

Lemma place_all_out l f a : Forall (fun p => ~ covers p a) l -> place_all l f a = f a.
Proof.
  unfold place_all. intros H. revert f. induction H as [|p l Hp _ IH]; intros f; simpl; [done|].
  by rewrite IH, place_out.
Qed.

Lemma place_all_in len l f p a :
  Forall (fun p => copied p -> segment_ok len p) l -> segments_agree l -> p ∈ l -> covers p a ->
  place_all l f a = f (KERNEL_BIN_BASE_ADDR + ph_offset p + (a - (ph_vaddr p - 0xc0000000))).
Proof.
  intros Hs. revert f p. induction Hs as [|q l Hq Hs IH]; intros f p Hd Hp Ha; [by apply elem_of_nil in Hp|].
  change (place_all (q :: l) f) with (place_all l (place q f)). destruct (decide (Exists (fun r => covers r a) l)) as [Hex|Hno].
  - apply Exists_exists in Hex as (r & Hr & Hra). rewrite (IH _ r); [|intros x y b Hx Hy; apply Hd; by right | done | done].
    pose proof (Hd p r a Hp ltac:(by right) Ha Hra) as E. assert (copied r -> segment_ok len r) as Hr' by (rewrite Forall_forall in Hs; auto).
    destruct Hra as [Hl Hra]. destruct (Hr' Hl).
    rewrite (place_file len) by (done || (unfold KERNEL_BIN_BASE_ADDR; lia)). f_equal. lia.
  - assert (Forall (fun r => ~ covers r a) l) as Hout by (by apply Forall_Exists_neg in Hno).
    rewrite place_all_out by done. apply elem_of_cons in Hp as [->|Hp]; [by apply place_in|].
    rewrite Forall_forall in Hout. by destruct (Hout p Hp).
Qed.

Lemma place_all_below l len f a : Forall (fun p => copied p -> segment_ok len p) l -> a < 0x1000 -> place_all l f a = f a.
Proof.
  intros Hs Ha. apply place_all_out. eapply Forall_impl; [exact Hs|]. intros p Hp [Hl Hc]. destruct (Hp Hl). lia.
Qed.

Lemma place_all_above l len f a :
  Forall (fun p => copied p -> segment_ok len p) l -> KERNEL_BIN_BASE_ADDR <= a -> place_all l f a = f a.
Proof.
  unfold KERNEL_BIN_BASE_ADDR. intros Hs Ha. apply place_all_out. eapply Forall_impl; [exact Hs|]. intros p Hp [Hl Hc]. destruct (Hp Hl). lia.
Qed.
