(* ===== verification/LoadBoot.v ===== *)
(** * From the boot sector into the kernel: proofs about boot/mbr.S and
      boot/loader.S

    The parts of [LoadKernel] and [Loader] put together: what memory, page
    tables and registers are when the loader jumps into the kernel. *)
From stdpp Require Import base numbers list gmap fin_maps.
From Stdlib Require Import ZArith Lia.
From S2P Require Import Prelude Globals Bitmap Paging PageAlloc PageInit Loader LoadKernel.

(** ** The steps of protected mode *)

(** The tables are in place, not yet current. *)
Definition tables_built (m : mmu) : Prop := loader_tables (Mmu (ram m) PAGE_DIR_TABLE_POS).

Lemma tables_built_wrote f s s' :
  wrote f s s' -> (forall a, 0x100000 <= a -> f a = byte s a) -> tables_built (p_mem s) -> tables_built (p_mem s').
Proof.
  intros W H T. apply (loader_tables_same _ _ T); [apply W | done |]. intros a Ha.
  change (byte s' a = byte s a). rewrite (wr_bytes _ _ _ W). by apply H.
Qed.

(** The page tables above the quarter of the first one that [setup_page]
    writes hold zero. *)
Definition clear_tables (f : Z -> Z) : Prop := forall a, 0x101400 <= a < 0x200000 -> f a = 0.

Lemma setup_page_step s : good s -> p_paging s = false -> clear_tables (byte s) ->
  wp (zoom pmem setup_page) s (fun _ s' => exists f, wrote f s s' /\ tables_built (p_mem s') /\
    forall a, a < 0x100000 -> f a = byte s a).
Proof.
  intros Hs Hp Hz. assert (forall a, 0x101400 <= a < 0x200000 -> a mod 4 = 0 -> ram_word (p_mem s) a = 0) as Hzero.
  { intros a Ha Hal. rewrite ram_word_le32 by (done || apply Hs). unfold le32, le16. 
    assert (a + 3 < 0x200000) as Hb by (pose proof (Z.div_mod a 4); lia).
    change (ram_byte (p_mem s)) with (byte s). rewrite !Hz by lia. done. }
  apply wp_zoom. pose proof (loader_ok (p_mem s) (g_words s Hs) Hzero) as Hl. apply wp_bind_inv in Hl.
  apply wp_run in Hl. eapply wp_mono; [exact Hl|]. intros [] m [H _]. unfold load_cr3, wp, modify in H. destruct H as [T R].
  exists (ram_byte m). split; [split; try done; split; [apply T | simpl; congruence]|]. split; [exact T|].
  intros a Ha. apply ram_byte_same. apply R. pose proof (Z.mod_pos_bound a 4). lia.
Qed.

(** Bytes of the first megabyte that are read as before. *)
Lemma sgdt_ok a s limit base : good s -> 0 <= a -> a + 5 < 0x100000 -> p_gdtr s = (limit, base) ->
  wp (sgdt a) s (fun _ s' => wrote (put_le 4 (a + 2) base (put_le 2 a limit (byte s))) s s').
Proof.
  intros Hs Ha Hb Hr. unfold sgdt. apply wp_bind, wp_gets. rewrite Hr. simpl. apply wp_bind.
  eapply wp_mono; [apply (store_word16_ok s a a); [done | apply maps_low; lia | lia]|]. intros [] s1 W1.
  eapply wp_mono; [apply (store_dword_ok s1 (a + 2) (a + 2)); [apply W1 | apply maps_low; lia | lia]|]. intros [] s2 W2.
  eapply wrote_trans; [exact W1|]. eapply wrote_ext; [exact W2|]. intros x. unfold put_le at 1 3. by rewrite (wr_bytes _ _ _ W1).
Qed.

Lemma lgdt_ok bits a s limit base : good s -> 0 <= a -> a + 5 < 0x100000 -> 0 <= bits -> 0 <= base < 2 ^ bits ->
  le16 (byte s) a = limit -> le32 (byte s) (a + 2) = base ->
  lgdt bits a s = Ok (tt, Pc (p_mem s) (p_paging s) (limit, base) (p_esp s) (p_disk s)).
Proof.
  intros Hs Ha Hb Hbits Hbase El Eb. unfold lgdt. erewrite bind_ok by (apply (load_word16_ok s a a); [done | apply maps_low; lia | lia]).
  erewrite bind_ok by (apply (load_dword_ok s (a + 2) (a + 2)); [done | apply maps_low; lia | lia]).
  rewrite El, Eb. unfold modify. by rewrite Z.land_ones, Z.mod_small by done.
Qed.

Lemma mark_ok c s : good s -> wp (mark c) s (fun _ s' => wrote (fun x => if x =? 0xb80a0 then u8 c else byte s x) s s').
Proof. intros Hs. apply (store_byte_ok s (0xb8000 + 160) 0xb80a0 c Hs). by apply maps_low. Qed.

Lemma lor_u32 x y : is_u32 x -> is_u32 y -> is_u32 (Z.lor x y).
Proof.
  intros Hx Hy. unfold is_u32 in *. assert (0 <= Z.lor x y) as H0 by (apply Z.lor_nonneg; lia). split; [done|].
  apply (below_pow2 _ 32); [lia | done |]. intros k Hk. rewrite Z.lor_spec.
  by rewrite (testbit_high x 32 k), (testbit_high y 32 k) by lia.
Qed.

Lemma move_gdt_ok s limit : good s -> is_u16 limit -> p_gdtr s = (limit, LOADER_BASE_ADDR) ->
  wp move_gdt s (fun _ s' => exists f, wrote f s s' /\ le16 f gdt_ptr = limit /\ le32 f (gdt_ptr + 2) = 0xc0000900 /\
    le32 f 0x91c = Z.lor (le32 (byte s) 0x91c) 0xc0000000 /\
    forall a, ~ 0x91c <= a < 0x920 -> ~ gdt_ptr <= a < ards_buf -> f a = byte s a).
Proof.
  intros Hs Hl Hr. assert (gdt_ptr = 0xb04 /\ ards_buf = 0xb0a) as [-> ->] by done. unfold LOADER_BASE_ADDR in Hr.
  unfold move_gdt. apply wp_bind. eapply wp_mono; [by apply (sgdt_ok 0xb04 s limit 0x900)|]. intros [] s1 W1.
  pose proof (wr_bytes _ _ _ W1) as B1.
  assert (le32 (byte s1) 0xb06 = 0x900) as E1.
  { rewrite <- (le32_put 0xb06 0x900 (put_le 2 0xb04 limit (byte s))) by (unfold is_u32; lia). by apply le32_ext; intros; apply B1. }
  assert (le32 (byte s1) 0x91c = le32 (byte s) 0x91c) as E1'.
  { apply le32_ext. intros x Hx. by rewrite B1, !put_le_out by lia. }
  apply wp_bind. eapply wp_ok; [apply (load_dword_ok s1 0xb06 0xb06); [apply W1 | apply maps_low; lia | lia]|]. rewrite E1.
  apply wp_bind. eapply wp_ok; [apply (load_dword_ok s1 0x91c 0x91c); [apply W1 | apply maps_low; lia | lia]|]. rewrite E1'.
  apply wp_bind. eapply wp_mono.
  { apply (store_dword_ok s1 0x91c 0x91c); [apply W1 | apply maps_low; lia | lia]. }
  intros [] s2 W2. pose proof (wr_bytes _ _ _ W2) as B2.
  assert (le32 (byte s2) 0xb06 = 0x900) as E2.
  { rewrite <- E1. apply le32_ext. intros x Hx. by rewrite B2, put_le_out by lia. }
  apply wp_bind. eapply wp_ok; [apply (load_dword_ok s2 0xb06 0xb06); [apply W2 | apply maps_low; lia | lia]|]. rewrite E2.
  eapply wp_mono; [apply (store_dword_ok s2 0xb06 0xb06); [apply W2 | apply maps_low; lia | lia]|]. intros [] s3 W3.
  exists (byte s3). pose proof (wr_bytes _ _ _ W3) as B3.
  split; [eapply wrote_ext; [exact (wrote_trans _ _ _ _ _ (wrote_trans _ _ _ _ _ W1 W2) W3)|]; intros; symmetry; apply B3|].
  split; [|split; [|split]].
  - rewrite <- (le16_put 0xb04 limit (byte s)) by done. apply le16_ext. intros x Hx.
    by rewrite B3, put_le_out, B2, put_le_out, B1, put_le_out by lia.
  - rewrite (le32_ext _ _ _ (fun x _ => B3 x)). by apply le32_put.
  - rewrite <- (le32_put 0x91c (Z.lor (le32 (byte s) 0x91c) 0xc0000000) (byte s1)) by (apply lor_u32; [apply le32_u32 | unfold is_u32; lia]).
    apply le32_ext. intros x Hx. by rewrite B3, put_le_out, B2 by lia.
  - intros a Ha Ha'. by rewrite B3, put_le_out, B2, put_le_out, B1, !put_le_out by lia.
Qed.

(** Only memory between the loader's end and the file's end matters. *)
Lemma place_all_agree l len f g a :
  (forall x, 0x1000 <= x < KERNEL_BIN_BASE_ADDR + len -> f x = g x) -> Forall (fun p => copied p -> segment_ok len p) l ->
  0x1000 <= a < KERNEL_BIN_BASE_ADDR + len -> place_all l f a = place_all l g a.
Proof.
  unfold place_all. intros H Hs. revert f g H. induction Hs as [|p l Hp _ IH]; intros f g H Ha; simpl; [by apply H|].
  apply IH; [|done]. intros x Hx. destruct (decide (covers p x)) as [Hc|Hc].
  - rewrite !place_in by done. destruct Hc as [Hl Hc]. destruct (Hp Hl). apply H. unfold KERNEL_BIN_BASE_ADDR. lia.
  - rewrite !place_out by done. by apply H.
Qed.

Section Loading.
Context `{!Drive}.

Definition kernel_img : Z -> Z := disk_byte KERNEL_START_SECTOR.

(** Registers are set. *)
Lemma set_esp_good s v : good s -> good (Pc (p_mem s) (p_paging s) (p_gdtr s) v (p_disk s)).
Proof. by intros [W T]. Qed.

(** The state the kernel is entered in. *)
Record entered (limit : Z) (f : Z -> Z) (s s' : pc) : Prop := {
  en_tables : loader_tables (p_mem s');
  en_paging : p_paging s' = true;
  en_gdtr : p_gdtr s' = (limit, 0xc0000900);
  en_esp : p_esp s' = 0xc009f000;
  en_kernel : forall a, 0x1000 <= a < KERNEL_BIN_BASE_ADDR -> byte s' a = f a;
  en_loader : forall a, a < 0x1000 -> ~ 0x91c <= a < 0x920 -> ~ gdt_ptr <= a < ards_buf -> byte s' a = byte s a;
  en_video : le32 (byte s') 0x91c = Z.lor (le32 (byte s) 0x91c) 0xc0000000;
}.

(** The second half: paging is on. *)
Lemma paging_half limit l phoff size s :
  good s -> p_paging s = false -> tables_built (p_mem s) -> le16 (byte s) gdt_ptr = limit -> le32 (byte s) (gdt_ptr + 2) = 0xc0000900 ->
  holds_file kernel_img 102400 (byte s) -> kernel_file kernel_img 102400 l phoff size ->
  wp (zoom pmem load_cr3 ;;; enable_paging ;;; lgdt 32 gdt_ptr ;;; mark 87 ;;; kernel_init ;;; set_esp 0xc009f000 ;;; mret KERNEL_ENTRY_POINT)
    s (fun r s' => r = KERNEL_ENTRY_POINT /\ loader_tables (p_mem s') /\ p_paging s' = true /\ p_gdtr s' = (limit, 0xc0000900) /\
      p_esp s' = 0xc009f000 /\ forall a, byte s' a = place_all l (fun x => if x =? 0xb80a0 then 87 else byte s x) a).
Proof.
  intros Hs Hp Ht Hl Hb Hf Hk. assert (gdt_ptr = 0xb04) as Eg by done.
  apply wp_bind, wp_zoom, wp_modify, wp_bind, wp_modify. set (s1 := Pc _ true _ _ _).
  assert (good s1) as Hs1 by (split; [apply Hs | exact (fun _ => Ht)]).
  apply wp_bind. eapply wp_ok.
  { apply (lgdt_ok 32 gdt_ptr s1 limit 0xc0000900); [exact Hs1 | lia.. | exact Hl | exact Hb]. } set (s2 := Pc _ _ (limit, _) _ _).
  assert (good s2) as Hs2 by (split; [apply Hs | exact (fun _ => Ht)]).
  apply wp_bind. eapply wp_mono; [exact (mark_ok 87 s2 Hs2)|]. intros [] s3 W3.
  apply wp_bind. eapply wp_mono.
  { apply (kernel_init_ok kernel_img 102400 ltac:(done) l phoff size s3); [apply W3 | by rewrite (wr_paging _ _ _ W3) | | done | done].
    intros j Hj. rewrite (wr_bytes _ _ _ W3). unfold KERNEL_BIN_BASE_ADDR. destruct (Z.eqb_spec (0x70000 + j) 0xb80a0); [lia|]. by apply Hf. }
  intros [] s4 W4. apply wp_bind, wp_modify, wp_ret. split; [done|]. split; [|split; [|split; [|split; [done|]]]].
  - apply W4. by rewrite (wr_paging _ _ _ W4), (wr_paging _ _ _ W3).
  - simpl. by rewrite (wr_paging _ _ _ W4), (wr_paging _ _ _ W3).
  - simpl. by rewrite (wr_gdtr _ _ _ W4), (wr_gdtr _ _ _ W3).
  - intros a. change (byte (Pc _ _ _ _ _) a) with (byte s4 a). rewrite (wr_bytes _ _ _ W4). apply place_all_ext. apply W3.
Qed.

Lemma p_mode_start_ok fuel limit l phoff size s :
  keeps_pace -> (latency 0 < fuel)%nat -> good s -> p_paging s = false -> clear_tables (byte s) -> is_u16 limit ->
  p_gdtr s = (limit, LOADER_BASE_ADDR) -> kernel_file kernel_img 102400 l phoff size ->
  wp (p_mode_start fuel) s (fun r s' => r = KERNEL_ENTRY_POINT /\
    entered limit (place_all l (with_sectors KERNEL_START_SECTOR 200 KERNEL_BIN_BASE_ADDR (byte s))) s s').
Proof.
  intros Hlat Hf Hs Hp Hz Hl Hr Hk. assert (gdt_ptr = 0xb04 /\ ards_buf = 0xb0a) as [Eg Ea] by done.
  unfold p_mode_start. apply wp_bind, wp_modify. set (s0 := Pc _ _ _ _ _). assert (good s0) as Hs0 by by apply set_esp_good.
  apply wp_bind. eapply wp_mono; [exact (mark_ok 80 s0 Hs0)|]. intros [] s1 W1.
  apply wp_bind. eapply wp_mono.
  { apply (rd_disk_m_32_ok fuel KERNEL_START_SECTOR 200 KERNEL_BIN_BASE_ADDR s1); [done | done | apply W1 | done..]. }
  intros [] s2 W2. pose proof (wrote_trans _ _ _ _ _ W1 W2) as W12.
  assert (forall a, byte s2 a = with_sectors KERNEL_START_SECTOR 200 KERNEL_BIN_BASE_ADDR (fun x => if x =? 0xb80a0 then 80 else byte s x) a) as B2.
  { intros a. rewrite (wr_bytes _ _ _ W2). unfold with_sectors. by rewrite (wr_bytes _ _ _ W1). }
  assert (forall a, ~ 0x70000 <= a < 0x89000 -> a <> 0xb80a0 -> byte s2 a = byte s a) as U2.
  { intros a Ha Ha'. rewrite B2. unfold with_sectors, KERNEL_BIN_BASE_ADDR.
    destruct (Z.leb_spec 0x70000 a), (Z.ltb_spec a (0x70000 + 512 * 200)), (Z.eqb_spec a 0xb80a0); try lia; done. }
  apply wp_bind. eapply wp_mono.
  { apply setup_page_step; [apply W2 | by rewrite (wr_paging _ _ _ W12) | intros a Ha; rewrite U2 by lia; by apply Hz]. }
  intros [] s3 (f3 & W3 & T3 & U3). pose proof (wrote_trans _ _ _ _ _ W12 W3) as W13.
  apply wp_bind. eapply wp_mono; [apply (move_gdt_ok s3 limit); [apply W3 | done | by rewrite (wr_gdtr _ _ _ W13)]|].
  intros [] s4 (f4 & W4 & L4 & D4 & V4 & U4). pose proof (wrote_trans _ _ _ _ _ W13 W4) as W14.
  apply wp_bind, wp_gets, wp_bind, wp_modify. set (s5 := Pc _ _ _ _ _).
  assert (forall a, a < 0x100000 -> ~ 0x91c <= a < 0x920 -> ~ gdt_ptr <= a < ards_buf -> byte s5 a = byte s2 a) as U5.
  { intros a H1 H2 H3. change (byte s5 a) with (byte s4 a). by rewrite (wr_bytes _ _ _ W4), U4, (wr_bytes _ _ _ W3), U3. }
  eapply wp_mono.
  { apply (paging_half limit l phoff size s5).
    - apply set_esp_good, W4.
    - rewrite <- Hp. exact (wr_paging _ _ _ W14).
    - apply (tables_built_wrote _ _ _ W4); [|done]. intros a Ha. apply U4; lia.
    - rewrite <- L4. apply le16_ext. intros; apply W4.
    - rewrite <- D4. apply le32_ext. intros; apply W4.
    - intros j Hj. unfold KERNEL_BIN_BASE_ADDR. rewrite U5, B2 by lia. unfold with_sectors, KERNEL_BIN_BASE_ADDR.
      destruct (Z.leb_spec 0x70000 (0x70000 + j)), (Z.ltb_spec (0x70000 + j) (0x70000 + 512 * 200)); try lia. simpl.
      unfold kernel_img. f_equal. lia.
    - done. }
  intros r s6 (-> & T6 & P6 & G6 & E6 & B6). split; [done|].
  pose proof (kf_segments _ _ _ _ _ Hk) as Hseg.
  assert (forall a, a < 0x1000 -> byte s6 a = byte s5 a) as Blow.
  { intros a Ha. rewrite B6, (place_all_below l 102400) by done. destruct (Z.eqb_spec a 0xb80a0); [lia | done]. }
  split; try done.
  - intros a Ha. unfold KERNEL_BIN_BASE_ADDR in Ha. rewrite B6.
    apply (place_all_agree l 102400); [|done | unfold KERNEL_BIN_BASE_ADDR; lia].
    unfold KERNEL_BIN_BASE_ADDR. intros x Hx. destruct (Z.eqb_spec x 0xb80a0); [lia|]. rewrite U5, B2 by lia.
    unfold with_sectors. destruct (Z.eqb_spec x 0xb80a0); [lia | done].
  - intros a H1 H2 H3. rewrite Blow, U5, U2 by lia. done.
  - rewrite (le32_ext (byte s6) f4), V4.
    + f_equal. apply le32_ext. intros x Hx. by rewrite (wr_bytes _ _ _ W3), U3, U2 by lia.
    + intros x Hx. rewrite Blow by lia. apply W4.
Qed.

(** ** From the power-on state *)

(** The loader's file as it lies on the disk: the pseudo descriptor of its GDT,
    and no entry of the memory map yet. *)
Record loader_file (img : Z -> Z) (limit : Z) : Prop := {
  lf_limit : le16 img (gdt_ptr - LOADER_BASE_ADDR) = limit;
  lf_base : le32 img (gdt_ptr + 2 - LOADER_BASE_ADDR) = LOADER_BASE_ADDR;
  lf_nr : le16 img (ards_nr - LOADER_BASE_ADDR) = 0;
}.

Lemma disk_byte_u8 lba j : is_u8 (disk_byte lba j).
Proof. apply word_byte_u8. Qed.

Lemma loader_start_ok map fuel limit l phoff size s :
  keeps_pace -> (latency 0 < fuel)%nat -> good s -> p_paging s = false -> clear_tables (byte s) ->
  le16 (byte s) gdt_ptr = limit -> le32 (byte s) (gdt_ptr + 2) = LOADER_BASE_ADDR -> le16 (byte s) ards_nr = 0 ->
  Forall ards_ok map -> map <> [] -> (length map <= 12)%nat -> kernel_file kernel_img 102400 l phoff size ->
  wp (loader_start map fuel) s (fun r s' => r = KERNEL_ENTRY_POINT /\ le32 (byte s') total_mem_bytes = max_end 0 map /\
    exists s1, entered limit (place_all l (with_sectors KERNEL_START_SECTOR 200 KERNEL_BIN_BASE_ADDR (byte s))) s1 s').
Proof.
  intros Hlat Hf Hs Hp Hz El Eb En Hm Hne Hlen Hk.
  assert (gdt_ptr = 0xb04 /\ ards_buf = 0xb0a /\ ards_nr = 0xbfe /\ total_mem_bytes = 0xb00) as (Eg & Ea & Er & Et) by done.
  assert (is_u16 limit) as Hl by (rewrite <- El; apply le16_u16).
  unfold loader_start. apply wp_bind. eapply wp_mono; [by apply mem_get_ok|]. intros [] s1 (f & W1 & T1 & U1).
  assert (forall x, gdt_ptr <= x < ards_buf \/ 0x1000 <= x -> byte s1 x = byte s x) as B1.
  { intros x Hx. rewrite (wr_bytes _ _ _ W1). apply U1. lia. }
  apply wp_bind. eapply wp_ok.
  { apply (lgdt_ok 24 gdt_ptr s1 limit LOADER_BASE_ADDR); [apply W1 | lia | lia | lia | done | |].
    - rewrite <- El. apply le16_ext. intros. apply B1. lia.
    - rewrite <- Eb. apply le32_ext. intros. apply B1. lia. }
  set (s2 := Pc _ _ _ _ _). eapply wp_mono.
  { apply (p_mode_start_ok fuel limit l phoff size s2); [done | done | | | | done | done | done].
    - split; [apply W1|]. simpl. rewrite (wr_paging _ _ _ W1). congruence.
    - simpl. by rewrite (wr_paging _ _ _ W1).
    - intros a Ha. change (byte s1 a = 0). rewrite B1 by lia. by apply Hz. }
  intros r s3 [-> E3]. split; [done|]. split.
  - rewrite <- T1. apply le32_ext. intros x Hx. rewrite (en_loader _ _ _ _ E3) by lia. apply W1.
  - exists s2. destruct E3 as [F1 F2 F3 F4 F5 F6 F7]. split; try done. intros a Ha. rewrite F5 by done.
    unfold KERNEL_BIN_BASE_ADDR in Ha.
    apply (place_all_agree l 102400); [|apply (kf_segments _ _ _ _ _ Hk) | unfold KERNEL_BIN_BASE_ADDR; lia].
    intros x Hx. unfold with_sectors. change (byte s2 x) with (byte s1 x). by rewrite B1 by lia.
Qed.

Lemma boot_ok map fuel limit l phoff size s :
  keeps_pace -> (latency 0 < fuel)%nat -> good s -> p_paging s = false -> clear_tables (byte s) ->
  loader_file (disk_byte LOADER_START_SECTOR) limit ->
  Forall ards_ok map -> map <> [] -> (length map <= 12)%nat -> kernel_file kernel_img 102400 l phoff size ->
  wp (boot map fuel) s (fun r s' => r = KERNEL_ENTRY_POINT /\ le32 (byte s') total_mem_bytes = max_end 0 map /\
    exists s1, entered limit (place_all l (with_sectors KERNEL_START_SECTOR 200 KERNEL_BIN_BASE_ADDR
      (with_sectors LOADER_START_SECTOR 4 LOADER_BASE_ADDR (byte s)))) s1 s').
Proof.
  intros Hlat Hf Hs Hp Hz [El Eb En] Hm Hne Hlen Hk. unfold boot, mbr.
  assert (gdt_ptr = 0xb04 /\ ards_nr = 0xbfe /\ LOADER_BASE_ADDR = 0x900) as (Eg & Er & E0) by done.
  apply wp_bind, wp_bind. eapply wp_mono; [by apply (rd_disk_m_16_ok fuel LOADER_START_SECTOR 4 LOADER_BASE_ADDR s)|].
  intros [] s1 W1. apply wp_ret. change (LOADER_BASE_ADDR + 0x300 =? ards_nr + 2) with true. cbv match.
  pose proof (wr_bytes _ _ _ W1) as B1.
  assert (forall j, 0 <= j < 0x800 -> byte s1 (LOADER_BASE_ADDR + j) = disk_byte LOADER_START_SECTOR j) as F1.
  { intros j Hj. rewrite B1. unfold with_sectors. destruct (Z.leb_spec LOADER_BASE_ADDR (LOADER_BASE_ADDR + j)),
      (Z.ltb_spec (LOADER_BASE_ADDR + j) (LOADER_BASE_ADDR + 512 * 4)); try lia. simpl. f_equal. lia. }
  assert (forall x, 0x1100 <= x -> byte s1 x = byte s x) as U1.
  { intros x Hx. rewrite B1. unfold with_sectors. destruct (Z.ltb_spec x (LOADER_BASE_ADDR + 512 * 4)); [lia|]. by rewrite andb_false_r. }
  assert (forall a, LOADER_BASE_ADDR <= a -> a + 2 <= 0x1100 -> le16 (byte s1) a = le16 (disk_byte LOADER_START_SECTOR) (a - LOADER_BASE_ADDR)) as F16.
  { intros a Ha Ha'. unfold le16. rewrite <- !F1 by lia. f_equal; [f_equal; lia|]. do 2 f_equal. lia. }
  eapply wp_mono.
  { apply (loader_start_ok map fuel limit l phoff size s1); [done | done | apply W1 | by rewrite (wr_paging _ _ _ W1) | | | | | done | done | done | done].
    - intros a Ha. rewrite U1 by lia. by apply Hz.
    - rewrite F16 by lia. exact El.
    - rewrite <- Eb. unfold le32. rewrite !F16 by lia. done.
    - rewrite F16 by lia. exact En. }
  intros r s2 (-> & T & s3 & [E1 E2 E3 E4 E5 E6 E7]). split; [done|]. split; [done|]. exists s3. split; try done.
  intros a Ha. rewrite E5 by done. unfold KERNEL_BIN_BASE_ADDR in Ha.
  apply (place_all_agree l 102400); [|apply (kf_segments _ _ _ _ _ Hk) | unfold KERNEL_BIN_BASE_ADDR; lia].
  intros x Hx. pose proof (B1 x) as Bx. unfold with_sectors in *. by rewrite Bx.
Qed.

(** What the kernel's start needs of the machine. *)
Lemma boot_machine map fuel limit l phoff size s :
  keeps_pace -> (latency 0 < fuel)%nat -> good s -> p_paging s = false -> clear_tables (byte s) ->
  loader_file (disk_byte LOADER_START_SECTOR) limit ->
  Forall ards_ok map -> map <> [] -> (length map <= 12)%nat -> kernel_file kernel_img 102400 l phoff size ->
  wp (boot map fuel) s (fun r s' => r = KERNEL_ENTRY_POINT /\ boot_tables (p_mem s') /\
    load total_mem_bytes (p_mem s') = Ok (max_end 0 map, p_mem s')).
Proof.
  intros. eapply wp_mono; [by eapply (boot_ok map fuel limit l phoff size s)|]. intros r s' (-> & T & s1 & E).
  pose proof (en_tables _ _ _ _ E) as Et. split; [done|]. split; [by apply loader_boot_tables|].
  unfold load. rewrite (loader_translate _ Et total_mem_bytes) by (done || by left).
  rewrite ram_word_le32 by (done || apply Et). change (ram_byte (p_mem s')) with (byte s'). by rewrite T.
Qed.

(** ** Properties *)

(** C36: switched on with the loader and the kernel's file on the disk, a drive
    that keeps pace once it has found the first sector and a memory map of at
    most twelve areas, the machine gets to the kernel's entry point with paging
    on, page tables as [mem_init] needs them, the GDT and the stack in the
    kernel's part, the size of the memory (the largest end of an area) where
    the kernel looks for it, and every byte of every loadable segment of the
    file at its virtual address; kernel memory outside the segments is as it
    was, the part of a segment beyond its bytes in the file (.bss) included.
    Two things are asked that the loader does not see to itself.  The memory
    from 0x101400 to 0x1fffff, tables [setup_page] leaves as they are, is zero
    ([clear_tables]).  And of the kernel's file the header table and the
    segments lie within the 200 sectors that are read, the segments between
    0xc0001000 and 0xc0070000, and two segments share an address only with the
    same byte of the file, as in the page a linker starts the first segment in;
    a header without bytes in the file (GNU_STACK) may name any address. *)
Theorem boot_correct (map : list ards) (fuel : nat) (limit : Z) (l : list phdr) (phoff size : Z) (s : pc)
    (Hpace : keeps_pace) (Hfuel : (latency 0 < fuel)%nat) (Hs : good s) (Hp : p_paging s = false) (Hz : clear_tables (byte s))
    (Hloader : loader_file (disk_byte LOADER_START_SECTOR) limit)
    (Hmap : Forall ards_ok map) (Hne : map <> []) (Hlen : (length map <= 12)%nat)
    (Hkernel : kernel_file (disk_byte KERNEL_START_SECTOR) 102400 l phoff size) (Hagree : segments_agree l) :
  exists s', boot map fuel s = Ok (KERNEL_ENTRY_POINT, s') /\ boot_tables (p_mem s') /\ p_paging s' = true /\
    p_gdtr s' = (limit, 0xc0000900) /\ p_esp s' = 0xc009f000 /\
    load total_mem_bytes (p_mem s') = Ok (max_end 0 map, p_mem s') /\
    (forall p i, p ∈ l -> loadable p -> 0 <= i < ph_filesz p ->
      load_byte (ph_vaddr p + i) s' = Ok (disk_byte KERNEL_START_SECTOR (ph_offset p + i), s')) /\
    (forall a, 0x1100 <= a < KERNEL_BIN_BASE_ADDR -> Forall (fun p => ~ covers p a) l -> byte s' a = byte s a).
Proof.
  destruct (wp_ok_inv _ _ _ (boot_ok map fuel limit l phoff size s Hpace Hfuel Hs Hp Hz Hloader Hmap Hne Hlen Hkernel))
    as (r & s' & E & -> & T & s1 & [E1 E2 E3 E4 E5 E6 E7]).
  pose proof (kf_segments _ _ _ _ _ Hkernel) as Hseg. exists s'.
  split; [exact E|]. split; [by apply loader_boot_tables|]. split; [done|]. split; [done|]. split; [done|]. split; [|split].
  - unfold load. rewrite (loader_translate _ E1 total_mem_bytes) by (done || by left).
    rewrite ram_word_le32 by (done || apply E1). change (ram_byte (p_mem s')) with (byte s'). by rewrite T.
  - intros p i Hin Hl Hi. assert (copied p) as Hc by (split; [done | lia]).
    rewrite Forall_forall in Hseg. destruct (Hseg p Hin Hc) as [O1 O3 O4 O5]. rewrite <- Forall_forall in Hseg.
    rewrite (load_byte_ok s' _ (ph_vaddr p - 0xc0000000 + i)); [|by split; [apply E1|]|split; [lia | right; split; [done | lia]]].
    rewrite E5 by (unfold KERNEL_BIN_BASE_ADDR; lia). rewrite (place_all_in 102400 l _ p) by (done || (split; [done | lia])).
    unfold with_sectors, KERNEL_BIN_BASE_ADDR.
    destruct (Z.leb_spec 0x70000 (0x70000 + ph_offset p + (ph_vaddr p - 0xc0000000 + i - (ph_vaddr p - 0xc0000000)))),
      (Z.ltb_spec (0x70000 + ph_offset p + (ph_vaddr p - 0xc0000000 + i - (ph_vaddr p - 0xc0000000))) (0x70000 + 512 * 200)); try lia.
    simpl. do 3 f_equal. lia.
  - intros a Ha Hout. rewrite E5 by lia. rewrite place_all_out by done. unfold with_sectors.
    destruct (Z.leb_spec KERNEL_BIN_BASE_ADDR a); [lia|]. unfold LOADER_BASE_ADDR.
    destruct (Z.ltb_spec a (0x900 + 512 * 4)); [lia|]. by rewrite !andb_false_r.
Qed.

(** C37: the size of the memory is the largest end of an area below 2 GB; an area
    that ends at or above is not seen at all. *)
Theorem mem_get_correct (map : list ards) (s : pc)
    (Hs : good s) (Hmap : Forall ards_ok map) (Hne : map <> []) (Hlen : (length map <= 12)%nat) (Hnr : le16 (byte s) ards_nr = 0) :
  exists s' size, mem_get map s = Ok (tt, s') /\ le32 (byte s') total_mem_bytes = size /\ 0 <= size < 0x80000000 /\
    (size = 0 \/ size ∈ area_end <$> map) /\ (forall e, e ∈ map -> area_end e < 0x80000000 -> area_end e <= size) /\
    (forall x, x < total_mem_bytes \/ gdt_ptr <= x < ards_buf \/ ards_nr + 2 <= x -> byte s' x = byte s x).
Proof.
  destruct (wp_ok_inv _ _ _ (mem_get_ok map s Hs Hmap Hne Hlen Hnr)) as ([] & s' & E & f & W & T & U).
  destruct (max_end_spec map 0 ltac:(lia)) as (M1 & M2 & M3). exists s', (max_end 0 map). split; [exact E|].
  split; [rewrite <- T; apply le32_ext; intros; apply W|]. split; [done|]. split; [done|]. split; [done|].
  intros x Hx. rewrite (wr_bytes _ _ _ W). by apply U.
Qed.
End Loading.

(** *** Concrete instance: a small kernel file, 32 MB of memory *)
Definition example_words (k : Z) : Z :=
  default 0 (list_to_map (M := gmap Z Z)
    [(256 * 2 + 258, 31); (256 * 2 + 259, 0x900);
     (256 * 9 + 14, 52); (256 * 9 + 21, 32); (256 * 9 + 22, 2);
     (256 * 9 + 26, 1); (256 * 9 + 30, 0x1000); (256 * 9 + 31, 0xc000); (256 * 9 + 34, 0x504);
     (256 * 9 + 42, 0xe551); (256 * 9 + 43, 0x6474);
     (256 * 11 + 128, 0xbeef); (256 * 11 + 129, 0xdead)] !! k).

#[local] Instance example_drive : Drive := {|
  sector := fun lba i => example_words (256 * lba + i); latency := fun k => if k =? 0 then 3%nat else 0%nat; noise := 0xffff |}.

Definition example_pc : pc := Pc (Mmu ∅ 0) false (0, 0) 0 (Ata 0 0 0 0 0 0 0 0 0).

Definition example_map : list ards := [Ards 0 0 0x9fc00 0 1; Ards 0x100000 0 0x1f00000 0 1].

(** The headers that [ld -Ttext 0xc0001500] makes: the segment of the code
    takes the ELF header with it, to the page below, and [PT_GNU_STACK] has no
    bytes in the file. *)
Definition example_phdrs : list phdr := [Phdr 1 0 0xc0001000 0x504; Phdr 0x6474e551 0 0 0].

Lemma example_pc_byte a : byte example_pc a = 0.
Proof. unfold byte, ram_byte, ram_word, word_byte. simpl. by rewrite lookup_empty, Z.shiftr_0_l. Qed.

Lemma example_kernel_file : kernel_file (disk_byte KERNEL_START_SECTOR) 102400 example_phdrs 52 32.
Proof.
  split; try (by vm_compute); try done.
  constructor; [intros _; split; simpl; lia|]. constructor; [|constructor]. intros [_ Hf]. simpl in Hf. lia.
Qed.

Lemma example_segments_agree : segments_agree example_phdrs.
Proof.
  assert (forall p a, p ∈ example_phdrs -> covers p a -> ph_vaddr p - ph_offset p = 0xc0001000) as H.
  { intros p a Hp [[_ Hf] _]. repeat (apply elem_of_cons in Hp as [->|Hp]; [simpl in *; lia|]). by apply elem_of_nil in Hp. }
  intros p q a Hp Hq Ha Hb. by rewrite (H p a), (H q a).
Qed.

Lemma example_pace : keeps_pace.
Proof. intros k Hk. simpl. by destruct (Z.eqb_spec k 0); [lia|]. Qed.

Lemma example_loader_file : loader_file (disk_byte LOADER_START_SECTOR) 31.
Proof. by split; vm_compute. Qed.

Lemma example_areas_ok : Forall ards_ok example_map.
Proof. repeat constructor; unfold is_u32; simpl; lia. Qed.

Lemma boot_correct_witness :
  exists s', boot example_map 4 example_pc = Ok (KERNEL_ENTRY_POINT, s') /\ boot_tables (p_mem s') /\
    load total_mem_bytes (p_mem s') = Ok (0x2000000, p_mem s') /\ load_byte 0xc0001500 s' = Ok (0xef, s').
Proof.
  destruct (boot_correct example_map 4 31 example_phdrs 52 32 example_pc) as (s' & E & B & _ & _ & _ & L & S & _).
  - exact example_pace.
  - simpl. lia.
  - by split.
  - reflexivity.
  - intros a _. apply example_pc_byte.
  - exact example_loader_file.
  - exact example_areas_ok.
  - discriminate.
  - simpl. lia.
  - exact example_kernel_file.
  - exact example_segments_agree.
  - exists s'. split; [exact E|]. split; [exact B|]. split; [exact L|].
    apply (S (Phdr 1 0 0xc0001000 0x504) 0x500); [by left | by vm_compute | simpl; lia].
Defined.

Lemma mem_get_correct_witness :
  exists s' size, mem_get example_map example_pc = Ok (tt, s') /\ le32 (byte s') total_mem_bytes = size.
Proof.
  destruct (mem_get_correct example_map example_pc) as (s' & size & E & T & _).
  - by split.
  - exact example_areas_ok.
  - discriminate.
  - simpl. lia.
  - by vm_compute.
  - exists s', size. split; [exact E | exact T].
Defined.

(** ** What the hypotheses exclude *)

(** A machine with one area that ends at 3 GB: no memory is seen. *)
Example area_beyond_2gb : max_end 0 [Ards 0x100000 0 0xbff00000 0 1] = 0.
Proof. reflexivity. Qed.

(** The thirteenth area is written over the count of areas and the code behind
    it. *)
Example thirteenth_area :
  match e820_mem_get_loop (replicate 13 (Ards 1 0 2 0 1)) ards_buf example_pc with
  | Ok (_, s) => le16 (byte s) ards_nr = 1 /\ byte s (ards_nr + 2) = 0 /\ byte s (ards_buf + 252) = 0 /\ le16 (byte s) (ards_buf + 240) = 1
  | _ => False
  end.
Proof. vm_compute. auto. Qed.

(** A drive that is busy before the second sector: the loader does not ask
    again and stores what the data register holds. *)
Definition slow_drive : Drive := {|
  sector := fun lba i => 7; latency := fun k => if k =? 1 then 1%nat else 0%nat; noise := 0xffff |}.

Example second_sector_early :
  match @rd_disk_m_32 slow_drive 1 9 0x70000 2 example_pc with
  | Ok (_, s) => le16 (byte s) 0x701fe = 7 /\ le16 (byte s) 0x70200 = 0xffff
  | _ => False
  end.
Proof. vm_compute. auto. Qed.
