(* ===== verification/Pages.v ===== *)
(** * Whole pages under the pool's lock: kernel/memory.c (get_kernel_pages,
      get_user_pages, get_a_page)

    The callers of the page allocator.  Each takes the lock of a pool around
    its work; what a lock promises to them is the class [PoolLocks], and the
    locks of thread/sync.c are an instance of it (PoolLocks.v). *)
From stdpp Require Import base numbers list gmap fin_maps.
From Stdlib Require Import ZArith Lia.
From S2P Require Import Prelude Globals Bitmap Paging PageAlloc PageFree.

(** ** Interface to the locks

    The state [St] holds the part [X] that a pool's lock protects.  Acquiring
    a lock that nobody contends for and releasing it again neither stops nor
    blocks, and between the two the protected part may change at will: what is
    left is that change. *)
Class PoolLocks (St X : Type) := {
  inner : lens St X;
  pool_acquire : pool_flags -> M St unit;   (* lock_acquire(&mem_pool->lock) *)
  pool_release : pool_flags -> M St unit;   (* lock_release(&mem_pool->lock) *)
  uncontended : pool_flags -> St -> Prop;
  bracket_law : forall pf s, uncontended pf s -> exists s',
    undisturbed (pool_acquire pf s) = Ok (tt, s') /\ view inner s' = view inner s /\
    forall x, undisturbed (pool_release pf (put inner x s')) = Ok (tt, put inner x s);
  uncontended_inner : forall pf s x, uncontended pf s -> uncontended pf (put inner x s);
}.

(** Locks that protect a state protect a part of it. *)
Definition pool_locks_part {St X Y} `{!PoolLocks St X} (l : lens X Y) : PoolLocks St Y.
Proof.
  refine {| inner := lens_comp inner l; pool_acquire := pool_acquire; pool_release := pool_release;
            uncontended := uncontended |}; [|intros pf s y Hun; by apply uncontended_inner].
  intros pf s Hun. destruct (bracket_law pf s Hun) as (s' & Ea & Ev & Er). exists s'. split; [done|].
  simpl. rewrite Ev. split; [done|]. intros y. apply Er.
Defined.

(** ** Operations *)

(** [malloc_page] and [memset(vaddr, 0, pg_cnt * PG_SIZE)]. *)
Definition zero_pages (pf : pool_flags) (pg_cnt : Z) : M mem_state Z :=
  vaddr ← malloc_page pf pg_cnt;
  when (negb (vaddr =? NULL))
    (zoom machine_lens (zero_words vaddr (Z.to_nat (u32 (pg_cnt * PG_SIZE) / 4)))) ;;;
  mret vaddr.

(** The first half of [get_a_page]: the bit of the page is set. *)
Definition claim_page (pf : pool_flags) (vaddr : Z) : M mem_state unit :=
  s ← get;
  if negb (cur_pgdir s =? NULL) && bool_decide (pf = PF_USER) then
    let bit_idx := s32 (u32 (vaddr - vaddr_start (userprog_vaddr_pool s)) / PG_SIZE) in
    ASSERT (0 <=? bit_idx) ;;;
    zoom (lens_comp (vpool_lens PF_USER) vpool_bitmap_lens) (bitmap_set (u32 bit_idx) 1)
  else if (cur_pgdir s =? NULL) && bool_decide (pf = PF_KERNEL) then
    let bit_idx := s32 (u32 (vaddr - vaddr_start (kernel_vaddr_pool s)) / PG_SIZE) in
    ASSERT (0 <=? bit_idx) ;;;
    zoom (lens_comp (vpool_lens PF_KERNEL) vpool_bitmap_lens) (bitmap_set (u32 bit_idx) 1)
  else PANIC.

Section Pages.
Context {St : Type} `{!PoolLocks St mem_state}.

Definition with_mem {A} (m : M mem_state A) : M St A := zoom inner m.

(** The common body of [get_kernel_pages] and [get_user_pages]. *)
Definition get_pages (pf : pool_flags) (pg_cnt : Z) : M St Z :=
  pool_acquire pf ;;;
  vaddr ← with_mem (zero_pages pf pg_cnt);
  pool_release pf ;;;
  mret vaddr.

Definition get_kernel_pages (pg_cnt : Z) : M St Z := get_pages PF_KERNEL pg_cnt.
Definition get_user_pages (pg_cnt : Z) : M St Z := get_pages PF_USER pg_cnt.

Definition get_a_page (pf : pool_flags) (vaddr : Z) : M St Z :=
  pool_acquire (flags_pool pf) ;;;
  with_mem (claim_page pf vaddr) ;;;
  page_phyaddr ← with_mem (zoom (pool_lens (flags_pool pf)) palloc);
  if page_phyaddr =? NULL then mret NULL
  else
    with_mem (page_table_map vaddr page_phyaddr) ;;;
    pool_release (flags_pool pf) ;;;
    mret vaddr.
End Pages.

(** ** Clearing mapped pages *)

(** A frame of the tables and an unrelated frame share no word. *)
Lemma pt_frame_entry m f : pt_wf m -> pt_frame m f -> exists e, is_u32 e /\ f = frame_of e.
Proof.
  intros Hwf [->|(i & _ & _ & <-)].
  - exists (cr3 m). split; [apply Hwf | done].
  - exists (dir_entry m i). split; [|done]. apply ram_word_u32, Hwf.
Qed.

Lemma page_frame_entry m va f : pt_wf m -> page_frame m va = Some f -> exists e, is_u32 e /\ f = frame_of e.
Proof.
  intros Hwf Hf. apply page_frame_present in Hf as [_ <-]. exists (pte_of m va).
  split; [|done]. apply ram_word_u32, Hwf.
Qed.

Definition words_ok (m : mmu) : Prop := map_Forall (fun _ v => is_u32 v) (ram m).

(** Two machines with the same words in the frames of the tables translate
    alike. *)
Lemma tables_agree m m' :
  pt_wf m -> cr3 m' = cr3 m -> words_ok m' ->
  (forall f k, pt_frame m f -> 0 <= k < 1024 -> ram_word m' (f + 4 * k) = ram_word m (f + 4 * k)) ->
  pt_wf m' /\ (forall i, 0 <= i < 1024 -> dir_entry m' i = dir_entry m i) /\
  (forall v, managed v -> translate m' v = translate m v).
Proof.
  intros Hwf Hc Hw Heq.
  assert (forall i, 0 <= i < 1024 -> dir_entry m' i = dir_entry m i) as Hdir.
  { intros i Hi. unfold dir_entry. rewrite Hc. apply Heq; [by left | done]. }
  split; [|split; [done|]].
  - destruct Hwf as [_ W2 W3 W4 W5]. split; [done | by rewrite Hc | | |].
    + destruct W3 as [Wp Wf]. pose proof (Hdir 1023 ltac:(lia)) as E. unfold dir_entry in E.
      unfold self_mapped. rewrite E, Hc. done.
    + intros i Hi. rewrite Hdir, Hc by lia. by apply W4.
    + intros i j Hi Hj Hne. rewrite !Hdir by lia. by apply W5.
  - intros v [Hu Hd]. apply translate_ext; [done | apply Hdir; lia|]. intros Hp. unfold pte_addr.
    apply Heq; [|apply PTE_IDX_range]. right. exists (PDE_IDX v). rewrite <- pde_of_dir. split; [lia | done].
Qed.

(** [n] words from [va] on are zero, and nothing else has changed. *)
Record cleared (m m' : mmu) (va n : Z) : Prop := {
  cl_cr3 : cr3 m' = cr3 m;
  cl_words : words_ok m';
  cl_zero : forall i pa, 0 <= i < n -> translate m (va + 4 * i) = Some pa -> ram_word m' pa = 0;
  cl_rest : forall a, (forall i, 0 <= i < n -> translate m (va + 4 * i) <> Some a) -> ram_word m' a = ram_word m a;
}.

(** [n] pages from [va] on are mapped to frames that hold no tables. *)
Definition data_pages (m : mmu) (va n : Z) : Prop := forall k, 0 <= k < n ->
  managed (va + k * 4096) /\ exists f, page_frame m (va + k * 4096) = Some f /\ ~ pt_frame m f.

Lemma data_word m va n i :
  pt_wf m -> va mod 4096 = 0 -> data_pages m va n -> 0 <= i < 1024 * n ->
  exists f, translate m (va + 4 * i) = Some (f + 4 * (i mod 1024)) /\ managed (va + 4 * i) /\
    (exists e, is_u32 e /\ f = frame_of e) /\ ~ pt_frame m f.
Proof.
  intros Hwf Hal Hd Hi. pose proof (Z.div_mod i 1024 ltac:(lia)) as E. pose proof (Z.mod_pos_bound i 1024).
  assert (0 <= i / 1024 < n) as Hk by (split; [apply Z.div_pos | apply Z.div_lt_upper_bound]; lia).
  destruct (Hd _ Hk) as ([Hu Hdir] & f & Hf & Hn).
  assert (((va + i / 1024 * 4096) mod 4096) = 0) as Hal' by (by rewrite Z_mod_plus_full).
  destruct (page_word_addr (va + i / 1024 * 4096) (i mod 1024) Hu Hal') as (_ & Hu' & Hpg & Hoff); [lia|].
  replace (va + i / 1024 * 4096 + 4 * (i mod 1024)) with (va + 4 * i) in * by lia.
  exists f. split; [|split; [|split; [by eapply page_frame_entry | done]]].
  - rewrite (translate_page_offset m _ _ Hu Hu' Hpg), Hoff. unfold page_frame in Hf.
    destruct (present _ && present _); [|done]. by injection Hf as ->.
  - split; [done|]. by rewrite <- (proj1 (same_page_idx _ _ Hu Hu' Hpg)).
Qed.

(** Nothing outside the first [n] words from [va] on has changed. *)
Record changed (m m' : mmu) (va n : Z) : Prop := {
  ch_cr3 : cr3 m' = cr3 m;
  ch_words : words_ok m';
  ch_rest : forall a, (forall i, 0 <= i < n -> translate m (va + 4 * i) <> Some a) -> ram_word m' a = ram_word m a;
}.

Lemma cleared_changed m m' va n : cleared m m' va n -> changed m m' va n.
Proof. by intros []; split. Qed.

Lemma changed_agree m m' va n j :
  pt_wf m -> va mod 4096 = 0 -> data_pages m va n -> j <= 1024 * n -> changed m m' va j ->
  pt_wf m' /\ (forall i, 0 <= i < 1024 -> dir_entry m' i = dir_entry m i) /\
  (forall v, managed v -> translate m' v = translate m v).
Proof.
  intros Hwf Hal Hd Hj Hcl. apply tables_agree; [done | apply Hcl | apply Hcl|].
  intros f k Hf Hk. apply (ch_rest _ _ _ _ Hcl). intros i Hi E.
  destruct (data_word m va n i Hwf Hal Hd) as (g & Htr & _ & (e & He & ->) & Hn); [lia|].
  rewrite E in Htr. injection Htr as Heq. destruct (pt_frame_entry m f Hwf Hf) as (e' & He' & ->).
  apply frame_word_neq in Heq as [Heq _]; try done; [|by apply Z.mod_pos_bound].
  rewrite Heq in Hf. done.
Qed.

Lemma cleared_agree m m' va n j :
  pt_wf m -> va mod 4096 = 0 -> data_pages m va n -> j <= 1024 * n -> cleared m m' va j ->
  pt_wf m' /\ (forall i, 0 <= i < 1024 -> dir_entry m' i = dir_entry m i) /\
  (forall v, managed v -> translate m' v = translate m v).
Proof. intros Hwf Hal Hd Hj Hcl. apply (changed_agree m m' va n j); try done. by apply cleared_changed. Qed.

Lemma cleared_step m m' va i pa :
  cleared m m' va i -> 0 <= i -> translate m (va + 4 * i) = Some pa ->
  cleared m (ram_store pa 0 m') va (i + 1).
Proof.
  intros [Hc Hw Hz Hr] Hi Htr. split.
  - done.
  - apply words_store; [done|]. unfold is_u32. lia.
  - intros j pa' Hj Hpa. rewrite ram_word_store. destruct (Z.eqb_spec pa' pa); [done|].
    apply (Hz j); [|done]. assert (j <> i) by congruence. lia.
  - intros a Ha. rewrite ram_word_store. destruct (Z.eqb_spec a pa) as [->|].
    + by destruct (Ha i ltac:(lia)).
    + apply Hr. intros j Hj. apply Ha. lia.
Qed.

Lemma zero_pages_ok m va n :
  pt_wf m -> va mod 4096 = 0 -> 0 <= n -> data_pages m va n ->
  wp (zero_words va (Z.to_nat (1024 * n))) m (fun _ m' => cleared m m' va (1024 * n)).
Proof.
  intros Hwf Hal Hn Hd. unfold zero_words.
  apply (wp_for_loop _ _ _ _ (fun i m' => cleared m m' va i)).
  - split; [done | apply Hwf | lia | done].
  - intros i m' Hi Hcl. destruct (data_word m va n i Hwf Hal Hd) as (f & Htr & Hm & _); [lia|].
    rewrite u32_id by apply Hm. eapply wp_store.
    + rewrite (proj2 (proj2 (cleared_agree m m' va n i Hwf Hal Hd ltac:(lia) Hcl))) by done. exact Htr.
    + apply cleared_step; [done | lia | done].
  - intros m'. by replace (0 + Z.of_nat (Z.to_nat (1024 * n))) with (1024 * n) by lia.
Qed.

(** The page [va] of the pool is handed out and mapped to a frame that holds
    data. *)
Definition page_in_use (pf : pool_flags) (s : mem_state) (va : Z) : Prop :=
  vaddr_range (vpool_get pf s) va 1 /\ ~ vaddr_free (vpool_get pf s) va /\ freeable s va 1.

Lemma mem_ok_changed s m' va n :
  mem_ok s -> va mod 4096 = 0 -> data_pages (machine s) va n -> changed (machine s) m' va (1024 * n) ->
  mem_ok (put machine_lens m' s) /\
  (forall v, managed v -> page_frame m' v = page_frame (machine s) v) /\
  (forall f, pt_frame m' f <-> pt_frame (machine s) f).
Proof.
  intros Hok Hal Hd Hcl. pose proof (mo_pt s Hok) as Hwf.
  destruct (changed_agree _ _ _ _ _ Hwf Hal Hd (Z.le_refl _) Hcl) as (Hwf' & Hdir & Htr).
  assert (forall v, managed v -> page_frame m' v = page_frame (machine s) v) as Hpf.
  { intros v Hv. by apply page_frame_translate, Htr. }
  assert (forall f, pt_frame m' f <-> pt_frame (machine s) f) as Hpt.
  { intros f. split; apply pt_frame_dir; try apply Hcl; try done; [symmetry; apply Hcl|].
    intros i Hi. symmetry. by apply Hdir. }
  split; [|done]. apply mem_ok_machine; try done.
  - intros f Hf. apply (mo_tables s Hok). by apply Hpt.
  - intros v f Hv. rewrite Hpf by done. by apply (mo_mapped s Hok).
  - intros v v' f Hv Hv'. rewrite !Hpf by done. by apply (mo_inj s Hok).
  - intros pf v Hl Hv. destruct (free_vaddr_managed s pf v Hok Hl Hv) as [Hm _].
    rewrite Hpf by done. by apply (mo_unmapped s Hok pf).
Qed.

Lemma mem_ok_cleared s m' va n :
  mem_ok s -> va mod 4096 = 0 -> data_pages (machine s) va n -> cleared (machine s) m' va (1024 * n) ->
  mem_ok (put machine_lens m' s) /\
  (forall v, managed v -> page_frame m' v = page_frame (machine s) v) /\
  (forall f, pt_frame m' f <-> pt_frame (machine s) f).
Proof. intros Hok Hal Hd Hcl. apply (mem_ok_changed s m' va n); try done. by apply cleared_changed. Qed.

(** *** Pages in use stay in use *)
Lemma in_use_page pf s va :
  page_in_use pf s va -> managed va /\ exists f q, page_frame (machine s) va = Some f /\
    frame_used (pool_get q s) f /\ ~ pt_frame (machine s) f.
Proof. intros (_ & _ & H). specialize (H 0 ltac:(lia)). by rewrite Z.mul_0_l, Z.add_0_r in H. Qed.

Lemma page_in_use_intro pf s va f q :
  vaddr_range (vpool_get pf s) va 1 -> ~ vaddr_free (vpool_get pf s) va -> managed va ->
  page_frame (machine s) va = Some f -> frame_used (pool_get q s) f -> ~ pt_frame (machine s) f ->
  page_in_use pf s va.
Proof.
  intros Hr Hv Hm Hf Hu Hn. split; [done|]. split; [done|]. intros k Hk. assert (k = 0) as -> by lia.
  rewrite Z.mul_0_l, Z.add_0_r. split; [done|]. by exists f, q.
Qed.

Lemma frame_used_mono p p' f :
  same_pool p p' -> (frame_free p' f -> frame_free p f) -> frame_used p f -> frame_used p' f.
Proof.
  intros Hs Hfr Hu. apply frame_used_iff in Hu as [Hin Hnf]. apply frame_used_iff. split; [|auto].
  by apply (frame_in_same p p').
Qed.

Lemma vaddr_range_same p p' va n :
  vaddr_start p' = vaddr_start p -> nbits (vaddr_bitmap p') = nbits (vaddr_bitmap p) ->
  vaddr_range p va n -> vaddr_range p' va n.
Proof. intros E1 E2. unfold vaddr_range. by rewrite E1, E2. Qed.

(** A mapped data page is in no free frame and its frame never becomes a
    table. *)
Lemma in_use_allocated pf s s' va n v :
  mem_ok s -> live s pf -> allocated pf s s' va n -> page_in_use pf s v ->
  page_in_use pf s' v /\ page_frame (machine s') v = page_frame (machine s) v.
Proof.
  intros Hok Hl (Hrun & p' & Ht & P) Huse. pose proof Ht as (T1 & T2 & T3 & T4 & T5).
  destruct (in_use_page _ _ _ Huse) as (Hm & f & q & Hf & Hu & Hn). destruct Huse as (Hr & Hv & _).
  assert (vpool_get pf s' = p') as Hv1.
  { rewrite (pm_vpool _ _ _ _ _ P), vpool_get_put. by rewrite decide_True. }
  assert (~ va <= v < va + n * 4096) as Hout.
  { intros Hin. apply Hv. assert (exists k, 0 <= k < n /\ v = va + k * 4096) as (k & Hk & ->); [|by apply T4].
    destruct Hr as (i & _ & _ & ->). destruct Hrun as (j & _ & _ & ->). exists (i - j). lia. }
  assert (page_frame (machine s') v = page_frame (machine s) v) as Hpf.
  { rewrite (pm_other _ _ _ _ _ P) by done. by rewrite machine_put_vpool. }
  split; [|done]. apply (page_in_use_intro _ _ _ f q).
  - rewrite Hv1. by eapply vaddr_range_same.
  - rewrite Hv1, T5. naive_solver.
  - done.
  - by rewrite Hpf.
  - rewrite <- (pool_get_put_vpool pf q p' s) in Hu. eapply frame_used_mono; [| |exact Hu].
    + apply (pm_pool _ _ _ _ _ P).
    + apply (pm_free _ _ _ _ _ P).
  - intros Hpt. destruct (pm_pt _ _ _ _ _ P f Hpt) as [H|[q' H]].
    + rewrite machine_put_vpool in H. done.
    + rewrite pool_get_put_vpool in H. apply (mo_mapped s Hok v f Hm Hf). by exists q'.
Qed.

Lemma in_use_cleared pf s m' v :
  (forall v, managed v -> page_frame m' v = page_frame (machine s) v) ->
  (forall f, pt_frame m' f <-> pt_frame (machine s) f) ->
  page_in_use pf s v -> page_in_use pf (put machine_lens m' s) v.
Proof.
  intros Hpf Hpt Huse. destruct (in_use_page _ _ _ Huse) as (Hm & f & q & Hf & Hu & Hn).
  destruct Huse as (Hr & Hv & _).
  assert (vpool_get pf (put machine_lens m' s) = vpool_get pf s) as E by by destruct pf.
  apply (page_in_use_intro _ _ _ f q); rewrite ?E; try done.
  - simpl. by rewrite Hpf.
  - simpl. by rewrite Hpt.
Qed.

Lemma in_use_released pf s s' va n v :
  mem_ok s -> live s pf -> released pf s s' va n -> page_in_use pf s v -> ~ va <= v < va + n * 4096 ->
  (forall k, 0 <= k < n -> page_in_use pf s (va + k * 4096)) -> v mod 4096 = 0 -> va mod 4096 = 0 ->
  page_in_use pf s' v /\ page_frame (machine s') v = page_frame (machine s) v.
Proof.
  intros Hok Hl Hrel Huse Hout Hall Hav Hava. pose proof (released_facts _ _ _ _ _ Hrel) as (R1 & R2 & R3).
  destruct (in_use_page _ _ _ Huse) as (Hm & f & q & Hf & Hu & Hn). destruct Huse as (Hr & Hv & _).
  assert (page_frame (machine s') v = page_frame (machine s) v) as Hpf.
  { rewrite R1 by done. by destruct (Z.leb_spec va v), (Z.ltb_spec v (va + n * 4096)); simpl; try lia. }
  split; [|done]. destruct Hrel as (s1 & p' & P & (G1 & G2 & G3 & _) & Es').
  apply (page_in_use_intro _ _ _ f q).
  - rewrite Es', vpool_get_put, decide_True by done. by eapply vaddr_range_same.
  - rewrite R2. intros [H|(k & Hk & ->)]; [done|]. lia.
  - done.
  - by rewrite Hpf.
  - eapply frame_used_mono; [| |exact Hu].
    + rewrite Es', pool_get_put_vpool. apply (pu_pool _ _ _ _ P).
    + rewrite R3. intros [H|(_ & k & Hk & E)]; [done|]. exfalso.
      destruct (in_use_page _ _ _ (Hall k Hk)) as (Hmk & _).
      pose proof (mo_inj s Hok _ _ f Hm Hmk Hf E) as Hpg.
      apply aligned_same_page in Hpg; [lia | done | by rewrite Z_mod_plus_full].
  - intros Hpt. rewrite Es', machine_put_vpool in Hpt. apply Hn.
    apply (pt_frame_dir (machine s) (machine s1)); [apply P | by apply P | done].
Qed.

(** *** Allocating cleared pages *)

(** [n] pages from [va] on were free and are now in use, zero, each on a frame
    that was free; everything else is as it was. *)
Record got_pages (pf : pool_flags) (s s' : mem_state) (va n : Z) : Prop := {
  gp_ok : mem_ok s';
  gp_pgdir : cur_pgdir s' = cur_pgdir s;
  gp_size : forall q, pool_size (pool_get q s') = pool_size (pool_get q s);
  gp_run : first_run (vpool_get pf s) va n;
  gp_other : forall q, q <> pf -> vpool_get q s' = vpool_get q s;
  gp_start : vaddr_start (vpool_get pf s') = vaddr_start (vpool_get pf s);
  gp_vaddr : forall v, vaddr_free (vpool_get pf s') v <->
    vaddr_free (vpool_get pf s) v /\ ~ va <= v < va + n * 4096;
  gp_page : forall k, 0 <= k < n -> vaddr_free (vpool_get pf s) (va + k * 4096) /\
    page_in_use pf s' (va + k * 4096) /\
    exists f, page_frame (machine s') (va + k * 4096) = Some f /\ frame_free (pool_get pf s) f;
  gp_zero : forall i, 0 <= i < 1024 * n -> exists pa,
    translate (machine s') (va + 4 * i) = Some pa /\ ram_word (machine s') pa = 0;
  gp_keep : forall v, page_in_use pf s v ->
    page_in_use pf s' v /\ page_frame (machine s') v = page_frame (machine s) v;
  gp_data : forall v f k, page_in_use pf s v -> page_frame (machine s) v = Some f -> 0 <= k < 1024 ->
    ram_word (machine s') (f + 4 * k) = ram_word (machine s) (f + 4 * k);
  gp_frames : forall q, free_count (pool_get q s) - (if decide (q = pf) then n else 0) -
    (if decide (q = PF_KERNEL) then tables n else 0) <= free_count (pool_get q s');
}.

Lemma allocated_data pf s s1 va n :
  mem_ok s -> live s pf -> allocated pf s s1 va n -> data_pages (machine s1) va n.
Proof.
  intros Hok Hl (_ & p' & (_ & _ & _ & T4 & _) & P) k Hk.
  destruct (free_vaddr_managed s pf _ Hok Hl (T4 k Hk)) as [Hm _]. split; [done|].
  destruct (pm_pages _ _ _ _ _ P k Hk) as (f & Hf & _ & Hn). by exists f.
Qed.

Lemma run_aligned pf s va n : mem_ok s -> live s pf -> first_run (vpool_get pf s) va n -> va mod 4096 = 0.
Proof. intros Hok Hl (i & _ & _ & ->). rewrite Z_mod_plus_full. by apply (mo_vpool s Hok pf Hl). Qed.

(** The contents of a page in use survive. *)
Lemma in_use_data_kept pf s s1 m' va n v f k :
  mem_ok s -> live s pf -> 0 < n -> allocated pf s s1 va n -> cleared (machine s1) m' va (1024 * n) ->
  page_in_use pf s v -> page_in_use pf s1 v -> page_frame (machine s1) v = Some f -> 0 <= k < 1024 ->
  ram_word m' (f + 4 * k) = ram_word (machine s) (f + 4 * k).
Proof.
  intros Hok Hl Hn Ha Hcl Hv Hv1 Hf Hk. destruct (in_use_page _ _ _ Hv1) as (Hm & g & _ & Hg & _ & Hnpt).
  rewrite Hf in Hg. injection Hg as <-.
  destruct (allocated_freeable pf s s1 va n Hok Hl Hn Ha) as (Hok1 & _).
  destruct (page_frame_entry _ _ _ (mo_pt _ Hok1) Hf) as (e & He & Ee).
  assert (f mod 4096 = 0) as Hal by (rewrite Ee; by apply frame_of_aligned).
  pose proof (allocated_data _ _ _ _ _ Hok Hl Ha) as Hd. pose proof (run_aligned pf s va n Hok Hl (proj1 Ha)) as Hva.
  pose proof Ha as (Hrun & p' & (_ & _ & _ & T4 & _) & P).
  rewrite (cl_rest _ _ _ _ Hcl).
  - rewrite (pm_data _ _ _ _ _ P) by done. by rewrite machine_put_vpool.
  - intros i Hi E. destruct (data_word _ va n i (mo_pt _ Hok1) Hva Hd Hi) as (g & Htr & Hmi & (e' & He' & Ee') & _).
    assert (page_frame (machine s1) (va + 4 * i) = Some f) as Hpf.
    { rewrite translate_page_frame in E. destruct (page_frame (machine s1) (va + 4 * i)) as [f'|] eqn:Ef; [|done].
      simpl in E. injection E as E. destruct (page_frame_entry _ _ _ (mo_pt _ Hok1) Ef) as (e2 & He2 & Ee2).
      assert (f' mod 4096 = 0) by (rewrite Ee2; by apply frame_of_aligned).
      rewrite land_low_12 in E. f_equal. Z.div_mod_to_equations. lia. }
    pose proof (mo_inj s1 Hok1 _ _ f Hm Hmi Hf Hpf) as Hpg.
    destruct Hv as ((j & Hj & _ & Ev) & Hnfree & _).
    assert (v mod 4096 = 0) as Hvm.
    { rewrite Ev, Z_mod_plus_full. by apply (mo_vpool s Hok pf Hl). }
    apply Hnfree. assert (v = va + (i / 1024) * 4096) as ->.
    { pose proof (Z.div_mod v 4096 ltac:(lia)). pose proof (Z.div_mod va 4096 ltac:(lia)). Z.div_mod_to_equations. lia. }
    apply T4. split; [apply Z.div_pos | apply Z.div_lt_upper_bound]; lia.
Qed.

Lemma got_pages_intro pf s s1 m' va n :
  mem_ok s -> live s pf -> 0 < n -> allocated pf s s1 va n -> cleared (machine s1) m' va (1024 * n) ->
  got_pages pf s (put machine_lens m' s1) va n.
Proof.
  intros Hok Hl Hn Ha Hcl. destruct (allocated_freeable pf s s1 va n Hok Hl Hn Ha) as (Hok1 & Hl1 & Hr1 & Hf1).
  pose proof (allocated_data _ _ _ _ _ Hok Hl Ha) as Hd. pose proof (allocated_pages _ _ _ _ _ Ha) as (_ & A2 & _ & A4).
  pose proof (run_aligned pf s va n Hok Hl (proj1 Ha)) as Hal.
  destruct (mem_ok_cleared s1 m' va n Hok1 Hal Hd Hcl) as (Hok' & Hpf & Hpt).
  assert (vpool_get pf (put machine_lens m' s1) = vpool_get pf s1) as Ev by by destruct pf.
  assert (forall q, pool_get q (put machine_lens m' s1) = pool_get q s1) as Eq by by intros [].
  split.
  - done.
  - destruct Ha as (_ & p' & _ & P). simpl. rewrite (pm_pgdir _ _ _ _ _ P). apply pgdir_put_vpool.
  - intros q. rewrite Eq. destruct Ha as (_ & p' & _ & P).
    rewrite (proj1 (proj2 (pm_pool _ _ _ _ _ P q))). by rewrite pool_get_put_vpool.
  - apply Ha.
  - intros q Hq. destruct Ha as (_ & p' & _ & P).
    transitivity (vpool_get q s1); [by destruct q|]. by rewrite (pm_vpool _ _ _ _ _ P), vpool_get_put, decide_False.
  - rewrite Ev. destruct Ha as (_ & p' & (_ & T2 & _) & P).
    by rewrite (pm_vpool _ _ _ _ _ P), vpool_get_put, decide_True.
  - intros v. rewrite Ev. apply A4.
  - intros k Hk. destruct (A2 k Hk) as (Hfr & f & Hf & Hff). split; [done|].
    destruct (Hf1 k Hk) as (Hm & g & q & Hg & Hu & Hng). split.
    + apply in_use_cleared; [done | done |]. apply (page_in_use_intro _ _ _ g q); try done.
      * destruct Hr1 as (i & Hi & Hend & ->). exists (i + k). split; [lia|]. split; lia.
      * rewrite A4. lia.
    + exists f. simpl. by rewrite Hpf.
  - intros i Hi. destruct (data_word (machine s1) va n i (mo_pt _ Hok1) Hal Hd Hi) as (f & Htr & Hm & _).
    exists (f + 4 * (i mod 1024)). simpl. split; [|by apply (cl_zero _ _ _ _ Hcl i)].
    by rewrite (proj2 (proj2 (cleared_agree _ _ _ _ _ (mo_pt _ Hok1) Hal Hd (Z.le_refl _) Hcl))).
  - intros v Hv. destruct (in_use_allocated pf s s1 va n v Hok Hl Ha Hv) as [Hv1 E].
    destruct (in_use_page _ _ _ Hv) as (Hm & _). split; [by apply in_use_cleared|]. simpl. by rewrite Hpf.
  - intros v f k Hv Hf Hk. destruct (in_use_allocated pf s s1 va n v Hok Hl Ha Hv) as [Hv1 E]. simpl.
    apply (in_use_data_kept pf s s1 m' va n v); try done. by rewrite E.
  - intros q. rewrite Eq. by apply (allocated_frames pf s s1 va n).
Qed.

Lemma clear_allocated pf s s1 va n :
  mem_ok s -> live s pf -> 0 < n < 3840 -> allocated pf s s1 va n ->
  wp (zoom machine_lens (zero_words va (Z.to_nat (u32 (n * PG_SIZE) / 4)))) s1
    (fun _ s' => got_pages pf s s' va n).
Proof.
  intros Hok Hl Hn Ha. wp_step. unfold PG_SIZE. rewrite u32_id by (unfold is_u32; lia).
  replace (n * 4096 / 4) with (1024 * n) by (apply Z.div_unique with 0; lia).
  destruct (allocated_freeable pf s s1 va n Hok Hl ltac:(lia) Ha) as (Hok1 & _).
  eapply wp_mono; [apply (zero_pages_ok (machine s1) va n)|].
  - apply Hok1.
  - apply (run_aligned pf s va n Hok Hl). apply Ha.
  - lia.
  - by apply (allocated_data pf s s1 va n).
  - intros [] m' Hcl. by apply got_pages_intro; [| |lia| |].
Qed.

Lemma malloc_page_bounds pf n s va s' : malloc_page pf n s = Ok (va, s') -> 0 < n < 3840.
Proof.
  unfold malloc_page. destruct ((0 <? n) && (n <? 3840)) eqn:E; [intros _; b2p; lia | done].
Qed.

Lemma zero_pages_spec pf s n :
  mem_ok s -> live s pf ->
  wpp (zero_pages pf n) s (fun va s' =>
    (va = NULL /\ s' = s /\ forall i, ~ free_run (vaddr_bitmap (vpool_get pf s)) i n) \/
    (va <> NULL /\ 0 < n < 3840 /\ got_pages pf s s' va n)) (malloc_panics pf s n).
Proof.
  intros Hok Hl. unfold zero_pages.
  destruct (wpp_outcome _ _ _ _ (malloc_page_ok s pf n Hok Hl)) as [(va & s1 & E & H)|[E H]].
  2: { unfold wpp. by erewrite bind_panic by exact E. }
  unfold wpp at 1. erewrite bind_ok by exact E. pose proof (malloc_page_bounds _ _ _ _ _ E) as Hn.
  destruct H as [(-> & -> & Hno)|[Hva Ha]]; [by left|].
  destruct (Z.eqb_spec va NULL); [done|]. cbn [negb]. change (when true ?m) with m.
  destruct (wp_ok_inv _ _ _ (clear_allocated pf s s1 va n Hok Hl Hn Ha)) as ([] & s2 & E2 & G).
  erewrite bind_ok by exact E2. by right.
Qed.

(** *** Claiming a given page *)
Definition may_claim (pf : pool_flags) (s : mem_state) : bool :=
  match pf with PF_USER => negb (cur_pgdir s =? NULL) | PF_KERNEL => cur_pgdir s =? NULL end.

Lemma claim_page_ok pf s va :
  mem_ok s -> live s pf -> may_claim pf s = true -> vaddr_free (vpool_get pf s) va ->
  wp (claim_page pf va) s (fun _ s' => exists p',
    s' = put (vpool_lens pf) p' s /\ vpool_take (vpool_get pf s) p' va 1).
Proof.
  intros Hok Hl Hc (i & Hi & Hb & ->). pose proof (mo_vpool s Hok pf Hl) as Hp.
  pose proof (vpool_bitmap_ok _ Hp) as Hbm. pose proof (ok_len _ Hbm) as Hlen.
  pose proof (vpool_start _ Hp). pose proof (vpool_end _ Hp).
  assert (0 <= i < 0x80000000) by (unfold nbits in *; lia).
  assert (forall x, x = vpool_get pf s ->
    s32 (u32 (vaddr_start x + i * 4096 - vaddr_start x) / PG_SIZE) = i) as Eidx.
  { intros x ->. replace (vaddr_start (vpool_get pf s) + i * 4096 - vaddr_start (vpool_get pf s)) with (i * 4096) by lia.
    rewrite u32_id by (unfold is_u32, nbits in *; lia). unfold PG_SIZE. rewrite Z.div_mul by lia.
    apply s32_id. lia. }
  assert (u32 i = i) as Eu by (apply u32_id; unfold is_u32; lia).
  assert (wp (zoom (lens_comp (vpool_lens pf) vpool_bitmap_lens) (bitmap_set i 1)) s (fun _ s' => exists p',
    s' = put (vpool_lens pf) p' s /\ vpool_take (vpool_get pf s) p' (vaddr_start (vpool_get pf s) + i * 4096) 1)) as Hset.
  { wp_step. eapply wp_mono; [apply (bitmap_set_ok (vaddr_bitmap (vpool_get pf s)) i 1); [done | done | by right]|].
    intros [] b' (Hb' & Hl' & _ & Hj). exists (VPool b' (vaddr_start (vpool_get pf s))). split; [done|].
    apply nbits_len in Hl'. apply vpool_take_range; try done; [|].
    - split; [lia|]. split; [lia|]. intros j Hj'. replace j with i by lia. done.
    - intros j Hj0. rewrite Hj by done. destruct (Z.eqb_spec i j), (Z.leb_spec i j), (Z.ltb_spec j (i + 1)); simpl; done || lia. }
  unfold claim_page. wp_step. wp_step. destruct pf; simpl in Hc.
  - rewrite Hc. cbn [negb andb]. rewrite bool_decide_true by done. cbv iota beta zeta.
    change (vpool_get PF_KERNEL s) with (kernel_vaddr_pool s). rewrite (Eidx (kernel_vaddr_pool s) eq_refl), Eu. wp_step. apply wp_ASSERT; [apply Z.leb_le; lia|]. exact Hset.
  - rewrite Hc. cbn [negb andb]. rewrite bool_decide_true by done. cbv iota beta zeta.
    change (vpool_get PF_USER s) with (userprog_vaddr_pool s). rewrite (Eidx (userprog_vaddr_pool s) eq_refl), Eu. wp_step. apply wp_ASSERT; [apply Z.leb_le; lia|]. exact Hset.
Qed.

Lemma claim_page_refused pf s va : may_claim pf s = false -> claim_page pf va s = Panic.
Proof.
  unfold claim_page, mbind, M_bind, get, may_claim. simpl. destruct pf, (cur_pgdir s =? NULL); try done.
Qed.

(** ** The functions under the lock *)
Section PagesProofs.
Context {St : Type} `{!PoolLocks St mem_state}.

(** A bracket of lock and unlock around code that leaves the locks alone. *)
Lemma wpu_locked {A} pf (m : M mem_state A) (s : St) Q P :
  uncontended pf s -> wpp m (view inner s) Q P ->
  wpu (pool_acquire pf ;;; a ← with_mem m; pool_release pf ;;; mret a) s
    (fun a s' => exists x, s' = put inner x s /\ Q a x) P.
Proof.
  intros Hun Hm. destruct (bracket_law pf s Hun) as (s' & Ea & Ev & Er).
  apply wpu_bind. eapply wpu_eq; [exact Ea|]. apply wpu_bind, wpu_zoom, wpu_wpp. rewrite Ev.
  eapply wpp_mono; [exact Hm | |done]. intros a x HQ. apply wpu_bind. eapply wpu_eq; [apply Er|].
  apply wpu_ret. by exists x.
Qed.

Lemma get_pages_ok pf n (s : St) :
  mem_ok (view inner s) -> live (view inner s) pf -> uncontended pf s ->
  wpu (get_pages pf n) s (fun va s' =>
    (va = NULL /\ s' = s /\ forall i, ~ free_run (vaddr_bitmap (vpool_get pf (view inner s))) i n) \/
    (exists m, s' = put inner m s /\ va <> NULL /\ 0 < n < 3840 /\ got_pages pf (view inner s) m va n))
    (malloc_panics pf (view inner s) n).
Proof.
  intros Hok Hl Hun. eapply wpu_mono; [by apply wpu_locked, zero_pages_spec | | done].
  intros va s' (m & -> & [(-> & -> & H)|(Hva & Hn & G)]); [left | right; by exists m].
  split; [done|]. split; [apply put_view | done].
Qed.

Lemma get_a_page_ok pf va (st : St) :
  mem_ok (view inner st) -> live (view inner st) pf -> uncontended pf st -> vaddr_free (vpool_get pf (view inner st)) va ->
  may_claim pf (view inner st) = true ->
  wpu (get_a_page pf va) st (fun r st' => exists m p', st' = put inner m st /\ r = va /\
      vpool_take (vpool_get pf (view inner st)) p' va 1 /\
      pages_mapped pf (put (vpool_lens pf) p' (view inner st)) m va 1)
    (~ enough (view inner st) pf (PDE_IDX va) (PDE_IDX va) 1).
Proof.
  intros Hok Hl Hun Hfree Hc. destruct (bracket_law pf st Hun) as (st' & Ea & Ev & Er). set (s := view inner st) in *.
  unfold get_a_page. assert (flags_pool pf = pf) as -> by by destruct pf.
  apply wpu_bind. eapply wpu_eq; [exact Ea|].
  apply wpu_bind, wpu_zoom, wpu_wp. rewrite Ev. eapply wp_mono; [by apply (claim_page_ok pf s va)|].
  intros [] s1 (p' & -> & Ht). pose proof (mem_ok_vtake s pf p' va 1 Hok Hl Ht) as Hok1.
  pose proof (vtake_ready s pf p' va 1 Hok Hl Ht) as Hr.
  destruct (free_vaddr_managed s pf va Hok Hl Hfree) as [[Hu Hd] Hal].
  set (s1 := put (vpool_lens pf) p' s) in *.
  assert (Hone : wpp (map_pages pf 1 va) s1 (fun b s' => b = true /\ pages_mapped pf s1 s' va 1)
    (~ enough s pf (PDE_IDX va) (PDE_IDX va) 1)).
  { eapply wpp_mono; [apply (map_pages_ok pf 1 s1 va (PDE_IDX va) (PDE_IDX va)); try done; try lia| done |].
    - intros k Hk. replace (va + k * 4096) with va by lia. lia.
    - intros Hne He. apply Hne. unfold s1, enough in *. rewrite machine_put_vpool.
      pose proof (pool_get_put_vpool pf PF_USER p' s). pose proof (pool_get_put_vpool pf PF_KERNEL p' s).
      simpl pool_get in *. by destruct pf. }
  apply wpu_bind, wpu_zoom, wpu_wpp. rewrite view_put. apply wpp_bind_inv in Hone.
  eapply wpp_mono; [exact Hone | | done]. intros pa s2 Hk. cbv beta in Hk.
  destruct (pa =? NULL); [by destruct Hk|].
  apply wpu_bind, wpu_zoom, wpu_wpp. rewrite view_put. apply wpp_bind_inv in Hk.
  eapply wpp_mono; [exact Hk | | done]. intros [] s3 [_ P]. cbv beta. rewrite !put_put.
  apply wpu_bind. eapply wpu_eq; [apply Er|]. apply wpu_ret. by exists s3, p'.
Qed.

(** ** Properties *)

(** C16: [get_kernel_pages] and [get_user_pages], the pool's lock not being
    contended for: they return NULL with nothing changed when there is no run
    of [n] free addresses, stop the machine in the cases [malloc_page] does,
    and otherwise return the first free run of [n] pages, each on a frame that
    was free, every word of them zero, with all pages in use before still in
    use on the same frames; the lock is as it was. *)
Theorem get_pages_correct (pf : pool_flags) (n : Z) (s : St)
    (Hok : mem_ok (view inner s)) (Hl : live (view inner s) pf) (Hun : uncontended pf s) :
  let m := view inner s in
  let run := undisturbed (match pf with PF_KERNEL => get_kernel_pages n | PF_USER => get_user_pages n end s) in
  (run = Ok (NULL, s) /\ forall i, ~ free_run (vaddr_bitmap (vpool_get pf m)) i n) \/
  (exists va m', run = Ok (va, put inner m' s) /\ va <> NULL /\ got_pages pf m m' va n) \/
  (run = Panic /\ malloc_panics pf m n).
Proof.
  assert (match pf with PF_KERNEL => get_kernel_pages n | PF_USER => get_user_pages n end = get_pages (St := St) pf n)
    as -> by by destruct pf.
  destruct (wpu_outcome _ _ _ _ (get_pages_ok pf n s Hok Hl Hun)) as [(va & s' & E & H)|H]; [|by right; right].
  destruct H as [(-> & -> & H)|(m & -> & Hva & _ & H)]; [by left | right; left; by exists va, m].
Qed.

(** C17: [get_a_page] maps one given page: a kernel thread may ask for a page of
    the kernel heap and a process for a page of its own space, anything else
    stops the machine; a free page of the pool is claimed, mapped to a frame
    of the pool that was free and returned, all other pages stay as they were
    and the lock is as before; when no frame is left for the page or for its
    page table the machine stops. *)
Theorem get_a_page_correct (pf : pool_flags) (va : Z) (st : St)
    (Hok : mem_ok (view inner st)) (Hl : live (view inner st) pf) (Hun : uncontended pf st)
    (Hfree : vaddr_free (vpool_get pf (view inner st)) va) :
  let s := view inner st in
  if may_claim pf s then
    wpu (get_a_page pf va) st (fun r st' => exists m, st' = put inner m st /\ r = va /\ mem_ok m /\
      (exists f, page_frame (machine m) va = Some f /\ frame_free (pool_get pf s) f) /\
      (forall v, managed v -> ~ va <= v < va + 4096 -> page_frame (machine m) v = page_frame (machine s) v) /\
      (forall v, vaddr_free (vpool_get pf m) v <-> vaddr_free (vpool_get pf s) v /\ ~ va <= v < va + 4096))
    (~ enough s pf (PDE_IDX va) (PDE_IDX va) 1)
  else undisturbed (get_a_page pf va st) = Panic.
Proof.
  cbv zeta. destruct (may_claim pf (view inner st)) eqn:Hc.
  - eapply wpu_mono; [by apply get_a_page_ok | | done]. intros r st' (m & p' & -> & -> & Ht & P). exists m.
    split; [done|]. split; [done|]. split; [apply P|]. replace (va + 4096) with (va + 1 * 4096) by lia. split; [|split].
    + destruct (pm_pages _ _ _ _ _ P 0 ltac:(lia)) as (f & Hf & Hff & _). rewrite Z.mul_0_l, Z.add_0_r in Hf.
      exists f. split; [done|]. by rewrite pool_get_put_vpool in Hff.
    + intros v Hv Hout. rewrite (pm_other _ _ _ _ _ P) by done. by rewrite machine_put_vpool.
    + intros v. rewrite (pm_vpool _ _ _ _ _ P), vpool_get_put, decide_True by done. apply Ht.
  - destruct (bracket_law pf st Hun) as (st' & Ea & Ev & _). unfold get_a_page.
    assert (flags_pool pf = pf) as -> by by destruct pf. erewrite undisturbed_bind by exact Ea. erewrite bind_panic; [done|].
    unfold with_mem, zoom. rewrite Ev. by rewrite claim_page_refused.
Qed.
End PagesProofs.

(** *** Concrete instances: locks that are not there *)
#[export] Instance unlocked {X} : PoolLocks X X.
Proof.
  refine {| inner := id_lens; pool_acquire := fun _ s => Ok (tt, s); pool_release := fun _ s => Ok (tt, s);
            uncontended := fun _ _ => True |}; [|done].
  intros pf s _. by exists s.
Defined.

Lemma get_pages_correct_witness :
  exists s', undisturbed (get_kernel_pages (St := mem_state) 2 example_mem) = Ok (0xc0101000, s') /\
    got_pages PF_KERNEL example_mem s' 0xc0101000 2.
Proof.
  destruct (@get_pages_correct mem_state unlocked PF_KERNEL 2 example_mem example_mem_ok example_live ltac:(exact I))
    as [[_ Hno]|[(va & s' & E & _ & G)|[_ Hp]]].
  - destruct (Hno 1). split; [lia | split; [by cbn|]].
    intros j Hj. assert (j = 1 \/ j = 2) as [-> | ->] by lia; done.
  - pose proof (first_run_unique _ _ _ _ (gp_run _ _ _ _ _ G) example_first_run) as ->. exists s'. split; [exact E | exact G].
  - exfalso. destruct Hp as [Hn|[Hall|(va & Hv & [[Hpf _]|Hne])]]; [lia | | discriminate Hpf |].
    { specialize (Hall 1 ltac:(vm_compute; split; congruence)). discriminate Hall. }
    pose proof (first_run_unique _ _ _ _ Hv example_first_run) as ->. by apply Hne; vm_compute.
Defined.

Lemma example_vaddr_free : vaddr_free (kernel_vaddr_pool example_mem) 0xc0101000.
Proof. by exists 1. Qed.

Lemma get_a_page_correct_witness :
  wpu (get_a_page (St := mem_state) PF_KERNEL 0xc0101000) example_mem (fun r s => r = 0xc0101000 /\ mem_ok s) False.
Proof.
  pose proof (@get_a_page_correct mem_state unlocked PF_KERNEL 0xc0101000 example_mem example_mem_ok example_live ltac:(exact I)
    example_vaddr_free) as H.
  cbv zeta in H. assert (may_claim PF_KERNEL (view (@inner _ _ unlocked) example_mem) = true) as Hc by reflexivity.
  rewrite Hc in H. eapply wpu_mono; [exact H | |].
  - intros r s' (m & Es & Hr & Hm & _). split; [exact Hr|]. rewrite Es. exact Hm.
  - intros Hne. apply Hne. by vm_compute.
Defined.
