(* ===== verification/Supply.v ===== *)
(** * Memory that is enough for what is to come

    A supply of free addresses and free frames, large enough for a sequence of
    requests: it tells, from the state before the first of them, that none of
    them fails. *)
From stdpp Require Import base numbers list.
From Stdlib Require Import ZArith Lia.
From S2P Require Import Prelude Globals Bitmap Paging PageAlloc PageFree PageInit Pages.

(** In the pool [pf]: [n] free addresses in a row, for a process not up to the
    page of its stack, and [f] free frames, with [t] frames of the kernel's
    pool besides, for page tables. *)
Record supply (pf : pool_flags) (m : mem_state) (n f t : Z) : Prop := {
  su_run : exists va, (forall k, 0 <= k < n -> vaddr_free (vpool_get pf m) (va + k * 4096)) /\
    (pf = PF_USER -> va + n * 4096 <= 0xc0000000 - PG_SIZE);
  su_frames : forall q, (if decide (q = pf) then f else 0) + (if decide (q = PF_KERNEL) then t else 0)
    <= free_count (pool_get q m);
}.

(** A run of free addresses, as the bitmap shows it. *)
Lemma run_from p va n :
  0 < n -> (forall k, 0 <= k < n -> vaddr_free p (va + k * 4096)) ->
  exists i, va = vaddr_start p + i * 4096 /\ free_run (vaddr_bitmap p) i n.
Proof.
  intros Hn Hf. destruct (Hf 0 ltac:(lia)) as (i & Hi & Hb & E). exists i. split; [lia|].
  assert (forall k, 0 <= k < n -> 0 <= i + k < nbits (vaddr_bitmap p) /\ bit (vaddr_bitmap p) (i + k) = false) as Hk.
  { intros k Hk. destruct (Hf k Hk) as (j & Hj & Hbj & Ej). by replace (i + k) with j by lia. }
  split; [apply Hi|]. split; [destruct (Hk (n - 1)); lia|].
  intros j Hj. destruct (Hk (j - i)) as [_ Hb']; [lia|]. by replace (i + (j - i)) with j in Hb' by lia.
Qed.

Lemma run_shorter b i n n' : free_run b i n -> 0 <= n' <= n -> free_run b i n'.
Proof. intros (H1 & H2 & H3) Hn. split; [done|]. split; [lia|]. intros j Hj. apply H3. lia. Qed.

(** The first run is not behind one that is known. *)
Lemma first_run_before p va v n :
  0 < n -> (forall k, 0 <= k < n -> vaddr_free p (va + k * 4096)) -> first_run p v n -> v <= va.
Proof.
  intros Hn Hfree. destruct (run_from p va n Hn Hfree) as (i & -> & Hr).
  intros (j & [[_ Hno]|[_ Hmin]] & _ & ->); [by destruct (Hno i)|]. specialize (Hmin i Hr). lia.
Qed.

Section Supply.
Context (pf : pool_flags) (m : mem_state) (n f t : Z).
Hypothesis Hok : mem_ok m.
Hypothesis Hlive : live m pf.
Hypothesis Hsupply : supply pf m n f t.

(** A request that the supply covers does not stop the machine... *)
Lemma supply_no_panic k : 0 < k < 3840 -> k <= n -> k <= f -> tables k <= t -> ~ malloc_panics pf m k.
Proof.
  intros Hk Hn Hf Ht. destruct Hsupply as [(va & Hrun & Htop) Hfr].
  assert (forall j, 0 <= j < k -> vaddr_free (vpool_get pf m) (va + j * 4096)) as Hrun' by (intros; apply Hrun; lia).
  intros [Hbad|[Hall|(v & Hv & Hcase)]]; [by apply Hbad | |].
  - destruct (Hrun 0 ltac:(lia)) as (i & Hi & Hb & _). by rewrite Hall in Hb.
  - assert (v <= va) as Hle by (apply (first_run_before (vpool_get pf m) va v k); [lia | done | done]). destruct Hcase as [[Hu Htop']|Hno].
    + specialize (Htop Hu). unfold PG_SIZE in *. lia.
    + apply Hno. destruct Hv as (i & [[-> _]|[(Hi & Hend & Hfree) _]] & Hi0 & ->); [lia|].
      assert (forall j, 0 <= j < k -> managed (vaddr_start (vpool_get pf m) + i * 4096 + j * 4096)) as Hm.
      { intros j Hj. apply (vaddr_free_range (vpool_get pf m)); [by apply (mo_vpool m Hok pf)|]. exists (i + j).
        split; [lia|]. split; [apply Hfree; lia | lia]. }
      pose proof (Hm 0 ltac:(lia)) as [Hu0 _]. rewrite Z.mul_0_l, Z.add_0_r in Hu0. pose proof (Hm (k - 1) ltac:(lia)) as [Hu1 _].
      assert ((vaddr_start (vpool_get pf m) + i * 4096) mod 4096 = 0) as Hal.
      { rewrite Z_mod_plus_full. by apply (mo_vpool m Hok pf). }
      pose proof (missing_tables (machine m) _ k ltac:(lia) Hu0 Hu1 Hal) as Hmiss.
      pose proof (Hfr PF_KERNEL) as Hkf. pose proof (Hfr PF_USER) as Huf. unfold enough. by destruct pf; simpl in *; lia.
Qed.

(** ...and finds its run. *)
Lemma supply_run k : 0 < k <= n -> exists i, free_run (vaddr_bitmap (vpool_get pf m)) i k.
Proof.
  intros Hk. destruct Hsupply as [(va & Hrun & _) _]. destruct (run_from _ va n ltac:(lia) Hrun) as (i & _ & Hr).
  exists i. apply (run_shorter _ _ n); [done | lia].
Qed.

(** What is left of it. *)
Lemma supply_after m' v k :
  got_pages pf m m' v k -> 0 < k <= n -> supply pf m' (n - k) (f - k) (t - tables k).
Proof.
  intros G Hk. destruct Hsupply as [(va & Hrun & Htop) Hfr]. split.
  - exists (va + k * 4096). split; [|intros Hu; specialize (Htop Hu); lia]. intros j Hj. apply (gp_vaddr _ _ _ _ _ G).
    replace (va + k * 4096 + j * 4096) with (va + (k + j) * 4096) by lia. split; [apply Hrun; lia|].
    assert (v <= va); [|lia]. apply (first_run_before (vpool_get pf m) va v k); [lia | | apply G]. intros i Hi. apply Hrun. lia.
  - intros q. pose proof (gp_frames _ _ _ _ _ G q). specialize (Hfr q). do 2 destruct (decide _); lia.
Qed.

Lemma supply_less n' f' t' : n' <= n -> f' <= f -> t' <= t -> supply pf m n' f' t'.
Proof.
  intros Hn Hf Ht. destruct Hsupply as [(va & Hrun & Htop) Hfr]. split.
  - exists va. split; [intros; apply Hrun; lia|]. intros Hu. specialize (Htop Hu). lia.
  - intros q. specialize (Hfr q). do 2 destruct (decide _); lia.
Qed.
End Supply.

(** The supply depends on the pools alone. *)
Lemma supply_ext pf m m' n f t :
  vpool_get pf m' = vpool_get pf m -> (forall q, pool_get q m' = pool_get q m) -> supply pf m n f t -> supply pf m' n f t.
Proof. intros Ev Eq [H1 H2]. split; [by rewrite Ev|]. intros q. rewrite Eq. apply H2. Qed.

(** Pools of which nothing is taken. *)
Lemma fresh_supply m n f t k : fresh_pools m k -> n <= k -> f + t <= k -> supply PF_KERNEL m n f t.
Proof.
  intros (Hk & Hv & Hz) Hn Hf. split.
  - exists (vaddr_start (kernel_vaddr_pool m)). split; [|done]. intros j Hj. exists j. simpl. split; [lia|]. split; [apply Hz | done].
  - intros []; simpl; [|apply free_count_nonneg].
    unfold free_count. rewrite count_n_all; [lia|]. intros i _. by rewrite (proj1 (Hz i)).
Qed.

(** From [m] to [m'] at most [n] addresses, [f] frames and [t] frames for
    tables of the kernel have been used up. *)
Definition spent (n f t : Z) (m m' : mem_state) : Prop := forall n0 f0 t0,
  n <= n0 -> supply PF_KERNEL m n0 f0 t0 -> supply PF_KERNEL m' (n0 - n) (f0 - f) (t0 - t).

Lemma spent_got m m' va n : got_pages PF_KERNEL m m' va n -> 0 < n -> spent n n (tables n) m m'.
Proof. intros G Hn n0 f0 t0 Hle Hs. apply (supply_after _ m _ _ _ Hs m' va n G). lia. Qed.

Lemma spent_none m m' :
  kernel_vaddr_pool m' = kernel_vaddr_pool m -> (forall q, pool_get q m' = pool_get q m) -> spent 0 0 0 m m'.
Proof. intros Ev Eq n f t _ Hs. rewrite !Z.sub_0_r. by apply (supply_ext _ m). Qed.

Lemma spent_trans n1 f1 t1 n2 f2 t2 m m1 m2 :
  0 <= n2 -> spent n1 f1 t1 m m1 -> spent n2 f2 t2 m1 m2 -> spent (n1 + n2) (f1 + f2) (t1 + t2) m m2.
Proof.
  intros Hn H1 H2 n f t Hle Hs. rewrite !Z.sub_add_distr. apply H2; [lia|]. apply H1; [lia | done].
Qed.

(** Clearing or writing words in between uses nothing up. *)
Lemma spent_poke n f t m m1 x : spent n f t m m1 -> spent n f t m (put machine_lens x m1).
Proof.
  intros H n0 f0 t0 Hle Hs. apply (supply_ext _ m1); [done | by intros [] | by apply H].
Qed.

Lemma spent_more n f t n' f' t' m m' : n <= n' -> f <= f' -> t <= t' -> spent n f t m m' -> spent n' f' t' m m'.
Proof.
  intros Hn Hf Ht H n0 f0 t0 Hle Hs.
  apply (supply_less PF_KERNEL m' (n0 - n) (f0 - f) (t0 - t)); [apply H; [lia | done] | lia..].
Qed.

(** *** The supply of [example_mem] *)
Lemma example_supply : supply PF_KERNEL example_mem 30 30 30.
Proof.
  split.
  - exists 0xc0101000. split; [|done]. intros k Hk. exists (1 + k). change (vaddr_start (vpool_get PF_KERNEL example_mem)) with 0xc0100000.
    split; [|split; [|lia]].
    + change (nbits (vaddr_bitmap (vpool_get PF_KERNEL example_mem))) with 64. lia.
    + assert (k ∈ seqZ 0 30) as Hin by (apply elem_of_seqZ; lia). clear Hk. revert k Hin. apply Forall_forall.
      refine (bool_decide_eq_true_1 _ _). by vm_compute.
  - intros []; by vm_compute.
Qed.
