(* ===== verification/Heap.v ===== *)
(** * The heap: kernel/memory.c (block_desc_init, arena2block, block2arena,
      sys_malloc, sys_free)

    Small requests are served from arenas: one page with a header of 12 bytes
    and blocks of one of seven sizes, the free blocks of a size on a list whose
    nodes lie in the blocks themselves.  Larger requests get whole pages.

    The state is what the running thread sees: its descriptors (of the kernel
    for a kernel thread, its own for a process), the headers of the arenas by
    page address, the list nodes, and the page allocator.  Clearing fresh
    pages makes their headers and the nodes of their 16-byte granules
    accessible; unmapping pages makes them inaccessible. *)
From stdpp Require Import base numbers list gmap fin_maps.
From Stdlib Require Import ZArith Lia.
From S2P Require Import Prelude Globals Interrupt LinkedList Bitmap Paging PageAlloc PageFree Pages.

(** ** State *)
Record arena := Arena { desc : Z; cnt : Z; large : Z }.

(** [struct mem_block_desc] without its list, which is at offset 8. *)
Record mem_block_desc := BlockDesc { block_size : Z; blocks_per_arena : Z }.
Definition free_list (d : Z) : Z := d + 8.

Definition sizeof_arena : Z := 12.
Definition sizeof_block_desc : Z := 24.
Definition MEM_BLOCK_DESC_CNT : Z := 7.

Record heap_state := Heap {
  hlists : lstate;
  arenas : gmap Z arena;
  descs : gmap Z mem_block_desc;
  k_block_descs : Z;              (* the array's address *)
  u_block_descs : Z;              (* running_thread()->u_block_descs *)
  hmem : mem_state;
}.

Definition hlists_lens : lens heap_state lstate.
Proof.
  refine {| view := hlists; put := fun x s => Heap x (arenas s) (descs s) (k_block_descs s)
    (u_block_descs s) (hmem s) |}; by intros; try destruct s.
Defined.

Definition hmem_lens : lens heap_state mem_state.
Proof.
  refine {| view := hmem; put := fun x s => Heap (hlists s) (arenas s) (descs s) (k_block_descs s)
    (u_block_descs s) x |}; by intros; try destruct s.
Defined.

Definition put_arenas (x : gmap Z arena) (s : heap_state) : heap_state :=
  Heap (hlists s) x (descs s) (k_block_descs s) (u_block_descs s) (hmem s).

Definition put_descs (x : gmap Z mem_block_desc) (s : heap_state) : heap_state :=
  Heap (hlists s) (arenas s) x (k_block_descs s) (u_block_descs s) (hmem s).

Definition hl {A} (m : M lstate A) : M heap_state A := zoom hlists_lens m.
Definition hm {A} (m : M mem_state A) : M heap_state A := zoom hmem_lens m.

Definition arena_at (a : Z) : M heap_state arena := s ← get; from_option_M (arenas s !! a).
Definition desc_at (d : Z) : M heap_state mem_block_desc := s ← get; from_option_M (descs s !! d).

(** A store to the fields of an arena's header. *)
Definition update_arena (a : Z) (f : arena -> arena) : M heap_state unit :=
  ar ← arena_at a; modify (fun s => put_arenas (<[a := f ar]> (arenas s)) s).

(** ** Block descriptors *)
Fixpoint block_desc_init_loop (n : nat) (desc_array desc_idx block_size : Z) : M heap_state unit :=
  match n with
  | O => mret tt
  | S n' =>
      let d := desc_array + sizeof_block_desc * desc_idx in
      modify (fun s => put_descs (<[d := BlockDesc block_size ((PG_SIZE - sizeof_arena) / block_size)]> (descs s)) s) ;;;
      hl (list_init (free_list d)) ;;;
      block_desc_init_loop n' desc_array (desc_idx + 1) (u16 (block_size * 2))
  end.

Definition block_desc_init (desc_array : Z) : M heap_state unit :=
  block_desc_init_loop (Z.to_nat MEM_BLOCK_DESC_CNT) desc_array 0 16.

Definition arena2block (a idx : Z) : M heap_state Z :=
  ar ← arena_at a;
  d ← desc_at (desc ar);
  mret (u32 (u32 (a + sizeof_arena) + u32 (idx * block_size d))).

Definition block2arena (b : Z) : Z := Z.land b 0xfffff000.

(** ** Pages as memory of the heap *)

(** The granules of [n] bytes from [a] on that can hold a list node. *)
Definition granules (a n : Z) : list Z := (fun j => a + sizeof_arena + 16 * j) <$> seqZ 0 ((n - sizeof_arena) / 16).

Definition blank_nodes (a n : Z) : gmap Z list_node := gset_to_gmap (Node NULL NULL) (list_to_set (granules a n)).

(** [memset(a, 0, n)] of whole fresh pages. *)
Definition memset_pages (a n : Z) : M heap_state unit :=
  hm (zoom machine_lens (zero_words a (Z.to_nat (n / 4)))) ;;;
  hl (modify (fun l => LState (blank_nodes a n ∪ nodes l) (eflags l))) ;;;
  modify (fun s => put_arenas (<[a := Arena NULL 0 C_false]> (arenas s)) s).

(** Memory from [a] to [b] is no longer mapped. *)
Definition unmap_view (a b : Z) (s : heap_state) : heap_state :=
  Heap (LState (filter (fun xv => ~ a <= xv.1 < b) (nodes (hlists s))) (eflags (hlists s)))
    (filter (fun xv => ~ a <= xv.1 < b) (arenas s)) (descs s) (k_block_descs s) (u_block_descs s) (hmem s).

Definition mfree_pages (pf : pool_flags) (a n : Z) : M heap_state unit :=
  hm (mfree_page pf a n) ;;;
  modify (unmap_view a (a + n * PG_SIZE)).

(** ** sys_malloc *)

(** [for (desc_idx...) if (size <= descs[desc_idx].block_size) break;] *)
Fixpoint find_desc (n : nat) (descs desc_idx size : Z) : M heap_state Z :=
  match n with
  | O => mret desc_idx
  | S n' =>
      d ← desc_at (descs + sizeof_block_desc * desc_idx);
      if size <=? block_size d then mret desc_idx else find_desc n' descs (desc_idx + 1) size
  end.

(** [for (block_idx...)]: the blocks of a fresh arena join the free list. *)
Fixpoint add_blocks (n : nat) (a block_idx : Z) : M heap_state unit :=
  match n with
  | O => mret tt
  | S n' =>
      b ← arena2block a block_idx;
      ar ← arena_at a;
      f ← hl (node_find (free_list (desc ar)) b);
      ASSERT (f =? 0) ;;;
      hl (list_append (free_list (desc ar)) b) ;;;
      add_blocks n' a (block_idx + 1)
  end.

(** A fresh page becomes an arena of descriptor [d]. *)
Definition make_arena (a d : Z) : M heap_state unit :=
  memset_pages a PG_SIZE ;;;
  update_arena a (fun ar => Arena d (cnt ar) (large ar)) ;;;
  ds ← desc_at d;
  update_arena a (fun ar => Arena (desc ar) (blocks_per_arena ds) (large ar)) ;;;
  update_arena a (fun ar => Arena (desc ar) (cnt ar) C_false) ;;;
  old_status ← hl (zoom eflags_lens intr_disable);
  ar ← arena_at a;
  add_blocks (Z.to_nat (cnt ar)) a 0 ;;;
  _ ← hl (zoom eflags_lens (set_intr_status old_status));
  mret tt.

(** A block leaves the free list. *)
Definition take_block (d : Z) : M heap_state Z :=
  tag ← hl (list_pop (free_list d));
  let b := u32 (tag - 0) in
  let a := block2arena b in
  update_arena a (fun ar => Arena (desc ar) (u32 (cnt ar - 1)) (large ar)) ;;;
  mret b.

(** [PF], from [running_thread()->pgdir]. *)
Definition heap_pf (s : heap_state) : pool_flags :=
  if cur_pgdir (hmem s) =? NULL then PF_KERNEL else PF_USER.

Definition heap_descs (s : heap_state) : Z :=
  if cur_pgdir (hmem s) =? NULL then k_block_descs s else u_block_descs s.

Section Heap.
Context {St : Type} `{!PoolLocks St heap_state}.

Definition on_heap {A} (m : M heap_state A) : M St A := zoom inner m.

Definition sys_malloc (size : Z) : M St Z :=
  s ← gets (view inner);
  let PF := heap_pf s in
  let pool_size := pool_size (pool_get PF (hmem s)) in
  let descs := heap_descs s in
  if (size <? 0) || (pool_size <? size) then mret NULL
  else
    pool_acquire PF ;;;
    if 1024 <? size then
      let pg_cnt := u32 (u32 (u32 (size + sizeof_arena) + PG_SIZE) - 1) / PG_SIZE in
      a ← on_heap (hm (malloc_page PF pg_cnt));
      if negb (a =? NULL) then
        on_heap (memset_pages a (u32 (pg_cnt * PG_SIZE))) ;;;
        on_heap (update_arena a (fun ar => Arena NULL (cnt ar) (large ar))) ;;;
        on_heap (update_arena a (fun ar => Arena (desc ar) pg_cnt (large ar))) ;;;
        on_heap (update_arena a (fun ar => Arena (desc ar) (cnt ar) C_true)) ;;;
        pool_release PF ;;;
        mret (u32 (a + sizeof_arena))
      else
        pool_release PF ;;;
        mret NULL
    else
      desc_idx ← on_heap (find_desc (Z.to_nat MEM_BLOCK_DESC_CNT) descs 0 size);
      let d := descs + sizeof_block_desc * desc_idx in
      e ← on_heap (hl (list_empty (free_list d)));
      ok ← (if negb (e =? 0) then
              a ← on_heap (hm (malloc_page PF 1));
              if a =? NULL then pool_release PF ;;; mret false
              else on_heap (make_arena a d) ;;; mret true
            else mret true);
      if ok : bool then
        b ← on_heap (take_block d);
        pool_release PF ;;;
        mret b
      else mret NULL.

(** ** sys_free *)
Definition free_large (PF : pool_flags) (a : Z) : M heap_state unit :=
  ar ← arena_at a; mfree_pages PF a (cnt ar).

(** [for (block_idx...)]: the blocks of an arena leave the free list. *)
Fixpoint remove_blocks (n : nat) (a block_idx : Z) : M heap_state unit :=
  match n with
  | O => mret tt
  | S n' =>
      b ← arena2block a block_idx;
      ar ← arena_at a;
      f ← hl (node_find (free_list (desc ar)) b);
      ASSERT (negb (f =? 0)) ;;;
      hl (list_remove b) ;;;
      remove_blocks n' a (block_idx + 1)
  end.

Definition free_small (PF : pool_flags) (a b : Z) : M heap_state unit :=
  ar ← arena_at a;
  hl (list_append (free_list (desc ar)) b) ;;;
  update_arena a (fun ar => Arena (desc ar) (u32 (cnt ar + 1)) (large ar)) ;;;
  ar ← arena_at a;
  ASSERT ((large ar =? 0) || (large ar =? 1)) ;;;
  d ← desc_at (desc ar);
  when (cnt ar =? blocks_per_arena d) (
    remove_blocks (Z.to_nat (blocks_per_arena d)) a 0 ;;;
    mfree_pages PF a 1).

Definition sys_free (ptr : Z) : M St unit :=
  ASSERT (negb (ptr =? NULL)) ;;;
  if ptr =? NULL then mret tt
  else
    s ← gets (view inner);
    let PF := heap_pf s in
    when (cur_pgdir (hmem s) =? NULL) (ASSERT (K_HEAP_START <=? ptr)) ;;;
    pool_acquire PF ;;;
    let a := block2arena ptr in
    ar ← on_heap (arena_at a);
    (if (desc ar =? NULL) && (large ar =? C_true) then on_heap (free_large PF a)
     else on_heap (free_small PF a ptr)) ;;;
    pool_release PF.
End Heap.

(** ** Invariant *)
Definition bsz (i : Z) : Z := 16 * 2 ^ i.
Definition bpa (i : Z) : Z := 4084 / bsz i.

Definition desc_addr (s : heap_state) (i : Z) : Z := heap_descs s + sizeof_block_desc * i.

(** Block [j] of size class [i] in the arena at [a]. *)
Definition block (a i j : Z) : Z := a + 12 + j * bsz i.

Definition arena_pages (ar : arena) : Z := if large ar =? 1 then cnt ar else 1.

(** The number of blocks of the arena on the free list [xs]. *)
Definition free_blocks (a i : Z) (xs : list Z) : Z :=
  count_n (fun j => bool_decide (block a i j ∈ xs)) 0 (Z.to_nat (bpa i)).

Record small_ok (s : heap_state) (Ls : gmap Z (list Z)) (a : Z) (ar : arena) (i : Z) (xs : list Z) : Prop := {
  sm_class : 0 <= i < 7;
  sm_desc : desc ar = desc_addr s i;
  sm_small : large ar = 0;
  sm_list : Ls !! free_list (desc_addr s i) = Some xs;
  sm_cnt : cnt ar = free_blocks a i xs;
  sm_node : forall j, 0 <= j < bpa i -> block a i j ∈ dom (nodes (hlists s));
  sm_out : forall j, 0 <= j < bpa i -> block a i j ∉ xs -> unlinked (nodes (hlists s)) Ls (block a i j);
}.

Record large_ok (a : Z) (ar : arena) : Prop := {
  la_desc : desc ar = NULL;
  la_large : large ar = 1;
  la_cnt : 0 < cnt ar < 3840;
}.

Record arena_ok (s : heap_state) (Ls : gmap Z (list Z)) (a : Z) (ar : arena) : Prop := {
  ao_aligned : a mod 4096 = 0;
  ao_pages : forall k, 0 <= k < arena_pages ar -> page_in_use (heap_pf s) (hmem s) (a + k * 4096);
  ao_kind : large_ok a ar \/ exists i xs, small_ok s Ls a ar i xs;
}.

Record heap_ok (s : heap_state) (Ls : gmap Z (list Z)) : Prop := {
  ho_mem : mem_ok (hmem s);
  ho_live : live (hmem s) (heap_pf s);
  ho_kernel : K_HEAP_START <= vaddr_start (kernel_vaddr_pool (hmem s));
  ho_descs : 0 < heap_descs s;
  ho_desc : forall i, 0 <= i < 7 -> descs s !! desc_addr s i = Some (BlockDesc (bsz i) (bpa i));
  ho_lists : lists_ok (nodes (hlists s)) Ls;
  ho_free : forall i, 0 <= i < 7 -> is_Some (Ls !! free_list (desc_addr s i));
  ho_block : forall i xs x, 0 <= i < 7 -> Ls !! free_list (desc_addr s i) = Some xs -> x ∈ xs ->
    exists a ar j, arenas s !! a = Some ar /\ desc ar = desc_addr s i /\ 0 <= j < bpa i /\ x = block a i j;
  ho_heads : forall f ys a ar, Ls !! f = Some ys -> arenas s !! a = Some ar ->
    ~ a <= head_of f < a + arena_pages ar * 4096 /\ ~ a <= tail_of f < a + arena_pages ar * 4096;
  ho_members : forall f ys x a ar, Ls !! f = Some ys -> x ∈ ys -> arenas s !! a = Some ar ->
    a <= x < a + arena_pages ar * 4096 -> exists i, 0 <= i < 7 /\ f = free_list (desc_addr s i);
  ho_arena : forall a ar, arenas s !! a = Some ar -> arena_ok s Ls a ar;
  ho_fresh : forall va x, vaddr_free (vpool_get (heap_pf s) (hmem s)) va -> va <= x < va + 4096 ->
    nodes (hlists s) !! x = None /\ arenas s !! x = None;
  ho_sep : forall a ar a' ar', arenas s !! a = Some ar -> arenas s !! a' = Some ar' -> a <> a' ->
    a + arena_pages ar * 4096 <= a' \/ a' + arena_pages ar' * 4096 <= a;
}.

(** The memory handed to callers: [sz] bytes at [p]. *)
Definition given (s : heap_state) (Ls : gmap Z (list Z)) (p sz : Z) : Prop :=
  exists a ar, arenas s !! a = Some ar /\
    ((desc ar = NULL /\ p = a + 12 /\ sz = cnt ar * 4096 - 12) \/
     exists i j xs, 0 <= i < 7 /\ desc ar = desc_addr s i /\ 0 <= j < bpa i /\ p = block a i j /\
       Ls !! free_list (desc_addr s i) = Some xs /\ p ∉ xs /\ sz = bsz i).

(** *** Sizes *)
Lemma class_cases (P : Z -> Prop) :
  P 0 -> P 1 -> P 2 -> P 3 -> P 4 -> P 5 -> P 6 -> forall i, 0 <= i < 7 -> P i.
Proof.
  intros. assert (i = 0 \/ i = 1 \/ i = 2 \/ i = 3 \/ i = 4 \/ i = 5 \/ i = 6)
    as [-> | [-> | [-> | [-> | [-> | [-> | ->]]]]]] by lia; done.
Qed.

Lemma bsz_bounds i : 0 <= i < 7 -> 16 <= bsz i <= 1024 /\ 3 <= bpa i <= 255 /\ bpa i * bsz i <= 4084.
Proof. revert i. apply class_cases; vm_compute; repeat split; congruence. Qed.

Lemma block_range a i j :
  0 <= i < 7 -> 0 <= j < bpa i -> a + 12 <= block a i j /\ block a i j + bsz i <= a + 4096.
Proof. intros Hi Hj. pose proof (bsz_bounds i Hi). unfold block. nia. Qed.

Lemma block_page a i j :
  0 <= i < 7 -> 0 <= j < bpa i -> a mod 4096 = 0 -> block a i j / 4096 = a / 4096.
Proof.
  intros Hi Hj Ha. pose proof (block_range a i j Hi Hj). pose proof (bsz_bounds i Hi).
  pose proof (Z.div_mod a 4096 ltac:(lia)). symmetry. apply (Z.div_unique _ _ _ (block a i j - a)); lia.
Qed.

Lemma block_arena a a' i i' j j' :
  0 <= i < 7 -> 0 <= i' < 7 -> 0 <= j < bpa i -> 0 <= j' < bpa i' -> a mod 4096 = 0 -> a' mod 4096 = 0 ->
  block a i j = block a' i' j' -> a = a'.
Proof.
  intros Hi Hi' Hj Hj' Ha Ha' E. apply aligned_same_page; [done | done|].
  rewrite <- (block_page a i j), <- (block_page a' i' j'), E; done.
Qed.

Lemma block_inj a i j j' : 0 <= i < 7 -> block a i j = block a i j' -> j = j'.
Proof. intros Hi. pose proof (bsz_bounds i Hi). unfold block. nia. Qed.

Lemma block2arena_block a i j :
  is_u32 a -> a mod 4096 = 0 -> 0 <= i < 7 -> 0 <= j < bpa i -> is_u32 (block a i j) ->
  block2arena (block a i j) = a.
Proof.
  intros Hu Ha Hi Hj Hb. unfold block2arena. rewrite land_high_20 by done. rewrite block_page by done.
  pose proof (Z.div_mod a 4096 ltac:(lia)). lia.
Qed.

Lemma desc_addr_inj s i i' : desc_addr s i = desc_addr s i' -> i = i'.
Proof. unfold desc_addr, sizeof_block_desc. lia. Qed.

(** *** A block joins or leaves its free list *)
Lemma desc_not_null s Ls i : heap_ok s Ls -> 0 <= i < 7 -> desc_addr s i <> NULL.
Proof. intros Hok Hi. pose proof (ho_descs _ _ Hok). unfold desc_addr, sizeof_block_desc, NULL. lia. Qed.

Lemma small_not_large s Ls a ar i xs : heap_ok s Ls -> small_ok s Ls a ar i xs -> desc ar <> NULL.
Proof. intros Hok Hs. rewrite (sm_desc _ _ _ _ _ _ Hs). eapply desc_not_null; [done | apply Hs]. Qed.

(** The arena of a given class. *)
Lemma arena_class s Ls a ar i :
  heap_ok s Ls -> arenas s !! a = Some ar -> 0 <= i < 7 -> desc ar = desc_addr s i ->
  exists xs, small_ok s Ls a ar i xs.
Proof.
  intros Hok Ha Hi Hd. destruct (ao_kind _ _ _ _ (ho_arena _ _ Hok a ar Ha)) as [Hl|(i' & xs & Hs)].
  - rewrite (la_desc _ _ Hl) in Hd. by destruct (desc_not_null s Ls i Hok Hi).
  - pose proof (sm_desc _ _ _ _ _ _ Hs) as Hd'. rewrite Hd in Hd'. apply desc_addr_inj in Hd' as <-. by exists xs.
Qed.

Lemma unlinked_move ns ns' Ls l xs xs' n m :
  dom ns' = dom ns -> Ls !! l = Some xs -> (forall x, x <> n -> x ∈ xs' <-> x ∈ xs) -> m <> n ->
  unlinked ns Ls m -> unlinked ns' (<[l := xs']> Ls) m.
Proof.
  intros Hd HL Hx Hne [Hin Hun]. split; [by rewrite Hd|]. intros l' ys.
  destruct (Z.eq_dec l l') as [<-|Hl].
  - rewrite lookup_insert_eq. intros [= <-] Hm. apply (Hun _ _ HL). unfold path in *.
    rewrite elem_of_cons, elem_of_app in *. pose proof (Hx m Hne). naive_solver.
  - rewrite lookup_insert_ne by done. apply Hun.
Qed.

(** The state after a block of the arena [a] was moved and the arena's count
    set to [n]. *)
Definition moved (s : heap_state) (l : lstate) (a n : Z) (ar : arena) : heap_state :=
  put_arenas (<[a := Arena (desc ar) n (large ar)]> (arenas s)) (put hlists_lens l s).

Section Move.
Context (s : heap_state) (Ls : gmap Z (list Z)) (a : Z) (ar : arena) (i j : Z) (xs xs' : list Z) (l : lstate).
Hypothesis Hok : heap_ok s Ls.
Hypothesis Ha : arenas s !! a = Some ar.
Hypothesis Hsm : small_ok s Ls a ar i xs.
Hypothesis Hj : 0 <= j < bpa i.
Hypothesis Hpost : list_post (hlists s) (<[free_list (desc_addr s i) := xs']> Ls) l.
Hypothesis Hxs : forall x, x <> block a i j -> x ∈ xs' <-> x ∈ xs.

Local Abbreviation Ls' := (<[free_list (desc_addr s i) := xs']> Ls).
Local Abbreviation s' := (moved s l a (free_blocks a i xs') ar).

Lemma other_arena_block a0 ar0 i0 j0 :
  arenas s !! a0 = Some ar0 -> a0 <> a -> 0 <= i0 < 7 -> 0 <= j0 < bpa i0 -> block a0 i0 j0 <> block a i j.
Proof.
  intros H0 Hne Hi0 Hj0 E. apply Hne. eapply block_arena; [..|exact E]; try done; [apply Hsm | |].
  - apply (ho_arena _ _ Hok _ _ H0).
  - apply (ho_arena _ _ Hok _ _ Ha).
Qed.

Lemma moved_list i0 : 0 <= i0 < 7 ->
  Ls' !! free_list (desc_addr s i0) = if decide (i0 = i) then Some xs' else Ls !! free_list (desc_addr s i0).
Proof.
  intros Hi0. destruct (decide (i0 = i)) as [->|Hne]; [apply lookup_insert_eq|].
  apply lookup_insert_ne. unfold free_list. intros E. apply Hne, (desc_addr_inj s). lia.
Qed.

Lemma moved_arena a0 ar0 :
  arenas s' !! a0 = Some ar0 ->
  (a0 = a /\ ar0 = Arena (desc ar) (free_blocks a i xs') (large ar)) \/ (a0 <> a /\ arenas s !! a0 = Some ar0).
Proof.
  simpl. destruct (Z.eq_dec a a0) as [<-|Hne].
  - rewrite lookup_insert_eq. intros [= <-]. by left.
  - rewrite lookup_insert_ne by done. right. by split; [apply not_eq_sym|].
Qed.

Lemma moved_other_small a0 ar0 i0 xs0 :
  arenas s !! a0 = Some ar0 -> a0 <> a -> small_ok s Ls a0 ar0 i0 xs0 ->
  exists xs1, small_ok s' Ls' a0 ar0 i0 xs1.
Proof.
  intros H0 Hne [S1 S2 S3 S4 S5 S6 S7]. destruct Hpost as (_ & _ & Hdom).
  assert (forall j0, 0 <= j0 < bpa i0 -> block a0 i0 j0 <> block a i j) as Hb by (intros; by eapply other_arena_block).
  exists (if decide (i0 = i) then xs' else xs0). split; try done.
  - change (desc_addr s' i0) with (desc_addr s i0). rewrite moved_list by done. by destruct (decide (i0 = i)).
  - rewrite S5. destruct (decide (i0 = i)) as [->|]; [|done].
    assert (xs0 = xs) as -> by (rewrite (sm_list _ _ _ _ _ _ Hsm) in S4; by injection S4).
    apply count_n_ext. intros j0 Hj0. apply bool_decide_ext. symmetry. apply Hxs, Hb.
    pose proof (bsz_bounds i S1). lia.
  - intros j0 Hj0. simpl. rewrite Hdom. by apply S6.
  - intros j0 Hj0 Hout. eapply unlinked_move; [exact Hdom | apply Hsm | exact Hxs | by apply Hb|].
    apply S7; [done|]. destruct (decide (i0 = i)) as [->|]; [|done].
    assert (xs0 = xs) as -> by (rewrite (sm_list _ _ _ _ _ _ Hsm) in S4; by injection S4).
    rewrite <- Hxs by (by apply Hb). done.
Qed.

Lemma moved_small :
  (block a i j ∈ xs' \/ unlinked (nodes l) Ls' (block a i j)) ->
  small_ok s' Ls' a (Arena (desc ar) (free_blocks a i xs') (large ar)) i xs'.
Proof.
  intros Hblk. destruct Hsm as [S1 S2 S3 S4 S5 S6 S7]. destruct Hpost as (_ & _ & Hdom). split; try done.
  - apply lookup_insert_eq.
  - intros j0 Hj0. simpl. rewrite Hdom. by apply S6.
  - intros j0 Hj0 Hout. destruct (Z.eq_dec j0 j) as [->|Hne]; [by destruct Hblk|].
    assert (block a i j0 <> block a i j) as Hb by (intros E; apply Hne; by eapply block_inj).
    eapply unlinked_move; [exact Hdom | exact S4 | exact Hxs | exact Hb|]. apply S7; [done|].
    by rewrite <- Hxs.
Qed.

Lemma moved_arena_ok a0 ar0 :
  (block a i j ∈ xs' \/ unlinked (nodes l) Ls' (block a i j)) -> arenas s' !! a0 = Some ar0 -> arena_ok s' Ls' a0 ar0.
Proof.
  intros Hblk H0. apply moved_arena in H0 as [[-> ->]|[Hne H0]].
  - destruct (ho_arena _ _ Hok _ _ Ha) as [A1 A2 _]. split; [done | |].
    + unfold arena_pages. simpl. rewrite (sm_small _ _ _ _ _ _ Hsm). simpl. intros k Hk.
      apply A2. unfold arena_pages. by rewrite (sm_small _ _ _ _ _ _ Hsm).
    + right. exists i, xs'. by apply moved_small.
  - destruct (ho_arena _ _ Hok _ _ H0) as [A1 A2 [A3|(i0 & xs0 & A3)]]; (split; [done | done |]).
    + by left.
    + right. exists i0. by eapply moved_other_small.
Qed.

Lemma heap_ok_moved :
  (block a i j ∈ xs' \/ unlinked (nodes l) Ls' (block a i j)) -> heap_ok s' Ls'.
Proof.
  intros Hblk. destruct Hpost as (Hlists & _ & Hdom). 
  assert (forall b br, arenas s' !! b = Some br -> exists br0, arenas s !! b = Some br0 /\ arena_pages br = arena_pages br0) as Hpg.
  { intros b br Hb. apply moved_arena in Hb as [[-> ->]|[_ Hb]]; [|by exists br]. exists ar. split; [done|].
    unfold arena_pages. simpl. by rewrite (sm_small _ _ _ _ _ _ Hsm). }
  split; try apply Hok.
  - exact Hlists.
  - intros i0 Hi0. change (desc_addr s' i0) with (desc_addr s i0). rewrite moved_list by done.
    destruct (decide (i0 = i)); [by eexists | by apply Hok].
  - intros i0 ys x Hi0 Hys Hx. change (desc_addr s' i0) with (desc_addr s i0) in *. rewrite moved_list in Hys by done.
    assert (forall b ar0 j0, arenas s !! b = Some ar0 -> desc ar0 = desc_addr s i0 -> 0 <= j0 < bpa i0 ->
      x = block b i0 j0 -> exists a1 ar1 j1, arenas s' !! a1 = Some ar1 /\ desc ar1 = desc_addr s i0 /\
        0 <= j1 < bpa i0 /\ x = block a1 i0 j1) as Hex.
    { intros b ar0 j0 Hb Hd Hj0 ->. simpl. destruct (Z.eq_dec a b) as [->|Hne].
      - assert (ar0 = ar) as -> by congruence. eexists b, _, j0. by rewrite lookup_insert_eq.
      - exists b, ar0, j0. by rewrite lookup_insert_ne. }
    destruct (decide (i0 = i)) as [->|Hne].
    + injection Hys as <-. destruct (Z.eq_dec x (block a i j)) as [->|Hx'].
      * by apply (Hex a ar j); [|apply Hsm| |].
      * apply Hxs in Hx; [|done].
        destruct (ho_block _ _ Hok i xs x Hi0 (sm_list _ _ _ _ _ _ Hsm) Hx) as (b & ar0 & j0 & Hb & Hd & Hj0 & Ex).
        by apply (Hex b ar0 j0).
    + destruct (ho_block _ _ Hok i0 ys x Hi0 Hys Hx) as (b & ar0 & j0 & Hb & Hd & Hj0 & Ex).
      by apply (Hex b ar0 j0).
  - intros f ys a0 ar0 Hf (br0 & H0 & ->)%Hpg. apply lookup_insert_Some in Hf as [[<- <-]|[_ Hf]].
    + eapply (ho_heads _ _ Hok); [apply Hsm | exact H0].
    + by eapply (ho_heads _ _ Hok).
  - intros f ys x a0 ar0 Hf Hx (br0 & H0 & ->)%Hpg Hr. apply lookup_insert_Some in Hf as [[<- <-]|[_ Hf]].
    + exists i. split; [apply Hsm | done].
    + by apply (ho_members _ _ Hok f ys x a0 br0).
  - intros a0 ar0 H0. by apply moved_arena_ok.
  - intros va x Hva Hx. destruct (ho_fresh _ _ Hok va x Hva Hx) as [F1 F2]. simpl. split.
    + apply not_elem_of_dom. rewrite Hdom. by apply not_elem_of_dom.
    + rewrite lookup_insert_ne; [done | congruence].
  - intros a0 ar0 a1 ar1 (br0 & H0 & ->)%Hpg (br1 & H1 & ->)%Hpg. by apply (ho_sep _ _ Hok).
Qed.

(** What the callers hold: [block a i j] is given exactly when it is off the
    new list, everything else as before. *)
Lemma given_moved p sz :
  given s' Ls' p sz <->
  (given s Ls p sz /\ p <> block a i j) \/ (p = block a i j /\ sz = bsz i /\ block a i j ∉ xs').
Proof.
  assert (forall i0, 0 <= i0 < 7 -> desc ar = desc_addr s i0 -> i0 = i) as Hcl.
  { intros i0 _ E. rewrite (sm_desc _ _ _ _ _ _ Hsm) in E. by apply desc_addr_inj in E as <-. }
  pose proof (small_not_large _ _ _ _ _ _ Hok Hsm) as Hnl. pose proof (sm_class _ _ _ _ _ _ Hsm) as Hi.
  assert (forall a0 ar0, arenas s !! a0 = Some ar0 -> desc ar0 = NULL -> a0 + 12 <> block a i j) as Hlb.
  { intros a0 ar0 H0 Hd E. assert (a0 <> a) as Hne by congruence.
    assert (a0 + 12 = block a0 0 0) as E0 by (unfold block; lia). rewrite E0 in E.
    by apply (other_arena_block a0 ar0 0 0) in E. }
  split.
  - intros (a0 & ar0 & H0 & Hcase). apply moved_arena in H0 as [[-> ->]|[Hne H0]]; simpl in Hcase.
    + destruct Hcase as [[? _]|(i0 & j0 & ys & Hi0 & Hd & Hj0 & -> & Hys & Hout & ->)]; [done|].
      change (desc_addr (moved _ _ _ _ _) i0) with (desc_addr s i0) in *. apply Hcl in Hd as ->; [|done].
      rewrite moved_list, decide_True in Hys by done. injection Hys as <-.
      destruct (Z.eq_dec (block a i j0) (block a i j)) as [Eb|Hnb]; [right; by rewrite <- Eb|].
      left. split; [|done]. exists a, ar. split; [done|]. right. exists i, j0, xs.
      split; [done|]. split; [apply Hsm|]. split; [done|]. split; [done|]. split; [apply Hsm|]. by rewrite <- Hxs.
    + left. destruct Hcase as [(Hd & -> & ->)|(i0 & j0 & ys & Hi0 & Hd & Hj0 & -> & Hys & Hout & ->)].
      * split; [|by eapply Hlb]. exists a0, ar0. split; [done | by left].
      * change (desc_addr (moved _ _ _ _ _) i0) with (desc_addr s i0) in *.
        assert (block a0 i0 j0 <> block a i j) as Hb by (by eapply other_arena_block). split; [|done].
        exists a0, ar0. split; [done|]. right. rewrite moved_list in Hys by done.
        destruct (decide (i0 = i)) as [->|Hii]; [|by exists i0, j0, ys].
        injection Hys as <-. exists i, j0, xs. rewrite <- Hxs by done. repeat (split; [done|]). split; [apply Hsm | done].
  - intros [[(a0 & ar0 & H0 & Hcase) Hp]|(-> & -> & Hout)].
    + destruct (Z.eq_dec a0 a) as [->|Hne].
      * assert (ar0 = ar) as -> by congruence. eexists a, _. simpl. rewrite lookup_insert_eq. split; [done|]. right.
        destruct Hcase as [[? _]|(i0 & j0 & ys & Hi0 & Hd & Hj0 & -> & Hys & Hout & ->)]; [done|].
        pose proof (Hcl i0 Hi0 Hd) as ->. exists i, j0, xs'. change (desc_addr (moved _ _ _ _ _) i) with (desc_addr s i).
        rewrite moved_list, decide_True by done. rewrite (sm_list _ _ _ _ _ _ Hsm) in Hys. injection Hys as <-.
        repeat (split; [done|]). split; [|done]. by rewrite Hxs.
      * exists a0, ar0. simpl. rewrite lookup_insert_ne by (by apply not_eq_sym). split; [done|].
        destruct Hcase as [Hl|(i0 & j0 & ys & Hi0 & Hd & Hj0 & -> & Hys & Hout & ->)]; [by left | right].
        change (desc_addr (moved _ _ _ _ _)) with (desc_addr s). destruct (decide (i0 = i)) as [->|Hii].
        -- exists i, j0, xs'. rewrite moved_list, decide_True by done.
           rewrite (sm_list _ _ _ _ _ _ Hsm) in Hys. injection Hys as <-.
           repeat (split; [done|]). split; [|done]. by rewrite Hxs.
        -- exists i0, j0, ys. rewrite moved_list, decide_False by done. done.
    + eexists a, _. simpl. rewrite lookup_insert_eq. split; [done|]. right. exists i, j, xs'.
      change (desc_addr (moved _ _ _ _ _)) with (desc_addr s). rewrite moved_list, decide_True by done.
      split; [done|]. split; [apply Hsm | done].
Qed.
End Move.

(** *** Taking a block *)
Lemma free_blocks_flip a i j xs xs' :
  0 <= i < 7 -> 0 <= j < bpa i -> block a i j ∈ xs -> block a i j ∉ xs' ->
  (forall x, x <> block a i j -> x ∈ xs' <-> x ∈ xs) -> free_blocks a i xs' = free_blocks a i xs - 1.
Proof.
  intros Hi Hj Hin Hout Hx. pose proof (bsz_bounds i Hi). unfold free_blocks.
  apply (count_n_flip _ _ _ _ j); [lia | by apply bool_decide_true | by apply bool_decide_false |].
  intros j' Hj' Hne. apply bool_decide_ext. symmetry. apply Hx. intros E. by apply Hne, (block_inj a i).
Qed.

Lemma free_blocks_bounds a i xs : 0 <= i < 7 -> 0 <= free_blocks a i xs <= bpa i.
Proof.
  intros Hi. pose proof (bsz_bounds i Hi). split; [apply count_n_nonneg|]. unfold free_blocks.
  assert (forall f lo n, count_n f lo n <= Z.of_nat n) as Hc.
  { intros f lo n. revert lo. induction n as [|n IH]; intros lo; simpl; [done|].
    specialize (IH (lo + 1)). destruct (f lo); lia. }
  specialize (Hc (fun j => bool_decide (block a i j ∈ xs)) 0 (Z.to_nat (bpa i))). lia.
Qed.

(** The page of an arena. *)
Lemma arena_page s Ls a ar :
  heap_ok s Ls -> arenas s !! a = Some ar -> 0 < arena_pages ar /\ a mod 4096 = 0 /\ managed a /\
    page_in_use (heap_pf s) (hmem s) a.
Proof.
  intros Hok Ha. destruct (ho_arena _ _ Hok _ _ Ha) as [A1 A2 A3].
  assert (0 < arena_pages ar) as Hp.
  { unfold arena_pages. destruct A3 as [[_ -> H]|(i & xs & Hs)]; [simpl; lia|].
    by rewrite (sm_small _ _ _ _ _ _ Hs). }
  pose proof (A2 0 ltac:(lia)) as Hu. rewrite Z.mul_0_l, Z.add_0_r in Hu.
  split; [done|]. split; [done|]. split; [by apply (in_use_page _ _ _ Hu) | done].
Qed.

Lemma managed_block a i j :
  managed a -> 0 <= i < 7 -> 0 <= j < bpa i -> is_u32 (block a i j) /\ is_u32 (a + 4096).
Proof.
  intros [Hu Hd] Hi Hj. pose proof (block_range a i j Hi Hj). pose proof (bsz_bounds i Hi).
  rewrite PDE_IDX_div in Hd by done. assert (a < 1023 * 2 ^ 22).
  { pose proof (Z.div_mod a (2 ^ 22) ltac:(lia)). pose proof (Z.mod_pos_bound a (2 ^ 22)). lia. }
  unfold is_u32 in *. lia.
Qed.

Lemma arena_at_eq s a ar : arenas s !! a = Some ar -> arena_at a s = Ok (ar, s).
Proof. intros Ha. unfold arena_at, mbind, M_bind, get. simpl. by rewrite Ha. Qed.

Lemma update_arena_eq s a ar f :
  arenas s !! a = Some ar -> update_arena a f s = Ok (tt, put_arenas (<[a := f ar]> (arenas s)) s).
Proof. intros Ha. unfold update_arena. by erewrite bind_ok by (by apply arena_at_eq). Qed.

(** [b], [sz] bytes, is the one new piece of memory in the callers' hands. *)
Definition gives (s : heap_state) (Ls : gmap Z (list Z)) (s' : heap_state) (Ls' : gmap Z (list Z)) (b sz : Z) : Prop :=
  (forall p n, given s' Ls' p n <-> given s Ls p n \/ (p = b /\ n = sz)) /\ forall n, ~ given s Ls b n.

Lemma given_not_free s Ls i xs x n :
  heap_ok s Ls -> 0 <= i < 7 -> Ls !! free_list (desc_addr s i) = Some xs -> x ∈ xs -> ~ given s Ls x n.
Proof.
  intros Hok Hi HL Hx (a' & ar' & H' & Hcase).
  destruct (ho_block _ _ Hok i xs x Hi HL Hx) as (a & ar & j & Ha & Hd & Hj & Ex).
  destruct (arena_page _ _ _ _ Hok Ha) as (_ & Hal & _). destruct (arena_page _ _ _ _ Hok H') as (_ & Hal' & _).
  destruct Hcase as [(Hn & E & _)|(i' & j' & ys & Hi' & Hd' & Hj' & E & Hys & Hout & _)].
  - assert (a = a') as <-.
    { apply (block_arena a a' i 0 j 0); try done. rewrite <- Ex, E. unfold block. lia. }
    assert (ar' = ar) as -> by congruence. rewrite Hn in Hd. by apply (desc_not_null s Ls i Hok Hi).
  - assert (a = a') as <- by (apply (block_arena a a' i i' j j'); try done; congruence).
    assert (ar' = ar) as -> by congruence. rewrite Hd in Hd'. apply desc_addr_inj in Hd' as <-.
    rewrite HL in Hys. injection Hys as <-. done.
Qed.

Lemma take_block_ok s Ls i x xs :
  heap_ok s Ls -> 0 <= i < 7 -> Ls !! free_list (desc_addr s i) = Some (x :: xs) ->
  wp (take_block (desc_addr s i)) s (fun b s' => b = x /\
    let Ls' := <[free_list (desc_addr s i) := xs]> Ls in
    heap_ok s' Ls' /\ gives s Ls s' Ls' x (bsz i) /\ hmem s' = hmem s /\ heap_pf s' = heap_pf s /\
    forall i', desc_addr s' i' = desc_addr s i').
Proof.
  intros Hok Hi HL. pose proof (ho_lists _ _ Hok) as Hl.
  destruct (ho_block _ _ Hok i _ x Hi HL (list_elem_of_here _ _)) as (a & ar & j & Ha & Hd & Hj & ->).
  destruct (arena_class s Ls a ar i Hok Ha Hi Hd) as (ys & Hsm).
  assert (ys = block a i j :: xs) as -> by (rewrite (sm_list _ _ _ _ _ _ Hsm) in HL; by injection HL).
  destruct (arena_page _ _ _ _ Hok Ha) as (_ & Hal & Hm & _).
  destruct (managed_block a i j Hm Hi Hj) as [Hub _].
  assert (block a i j ∉ xs) as Hnin.
  { destruct (ok_lists _ _ Hl _ _ HL) as [_ Hnd]. unfold path in Hnd. apply NoDup_cons in Hnd as [_ Hnd].
    cbn [app] in Hnd. apply NoDup_cons in Hnd as [Hnd _]. intros Hin. apply Hnd, elem_of_app. by left. }
  assert (forall x, x <> block a i j -> x ∈ xs <-> x ∈ block a i j :: xs) as Hx by set_solver.
  pose proof (free_blocks_flip a i j _ xs Hi Hj (list_elem_of_here _ _) Hnin Hx) as Hcnt.
  pose proof (free_blocks_bounds a i xs Hi) as Hb. pose proof (bsz_bounds i Hi).
  unfold take_block. wp_step. apply wp_zoom. eapply wp_mono; [by apply (list_pop_ok _ Ls)|].
  intros r l (-> & Hpost & Hun). rewrite Z.sub_0_r, u32_id, block2arena_block by (done || apply Hm).
  wp_step. eapply wp_ok; [by apply update_arena_eq|]. wp_step. split; [done|].
  replace (u32 (cnt ar - 1)) with (free_blocks a i xs).
  2: { rewrite (sm_cnt _ _ _ _ _ _ Hsm), <- Hcnt, u32_id; [done | unfold is_u32; lia]. }
  change (put_arenas _ _) with (moved s l a (free_blocks a i xs) ar).
  split; [by eapply heap_ok_moved; eauto|]. split; [|done]. split.
  - intros p n. rewrite (given_moved s Ls a ar i j (block a i j :: xs) xs l) by done. split.
    + intros [[? _]|(-> & -> & _)]; [by left | by right].
    + intros [Hg|[-> ->]]; [|by right]. left. split; [done|]. intros ->.
      by apply (given_not_free s Ls i _ _ n Hok Hi HL (list_elem_of_here _ _)) in Hg.
  - intros n. by apply (given_not_free s Ls i _ _ n Hok Hi HL), list_elem_of_here.
Qed.
