(* ===== verification/HeapInit.v ===== *)
(** * The heap at its start: block_desc_init (kernel/memory.c)

    [block_desc_init] makes the seven descriptors and their empty free lists;
    with no arena yet the heap is in order and nothing is held. *)
From stdpp Require Import base numbers list gmap fin_maps.
From Stdlib Require Import ZArith Lia.
From S2P Require Import Prelude Globals Interrupt LinkedList Bitmap Paging PageAlloc PageFree Pages Heap.

(** What initialising the descriptors [k .. 7) of the array at [d] makes of the
    lists and of the descriptors. *)
Record descs_made (d k : Z) (Ls Ls' : gmap Z (list Z)) (ds ds' : gmap Z mem_block_desc) : Prop := {
  made_list : forall i, k <= i < 7 -> Ls' !! free_list (d + sizeof_block_desc * i) = Some [];
  made_lists_kept : forall f, (forall i, k <= i < 7 -> f <> free_list (d + sizeof_block_desc * i)) -> Ls' !! f = Ls !! f;
  made_desc : forall i, k <= i < 7 -> ds' !! (d + sizeof_block_desc * i) = Some (BlockDesc (bsz i) (bpa i));
  made_descs_kept : forall x, (forall i, k <= i < 7 -> x <> d + sizeof_block_desc * i) -> ds' !! x = ds !! x;
}.

Lemma descs_made_cases d Ls Ls' ds ds' f ys :
  descs_made d 0 Ls Ls' ds ds' -> Ls' !! f = Some ys ->
  (ys = [] /\ exists i, 0 <= i < 7 /\ f = free_list (d + sizeof_block_desc * i)) \/ Ls !! f = Some ys.
Proof.
  intros [D1 D2 _ _] Hf. destruct (decide (f ∈ (fun i => free_list (d + sizeof_block_desc * i)) <$> seqZ 0 7))
    as [(i & -> & Hi%elem_of_seqZ)%list_elem_of_fmap|Hn].
  - rewrite D1 in Hf by done. injection Hf as <-. left. split; [done|]. by exists i.
  - right. rewrite D2 in Hf; [done|]. intros i Hi ->. apply Hn, list_elem_of_fmap. exists i. split; [done|]. apply elem_of_seqZ. lia.
Qed.

(** The list headers of the array at [d] are accessible and in no list. *)
Definition headers (d k : Z) (ns : gmap Z list_node) (Ls : gmap Z (list Z)) : Prop :=
  forall i, k <= i < 7 -> unlinked ns Ls (head_of (free_list (d + sizeof_block_desc * i))) /\
    unlinked ns Ls (tail_of (free_list (d + sizeof_block_desc * i))).

Lemma headers_next d k ns ns' Ls :
  headers d k ns Ls -> dom ns' = dom ns -> headers d (k + 1) ns' (<[free_list (d + sizeof_block_desc * k) := []]> Ls).
Proof.
  intros Hh Hd i Hi. destruct (Hh i ltac:(lia)) as [[H1 H2] [H3 H4]].
  assert (forall x, x = head_of (free_list (d + sizeof_block_desc * i)) \/ x = tail_of (free_list (d + sizeof_block_desc * i)) ->
    x ∉ path (free_list (d + sizeof_block_desc * k)) []) as Hne.
  { unfold path, head_of, tail_of, free_list, sizeof_block_desc. intros x Hx. cbn [app].
    rewrite elem_of_cons, list_elem_of_singleton. lia. }
  split; (split; [by rewrite Hd|]); intros f ys [[<- <-]|[_ Hf]]%lookup_insert_Some; [| by apply (H2 f) | | by apply (H4 f)]; apply Hne; auto.
Qed.

Lemma block_desc_init_loop_ok n d k s Ls :
  0 <= k -> k + Z.of_nat n = 7 -> headers d k (nodes (hlists s)) Ls -> lists_ok (nodes (hlists s)) Ls ->
  wp (block_desc_init_loop n d k (u16 (bsz k))) s (fun _ s' => exists l ds Ls',
    s' = put_descs ds (put hlists_lens l s) /\ list_post (hlists s) Ls' l /\ descs_made d k Ls Ls' (descs s) ds).
Proof.
  revert k s Ls. induction n as [|n IH]; intros k s Ls Hk Hn Hh Hl; simpl.
  - wp_step. exists (hlists s), (descs s), Ls. split; [by destruct s|].
    split; [by apply list_post_refl|]. split; (done || intros; lia).
  - assert (0 <= k < 7) as Hkr by lia. destruct (Hh k ltac:(lia)) as [Hd1 Hd2].
    assert (u16 (bsz k) = bsz k) as Eb by (pose proof (bsz_bounds k Hkr); apply u16_id; unfold is_u16; lia).
    wp_step. wp_step. wp_step. unfold hl at 1. apply wp_zoom. eapply wp_mono; [by apply (list_init_ok _ Ls)|].
    intros [] l (Hl' & He & Hdom). replace (u16 (u16 (bsz k) * 2)) with (u16 (bsz (k + 1))).
    2: { rewrite Eb. unfold bsz. rewrite Z.pow_add_r by lia. f_equal. lia. }
    eapply wp_mono; [apply (IH (k + 1) _ (<[free_list (d + sizeof_block_desc * k) := []]> Ls)); try lia; [|done]|].
    + simpl. by apply (headers_next d k (nodes (hlists s))).
    + intros [] s' (l' & ds & Ls' & -> & (P1 & P2 & P3) & [D1 D2 D3 D4]). exists l', ds, Ls'. simpl in P2, P3, D4.
      split; [by destruct s|]. split; [split; [done|]; by rewrite P2, P3|].
      split.
      * intros i Hi. destruct (Z.eq_dec i k) as [->|]; [|apply D1; lia]. rewrite D2, lookup_insert_eq; [done|].
        intros i Hi'. unfold free_list, sizeof_block_desc. lia.
      * intros f Hf. rewrite D2 by (intros i Hi'; apply Hf; lia). apply lookup_insert_ne. intros <-. by apply (Hf k ltac:(lia)).
      * intros i Hi. destruct (Z.eq_dec i k) as [->|]; [|apply D3; lia]. rewrite D4, lookup_insert_eq, Eb; [done|].
        intros i Hi'. unfold sizeof_block_desc. lia.
      * intros x Hx. rewrite D4 by (intros i Hi'; apply Hx; lia). apply lookup_insert_ne. intros <-. by apply (Hx k ltac:(lia)).
Qed.

(** A heap before [block_desc_init]: the allocator in order, no arena, the
    headers of the descriptors accessible, no node in a free page. *)
Record heap_raw (s : heap_state) : Prop := {
  hr_mem : mem_ok (hmem s);
  hr_live : live (hmem s) (heap_pf s);
  hr_kernel : K_HEAP_START <= vaddr_start (kernel_vaddr_pool (hmem s));
  hr_descs : 0 < heap_descs s;
  hr_arenas : arenas s = ∅;
  hr_headers : headers (heap_descs s) 0 (nodes (hlists s)) ∅;
  hr_fresh : forall va x, vaddr_free (vpool_get (heap_pf s) (hmem s)) va -> va <= x < va + 4096 ->
    nodes (hlists s) !! x = None;
}.

Lemma block_desc_init_ok s :
  heap_raw s -> wp (block_desc_init (heap_descs s)) s (fun _ s' => exists Ls, heap_ok s' Ls /\
    (forall i, 0 <= i < 7 -> Ls !! free_list (desc_addr s' i) = Some []) /\
    arenas s' = ∅ /\ hmem s' = hmem s /\ heap_descs s' = heap_descs s /\ eflags (hlists s') = eflags (hlists s)).
Proof.
  intros [R1 R2 R3 R4 R5 R6 R7]. unfold block_desc_init. change 16 with (u16 (bsz 0)). eapply wp_mono.
  { by apply (block_desc_init_loop_ok _ _ 0 s ∅). }
  intros [] ? (l & ds & Ls & -> & (P1 & P2 & P3) & D). pose proof D as [D1 D2 D3 D4]. exists Ls.
  assert (forall f xs, Ls !! f = Some xs -> xs = []) as Hempty.
  { intros f xs Hf. by destruct (descs_made_cases _ _ _ _ _ _ _ D Hf) as [[-> _]|?]. }
  split; [|done]. split; try done; simpl; rewrite ?R5; try done.
  - intros i Hi. exists []. by apply D1.
  - intros i xs x _ Hx Hin. rewrite (Hempty _ _ Hx) in Hin. by apply elem_of_nil in Hin.
  - intros va x Hva Hx. split; [|done]. apply not_elem_of_dom. rewrite P3.
    apply not_elem_of_dom. by apply (R7 va).
Qed.

(** ** Properties *)

(** After [block_desc_init] the heap is in order: the descriptors hold the
    sizes 16, 32, ..., 1024 with as many blocks as fit a page behind the
    arena's header, every free list is empty, and nothing is held. *)
Theorem block_desc_init_correct (s : heap_state) (Hraw : heap_raw s) :
  exists s' Ls, block_desc_init (heap_descs s) s = Ok (tt, s') /\ heap_ok s' Ls /\
    (forall i, 0 <= i < 7 -> descs s' !! desc_addr s' i = Some (BlockDesc (16 * 2 ^ i) ((4096 - 12) / (16 * 2 ^ i))) /\
      Ls !! free_list (desc_addr s' i) = Some []) /\
    (forall p sz, ~ given s' Ls p sz) /\ heap_descs s' = heap_descs s /\ hmem s' = hmem s.
Proof.
  destruct (wp_ok_inv _ _ _ (block_desc_init_ok s Hraw)) as ([] & s' & E & Ls & Hok & Hl & Ha & Hm & Hd & _).
  exists s', Ls. split; [done|]. split; [done|]. split; [|split; [|done]].
  - intros i Hi. split; [by apply (ho_desc _ _ Hok) | by apply Hl].
  - intros p sz (a & ar & H0 & _). by rewrite Ha in H0.
Qed.

(** *** A concrete heap: the kernel's, on the machine of [example_mem], its
    descriptors at 0xc0010000. *)
Definition example_headers : gmap Z list_node := gset_to_gmap (Node NULL NULL)
  (list_to_set ((fun i => 0xc0010000 + 24 * i + 8) <$> seqZ 0 7) ∪ list_to_set ((fun i => 0xc0010000 + 24 * i + 16) <$> seqZ 0 7)).

Definition example_raw_heap : heap_state :=
  Heap (LState example_headers 0x202) ∅ ∅ 0xc0010000 0 example_mem.

Lemma example_raw : heap_raw example_raw_heap.
Proof.
  split; try done.
  - apply example_mem_ok.
  - simpl. unfold example_headers. intros i Hi. unfold unlinked. rewrite dom_gset_to_gmap.
    split; (split; [|intros f ys Hf; by rewrite lookup_empty in Hf]); apply elem_of_union; [left | right];
      apply elem_of_list_to_set, list_elem_of_fmap; exists i; (split; [unfold head_of, tail_of, free_list, sizeof_block_desc; change (heap_descs example_raw_heap) with 0xc0010000; lia|]);
      apply elem_of_seqZ; lia.
  - intros va x (j & Hj & _ & ->) Hx. apply not_elem_of_dom. simpl. unfold example_headers. rewrite dom_gset_to_gmap.
    change (vaddr_start (vpool_get (heap_pf example_raw_heap) (hmem example_raw_heap))) with 0xc0100000 in Hx.
    intros [Hin|Hin]%elem_of_union; apply elem_of_list_to_set, list_elem_of_fmap in Hin as (i & -> & Hi%elem_of_seqZ); lia.
Qed.

Lemma block_desc_init_correct_witness : exists s' Ls,
  block_desc_init 0xc0010000 example_raw_heap = Ok (tt, s') /\ heap_ok s' Ls /\ descs s' !! 0xc0010018 = Some (BlockDesc 32 127).
Proof.
  destruct (block_desc_init_correct example_raw_heap example_raw) as (s' & Ls & E & Hok & Hd & _ & Ed & _).
  exists s', Ls. split; [exact E|]. split; [exact Hok|]. destruct (Hd 1 ltac:(lia)) as [H1 _].
  unfold desc_addr in H1. rewrite Ed in H1. exact H1.
Defined.

(** The heap the examples of [sys_malloc] and [sys_free] start from. *)
Lemma example_heap_exists : exists s Ls, heap_ok s Ls /\
  (forall i, 0 <= i < 7 -> Ls !! free_list (desc_addr s i) = Some []) /\ hmem s = example_mem /\ heap_pf s = PF_KERNEL.
Proof.
  destruct (wp_ok_inv _ _ _ (block_desc_init_ok _ example_raw)) as ([] & s' & _ & Ls & Hok & Hl & _ & Hm & _).
  exists s', Ls. split; [done|]. split; [done|]. split; [done|]. unfold heap_pf. by rewrite Hm.
Qed.
