(* ===== verification/HeapAlloc.v ===== *)
(** * Allocation from the heap: proofs about [sys_malloc] (kernel/memory.c)

    A new arena, small or large, extends a heap that is in order; with it
    [sys_malloc] hands out memory that nobody holds. *)
From stdpp Require Import base numbers list gmap fin_maps.
From Stdlib Require Import ZArith Lia.
From S2P Require Import Prelude Globals Interrupt LinkedList Bitmap Paging PageAlloc PageFree Pages Heap HeapInit.

(** *** A new arena *)

(** The pages of an arena are in use, those of a fresh range were free. *)
Lemma fresh_disjoint s Ls m a n a0 ar0 :
  heap_ok s Ls -> got_pages (heap_pf s) (hmem s) m a n -> 0 < n -> arenas s !! a0 = Some ar0 ->
  a0 + arena_pages ar0 * 4096 <= a \/ a + n * 4096 <= a0.
Proof.
  intros Hok G Hn H0. destruct (arena_page _ _ _ _ Hok H0) as (Hp & Hal0 & _).
  pose proof (run_aligned _ _ _ _ (ho_mem _ _ Hok) (ho_live _ _ Hok) (gp_run _ _ _ _ _ G)) as Hal.
  pose proof (Z.div_mod a 4096 ltac:(lia)). pose proof (Z.div_mod a0 4096 ltac:(lia)).
  destruct (decide (a0 + arena_pages ar0 * 4096 <= a \/ a + n * 4096 <= a0)) as [|Hover]; [done|].
  exfalso. set (v := Z.max a0 a).
  assert (exists k, 0 <= k < arena_pages ar0 /\ v = a0 + k * 4096) as (k & Hk & Ek).
  { exists (v / 4096 - a0 / 4096). unfold v. destruct (Z.max_spec a0 a) as [[? ->]|[? ->]]; lia. }
  assert (exists k, 0 <= k < n /\ v = a + k * 4096) as (k' & Hk' & Ek').
  { exists (v / 4096 - a / 4096). unfold v. destruct (Z.max_spec a0 a) as [[? ->]|[? ->]]; lia. }
  destruct (ao_pages _ _ _ _ (ho_arena _ _ Hok _ _ H0) k Hk) as (_ & Hnf & _). apply Hnf.
  rewrite <- Ek, Ek'. by apply (gp_page _ _ _ _ _ G).
Qed.

(** What is given from one arena. *)
Definition given_in (s : heap_state) (Ls : gmap Z (list Z)) (a : Z) (ar : arena) (p sz : Z) : Prop :=
  (desc ar = NULL /\ p = a + 12 /\ sz = cnt ar * 4096 - 12) \/
  exists i j xs, 0 <= i < 7 /\ desc ar = desc_addr s i /\ 0 <= j < bpa i /\ p = block a i j /\
    Ls !! free_list (desc_addr s i) = Some xs /\ p ∉ xs /\ sz = bsz i.

Definition grown (s : heap_state) (l : lstate) (a : Z) (ar : arena) (m : mem_state) : heap_state :=
  Heap l (<[a := ar]> (arenas s)) (descs s) (k_block_descs s) (u_block_descs s) m.

Section Grow.
Context (s : heap_state) (Ls Ls' : gmap Z (list Z)) (m : mem_state) (a n : Z) (ar : arena) (l : lstate).
Hypothesis Hok : heap_ok s Ls.
Hypothesis Hn : 0 < n.
Hypothesis G : got_pages (heap_pf s) (hmem s) m a n.
Hypothesis Hpages : arena_pages ar = n.
Hypothesis Hlists : lists_ok (nodes l) Ls'.
(** Lists and nodes change only inside the new range. *)
Hypothesis Hsame : forall x, ~ a <= x < a + n * 4096 -> x ∈ dom (nodes l) <-> x ∈ dom (nodes (hlists s)).
Hypothesis Hold : forall f ys, Ls' !! f = Some ys -> exists ys0, Ls !! f = Some ys0 /\
  forall x, ~ a <= x < a + n * 4096 -> x ∈ ys <-> x ∈ ys0.
Hypothesis Hkeep : forall f, is_Some (Ls !! f) -> is_Some (Ls' !! f).
(** The lists meet the new range in blocks of the new arena only. *)
Hypothesis Hheads : forall f ys, Ls' !! f = Some ys ->
  ~ a <= head_of f < a + n * 4096 /\ ~ a <= tail_of f < a + n * 4096.
Hypothesis Hnew : forall f ys x, Ls' !! f = Some ys -> x ∈ ys -> a <= x < a + n * 4096 ->
  exists i j, 0 <= i < 7 /\ f = free_list (desc_addr s i) /\ desc ar = desc_addr s i /\ 0 <= j < bpa i /\ x = block a i j.

Local Abbreviation s' := (grown s l a ar m).

Lemma grown_pf : heap_pf s' = heap_pf s /\ heap_descs s' = heap_descs s.
Proof. unfold heap_pf, heap_descs. simpl. by rewrite (gp_pgdir _ _ _ _ _ G). Qed.

Lemma grown_addr i : desc_addr s' i = desc_addr s i.
Proof. unfold desc_addr. by rewrite (proj2 grown_pf). Qed.

Lemma grown_arena a0 ar0 : arenas s' !! a0 = Some ar0 ->
  (a0 = a /\ ar0 = ar) \/ (a0 <> a /\ arenas s !! a0 = Some ar0).
Proof.
  simpl. destruct (Z.eq_dec a a0) as [<-|Hne].
  - rewrite lookup_insert_eq. intros [= <-]. by left.
  - rewrite lookup_insert_ne by done. right. by split; [apply not_eq_sym|].
Qed.

Lemma grow_fresh : arenas s !! a = None.
Proof.
  apply (ho_fresh _ _ Hok a); [|lia]. destruct (gp_page _ _ _ _ _ G 0) as (H & _); [lia|].
  by rewrite Z.mul_0_l, Z.add_0_r in H.
Qed.

Lemma grow_unlinked x : ~ a <= x < a + n * 4096 ->
  unlinked (nodes (hlists s)) Ls x -> unlinked (nodes l) Ls' x.
Proof.
  intros Hx [Hd Hun]. split; [by apply Hsame|]. intros f ys Hf Hin. destruct (Hold f ys Hf) as (ys0 & Hf0 & Heq).
  apply (Hun f ys0 Hf0). unfold path in *. rewrite elem_of_cons, elem_of_app in *. rewrite <- Heq by done. done.
Qed.

Lemma old_block_out a0 ar0 i j :
  arenas s !! a0 = Some ar0 -> 0 <= i < 7 -> 0 <= j < bpa i -> ~ a <= block a0 i j < a + n * 4096.
Proof.
  intros H0 Hi Hj. pose proof (fresh_disjoint s Ls m a n a0 ar0 Hok G Hn H0).
  destruct (arena_page _ _ _ _ Hok H0) as (Hp & _). pose proof (block_range a0 i j Hi Hj).
  pose proof (bsz_bounds i Hi). lia.
Qed.

Lemma grow_old_small a0 ar0 i xs :
  arenas s !! a0 = Some ar0 -> small_ok s Ls a0 ar0 i xs -> exists xs', small_ok s' Ls' a0 ar0 i xs'.
Proof.
  intros H0 [S1 S2 S3 S4 S5 S6 S7]. destruct (Hkeep _ (mk_is_Some _ _ S4)) as [xs' Hxs'].
  destruct (Hold _ _ Hxs') as (xs0 & H4 & Heq). rewrite S4 in H4. injection H4 as <-. exists xs'.
  split; rewrite ?grown_addr; try done.
  - rewrite S5. pose proof (bsz_bounds i S1). apply count_n_ext. intros j Hj. apply bool_decide_ext. symmetry.
    apply Heq. apply (old_block_out a0 ar0); (done || lia).
  - intros j Hj. apply Hsame; [by apply (old_block_out a0 ar0) | by apply S6].
  - intros j Hj Hout. assert (~ a <= block a0 i j < a + n * 4096) as Ho by (by apply (old_block_out a0 ar0)).
    apply grow_unlinked; [done|]. apply S7; [done|]. by rewrite <- Heq.
Qed.

Lemma grow_old a0 ar0 : arenas s !! a0 = Some ar0 -> arena_ok s' Ls' a0 ar0.
Proof.
  intros H0. destruct (ho_arena _ _ Hok _ _ H0) as [A1 A2 A3]. split; [done | |].
  - rewrite (proj1 grown_pf). intros k Hk. by apply (gp_keep _ _ _ _ _ G), A2.
  - destruct A3 as [?|(i & xs & Hs)]; [by left | right]. exists i. by eapply grow_old_small.
Qed.

Lemma heap_ok_grown : arena_ok s' Ls' a ar -> heap_ok s' Ls'.
Proof.
  intros Hnewok. pose proof grown_pf as [Epf Eds]. split.
  - apply G.
  - rewrite Epf. unfold live. simpl. rewrite (gp_pgdir _ _ _ _ _ G). apply Hok.
  - simpl. pose proof (ho_kernel _ _ Hok) as Hk. destruct (heap_pf s) eqn:E; pose proof (gp_start _ _ _ _ _ G) as Es; simpl in Es.
    + by rewrite Es.
    + pose proof (gp_other _ _ _ _ _ G PF_KERNEL ltac:(done)) as Eo. simpl in Eo. by rewrite Eo.
  - rewrite Eds. apply Hok.
  - intros i Hi. rewrite grown_addr. by apply (ho_desc _ _ Hok).
  - exact Hlists.
  - intros i Hi. rewrite grown_addr. by apply Hkeep, (ho_free _ _ Hok).
  - intros i ys x Hi Hys Hx. rewrite grown_addr in *. destruct (decide (a <= x < a + n * 4096)) as [Hin|Hout].
    + destruct (Hnew _ ys x Hys Hx Hin) as (i' & j & Hi' & E & Hd & Hj & ->).
      assert (i' = i) as -> by (apply (desc_addr_inj s); unfold free_list in E; lia).
      exists a, ar, j. simpl. by rewrite lookup_insert_eq.
    + destruct (Hold _ _ Hys) as (ys0 & H0 & Heq).
      destruct (ho_block _ _ Hok i ys0 x Hi H0) as (a0 & ar0 & j & Ha0 & Hd & Hj & ->); [by apply Heq|].
      exists a0, ar0, j. simpl. rewrite lookup_insert_ne; [done|]. intros <-. by rewrite grow_fresh in Ha0.
  - intros f ys a0 ar0 Hf [[-> ->]|[_ H0]]%grown_arena; [rewrite Hpages; by apply (Hheads f ys)|].
    destruct (Hold _ _ Hf) as (ys0 & Hf0 & _). by apply (ho_heads _ _ Hok f ys0).
  - intros f ys x a0 ar0 Hf Hx [[-> ->]|[_ H0]]%grown_arena Hr.
    + rewrite Hpages in Hr. destruct (Hnew _ ys x Hf Hx Hr) as (i & _ & Hi & -> & _). exists i. by rewrite grown_addr.
    + destruct (Hold _ _ Hf) as (ys0 & Hf0 & Heq). pose proof (fresh_disjoint s Ls m a n a0 ar0 Hok G Hn H0).
      destruct (ho_members _ _ Hok f ys0 x a0 ar0 Hf0) as (i & Hi & ->); [apply Heq; (done || lia) | done | done|].
      exists i. by rewrite grown_addr.
  - intros a0 ar0 [[-> ->]|[_ H0]]%grown_arena; [done | by apply grow_old].
  - intros va x Hva Hx. rewrite Epf in Hva. simpl in Hva. apply (gp_vaddr _ _ _ _ _ G) in Hva as [Hva Hout].
    destruct (ho_fresh _ _ Hok va x Hva Hx) as [F1 F2].
    assert (~ a <= x < a + n * 4096) as Hxo.
    { destruct (free_vaddr_managed _ _ _ (ho_mem _ _ Hok) (ho_live _ _ Hok) Hva) as [_ Hal].
      pose proof (run_aligned _ _ _ _ (ho_mem _ _ Hok) (ho_live _ _ Hok) (gp_run _ _ _ _ _ G)) as Hal'.
      pose proof (Z.div_mod a 4096 ltac:(lia)). pose proof (Z.div_mod va 4096 ltac:(lia)). lia. }
    split.
    + apply not_elem_of_dom. simpl. rewrite Hsame by done. by apply not_elem_of_dom.
    + simpl. rewrite lookup_insert_ne; [done | lia].
  - intros a0 ar0 a1 ar1 H0 H1 Hne.
    apply grown_arena in H0 as [[-> ->]|[N0 H0]], H1 as [[-> ->]|[N1 H1]]; [done | | |].
    + rewrite Hpages. pose proof (fresh_disjoint s Ls m a n a1 ar1 Hok G Hn H1). lia.
    + rewrite Hpages. pose proof (fresh_disjoint s Ls m a n a0 ar0 Hok G Hn H0). lia.
    + by apply (ho_sep _ _ Hok).
Qed.

Lemma given_in_grown a0 ar0 p sz :
  arenas s !! a0 = Some ar0 -> given_in s' Ls' a0 ar0 p sz <-> given_in s Ls a0 ar0 p sz.
Proof.
  intros H0. unfold given_in. apply or_iff_compat_l. split.
  - intros (i & j & xs & Hi & Hd & Hj & -> & Hxs & Hout & ->). rewrite grown_addr in *.
    destruct (Hold _ _ Hxs) as (xs0 & Hxs0 & Heq). exists i, j, xs0. repeat (split; [done|]). split; [|done].
    rewrite <- Heq; [done|]. by apply (old_block_out a0 ar0).
  - intros (i & j & xs0 & Hi & Hd & Hj & -> & Hxs0 & Hout & ->).
    destruct (Hkeep _ (mk_is_Some _ _ Hxs0)) as [xs Hxs]. destruct (Hold _ _ Hxs) as (ys & Hys & Heq).
    assert (ys = xs0) as -> by congruence. exists i, j, xs. rewrite grown_addr. repeat (split; [done|]). split; [|done].
    rewrite Heq; [done|]. by apply (old_block_out a0 ar0).
Qed.

Lemma given_grown p sz : given s' Ls' p sz <-> given s Ls p sz \/ given_in s' Ls' a ar p sz.
Proof.
  split.
  - intros (a0 & ar0 & [[-> ->]|[Hne H0]]%grown_arena & H); [by right | left]. exists a0, ar0.
    split; [done|]. by apply (given_in_grown a0 ar0 p sz H0).
  - intros [(a0 & ar0 & H0 & H)|H].
    + exists a0, ar0. simpl. rewrite lookup_insert_ne by (intros <-; by rewrite grow_fresh in H0).
      split; [done|]. by apply (given_in_grown a0 ar0 p sz H0).
    + exists a, ar. simpl. by rewrite lookup_insert_eq.
Qed.
End Grow.

(** *** Clearing the pages of a new arena *)
Lemma elem_of_granules a n x :
  x ∈ granules a n <-> exists j, 0 <= j < (n - sizeof_arena) / 16 /\ x = a + sizeof_arena + 16 * j.
Proof.
  unfold granules. rewrite list_elem_of_fmap. setoid_rewrite elem_of_seqZ.
  split; intros (j & H1 & H2); exists j; split; (done || lia).
Qed.

Lemma granules_range a n x : 12 <= n -> x ∈ granules a n -> a <= x < a + n.
Proof.
  intros Hn (j & Hj & ->)%elem_of_granules. unfold sizeof_arena in *.
  pose proof (Z.mul_div_le (n - 12) 16 ltac:(lia)). lia.
Qed.

Lemma block_granule a i j : 0 <= i < 7 -> 0 <= j < bpa i -> block a i j ∈ granules a 4096.
Proof.
  intros Hi Hj. apply elem_of_granules. exists (j * 2 ^ i). pose proof (block_range a i j Hi Hj) as Hr.
  unfold block, bsz, sizeof_arena in *. change ((4096 - 12) / 16) with 255.
  pose proof (Z.pow_pos_nonneg 2 i ltac:(lia) ltac:(lia)). nia.
Qed.

Lemma dom_blank_nodes a n : dom (blank_nodes a n) = list_to_set (granules a n).
Proof. apply dom_gset_to_gmap. Qed.

(** A larger store holds the same lists. *)
Lemma chain_mono ns ns' p :
  (forall x v, ns !! x = Some v -> ns' !! x = Some v) -> chain ns p -> chain ns' p.
Proof.
  intros Hm. induction p as [|x p IH]; [done|]. destruct p as [|y p]; [done|]. intros [[H1 H2] Hc].
  split; [|by apply IH]. apply fmap_Some in H1 as (v & H1 & ->), H2 as (w & H2 & ->).
  split; apply fmap_Some; eauto.
Qed.

Lemma lists_ok_mono ns ns' Ls :
  (forall x v, ns !! x = Some v -> ns' !! x = Some v) -> lists_ok ns Ls -> lists_ok ns' Ls.
Proof.
  intros Hm Hl. split; [|apply Hl]. intros l xs HL. destruct (ok_lists _ _ Hl l xs HL) as [Hc Hnd].
  split; [by apply (chain_mono ns) | done].
Qed.

Definition clean_lists (s : heap_state) (a n : Z) : lstate :=
  LState (blank_nodes a n ∪ nodes (hlists s)) (eflags (hlists s)).

Lemma memset_pages_ok s Ls m1 a n :
  heap_ok s Ls -> 0 < n < 3840 -> allocated (heap_pf s) (hmem s) m1 a n ->
  wp (memset_pages a (n * PG_SIZE)) (put hmem_lens m1 s) (fun _ s' => exists m,
    s' = grown s (clean_lists s a (n * PG_SIZE)) a (Arena NULL 0 C_false) m /\
    got_pages (heap_pf s) (hmem s) m a n).
Proof.
  intros Hok Hn Ha. unfold memset_pages. wp_step. unfold hm. wp_step.
  eapply wp_mono.
  { pose proof (clear_allocated (heap_pf s) (hmem s) m1 a n (ho_mem _ _ Hok) (ho_live _ _ Hok) Hn Ha) as Hc.
    rewrite u32_id in Hc by (unfold PG_SIZE, is_u32; lia). exact Hc. }
  intros [] m G. wp_step. unfold hl. wp_step. wp_step. wp_step. by exists m.
Qed.

Section Fresh.
Context (s : heap_state) (Ls : gmap Z (list Z)) (m : mem_state) (a n : Z).
Hypothesis Hok : heap_ok s Ls.
Hypothesis Hn : 0 < n.
Hypothesis G : got_pages (heap_pf s) (hmem s) m a n.

Lemma fresh_range x : a <= x < a + n * 4096 -> nodes (hlists s) !! x = None /\ arenas s !! x = None.
Proof.
  intros Hx. pose proof (Z.div_mod (x - a) 4096 ltac:(lia)). pose proof (Z.mod_pos_bound (x - a) 4096 ltac:(lia)).
  set (k := (x - a) / 4096) in *. assert (0 <= k < n) as Hk by lia.
  destruct (gp_page _ _ _ _ _ G k Hk) as (Hf & _). apply (ho_fresh _ _ Hok (a + k * 4096)); [done | lia].
Qed.

Lemma clean_sub x v :
  nodes (hlists s) !! x = Some v -> nodes (clean_lists s a (n * PG_SIZE)) !! x = Some v.
Proof.
  intros Hv. simpl. rewrite lookup_union_r; [done|]. apply not_elem_of_dom. rewrite dom_blank_nodes.
  rewrite elem_of_list_to_set. intros Hg. apply granules_range in Hg; [|unfold PG_SIZE; lia].
  unfold PG_SIZE in Hg. by rewrite (proj1 (fresh_range x Hg)) in Hv.
Qed.

Lemma clean_dom_out x : ~ a <= x < a + n * 4096 ->
  x ∈ dom (nodes (clean_lists s a (n * PG_SIZE))) <-> x ∈ dom (nodes (hlists s)).
Proof.
  intros Hx. simpl. rewrite dom_union, dom_blank_nodes, elem_of_union, elem_of_list_to_set.
  split; [|by right]. intros [Hg|]; [|done]. apply granules_range in Hg; unfold PG_SIZE in *; lia.
Qed.

Lemma clean_lists_ok : lists_ok (nodes (clean_lists s a (n * PG_SIZE))) Ls.
Proof. eapply lists_ok_mono; [apply clean_sub | apply Hok]. Qed.

(** A path lies outside the new range. *)
Lemma path_out f xs x : Ls !! f = Some xs -> x ∈ path f xs -> ~ a <= x < a + n * 4096.
Proof.
  intros Hf Hx Hin. destruct (ok_lists _ _ (ho_lists _ _ Hok) f xs Hf) as [Hc _].
  assert (x ∈ dom (nodes (hlists s))) as Hd.
  { unfold path in *. eapply chain_dom; [|exact Hc | exact Hx]. by destruct xs. }
  apply elem_of_dom in Hd as [v Hv]. by rewrite (proj1 (fresh_range x Hin)) in Hv.
Qed.
End Fresh.

Lemma clean_block_unlinked s Ls m a i j :
  heap_ok s Ls -> got_pages (heap_pf s) (hmem s) m a 1 -> 0 <= i < 7 -> 0 <= j < bpa i ->
  unlinked (nodes (clean_lists s a PG_SIZE)) Ls (block a i j).
Proof.
  intros Hok G Hi Hj. split.
  - simpl. rewrite dom_union, dom_blank_nodes, elem_of_union, elem_of_list_to_set. left. by apply block_granule.
  - intros f xs Hf Hin. apply (path_out s Ls m a 1 Hok G f xs (block a i j) Hf Hin).
    pose proof (block_range a i j Hi Hj). pose proof (bsz_bounds i Hi). lia.
Qed.

(** The blocks [0 .. k) of an arena, in order. *)
Definition blocks (a i k : Z) : list Z := block a i <$> seqZ 0 k.

Lemma elem_of_blocks a i k x : x ∈ blocks a i k <-> exists j, 0 <= j < k /\ x = block a i j.
Proof.
  unfold blocks. rewrite list_elem_of_fmap. setoid_rewrite elem_of_seqZ.
  split; intros (j & H1 & H2); exists j; split; (done || lia).
Qed.

Lemma blocks_snoc a i k : 0 <= k -> blocks a i (k + 1) = blocks a i k ++ [block a i k].
Proof.
  intros Hk. unfold blocks. rewrite seqZ_app by lia. rewrite fmap_app. simpl.
  by rewrite Z.add_0_l.
Qed.

Lemma arena2block_eq s a ar d i j :
  arenas s !! a = Some ar -> descs s !! desc ar = Some (BlockDesc (bsz i) d) -> managed a ->
  0 <= i < 7 -> 0 <= j < bpa i -> arena2block a j s = Ok (block a i j, s).
Proof.
  intros Ha Hd Hm Hi Hj. unfold arena2block. erewrite bind_ok by (by apply arena_at_eq).
  assert (desc_at (desc ar) s = Ok (BlockDesc (bsz i) d, s)) as E.
  { unfold desc_at, mbind, M_bind, get. simpl. by rewrite Hd. }
  erewrite bind_ok by exact E. destruct (managed_block a i j Hm Hi Hj) as [Hb Ht].
  pose proof (block_range a i j Hi Hj) as Hr. pose proof (bsz_bounds i Hi) as Hz. destruct Hm as [Hu _].
  unfold mret, M_ret. do 2 f_equal. simpl block_size. unfold block, sizeof_arena in *.
  assert (0 <= j * bsz i) by (apply Z.mul_nonneg_nonneg; lia).
  rewrite (u32_id (a + 12)), (u32_id (j * bsz i)), u32_id by (unfold is_u32 in *; lia). done.
Qed.

(** The state while the free list of class [i] of the new arena is built. *)
Lemma add_blocks_loop s Ls a ar i d n k xs :
  arenas s !! a = Some ar -> desc ar = d -> descs s !! d = Some (BlockDesc (bsz i) (bpa i)) -> managed a ->
  0 <= i < 7 -> 0 <= k -> k + Z.of_nat n = bpa i -> Ls !! free_list d = Some (xs ++ blocks a i k) ->
  lists_ok (nodes (hlists s)) Ls ->
  (forall j, k <= j < bpa i -> unlinked (nodes (hlists s)) Ls (block a i j)) ->
  wp (add_blocks n a k) s (fun _ s' => exists l, s' = put hlists_lens l s /\
    list_post (hlists s) (<[free_list d := xs ++ blocks a i (bpa i)]> Ls) l).
Proof.
  intros Ha Hd Hds Hm Hi. revert s Ls k Ha Hds. induction n as [|n IH]; intros s Ls k Ha Hds Hk Hn HL Hl Hun; simpl.
  - wp_step. exists (hlists s). split; [by destruct s|]. assert (k = bpa i) as -> by lia.
    rewrite insert_id by done. by apply list_post_refl.
  - wp_step. eapply wp_ok; [eapply arena2block_eq; [exact Ha | by rewrite Hd | done | done | lia]|].
    wp_step. eapply wp_ok; [by apply arena_at_eq|]. rewrite Hd. wp_step. unfold hl at 1. apply wp_zoom.
    pose proof (Hun k ltac:(lia)) as Hu.
    eapply wp_mono; [by apply (node_find_ok _ Ls _ _ (block a i k) Hl HL)|]. intros r ? [-> ->].
    rewrite decide_False.
    2: { intros Hin. apply (proj2 Hu _ _ HL). unfold path. rewrite elem_of_cons, elem_of_app. by auto. }
    wp_step. apply wp_ASSERT; [done|]. wp_step. unfold hl at 1. apply wp_zoom.
    replace (put hlists_lens (view hlists_lens s) s) with s by by destruct s.
    eapply wp_mono; [by apply (list_append_ok _ Ls _ _ (block a i k) Hl HL)|].
    intros [] l (Hl' & He & Hdom). eapply wp_mono.
    + apply (IH (put hlists_lens l s) (<[free_list d := (xs ++ blocks a i k) ++ [block a i k]]> Ls) (k + 1)); try done.
      * lia.
      * lia.
      * by rewrite lookup_insert_eq, blocks_snoc, app_assoc.
      * intros j Hj. eapply unlinked_move; [exact Hdom | exact HL | | | apply Hun; lia].
        -- intros x Hx. rewrite elem_of_app, list_elem_of_singleton. naive_solver.
        -- intros E. apply block_inj in E; lia.
    + intros [] s' (l' & -> & Hp). exists l'. split; [by destruct s|]. rewrite insert_insert_eq in Hp.
      destruct Hp as (P1 & P2 & P3). simpl in P2, P3. split; [done|]. by rewrite P2, P3.
Qed.

Lemma make_arena_ok s Ls m1 a i :
  heap_ok s Ls -> 0 <= i < 7 -> Ls !! free_list (desc_addr s i) = Some [] ->
  allocated (heap_pf s) (hmem s) m1 a 1 ->
  wp (make_arena a (desc_addr s i)) (put hmem_lens m1 s) (fun _ s' => exists m l,
    s' = grown s l a (Arena (desc_addr s i) (bpa i) 0) m /\ got_pages (heap_pf s) (hmem s) m a 1 /\
    list_post (clean_lists s a PG_SIZE) (<[free_list (desc_addr s i) := blocks a i (bpa i)]> Ls) l).
Proof.
  intros Hok Hi HL Ha. pose proof (bsz_bounds i Hi) as Hz. unfold make_arena. wp_step.
  eapply wp_mono; [apply (memset_pages_ok s Ls m1 a 1 Hok ltac:(lia) Ha)|]. intros [] ? (m & -> & G).
  change (1 * PG_SIZE) with PG_SIZE. set (l0 := clean_lists s a PG_SIZE). set (d := desc_addr s i).
  pose proof (ho_desc _ _ Hok i Hi) as Hds.
  assert (managed a) as Hm.
  { destruct (gp_page _ _ _ _ _ G 0) as (_ & Hu & _); [lia|]. rewrite Z.mul_0_l, Z.add_0_r in Hu.
    by apply (in_use_page _ _ _ Hu). }
  wp_step. eapply wp_ok; [apply update_arena_eq, lookup_insert_eq|]. wp_step.
  eapply wp_ok; [unfold desc_at, mbind, M_bind, get; simpl; unfold d; rewrite Hds; done|].
  wp_step. eapply wp_ok; [apply update_arena_eq, lookup_insert_eq|].
  wp_step. eapply wp_ok; [apply update_arena_eq, lookup_insert_eq|]. wp_step. unfold hl at 1. apply wp_zoom, wp_intr_disable.
  wp_step. eapply wp_ok; [apply arena_at_eq; simpl; apply lookup_insert_eq|]. wp_step. simpl cnt.
  set (s1 := put hlists_lens _ _).
  eapply wp_mono.
  - apply (add_blocks_loop s1 Ls a (Arena d (bpa i) 0) i d _ 0 []); try done.
    + simpl. by rewrite lookup_insert_eq.
    + lia.
    + apply (clean_lists_ok s Ls m a 1); done.
    + intros j Hj. by apply (clean_block_unlinked s Ls m).
  - intros [] ? (l & -> & Hl & He & Hdom). wp_step. unfold hl at 1. apply wp_zoom, wp_set_intr_status. wp_step.
    exists m, (LState (nodes l) (eflags l0)). split; [|split; [done|]].
    + unfold grown, s1, d. simpl. rewrite !insert_insert_eq, He. simpl. autorewrite with goos. done.
    + done.
Qed.

Lemma blocks_all a i : 0 <= i < 7 -> free_blocks a i (blocks a i (bpa i)) = bpa i.
Proof.
  intros Hi. pose proof (bsz_bounds i Hi). unfold free_blocks. rewrite count_n_all; [lia|].
  intros j Hj. apply bool_decide_true, elem_of_blocks. exists j. split; [lia | done].
Qed.

Section Made.
Context (s : heap_state) (Ls : gmap Z (list Z)) (m : mem_state) (a i : Z) (l : lstate).
Hypothesis Hok : heap_ok s Ls.
Hypothesis Hi : 0 <= i < 7.
Hypothesis HL : Ls !! free_list (desc_addr s i) = Some [].
Hypothesis G : got_pages (heap_pf s) (hmem s) m a 1.

Local Abbreviation Ls' := (<[free_list (desc_addr s i) := blocks a i (bpa i)]> Ls).
Local Abbreviation ar := (Arena (desc_addr s i) (bpa i) 0).

Hypothesis Hpost : list_post (clean_lists s a PG_SIZE) Ls' l.

Lemma made_range x : x ∈ blocks a i (bpa i) -> a <= x < a + 1 * 4096.
Proof.
  intros (j & Hj & ->)%elem_of_blocks. pose proof (block_range a i j Hi Hj). pose proof (bsz_bounds i Hi). lia.
Qed.

Lemma made_list f ys : Ls' !! f = Some ys ->
  (f = free_list (desc_addr s i) /\ ys = blocks a i (bpa i)) \/ (f <> free_list (desc_addr s i) /\ Ls !! f = Some ys).
Proof.
  destruct (Z.eq_dec (free_list (desc_addr s i)) f) as [<-|Hne].
  - rewrite lookup_insert_eq. intros [= <-]. by left.
  - rewrite lookup_insert_ne by done. right. by split; [apply not_eq_sym|].
Qed.

Lemma made_arena_ok : arena_ok (grown s l a ar m) Ls' a ar.
Proof.
  pose proof (grown_pf s m a 1 ar l G) as [Epf _]. split.
  - apply (run_aligned _ _ _ _ (ho_mem _ _ Hok) (ho_live _ _ Hok) (gp_run _ _ _ _ _ G)).
  - rewrite Epf. apply G.
  - right. exists i, (blocks a i (bpa i)). split; rewrite ?(grown_addr s m a 1 ar l G); try done.
    + apply lookup_insert_eq.
    + by rewrite blocks_all.
    + intros j Hj. simpl. rewrite (proj2 (proj2 Hpost)). by apply (clean_block_unlinked s Ls m a i j).
    + intros j Hj []. apply elem_of_blocks. by exists j.
Qed.
Lemma made_same x : ~ a <= x < a + 1 * 4096 -> x ∈ dom (nodes l) <-> x ∈ dom (nodes (hlists s)).
Proof.
  intros Hx. rewrite (proj2 (proj2 Hpost)). by apply (clean_dom_out s a 1).
Qed.

Lemma made_old f ys : Ls' !! f = Some ys -> exists ys0, Ls !! f = Some ys0 /\
  forall x, ~ a <= x < a + 1 * 4096 -> x ∈ ys <-> x ∈ ys0.
Proof.
  intros [[-> ->]|[Hne Hf]]%made_list; [|by exists ys]. exists []. split; [done|]. intros x Hx.
  split; [|by intros ?%elem_of_nil]. by intros ?%made_range.
Qed.

Lemma made_keep f : is_Some (Ls !! f) -> is_Some (Ls' !! f).
Proof. intros H. by apply lookup_insert_is_Some'; right. Qed.

Lemma made_heads f ys : Ls' !! f = Some ys -> ~ a <= head_of f < a + 1 * 4096 /\ ~ a <= tail_of f < a + 1 * 4096.
Proof.
  intros Hf. assert (exists zs, Ls !! f = Some zs) as [zs Hz] by (apply made_list in Hf as [[-> _]|[_ Hf]]; eauto).
  split; apply (path_out s Ls m a 1 Hok G f zs _ Hz); unfold path; rewrite elem_of_cons, elem_of_app;
    [by left | right; right; by apply list_elem_of_singleton].
Qed.

Lemma made_new f ys x : Ls' !! f = Some ys -> x ∈ ys -> a <= x < a + 1 * 4096 ->
  exists i' j, 0 <= i' < 7 /\ f = free_list (desc_addr s i') /\ desc ar = desc_addr s i' /\ 0 <= j < bpa i' /\ x = block a i' j.
Proof.
  intros Hys Hx Hin. apply made_list in Hys as [[-> ->]|[_ Hys]].
  - apply elem_of_blocks in Hx as (j & Hj & ->). by exists i, j.
  - exfalso. refine (path_out s Ls m a 1 Hok G _ ys x Hys _ Hin).
    unfold path. rewrite elem_of_cons, elem_of_app. by auto.
Qed.

Lemma heap_ok_made : heap_ok (grown s l a ar m) Ls'.
Proof.
  apply (heap_ok_grown s Ls Ls' m a 1); try done; [apply Hpost | apply made_same | apply made_old |
    apply made_keep | apply made_heads | apply made_new | apply made_arena_ok].
Qed.

Lemma given_made p sz : given (grown s l a ar m) Ls' p sz <-> given s Ls p sz.
Proof.
  rewrite (given_grown s Ls Ls' m a 1 ar l) by
    (done || lia || apply made_same || apply made_old || apply made_keep || apply made_heads || apply made_new).
  split; [|by left]. intros [H|[(H & _)|(i' & j & xs & Hi' & Hd & Hj & -> & Hxs & Hout & _)]]; [done | |].
  - simpl in H. by apply (desc_not_null s Ls i Hok Hi) in H.
  - rewrite (grown_addr s m a 1 ar l G) in *. simpl in Hd. apply desc_addr_inj in Hd as <-.
    rewrite lookup_insert_eq in Hxs. injection Hxs as <-. destruct Hout. apply elem_of_blocks. by exists j.
Qed.
End Made.

(** A fresh page becomes an arena: all of its blocks are free, and no memory
    has changed hands. *)
Lemma make_arena_free s Ls m1 a i :
  heap_ok s Ls -> 0 <= i < 7 -> Ls !! free_list (desc_addr s i) = Some [] ->
  allocated (heap_pf s) (hmem s) m1 a 1 ->
  wp (make_arena a (desc_addr s i)) (put hmem_lens m1 s) (fun _ s' => exists Ls' x xs,
    heap_ok s' Ls' /\ (forall p sz, given s' Ls' p sz <-> given s Ls p sz) /\
    Ls' !! free_list (desc_addr s' i) = Some (x :: xs) /\ desc_addr s' i = desc_addr s i /\
    heap_pf s' = heap_pf s /\ got_pages (heap_pf s) (hmem s) (hmem s') a 1).
Proof.
  intros Hok Hi HL Ha. eapply wp_mono; [by apply (make_arena_ok s Ls m1 a i)|]. intros [] ? (m & l & -> & G & Hp).
  exists (<[free_list (desc_addr s i) := blocks a i (bpa i)]> Ls), (block a i 0), (block a i <$> seqZ 1 (bpa i - 1)).
  rewrite (grown_addr s m a 1 _ l G). split; [by apply heap_ok_made|]. split; [intros; by apply given_made|].
  split; [|split; [done|split; [apply (grown_pf s m a 1 _ l G) | done]]].
  rewrite lookup_insert_eq. unfold blocks. pose proof (bsz_bounds i Hi). rewrite (seqZ_cons 0) by lia.
  done.
Qed.

(** Memory that is given lies inside the pages of one arena. *)
Lemma given_in_range s Ls a ar p sz :
  heap_ok s Ls -> arenas s !! a = Some ar -> given_in s Ls a ar p sz ->
  0 < sz /\ a + 12 <= p /\ p + sz <= a + arena_pages ar * 4096.
Proof.
  intros Hok Ha Hcase. destruct (arena_page _ _ _ _ Hok Ha) as (Hp & _).
  destruct Hcase as [(Hd & -> & ->)|(i & j & xs & Hi & Hd & Hj & -> & _ & _ & ->)].
  - destruct (ao_kind _ _ _ _ (ho_arena _ _ Hok a ar Ha)) as [[_ Hl Hc]|(i & xs & Hs)].
    + unfold arena_pages. rewrite Hl. simpl. lia.
    + by apply small_not_large in Hs.
  - pose proof (block_range a i j Hi Hj). pose proof (bsz_bounds i Hi). lia.
Qed.

Lemma given_range s Ls p sz :
  heap_ok s Ls -> given s Ls p sz -> exists a ar, arenas s !! a = Some ar /\ 0 < sz /\
    a + 12 <= p /\ p + sz <= a + arena_pages ar * 4096.
Proof.
  intros Hok (a & ar & Ha & Hcase). exists a, ar. split; [done|]. by eapply given_in_range.
Qed.

(** The page of a byte that is given. *)
Lemma given_in_page s Ls a ar p sz x :
  heap_ok s Ls -> arenas s !! a = Some ar -> given_in s Ls a ar p sz -> p <= x < p + sz ->
  a <= x - x mod 4096 < a + arena_pages ar * 4096 /\ page_in_use (heap_pf s) (hmem s) (x - x mod 4096).
Proof.
  intros Hok Ha Hin Hx. destruct (given_in_range _ _ _ _ _ _ Hok Ha Hin) as (Hsz & Hlo & Hhi).
  destruct (ho_arena _ _ Hok _ _ Ha) as [Hal Hpages _].
  pose proof (Z.div_mod x 4096 ltac:(lia)). pose proof (Z.div_mod a 4096 ltac:(lia)). pose proof (Z.mod_pos_bound x 4096).
  split; [lia|]. replace (x - x mod 4096) with (a + (x / 4096 - a / 4096) * 4096) by lia. apply Hpages. lia.
Qed.

(** Two pieces of one arena. *)
Lemma given_in_disjoint s Ls a ar p sz p' sz' :
  heap_ok s Ls -> given_in s Ls a ar p sz -> given_in s Ls a ar p' sz' ->
  (p = p' /\ sz = sz') \/ p + sz <= p' \/ p' + sz' <= p.
Proof.
  intros Hok [(Hd & -> & ->)|(i & j & xs & Hi & Hd & Hj & -> & _ & _ & ->)]
    [(Hd' & -> & ->)|(i' & j' & xs' & Hi' & Hd' & Hj' & -> & _ & _ & ->)].
  - by left.
  - rewrite Hd in Hd'. symmetry in Hd'. by apply (desc_not_null s Ls i' Hok Hi') in Hd'.
  - rewrite Hd' in Hd. symmetry in Hd. by apply (desc_not_null s Ls i Hok Hi) in Hd.
  - rewrite Hd in Hd'. apply desc_addr_inj in Hd' as <-. pose proof (bsz_bounds i Hi). unfold block.
    destruct (Z.lt_trichotomy j j') as [?|[->|?]]; [right; left | by left | right; right]; nia.
Qed.

(** A fresh run of pages becomes one piece of memory. *)
Lemma make_large_ok s Ls m1 a n :
  heap_ok s Ls -> 0 < n < 3840 -> allocated (heap_pf s) (hmem s) m1 a n ->
  wp (memset_pages a (n * PG_SIZE) ;;;
      update_arena a (fun ar => Arena NULL (cnt ar) (large ar)) ;;;
      update_arena a (fun ar => Arena (desc ar) n (large ar)) ;;;
      update_arena a (fun ar => Arena (desc ar) (cnt ar) C_true)) (put hmem_lens m1 s) (fun _ s' =>
    heap_ok s' Ls /\ heap_pf s' = heap_pf s /\ gives s Ls s' Ls (a + sizeof_arena) (n * 4096 - 12) /\
    is_u32 (a + sizeof_arena) /\ got_pages (heap_pf s) (hmem s) (hmem s') a n).
Proof.
  intros Hok Hn Ha. wp_step. eapply wp_mono; [by apply (memset_pages_ok s Ls m1 a n)|]. intros [] ? (m & -> & G).
  wp_step. eapply wp_ok; [apply update_arena_eq, lookup_insert_eq|]. wp_step.
  eapply wp_ok; [apply update_arena_eq, lookup_insert_eq|]. eapply wp_ok; [apply update_arena_eq, lookup_insert_eq|].
  set (ar := Arena NULL n C_true). set (l := clean_lists s a (n * PG_SIZE)).
  cbv beta. match goal with |- heap_ok ?s' _ /\ _ => replace s' with (grown s l a ar m) end.
  2: { unfold put_arenas, grown. simpl. by rewrite !insert_insert_eq. }
  assert (forall x, ~ a <= x < a + n * 4096 -> x ∈ dom (nodes l) <-> x ∈ dom (nodes (hlists s))) as Hsame.
  { intros x Hx. apply clean_dom_out; (done || lia). }
  assert (forall f ys, Ls !! f = Some ys -> exists ys0, Ls !! f = Some ys0 /\
    forall x, ~ a <= x < a + n * 4096 -> x ∈ ys <-> x ∈ ys0) as Hold by (intros f ys Hys; by exists ys).
  assert (heap_ok (grown s l a ar m) Ls) as Hok'.
  { apply (heap_ok_grown s Ls Ls m a n); try (done || lia); [apply (clean_lists_ok s Ls m a n); (done || lia) | | |].
    - intros f ys Hf. split; apply (path_out s Ls m a n Hok G f ys _ Hf); unfold path; rewrite elem_of_cons, elem_of_app;
        [by left | right; right; by apply list_elem_of_singleton].
    - intros f ys x Hys Hx Hin. exfalso. refine (path_out s Ls m a n Hok G _ ys x Hys _ Hin).
      unfold path. rewrite elem_of_cons, elem_of_app. by auto.
    - split; [apply (run_aligned _ _ _ _ (ho_mem _ _ Hok) (ho_live _ _ Hok) (gp_run _ _ _ _ _ G)) | | by left].
      rewrite (proj1 (grown_pf s m a n ar l G)). apply G. }
  split; [done|]. split; [apply (grown_pf s m a n ar l G)|]. split; [split|split; [|done]].
  - intros p sz. rewrite (given_grown s Ls Ls m a n ar l) by (done || lia). unfold given_in. simpl. split.
    + intros [H|[(_ & -> & ->)|(i & j & xs & Hi & Hd & _)]]; [by left | by right|].
      rewrite (grown_addr s m a n ar l G) in Hd. symmetry in Hd. by apply (desc_not_null s Ls i Hok Hi) in Hd.
    + intros [H|[-> ->]]; [by left | right; by left].
  - intros sz Hg. destruct (given_range s Ls _ _ Hok Hg) as (a0 & ar0 & H0 & Hsz & Hlo & Hhi).
    pose proof (fresh_disjoint s Ls m a n a0 ar0 Hok G ltac:(lia) H0). unfold sizeof_arena in *. lia.
  - destruct (gp_page _ _ _ _ _ G 0) as (_ & Hu & _); [lia|]. rewrite Z.mul_0_l, Z.add_0_r in Hu.
    apply in_use_page in Hu as [Hm _]. pose proof (managed_block a 0 0 Hm ltac:(lia) ltac:(vm_compute; done)) as [Hb _].
    unfold block in Hb. unfold sizeof_arena. by rewrite Z.mul_0_l, Z.add_0_r in Hb.
Qed.

(** *** The size class of a request *)
Lemma find_desc_ok s Ls size n k :
  heap_ok s Ls -> size <= 1024 -> 0 <= k -> k + Z.of_nat n = 7 -> (0 < n)%nat ->
  (forall i, 0 <= i < k -> bsz i < size) ->
  wp (find_desc n (heap_descs s) k size) s (fun i s' => s' = s /\ 0 <= i < 7 /\ size <= bsz i /\
    forall i', 0 <= i' < i -> bsz i' < size).
Proof.
  intros Hok Hs. revert k. induction n as [|n IH]; intros k Hk Hn Hpos Hbelow; [lia|]. simpl. wp_step.
  eapply wp_ok; [unfold desc_at, mbind, M_bind, get; simpl|].
  { change (heap_descs s + sizeof_block_desc * k) with (desc_addr s k). rewrite (ho_desc _ _ Hok k) by lia. done. }
  simpl. destruct (Z.leb_spec size (bsz k)) as [Hle|Hlt]; [wp_step; repeat split; (done || lia)|].
  assert (0 < n)%nat. { destruct n; [|lia]. assert (k = 6) as -> by lia. change (bsz 6) with 1024 in Hlt. lia. }
  apply IH; [lia | lia | done|]. intros i Hi. destruct (Z.eq_dec i k) as [->|]; [done|]. apply Hbelow. lia.
Qed.

Definition pages_needed (size : Z) : Z := if size <=? 1024 then 1 else (size + 12 + 4095) / 4096.

(** How much more than asked for is given at most. *)
Definition rounded (size : Z) : Z := if size <=? 1024 then Z.max 16 (2 * size) else size + 4095.

Lemma class_rounded i size :
  0 <= i < 7 -> size <= 1024 -> (forall i', 0 <= i' < i -> bsz i' < size) -> bsz i <= rounded size.
Proof.
  intros Hi Hs Hb. unfold rounded. destruct (Z.leb_spec size 1024); [|lia]. destruct (Z.eq_dec i 0) as [->|Hne].
  - change (bsz 0) with 16. lia.
  - specialize (Hb (i - 1) ltac:(lia)). unfold bsz in *. replace i with (Z.succ (i - 1)) by lia.
    rewrite Z.pow_succ_r by lia. lia.
Qed.

Lemma page_count size :
  1024 < size -> size + 4108 < 0x100000000 ->
  u32 (u32 (u32 (size + sizeof_arena) + PG_SIZE) - 1) / PG_SIZE = pages_needed size /\
  size <= pages_needed size * 4096 - 12 <= rounded size.
Proof.
  intros Hs Hb. unfold pages_needed, rounded, sizeof_arena, PG_SIZE. destruct (Z.leb_spec size 1024); [lia|].
  rewrite (u32_id (size + 12)), (u32_id (size + 12 + 4096)), u32_id by (unfold is_u32; lia).
  replace (size + 12 + 4096 - 1) with (size + 12 + 4095) by lia. split; [done|].
  pose proof (Z.div_mod (size + 12 + 4095) 4096 ltac:(lia)). pose proof (Z.mod_pos_bound (size + 12 + 4095) 4096). lia.
Qed.

(** Pages in use stay in use on the same frames. *)
Definition keeps_pages (pf : pool_flags) (m m' : mem_state) : Prop := forall v, page_in_use pf m v ->
  page_in_use pf m' v /\ page_frame (machine m') v = page_frame (machine m) v.

(** All of the pages taken, if any, are the [n] of one request. *)
Definition takes_pages (pf : pool_flags) (m m' : mem_state) (n : Z) : Prop :=
  keeps_pages pf m m' /\ (m' = m \/ exists a, got_pages pf m m' a n).

Lemma got_takes pf m m' a n : got_pages pf m m' a n -> takes_pages pf m m' n.
Proof. intros G. split; [exact (gp_keep _ _ _ _ _ G) | right; by exists a]. Qed.

(** What [sys_malloc] promises of its result [p] and final state. *)
Definition malloc_done (s : heap_state) (Ls : gmap Z (list Z)) (size p : Z) (s' : heap_state) : Prop :=
  exists Ls' sz, p <> NULL /\ heap_pf s' = heap_pf s /\ heap_ok s' Ls' /\ gives s Ls s' Ls' p sz /\ size <= sz <= rounded size /\
    takes_pages (heap_pf s) (hmem s) (hmem s') (pages_needed size).

Definition no_pages (s : heap_state) (n : Z) : Prop :=
  forall i, ~ free_run (vaddr_bitmap (vpool_get (heap_pf s) (hmem s))) i n.

Lemma given_not_null s Ls p sz : heap_ok s Ls -> given s Ls p sz -> p <> NULL.
Proof.
  intros Hok Hg ->. destruct (given_range s Ls _ _ Hok Hg) as (a & ar & Ha & _ & Hp & _).
  destruct (arena_page _ _ _ _ Hok Ha) as (_ & _ & [[H0 _] _] & _). unfold NULL in Hp. lia.
Qed.

Lemma take_block_done s Ls s1 Ls1 i size x xs :
  heap_ok s1 Ls1 -> heap_pf s1 = heap_pf s -> (forall p sz, given s1 Ls1 p sz <-> given s Ls p sz) -> 0 <= i < 7 ->
  Ls1 !! free_list (desc_addr s1 i) = Some (x :: xs) -> size <= bsz i <= rounded size ->
  takes_pages (heap_pf s) (hmem s) (hmem s1) 1 ->
  wp (take_block (desc_addr s1 i)) s1 (fun p s' => malloc_done s Ls size p s').
Proof.
  intros Hok1 Hpf Hsame Hi HL Hsz Hkeep. pose proof (bsz_bounds i Hi).
  replace 1 with (pages_needed size) in Hkeep by (unfold pages_needed; destruct (Z.leb_spec size 1024); lia). eapply wp_mono; [by apply (take_block_ok s1 Ls1 i x xs)|].
  intros p s' (-> & Hok' & [Hg Hng] & Hm & Hcp & _). eexists _, (bsz i).
  assert (given s' (<[free_list (desc_addr s1 i):=xs]> Ls1) x (bsz i)) as Hx by (apply Hg; by right).
  split; [by eapply given_not_null|]. split; [by rewrite Hcp|]. split; [exact Hok'|]. split; [|split; [done | by rewrite Hm]].
  split; [intros p n; rewrite Hg, Hsame; done | intros n; by rewrite <- Hsame].
Qed.

Section HeapProofs.
Context {St : Type} `{!PoolLocks St heap_state}.

Lemma wpu_on_heap {A} (m : M heap_state A) (s : St) (Q : A -> St -> Prop) P :
  wpp m (view inner s) (fun a h => Q a (put inner h s)) P -> wpu (on_heap m) s Q P.
Proof. intros H. by apply wpu_zoom, wpu_wpp. Qed.

Lemma hm_malloc_page s Ls n :
  heap_ok s Ls ->
  wpp (hm (malloc_page (heap_pf s) n)) s (fun a s' => exists m, s' = put hmem_lens m s /\
    ((a = NULL /\ m = hmem s /\ no_pages s n) \/ (a <> NULL /\ 0 < n < 3840 /\ allocated (heap_pf s) (hmem s) m a n)))
    (malloc_panics (heap_pf s) (hmem s) n).
Proof.
  intros Hok. apply wpp_zoom. change (view hmem_lens s) with (hmem s).
  destruct (wpp_outcome _ _ _ _ (malloc_page_ok (hmem s) (heap_pf s) n (ho_mem _ _ Hok) (ho_live _ _ Hok)))
    as [(a & m & E & H)|[E H]]; unfold wpp; rewrite E; [|done].
  exists m. split; [done|]. destruct H as [H|[Ha H]]; [by left | right]. by apply malloc_page_bounds in E.
Qed.

(** The state [stl] with the lock held, for the state [st] without. *)
Record held (st stl : St) (s : heap_state) : Prop := {
  hd_view : view inner stl = s;
  hd_put : put inner s stl = stl;
  hd_release : forall s', undisturbed (pool_release (heap_pf s) (put inner s' stl)) = Ok (tt, put inner s' st);
  hd_release_same : undisturbed (pool_release (heap_pf s) stl) = Ok (tt, st);
}.

Lemma held_acquired st : uncontended (heap_pf (view inner st)) st ->
  exists stl, undisturbed (pool_acquire (heap_pf (view inner st)) st) = Ok (tt, stl) /\ held st stl (view inner st).
Proof.
  intros Hun. destruct (bracket_law _ _ Hun) as (stl & Ea & Ev & Er). exists stl. split; [done|].
  assert (put inner (view inner st) stl = stl) as Estl by (rewrite <- Ev; apply put_view).
  split; [exact Ev | exact Estl | exact Er |]. pose proof (Er (view inner st)) as Ers. rewrite Estl in Ers. rewrite Ers.
  by rewrite (put_view inner).
Qed.

Section Held.
Variables (size : Z) (st stl : St) (s : heap_state) (Ls : gmap Z (list Z)).
Hypotheses (Hheld : held st stl s) (Hok : heap_ok s Ls).

Definition malloc_post (p : Z) (st' : St) : Prop :=
  (p = NULL /\ st' = st /\ (pool_size (pool_get (heap_pf s) (hmem s)) < size \/ no_pages s (pages_needed size))) \/
  exists s', st' = put inner s' st /\ malloc_done s Ls size p s'.

(** Whole pages, once the allocator has been asked. *)
Lemma large_pages_ok n a m :
  n = pages_needed size -> size <= n * 4096 - 12 <= rounded size -> 0 < n < 3840 -> allocated (heap_pf s) (hmem s) m a n ->
  wpu (on_heap (memset_pages a (n * PG_SIZE)) ;;;
    on_heap (update_arena a (fun ar => Arena NULL (cnt ar) (large ar))) ;;;
    on_heap (update_arena a (fun ar => Arena (desc ar) n (large ar))) ;;;
    on_heap (update_arena a (fun ar => Arena (desc ar) (cnt ar) C_true)) ;;;
    pool_release (heap_pf s) ;;;
    mret (u32 (a + sizeof_arena))) (put inner (put hmem_lens m s) stl) malloc_post (malloc_panics (heap_pf s) (hmem s) n).
Proof.
  intros En Hsz Hn Hal. pose proof (make_large_ok s Ls m a n Hok Hn Hal) as Hm.
  do 3 (apply wpu_bind, wpu_on_heap; rewrite view_put; apply wp_bind_inv in Hm; apply wpp_wp;
    eapply wp_mono; [exact Hm|]; clear Hm; intros [] ? Hm; cbv beta in Hm; rewrite put_put).
  apply wpu_bind, wpu_on_heap, wpp_wp. rewrite view_put. eapply wp_mono; [exact Hm|]. clear Hm.
  intros [] sf (Hok' & Hpf & Hg & Hu & G). cbv beta. rewrite put_put. apply wpu_bind. eapply wpu_eq; [apply Hheld|].
  apply wpu_ret. right. exists sf. split; [done|]. rewrite u32_id by done. exists Ls, (n * 4096 - 12).
  split; [|split; [done | split; [done | split; [done | split; [done | rewrite <- En; exact (got_takes _ _ _ _ _ G)]]]]].
  eapply given_not_null; [exact Hok'|]. apply Hg. by right.
Qed.

(** A heap whose list for class [i] starts with a block, grown from [s]. *)
Definition refilled (i : Z) (st' : St) : Prop := exists s1 Ls1 x xs1,
  st' = put inner s1 stl /\ heap_ok s1 Ls1 /\ heap_pf s1 = heap_pf s /\
  (forall p sz, given s1 Ls1 p sz <-> given s Ls p sz) /\ Ls1 !! free_list (desc_addr s1 i) = Some (x :: xs1) /\
  desc_addr s1 i = desc_addr s i /\ takes_pages (heap_pf s) (hmem s) (hmem s1) 1.

Lemma refill_ok i xs e :
  0 <= i < 7 -> Ls !! free_list (desc_addr s i) = Some xs -> e = (if decide (xs = []) then 1 else 0) ->
  wpu (if negb (e =? 0) then
         a ← on_heap (hm (malloc_page (heap_pf s) 1));
         if a =? NULL then pool_release (heap_pf s) ;;; mret false
         else on_heap (make_arena a (desc_addr s i)) ;;; mret true
       else mret true) stl
    (fun (ok : bool) st' => (ok = false /\ st' = st /\ no_pages s 1) \/ (ok = true /\ refilled i st'))
    (malloc_panics (heap_pf s) (hmem s) 1).
Proof.
  intros Hi HL ->. destruct (decide (xs = [])) as [->|Hne]; cbn [Z.eqb negb].
  - apply wpu_bind, wpu_on_heap. rewrite (hd_view _ _ _ Hheld). eapply wpp_mono; [by apply (hm_malloc_page s Ls) | |done].
    intros a ? (m & -> & [(-> & -> & Hno)|(Ha & Hn & Hal)]).
    + cbn [Z.eqb]. replace (put hmem_lens (hmem s) s) with s by by destruct s. rewrite (hd_put _ _ _ Hheld).
      apply wpu_bind. eapply wpu_eq; [exact (hd_release_same _ _ _ Hheld)|]. apply wpu_ret. by left.
    + destruct (Z.eqb_spec a NULL); [done|]. apply wpu_bind, wpu_on_heap, wpp_wp. rewrite view_put.
      eapply wp_mono; [by apply (make_arena_free s Ls m a i)|].
      intros [] s1 (Ls1 & x & xs1 & M1 & M2 & M3 & M4 & M5 & G). rewrite put_put. apply wpu_ret. right. split; [done|].
      exists s1, Ls1, x, xs1. repeat (split; [done|]). exact (got_takes _ _ _ _ _ G).
  - apply wpu_ret. right. split; [done|]. destruct xs as [|x xs1]; [done|]. exists s, Ls, x, xs1.
    split; [symmetry; apply Hheld|]. do 5 (split; [done|]). split; [by intros w Hw | by left].
Qed.
End Held.

Lemma sys_malloc_ok size (st : St) s Ls :
  s = view inner st -> heap_ok s Ls -> uncontended (heap_pf s) st -> 0 <= size ->
  (1024 < size -> pool_size (pool_get (heap_pf s) (hmem s)) + 4108 < 0x100000000) ->
  wpu (sys_malloc size) st (malloc_post size st s Ls) (malloc_panics (heap_pf s) (hmem s) (pages_needed size)).
Proof.
  intros -> Hok Hun Hs0 Hps. destruct (held_acquired st Hun) as (stl & Ea & Hheld). set (s := view inner st) in *.
  unfold sys_malloc. apply wpu_bind, wpu_wp, wp_gets. cbv zeta. fold s.
  destruct (Z.ltb_spec size 0); [lia|]. cbn [orb].
  destruct (Z.ltb_spec (pool_size (pool_get (heap_pf s) (hmem s))) size).
  { apply wpu_ret. left. split; [done|]. split; [done|]. by left. }
  apply wpu_bind. eapply wpu_eq; [exact Ea|].
  destruct (Z.ltb_spec 1024 size) as [Hbig|Hsmall].
  - destruct (page_count size Hbig ltac:(lia)) as (-> & Hsz).
    set (n := pages_needed size) in *. apply wpu_bind, wpu_on_heap. rewrite (hd_view _ _ _ Hheld).
    eapply wpp_mono; [by apply (hm_malloc_page s Ls) | |done]. intros a ? (m & -> & [(-> & -> & Hno)|(Ha & Hn & Hal)]).
    + replace (put hmem_lens (hmem s) s) with s by by destruct s. rewrite (hd_put _ _ _ Hheld). cbn [Z.eqb negb].
      apply wpu_bind. eapply wpu_eq; [exact (hd_release_same _ _ _ Hheld)|]. apply wpu_ret. left. split; [done|]. split; [done | by right].
    + destruct (Z.eqb_spec a NULL); [done|]. cbn [negb].
      rewrite (u32_id (n * PG_SIZE)) by (unfold is_u32, PG_SIZE; lia). by apply large_pages_ok.
  - unfold pages_needed. destruct (Z.leb_spec size 1024); [|lia].
    apply wpu_bind, wpu_on_heap, wpp_wp. rewrite (hd_view _ _ _ Hheld).
    eapply wp_mono; [apply (find_desc_ok s Ls size (Z.to_nat MEM_BLOCK_DESC_CNT) 0); unfold MEM_BLOCK_DESC_CNT; (done || (intros; lia))|].
    intros i ? (-> & Hi & Hsz & Hbelow). pose proof (class_rounded i size Hi Hsmall Hbelow) as Hrd.
    change (heap_descs s + sizeof_block_desc * i) with (desc_addr s i).
    destruct (ho_free _ _ Hok i Hi) as [xs HL].
    apply wpu_bind, wpu_on_heap, wpp_wp. rewrite view_put. unfold hl at 1. apply wp_zoom.
    eapply wp_mono; [apply (list_empty_ok _ Ls _ xs (ho_lists _ _ Hok) HL)|]. intros e ? [-> ->]. cbv beta.
    change (put hlists_lens (hlists s) s) with (put hlists_lens (view hlists_lens s) s).
    rewrite (put_view hlists_lens s), !(hd_put _ _ _ Hheld).
    apply wpu_bind. eapply wpu_mono; [by eapply (refill_ok st stl s Ls Hheld Hok i xs)| |done].
    intros ok st' [(-> & -> & Hno)|(-> & s1 & Ls1 & x & xs1 & -> & M1 & M2 & M3 & M4 & M5 & M6)].
    + apply wpu_ret. left. split; [done|]. split; [done|]. right. unfold pages_needed. by destruct (Z.leb_spec size 1024); [|lia].
    + rewrite <- M5. apply wpu_bind, wpu_on_heap, wpp_wp. rewrite view_put.
      eapply wp_mono; [by apply (take_block_done s Ls s1 Ls1 i size x xs1)|]. intros p s' Hd. cbv beta. rewrite put_put.
      apply wpu_bind. eapply wpu_eq; [apply Hheld|]. apply wpu_ret. right. by exists s'.
Qed.

(** ** Properties *)

(** C3: [sys_malloc] on a heap in order, the pool's lock not being contended
    for.  It returns NULL with nothing changed when the request exceeds the
    pool or no run of free addresses is long enough; it stops the machine in
    the cases [malloc_page] does (a request of 3840 pages and more among
    them); otherwise it returns memory nobody held, at least [size] bytes of
    it and at most twice as much (for a large request, less than a page more),
    taking no more pages than that needs,
    everything held before is still held on the same frames, the heap is in
    order and the lock as before. *)
Theorem sys_malloc_correct (size : Z) (st : St) (Ls : gmap Z (list Z))
    (Hok : heap_ok (view inner st) Ls) (Hun : uncontended (heap_pf (view inner st)) st) (Hsize : is_u32 size)
    (Hpool : pool_size (pool_get (heap_pf (view inner st)) (hmem (view inner st))) + 4108 < 0x100000000) :
  let s := view inner st in
  let run := undisturbed (sys_malloc size st) in
  (run = Ok (NULL, st) /\
     (pool_size (pool_get (heap_pf s) (hmem s)) < size \/ no_pages s (pages_needed size))) \/
  (exists p s', run = Ok (p, put inner s' st) /\ malloc_done s Ls size p s') \/
  (run = Panic /\ malloc_panics (heap_pf s) (hmem s) (pages_needed size)).
Proof.
  destruct (wpu_outcome _ _ _ _ (sys_malloc_ok size st _ Ls eq_refl Hok Hun ltac:(apply Hsize) (fun _ => Hpool)))
    as [(p & st' & E & H)|H]; [|by right; right].
  destruct H as [(-> & -> & H)|(s' & -> & H)]; [by left | right; left; by exists p, s'].
Qed.
End HeapProofs.

(** In a heap in order, two different pieces of memory in the callers' hands do
    not overlap, and every byte of them lies in a page that is in use. *)
Lemma given_disjoint (s : heap_state) (Ls : gmap Z (list Z)) (p sz p' sz' : Z)
    (Hok : heap_ok s Ls) (Hg : given s Ls p sz) (Hg' : given s Ls p' sz') :
  ((p = p' /\ sz = sz') \/ p + sz <= p' \/ p' + sz' <= p) /\
  forall x, p <= x < p + sz -> page_in_use (heap_pf s) (hmem s) (x - x mod 4096).
Proof.
  destruct Hg as (a & ar & Ha & Hin), Hg' as (a' & ar' & Ha' & Hin').
  destruct (given_in_range _ _ _ _ _ _ Hok Ha Hin) as (Hsz & Hlo & Hhi). split.
  - destruct (Z.eq_dec a a') as [<-|Hne].
    + assert (ar' = ar) as -> by congruence. by eapply given_in_disjoint.
    + destruct (given_in_range _ _ _ _ _ _ Hok Ha' Hin') as (Hsz' & Hlo' & Hhi').
      destruct (ho_sep _ _ Hok _ _ _ _ Ha Ha' Hne); lia.
  - intros x Hx. by apply (given_in_page s Ls a ar p sz).
Qed.

(** *** Concrete instances *)
Lemma example_one_page : first_run (kernel_vaddr_pool example_mem) 0xc0101000 1.
Proof.
  exists 1. split; [|split; [lia | done]]. right. split.
  - split; [lia | split; [by cbn|]]. intros j Hj. assert (j = 1) as -> by lia. done.
  - intros i (Hi & _ & Hf). destruct (Z.eq_dec i 0) as [->|]; [|lia]. by specialize (Hf 0 ltac:(lia)).
Qed.

(** One page can be had from [example_mem]. *)
Lemma example_page_to_have : ~ malloc_panics PF_KERNEL example_mem 1.
Proof.
  intros [Hn|[Hall|(va & Hv & [[Hpf _]|Hne])]]; [lia | | discriminate Hpf |].
  - specialize (Hall 1 ltac:(vm_compute; split; congruence)). discriminate Hall.
  - pose proof (first_run_unique _ _ _ _ Hv example_one_page) as ->. by apply Hne; vm_compute.
Qed.

Lemma example_run_exists s : hmem s = example_mem -> heap_pf s = PF_KERNEL -> ~ no_pages s 1.
Proof.
  intros Hm Hpf Hno. unfold no_pages in Hno. rewrite Hm, Hpf in Hno. apply (Hno 1).
  split; [lia | split; [by cbn|]]. intros j Hj. assert (j = 1) as -> by lia. done.
Qed.

Lemma sys_malloc_correct_witness : exists s Ls p s', heap_ok s Ls /\
  undisturbed (sys_malloc (St := heap_state) 100 s) = Ok (p, s') /\ malloc_done s Ls 100 p s'.
Proof.
  destruct example_heap_exists as (s & Ls & Hok & _ & Hm & Hpf).
  destruct (@sys_malloc_correct heap_state unlocked 100 s Ls Hok ltac:(exact I) ltac:(unfold is_u32; lia)
    ltac:(simpl; rewrite Hm, Hpf; cbn; lia)) as [[_ [Hsz|Hno]]|[(p & s' & E & H)|[_ Hp]]].
  - exfalso. simpl in Hsz. rewrite Hm, Hpf in Hsz. cbn in Hsz. lia.
  - exfalso. exact (example_run_exists s Hm Hpf Hno).
  - exists s, Ls, p, s'. split; [exact Hok|]. split; [exact E | exact H].
  - exfalso. simpl in Hp. rewrite Hm, Hpf in Hp. exact (example_page_to_have Hp).
Defined.

(** Two pieces in the example's heap. *)
Lemma example_given : exists s Ls p sz p' sz', heap_ok s Ls /\ given s Ls p sz /\ given s Ls p' sz' /\ p <> p'.
Proof.
  destruct example_heap_exists as (s & Ls & Hok & HL & Hm & Hpf).
  destruct (wpp_outcome _ _ _ _ (malloc_page_ok (hmem s) (heap_pf s) 1 (ho_mem _ _ Hok) (ho_live _ _ Hok)))
    as [(a & m & _ & [(_ & _ & Hno)|[_ Ha]])|[_ Hp]].
  - by destruct (example_run_exists s Hm Hpf Hno).
  - assert (0 <= 3 < 7) as Hi by lia.
    destruct (wp_ok_inv _ _ _ (make_arena_ok s Ls m a 3 Hok Hi (HL 3 Hi) Ha)) as (_ & s1 & _ & m1 & l & -> & G & Hpost).
    pose proof (heap_ok_made s Ls m1 a 3 l Hok Hi (HL 3 Hi) G Hpost) as Hok1.
    set (s1 := grown s l a _ m1) in *. set (Ls1 := <[free_list (desc_addr s 3) := blocks a 3 (bpa 3)]> Ls) in *.
    assert (Ls1 !! free_list (desc_addr s1 3) = Some (blocks a 3 (bpa 3))) as H1.
    { unfold s1. rewrite (grown_addr s m1 a 1 _ l G). apply lookup_insert_eq. }
    destruct (wp_ok_inv _ _ _ (take_block_ok s1 Ls1 3 _ _ Hok1 Hi H1)) as (_ & s2 & _ & -> & Hok2 & [Hg2 _] & _ & _ & Hd2).
    set (Ls2 := <[free_list (desc_addr s1 3) := _]> Ls1) in *.
    assert (Ls2 !! free_list (desc_addr s2 3) = Some (tail (blocks a 3 (bpa 3)))) as H2.
    { rewrite Hd2. apply lookup_insert_eq. }
    destruct (wp_ok_inv _ _ _ (take_block_ok s2 Ls2 3 _ _ Hok2 Hi H2)) as (_ & s3 & _ & -> & Hok3 & [Hg3 _] & _).
    eexists s3, _, (block a 3 0), (bsz 3), (block a 3 1), (bsz 3). split; [exact Hok3|].
    split; [apply Hg3; left; apply Hg2; by right|]. split; [apply Hg3; by right|].
    intros E. by apply block_inj in E.
  - rewrite Hm, Hpf in Hp. by destruct (example_page_to_have Hp).
Qed.
