(* ===== verification/HeapFree.v ===== *)
(** * Freeing heap memory: proofs about [sys_free] (kernel/memory.c)

    A block goes back to its free list; the page of an arena all of whose
    blocks are free goes back to the page allocator, as do the pages of a
    large piece of memory. *)
From stdpp Require Import base numbers list gmap fin_maps.
From Stdlib Require Import ZArith Lia.
From S2P Require Import Prelude Globals Interrupt LinkedList Bitmap Paging PageAlloc PageFree Pages Heap HeapInit HeapAlloc.

(** ** Arenas leave the heap *)
Lemma lists_ok_filter ns Ls lo hi :
  lists_ok ns Ls -> (forall f ys x, Ls !! f = Some ys -> x ∈ path f ys -> ~ lo <= x < hi) ->
  lists_ok (filter (fun xv : Z * list_node => ~ lo <= xv.1 < hi) ns) Ls.
Proof.
  intros Hl Hout. split; [|apply Hl]. intros f ys Hf. destruct (ok_lists _ _ Hl f ys Hf) as [Hc Hnd].
  split; [|done]. eapply chain_same; [|exact Hc]. intros x Hx. pose proof (Hout f ys x Hf Hx).
  destruct (ns !! x) as [v|] eqn:E; [by apply map_lookup_filter_Some | apply map_lookup_filter_None; by left].
Qed.

Lemma elem_of_dom_filter {A} (m : gmap Z A) lo hi x :
  x ∈ dom (filter (fun xv : Z * A => ~ lo <= xv.1 < hi) m) <-> x ∈ dom m /\ ~ lo <= x < hi.
Proof.
  rewrite !elem_of_dom. split.
  - intros [v [H Hx]%map_lookup_filter_Some]. by split; [exists v|].
  - intros [[v H] Hx]. exists v. by apply map_lookup_filter_Some.
Qed.

(** The pages of an arena are one run of the pool's pages. *)
Lemma arena_pages_range s Ls a ar :
  heap_ok s Ls -> arenas s !! a = Some ar ->
  vaddr_range (vpool_get (heap_pf s) (hmem s)) a (arena_pages ar) /\ freeable (hmem s) a (arena_pages ar).
Proof.
  intros Hok Ha. destruct (arena_page _ _ _ _ Hok Ha) as (Hp & _).
  pose proof (ao_pages _ _ _ _ (ho_arena _ _ Hok _ _ Ha)) as Hu. split.
  - destruct (Hu 0 ltac:(lia)) as ((i & Hi & Hend & Ei) & _).
    destruct (Hu (arena_pages ar - 1) ltac:(lia)) as ((j & Hj & Hend' & Ej) & _). exists i. lia.
  - intros k Hk. destruct (in_use_page _ _ _ (Hu k Hk)) as (Hm & f & q & H). split; [done|]. by exists f, q.
Qed.

Definition dropped (s : heap_state) (l : lstate) (m : mem_state) (a n : Z) : heap_state :=
  unmap_view a (a + n * 4096) (Heap l (arenas s) (descs s) (k_block_descs s) (u_block_descs s) m).

Section Drop.
Context (s : heap_state) (Ls Ls' : gmap Z (list Z)) (a : Z) (ar : arena) (l : lstate) (m : mem_state).
Hypothesis Hok : heap_ok s Ls.
Hypothesis Ha : arenas s !! a = Some ar.
Hypothesis Hpost : list_post (hlists s) Ls' l.
Hypothesis Hm : mem_ok m.
Hypothesis Hrel : released (heap_pf s) (hmem s) m a (arena_pages ar).

Local Abbreviation hi := (a + arena_pages ar * 4096).
Local Abbreviation s' := (dropped s l m a (arena_pages ar)).

(** No list runs through the arena any more; the others are as before. *)
Hypothesis Hclear : forall f ys x, Ls' !! f = Some ys -> x ∈ path f ys -> ~ a <= x < hi.
Hypothesis Hold : forall f ys, Ls' !! f = Some ys -> exists ys0, Ls !! f = Some ys0 /\
  forall x, ~ a <= x < hi -> x ∈ ys <-> x ∈ ys0.
Hypothesis Hkeep : forall f, is_Some (Ls !! f) -> is_Some (Ls' !! f).

Lemma drop_pgdir : cur_pgdir m = cur_pgdir (hmem s).
Proof. destruct Hrel as (s1 & p' & P & _ & ->). rewrite <- (pu_pgdir _ _ _ _ P). by destruct (heap_pf s). Qed.

Lemma drop_start pf : vaddr_start (vpool_get pf m) = vaddr_start (vpool_get pf (hmem s)).
Proof.
  destruct Hrel as (s1 & p' & P & (_ & E & _) & ->). rewrite vpool_get_put. destruct (decide _) as [->|].
  - exact E.
  - by rewrite (pu_vpool _ _ _ _ P).
Qed.

Lemma drop_pf : heap_pf s' = heap_pf s /\ forall i, desc_addr s' i = desc_addr s i.
Proof. unfold desc_addr, heap_pf, heap_descs. simpl. by rewrite drop_pgdir. Qed.

Lemma drop_arena a0 ar0 : arenas s' !! a0 = Some ar0 <-> arenas s !! a0 = Some ar0 /\ a0 <> a.
Proof.
  simpl. rewrite map_lookup_filter_Some. simpl. destruct (arena_page _ _ _ _ Hok Ha) as (Hp & _). split.
  - intros [H0 Hout]. split; [done|]. intros ->. lia.
  - intros [H0 Hne]. split; [done|]. destruct (arena_page _ _ _ _ Hok H0) as (Hp0 & _).
    destruct (ho_sep _ _ Hok _ _ _ _ Ha H0 (not_eq_sym Hne)); lia.
Qed.

Lemma kept_block_out a0 ar0 i j :
  arenas s !! a0 = Some ar0 -> a0 <> a -> 0 <= i < 7 -> 0 <= j < bpa i -> ~ a <= block a0 i j < hi.
Proof.
  intros H0 Hne Hi Hj. pose proof (block_range a0 i j Hi Hj). pose proof (bsz_bounds i Hi).
  destruct (arena_page _ _ _ _ Hok H0) as (Hp0 & _).
  destruct (ho_sep _ _ Hok _ _ _ _ Ha H0 (not_eq_sym Hne)); lia.
Qed.

Lemma drop_nodes x : ~ a <= x < hi -> x ∈ dom (nodes (hlists s')) <-> x ∈ dom (nodes (hlists s)).
Proof. intros Hx. simpl. rewrite elem_of_dom_filter, (proj2 (proj2 Hpost)). naive_solver. Qed.

Lemma drop_small a0 ar0 i xs :
  arenas s !! a0 = Some ar0 -> a0 <> a -> small_ok s Ls a0 ar0 i xs -> exists xs', small_ok s' Ls' a0 ar0 i xs'.
Proof.
  intros H0 Hne [S1 S2 S3 S4 S5 S6 S7]. destruct (Hkeep _ (mk_is_Some _ _ S4)) as [xs' Hxs'].
  destruct (Hold _ _ Hxs') as (xs0 & H4 & Heq). rewrite S4 in H4. injection H4 as <-. exists xs'.
  assert (forall j, 0 <= j < bpa i -> ~ a <= block a0 i j < hi) as Ho by (intros; by eapply kept_block_out).
  split; rewrite ?(proj2 drop_pf); try done.
  - rewrite S5. pose proof (bsz_bounds i S1). apply count_n_ext. intros j Hj. apply bool_decide_ext. symmetry.
    apply Heq, Ho. lia.
  - intros j Hj. by apply drop_nodes, S6; [apply Ho|].
  - intros j Hj Hout. assert (block a0 i j ∉ xs) as Hout' by (by rewrite <- Heq by (by apply Ho)).
    destruct (S7 j Hj Hout') as [Hd Hun]. split; [by apply drop_nodes; [apply Ho|]|].
    intros f ys Hf Hin. destruct (Hold f ys Hf) as (ys0 & Hf0 & Heq').
    apply (Hun f ys0 Hf0). unfold path in *. rewrite elem_of_cons, elem_of_app in *. rewrite <- Heq' by (by apply Ho). done.
Qed.

Lemma drop_in_use v : v mod 4096 = 0 -> ~ a <= v < hi -> page_in_use (heap_pf s) (hmem s) v ->
  page_in_use (heap_pf s) m v /\ page_frame (machine m) v = page_frame (machine (hmem s)) v.
Proof.
  intros Hv Hout Hu. destruct (ho_arena _ _ Hok _ _ Ha) as [Hal Hpages _].
  by apply (in_use_released _ _ _ a (arena_pages ar) v (ho_mem _ _ Hok) (ho_live _ _ Hok) Hrel).
Qed.

Lemma drop_arena_ok a0 ar0 : arenas s !! a0 = Some ar0 -> a0 <> a -> arena_ok s' Ls' a0 ar0.
Proof.
  intros H0 Hne. destruct (ho_arena _ _ Hok _ _ H0) as [A1 A2 A3]. split; [done | |].
  - rewrite (proj1 drop_pf). intros k Hk. simpl. apply drop_in_use; [by rewrite Z_mod_plus_full | | by apply A2].
    destruct (ho_sep _ _ Hok _ _ _ _ Ha H0 (not_eq_sym Hne)); lia.
  - destruct A3 as [?|(i & xs & Hs)]; [by left | right]. exists i. by eapply drop_small.
Qed.

Lemma heap_ok_dropped : heap_ok s' Ls'.
Proof.
  destruct drop_pf as [Epf Eda]. destruct (arena_page _ _ _ _ Hok Ha) as (Hp & Hal & _). split.
  - done.
  - rewrite Epf. unfold live. simpl. rewrite drop_pgdir. apply Hok.
  - pose proof (drop_start PF_KERNEL) as E. simpl in *. rewrite E. apply Hok.
  - unfold heap_descs. simpl. rewrite drop_pgdir. apply Hok.
  - intros i Hi. rewrite Eda. by apply (ho_desc _ _ Hok).
  - apply lists_ok_filter; [apply Hpost | exact Hclear].
  - intros i Hi. rewrite Eda. by apply Hkeep, (ho_free _ _ Hok).
  - intros i ys x Hi Hys Hx. rewrite Eda in *. destruct (Hold _ _ Hys) as (ys0 & H0 & Heq).
    assert (~ a <= x < hi) as Hout.
    { apply (Hclear _ _ x Hys). unfold path. rewrite elem_of_cons, elem_of_app. by auto. }
    destruct (ho_block _ _ Hok i ys0 x Hi H0) as (a0 & ar0 & j & Ha0 & Hd & Hj & ->); [by apply Heq|].
    exists a0, ar0, j. rewrite drop_arena. split; [|done]. split; [done|]. intros ->. apply Hout.
    pose proof (block_range a i j Hi Hj). pose proof (bsz_bounds i Hi). lia.
  - intros f ys a0 ar0 Hf [H0 _]%drop_arena. destruct (Hold _ _ Hf) as (ys0 & Hf0 & _). by apply (ho_heads _ _ Hok f ys0).
  - intros f ys x a0 ar0 Hf Hx [H0 _]%drop_arena Hr. rewrite Eda || setoid_rewrite Eda.
    destruct (Hold _ _ Hf) as (ys0 & Hf0 & Heq). apply (ho_members _ _ Hok f ys0 x a0 ar0); try done.
    apply Heq; [|done]. apply (Hclear _ _ x Hf). unfold path. rewrite elem_of_cons, elem_of_app. by auto.
  - intros a0 ar0 [H0 Hne]%drop_arena. by apply drop_arena_ok.
  - intros va x Hva Hx. rewrite Epf in Hva. simpl in Hva.
    destruct (released_facts _ _ _ _ _ Hrel) as (_ & Hfree & _). apply Hfree in Hva as [Hva|(k & Hk & ->)].
    + destruct (ho_fresh _ _ Hok va x Hva Hx) as [F1 F2]. split.
      * apply not_elem_of_dom. simpl. rewrite elem_of_dom_filter, (proj2 (proj2 Hpost)).
        intros [Hd _]. by apply not_elem_of_dom in F1.
      * apply eq_None_not_Some. intros [br [Hb _]%drop_arena]. by rewrite F2 in Hb.
    + split; apply map_lookup_filter_None; right; intros v _ Hv; apply Hv; simpl; lia.
  - intros a0 ar0 a1 ar1 [H0 _]%drop_arena [H1 _]%drop_arena. by apply (ho_sep _ _ Hok).
Qed.

Lemma given_dropped p sz :
  given s' Ls' p sz <-> given s Ls p sz /\ ~ a <= p < hi.
Proof.
  assert (forall a0 ar0, arenas s !! a0 = Some ar0 -> a0 <> a -> given_in s' Ls' a0 ar0 p sz <-> given_in s Ls a0 ar0 p sz) as Hin.
  { intros a0 ar0 H0 Hne. unfold given_in. apply or_iff_compat_l. setoid_rewrite (proj2 drop_pf). split.
    - intros (i & j & xs & Hi & Hd & Hj & -> & Hxs & Hout & ->). destruct (Hold _ _ Hxs) as (xs0 & Hxs0 & Heq).
      exists i, j, xs0. repeat (split; [done|]). split; [|done]. rewrite <- Heq; [done | by eapply kept_block_out].
    - intros (i & j & xs0 & Hi & Hd & Hj & -> & Hxs0 & Hout & ->).
      destruct (Hkeep _ (mk_is_Some _ _ Hxs0)) as [xs Hxs]. destruct (Hold _ _ Hxs) as (ys & Hys & Heq).
      assert (ys = xs0) as -> by congruence. exists i, j, xs. repeat (split; [done|]). split; [|done].
      rewrite Heq; [done | by eapply kept_block_out]. }
  split.
  - intros (a0 & ar0 & [H0 Hne]%drop_arena & Hg). apply (Hin a0 ar0) in Hg; [|done|done].
    split; [by exists a0, ar0|]. destruct (given_in_range _ _ _ _ _ _ Hok H0 Hg).
    destruct (ho_sep _ _ Hok _ _ _ _ Ha H0 (not_eq_sym Hne)); lia.
  - intros [(a0 & ar0 & H0 & Hg) Hout]. destruct (given_in_range _ _ _ _ _ _ Hok H0 Hg) as (Hsz & Hlo & Hhi).
    assert (a0 <> a) as Hne. { intros ->. assert (ar0 = ar) as -> by congruence. lia. }
    exists a0, ar0. split; [by apply drop_arena|]. by apply Hin.
Qed.
End Drop.

(** ** The blocks of an arena leave their free list *)
Lemma path_member_once f pre post b :
  NoDup (path f (pre ++ b :: post)) -> forall x, x ∈ pre ++ post <-> x ∈ pre ++ b :: post /\ x <> b.
Proof.
  intros Hnd x. rewrite path_split in Hnd. apply NoDup_app in Hnd as (_ & Hdis & Hnd). simpl in Hnd.
  apply NoDup_cons in Hnd as [Hn2 _]. rewrite !elem_of_app, elem_of_cons. split.
  - intros Hx. split; [destruct Hx; auto|]. intros ->. destruct Hx as [Hx|Hx].
    + apply (Hdis b); simpl; [by apply elem_of_cons; right | by left].
    + apply Hn2, elem_of_app. by left.
  - intros [[Hx|[->|Hx]] Hne]; [by left | done | by right].
Qed.

Lemma remove_blocks_loop s Ls a ar i d n k ys :
  arenas s !! a = Some ar -> desc ar = d -> descs s !! d = Some (BlockDesc (bsz i) (bpa i)) -> managed a ->
  0 <= i < 7 -> 0 <= k -> k + Z.of_nat n = bpa i -> Ls !! free_list d = Some ys ->
  lists_ok (nodes (hlists s)) Ls -> (forall j, k <= j < bpa i -> block a i j ∈ ys) ->
  wp (remove_blocks n a k) s (fun _ s' => exists l ys', s' = put hlists_lens l s /\
    list_post (hlists s) (<[free_list d := ys']> Ls) l /\
    forall x, x ∈ ys' <-> x ∈ ys /\ forall j, k <= j < bpa i -> x <> block a i j).
Proof.
  intros Ha Hd Hds Hm Hi. revert s Ls k ys Ha Hds. induction n as [|n IH]; intros s Ls k ys Ha Hds Hk Hn HL Hl Hin; simpl.
  - wp_step. exists (hlists s), ys. split; [by destruct s|]. rewrite insert_id by done. split; [by apply list_post_refl|].
    intros x. split; [|by intros []]. intros Hx. split; [done|]. intros j. lia.
  - wp_step. eapply wp_ok; [eapply arena2block_eq; [exact Ha | by rewrite Hd | done | done | lia]|].
    wp_step. eapply wp_ok; [by apply arena_at_eq|]. rewrite Hd. wp_step. unfold hl at 1. apply wp_zoom.
    pose proof (Hin k ltac:(lia)) as Hb.
    eapply wp_mono; [by apply (node_find_ok _ Ls _ _ (block a i k) Hl HL)|]. intros r ? [-> ->].
    rewrite decide_True by done. wp_step. apply wp_ASSERT; [done|]. wp_step. unfold hl at 1. apply wp_zoom.
    change (put hlists_lens (hlists s) s) with (put hlists_lens (view hlists_lens s) s). rewrite (put_view hlists_lens s).
    destruct (list_elem_of_split _ _ Hb) as (pre & post & ->). destruct (ok_lists _ _ Hl _ _ HL) as [_ Hnd].
    pose proof (path_member_once _ _ _ _ Hnd) as Hx.
    eapply wp_mono; [apply (list_remove_ok _ Ls _ pre post (block a i k) Hl HL)|].
    intros [] l ((Hl' & He & Hdom) & _). eapply wp_mono.
    + apply (IH (put hlists_lens l s) (<[free_list d := pre ++ post]> Ls) (k + 1) (pre ++ post)); try done.
      * lia.
      * lia.
      * apply lookup_insert_eq.
      * intros j Hj. apply Hx. split; [apply Hin; lia|]. intros E. apply block_inj in E; lia.
    + intros [] s' (l' & ys' & -> & (P1 & P2 & P3) & Hys). exists l', ys'. rewrite insert_insert_eq in P1. simpl in P2, P3.
      split; [by destruct s|]. split; [split; [done|]; by rewrite P2, P3|]. intros x. rewrite Hys, Hx. split.
      * intros [[H1 H2] H3]. split; [done|]. intros j Hj. destruct (Z.eq_dec j k) as [->|]; [done | apply H3; lia].
      * intros [H1 H2]. split; [split; [done|apply H2; lia]|]. intros j Hj. apply H2. lia.
Qed.

(** What is held in the arena: nothing when all of its blocks are free. *)
Lemma idle_not_given s Ls a ar i xs p sz :
  heap_ok s Ls -> arenas s !! a = Some ar -> small_ok s Ls a ar i xs ->
  (forall j, 0 <= j < bpa i -> block a i j ∈ xs) -> given s Ls p sz -> ~ a <= p < a + 4096.
Proof.
  intros Hok Ha Hs Hall (a0 & ar0 & H0 & Hg) Hp.
  destruct (given_in_range _ _ _ _ _ _ Hok H0 Hg) as (Hsz & Hlo & Hhi).
  assert (arena_pages ar = 1) as Hpg by (unfold arena_pages; by rewrite (sm_small _ _ _ _ _ _ Hs)).
  destruct (Z.eq_dec a0 a) as [->|Hne].
  - assert (ar0 = ar) as -> by congruence. destruct Hg as [(Hd & _)|(i' & j & ys & Hi & Hd & Hj & -> & Hys & Hout & _)].
    + by apply (small_not_large _ _ _ _ _ _ Hok Hs) in Hd.
    + rewrite (sm_desc _ _ _ _ _ _ Hs) in Hd. apply desc_addr_inj in Hd as <-.
      rewrite (sm_list _ _ _ _ _ _ Hs) in Hys. injection Hys as <-. by apply Hout, Hall.
  - destruct (ho_sep _ _ Hok _ _ _ _ Ha H0 (not_eq_sym Hne)); lia.
Qed.

(** The same pools, of the same sizes. *)
Definition pools_kept (s s' : heap_state) : Prop :=
  heap_pf s' = heap_pf s /\ forall q, pool_size (pool_get q (hmem s')) = pool_size (pool_get q (hmem s)).

(** The memory at [p] has been given back, the rest is held as before, on the
    same frames. *)
Definition given_back (s : heap_state) (Ls : gmap Z (list Z)) (p : Z) (s' : heap_state) : Prop := exists Ls',
  heap_ok s' Ls' /\ pools_kept s s' /\
  (forall q n, given s' Ls' q n <-> given s Ls q n /\ q <> p) /\
  forall q n x, given s' Ls' q n -> q <= x < q + n ->
    page_frame (machine (hmem s')) (x - x mod 4096) = page_frame (machine (hmem s)) (x - x mod 4096).

(** Releasing the pages of an arena through which no list runs. *)
Lemma mfree_pages_ok s Ls Ls' a ar l :
  heap_ok s Ls -> arenas s !! a = Some ar -> list_post (hlists s) Ls' l ->
  (forall f ys x, Ls' !! f = Some ys -> x ∈ path f ys -> ~ a <= x < a + arena_pages ar * 4096) ->
  (forall f ys, Ls' !! f = Some ys -> exists ys0, Ls !! f = Some ys0 /\
    forall x, ~ a <= x < a + arena_pages ar * 4096 -> x ∈ ys <-> x ∈ ys0) ->
  (forall f, is_Some (Ls !! f) -> is_Some (Ls' !! f)) ->
  wp (mfree_pages (heap_pf s) a (arena_pages ar)) (put hlists_lens l s) (fun _ s' =>
    heap_ok s' Ls' /\ pools_kept s s' /\
    (forall q n, given s' Ls' q n <-> given s Ls q n /\ ~ a <= q < a + arena_pages ar * 4096) /\
    forall v, v mod 4096 = 0 -> ~ a <= v < a + arena_pages ar * 4096 -> page_in_use (heap_pf s) (hmem s) v ->
      page_frame (machine (hmem s')) v = page_frame (machine (hmem s)) v).
Proof.
  intros Hok Ha Hpost Hclear Hold Hkeep. destruct (arena_pages_range s Ls a ar Hok Ha) as [Hr Hf].
  destruct (arena_page _ _ _ _ Hok Ha) as (Hp & _).
  unfold mfree_pages. wp_step. unfold hm. apply wp_zoom. eapply wp_mono.
  { apply (mfree_page_ok (hmem s) (heap_pf s) a (arena_pages ar)); try done; apply Hok. }
  intros [] m [Hm Hrel]. wp_step.
  change (unmap_view a (a + arena_pages ar * PG_SIZE) (put hmem_lens m (put hlists_lens l s)))
    with (dropped s l m a (arena_pages ar)).
  split; [by apply (heap_ok_dropped s Ls)|]. split.
  { split; [by eapply drop_pf|]. intros q. destruct Hrel as (s1 & p' & P & _ & ->).
    change (pool_size (pool_get q (put (vpool_lens (heap_pf s)) p' s1)) = pool_size (pool_get q (hmem s))).
    rewrite pool_get_put_vpool. by destruct (pu_pool _ _ _ _ P q) as (_ & -> & _). }
  split.
  - intros q n. by apply (given_dropped s Ls).
  - intros v Hv Hout Hu. by apply (drop_in_use s Ls a ar m).
Qed.

(** The frames of what is still held. *)
Lemma frames_kept s Ls s' Ls' a ar :
  heap_ok s Ls -> arenas s !! a = Some ar ->
  (forall q n, given s' Ls' q n -> given s Ls q n /\ ~ a <= q < a + arena_pages ar * 4096) ->
  (forall v, v mod 4096 = 0 -> ~ a <= v < a + arena_pages ar * 4096 -> page_in_use (heap_pf s) (hmem s) v ->
      page_frame (machine (hmem s')) v = page_frame (machine (hmem s)) v) ->
  forall q n x, given s' Ls' q n -> q <= x < q + n ->
    page_frame (machine (hmem s')) (x - x mod 4096) = page_frame (machine (hmem s)) (x - x mod 4096).
Proof.
  intros Hok Ha Hg Hf q n x Hq Hx. destruct (Hg q n Hq) as [(a0 & ar0 & H0 & Hin) Hout].
  destruct (given_in_page _ _ _ _ _ _ x Hok H0 Hin Hx) as [Hr Hu].
  destruct (given_in_range _ _ _ _ _ _ Hok H0 Hin) as (Hsz & Hlo & Hhi).
  apply Hf; [|intros Hin2 | done].
  - pose proof (Z.div_mod x 4096 ltac:(lia)). replace (x - x mod 4096) with (x / 4096 * 4096) by lia. apply Z.mod_mul. lia.
  - assert (a0 <> a) as Hne. { intros ->. assert (ar0 = ar) as -> by congruence. lia. }
    destruct (ho_sep _ _ Hok _ _ _ _ Ha H0 (not_eq_sym Hne)); lia.
Qed.

Lemma free_large_ok s Ls a ar :
  heap_ok s Ls -> arenas s !! a = Some ar -> desc ar = NULL ->
  wp (free_large (heap_pf s) a) s (fun _ s' => given_back s Ls (a + 12) s').
Proof.
  intros Hok Ha Hd. destruct (ao_kind _ _ _ _ (ho_arena _ _ Hok a ar Ha)) as [Hla|(i & xs & Hs)].
  2: { by destruct (small_not_large _ _ _ _ _ _ Hok Hs). }
  assert (arena_pages ar = cnt ar) as Epg by (unfold arena_pages; by rewrite (la_large _ _ Hla)).
  pose proof (la_cnt _ _ Hla) as Hcnt.
  assert (forall f ys x, Ls !! f = Some ys -> x ∈ path f ys -> ~ a <= x < a + arena_pages ar * 4096) as Hclear.
  { intros f ys x Hf Hx Hin. destruct (ho_heads _ _ Hok f ys a ar Hf Ha) as [Hh Ht]. unfold path in Hx.
    rewrite elem_of_cons, elem_of_app, list_elem_of_singleton in Hx. destruct Hx as [->|[Hx| ->]]; [done | | done].
    destruct (ho_members _ _ Hok f ys x a ar Hf Hx Ha Hin) as (i & Hi & ->).
    destruct (ho_block _ _ Hok i ys x Hi Hf Hx) as (a0 & ar0 & j & H0 & Hd0 & Hj & ->).
    assert (a0 <> a) as Hne. { intros ->. assert (ar0 = ar) as -> by congruence. rewrite Hd in Hd0.
      symmetry in Hd0. by apply (desc_not_null s Ls i Hok Hi) in Hd0. }
    pose proof (block_range a0 i j Hi Hj). pose proof (bsz_bounds i Hi). destruct (arena_page _ _ _ _ Hok H0) as (Hp0 & _).
    destruct (ho_sep _ _ Hok _ _ _ _ Ha H0 (not_eq_sym Hne)); lia. }
  unfold free_large. wp_step. eapply wp_ok; [by apply arena_at_eq|]. rewrite <- Epg.
  rewrite <- (put_view hlists_lens s) at 2. eapply wp_mono.
  { apply (mfree_pages_ok s Ls Ls a ar); try done; [by apply list_post_refl, Hok|]. intros f ys Hf. by exists ys. }
  intros [] s' (Hok' & Hpf & Hg & Hfr). exists Ls. split; [done|]. split; [done|]. split.
  - intros q n. rewrite Hg. split; intros [Hq Hne]; (split; [done|]); [intros ->; lia|].
    intros Hin. destruct Hq as (a0 & ar0 & H0 & Hq). destruct (given_in_range _ _ _ _ _ _ Hok H0 Hq) as (? & ? & ?).
    destruct (Z.eq_dec a0 a) as [->|Hna]; [|destruct (ho_sep _ _ Hok _ _ _ _ Ha H0 (not_eq_sym Hna)); lia].
    assert (ar0 = ar) as -> by congruence. destruct Hq as [(_ & E & _)|(i & j & xs & Hi & Hd' & _)]; [done|].
    rewrite Hd in Hd'. symmetry in Hd'. by apply (desc_not_null s Ls i Hok Hi) in Hd'.
  - apply (frames_kept s Ls s' Ls a ar); try done. intros q n Hq. by apply Hg.
Qed.

(** The last block of an arena has come back: its blocks leave the list and
    its page is released. *)
Lemma release_arena_ok s Ls a ar i xs :
  heap_ok s Ls -> arenas s !! a = Some ar -> small_ok s Ls a ar i xs -> (forall j, 0 <= j < bpa i -> block a i j ∈ xs) ->
  wp (remove_blocks (Z.to_nat (bpa i)) a 0 ;;; mfree_pages (heap_pf s) a 1) s (fun _ s' => exists Ls',
    heap_ok s' Ls' /\ pools_kept s s' /\ (forall q n, given s' Ls' q n <-> given s Ls q n) /\
    forall q n x, given s' Ls' q n -> q <= x < q + n ->
      page_frame (machine (hmem s')) (x - x mod 4096) = page_frame (machine (hmem s)) (x - x mod 4096)).
Proof.
  intros Hok Ha Hs Hall. pose proof Hs as [Hi Hd Hlg HL _ _ _]. pose proof (bsz_bounds i Hi) as Hz.
  destruct (arena_page _ _ _ _ Hok Ha) as (Hp & Hal & Hm & _).
  assert (arena_pages ar = 1) as Epg by (unfold arena_pages; by rewrite Hlg).
  wp_step. eapply wp_mono.
  { apply (remove_blocks_loop s Ls a ar i (desc_addr s i) _ 0 xs); try done; [by apply (ho_desc _ _ Hok) | lia | apply Hok]. }
  intros [] ? (l & ys & -> & Hpost & Hys). set (Ls' := <[free_list (desc_addr s i) := ys]> Ls) in *.
  assert (forall f zs, Ls' !! f = Some zs -> exists zs0, Ls !! f = Some zs0 /\
    (forall x, x ∈ zs -> x ∈ zs0) /\ forall x, ~ a <= x < a + arena_pages ar * 4096 -> x ∈ zs <-> x ∈ zs0) as Hold.
  { intros f zs Hf. apply lookup_insert_Some in Hf as [[<- <-]|[_ Hf]]; [|by exists zs]. exists xs. split; [done|].
    split; [intros x Hx; by apply Hys|]. intros x Hx. rewrite Hys. split; [by intros []|]. intros H. split; [done|].
    intros j Hj ->. apply Hx. pose proof (block_range a i j Hi Hj). lia. }
  rewrite <- Epg. eapply wp_mono.
  { apply (mfree_pages_ok s Ls Ls' a ar l); try done.
    - intros f zs x Hf Hx Hin. destruct (Hold f zs Hf) as (zs0 & Hf0 & Hsub & _).
      destruct (ho_heads _ _ Hok f zs0 a ar Hf0 Ha) as [Hh Ht]. unfold path in Hx.
      rewrite elem_of_cons, elem_of_app, list_elem_of_singleton in Hx. destruct Hx as [->|[Hx| ->]]; [done | | done].
      destruct (ho_members _ _ Hok f zs0 x a ar Hf0 (Hsub x Hx) Ha Hin) as (i' & Hi' & ->).
      destruct (ho_block _ _ Hok i' zs0 x Hi' Hf0 (Hsub x Hx)) as (a0 & ar0 & j & H0 & Hd0 & Hj & ->).
      destruct (Z.eq_dec a0 a) as [->|Hne].
      + assert (ar0 = ar) as -> by congruence. rewrite Hd in Hd0. apply desc_addr_inj in Hd0 as <-.
        unfold Ls' in Hf. rewrite lookup_insert_eq in Hf. injection Hf as <-. apply Hys in Hx as [_ Hx]. by apply (Hx j).
      + pose proof (block_range a0 i' j Hi' Hj). pose proof (bsz_bounds i' Hi'). destruct (arena_page _ _ _ _ Hok H0) as (Hp0 & _).
        destruct (ho_sep _ _ Hok _ _ _ _ Ha H0 (not_eq_sym Hne)); lia.
    - intros f zs Hf. destruct (Hold f zs Hf) as (zs0 & Hf0 & _ & Heq). by exists zs0.
    - intros f Hf. by apply lookup_insert_is_Some'; right. }
  intros [] s' (Hok' & Hpf & Hg & Hfr). exists Ls'. split; [done|]. split; [done|]. split.
  - intros q n. rewrite Hg. split; [by intros []|]. intros Hq. split; [done|]. rewrite Epg.
    apply (idle_not_given s Ls a ar i xs q n) in Hq; [|done..]. lia.
  - apply (frames_kept s Ls s' Ls' a ar); try done. intros q n Hq. by apply Hg.
Qed.

Lemma all_free a i xs :
  0 <= i < 7 -> free_blocks a i xs = bpa i -> forall j, 0 <= j < bpa i -> block a i j ∈ xs.
Proof.
  intros Hi Hfull j Hj. unfold free_blocks in Hfull.
  set (g := fun j => bool_decide (block a i j ∈ xs)) in Hfull.
  assert (g j = true) as E by (apply (count_n_full g 0 (Z.to_nat (bpa i))); lia).
  unfold g in E. by apply bool_decide_eq_true in E.
Qed.

Lemma free_small_ok s Ls a ar i xs j :
  heap_ok s Ls -> arenas s !! a = Some ar -> small_ok s Ls a ar i xs -> 0 <= j < bpa i -> block a i j ∉ xs ->
  wp (free_small (heap_pf s) a (block a i j)) s (fun _ s' => given_back s Ls (block a i j) s').
Proof.
  intros Hok Ha Hs Hj Hout. pose proof Hs as [Hi Hd Hlg HL Hcnt _ Hun]. pose proof (bsz_bounds i Hi) as Hz.
  set (b := block a i j) in *. set (xs' := xs ++ [b]). set (f := free_list (desc_addr s i)) in *.
  assert (b ∈ xs') as Hb by (apply elem_of_app; right; by apply list_elem_of_singleton).
  assert (forall x, x <> b -> x ∈ xs' <-> x ∈ xs) as Hx.
  { intros x Hne. unfold xs'. rewrite elem_of_app, list_elem_of_singleton. naive_solver. }
  assert (free_blocks a i xs = free_blocks a i xs' - 1) as Hfl.
  { apply (free_blocks_flip a i j); try done. intros x Hne. symmetry. by apply Hx. }
  pose proof (free_blocks_bounds a i xs Hi). pose proof (free_blocks_bounds a i xs' Hi).
  unfold free_small. wp_step. eapply wp_ok; [by apply arena_at_eq|]. rewrite Hd. fold f. wp_step. unfold hl at 1. apply wp_zoom.
  eapply wp_mono; [apply (list_append_ok _ Ls f xs b (ho_lists _ _ Hok) HL (Hun j Hj Hout))|].
  intros [] l Hpost. wp_step. eapply wp_ok; [by apply update_arena_eq|]. cbv beta.
  replace (u32 (cnt ar + 1)) with (free_blocks a i xs').
  2: { rewrite Hcnt, Hfl, u32_id; [lia | unfold is_u32; lia]. }
  change (put_arenas _ _) with (moved s l a (free_blocks a i xs') ar). set (s1 := moved s l a (free_blocks a i xs') ar).
  set (ar1 := Arena (desc ar) (free_blocks a i xs') (large ar)).
  pose proof (heap_ok_moved s Ls a ar i j xs xs' l Hok Ha Hs Hj Hpost Hx (or_introl Hb)) as Hok1.
  pose proof (moved_small s Ls a ar i j xs xs' l Hs Hpost Hx (or_introl Hb)) as Hs1.
  assert (forall q n, given s1 (<[f := xs']> Ls) q n <-> given s Ls q n /\ q <> b) as Hg.
  { intros q n. pose proof (given_moved s Ls a ar i j xs xs' l Hok Ha Hs Hj Hx q n) as Hgm.
    fold b in Hgm. fold f in Hgm. unfold s1. rewrite Hgm. split; [intros [H3|(_ & _ & H3)]; done | by left]. }
  assert (arenas s1 !! a = Some ar1) as Ha1 by apply lookup_insert_eq.
  wp_step. eapply wp_ok; [by apply arena_at_eq|]. simpl large. rewrite Hlg. wp_step. apply wp_ASSERT; [done|].
  wp_step. simpl desc. rewrite Hd. eapply wp_ok.
  { unfold desc_at, mbind, M_bind, get. simpl. rewrite (ho_desc _ _ Hok i Hi). done. }
  simpl. destruct (Z.eqb_spec (free_blocks a i xs') (bpa i)) as [Efull|]; unfold when.
  - change (heap_pf s) with (heap_pf s1). eapply wp_mono.
    { apply (release_arena_ok s1 _ a ar1 i xs' Hok1 Ha1 Hs1). intros j0 Hj0.
      apply (all_free a i xs' Hi Efull j0 Hj0). }
    intros [] s' (Ls' & Hok' & Hpf & Hg' & Hfr). exists Ls'. split; [done|]. split; [done|]. split; [|exact Hfr].
    intros q n. rewrite Hg'. exact (Hg q n).
  - wp_step. exists (<[f := xs']> Ls). done.
Qed.

Section HeapFreeProofs.
Context {St : Type} `{!PoolLocks St heap_state}.

(** The arena of memory that is given, from its address. *)
Lemma given_arena s Ls p sz :
  heap_ok s Ls -> given s Ls p sz -> exists ar, arenas s !! block2arena p = Some ar /\ p <> NULL /\
    block2arena p <= p /\ page_in_use (heap_pf s) (hmem s) (block2arena p) /\
    ((desc ar = NULL /\ large ar = C_true /\ p = block2arena p + 12) \/
     exists i j xs, small_ok s Ls (block2arena p) ar i xs /\ 0 <= j < bpa i /\ p = block (block2arena p) i j /\ p ∉ xs).
Proof.
  intros Hok Hg. pose proof (given_not_null _ _ _ _ Hok Hg) as Hp. destruct Hg as (a & ar & Ha & Hin).
  destruct (arena_page _ _ _ _ Hok Ha) as (_ & Hal & Hm & Hu).
  destruct Hin as [(Hd & -> & _)|(i & j & xs & Hi & Hd & Hj & -> & Hxs & Hout & _)].
  - assert (block2arena (a + 12) = a) as ->.
    { replace (a + 12) with (block a 0 0) by (unfold block; lia). destruct (managed_block a 0 0 Hm) as [Hb _]; try done.
      apply block2arena_block; (done || apply Hm). }
    exists ar. split; [done|]. split; [done|]. split; [lia|]. split; [done|]. left. split; [done|]. split; [|done].
    destruct (ao_kind _ _ _ _ (ho_arena _ _ Hok a ar Ha)) as [Hla|(i & xs & Hs)]; [apply Hla|].
    by destruct (small_not_large _ _ _ _ _ _ Hok Hs).
  - destruct (managed_block a i j Hm Hi Hj) as [Hb _].
    assert (block2arena (block a i j) = a) as -> by (apply block2arena_block; (done || apply Hm)).
    exists ar. split; [done|]. split; [done|]. split; [pose proof (block_range a i j Hi Hj); lia|]. split; [done|]. right.
    destruct (arena_class s Ls a ar i Hok Ha Hi Hd) as [ys Hs]. exists i, j, ys. split; [done|]. split; [done|]. split; [done|].
    pose proof (sm_list _ _ _ _ _ _ Hs) as Hys. rewrite Hxs in Hys. by injection Hys as <-.
Qed.

Lemma sys_free_ok (st : St) s Ls p sz :
  s = view inner st -> heap_ok s Ls -> uncontended (heap_pf s) st -> given s Ls p sz ->
  wpu (sys_free p) st (fun _ st' => exists s', st' = put inner s' st /\ given_back s Ls p s') False.
Proof.
  intros -> Hok Hun Hg. destruct (bracket_law _ _ Hun) as (stl & Ea & Ev & Er). set (s := view inner st) in *.
  destruct (given_arena s Ls p sz Hok Hg) as (ar & Ha & Hp & Hle & Hu & Hcase).
  unfold sys_free. destruct (Z.eqb_spec p NULL) as [|_]; [done|]. cbn [negb].
  apply wpu_bind, wpu_ASSERT; [|done]. intros _. apply wpu_bind, wpu_wp, wp_gets. cbv zeta. fold s.
  apply wpu_bind. apply (wpu_mono _ _ (fun _ st' => st' = st) _ False False); [| |done].
  { unfold when. destruct (Z.eqb_spec (cur_pgdir (hmem s)) NULL) as [E|]; [|by apply wpu_ret].
    apply wpu_ASSERT; [done|]. intros Hlt. b2p. exfalso. destruct Hu as ((i & Hi & _ & Ei) & _).
    assert (heap_pf s = PF_KERNEL) as Epf by (unfold heap_pf; by rewrite E). rewrite Epf in Ei. simpl in Ei.
    pose proof (ho_kernel _ _ Hok). lia. }
  intros [] ? ->. apply wpu_bind. eapply wpu_eq; [exact Ea|].
  apply wpu_bind, wpu_on_heap, wpp_wp. rewrite Ev. eapply wp_ok; [by apply arena_at_eq|]. cbv beta.
  assert (put inner s stl = stl) as Estl by (rewrite <- Ev; apply put_view). rewrite Estl. apply wpu_bind.
  apply (wpu_mono _ _ (fun _ st' => exists s', st' = put inner s' stl /\ given_back s Ls p s') _ False False); [| |done].
  - destruct Hcase as [(Hd & Hlg & E)|(i & j & xs & Hs & Hj & E & Hout)].
    + rewrite Hd, Hlg. apply wpu_on_heap, wpp_wp. rewrite Ev. eapply wp_mono; [by apply (free_large_ok s Ls _ ar)|].
      intros [] s' H. rewrite <- E in H. by exists s'.
    + destruct (Z.eqb_spec (desc ar) NULL) as [Hd|_]; [by destruct (small_not_large _ _ _ _ _ _ Hok Hs)|].
      cbn [andb]. apply wpu_on_heap, wpp_wp. rewrite Ev. remember (block2arena p) as a eqn:Ea'. clear Ea'. subst p.
      eapply wp_mono; [by apply (free_small_ok s Ls a ar i xs j)|]. intros [] s' H. by exists s'.
  - intros [] ? (s' & -> & H). eapply wpu_eq; [apply Er|]. by exists s'.
Qed.

(** ** Properties *)

(** C4: [sys_free] of memory the caller holds, the pool's lock not being
    contended for, never stops the machine: the memory is no longer held,
    all else is held as before on the same frames, the heap is in order
    and the lock as before.  Freeing NULL stops the machine. *)
Theorem sys_free_correct (st : St) (Ls : gmap Z (list Z)) (p sz : Z)
    (Hok : heap_ok (view inner st) Ls) (Hun : uncontended (heap_pf (view inner st)) st) (Hg : given (view inner st) Ls p sz) :
  (exists s', undisturbed (sys_free p st) = Ok (tt, put inner s' st) /\ given_back (view inner st) Ls p s') /\
  sys_free NULL st = Panic.
Proof.
  split; [|done]. destruct (wpu_outcome _ _ _ _ (sys_free_ok st _ Ls p sz eq_refl Hok Hun Hg)) as [([] & st' & E & s' & -> & H)|[_ []]].
  by exists s'.
Qed.

(** C9: what [sys_malloc] returned can be freed, and afterwards exactly what
    was held before the allocation is held again, the heap in order. *)
Theorem malloc_free_roundtrip (size : Z) (st : St) (s1 : heap_state) (Ls : gmap Z (list Z)) (p : Z)
    (Hok : heap_ok (view inner st) Ls) (Hun : uncontended (heap_pf (view inner st)) st) (Hsize : is_u32 size)
    (Hpool : pool_size (pool_get (heap_pf (view inner st)) (hmem (view inner st))) + 4108 < 0x100000000)
    (Hrun : undisturbed (sys_malloc size st) = Ok (p, put inner s1 st)) (Hp : p <> NULL) :
  exists s2 Ls2, undisturbed (sys_free p (put inner s1 st)) = Ok (tt, put inner s2 st) /\ heap_ok s2 Ls2 /\
    forall q n, given s2 Ls2 q n <-> given (view inner st) Ls q n.
Proof.
  destruct (wpu_outcome _ _ _ _ (sys_malloc_ok size st _ Ls eq_refl Hok Hun ltac:(apply Hsize) (fun _ => Hpool)))
    as [(p' & st' & E & H)|[E _]]; rewrite Hrun in E; [|done].
  injection E as <- <-. destruct H as [(-> & _)|(s1' & Es & H)]; [done|].
  pose proof (f_equal (view inner) Es) as Es'. rewrite !view_put in Es'. subst s1'.
  destruct H as (Ls1 & sz & _ & Hpf & Hok1 & [Hgiv Hnew] & _).
  assert (given s1 Ls1 p sz) as Hg by (apply Hgiv; by right).
  pose proof (uncontended_inner _ _ s1 Hun) as Hstay. rewrite <- Hpf in Hstay.
  destruct (wpu_outcome _ _ _ _ (sys_free_ok (put inner s1 st) s1 Ls1 p sz ltac:(by rewrite view_put) Hok1 Hstay Hg))
    as [([] & st2 & E & s2 & -> & H)|[_ []]].
  rewrite put_put in E. destruct H as (Ls2 & Hok2 & _ & Hback & _). exists s2, Ls2. split; [done|]. split; [done|].
  intros q n. rewrite Hback, Hgiv. split.
  - intros [[H|[-> ->]] Hne]; [done | done].
  - intros H. split; [by left|]. intros ->. by apply (Hnew n).
Qed.
End HeapFreeProofs.

(** *** Concrete instances *)
Lemma sys_free_correct_witness : exists s Ls p sz s', given s Ls p sz /\
  undisturbed (sys_free (St := heap_state) p s) = Ok (tt, s') /\ given_back s Ls p s'.
Proof.
  destruct example_given as (s & Ls & p & sz & p' & sz' & Hok & Hg & _).
  destruct (@sys_free_correct heap_state unlocked s Ls p sz Hok ltac:(exact I) Hg) as [(s' & E & H) _].
  exists s, Ls, p, sz, s'. split; [exact Hg|]. split; [exact E | exact H].
Defined.

(** An allocation in the example's heap. *)
Lemma example_malloc : exists s Ls p s1, heap_ok s Ls /\ hmem s = example_mem /\ heap_pf s = PF_KERNEL /\
  undisturbed (sys_malloc (St := heap_state) 5000 s) = Ok (p, s1) /\ p <> NULL.
Proof.
  destruct example_heap_exists as (s & Ls & Hok & _ & Hm & Hpf).
  destruct (wpu_outcome _ _ _ _ (@sys_malloc_ok heap_state unlocked 5000 s s Ls eq_refl Hok ltac:(exact I) ltac:(lia) ltac:(intros _; rewrite Hm, Hpf; cbn; lia)))
    as [(p & s1 & E & [(_ & _ & [Hsz|Hno])|(s1' & E1 & H)])|[_ Hp]].
  - rewrite Hm, Hpf in Hsz. cbn in Hsz. lia.
  - exfalso. unfold no_pages in Hno. rewrite Hm, Hpf in Hno. apply (Hno 1). change (pages_needed 5000) with 2.
    split; [lia | split; [by cbn|]]. intros j Hj. assert (j = 1 \/ j = 2) as [-> | ->] by lia; done.
  - exists s, Ls, p, s1. repeat (split; [done|]). simpl in E1. subst s1'. destruct H as (Ls' & sz & H & _). exact H.
  - exfalso. rewrite Hm, Hpf in Hp. change (pages_needed 5000) with 2 in Hp.
    destruct Hp as [Hn|[Hall|(va & Hv & [[Hu _]|Hne])]]; [lia | | discriminate Hu |].
    { specialize (Hall 1 ltac:(vm_compute; split; congruence)). discriminate Hall. }
    pose proof (first_run_unique _ _ _ _ Hv example_first_run) as ->. by apply Hne; vm_compute.
Qed.

Lemma malloc_free_roundtrip_witness : exists s Ls p s1 s2 Ls2,
  undisturbed (sys_malloc (St := heap_state) 5000 s) = Ok (p, s1) /\
  undisturbed (sys_free (St := heap_state) p s1) = Ok (tt, s2) /\ forall q n, given s2 Ls2 q n <-> given s Ls q n.
Proof.
  destruct example_malloc as (s & Ls & p & s1 & Hok & Hm & Hpf & E & Hp).
  destruct (@malloc_free_roundtrip heap_state unlocked 5000 s s1 Ls p Hok ltac:(exact I) ltac:(unfold is_u32; lia)
    ltac:(simpl; rewrite Hm, Hpf; cbn; lia) E Hp) as (s2 & Ls2 & E2 & _ & Hg).
  exists s, Ls, p, s1, s2, Ls2. split; [exact E|]. split; [exact E2 | exact Hg].
Defined.
