(* ===== verification/HeapUse.v ===== *)
(** * The heap over its whole life: sequences of calls (kernel/memory.c)

    A user of the heap calls [sys_malloc] and [sys_free] in any order, freeing
    only what it holds.  What it holds at any time are pieces of memory of
    their own. *)
From stdpp Require Import base numbers list gmap fin_maps.
From Stdlib Require Import ZArith Lia.
From S2P Require Import Prelude Globals Interrupt LinkedList Bitmap Paging PageAlloc PageFree Pages Supply Heap HeapInit HeapAlloc HeapFree.

(** ** A heap with a supply of pages *)

(** The request for [size] bytes is covered by the pool and by a supply. *)
Definition covered (s : heap_state) (size n f t : Z) : Prop :=
  let k := pages_needed size in
  size <= pool_size (pool_get (heap_pf s) (hmem s)) /\ supply (heap_pf s) (hmem s) n f t /\
  0 < k < 3840 /\ k <= n /\ k <= f /\ tables k <= t.

Lemma covered_no_panic s Ls size n f t :
  heap_ok s Ls -> covered s size n f t -> ~ malloc_panics (heap_pf s) (hmem s) (pages_needed size).
Proof. intros Hok (_ & Hs & H). apply (supply_no_panic _ _ n f t (ho_mem _ _ Hok) (ho_live _ _ Hok) Hs); lia. Qed.

Lemma covered_run s size n f t : covered s size n f t -> ~ no_pages s (pages_needed size).
Proof. intros (_ & Hs & ?) Hno. destruct (supply_run _ _ _ _ _ Hs (pages_needed size)) as [i Hi]; [lia | by apply (Hno i)]. Qed.

(** Then an allocation can only succeed. *)
Lemma wpu_covered {St} (m : M St Z) st s Ls size n f t (Q : Z -> St -> Prop) :
  heap_ok s Ls -> covered s size n f t ->
  wpu m st (fun p st' => (p = NULL /\ st' = st /\
    (pool_size (pool_get (heap_pf s) (hmem s)) < size \/ no_pages s (pages_needed size))) \/ Q p st')
    (malloc_panics (heap_pf s) (hmem s) (pages_needed size)) -> wpu m st Q False.
Proof.
  intros Hok Hc Hw. pose proof Hc as (Hsz & _). eapply wpu_mono; [exact Hw | |].
  - intros p st' [(_ & _ & [Hlt|Hno])|H]; [lia | by destruct (covered_run _ _ _ _ _ Hc) | done].
  - intros H. by apply (covered_no_panic s Ls size n f t).
Qed.

Lemma takes_supply pf m m' k n f t :
  takes_pages pf m m' k -> 0 < k <= n -> supply pf m n f t -> supply pf m' (n - k) (f - k) (t - tables k).
Proof.
  intros [_ [->|[a G]]] Hk Hs; [|by apply (supply_after _ m _ _ _ Hs m' a k G)].
  apply (supply_less _ _ n f t Hs); [lia | lia |]. unfold tables. Z.div_mod_to_equations. lia.
Qed.

(** ** Sequences of requests *)

(** [Free i]: the [i]-th of the pieces held, the newest first. *)
Inductive request := Malloc (size : Z) | Free (i : nat).

Section HeapUse.
Context {St : Type} `{!PoolLocks St heap_state}.

(** A request of a user who holds the pieces [mine]: their addresses, and the
    sizes asked for. *)
Definition request_step (r : request) (mine : list (Z * Z)) : M St (list (Z * Z)) :=
  match r with
  | Malloc size => p ← sys_malloc size; mret (if p =? NULL then mine else (p, size) :: mine)
  | Free i =>
      match mine !! i with
      | Some (p, _) => sys_free p ;;; mret (delete i mine)
      | None => mret mine
      end
  end.

Fixpoint serve (rs : list request) (mine : list (Z * Z)) : M St (list (Z * Z)) :=
  match rs with
  | [] => mret mine
  | r :: rs' => mine' ← request_step r mine; serve rs' mine'
  end.

(** ** What is held, since the state [s0] *)
Record in_hand (s0 : heap_state) (Ls0 : gmap Z (list Z)) (s : heap_state) (Ls : gmap Z (list Z)) (mine : list (Z * Z)) : Prop := {
  ih_ok : heap_ok s Ls;
  ih_kept : pools_kept s0 s;
  ih_old : forall q n, given s0 Ls0 q n -> given s Ls q n /\ q ∉ mine.*1;
  ih_new : forall q n, given s Ls q n -> given s0 Ls0 q n \/ q ∈ mine.*1;
  ih_mine : forall p size, (p, size) ∈ mine -> exists n, size <= n /\ given s Ls p n;
  ih_distinct : NoDup mine.*1;
  ih_frames : forall q n x, given s0 Ls0 q n -> q <= x < q + n ->
    page_frame (machine (hmem s)) (x - x mod 4096) = page_frame (machine (hmem s0)) (x - x mod 4096);
}.

Lemma in_hand_nil s Ls : heap_ok s Ls -> in_hand s Ls s Ls [].
Proof.
  intros Hok. split; try done.
  - intros q n Hq. split; [done | apply not_elem_of_nil].
  - by left.
  - by intros p size ?%elem_of_nil.
  - apply NoDup_nil_2.
Qed.

Lemma takes_size pf m m' n q : takes_pages pf m m' n -> pool_size (pool_get q m') = pool_size (pool_get q m).
Proof. by intros [_ [->|[a G]]]; [|apply (gp_size _ _ _ _ _ G)]. Qed.

Lemma in_hand_malloc s0 Ls0 s Ls mine size p s' :
  in_hand s0 Ls0 s Ls mine -> malloc_done s Ls size p s' -> exists Ls', in_hand s0 Ls0 s' Ls' ((p, size) :: mine).
Proof.
  intros [I1 [I2 I2'] I3 I4 I5 I6 I7] (Ls' & sz & Hp & Hpf & Hok' & [Hg Hnew] & Hsz & Htakes). exists Ls'.
  assert (forall q n, given s Ls q n -> q <> p) as Hne by (intros q n Hq ->; by apply (Hnew n)).
  split.
  - done.
  - split; [congruence|]. intros q. by rewrite (takes_size _ _ _ _ q Htakes).
  - intros q n Hq. destruct (I3 q n Hq) as [Hq' Hout]. split; [apply Hg; by left|]. simpl. apply not_elem_of_cons.
    split; [by apply (Hne q n) | done].
  - intros q n [Hq|[-> _]]%Hg; [|right; left]. destruct (I4 q n Hq); [by left | by do 2 right].
  - intros q a [[= -> ->]|Hin]%elem_of_cons; [exists sz; split; [lia | apply Hg; by right]|].
    destruct (I5 q a Hin) as (n & Hn & Hq). exists n. split; [done | apply Hg; by left].
  - simpl. apply NoDup_cons. split; [|done]. intros ([q a] & Eq & Hin)%list_elem_of_fmap. simpl in Eq. subst q.
    destruct (I5 p a Hin) as (n & _ & Hq). by apply (Hne p n).
  - intros q n x Hq Hx. rewrite <- (I7 q n x Hq Hx). destruct (I3 q n Hq) as [(a & ar & Ha & Hin) _].
    destruct (given_in_page _ _ _ _ _ _ x I1 Ha Hin Hx) as [_ Hu]. by apply Htakes.
Qed.

Lemma in_hand_free s0 Ls0 s Ls mine i p size s' :
  in_hand s0 Ls0 s Ls mine -> mine !! i = Some (p, size) -> given_back s Ls p s' ->
  exists Ls', in_hand s0 Ls0 s' Ls' (delete i mine).
Proof.
  intros [I1 [I2 I2'] I3 I4 I5 I6 I7] Hi (Ls' & Hok' & [Hpf Hps] & Hg & Hfr). exists Ls'.
  assert (NoDup (delete i mine).*1 /\ forall q, q ∈ (delete i mine).*1 <-> q ∈ mine.*1 /\ q <> p) as [Hnd Hdel].
  { assert (mine.*1 ≡ₚ p :: (delete i mine).*1) as Hperm.
    { change (p :: (delete i mine).*1) with (((p, size) :: delete i mine).*1). apply fmap_Permutation. by apply delete_Permutation. }
    rewrite Hperm in I6. apply NoDup_cons in I6 as [Hnin Hnd]. split; [done|]. intros q. rewrite Hperm, elem_of_cons.
    split; [intros Hq; split; [by right | by intros ->] | by intros [[?|?] ?]]. }
  split.
  - done.
  - split; [congruence|]. intros q. by rewrite Hps.
  - intros q n Hq. destruct (I3 q n Hq) as [Hq' Hout]. split; [|by intros [? _]%Hdel]. apply Hg. split; [done|]. intros ->.
    apply Hout, list_elem_of_fmap. exists (p, size). split; [done|]. by eapply list_elem_of_lookup_2.
  - intros q n [Hq Hne]%Hg. destruct (I4 q n Hq); [by left | right; by apply Hdel].
  - intros q a Hin. assert (q <> p) as Hne by (apply Hdel, list_elem_of_fmap; by exists (q, a)).
    destruct (I5 q a) as (n & Hn & Hq); [|exists n; split; [done | by apply Hg]].
    rewrite (delete_Permutation mine i (p, size) Hi). by right.
  - done.
  - intros q n x Hq Hx. rewrite <- (I7 q n x Hq Hx). destruct (I3 q n Hq) as [Hq' Hout]. apply (Hfr q n x); [|done].
    apply Hg. split; [done|]. intros ->. apply Hout, list_elem_of_fmap. exists (p, size). split; [done|]. by eapply list_elem_of_lookup_2.
Qed.

Section Serve.
Context (st : St) (Ls0 : gmap Z (list Z)).
Let s0 := view inner st.
Hypothesis Hun : uncontended (heap_pf s0) st.
Hypothesis Hpool : pool_size (pool_get (heap_pf s0) (hmem s0)) + 4108 < 0x100000000.

Definition request_ok (r : request) : Prop := match r with Malloc size => is_u32 size | Free _ => True end.

Lemma request_step_ok r mine s Ls :
  request_ok r -> in_hand s0 Ls0 s Ls mine ->
  wpu (request_step r mine) (put inner s st)
    (fun mine' st' => exists s' Ls', st' = put inner s' st /\ in_hand s0 Ls0 s' Ls' mine')
    (exists size, r = Malloc size /\ malloc_panics (heap_pf s) (hmem s) (pages_needed size)).
Proof.
  intros Hr Hi. pose proof (ih_kept _ _ _ _ _ Hi) as [Hpf Hps].
  assert (uncontended (heap_pf s) (put inner s st)) as Hun' by (rewrite Hpf; by apply uncontended_inner).
  assert (s = view inner (put inner s st)) as Es by (by rewrite view_put).
  destruct r as [size|i]; cbn [request_step].
  - apply wpu_bind. eapply wpu_mono; [apply (sys_malloc_ok size (put inner s st) s Ls Es (ih_ok _ _ _ _ _ Hi) Hun') | |].
    + apply Hr.
    + intros _. by rewrite Hps, Hpf.
    + intros p st' [(-> & -> & _)|(s' & -> & Hd)]; apply wpu_ret; [by exists s, Ls|].
      pose proof Hd as (_ & _ & Hp & _). destruct (Z.eqb_spec p NULL); [done|]. rewrite put_put.
      destruct (in_hand_malloc _ _ _ _ _ _ _ _ Hi Hd) as [Ls' Hi']. by exists s', Ls'.
    + intros Hl. by exists size.
  - destruct (mine !! i) as [[p size]|] eqn:E; [|apply wpu_ret; by exists s, Ls].
    destruct (ih_mine _ _ _ _ _ Hi p size) as (n & _ & Hg); [by eapply list_elem_of_lookup_2|].
    apply wpu_bind. eapply wpu_mono; [apply (sys_free_ok (put inner s st) s Ls p n Es (ih_ok _ _ _ _ _ Hi) Hun' Hg) | | done].
    intros [] ? (s' & -> & Hb). apply wpu_ret. rewrite put_put.
    destruct (in_hand_free _ _ _ _ _ _ _ _ _ Hi E Hb) as [Ls' Hi']. by exists s', Ls'.
Qed.

(** The run stops at a request for memory that is not to be had. *)
Definition stops (rs : list request) (mine : list (Z * Z)) (s : heap_state) : Prop := exists rs1 size rs2 mine1 s1,
  rs = rs1 ++ Malloc size :: rs2 /\ undisturbed (serve rs1 mine (put inner s st)) = Ok (mine1, put inner s1 st) /\
  malloc_panics (heap_pf s1) (hmem s1) (pages_needed size).

Lemma serve_ok rs mine s Ls :
  Forall request_ok rs -> in_hand s0 Ls0 s Ls mine ->
  wpu (serve rs mine) (put inner s st)
    (fun mine' st' => exists s' Ls', st' = put inner s' st /\ in_hand s0 Ls0 s' Ls' mine') (stops rs mine s).
Proof.
  revert mine s Ls. induction rs as [|r rs IH]; intros mine s Ls Hrs Hi.
  { apply wpu_ret. by exists s, Ls. }
  apply Forall_cons in Hrs as [Hr Hrs]. cbn [serve].
  destruct (wpu_outcome _ _ _ _ (request_step_ok r mine s Ls Hr Hi)) as [(mine1 & ? & E & s1 & Ls1 & -> & Hi1)|[E Hl]].
  - apply wpu_bind. eapply wpu_eq; [exact E|]. eapply wpu_mono; [by apply (IH mine1 s1 Ls1) | done |].
    intros (rs1 & size & rs2 & mine2 & s2 & -> & E2 & Hl). exists (r :: rs1), size, rs2, mine2, s2.
    split; [done|]. split; [|done]. cbn [serve]. by rewrite (undisturbed_bind _ _ _ _ _ E).
  - apply wpu_bind. unfold wpu at 1. rewrite E. destruct Hl as (size & -> & Hl). by exists [], size, rs, mine, s.
Qed.
End Serve.

(** ** Property *)

(** C5: any sequence of requests, the user freeing only what it holds, ends
    with the heap in order and pieces of memory in the user's hands that are
    at least as large as asked for, lie in pages in use, and overlap neither
    each other nor anything that others held before; and what these held they
    still hold, on the same frames.  The run stops the machine only at a
    request for memory for which, in the state the requests before it led to,
    the pages are not to be had. *)
Theorem heap_runs_safe (st : St) (Ls : gmap Z (list Z)) (rs : list request)
    (Hok : heap_ok (view inner st) Ls) (Hun : uncontended (heap_pf (view inner st)) st)
    (Hpool : pool_size (pool_get (heap_pf (view inner st)) (hmem (view inner st))) + 4108 < 0x100000000)
    (Hrs : Forall request_ok rs) :
  let s := view inner st in
  (exists mine s' Ls', undisturbed (serve rs [] st) = Ok (mine, put inner s' st) /\ heap_ok s' Ls' /\
    (forall i j p a q b, mine !! i = Some (p, a) -> mine !! j = Some (q, b) -> i <> j -> p + a <= q \/ q + b <= p) /\
    (forall p a x, (p, a) ∈ mine -> p <= x < p + a -> page_in_use (heap_pf s) (hmem s') (x - x mod 4096)) /\
    (forall p a q n, (p, a) ∈ mine -> given s Ls q n -> p + a <= q \/ q + n <= p) /\
    (forall q n, given s Ls q n -> given s' Ls' q n /\ forall x, q <= x < q + n ->
      page_frame (machine (hmem s')) (x - x mod 4096) = page_frame (machine (hmem s)) (x - x mod 4096)) /\
    (forall q n, given s' Ls' q n -> given s Ls q n \/ exists a, (q, a) ∈ mine /\ a <= n)) \/
  (undisturbed (serve rs [] st) = Panic /\ exists rs1 size rs2 mine s1,
    rs = rs1 ++ Malloc size :: rs2 /\ undisturbed (serve rs1 [] st) = Ok (mine, put inner s1 st) /\
    malloc_panics (heap_pf s1) (hmem s1) (pages_needed size)).
Proof.
  intros s. pose proof (serve_ok st Ls Hun Hpool rs [] s Ls Hrs (in_hand_nil s Ls Hok)) as Hw.
  unfold stops in Hw. unfold s in Hw. rewrite (put_view inner) in Hw. fold s in Hw.
  destruct (wpu_outcome _ _ _ _ Hw) as [(mine & ? & E & s' & Ls' & -> & [I1 [I2 _] I3 I4 I5 I6 I7])|[E Hl]]; [left | by right].
  exists mine, s', Ls'. split; [exact E|]. split; [exact I1|].
  assert (forall p a q n, (p, a) ∈ mine -> given s' Ls' q n -> p <> q -> p + a <= q \/ q + n <= p) as Happ.
  { intros p a q n Hp Hq Hne. destruct (I5 p a Hp) as (n' & Hn & Hg).
    destruct (given_disjoint s' Ls' p n' q n I1 Hg Hq) as [[[? _]|Hd] _]; [done | lia]. }
  split; [|split; [|split; [|split]]].
  - intros i j p a q b Hi Hj Hne. assert (p <> q) as Hpq.
    { intros ->. apply Hne. apply (NoDup_lookup mine.*1 i j q I6); by rewrite list_lookup_fmap, ?Hi, ?Hj. }
    destruct (I5 q b) as (n & Hn & Hg); [by eapply list_elem_of_lookup_2|].
    destruct (Happ p a q n) as [|]; [by eapply list_elem_of_lookup_2 | done..| |]; lia.
  - intros p a x Hp Hx. destruct (I5 p a Hp) as (n & Hn & Hg). rewrite <- I2.
    apply (given_disjoint s' Ls' p n p n I1 Hg Hg). lia.
  - intros p a q n Hp Hq. destruct (I3 q n Hq) as [Hq' Hout]. apply Happ; [done | done|]. intros ->.
    apply Hout, list_elem_of_fmap. by exists (q, a).
  - intros q n Hq. split; [by apply I3|]. intros x. by apply (I7 q n).
  - intros q n Hq. destruct (I4 q n Hq) as [|([p a] & -> & Hin)%list_elem_of_fmap]; [by left | right].
    exists a. split; [done|]. destruct (I5 p a Hin) as (n' & Hn & Hg). simpl in Hq.
    destruct (given_disjoint s' Ls' p n' p n I1 Hg Hq) as [[[_ <-]|Hd] _]; [done | ].
    destruct (given_range _ _ _ _ I1 Hg) as (_ & _ & _ & Hn' & _), (given_range _ _ _ _ I1 Hq) as (_ & _ & _ & Hn'' & _). lia.
Qed.
End HeapUse.

(** *** Concrete instance: two requests to the heap of [HeapInit] *)
Lemma example_three : supply PF_KERNEL example_mem 3 3 3.
Proof. by apply (supply_less _ _ 30 30 30 example_supply). Qed.

Lemma heap_runs_safe_witness : exists s Ls p q s' Ls', heap_ok s Ls /\ p <> NULL /\ q <> NULL /\
  undisturbed (serve (St := heap_state) [Malloc 100; Malloc 200] [] s) = Ok ([(q, 200); (p, 100)], s') /\
  heap_ok s' Ls' /\ (q + 200 <= p \/ p + 100 <= q).
Proof.
  destruct example_heap_exists as (s & Ls & Hok & _ & Hm & Hpf).
  assert (covered s 100 3 3 3) as C1.
  { split; [rewrite Hpf, Hm; by vm_compute|]. rewrite Hpf, Hm. split; [exact example_three | by vm_compute]. }
  destruct (wpu_outcome _ _ _ _ (wpu_covered _ s s Ls 100 3 3 3 _ Hok C1
    (@sys_malloc_ok heap_state unlocked 100 s s Ls eq_refl Hok ltac:(exact I) ltac:(lia) ltac:(lia))))
    as [(p & ? & E1 & s1 & -> & D1)|[_ []]].
  pose proof D1 as (Ls1 & n1 & Hp & Hpf1 & Hok1 & _ & _ & T1). rewrite Hpf, Hm in T1.
  assert (covered s1 200 2 2 2) as C2.
  { split; [rewrite (takes_size _ _ _ _ _ T1), Hpf1, Hpf; by vm_compute|].
    rewrite Hpf1, Hpf. split; [|by vm_compute].
    exact (takes_supply PF_KERNEL example_mem (hmem s1) 1 3 3 3 T1 ltac:(lia) example_three). }
  destruct (wpu_outcome _ _ _ _ (wpu_covered _ s1 s1 Ls1 200 2 2 2 _ Hok1 C2
    (@sys_malloc_ok heap_state unlocked 200 s1 s1 Ls1 eq_refl Hok1 ltac:(exact I) ltac:(lia) ltac:(lia))))
    as [(q & ? & E2 & s2 & -> & D2)|[_ []]].
  pose proof D2 as (Ls2 & n2 & Hq & _).
  assert (undisturbed (serve (St := heap_state) [Malloc 100; Malloc 200] [] s) = Ok ([(q, 200); (p, 100)], s2)) as E.
  { cbn [serve request_step]. erewrite undisturbed_bind; [|erewrite undisturbed_bind by exact E1; reflexivity].
    destruct (Z.eqb_spec p NULL); [done|]. erewrite undisturbed_bind; [|erewrite undisturbed_bind by exact E2; reflexivity].
    by destruct (Z.eqb_spec q NULL). }
  destruct (@heap_runs_safe heap_state unlocked s Ls [Malloc 100; Malloc 200] Hok ltac:(exact I)
    ltac:(simpl; rewrite Hm, Hpf; by vm_compute) ltac:(by repeat constructor))
    as [(mine & s' & Ls' & Er & Hok' & Hapart & _)|[Er _]]; [|rewrite E in Er; discriminate Er].
  rewrite E in Er. injection Er as <- <-. exists s, Ls, p, q, s2, Ls'. do 3 (split; [done|]). split; [exact E|].
  split; [exact Hok'|]. exact (Hapart 0%nat 1%nat q 200 p 100 eq_refl eq_refl ltac:(done)).
Defined.
