(* ===== verification/CString.v ===== *)
(** * Byte and string functions: lib/string.c

    Memory is a finite map from addresses to bytes; an access outside it is a
    fault.  A [char] is signed, as the compiler of the kernel has it: it is
    read as [s8] of the byte.  The [while] loops over strings get as fuel one
    more than the number of mapped bytes, which no run can use up, since every
    round reads a mapped byte at the next address. *)
From stdpp Require Import base numbers list gmap fin_maps.
From Stdlib Require Import ZArith Lia.
From S2P Require Import Prelude Globals.

Notation mem := (gmap Z Z).

Definition load8 (p : Z) : M mem Z := fun m =>
  match m !! p with Some b => Ok (b, m) | None => Fault end.

Definition store8 (p v : Z) : M mem unit := fun m =>
  match m !! p with Some _ => Ok (tt, <[p := u8 v]> m) | None => Fault end.

Definition load_char (p : Z) : M mem Z := b ← load8 p; mret (s8 b).

(** ** The code *)
Definition memset (dst value size : Z) : M mem unit :=
  ASSERT (negb (dst =? NULL)) ;;;
  for_loop (Z.to_nat size) 0 (fun i => store8 (dst + i) value).

Definition memcpy (dst src size : Z) : M mem unit :=
  ASSERT (negb (dst =? NULL) && negb (src =? NULL)) ;;;
  for_loop (Z.to_nat size) 0 (fun i => b ← load8 (src + i); store8 (dst + i) b).

Fixpoint memcmp_loop (size : nat) (a b : Z) : M mem Z :=
  match size with
  | O => mret 0
  | S size' =>
      x ← load_char a;
      y ← load_char b;
      if y <? x then mret 1
      else if x <? y then mret (-1)
      else memcmp_loop size' (a + 1) (b + 1)
  end.

Definition memcmp (a b size : Z) : M mem Z :=
  ASSERT (negb (a =? NULL) && negb (b =? NULL)) ;;;
  memcmp_loop (Z.to_nat size) a b.

(** The fuel of the string loops. *)
Definition with_fuel {A} (loop : nat -> M mem A) : M mem A :=
  m ← get; loop (S (size m)).

Fixpoint strcpy_loop (fuel : nat) (dst src : Z) : M mem unit :=
  match fuel with
  | O => nofuel
  | S fuel' =>
      c ← load_char src;
      if c =? 0 then mret tt
      else store8 dst c ;;; strcpy_loop fuel' (dst + 1) (src + 1)
  end.

Definition strcpy (dst src : Z) : M mem Z :=
  ASSERT (negb (dst =? NULL) && negb (src =? NULL)) ;;;
  with_fuel (fun fuel => strcpy_loop fuel dst src) ;;;
  mret dst.

(** [while ( *p++ );]: the value of [p] it leaves. *)
Fixpoint strlen_loop (fuel : nat) (p : Z) : M mem Z :=
  match fuel with
  | O => nofuel
  | S fuel' =>
      c ← load_char p;
      if c =? 0 then mret (p + 1) else strlen_loop fuel' (p + 1)
  end.

Definition strlen (str : Z) : M mem Z :=
  ASSERT (negb (str =? NULL)) ;;;
  p ← with_fuel (fun fuel => strlen_loop fuel str);
  mret (u32 (p - str - 1)).

Fixpoint strcmp_loop (fuel : nat) (a b : Z) : M mem (Z * Z) :=
  match fuel with
  | O => nofuel
  | S fuel' =>
      if negb (a =? 0) then
        x ← load_char a;
        y ← load_char b;
        if x =? y then strcmp_loop fuel' (a + 1) (b + 1) else mret (a, b)
      else mret (a, b)
  end.

Definition strcmp (a b : Z) : M mem Z :=
  ASSERT (negb (a =? NULL) && negb (b =? NULL)) ;;;
  r ← with_fuel (fun fuel => strcmp_loop fuel a b);
  x ← load_char (fst r);
  y ← load_char (snd r);
  mret (if x <? y then -1 else if y <? x then 1 else 0).

Fixpoint strchr_loop (fuel : nat) (str ch : Z) : M mem Z :=
  match fuel with
  | O => nofuel
  | S fuel' =>
      c ← load_char str;
      if c =? 0 then mret NULL
      else if c =? ch then mret str
      else strchr_loop fuel' (str + 1) ch
  end.

Definition strchr (str ch : Z) : M mem Z :=
  ASSERT (negb (str =? NULL)) ;;;
  with_fuel (fun fuel => strchr_loop fuel str ch).

Fixpoint strrchr_loop (fuel : nat) (str ch last_appear : Z) : M mem Z :=
  match fuel with
  | O => nofuel
  | S fuel' =>
      c ← load_char str;
      if c =? 0 then mret last_appear
      else strrchr_loop fuel' (str + 1) ch (if c =? ch then str else last_appear)
  end.

Definition strrchr (str ch : Z) : M mem Z :=
  ASSERT (negb (str =? NULL)) ;;;
  with_fuel (fun fuel => strrchr_loop fuel str ch NULL).

(** [while ( *dst_ != 0 ) dst_++;] *)
Fixpoint find_end (fuel : nat) (p : Z) : M mem Z :=
  match fuel with
  | O => nofuel
  | S fuel' =>
      c ← load_char p;
      if c =? 0 then mret p else find_end fuel' (p + 1)
  end.

(** The copying loop of [strcat]: the value of [dst] it leaves. *)
Fixpoint strcat_loop (fuel : nat) (dst src : Z) : M mem Z :=
  match fuel with
  | O => nofuel
  | S fuel' =>
      c ← load_char src;
      if c =? 0 then mret dst
      else store8 dst c ;;; strcat_loop fuel' (dst + 1) (src + 1)
  end.

Definition strcat (dst src : Z) : M mem Z :=
  ASSERT (negb (dst =? NULL) && negb (src =? NULL)) ;;;
  dst ← with_fuel (fun fuel => find_end fuel dst);
  d ← with_fuel (fun fuel => strcat_loop fuel dst src);
  store8 d 0 ;;;
  mret dst.

Fixpoint strchrs_loop (fuel : nat) (p ch cnt : Z) : M mem Z :=
  match fuel with
  | O => nofuel
  | S fuel' =>
      c ← load_char p;
      if c =? 0 then mret cnt
      else strchrs_loop fuel' (p + 1) ch (if c =? ch then u32 (cnt + 1) else cnt)
  end.

Definition strchrs (str ch : Z) : M mem Z :=
  ASSERT (negb (str =? NULL)) ;;;
  with_fuel (fun fuel => strchrs_loop fuel str ch 0).

(** ** Specification *)

(** The bytes [bs] lie at [p]. *)
Fixpoint bytes_at (m : mem) (p : Z) (bs : list Z) : Prop :=
  match bs with
  | [] => True
  | b :: bs' => m !! p = Some b /\ bytes_at m (p + 1) bs'
  end.

Definition is_char (c : Z) : Prop := is_u8 c /\ c <> 0.

(** The C string [s] lies at [p]. *)
Definition cstring (m : mem) (p : Z) (s : list Z) : Prop :=
  bytes_at m p (s ++ [0]) /\ Forall is_char s.

Definition mapped (m : mem) (p n : Z) : Prop := forall a, p <= a < p + n -> is_Some (m !! a).

(** Memory with [bs] written at [p]. *)
Fixpoint write (m : mem) (p : Z) (bs : list Z) : mem :=
  match bs with
  | [] => m
  | b :: bs' => write (<[p := b]> m) (p + 1) bs'
  end.

Definition apart (p n q k : Z) : Prop := p + n <= q \/ q + k <= p.

Definition zlen {A} (l : list A) : Z := Z.of_nat (length l).

Lemma zlen_cons {A} (x : A) l : zlen (x :: l) = zlen l + 1.
Proof. unfold zlen. simpl. lia. Qed.

Lemma zlen_nonneg {A} (l : list A) : 0 <= zlen l.
Proof. unfold zlen. lia. Qed.

Lemma zlen_app {A} (l k : list A) : zlen (l ++ k) = zlen l + zlen k.
Proof. unfold zlen. rewrite length_app. lia. Qed.

Lemma bytes_at_app m p l k :
  bytes_at m p (l ++ k) <-> bytes_at m p l /\ bytes_at m (p + zlen l) k.
Proof.
  revert p. induction l as [|b l IH]; intros p; simpl.
  - unfold zlen. simpl. rewrite Z.add_0_r. tauto.
  - rewrite IH, zlen_cons. replace (p + 1 + zlen l) with (p + (zlen l + 1)) by lia. tauto.
Qed.

Lemma bytes_at_ext m m' p bs :
  (forall a, p <= a < p + zlen bs -> m' !! a = m !! a) -> bytes_at m p bs -> bytes_at m' p bs.
Proof.
  revert p. induction bs as [|b bs IH]; intros p Hext; simpl; [done|]. rewrite zlen_cons in Hext.
  pose proof (zlen_nonneg bs). intros [Hb Hbs]. split; [by rewrite Hext by lia|].
  apply IH; [|done]. intros a Ha. apply Hext. lia.
Qed.

Lemma bytes_at_insert m p bs a v :
  ~ p <= a < p + zlen bs -> bytes_at m p bs -> bytes_at (<[a := v]> m) p bs.
Proof. intros Ha. apply bytes_at_ext. intros a' Ha'. apply lookup_insert_ne. lia. Qed.

Lemma bytes_at_mapped m p bs : bytes_at m p bs -> mapped m p (zlen bs).
Proof.
  revert p. induction bs as [|b bs IH]; intros p; simpl.
  - intros _ a Ha. unfold zlen in Ha. simpl in Ha. lia.
  - intros [Hb Hbs] a Ha. rewrite zlen_cons in Ha. destruct (Z.eq_dec a p) as [->|]; [by exists b|].
    apply (IH (p + 1) Hbs). lia.
Qed.

Lemma lookup_write m p bs a :
  write m p bs !! a =
  if (p <=? a) && (a <? p + zlen bs) then bs !! Z.to_nat (a - p) else m !! a.
Proof.
  revert m p. induction bs as [|b bs IH]; intros m p; simpl.
  - change (zlen (@nil Z)) with 0. by destruct (Z.leb_spec p a), (Z.ltb_spec a (p + 0)); simpl; try lia.
  - rewrite IH, zlen_cons. pose proof (zlen_nonneg bs).
    destruct (Z.eq_dec a p) as [->|Hne].
    + rewrite (proj2 (Z.leb_gt (p + 1) p)), Z.leb_refl, (proj2 (Z.ltb_lt p (p + (zlen bs + 1)))) by lia.
      cbn [andb]. rewrite Z.sub_diag. apply lookup_insert_eq.
    + rewrite lookup_insert_ne by done.
      destruct (Z.leb_spec (p + 1) a), (Z.leb_spec p a), (Z.ltb_spec a (p + 1 + zlen bs)),
        (Z.ltb_spec a (p + (zlen bs + 1))); simpl; try lia; try done.
      replace (Z.to_nat (a - p)) with (S (Z.to_nat (a - (p + 1)))) by lia. done.
Qed.

Lemma write_outside m p bs a : ~ p <= a < p + zlen bs -> write m p bs !! a = m !! a.
Proof.
  intros Ha. rewrite lookup_write. by destruct (Z.leb_spec p a), (Z.ltb_spec a (p + zlen bs)); simpl; try lia.
Qed.

Lemma bytes_at_write_eq m p bs : bytes_at (write m p bs) p bs.
Proof.
  revert m p. induction bs as [|b bs IH]; intros m p; simpl; [done|]. split; [|apply IH].
  rewrite write_outside by lia. by rewrite lookup_insert_eq.
Qed.

Lemma bytes_at_write m p bs q l :
  apart p (zlen bs) q (zlen l) -> bytes_at m q l -> bytes_at (write m p bs) q l.
Proof. intros Hd. apply bytes_at_ext. intros a Ha. apply write_outside. unfold apart in Hd. lia. Qed.

Lemma mapped_insert m p n a v : mapped m p n -> mapped (<[a := v]> m) p n.
Proof. intros Hm b Hb. destruct (Z.eq_dec a b) as [->|]; [by rewrite lookup_insert_eq|]. rewrite lookup_insert_ne by done. by apply Hm. Qed.

Lemma mapped_write m q bs p n : mapped m p n -> mapped (write m q bs) p n.
Proof.
  revert m q. induction bs as [|b bs IH]; intros m q Hm; simpl; [done|]. by apply IH, mapped_insert.
Qed.

Lemma mapped_write_at m q bs p n a : mapped m p n -> p <= a < p + n -> is_Some (write m q bs !! a).
Proof. intros Hm Ha. by apply (mapped_write m q bs p n Hm). Qed.

Lemma mapped_sub m p n q k : mapped m p n -> p <= q -> q + k <= p + n -> mapped m q k.
Proof. intros Hm H1 H2 a Ha. apply Hm. lia. Qed.

(** A string fits the mapped memory, so the loops' fuel is enough. *)
Lemma mapped_size m p n : mapped m p n -> 0 <= n -> (Z.to_nat n <= size m)%nat.
Proof.
  intros Hm Hn. replace (Z.to_nat n) with (length (seqZ p n)) by apply length_seqZ.
  rewrite <- (size_dom m).
  rewrite <- (size_list_to_set (C := gset Z) (seqZ p n)) by apply NoDup_seqZ.
  apply subseteq_size. intros a Ha. apply elem_of_list_to_set, elem_of_seqZ in Ha.
  apply elem_of_dom. apply Hm. lia.
Qed.

Lemma cstring_size m p s : cstring m p s -> (length s < size m)%nat.
Proof.
  intros [Hb _]. apply bytes_at_mapped, mapped_size in Hb; [|apply zlen_nonneg].
  rewrite zlen_app in Hb. unfold zlen in Hb. simpl in Hb. lia.
Qed.

Lemma s8_u8_inj a b : is_u8 a -> is_u8 b -> s8 a = s8 b -> a = b.
Proof.
  unfold is_u8, s8. intros Ha Hb Heq.
  pose proof (Z.div_mod (a + 0x80) 0x100 ltac:(lia)). pose proof (Z.div_mod (b + 0x80) 0x100 ltac:(lia)).
  assert ((a + 0x80) / 0x100 < 2) by (apply Z.div_lt_upper_bound; lia).
  assert ((b + 0x80) / 0x100 < 2) by (apply Z.div_lt_upper_bound; lia).
  assert (0 <= (a + 0x80) / 0x100) by (apply Z.div_pos; lia).
  assert (0 <= (b + 0x80) / 0x100) by (apply Z.div_pos; lia). lia.
Qed.

Lemma s8_zero : s8 0 = 0.
Proof. done. Qed.

Lemma s8_char_nonzero c : is_char c -> (s8 c =? 0) = false.
Proof.
  intros [Hc Hn]. apply Z.eqb_neq. intros E. apply Hn. apply s8_u8_inj; [done | unfold is_u8; lia | done].
Qed.

Lemma u8_s8 c : is_u8 c -> u8 (s8 c) = c.
Proof.
  unfold is_u8, u8, s8. intros Hc. rewrite Zminus_mod_idemp_l.
  replace (c + 0x80 - 0x80) with c by lia. apply Z.mod_small. done.
Qed.

(** The byte [c] read as a [char] equals the [uint8_t] [ch] exactly when they
    are the same byte below 0x80. *)
Lemma s8_eqb_u8 c ch : is_u8 c -> is_u8 ch -> (s8 c =? ch) = (c =? ch) && (ch <? 0x80).
Proof.
  unfold is_u8, s8. intros Hc Hch. destruct (Z.lt_ge_cases c 0x80).
  - rewrite Z.mod_small by lia. replace (c + 128 - 128) with c by lia.
    by destruct (Z.eqb_spec c ch), (Z.ltb_spec ch 128); simpl; try lia.
  - rewrite <- (Z_mod_plus_full _ (-1)), Z.mod_small by lia.
    by destruct (Z.eqb_spec (c + 128 + -1 * 256 - 128) ch), (Z.eqb_spec c ch), (Z.ltb_spec ch 128); simpl; try lia.
Qed.

(** ** Memory blocks *)
Lemma write_snoc m p l x : write m p (l ++ [x]) = <[p + zlen l := x]> (write m p l).
Proof.
  revert m p. induction l as [|b l IH]; intros m p; simpl.
  - unfold zlen. simpl. by rewrite Z.add_0_r.
  - rewrite IH, zlen_cons. by replace (p + 1 + zlen l) with (p + (zlen l + 1)) by lia.
Qed.

Lemma load8_ok m p b : m !! p = Some b -> load8 p m = Ok (b, m).
Proof. unfold load8. by intros ->. Qed.

Lemma load_char_ok m p b : m !! p = Some b -> load_char p m = Ok (s8 b, m).
Proof. intros Hb. unfold load_char. by rewrite (bind_ok _ _ _ _ _ (load8_ok _ _ _ Hb)). Qed.

Lemma store8_ok m p v : is_Some (m !! p) -> store8 p v m = Ok (tt, <[p := u8 v]> m).
Proof. intros [b Hb]. unfold store8. by rewrite Hb. Qed.

Lemma nonnull_eqb p : p <> NULL -> negb (p =? NULL) = true.
Proof. intros Hp. by destruct (Z.eqb_spec p NULL). Qed.

Lemma memset_ok m dst value n :
  dst <> NULL -> is_u8 value -> mapped m dst (Z.of_nat n) ->
  memset dst value (Z.of_nat n) m = Ok (tt, write m dst (replicate n value)).
Proof.
  intros Hd Hv Hm.
  cut (wp (memset dst value (Z.of_nat n)) m (fun _ m' => m' = write m dst (replicate n value))).
  { intros W. by apply wp_ok_inv in W as ([] & m' & -> & ->). }
  unfold memset. apply wp_bind, wp_ASSERT; [by apply nonnull_eqb|]. rewrite Nat2Z.id.
  apply (wp_for_loop _ _ _ _ (fun i m' => m' = write m dst (replicate (Z.to_nat i) value))).
  - done.
  - intros i m' Hi ->. eapply wp_ok; [apply store8_ok; eapply mapped_write_at; [exact Hm | lia]|].
    replace (Z.to_nat (i + 1)) with (Z.to_nat i + 1)%nat by lia.
    rewrite replicate_add. simpl. rewrite write_snoc, u8_id by done.
    unfold zlen. rewrite length_replicate. by rewrite Z2Nat.id by lia.
  - intros m' ->. by replace (Z.to_nat (0 + Z.of_nat n)) with n by lia.
Qed.

Lemma bytes_at_lookup m p bs i b : bytes_at m p bs -> bs !! i = Some b -> m !! (p + Z.of_nat i) = Some b.
Proof.
  revert p i. induction bs as [|c bs IH]; intros p i; simpl; [done|]. intros [Hc Hbs].
  destruct i as [|i]; simpl.
  - intros [= <-]. by rewrite Z.add_0_r.
  - intros Hb. rewrite <- (IH (p + 1) i Hbs Hb). f_equal. lia.
Qed.

Lemma memcpy_ok m dst src bs :
  dst <> NULL -> src <> NULL -> Forall is_u8 bs -> bytes_at m src bs -> mapped m dst (zlen bs) ->
  dst <= src \/ src + zlen bs <= dst ->
  memcpy dst src (zlen bs) m = Ok (tt, write m dst bs).
Proof.
  intros Hd Hs Hu Hb Hm Hov.
  cut (wp (memcpy dst src (zlen bs)) m (fun _ m' => m' = write m dst bs)).
  { intros W. by apply wp_ok_inv in W as ([] & m' & -> & ->). }
  unfold memcpy. apply wp_bind, wp_ASSERT; [by rewrite !nonnull_eqb|].
  unfold zlen in *. rewrite Nat2Z.id.
  apply (wp_for_loop _ _ _ _ (fun i m' => m' = write m dst (take (Z.to_nat i) bs))).
  - done.
  - intros i m' Hi ->. destruct (lookup_lt_is_Some_2 bs (Z.to_nat i)) as [b Hbi]; [lia|].
    apply wp_bind. eapply wp_ok.
    { apply load8_ok. rewrite write_outside.
      - rewrite <- (bytes_at_lookup m src bs (Z.to_nat i) b Hb Hbi). f_equal. lia.
      - unfold zlen. rewrite length_take. lia. }
    eapply wp_ok; [apply store8_ok; eapply mapped_write_at; [exact Hm | lia]|].
    replace (Z.to_nat (i + 1)) with (S (Z.to_nat i)) by lia.
    rewrite (take_S_r _ _ b), write_snoc by done. rewrite u8_id by (by eapply Forall_lookup_1 in Hu).
    unfold zlen. rewrite length_take. by replace (Z.of_nat (Z.to_nat i `min` length bs)) with i by lia.
  - intros m' ->. by rewrite take_ge by lia.
Qed.

(** The comparison both [memcmp] and [strcmp] make: the first difference
    decides, as signed characters. *)
Fixpoint cmp_chars (l k : list Z) : Z :=
  match l, k with
  | x :: l', y :: k' =>
      if s8 y <? s8 x then 1 else if s8 x <? s8 y then -1 else cmp_chars l' k'
  | _, _ => 0
  end.

Lemma cmp_chars_refl l : cmp_chars l l = 0.
Proof. induction l as [|x l IH]; simpl; [done|]. by rewrite Z.ltb_irrefl. Qed.

Lemma cmp_chars_eq l k :
  Forall is_u8 l -> Forall is_u8 k -> length l = length k -> cmp_chars l k = 0 -> l = k.
Proof.
  revert k. induction l as [|x l IH]; intros [|y k]; simpl; try done.
  intros Hl%Forall_cons Hk%Forall_cons Hlen.
  destruct (Z.ltb_spec (s8 y) (s8 x)); [done|]. destruct (Z.ltb_spec (s8 x) (s8 y)); [done|].
  intros Hc. f_equal; [apply s8_u8_inj; [naive_solver.. | lia] | apply IH; [naive_solver.. | lia | done]].
Qed.

Lemma memcmp_loop_ok m a b l k :
  length l = length k -> bytes_at m a l -> bytes_at m b k ->
  memcmp_loop (length l) a b m = Ok (cmp_chars l k, m).
Proof.
  revert a b k. induction l as [|x l IH]; intros a b [|y k]; simpl; try done.
  intros Hlen [Hx Hl] [Hy Hk]. rewrite (bind_ok _ _ _ _ _ (load_char_ok m a x Hx)).
  rewrite (bind_ok _ _ _ _ _ (load_char_ok m b y Hy)).
  destruct (s8 y <? s8 x); [done|]. destruct (s8 x <? s8 y); [done|]. apply IH; [lia | done | done].
Qed.

(** ** String loops *)
Lemma char_read m p c s k :
  is_char c -> bytes_at m p ((c :: s) ++ k) ->
  load_char p m = Ok (s8 c, m) /\ (s8 c =? 0) = false /\ bytes_at m (p + 1) (s ++ k).
Proof.
  intros Hc [Hb Hs]. split; [by apply load_char_ok|]. split; [by apply s8_char_nonzero | done].
Qed.

Lemma end_read m p : bytes_at m p ([] ++ [0]) -> load_char p m = Ok (0, m).
Proof. intros [Hb _]. by apply (load_char_ok m p 0). Qed.

Lemma strlen_loop_ok m fuel p s :
  (length s < fuel)%nat -> cstring m p s -> strlen_loop fuel p m = Ok (p + zlen s + 1, m).
Proof.
  revert p s. induction fuel as [|fuel IH]; intros p s Hf [Hb Hc]; [lia|]. simpl.
  destruct s as [|c s].
  - rewrite (bind_ok _ _ _ _ _ (end_read m p Hb)). simpl. unfold zlen. simpl. by rewrite Z.add_0_r.
  - apply Forall_cons in Hc as [Hc Hs]. destruct (char_read m p c s _ Hc Hb) as (E & Hn & Hb').
    rewrite (bind_ok _ _ _ _ _ E), Hn. simpl in Hf. rewrite (IH (p + 1) s) by (lia || done).
    rewrite zlen_cons. do 2 f_equal. lia.
Qed.

Lemma find_end_ok m fuel p s :
  (length s < fuel)%nat -> cstring m p s -> find_end fuel p m = Ok (p + zlen s, m).
Proof.
  revert p s. induction fuel as [|fuel IH]; intros p s Hf [Hb Hc]; [lia|]. simpl.
  destruct s as [|c s].
  - rewrite (bind_ok _ _ _ _ _ (end_read m p Hb)). simpl. unfold zlen. simpl. by rewrite Z.add_0_r.
  - apply Forall_cons in Hc as [Hc Hs]. destruct (char_read m p c s _ Hc Hb) as (E & Hn & Hb').
    rewrite (bind_ok _ _ _ _ _ E), Hn. simpl in Hf. rewrite (IH (p + 1) s) by (lia || done).
    rewrite zlen_cons. do 2 f_equal. lia.
Qed.

Lemma copy_loop_state m dst src c s :
  is_char c -> bytes_at m src ((c :: s) ++ [0]) -> mapped m dst (zlen (c :: s)) ->
  apart dst (zlen (c :: s)) src (zlen (c :: s) + 1) ->
  let m' := <[dst := c]> m in
  store8 dst (s8 c) m = Ok (tt, m') /\ bytes_at m' (src + 1) (s ++ [0]) /\
  mapped m' (dst + 1) (zlen s) /\ apart (dst + 1) (zlen s) (src + 1) (zlen s + 1).
Proof.
  intros [Hu Hn] [Hb Hs] Hm Ha m'. rewrite zlen_cons in *. pose proof (zlen_nonneg s). unfold apart in *.
  split; [|split; [|split]].
  - rewrite store8_ok by (apply Hm; lia). by rewrite u8_s8.
  - apply bytes_at_insert; [|done]. rewrite zlen_app. unfold zlen at 2. simpl. lia.
  - apply mapped_insert. intros a Ha'. apply Hm. lia.
  - lia.
Qed.

Lemma strcpy_loop_ok m fuel dst src s :
  (length s < fuel)%nat -> cstring m src s -> mapped m dst (zlen s) ->
  apart dst (zlen s) src (zlen s + 1) ->
  strcpy_loop fuel dst src m = Ok (tt, write m dst s).
Proof.
  revert m dst src s. induction fuel as [|fuel IH]; intros m dst src s Hf [Hb Hc] Hm Ha; [lia|]. simpl.
  destruct s as [|c s]; [by rewrite (bind_ok _ _ _ _ _ (end_read m src Hb))|].
  apply Forall_cons in Hc as [Hc Hs]. destruct (char_read m src c s _ Hc Hb) as (E & Hn & _).
  rewrite (bind_ok _ _ _ _ _ E), Hn. simpl in Hf.
  destruct (copy_loop_state m dst src c s Hc Hb Hm Ha) as (Est & Hb' & Hm' & Ha').
  rewrite (bind_ok _ _ _ _ _ Est). by rewrite (IH _ (dst + 1) (src + 1) s); [|lia|split| |].
Qed.

Lemma strcat_loop_ok m fuel dst src s :
  (length s < fuel)%nat -> cstring m src s -> mapped m dst (zlen s) ->
  apart dst (zlen s) src (zlen s + 1) ->
  strcat_loop fuel dst src m = Ok (dst + zlen s, write m dst s).
Proof.
  revert m dst src s. induction fuel as [|fuel IH]; intros m dst src s Hf [Hb Hc] Hm Ha; [lia|]. simpl.
  destruct s as [|c s].
  { rewrite (bind_ok _ _ _ _ _ (end_read m src Hb)). simpl. unfold zlen. simpl. by rewrite Z.add_0_r. }
  apply Forall_cons in Hc as [Hc Hs]. destruct (char_read m src c s _ Hc Hb) as (E & Hn & _).
  rewrite (bind_ok _ _ _ _ _ E), Hn. simpl in Hf.
  destruct (copy_loop_state m dst src c s Hc Hb Hm Ha) as (Est & Hb' & Hm' & Ha').
  rewrite (bind_ok _ _ _ _ _ Est). rewrite (IH _ (dst + 1) (src + 1) s); [|lia|by split|done|done].
  rewrite zlen_cons. simpl write. by replace (dst + 1 + zlen s) with (dst + (zlen s + 1)) by lia.
Qed.

Lemma with_fuel_ok {A} (loop : nat -> M mem A) m : with_fuel loop m = loop (S (size m)) m.
Proof. done. Qed.

Lemma assert_two {A} (p q : Z) (k : M mem A) m :
  p <> NULL -> q <> NULL -> (ASSERT (negb (p =? NULL) && negb (q =? NULL)) ;;; k) m = k m.
Proof. intros Hp Hq. by rewrite !nonnull_eqb. Qed.

Lemma assert_one {A} (p : Z) (k : M mem A) m : p <> NULL -> (ASSERT (negb (p =? NULL)) ;;; k) m = k m.
Proof. intros Hp. by rewrite nonnull_eqb. Qed.

Lemma strcpy_ok m dst src s :
  dst <> NULL -> src <> NULL -> cstring m src s -> mapped m dst (zlen s) ->
  apart dst (zlen s) src (zlen s + 1) -> strcpy dst src m = Ok (dst, write m dst s).
Proof.
  intros Hd Hsr Hs Hm Ha. unfold strcpy. rewrite assert_two by done.
  pose proof (cstring_size m src s Hs).
  erewrite bind_ok; [|rewrite with_fuel_ok; apply strcpy_loop_ok; [|exact Hs|exact Hm|exact Ha]; lia]. done.
Qed.

Lemma strlen_ok m str s :
  str <> NULL -> cstring m str s -> zlen s < 0x100000000 -> strlen str m = Ok (zlen s, m).
Proof.
  intros Hn Hs Hl. unfold strlen. rewrite assert_one by done. pose proof (cstring_size m str s Hs).
  erewrite bind_ok; [|rewrite with_fuel_ok; apply strlen_loop_ok; [|exact Hs]; lia].
  unfold mret, M_ret. do 2 f_equal. replace (str + zlen s + 1 - str - 1) with (zlen s) by lia.
  apply u32_id. pose proof (zlen_nonneg s). unfold is_u32. lia.
Qed.

Lemma strcat_ok m dst src d s :
  dst <> NULL -> src <> NULL -> cstring m dst d -> cstring m src s ->
  mapped m (dst + zlen d) (zlen s + 1) -> apart (dst + zlen d) (zlen s + 1) src (zlen s + 1) ->
  strcat dst src m = Ok (dst + zlen d, write m (dst + zlen d) (s ++ [0])).
Proof.
  intros Hd Hsr Hdst Hs Hm Ha. unfold strcat. rewrite assert_two by done.
  pose proof (cstring_size m src s Hs). pose proof (cstring_size m dst d Hdst). pose proof (zlen_nonneg s).
  erewrite bind_ok; [|rewrite with_fuel_ok; apply find_end_ok; [|exact Hdst]; lia].
  erewrite bind_ok; [|rewrite with_fuel_ok; apply strcat_loop_ok; [|exact Hs| |]].
  - erewrite bind_ok; [|apply store8_ok; eapply mapped_write_at; [exact Hm | lia]]. rewrite write_snoc. done.
  - lia.
  - apply (mapped_sub m (dst + zlen d) (zlen s + 1)); [done | lia | lia].
  - unfold apart in *. lia.
Qed.

(** ** Searching *)
Fixpoint index_of (ch : Z) (s : list Z) : option Z :=
  match s with
  | [] => None
  | c :: s' => if c =? ch then Some 0 else Z.succ <$> index_of ch s'
  end.

Fixpoint last_index_of (ch : Z) (s : list Z) : option Z :=
  match s with
  | [] => None
  | c :: s' => match last_index_of ch s' with
    | Some i => Some (i + 1)
    | None => if c =? ch then Some 0 else None
    end
  end.

Fixpoint count_of (ch : Z) (s : list Z) : Z :=
  match s with
  | [] => 0
  | c :: s' => (if c =? ch then 1 else 0) + count_of ch s'
  end.

(** The address of an index, or NULL. *)
Definition at_index (p : Z) (o : option Z) : Z := match o with Some i => p + i | None => NULL end.

(** A character constant of the sign the comparison can match. *)
Definition matchable (ch : Z) : bool := ch <? 0x80.

Lemma is_char_u8 c : is_char c -> is_u8 c.
Proof. by intros [? _]. Qed.

Lemma strchr_loop_ok m fuel p s ch :
  is_u8 ch -> (length s < fuel)%nat -> cstring m p s ->
  strchr_loop fuel p ch m = Ok (if matchable ch then at_index p (index_of ch s) else NULL, m).
Proof.
  intros Hch. revert p s. induction fuel as [|fuel IH]; intros p s Hf [Hb Hc]; [lia|]. simpl.
  destruct s as [|c s].
  { rewrite (bind_ok _ _ _ _ _ (end_read m p Hb)). by destruct (matchable ch). }
  apply Forall_cons in Hc as [Hc Hs]. destruct (char_read m p c s _ Hc Hb) as (E & Hn & Hb').
  rewrite (bind_ok _ _ _ _ _ E), Hn, s8_eqb_u8 by (done || by apply is_char_u8). simpl in Hf.
  fold (matchable ch). specialize (IH (p + 1) s ltac:(lia) (conj Hb' Hs)). simpl.
  destruct (c =? ch), (matchable ch); simpl; rewrite ?IH; unfold mret, M_ret, at_index; try done.
  - by rewrite Z.add_0_r.
  - destruct (index_of ch s); simpl; [|done]. do 2 f_equal. lia.
Qed.

Lemma strrchr_loop_ok m fuel p s ch last :
  is_u8 ch -> (length s < fuel)%nat -> cstring m p s ->
  strrchr_loop fuel p ch last m =
  Ok (if matchable ch then match last_index_of ch s with Some i => p + i | None => last end else last, m).
Proof.
  intros Hch. revert p s last. induction fuel as [|fuel IH]; intros p s last Hf [Hb Hc]; [lia|]. simpl.
  destruct s as [|c s].
  { rewrite (bind_ok _ _ _ _ _ (end_read m p Hb)). by destruct (matchable ch). }
  apply Forall_cons in Hc as [Hc Hs]. destruct (char_read m p c s _ Hc Hb) as (E & Hn & Hb').
  rewrite (bind_ok _ _ _ _ _ E), Hn, s8_eqb_u8 by (done || by apply is_char_u8). simpl in Hf.
  rewrite (IH (p + 1) s) by (lia || done). fold (matchable ch). simpl.
  destruct (matchable ch); [rewrite andb_true_r | by rewrite andb_false_r].
  destruct (last_index_of ch s); [do 2 f_equal; lia|]. by destruct (c =? ch); [rewrite Z.add_0_r|].
Qed.

Lemma count_of_bounds ch s : 0 <= count_of ch s <= zlen s.
Proof.
  induction s as [|c s IH]; simpl; [done|]. rewrite zlen_cons. destruct (c =? ch); lia.
Qed.

Lemma strchrs_loop_ok m fuel p s ch cnt :
  is_u8 ch -> (length s < fuel)%nat -> cstring m p s -> 0 <= cnt -> cnt + zlen s < 0x100000000 ->
  strchrs_loop fuel p ch cnt m = Ok (cnt + (if matchable ch then count_of ch s else 0), m).
Proof.
  intros Hch. revert p s cnt. induction fuel as [|fuel IH]; intros p s cnt Hf [Hb Hc] Hcnt Hlen; [lia|]. simpl.
  destruct s as [|c s].
  { rewrite (bind_ok _ _ _ _ _ (end_read m p Hb)). simpl. destruct (matchable ch); by rewrite Z.add_0_r. }
  apply Forall_cons in Hc as [Hc Hs]. destruct (char_read m p c s _ Hc Hb) as (E & Hn & Hb').
  rewrite (bind_ok _ _ _ _ _ E), Hn, s8_eqb_u8 by (done || by apply is_char_u8). simpl in Hf.
  rewrite zlen_cons in Hlen. pose proof (zlen_nonneg s). fold (matchable ch). simpl.
  rewrite (u32_id (cnt + 1)) by (unfold is_u32; lia).
  destruct (c =? ch), (matchable ch); simpl;
    rewrite (IH (p + 1) s) by (lia || done); do 2 f_equal; lia.
Qed.

(** ** Comparing strings *)
Lemma strcmp_loop_ok m fuel a b p x y :
  0 < a -> (length p < fuel)%nat -> bytes_at m a (p ++ [x]) -> bytes_at m b (p ++ [y]) -> s8 x <> s8 y ->
  strcmp_loop fuel a b m = Ok ((a + zlen p, b + zlen p), m).
Proof.
  revert a b p. induction fuel as [|fuel IH]; intros a b p Ha Hf Hx Hy Hne; [lia|]. simpl.
  destruct (Z.eqb_spec a 0); [lia|]. simpl. destruct p as [|c p]; simpl in Hx, Hy, Hf.
  - rewrite (bind_ok _ _ _ _ _ (load_char_ok m a x (proj1 Hx))).
    rewrite (bind_ok _ _ _ _ _ (load_char_ok m b y (proj1 Hy))).
    destruct (Z.eqb_spec (s8 x) (s8 y)); [done|]. unfold zlen. simpl. by rewrite !Z.add_0_r.
  - rewrite (bind_ok _ _ _ _ _ (load_char_ok m a c (proj1 Hx))).
    rewrite (bind_ok _ _ _ _ _ (load_char_ok m b c (proj1 Hy))). rewrite Z.eqb_refl.
    rewrite (IH (a + 1) (b + 1) p); [|lia|lia|apply Hx|apply Hy|done].
    rewrite zlen_cons. do 3 f_equal; lia.
Qed.

Lemma strcmp_ok m a b p x y :
  0 < a -> b <> NULL -> bytes_at m a (p ++ [x]) -> bytes_at m b (p ++ [y]) -> s8 x <> s8 y ->
  strcmp a b m = Ok (if s8 x <? s8 y then -1 else 1, m).
Proof.
  intros Ha Hb Hx Hy Hne. unfold strcmp. rewrite assert_two by (done || unfold NULL; lia).
  pose proof (mapped_size m a (zlen (p ++ [x])) (bytes_at_mapped m a _ Hx) (zlen_nonneg _)) as Hsz.
  rewrite zlen_app in Hsz. unfold zlen in Hsz. simpl in Hsz.
  erewrite bind_ok; [|rewrite with_fuel_ok; apply (strcmp_loop_ok m _ a b p x y); done || lia]. simpl.
  apply bytes_at_app in Hx as [_ [Hx _]]. apply bytes_at_app in Hy as [_ [Hy _]].
  rewrite (bind_ok _ _ _ _ _ (load_char_ok m _ x Hx)). rewrite (bind_ok _ _ _ _ _ (load_char_ok m _ y Hy)).
  unfold mret, M_ret. do 2 f_equal. destruct (Z.ltb_spec (s8 x) (s8 y)); [done|].
  by destruct (Z.ltb_spec (s8 y) (s8 x)); [|lia].
Qed.

(** Two different strings have a first difference. *)
Lemma first_difference l k :
  Forall is_char l -> Forall is_char k -> l <> k -> exists p x y l' k',
    l ++ [0] = p ++ x :: l' /\ k ++ [0] = p ++ y :: k' /\ is_u8 x /\ is_u8 y /\ x <> y.
Proof.
  assert (is_u8 0) as H0 by (unfold is_u8; lia).
  revert k. induction l as [|c l IH]; intros [|d k] Hl Hk Hne; [done | | |].
  - apply Forall_cons in Hk as [[Hd Hd0] _]. exists [], 0, d, [], (k ++ [0]). naive_solver.
  - apply Forall_cons in Hl as [[Hc Hc0] _]. exists [], c, 0, (l ++ [0]), []. naive_solver.
  - apply Forall_cons in Hl as [Hc Hl], Hk as [Hd Hk]. destruct (Z.eq_dec c d) as [->|Hcd].
    + destruct (IH k) as (p & x & y & l' & k' & E1 & E2 & Hxy); [done | done | congruence |].
      exists (d :: p), x, y, l', k'. simpl. rewrite E1, E2. done.
    + exists [], c, d, (l ++ [0]), (k ++ [0]). split; [done|]. split; [done|].
      by split; [apply is_char_u8 | split; [apply is_char_u8|]].
Qed.

Lemma cmp_chars_app p x y l k :
  s8 x <> s8 y -> cmp_chars (p ++ x :: l) (p ++ y :: k) = if s8 x <? s8 y then -1 else 1.
Proof.
  intros Hne. induction p as [|c p IH]; simpl; [|by rewrite Z.ltb_irrefl].
  destruct (Z.ltb_spec (s8 y) (s8 x)), (Z.ltb_spec (s8 x) (s8 y)); try done; lia.
Qed.

(** ** Properties *)

(** [memset] and [memcpy] write exactly the bytes they are asked to, and
    nothing else: [memset] [n] copies of the value, [memcpy] the source's
    bytes, also when the blocks overlap with the destination below the source;
    NULL stops the machine. *)
Theorem memory_blocks_correct (m : mem) (dst src value : Z) (bs : list Z)
    (Hu : Forall is_u8 bs) (Hv : is_u8 value) (Hm : mapped m dst (zlen bs)) :
  memset NULL value (zlen bs) m = Panic /\ memcpy NULL src (zlen bs) m = Panic /\
  (dst <> NULL -> memset dst value (zlen bs) m = Ok (tt, write m dst (replicate (length bs) value))) /\
  (dst <> NULL -> src <> NULL -> bytes_at m src bs -> dst <= src \/ src + zlen bs <= dst ->
   memcpy dst src (zlen bs) m = Ok (tt, write m dst bs) /\ bytes_at (write m dst bs) dst bs /\
   forall a, ~ dst <= a < dst + zlen bs -> write m dst bs !! a = m !! a).
Proof.
  split; [done | split; [done | split]].
  - intros Hd. by apply memset_ok.
  - intros Hd Hs Hb Hov. split; [by apply memcpy_ok|]. split; [apply bytes_at_write_eq|].
    intros a. apply write_outside.
Qed.

(** [memcmp] returns 0 exactly when the blocks are equal, and otherwise
    the order of the first difference, the bytes taken as signed characters
    (0x80 compares below 0x7f). *)
Theorem memcmp_correct (m : mem) (a b : Z) (l k : list Z)
    (Ha : a <> NULL) (Hb : b <> NULL) (Hl : Forall is_u8 l) (Hk : Forall is_u8 k)
    (Hlen : length l = length k) (Hla : bytes_at m a l) (Hkb : bytes_at m b k) :
  memcmp a b (zlen l) m = Ok (cmp_chars l k, m) /\ (cmp_chars l k = 0 <-> l = k).
Proof.
  split; [|split; [by apply cmp_chars_eq | intros ->; apply cmp_chars_refl]].
  unfold memcmp. rewrite assert_two by done. unfold zlen. rewrite Nat2Z.id. by apply memcmp_loop_ok.
Qed.

(** [strlen] of a C string is the number of characters before its
    terminator. *)
Theorem strlen_correct (m : mem) (str : Z) (s : list Z)
    (Hn : str <> NULL) (Hs : cstring m str s) (Hl : zlen s < 0x100000000) :
  strlen str m = Ok (zlen s, m).
Proof. by apply strlen_ok. Qed.

(** [strcpy] writes the characters of the source at the destination and
    returns the destination; it does not write the terminator, so the byte
    after the copy keeps its old value and the copy is a C string only when
    that byte already was 0. *)
Theorem strcpy_correct (m : mem) (dst src : Z) (s : list Z)
    (Hd : dst <> NULL) (Hn : src <> NULL) (Hs : cstring m src s) (Hm : mapped m dst (zlen s))
    (Ha : apart dst (zlen s) src (zlen s + 1)) :
  exists m', strcpy dst src m = Ok (dst, m') /\ bytes_at m' dst s /\
    (forall a, ~ dst <= a < dst + zlen s -> m' !! a = m !! a) /\
    (cstring m' dst s <-> m !! (dst + zlen s) = Some 0).
Proof.
  exists (write m dst s). split; [by apply strcpy_ok|]. pose proof (bytes_at_write_eq m dst s) as Hw.
  split; [done|]. split; [intros a; apply write_outside|].
  unfold cstring. rewrite bytes_at_app. simpl. rewrite write_outside by lia. destruct Hs as [_ Hc]. tauto.
Qed.

(** [strcat] leaves the concatenation, terminated, at the destination and
    changes nothing else; what it returns is the address where the appended
    part begins. *)
Theorem strcat_correct (m : mem) (dst src : Z) (d s : list Z)
    (Hd : dst <> NULL) (Hn : src <> NULL) (Hdst : cstring m dst d) (Hs : cstring m src s)
    (Hm : mapped m (dst + zlen d) (zlen s + 1))
    (Ha : apart (dst + zlen d) (zlen s + 1) src (zlen s + 1)) :
  exists m', strcat dst src m = Ok (dst + zlen d, m') /\ cstring m' dst (d ++ s) /\
    forall a, ~ dst + zlen d <= a < dst + zlen d + zlen s + 1 -> m' !! a = m !! a.
Proof.
  exists (write m (dst + zlen d) (s ++ [0])). split; [by apply strcat_ok|].
  assert (zlen (s ++ [0]) = zlen s + 1) as Hz by (rewrite zlen_app; done). destruct Hdst as [Hb Hc], Hs as [_ Hcs].
  split; [split|].
  - rewrite <- app_assoc. apply bytes_at_app. split; [|apply bytes_at_write_eq].
    apply bytes_at_write; [unfold apart; lia|]. by apply bytes_at_app in Hb as [Hb _].
  - by apply Forall_app.
  - intros a Hout. apply write_outside. lia.
Qed.

(** [strchr], [strrchr] and [strchrs] find the first occurrence, the last
    occurrence and the number of occurrences of a character below 0x80 in a C
    string; a character from 0x80 on is never found, because the string's
    characters are compared signed and the argument is not. *)
Theorem string_search_correct (m : mem) (str ch : Z) (s : list Z)
    (Hn : str <> NULL) (Hch : is_u8 ch) (Hs : cstring m str s) (Hl : zlen s < 0x100000000) :
  (ch < 0x80 -> strchr str ch m = Ok (at_index str (index_of ch s), m) /\
    strrchr str ch m = Ok (at_index str (last_index_of ch s), m) /\
    strchrs str ch m = Ok (count_of ch s, m)) /\
  (0x80 <= ch -> strchr str ch m = Ok (NULL, m) /\ strrchr str ch m = Ok (NULL, m) /\
    strchrs str ch m = Ok (0, m)).
Proof.
  pose proof (cstring_size m str s Hs).
  assert (forall b, matchable ch = b ->
    strchr str ch m = Ok (if b then at_index str (index_of ch s) else NULL, m) /\
    strrchr str ch m = Ok (if b then at_index str (last_index_of ch s) else NULL, m) /\
    strchrs str ch m = Ok (if b then count_of ch s else 0, m)) as H0.
  { intros b <-. unfold strchr, strrchr, strchrs. rewrite !assert_one, !with_fuel_ok by done.
    rewrite (strchr_loop_ok m _ str s), (strrchr_loop_ok m _ str s), (strchrs_loop_ok m _ str s)
      by (done || lia). by destruct (matchable ch). }
  split; intros Hc; [apply (H0 true) | apply (H0 false)]; unfold matchable.
  - by apply Z.ltb_lt.
  - by apply Z.ltb_ge.
Qed.

(** [strcmp] on two different C strings returns the order of their first
    difference, terminators included; it never returns 0 for them. *)
Theorem strcmp_different (m : mem) (a b : Z) (l k : list Z)
    (Ha : 0 < a) (Hb : 0 < b) (Hl : cstring m a l) (Hk : cstring m b k) (Hne : l <> k) :
  strcmp a b m = Ok (cmp_chars (l ++ [0]) (k ++ [0]), m) /\ cmp_chars (l ++ [0]) (k ++ [0]) <> 0.
Proof.
  destruct Hl as [Hla Hlc], Hk as [Hkb Hkc].
  destruct (first_difference l k Hlc Hkc Hne) as (p & x & y & l' & k' & E1 & E2 & Hx & Hy & Hxy).
  rewrite E1 in *. rewrite E2 in *. assert (s8 x <> s8 y) as Hs by (intros E; by apply Hxy, s8_u8_inj).
  rewrite cmp_chars_app by done. split; [|by destruct (s8 x <? s8 y)].
  apply (strcmp_ok m a b p x y); try done; [unfold NULL; lia | |].
  - replace (p ++ x :: l') with ((p ++ [x]) ++ l') in Hla by (by rewrite <- app_assoc).
    by apply bytes_at_app in Hla as [? _].
  - replace (p ++ y :: k') with ((p ++ [y]) ++ k') in Hkb by (by rewrite <- app_assoc).
    by apply bytes_at_app in Hkb as [? _].
Qed.

(** C24: [strcmp] does not stop at the terminator: its loop tests the pointer
    and not the character.  On two equal C strings it goes on with the bytes
    behind them and returns the order of the first difference it finds
    there, never 0. *)
Theorem strcmp_equal_reads_past (m : mem) (a b : Z) (l p : list Z) (x y : Z)
    (Ha : 0 < a) (Hb : 0 < b) (Hl : cstring m a l) (Hk : cstring m b l)
    (Hx : bytes_at m (a + zlen l + 1) (p ++ [x])) (Hy : bytes_at m (b + zlen l + 1) (p ++ [y]))
    (Hxy : s8 x <> s8 y) :
  strcmp a b m = Ok (if s8 x <? s8 y then -1 else 1, m).
Proof.
  assert (forall q z, cstring m q l -> bytes_at m (q + zlen l + 1) (p ++ [z]) ->
    bytes_at m q ((l ++ 0 :: p) ++ [z])) as H.
  { intros q z [Hq _] Hz. replace ((l ++ 0 :: p) ++ [z]) with ((l ++ [0]) ++ (p ++ [z]))
      by (by rewrite <- !app_assoc).
    apply bytes_at_app. split; [done|]. rewrite zlen_app. change (zlen [0]) with 1.
    by replace (q + (zlen l + 1)) with (q + zlen l + 1) by lia. }
  apply (strcmp_ok m a b (l ++ 0 :: p) x y); auto. unfold NULL. lia.
Qed.

(** *** Concrete strings: "ab" at 16, then 1; "ab" at 32, then 2; room at 48. *)
Definition example_bytes : mem :=
  write (write (write ∅ 16 [97; 98; 0; 1]) 32 [97; 98; 0; 2]) 48 [0; 0; 0; 0; 9].

Lemma example_cstring : cstring example_bytes 16 [97; 98] /\ cstring example_bytes 32 [97; 98].
Proof.
  split; (split; [by vm_compute|]); repeat (apply Forall_cons; split; [by unfold is_char, is_u8|]); done.
Qed.

Lemma example_mapped p n : 48 <= p -> p + n <= 53 -> mapped example_bytes p n.
Proof.
  intros Hp Hn a Ha. apply (bytes_at_mapped example_bytes 48 [0; 0; 0; 0; 9]); [by vm_compute|].
  change (zlen [0; 0; 0; 0; 9]) with 5. lia.
Qed.

Lemma memory_blocks_correct_witness :
  memset NULL 7 2 example_bytes = Panic /\ memset 48 7 2 example_bytes = Ok (tt, write example_bytes 48 [7; 7]).
Proof.
  destruct (memory_blocks_correct example_bytes 48 16 7 [97; 98]) as (H1 & _ & H2 & _).
  - by repeat (apply Forall_cons; split; [by unfold is_u8|]).
  - by unfold is_u8.
  - apply example_mapped; by vm_compute.
  - split; [exact H1 | by apply H2].
Defined.

Lemma memcmp_correct_witness :
  memcmp 16 32 4 example_bytes = Ok (-1, example_bytes).
Proof.
  apply (memcmp_correct example_bytes 16 32 [97; 98; 0; 1] [97; 98; 0; 2]); try done;
    by repeat (apply Forall_cons; split; [by unfold is_u8|]).
Defined.

Lemma strlen_correct_witness : strlen 16 example_bytes = Ok (2, example_bytes).
Proof. apply (strlen_correct example_bytes 16 [97; 98]); [done | apply example_cstring | done]. Defined.

Lemma strcpy_correct_witness :
  exists m', strcpy 48 16 example_bytes = Ok (48, m') /\ bytes_at m' 48 [97; 98] /\
    (forall a, ~ 48 <= a < 48 + 2 -> m' !! a = example_bytes !! a) /\
    (cstring m' 48 [97; 98] <-> example_bytes !! (48 + 2) = Some 0).
Proof.
  apply (strcpy_correct example_bytes 48 16 [97; 98]); [done | done | apply example_cstring | |].
  - apply example_mapped; by vm_compute.
  - right. by vm_compute.
Defined.

Lemma strcat_correct_witness :
  exists m', strcat 48 16 example_bytes = Ok (48, m') /\ cstring m' 48 [97; 98] /\
    forall a, ~ 48 <= a < 51 -> m' !! a = example_bytes !! a.
Proof.
  apply (strcat_correct example_bytes 48 16 [] [97; 98]); [done | done | | apply example_cstring | |].
  - split; [by vm_compute | done].
  - apply example_mapped; by vm_compute.
  - right. by vm_compute.
Defined.

Lemma string_search_correct_witness :
  strchr 16 98 example_bytes = Ok (17, example_bytes) /\
  strrchr 16 97 example_bytes = Ok (16, example_bytes).
Proof.
  assert (is_u8 98 /\ is_u8 97) as [H98 H97] by (unfold is_u8; lia).
  split; apply string_search_correct with (s := [97; 98]); try done; apply example_cstring.
Defined.

Lemma strcmp_different_witness :
  strcmp 48 16 example_bytes = Ok (-1, example_bytes) /\ cmp_chars [0] [97; 98; 0] <> 0.
Proof.
  apply (strcmp_different example_bytes 48 16 [] [97; 98]); try done. apply example_cstring.
Defined.

Lemma strcmp_equal_reads_past_witness : strcmp 16 32 example_bytes = Ok (-1, example_bytes).
Proof.
  apply (strcmp_equal_reads_past example_bytes 16 32 [97; 98] [] 1 2); try done; apply example_cstring.
Defined.
