(* ===== verification/Print.v ===== *)
(** * The text screen: lib/kernel/print.S (put_char, set_cursor)

    [put_char] works on the memory of the display, through a segment of 32 KB,
    and keeps its position in the cursor registers of the CRT controller.  It
    is a terminal of 25 lines of 80 columns, scrolled at the bottom. *)
From stdpp Require Import base numbers list.
From Stdlib Require Import ZArith Lia.
From S2P Require Import Prelude Globals.

(** ** The display

    Memory by bytes; of the controller the registers, selected through port
    0x3d4 and read and written through 0x3d5. *)
Record vga := Vga { vram : Z -> Z; crt_index : Z; crt_regs : Z -> Z }.

Definition upd (f : Z -> Z) (a v : Z) : Z -> Z := fun x => if x =? a then v else f x.

Definition crt_out (port al : Z) : M vga unit := modify (fun s =>
  if port =? 0x3d4 then Vga (vram s) al (crt_regs s) else Vga (vram s) (crt_index s) (upd (crt_regs s) (crt_index s) al)).

Definition crt_in : M vga Z := gets (fun s => crt_regs s (crt_index s)).

(** A byte through [gs]; beyond the limit of the segment the processor raises
    a general protection fault. *)
Definition gs_byte (off v : Z) : M vga unit :=
  if off <=? 0x7fff then modify (fun s => Vga (upd (vram s) off v) (crt_index s) (crt_regs s)) else fault.

Definition gs_word (off v : Z) : M vga unit :=
  if off <=? 0x7ffe then
    modify (fun s => Vga (upd (upd (vram s) off (u8 v)) (off + 1) (Z.shiftr v 8)) (crt_index s) (crt_regs s))
  else fault.

(** [movsd] from the second line to the first, in the kernel's own mapping. *)
Definition movsd (k : Z) : M vga unit := modify (fun s =>
  let copy j v := upd v (4 * k + j) (vram s (0xa0 + 4 * k + j)) in
  Vga (copy 3 (copy 2 (copy 1 (copy 0 (vram s))))) (crt_index s) (crt_regs s)).

(** ** print.S *)
Definition get_cursor : M vga Z :=
  crt_out 0x3d4 0x0e ;;;
  ah ← crt_in;
  crt_out 0x3d4 0x0f ;;;
  al ← crt_in;
  mret (Z.lor (Z.shiftl ah 8) al).

Definition set_cursor (bx : Z) : M vga unit :=
  crt_out 0x3d4 0x0e ;;;
  crt_out 0x3d5 (u8 (Z.shiftr bx 8)) ;;;
  crt_out 0x3d4 0x0f ;;;
  crt_out 0x3d5 (u8 bx).

Definition roll_screen : M vga unit :=
  for_loop 960 0 movsd ;;;
  for_loop 80 0 (fun i => gs_word (3840 + 2 * i) 0x0720) ;;;
  set_cursor 1920.

Definition put_char (c : Z) : M vga unit :=
  bx ← get_cursor;
  let cl := u8 c in
  if (cl =? 0x0d) || (cl =? 0x0a) then
    let bx := u16 (bx - bx mod 80 + 80) in
    if s16 bx <? 2000 then set_cursor bx else roll_screen
  else if cl =? 0x08 then
    let bx := u16 (u16 (bx - 1) * 2) in
    gs_word bx 0x0720 ;;;
    set_cursor (Z.shiftr bx 1)
  else
    let bx := u16 (bx * 2) in
    gs_byte bx cl ;;;
    let bx := u16 (bx + 1) in
    gs_byte bx 0x07 ;;;
    let bx := u16 (Z.shiftr bx 1 + 1) in
    if s16 bx <? 2000 then set_cursor bx else roll_screen.

Fixpoint put_all (cs : list Z) : M vga unit :=
  match cs with
  | [] => mret tt
  | c :: cs => put_char c ;;; put_all cs
  end.

(** ** A terminal: finished lines, the last of which are visible, and the line
    that is being written *)
Definition document : Type := list (list Z) * list Z.

Definition term_char (c : Z) (d : document) : option document :=
  let '(rows, cur) := d in
  if (c =? 0x0d) || (c =? 0x0a) then Some (rows ++ [cur], [])
  else if c =? 0x08 then match cur with [] => None | _ => Some (rows, removelast cur) end
  else if (length cur =? 79)%nat then Some (rows ++ [cur ++ [c]], []) else Some (rows, cur ++ [c]).

Fixpoint term_all (cs : list Z) (d : document) : option document :=
  match cs with
  | [] => Some d
  | c :: cs => term_char c d ≫= term_all cs
  end.

(** The lines on the screen: the last 24 finished ones and the current one. *)
Definition visible (d : document) : list (list Z) := let '(rows, cur) := d in drop (length rows - 24) rows ++ [cur].

Definition cell (d : document) (r c : nat) : Z := nth c (nth r (visible d) []) 32.

Record shows (d : document) (s : vga) : Prop := {
  sh_width : Forall (fun row => (length row <= 80)%nat) d.1 /\ (length d.2 < 80)%nat;
  sh_cells : forall r c, (r < 25)%nat -> (c < 80)%nat ->
    vram s (2 * (80 * Z.of_nat r + Z.of_nat c)) = cell d r c /\ vram s (2 * (80 * Z.of_nat r + Z.of_nat c) + 1) = 7;
  sh_cursor : let pos := 80 * Z.of_nat (Nat.min (length d.1) 24) + Z.of_nat (length d.2) in
    crt_regs s 0x0e = pos / 256 /\ crt_regs s 0x0f = pos mod 256;
}.

(** ** The cursor *)
Lemma byte_pair pos : Z.lor (Z.shiftl (pos / 256) 8) (pos mod 256) = pos.
Proof.
  pose proof (Z.add_lor_land (Z.shiftl (pos / 256) 8) (pos mod 256)) as E. pose proof (Z.div_mod pos 256 ltac:(lia)).
  assert (Z.land (Z.shiftl (pos / 256) 8) (pos mod 256) = 0) as E0; [|rewrite E0, Z.add_0_r in E; rewrite E, Z.shiftl_mul_pow2 by lia; lia].
  apply Z.bits_inj'. intros k Hk. rewrite Z.land_spec, Z.bits_0. change 256 with (2 ^ 8). destruct (Z.lt_ge_cases k 8).
  - by rewrite Z.shiftl_spec_low.
  - rewrite Z.mod_pow2_bits_high by lia. apply andb_false_r.
Qed.

Lemma get_cursor_eq s pos :
  0 <= pos < 0x10000 -> crt_regs s 0x0e = pos / 256 -> crt_regs s 0x0f = pos mod 256 ->
  get_cursor s = Ok (pos, Vga (vram s) 0x0f (crt_regs s)).
Proof.
  intros Hp Hh Hl. unfold get_cursor. do 4 (erewrite bind_ok by reflexivity). unfold mret, M_ret. do 2 f_equal.
  simpl. rewrite Hh, Hl. apply byte_pair.
Qed.

(** After [set_cursor]. *)
Definition at_pos (pos : Z) (s s' : vga) : Prop :=
  vram s' = vram s /\ crt_regs s' 0x0e = pos / 256 /\ crt_regs s' 0x0f = pos mod 256.

Lemma set_cursor_ok pos s : 0 <= pos < 0x10000 -> wp (set_cursor pos) s (fun _ s' => at_pos pos s s').
Proof.
  intros Hp. unfold set_cursor. do 4 (wp_step || apply wp_modify). split; [done|]. simpl. unfold upd, u8. simpl.
  rewrite Z.shiftr_div_pow2 by lia. change (2 ^ 8) with 256. split; [|done]. apply Z.mod_small.
  split; [apply Z.div_pos; lia | apply Z.div_lt_upper_bound; lia].
Qed.

(** ** Scrolling *)
Lemma roll_screen_ok s :
  wp roll_screen s (fun _ s' => crt_regs s' 0x0e = 1920 / 256 /\ crt_regs s' 0x0f = 1920 mod 256 /\
    (forall a, 0 <= a < 3840 -> vram s' a = vram s (a + 160)) /\
    (forall i, 0 <= i < 80 -> vram s' (3840 + 2 * i) = 32 /\ vram s' (3840 + 2 * i + 1) = 7)).
Proof.
  unfold roll_screen. apply wp_bind.
  apply (wp_for_loop _ _ _ _ (fun k s1 => crt_index s1 = crt_index s /\ crt_regs s1 = crt_regs s /\
    forall a, vram s1 a = if (0 <=? a) && (a <? 4 * k) then vram s (a + 160) else vram s a)).
  { split; [done|]. split; [done|]. intros a. by destruct (Z.leb_spec 0 a), (Z.ltb_spec a (4 * 0)); try lia. }
  { intros k s1 Hk (I & R & V). apply wp_modify. split; [done|]. split; [done|]. intros a. simpl. unfold upd.
    repeat case_match; b2p; subst; rewrite ?V; repeat case_match; b2p; try lia; f_equal; lia. }
  intros s1 (I & R & V). apply wp_bind.
  apply (wp_for_loop _ _ _ _ (fun k s2 => 
    (forall a, a < 3840 -> vram s2 a = vram s1 a) /\
    forall i, 0 <= i < k -> vram s2 (3840 + 2 * i) = 32 /\ vram s2 (3840 + 2 * i + 1) = 7)).
  { split; [done|]. intros; lia. }
  { intros k s2 Hk [V2 B2]. unfold gs_word. destruct (Z.leb_spec (3840 + 2 * k) 0x7ffe); [|lia]. apply wp_modify. simpl. unfold upd.
    split.
    - intros a Ha. repeat case_match; b2p; try lia. by apply V2.
    - intros i Hi. repeat case_match; b2p; try lia; try done; apply B2; lia. }
  intros s2 [V2 B2]. eapply wp_mono; [by apply set_cursor_ok|]. intros [] s3 (-> & H1 & H2). split; [done|]. split; [done|]. split.
  - intros a Ha. rewrite V2, V by lia. by destruct (Z.leb_spec 0 a), (Z.ltb_spec a (4 * (0 + Z.of_nat 960))); try lia.
  - intros i Hi. apply B2. lia.
Qed.

(** ** The lines on the screen *)
Lemma nth_snoc_nil {A} (l : list (list A)) r : nth r (l ++ [[]]) [] = nth r l [].
Proof.
  destruct (Nat.lt_ge_cases r (length l)) as [Hr|Hr]; [by apply app_nth1|].
  rewrite app_nth2 by done. rewrite (nth_overflow l) by done. by destruct (r - length l)%nat as [|[]].
Qed.

Lemma visible_length rows cur : length (visible (rows, cur)) = S (Nat.min (length rows) 24).
Proof. simpl. rewrite length_app, length_drop. simpl. lia. Qed.

(** The current line is the last one. *)
Lemma cell_current rows cur c : cell (rows, cur) (Nat.min (length rows) 24) c = nth c cur 32.
Proof.
  unfold cell, visible. rewrite app_nth2 by (rewrite length_drop; lia). rewrite length_drop.
  by replace (Nat.min (length rows) 24 - (length rows - (length rows - 24)))%nat with 0%nat by lia.
Qed.

Lemma cell_other rows cur cur' r c : r <> Nat.min (length rows) 24 -> cell (rows, cur') r c = cell (rows, cur) r c.
Proof.
  intros Hr. unfold cell, visible. f_equal. destruct (Nat.lt_ge_cases r (Nat.min (length rows) 24)).
  - by rewrite !app_nth1 by (rewrite length_drop; lia).
  - by rewrite !nth_overflow by (rewrite length_app, length_drop; simpl; lia).
Qed.

(** A finished line: the screen stays as it is, or all lines go up. *)
Lemma cell_next rows cur r c :
  cell (rows ++ [cur], []) r c = cell (rows, cur) (if (length rows <? 24)%nat then r else S r) c.
Proof.
  unfold cell, visible. rewrite nth_snoc_nil, length_app. simpl length. destruct (Nat.ltb_spec (length rows) 24).
  - by replace (length rows + 1 - 24)%nat with 0%nat by lia; replace (length rows - 24)%nat with 0%nat by lia.
  - rewrite <- drop_app_le by lia. replace (length rows + 1 - 24)%nat with (length rows - 24 + 1)%nat by lia.
    rewrite <- drop_drop. by destruct (drop (length rows - 24) (rows ++ [cur])) as [|x [|y l]]; destruct r.
Qed.

Definition cells_ok (d : document) (s : vga) : Prop := forall r c, (r < 25)%nat -> (c < 80)%nat ->
  vram s (2 * (80 * Z.of_nat r + Z.of_nat c)) = cell d r c /\ vram s (2 * (80 * Z.of_nat r + Z.of_nat c) + 1) = 7.

Definition row_of (rows : list (list Z)) : Z := Z.of_nat (Nat.min (length rows) 24).

Lemma next_line_ok rows cur s :
  cells_ok (rows, cur) s -> Forall (fun row => (length row <= 80)%nat) (rows ++ [cur]) ->
  wp (if s16 (80 * row_of rows + 80) <? 2000 then set_cursor (80 * row_of rows + 80) else roll_screen) s
    (fun _ s' => shows (rows ++ [cur], []) s').
Proof.
  intros Hc Hw. assert (0 <= row_of rows <= 24) as Hr by (unfold row_of; lia).
  assert (s16 (80 * row_of rows + 80) = 80 * row_of rows + 80) as -> by (unfold s16; rewrite Z.mod_small; lia).
  destruct (Z.ltb_spec (80 * row_of rows + 80) 2000).
  - assert (length rows < 24)%nat as Hl by (unfold row_of in *; lia).
    eapply wp_mono; [apply set_cursor_ok; lia|]. intros [] s' (V & C1 & C2). split.
    + split; [exact Hw | simpl; lia].
    + intros r c Hr' Hc'. rewrite cell_next. destruct (Nat.ltb_spec (length rows) 24); [|lia]. rewrite V. by apply Hc.
    + simpl. rewrite length_app. simpl length. unfold row_of in *.
      replace (80 * Z.of_nat (Nat.min (length rows + 1) 24) + Z.of_nat 0) with (80 * Z.of_nat (Nat.min (length rows) 24) + 80) by lia. done.
  - assert (24 <= length rows)%nat as Hl by (unfold row_of in *; lia).
    eapply wp_mono; [apply roll_screen_ok|]. intros [] s' (C1 & C2 & V & B). split.
    + split; [exact Hw | simpl; lia].
    + intros r c Hr' Hc'. rewrite cell_next. destruct (Nat.ltb_spec (length rows) 24); [lia|].
      destruct (Nat.eq_dec r 24) as [->|Hne].
      * unfold cell. rewrite (nth_overflow (visible _)) by (rewrite visible_length; lia).
        replace (nth c [] 32) with 32 by by destruct c. destruct (B (Z.of_nat c) ltac:(lia)) as [B1 B2].
        replace (2 * (80 * Z.of_nat 24 + Z.of_nat c)) with (3840 + 2 * Z.of_nat c) by lia. done.
      * destruct (Hc (S r) c ltac:(lia) Hc') as [H1 H2]. rewrite !V by lia.
        replace (2 * (80 * Z.of_nat r + Z.of_nat c) + 160) with (2 * (80 * Z.of_nat (S r) + Z.of_nat c)) by lia.
        replace (2 * (80 * Z.of_nat r + Z.of_nat c) + 1 + 160) with (2 * (80 * Z.of_nat (S r) + Z.of_nat c) + 1) by lia. done.
    + simpl. rewrite length_app. simpl length. replace (Nat.min (length rows + 1) 24) with 24%nat by lia. done.
Qed.

(** A character is written into the current line. *)
Lemma cells_written rows cur cur' s s' c0 v :
  cells_ok (rows, cur) s -> (c0 < 80)%nat ->
  vram s' = upd (upd (vram s) (2 * (80 * row_of rows + Z.of_nat c0)) v) (2 * (80 * row_of rows + Z.of_nat c0) + 1) 7 ->
  (forall c, (c < 80)%nat -> nth c cur' 32 = if (c =? c0)%nat then v else nth c cur 32) -> cells_ok (rows, cur') s'.
Proof.
  intros Hc Hc0 Hv Hn r c Hr Hcl. rewrite Hv. unfold upd, row_of.
  assert (cell (rows, cur') r c = if (r =? Nat.min (length rows) 24)%nat && (c =? c0)%nat then v else cell (rows, cur) r c) as ->.
  { destruct (Nat.eqb_spec r (Nat.min (length rows) 24)) as [->|Hne]; [|by apply cell_other].
    rewrite !cell_current, Hn by done. done. }
  destruct (Hc r c Hr Hcl) as [H1 H2].
  destruct (Nat.eqb_spec r (Nat.min (length rows) 24)) as [->|Hne]; [destruct (Nat.eqb_spec c c0) as [->|Hne']|]; cbn [andb].
  - rewrite Z.eqb_refl. destruct (Z.eqb_spec (2 * (80 * Z.of_nat (Nat.min (length rows) 24) + Z.of_nat c0))
      (2 * (80 * Z.of_nat (Nat.min (length rows) 24) + Z.of_nat c0) + 1)); [lia|]. by rewrite Z.eqb_refl.
  - repeat case_match; b2p; lia || done.
  - repeat case_match; b2p; lia || done.
Qed.

Lemma nth_snoc cur (ch : Z) c : nth c (cur ++ [ch]) 32 = if (c =? length cur)%nat then ch else nth c cur 32.
Proof.
  destruct (Nat.eqb_spec c (length cur)) as [->|Hne]; [by rewrite nth_middle|].
  destruct (Nat.lt_ge_cases c (length cur)); [by apply app_nth1|].
  rewrite app_nth2, (nth_overflow cur) by lia. by destruct (c - length cur)%nat as [|[]] eqn:E; [lia|..].
Qed.

Lemma nth_removelast (cur : list Z) c : cur <> [] -> nth c (removelast cur) 32 = if (c =? length cur - 1)%nat then 32 else nth c cur 32.
Proof.
  intros Hne. destruct (exists_last Hne) as (l & x & ->). rewrite removelast_last, length_app. simpl length.
  replace (length l + 1 - 1)%nat with (length l) by lia. rewrite nth_snoc.
  destruct (Nat.eqb_spec c (length l)) as [->|]; [by rewrite nth_overflow | done].
Qed.

Lemma shift_pos pos : 0 <= pos < 0x8000 -> u16 (pos * 2) = 2 * pos /\ Z.shiftr (2 * pos + 1) 1 = pos /\ Z.shiftr (2 * pos) 1 = pos.
Proof.
  intros Hp. split; [unfold u16; rewrite Z.mod_small; lia|]. rewrite !Z.shiftr_div_pow2 by lia. change (2 ^ 1) with 2.
  split; [symmetry; apply (Z.div_unique _ _ _ 1); lia | symmetry; apply (Z.div_unique _ _ _ 0); lia].
Qed.

(** *** One character *)
Lemma put_char_ok c d d' s :
  is_u8 c -> shows d s -> term_char c d = Some d' -> wp (put_char c) s (fun _ s' => shows d' s').
Proof.
  intros Hu [[Hrows Hcur] Hcells [C1 C2]] Ht. destruct d as [rows cur]. simpl in Hrows, Hcur, C1, C2.
  fold (row_of rows) in C1, C2. set (pos := 80 * row_of rows + Z.of_nat (length cur)) in *.
  assert (0 <= row_of rows <= 24) as Hr by (unfold row_of; lia). assert (0 <= pos < 2000) as Hpos by (unfold pos; lia).
  unfold put_char. apply wp_bind. eapply wp_ok; [by apply (get_cursor_eq s pos); [lia|..]|]. cbv beta zeta.
  rewrite (u8_id c Hu). set (s0 := Vga _ _ _). assert (cells_ok (rows, cur) s0) as Hc0 by exact Hcells.
  unfold term_char in Ht. destruct ((c =? 0x0d) || (c =? 0x0a)) eqn:Enl.
  - injection Ht as <-. assert (u16 (pos - pos mod 80 + 80) = 80 * row_of rows + 80) as ->.
    { assert (pos mod 80 = Z.of_nat (length cur)) as -> by (symmetry; apply (Z.mod_unique _ _ (row_of rows)); unfold pos; lia).
      unfold u16. rewrite Z.mod_small; unfold pos; lia. }
    apply next_line_ok; [done|]. apply Forall_app. split; [done|]. apply Forall_singleton. lia.
  - destruct (Z.eqb_spec c 0x08) as [->|Hbs].
    + assert (cur <> [] /\ d' = (rows, removelast cur)) as [Hne ->] by (destruct cur; [done|]; by injection Ht as <-).
      assert (0 < length cur)%nat as Hl by (by destruct cur; [|simpl; lia]).
      assert (u16 (pos - 1) = pos - 1) as -> by (unfold u16; apply Z.mod_small; unfold pos; lia).
      destruct (shift_pos (pos - 1)) as (-> & _ & E); [unfold pos; lia|]. apply wp_bind. unfold gs_word.
      destruct (Z.leb_spec (2 * (pos - 1)) 0x7ffe); [|lia]. apply wp_modify. rewrite E.
      eapply wp_mono; [apply set_cursor_ok; unfold pos; lia|]. intros [] s' (V & D1 & D2).
      assert (length (removelast cur) = length cur - 1)%nat as Elen.
      { destruct (exists_last Hne) as (l & y & ->). rewrite removelast_last, length_app. simpl. lia. }
      split; [simpl; split; [done | lia] | | simpl; fold (row_of rows); rewrite Elen;
        replace (80 * row_of rows + Z.of_nat (length cur - 1)) with (pos - 1) by (unfold pos; lia); done].
      apply (cells_written rows cur _ s0 s' (length cur - 1) 32 Hc0); [lia | | intros; by apply nth_removelast].
      rewrite V. replace (80 * row_of rows + Z.of_nat (length cur - 1)) with (pos - 1) by (unfold pos; lia). done.
    + destruct (shift_pos pos) as (-> & E & _); [lia|]. apply wp_bind. unfold gs_byte.
      destruct (Z.leb_spec (2 * pos) 0x7fff); [|lia]. apply wp_modify.
      assert (u16 (2 * pos + 1) = 2 * pos + 1) as -> by (unfold u16; apply Z.mod_small; lia). apply wp_bind.
      destruct (Z.leb_spec (2 * pos + 1) 0x7fff); [|lia]. apply wp_modify. rewrite E.
      assert (u16 (pos + 1) = pos + 1) as -> by (unfold u16; apply Z.mod_small; lia).
      set (s1 := Vga _ _ _). assert (cells_ok (rows, cur ++ [c]) s1) as Hc1.
      { apply (cells_written rows cur _ s0 s1 (length cur) c Hc0); [lia | done | intros; by apply nth_snoc]. }
      destruct (Nat.eqb_spec (length cur) 79) as [E79|N79]; injection Ht as <-.
      * replace (pos + 1) with (80 * row_of rows + 80) by (unfold pos; lia). apply next_line_ok; [done|].
        apply Forall_app. split; [done|]. apply Forall_singleton. rewrite length_app. simpl. lia.
      * assert (s16 (pos + 1) = pos + 1) as -> by (unfold s16; rewrite Z.mod_small; lia).
        destruct (Z.ltb_spec (pos + 1) 2000); [|unfold pos in *; lia].
        eapply wp_mono; [apply set_cursor_ok; lia|]. intros [] s' (V & D1 & D2). split.
        -- simpl. split; [done|]. rewrite length_app. simpl. lia.
        -- intros r k Hr' Hk. rewrite V. by apply Hc1.
        -- simpl. fold (row_of rows). rewrite length_app. simpl length.
           replace (80 * row_of rows + Z.of_nat (length cur + 1)) with (pos + 1) by (unfold pos; lia). done.
Qed.

Lemma put_all_ok cs d d' s : Forall is_u8 cs -> shows d s -> term_all cs d = Some d' -> wp (put_all cs) s (fun _ s' => shows d' s').
Proof.
  intros Hcs. revert d s. induction Hcs as [|c cs Hc _ IH]; intros d s Hs Ht; simpl in *; [by injection Ht as <-|].
  destruct (term_char c d) as [d1|] eqn:E; [|done]. apply wp_bind. eapply wp_mono; [by apply (put_char_ok c d d1)|].
  intros [] s1 H1'. by apply (IH d1).
Qed.

(** ** Properties *)

(** C39: characters given to [put_char] one after another, starting from a screen
    that shows a document, make the screen show the document typed on: lines
    end at CR, LF and after 80 characters, the last 24 finished lines and the
    current one are visible, all else is blank and in normal attribute, a
    backspace inside the line takes the last character away, and the cursor
    registers hold the end of the text.  No access leaves the segment.  A
    backspace at the first position of the screen faults. *)
Theorem put_char_terminal (cs : list Z) (d d' : document) (s : vga)
    (Hcs : Forall is_u8 cs) (Hs : shows d s) (Ht : term_all cs d = Some d') :
  (exists s', put_all cs s = Ok (tt, s') /\ shows d' s') /\
  forall s0, shows ([], []) s0 -> put_char 0x08 s0 = Fault.
Proof.
  split.
  - destruct (wp_ok_inv _ _ _ (put_all_ok cs d d' s Hcs Hs Ht)) as ([] & s' & E & H'). by exists s'.
  - intros s0 [_ _ [C1 C2]]. simpl in C1, C2. unfold put_char. erewrite bind_ok by (by apply (get_cursor_eq s0 0)).
    apply bind_fault. done.
Qed.

(** *** Concrete instance: a blank screen *)
Definition example_blank : vga := Vga (fun a => if Z.even a then 32 else 7) 0 (fun _ => 0).

Lemma example_blank_shows : shows ([], []) example_blank.
Proof.
  split.
  - split; [constructor | simpl; lia].
  - intros r c Hr Hc. simpl. rewrite Z.even_add, !Z.even_mul. simpl. split; [|done]. unfold cell. simpl.
    destruct r as [|[|r]]; by destruct c.
  - done.
Qed.

(** "a", backspace, "b", a new line, "c". *)
Lemma put_char_terminal_witness : exists s', put_all [97; 8; 98; 10; 99] example_blank = Ok (tt, s') /\ shows ([[98]], [99]) s'.
Proof.
  apply (put_char_terminal [97; 8; 98; 10; 99] ([], []) ([[98]], [99]) example_blank); [|exact example_blank_shows | reflexivity].
  repeat constructor; unfold is_u8; lia.
Defined.
