(* ===== verification/PrintStr.v ===== *)
(** * Strings and numbers on the screen: lib/kernel/print.S (put_str, put_int)

    Both print character by character: they are given over any [put_char], the
    one of the display ([Print]) or the one of the console ([Console]). *)
From stdpp Require Import base numbers list gmap fin_maps.
From Stdlib Require Import ZArith Lia.
From S2P Require Import Prelude Globals CString.

(** ** print.S *)
Section Text.
Context {St : Type} (bytes : lens St mem) (put_char : Z -> M St unit).

Fixpoint put_str_loop (fuel : nat) (p : Z) : M St unit :=
  match fuel with
  | O => nofuel
  | S fuel' =>
      c ← zoom bytes (load8 p);
      if c =? 0 then mret tt else put_char c ;;; put_str_loop fuel' (p + 1)
  end.

(** The fuel of [CString]: no run can read more than the mapped bytes. *)
Definition put_str (p : Z) : M St unit :=
  m ← gets (view bytes); put_str_loop (S (size m)) p.

(** The digit of the lowest four bits. *)
Definition hex_char (v : Z) : Z :=
  let d := Z.land v 0xf in if 9 <? d then d - 10 + 65 else d + 48.

(** The buffer of eight characters, filled from its end. *)
Fixpoint put_int_buffer (n : nat) (v : Z) (buf : list Z) : list Z :=
  match n with
  | O => buf
  | S n' => put_int_buffer n' (Z.shiftr v 4) (hex_char v :: buf)
  end.

Fixpoint skip_prefix_0 (buf : list Z) : list Z :=
  match buf with
  | [] => []
  | c :: buf' => if c =? 48 then skip_prefix_0 buf' else buf
  end.

Fixpoint put_chars (l : list Z) : M St unit :=
  match l with
  | [] => mret tt
  | c :: l' => put_char c ;;; put_chars l'
  end.

Definition put_int (v : Z) : M St unit :=
  match skip_prefix_0 (put_int_buffer 8 v []) with
  | [] => put_char 48
  | l => put_chars l
  end.

(** ** What they give to [put_char] *)

(** A [put_char] that returns or fails, and keeps the strings. *)
Definition keeps_bytes : Prop := forall c s,
  match put_char c s with
  | Ok (_, s') => view bytes s' = view bytes s
  | Switched _ _ | Window _ _ => False
  | _ => True
  end.

Lemma put_str_loop_eq fuel p cs s :
  keeps_bytes -> cstring (view bytes s) p cs -> (length cs < fuel)%nat -> put_str_loop fuel p s = put_chars cs s.
Proof.
  intros Hk [Hb Hc]. revert fuel p s Hb. induction Hc as [|c cs [Hc Hne] _ IH]; intros fuel p s Hb Hf;
    (destruct fuel as [|fuel]; [simpl in Hf; lia|]); simpl in Hb, Hf; destruct Hb as [Hp Hb]; simpl;
    (erewrite bind_ok by (apply zoom_ok; unfold load8; rewrite Hp; reflexivity)); rewrite (put_view bytes); [done|].
  destruct (Z.eqb_spec c 0); [done|]. unfold mbind, M_bind. pose proof (Hk c s) as Hkc.
  destruct (put_char c s) as [[[] s1]|? ?|? ?| | |]; try done. simpl. apply IH; [by rewrite Hkc | lia].
Qed.

Lemma put_str_chars p cs s : keeps_bytes -> cstring (view bytes s) p cs -> put_str p s = put_chars cs s.
Proof.
  intros Hk Hs. unfold put_str. erewrite bind_ok by reflexivity. apply put_str_loop_eq; [done..|].
  pose proof (cstring_size _ _ _ Hs). lia.
Qed.

(** *** The numeral of [put_int], read back *)
Definition hex_value (c : Z) : Z := if c <? 58 then c - 48 else c - 55.
Definition read_hex (l : list Z) : Z := foldl (fun v c => 16 * v + hex_value c) 0 l.

Lemma hex_char_value v : hex_value (hex_char v) = v mod 16 /\ is_u8 (hex_char v) /\ (hex_char v = 48 <-> v mod 16 = 0).
Proof.
  unfold hex_char, hex_value. change 0xf with (Z.ones 4). rewrite Z.land_ones by lia. change (2 ^ 4) with 16.
  pose proof (Z.mod_pos_bound v 16). unfold is_u8.
  destruct (Z.ltb_spec 9 (v mod 16)); [destruct (Z.ltb_spec (v mod 16 - 10 + 65) 58) | destruct (Z.ltb_spec (v mod 16 + 48) 58)]; lia.
Qed.

Lemma read_hex_app l k : read_hex (l ++ k) = foldl (fun v c => 16 * v + hex_value c) (read_hex l) k.
Proof. apply foldl_app. Qed.

Lemma foldl_hex_shift k a : foldl (fun v c => 16 * v + hex_value c) a k = a * 16 ^ Z.of_nat (length k) + read_hex k.
Proof.
  unfold read_hex. revert a. induction k as [|c k IH]; intros a; simpl; [lia|].
  rewrite (IH (16 * a + hex_value c)), (IH (16 * 0 + hex_value c)).
  replace (Z.of_nat (S (length k))) with (Z.of_nat (length k) + 1) by lia. rewrite Z.pow_add_r by lia. lia.
Qed.

Lemma put_int_buffer_value n v buf :
  read_hex (put_int_buffer n v buf) = v mod 16 ^ Z.of_nat n * 16 ^ Z.of_nat (length buf) + read_hex buf.
Proof.
  revert v buf. induction n as [|n IH]; intros v buf; simpl; [rewrite Z.mod_1_r; lia|].
  rewrite IH. change (read_hex (hex_char v :: buf)) with (foldl (fun v c => 16 * v + hex_value c) (16 * 0 + hex_value (hex_char v)) buf).
  rewrite foldl_hex_shift, (proj1 (hex_char_value v)), Z.shiftr_div_pow2 by lia. simpl length.
  replace (Z.of_nat (S (length buf))) with (Z.of_nat (length buf) + 1) by lia.
  replace (Z.of_nat (S n)) with (Z.of_nat n + 1) by lia. rewrite !Z.pow_add_r by lia. change (2 ^ 4) with 16. change (16 ^ 1) with 16.
  pose proof (Z.pow_pos_nonneg 16 (Z.of_nat n)).
  rewrite (Z.mul_comm (16 ^ Z.of_nat n) 16), (Z.rem_mul_r v 16 (16 ^ Z.of_nat n)) by lia. ring.
Qed.

Lemma put_int_buffer_bytes n v buf : Forall is_u8 buf -> Forall is_u8 (put_int_buffer n v buf).
Proof. revert v buf. induction n as [|n IH]; intros v buf Hb; simpl; [done|]. apply IH. constructor; [apply hex_char_value | done]. Qed.

Lemma skip_prefix_0_value l : read_hex (skip_prefix_0 l) = read_hex l.
Proof. induction l as [|c l IH]; simpl; [done|]. destruct (Z.eqb_spec c 48) as [->|]; [by rewrite IH | done]. Qed.

Lemma skip_prefix_0_head l c k : skip_prefix_0 l = c :: k -> c <> 48.
Proof.
  induction l as [|d l IH]; simpl; [done|]. destruct (Z.eqb_spec d 48); [done|]. by intros [= -> _].
Qed.

Lemma skip_prefix_0_bytes l : Forall is_u8 l -> Forall is_u8 (skip_prefix_0 l).
Proof. induction 1 as [|c l Hc Hl IH]; simpl; [done|]. destruct (c =? 48); [done | by constructor]. Qed.

(** The shortest upper-case hexadecimal numeral of [v]. *)
Definition hex_numeral (v : Z) (cs : list Z) : Prop :=
  read_hex cs = v /\ Forall is_u8 cs /\ cs <> [] /\ (v <> 0 -> head cs <> Some 48) /\ (v = 0 -> cs = [48]).

(** The digits [put_int] prints. *)
Definition int_digits (v : Z) : list Z :=
  match skip_prefix_0 (put_int_buffer 8 v []) with [] => [48] | l => l end.

Lemma put_int_digits v s : (forall s, put_chars [48] s = put_char 48 s) -> put_int v s = put_chars (int_digits v) s.
Proof. intros H. unfold put_int, int_digits. destruct (skip_prefix_0 _); [by rewrite H | done]. Qed.

Lemma int_digits_ok v : is_u32 v -> hex_numeral v (int_digits v).
Proof.
  intros Hv. unfold int_digits. pose proof (put_int_buffer_value 8 v []) as Hval. rewrite Z.mod_small in Hval by done.
  change (16 ^ Z.of_nat (length (@nil Z))) with 1 in Hval. change (read_hex []) with 0 in Hval.
  pose proof (skip_prefix_0_value (put_int_buffer 8 v [])) as Hskip.
  pose proof (skip_prefix_0_bytes _ (put_int_buffer_bytes 8 v [] (Forall_nil_2 _))) as Hb.
  destruct (skip_prefix_0 (put_int_buffer 8 v [])) as [|c k] eqn:E.
  - change (read_hex []) with 0 in Hskip. assert (v = 0) as -> by lia. repeat constructor; done.
  - pose proof (skip_prefix_0_head _ _ _ E) as Hc. split; [lia|]. split; [done|]. split; [done|]. split; [by intros _ [= ?]|].
    intros ->. by vm_compute in E.
Qed.
End Text.
