(* ===== verification/Stdio.v ===== *)
(** * Formatted output: lib/stdio.c

    [itoa] and [vsprintf] over the byte memory of [CString].  A pointer the C
    code updates through its address ([itoa]'s [*buf_ptr_addr], [vsprintf]'s
    [dst], [src] and [ap]) is passed in and returned. *)
From stdpp Require Import base numbers list gmap fin_maps.
From Stdlib Require Import ZArith Lia.
From S2P Require Import Prelude Globals CString.

(** ** The code *)

(** The character of a digit. *)
Definition digit_char (m : Z) : Z := if m <? 10 then m + 48 else m - 10 + 65.

(** 32 digits are enough for a [uint32_t] in any base from 2 on. *)
Fixpoint itoa_rec (fuel : nat) (value p base : Z) : M mem Z :=
  match fuel with
  | O => nofuel
  | S fuel' =>
      if base =? 0 then fault
      else
        let m := value mod base in
        let i := value / base in
        p ← (if negb (i =? 0) then itoa_rec fuel' i p base else mret p);
        store8 p (digit_char m) ;;;
        mret (p + 1)
  end.

Definition itoa (value p base : Z) : M mem Z := itoa_rec 33 value p base.

(** The 32-bit little-endian load of [va_arg(ap, int)]. *)
Definition load32 (p : Z) : M mem Z :=
  b0 ← load8 p;
  b1 ← load8 (p + 1);
  b2 ← load8 (p + 2);
  b3 ← load8 (p + 3);
  mret (b0 + 0x100 * (b1 + 0x100 * (b2 + 0x100 * b3))).

Definition ch_percent : Z := 37.
Definition ch_minus : Z := 45.
Definition ch_c : Z := 99.
Definition ch_d : Z := 100.
Definition ch_s : Z := 115.
Definition ch_x : Z := 120.

(** The [while] loop; [va_arg] first advances [ap] by 4 and then reads. *)
Fixpoint vsprintf_loop (fuel : nat) (dst src ap : Z) : M mem unit :=
  match fuel with
  | O => nofuel
  | S fuel' =>
      c ← load_char src;
      if c =? 0 then mret tt
      else if negb (c =? ch_percent) then
        store8 dst c ;;; vsprintf_loop fuel' (dst + 1) (src + 1) ap
      else
        let src := src + 1 in
        f ← load_char src;
        if f =? ch_x then
          arg_int ← load32 (ap + 4);
          dst ← itoa arg_int dst 16;
          vsprintf_loop fuel' dst (src + 1) (ap + 4)
        else if f =? ch_s then
          arg_str ← load32 (ap + 4);
          _ ← strcpy dst arg_str;
          n ← strlen arg_str;
          vsprintf_loop fuel' (dst + n) (src + 1) (ap + 4)
        else if f =? ch_c then
          a ← load_char (ap + 4);
          store8 dst a ;;;
          vsprintf_loop fuel' (dst + 1) (src + 1) (ap + 4)
        else if f =? ch_d then
          w ← load32 (ap + 4);
          let arg_int := s32 w in
          if arg_int <? 0 then
            store8 dst ch_minus ;;;
            dst ← itoa (u32 (s32 (0 - arg_int))) (dst + 1) 10;
            vsprintf_loop fuel' dst (src + 1) (ap + 4)
          else
            dst ← itoa (u32 arg_int) dst 10;
            vsprintf_loop fuel' dst (src + 1) (ap + 4)
        else vsprintf_loop fuel' dst (src + 1) ap
  end.

Definition vsprintf (str format ap : Z) : M mem Z :=
  with_fuel (fun fuel => vsprintf_loop fuel str format ap) ;;;
  strlen str.

(** [sprintf(buf, format, ...)]: [ap] is the address of the parameter
    [format]. *)
Definition sprintf (buf format ap : Z) : M mem Z :=
  len ← vsprintf buf format ap;
  mret len.

(** [printf]: format into the zeroed local buffer, in the memory [l] of a larger
    state, then the [write] system call, which is an argument here. *)
Definition printf {St} (l : lens St mem) (write_call : Z -> M St Z) (buf format ap : Z) : M St Z :=
  _ ← zoom l (memset buf 0 1024 ;;; vsprintf buf format ap);
  write_call buf.

(** ** Specification: numerals *)
Fixpoint to_digits (fuel : nat) (value base : Z) : list Z :=
  match fuel with
  | O => []
  | S fuel' =>
      (if negb (value / base =? 0) then to_digits fuel' (value / base) base else []) ++
      [digit_char (value mod base)]
  end.

Definition numeral (value base : Z) : list Z := to_digits 33 value base.

(** Reading a numeral back. *)
Definition char_digit (c : Z) : Z := if c <? 58 then c - 48 else c - 65 + 10.
Definition read_numeral (base : Z) (s : list Z) : Z :=
  fold_left (fun acc c => acc * base + char_digit c) s 0.

Lemma digit_char_range m : 0 <= m < 36 -> is_char (digit_char m) /\ char_digit (digit_char m) = m.
Proof.
  intros Hm. unfold digit_char, char_digit, is_char, is_u8. destruct (Z.ltb_spec m 10).
  - destruct (Z.ltb_spec (m + 48) 58); lia.
  - destruct (Z.ltb_spec (m - 10 + 65) 58); lia.
Qed.

Lemma div_shrinks value base fuel :
  2 <= base -> 0 <= value < 2 ^ Z.of_nat (S fuel) -> 0 <= value / base < 2 ^ Z.of_nat fuel.
Proof.
  intros Hb Hv. split; [apply Z.div_pos; lia|].
  apply (Z.le_lt_trans _ (value / 2)); [apply Z.div_le_compat_l; lia|].
  apply Z.div_lt_upper_bound; [lia|]. replace (Z.of_nat (S fuel)) with (Z.of_nat fuel + 1) in Hv by lia.
  rewrite Z.pow_add_r in Hv by lia. lia.
Qed.

Lemma itoa_rec_ok m fuel value p base :
  2 <= base <= 36 -> 0 <= value < 2 ^ Z.of_nat fuel -> (0 < fuel)%nat ->
  mapped m p (zlen (to_digits fuel value base)) ->
  itoa_rec fuel value p base m =
    Ok (p + zlen (to_digits fuel value base), write m p (to_digits fuel value base)).
Proof.
  intros Hb. revert m value p. induction fuel as [|fuel IH]; intros m value p Hv Hf Hm; [lia|].
  simpl in Hm |- *. destruct (Z.eqb_spec base 0); [lia|].
  pose proof (div_shrinks value base fuel ltac:(lia) Hv) as Hq.
  pose proof (Z.mod_pos_bound value base ltac:(lia)) as Hr.
  destruct (digit_char_range (value mod base)) as [[Hu _] _]; [lia|].
  rewrite zlen_app in *. change (zlen [digit_char (value mod base)]) with 1 in *.
  destruct (Z.eqb_spec (value / base) 0) as [E|E]; simpl in *.
  - change (zlen (@nil Z)) with 0 in *. rewrite (bind_ok _ _ _ p m) by done.
    rewrite (bind_ok _ _ _ tt (<[p := u8 (digit_char (value mod base))]> m)) by (apply store8_ok, Hm; lia).
    by rewrite u8_id.
  - assert (0 < fuel)%nat by (destruct fuel; [change (2 ^ Z.of_nat 0) with 1 in Hq; lia | lia]).
    pose proof (zlen_nonneg (to_digits fuel (value / base) base)).
    assert (mapped m p (zlen (to_digits fuel (value / base) base))) as Hm' by (intros a Ha; apply Hm; lia).
    rewrite (bind_ok _ _ _ _ _ (IH m (value / base) p Hq ltac:(lia) Hm')).
    erewrite bind_ok; [|apply store8_ok; eapply mapped_write_at; [exact Hm | lia]].
    rewrite write_snoc, u8_id by done. unfold mret, M_ret. do 2 f_equal. lia.
Qed.

Lemma itoa_ok m value p base :
  2 <= base <= 36 -> is_u32 value -> mapped m p (zlen (numeral value base)) ->
  itoa value p base m = Ok (p + zlen (numeral value base), write m p (numeral value base)).
Proof. intros Hb Hv. apply itoa_rec_ok; [done | unfold is_u32 in Hv; lia | lia]. Qed.

Lemma numeral_chars value base fuel :
  2 <= base <= 36 -> 0 <= value < 2 ^ Z.of_nat fuel -> Forall is_char (to_digits fuel value base).
Proof.
  intros Hb. revert value. induction fuel as [|fuel IH]; intros value Hv; simpl; [constructor|].
  pose proof (Z.mod_pos_bound value base ltac:(lia)). apply Forall_app. split.
  - destruct (negb _); [apply IH; apply (div_shrinks value base fuel); lia | constructor].
  - apply Forall_singleton, digit_char_range. lia.
Qed.

Lemma read_numeral_ok value base fuel :
  2 <= base <= 36 -> 0 <= value < 2 ^ Z.of_nat fuel -> (0 < fuel)%nat ->
  read_numeral base (to_digits fuel value base) = value.
Proof.
  intros Hb. revert value. induction fuel as [|fuel IH]; intros value Hv Hf; [lia|]. simpl.
  pose proof (div_shrinks value base fuel ltac:(lia) Hv) as Hq.
  pose proof (Z.mod_pos_bound value base ltac:(lia)) as Hr.
  pose proof (Z.div_mod value base ltac:(lia)).
  unfold read_numeral in *. rewrite fold_left_app. simpl.
  rewrite (proj2 (digit_char_range (value mod base) ltac:(lia))).
  destruct (Z.eqb_spec (value / base) 0) as [E|E]; simpl; [lia|].
  rewrite IH; [lia | done |]. destruct fuel; [change (2 ^ Z.of_nat 0) with 1 in Hq; lia | lia].
Qed.

(** The first digit is not 0, except in "0" itself. *)
Lemma numeral_head value base fuel :
  2 <= base <= 36 -> 0 < value < 2 ^ Z.of_nat fuel -> head (to_digits fuel value base) <> Some (digit_char 0).
Proof.
  intros Hb. revert value. induction fuel as [|fuel IH]; intros value Hv; [simpl in Hv; lia|]. simpl.
  pose proof (div_shrinks value base fuel ltac:(lia) ltac:(lia)) as Hq.
  pose proof (Z.mod_pos_bound value base ltac:(lia)) as Hr. pose proof (Z.div_mod value base ltac:(lia)).
  destruct (Z.eqb_spec (value / base) 0) as [E|E]; simpl.
  - intros [= Ed]. assert (value mod base <> 0) as Hne by lia. apply Hne.
    rewrite <- (proj2 (digit_char_range (value mod base) ltac:(lia))), Ed. done.
  - specialize (IH (value / base) ltac:(lia)). destruct fuel as [|fuel]; [change (2 ^ Z.of_nat 0) with 1 in Hq; lia|].
    destruct (to_digits (S fuel) (value / base) base) eqn:Ed; [|done].
    simpl in Ed. by apply app_nil in Ed as [_ ?].
Qed.

(** ** Specification: formats *)

(** An argument as the format's directives take it: a word for [%x] and
    [%d], a string for [%s], a character for [%c]. *)
Inductive arg :=
| AInt (w : Z)
| AStr (p : Z) (s : list Z)
| AChar (c : Z).

Definition arg_word (a : arg) : Z := match a with AInt w => w | AStr p _ => p | AChar c => c end.

Definition decimal (w : Z) : list Z :=
  let v := s32 w in if v <? 0 then ch_minus :: numeral (- v) 10 else numeral v 10.

(** The output of a format; [None] when it ends in a lone [%] or its
    arguments do not fit its directives. *)
Fixpoint render (fmt : list Z) (args : list arg) : option (list Z) :=
  match fmt with
  | [] => Some []
  | c :: fmt =>
      if negb (c =? ch_percent) then cons c <$> render fmt args
      else match fmt with
        | [] => None
        | f :: fmt =>
            if f =? ch_x then
              match args with AInt w :: args => app (numeral w 16) <$> render fmt args | _ => None end
            else if f =? ch_s then
              match args with AStr _ s :: args => app s <$> render fmt args | _ => None end
            else if f =? ch_c then
              match args with AChar c :: args => cons c <$> render fmt args | _ => None end
            else if f =? ch_d then
              match args with AInt w :: args => app (decimal w) <$> render fmt args | _ => None end
            else render fmt args
        end
  end.

Definition le_bytes (w : Z) : list Z :=
  [w mod 0x100; w / 0x100 mod 0x100; w / 0x10000 mod 0x100; w / 0x1000000 mod 0x100].

(** [F] contains the footprint [p .. p + n). *)
Definition covers (F : Z -> Prop) (p n : Z) : Prop := forall a, p <= a < p + n -> F a.

(** The arguments lie on the stack above [ap], inside the footprint [F]. *)
Fixpoint args_at (F : Z -> Prop) (m : mem) (ap : Z) (args : list arg) : Prop :=
  match args with
  | [] => True
  | a :: args =>
      bytes_at m (ap + 4) (le_bytes (arg_word a)) /\ covers F (ap + 4) 4 /\ is_u32 (arg_word a) /\
      match a with
      | AInt _ => True
      | AStr p s => p <> NULL /\ cstring m p s /\ covers F p (zlen s + 1) /\ zlen s < 0x100000000
      | AChar c => is_char c
      end /\ args_at F m (ap + 4) args
  end.

Definition agree (F : Z -> Prop) (m m' : mem) : Prop := forall a, F a -> m' !! a = m !! a.

Lemma cstring_agree F m m' p s :
  agree F m m' -> covers F p (zlen s + 1) -> cstring m p s -> cstring m' p s.
Proof.
  intros Ha Hc [Hb Hs]. split; [|done]. eapply bytes_at_ext; [|exact Hb].
  intros a Hr. rewrite zlen_app in Hr. change (zlen [0]) with 1 in Hr. by apply Ha, Hc.
Qed.

Lemma args_at_agree F m m' ap args : agree F m m' -> args_at F m ap args -> args_at F m' ap args.
Proof.
  intros Ha. revert ap. induction args as [|a args IH]; intros ap; [done|].
  intros (Hw & Hc & Hu & Harg & Hr). split; [|split; [done | split; [done | split; [|by apply IH]]]].
  - eapply bytes_at_ext; [|exact Hw]. intros b Hb. by apply Ha, Hc.
  - destruct a as [w|p s|c]; [done | | done]. destruct Harg as (H1 & H2 & H3 & H4).
    split; [done|]. split; [by apply (cstring_agree F m) | done].
Qed.

(** Writing outside the footprint keeps it. *)
Definition outside (F : Z -> Prop) (p n : Z) : Prop := forall a, p <= a < p + n -> ~ F a.

Lemma write_agree F m p bs : outside F p (zlen bs) -> agree F m (write m p bs).
Proof. intros Ho a Ha. apply write_outside. intros Hr. by apply (Ho a). Qed.

Lemma outside_apart F p n q k : 0 <= n -> 0 <= k -> outside F p n -> covers F q k -> 0 < n -> 0 < k -> apart p n q k.
Proof.
  intros Hn Hk Ho Hc Hn' Hk'. unfold apart. destruct (Z.le_gt_cases (p + n) q); [by left|].
  destruct (Z.le_gt_cases (q + k) p); [by right|]. exfalso.
  apply (Ho (Z.max p q)); [lia|]. apply Hc. lia.
Qed.

Lemma load32_ok m p w : is_u32 w -> bytes_at m p (le_bytes w) -> load32 p m = Ok (w, m).
Proof.
  intros Hw (H0 & H1 & H2 & H3 & _). unfold load32.
  rewrite (bind_ok _ _ _ _ _ (load8_ok m _ _ H0)), (bind_ok _ _ _ _ _ (load8_ok m _ _ H1)).
  replace (p + 2) with (p + 1 + 1) by lia. replace (p + 3) with (p + 1 + 1 + 1) by lia.
  rewrite (bind_ok _ _ _ _ _ (load8_ok m _ _ H2)), (bind_ok _ _ _ _ _ (load8_ok m _ _ H3)).
  unfold mret, M_ret. do 2 f_equal. unfold is_u32 in Hw.
  pose proof (Z.div_mod w 0x100 ltac:(lia)). pose proof (Z.div_mod (w / 0x100) 0x100 ltac:(lia)) as E1.
  pose proof (Z.div_mod (w / 0x100 / 0x100) 0x100 ltac:(lia)) as E2.
  rewrite !Z.div_div in * by lia. change (0x100 * 0x100) with 0x10000 in *.
  change (0x10000 * 0x100) with 0x1000000 in *.
  assert (w / 0x1000000 < 0x100) by (apply Z.div_lt_upper_bound; lia).
  assert (0 <= w / 0x1000000) by (apply Z.div_pos; lia).
  rewrite (Z.mod_small (w / 0x1000000)) by lia. lia.
Qed.

Lemma char_arg m p c : is_char c -> bytes_at m p (le_bytes c) -> load_char p m = Ok (s8 c, m).
Proof.
  intros [Hc _] [H0 _]. apply load_char_ok. rewrite H0. f_equal. apply Z.mod_small. done.
Qed.

Lemma write_app m p l k : write m p (l ++ k) = write (write m p l) (p + zlen l) k.
Proof.
  revert m p. induction l as [|b l IH]; intros m p; simpl.
  - change (zlen (@nil Z)) with 0. by rewrite Z.add_0_r.
  - rewrite IH, zlen_cons. by replace (p + 1 + zlen l) with (p + (zlen l + 1)) by lia.
Qed.

Lemma s32_range w : -0x80000000 <= s32 w < 0x80000000.
Proof. unfold s32. pose proof (Z.mod_pos_bound (w + 0x80000000) 0x100000000). lia. Qed.

Lemma negated_int v : -0x80000000 <= v < 0 -> u32 (s32 (0 - v)) = - v.
Proof.
  intros Hv. unfold s32, u32. destruct (Z.eq_dec v (-0x80000000)) as [->|]; [done|].
  rewrite (Z.mod_small (0 - v + 0x80000000)) by lia. rewrite Z.mod_small by lia. lia.
Qed.

(** ** The directives *)
Section Directives.
Variable F : Z -> Prop.

Lemma emit_hex m dst ap w args (k : Z -> M mem unit) :
  args_at F m ap (AInt w :: args) -> mapped m dst (zlen (numeral w 16)) ->
  (arg_int ← load32 (ap + 4); d ← itoa arg_int dst 16; k d) m =
  k (dst + zlen (numeral w 16)) (write m dst (numeral w 16)).
Proof.
  intros (Hw & _ & Hu & _) Hm. rewrite (bind_ok _ _ _ _ _ (load32_ok m _ _ Hu Hw)).
  by rewrite (bind_ok _ _ _ _ _ (itoa_ok m w dst 16 ltac:(lia) Hu Hm)).
Qed.

Lemma emit_str m dst ap p s args (k : Z -> M mem unit) :
  0 < dst -> args_at F m ap (AStr p s :: args) -> mapped m dst (zlen s) -> outside F dst (zlen s) ->
  (arg_str ← load32 (ap + 4); _ ← strcpy dst arg_str; n ← strlen arg_str; k (dst + n)) m =
  k (dst + zlen s) (write m dst s).
Proof.
  intros Hd (Hw & _ & Hu & (Hp & Hs & Hc & Hl) & _) Hm Ho.
  rewrite (bind_ok _ _ _ _ _ (load32_ok m _ _ Hu Hw)). pose proof (zlen_nonneg s).
  assert (apart dst (zlen s) p (zlen s + 1)) as Ha.
  { destruct (Z.eq_dec (zlen s) 0) as [->|Hne]; [unfold apart; lia|].
    apply (outside_apart F); try done; lia. }
  erewrite bind_ok; [|apply (strcpy_ok m dst p s); try done; unfold NULL; lia].
  erewrite bind_ok; [done|]. apply strlen_ok; try done.
  apply (cstring_agree F m); try done. by apply write_agree.
Qed.

Lemma emit_char m dst ap c args (k : M mem unit) :
  args_at F m ap (AChar c :: args) -> mapped m dst 1 ->
  (a ← load_char (ap + 4); store8 dst a ;;; k) m = k (write m dst [c]).
Proof.
  intros (Hw & _ & _ & Hc & _) Hm. rewrite (bind_ok _ _ _ _ _ (char_arg m _ c Hc Hw)).
  erewrite bind_ok; [|apply store8_ok, Hm; lia]. by rewrite u8_s8 by (by apply is_char_u8).
Qed.

Lemma emit_dec m dst ap w args (k : Z -> M mem unit) :
  args_at F m ap (AInt w :: args) -> mapped m dst (zlen (decimal w)) ->
  (a ← load32 (ap + 4);
   if s32 a <? 0 then
     store8 dst ch_minus ;;; d ← itoa (u32 (s32 (0 - s32 a))) (dst + 1) 10; k d
   else d ← itoa (u32 (s32 a)) dst 10; k d) m =
  k (dst + zlen (decimal w)) (write m dst (decimal w)).
Proof.
  intros (Hw & _ & Hu & _) Hm. rewrite (bind_ok _ _ _ _ _ (load32_ok m _ _ Hu Hw)).
  simpl in Hu. cbn [arg_word] in *. unfold decimal in *. pose proof (s32_range w). destruct (Z.ltb_spec (s32 w) 0); cbv iota.
  - rewrite zlen_cons in *. pose proof (zlen_nonneg (numeral (- s32 w) 10)).
    erewrite bind_ok; [|apply store8_ok, Hm; lia]. change (u8 ch_minus) with ch_minus.
    rewrite negated_int by lia. erewrite bind_ok; [|apply itoa_ok; [lia | unfold is_u32; lia |]].
    + simpl write. by replace (dst + 1 + zlen (numeral (- s32 w) 10)) with
        (dst + (zlen (numeral (- s32 w) 10) + 1)) by lia.
    + apply mapped_insert. intros a Ha. apply Hm. lia.
  - rewrite (u32_id (s32 w)) by (unfold is_u32; lia).
    erewrite bind_ok; [done|]. apply itoa_ok; [lia | unfold is_u32; lia | done].
Qed.

(** What the loop needs to print [out]. *)
Record ready (m : mem) (dst src ap : Z) (fmt : list Z) (args : list arg) (out : list Z) : Prop := {
  rd_dst : 0 < dst;
  rd_fmt : cstring m src fmt;
  rd_cov : covers F src (zlen fmt + 1);
  rd_args : args_at F m ap args;
  rd_map : mapped m dst (zlen out);
  rd_out : outside F dst (zlen out);
}.

Lemma ready_emit m dst src ap fmt args piece out src' ap' args' fmt' pre :
  ready m dst src ap (pre ++ fmt') args (piece ++ out) -> fmt = pre ++ fmt' ->
  src' = src + zlen pre -> args_at F m ap' args' ->
  ready (write m dst piece) (dst + zlen piece) src' ap' fmt' args' out.
Proof.
  intros [H1 [H2 H2'] H3 H4 H5 H6] _ -> Ha. rewrite !zlen_app in *.
  pose proof (zlen_nonneg piece). pose proof (zlen_nonneg pre). pose proof (zlen_nonneg out).
  assert (agree F m (write m dst piece)) as Hag.
  { apply write_agree. intros a Hr. apply H6. lia. }
  assert (covers F (src + zlen pre) (zlen fmt' + 1)) as Hcov by (intros a Hr; apply H3; lia).
  split.
  - lia.
  - apply (cstring_agree F m); try done. rewrite <- app_assoc, bytes_at_app in H2.
    apply Forall_app in H2' as [_ H2']. by split; [apply H2|].
  - done.
  - by apply (args_at_agree F m).
  - apply mapped_write. intros a Hr. apply H5. lia.
  - intros a Hr. apply H6. lia.
Qed.
End Directives.

(** ** vsprintf *)
Lemma fmt_char F m dst src ap c fmt args out :
  ready F m dst src ap (c :: fmt) args out ->
  load_char src m = Ok (s8 c, m) /\ (s8 c =? 0) = false /\
  (forall ch, is_u8 ch -> ch < 0x80 -> (s8 c =? ch) = (c =? ch)).
Proof.
  intros [_ [Hb Hc] _ _ _ _]. apply Forall_cons in Hc as [Hc _].
  destruct (char_read m src c fmt _ Hc Hb) as (E & Hn & _). split; [done|]. split; [done|].
  intros ch Hu Hlt. rewrite s8_eqb_u8 by (done || by apply is_char_u8).
  rewrite (proj2 (Z.ltb_lt ch 128) Hlt). apply andb_true_r.
Qed.

(** The second character of a directive is read in the same memory. *)
Lemma fmt_directive F m dst src ap c f fmt args out :
  ready F m dst src ap (c :: f :: fmt) args out ->
  load_char (src + 1) m = Ok (s8 f, m) /\
  (forall ch, is_u8 ch -> ch < 0x80 -> (s8 f =? ch) = (f =? ch)).
Proof.
  intros H. apply (ready_emit F m dst src ap (c :: f :: fmt) args [] out (src + 1) ap args (f :: fmt) [c]) in H;
    [|done|done|apply H]. apply fmt_char in H as (E & _ & H). done.
Qed.

(** One directive [%f] of the loop, the rest being [k]. *)
Definition directive (f dst src ap : Z) (k : Z -> Z -> Z -> M mem unit) : M mem unit :=
  if f =? ch_x then
    arg_int ← load32 (ap + 4); dst ← itoa arg_int dst 16; k dst (src + 1) (ap + 4)
  else if f =? ch_s then
    arg_str ← load32 (ap + 4); _ ← strcpy dst arg_str; n ← strlen arg_str; k (dst + n) (src + 1) (ap + 4)
  else if f =? ch_c then
    a ← load_char (ap + 4); store8 dst a ;;; k (dst + 1) (src + 1) (ap + 4)
  else if f =? ch_d then
    w ← load32 (ap + 4);
    if s32 w <? 0 then
      store8 dst ch_minus ;;; dst ← itoa (u32 (s32 (0 - s32 w))) (dst + 1) 10; k dst (src + 1) (ap + 4)
    else dst ← itoa (u32 (s32 w)) dst 10; k dst (src + 1) (ap + 4)
  else k dst (src + 1) ap.

Lemma directive_ok F m dst src0 src ap c f fmt args out k :
  c = ch_percent -> ready F m dst src0 ap (c :: f :: fmt) args out ->
  render (c :: f :: fmt) args = Some out ->
  exists piece out' ap' args', out = piece ++ out' /\ args_at F m ap' args' /\
    render fmt args' = Some out' /\
    directive f dst src ap k m = k (dst + zlen piece) (src + 1) ap' (write m dst piece).
Proof.
  intros -> Hrd Hr. cbn [render] in Hr. change (ch_percent =? ch_percent) with true in Hr. cbn [negb] in Hr.
  pose proof (rd_args _ _ _ _ _ _ _ _ Hrd) as Hargs.
  assert (forall piece out', out = piece ++ out' -> mapped m dst (zlen piece) /\ outside F dst (zlen piece)) as Hpc.
  { intros piece out' ->. pose proof (zlen_nonneg out'). split; intros a Ha;
      [apply (rd_map _ _ _ _ _ _ _ _ Hrd) | apply (rd_out _ _ _ _ _ _ _ _ Hrd)]; rewrite zlen_app; lia. }
  assert (forall piece (r : option (list Z)), app piece <$> r = Some out ->
    exists out', r = Some out' /\ out = piece ++ out') as Hcut.
  { intros piece [out'|]; simpl; [|done]. intros [= <-]. by exists out'. }
  unfold directive. destruct (f =? ch_x); [|destruct (f =? ch_s); [|destruct (f =? ch_c); [|destruct (f =? ch_d)]]].
  - destruct args as [|[w| |] args]; try done. apply Hcut in Hr as (out' & Hr & Ho).
    exists (numeral w 16), out', (ap + 4), args. do 2 (split; [apply Hargs || done|]). split; [done|].
    apply (emit_hex F m dst ap w args (fun d => k d (src + 1) (ap + 4))); [done | by eapply Hpc].
  - destruct args as [|[|p s|] args]; try done. apply Hcut in Hr as (out' & Hr & Ho).
    exists s, out', (ap + 4), args. do 2 (split; [apply Hargs || done|]). split; [done|].
    apply (emit_str F m dst ap p s args (fun d => k d (src + 1) (ap + 4))); try done;
      [apply Hrd | by eapply Hpc | by eapply Hpc].
  - destruct args as [|[| |a] args]; try done. apply (Hcut [a]) in Hr as (out' & Hr & Ho).
    exists [a], out', (ap + 4), args. do 2 (split; [apply Hargs || done|]). split; [done|].
    apply (emit_char F m dst ap a args); [done|]. by apply (Hpc [a] out').
  - destruct args as [|[w| |] args]; try done. apply Hcut in Hr as (out' & Hr & Ho).
    exists (decimal w), out', (ap + 4), args. do 2 (split; [apply Hargs || done|]). split; [done|].
    apply (emit_dec F m dst ap w args (fun d => k d (src + 1) (ap + 4))); [done | by eapply Hpc].
  - exists [], out, ap, args. change (zlen (@nil Z)) with 0. by rewrite Z.add_0_r.
Qed.

(** A round of the loop on an ordinary character and on a directive. *)
Lemma loop_char F fuel m dst src ap c fmt args out :
  ready F m dst src ap (c :: fmt) args (c :: out) -> c <> ch_percent ->
  vsprintf_loop (S fuel) dst src ap m = vsprintf_loop fuel (dst + 1) (src + 1) ap (write m dst [c]).
Proof.
  intros Hrd Hne. destruct (fmt_char _ _ _ _ _ _ _ _ _ Hrd) as (E & Hn & Hch).
  assert (is_u8 c) as Hu.
  { destruct (rd_fmt _ _ _ _ _ _ _ _ Hrd) as [_ Hc]. by apply Forall_cons in Hc as [[? _] _]. }
  simpl. rewrite (bind_ok _ _ _ _ _ E), Hn. rewrite (Hch ch_percent) by (unfold is_u8, ch_percent; lia).
  destruct (Z.eqb_spec c ch_percent); [done|]. simpl.
  erewrite bind_ok; [|apply store8_ok, (rd_map _ _ _ _ _ _ _ _ Hrd); rewrite zlen_cons; pose proof (zlen_nonneg out); lia].
  by rewrite u8_s8.
Qed.

Lemma loop_directive F fuel m dst src ap f fmt args out :
  ready F m dst src ap (ch_percent :: f :: fmt) args out ->
  vsprintf_loop (S fuel) dst src ap m = directive f dst (src + 1) ap (vsprintf_loop fuel) m.
Proof.
  intros Hrd. destruct (fmt_char _ _ _ _ _ _ _ _ _ Hrd) as (E & Hn & Hch).
  destruct (fmt_directive _ _ _ _ _ _ _ _ _ _ Hrd) as (Ef & Hfc).
  simpl. rewrite (bind_ok _ _ _ _ _ E), Hn, (Hch ch_percent) by (unfold is_u8, ch_percent; lia).
  change (ch_percent =? ch_percent) with true. cbn [negb]. rewrite (bind_ok _ _ _ _ _ Ef).
  unfold directive. by rewrite !Hfc by (unfold is_u8, ch_x, ch_s, ch_c, ch_d; lia).
Qed.

Lemma vsprintf_loop_ok F fuel m dst src ap fmt args out :
  (length fmt < fuel)%nat -> ready F m dst src ap fmt args out -> render fmt args = Some out ->
  vsprintf_loop fuel dst src ap m = Ok (tt, write m dst out).
Proof.
  revert m dst src ap fmt args out. induction fuel as [|fuel IH];
    intros m dst src ap fmt args out Hf Hrd Hr; [lia|].
  destruct fmt as [|c fmt].
  { injection Hr as <-. simpl. by rewrite (bind_ok _ _ _ _ _ (end_read m src (proj1 (rd_fmt _ _ _ _ _ _ _ _ Hrd)))). }
  simpl in Hf. destruct (Z.eqb_spec c ch_percent) as [->|Hne].
  - destruct fmt as [|f fmt]; [done|]. rewrite (loop_directive F fuel m dst src ap f fmt args out Hrd).
    destruct (directive_ok F m dst src (src + 1) ap ch_percent f fmt args out (vsprintf_loop fuel)) as
      (piece & out' & ap' & args' & -> & Ha & Hr' & ->); [done | done | done |].
    rewrite write_app. apply (IH _ _ _ _ fmt args'); [simpl in Hf; lia | | done].
    apply (ready_emit F m dst src ap (ch_percent :: f :: fmt) args piece out' _ ap' args' fmt [ch_percent; f]); try done.
    change (zlen [ch_percent; f]) with 2. lia.
  - simpl in Hr. destruct (Z.eqb_spec c ch_percent); [done|]. simpl in Hr.
    destruct (render fmt args) as [out'|] eqn:Hr'; [|done]. injection Hr as <-.
    rewrite (loop_char F fuel m dst src ap c fmt args out' Hrd Hne).
    apply (IH (write m dst [c]) (dst + zlen [c]) (src + 1) ap fmt args); [lia | | done].
    apply (ready_emit F m dst src ap (c :: fmt) args [c] out' _ ap args fmt [c]); try done. apply Hrd.
Qed.

(** ** Properties *)
Lemma args_tail F m ap a args : args_at F m ap (a :: args) -> args_at F m (ap + 4) args.
Proof. by intros (_ & _ & _ & _ & H). Qed.

Lemma numeral_is_char v base : 2 <= base <= 36 -> is_u32 v -> Forall is_char (numeral v base).
Proof. intros Hb Hv. apply numeral_chars; [done|]. unfold is_u32 in Hv. lia. Qed.

Lemma decimal_is_char w : Forall is_char (decimal w).
Proof.
  unfold decimal. pose proof (s32_range w). destruct (Z.ltb_spec (s32 w) 0).
  - apply Forall_cons. split; [by unfold is_char, is_u8|]. apply numeral_is_char; unfold is_u32; lia.
  - apply numeral_is_char; unfold is_u32; lia.
Qed.

Lemma render_is_char F m ap fmt args out :
  Forall is_char fmt -> args_at F m ap args -> render fmt args = Some out -> Forall is_char out.
Proof.
  assert (forall piece (r : option (list Z)) (out : list Z), Forall is_char piece ->
    (forall o, r = Some o -> Forall is_char o) -> app piece <$> r = Some out -> Forall is_char out) as Hcut.
  { intros piece [o|] out' Hp Ho; simpl; [|done]. intros [= <-]. apply Forall_app. eauto. }
  assert (forall n fmt ap args out, (length fmt <= n)%nat -> Forall is_char fmt ->
    args_at F m ap args -> render fmt args = Some out -> Forall is_char out) as H.
  2: { intros. by apply (H (length fmt) fmt ap args). }
  induction n as [|n IH]; intros [|c f] ap' args' out' Hn Hf Ha Hr; simpl in Hn; try lia;
    try (by injection Hr as <-; constructor).
  apply Forall_cons in Hf as [Hc Hf]. cbn [render] in Hr. destruct (negb (c =? ch_percent)).
  { eapply (Hcut [c]); [by apply Forall_singleton | | exact Hr]. intros o. apply (IH f ap'); done || lia. }
  destruct f as [|d f]; [done|]. apply Forall_cons in Hf as [_ Hf]. simpl in Hn.
  pose proof (fun o => IH f (ap' + 4) (tail args') o) as IH'.
  destruct (d =? ch_x); [|destruct (d =? ch_s); [|destruct (d =? ch_c); [|destruct (d =? ch_d)]]].
  - destruct args' as [|[w| |] args']; try done. eapply Hcut; [| |exact Hr].
    + apply numeral_is_char; [lia | apply Ha].
    + intros o. apply IH'; [lia | done | by eapply args_tail].
  - destruct args' as [|[|p s|] args']; try done. eapply Hcut; [apply Ha | |exact Hr].
    intros o. apply IH'; [lia | done | by eapply args_tail].
  - destruct args' as [|[| |a] args']; try done. eapply (Hcut [a]); [|  |exact Hr].
    + apply Forall_singleton, Ha.
    + intros o. apply IH'; [lia | done | by eapply args_tail].
  - destruct args' as [|[w| |] args']; try done. eapply Hcut; [apply decimal_is_char | |exact Hr].
    intros o. apply IH'; [lia | done | by eapply args_tail].
  - apply (IH f ap' args'); done || lia.
Qed.

Lemma vsprintf_ok F m str format ap fmt args out :
  ready F m str format ap fmt args out -> render fmt args = Some out ->
  m !! (str + zlen out) = Some 0 -> zlen out < 0x100000000 ->
  vsprintf str format ap m = Ok (zlen out, write m str out) /\ cstring (write m str out) str out.
Proof.
  intros Hrd Hr H0 Hl. pose proof (cstring_size _ _ _ (rd_fmt _ _ _ _ _ _ _ _ Hrd)).
  assert (cstring (write m str out) str out) as Hc.
  { split.
    - apply bytes_at_app. split; [apply bytes_at_write_eq|]. split; [|done]. rewrite write_outside by lia. done.
    - eapply render_is_char; [apply Hrd | apply Hrd | done]. }
  split; [|done]. unfold vsprintf.
  erewrite bind_ok; [|rewrite with_fuel_ok; eapply vsprintf_loop_ok; [|exact Hrd|exact Hr]; lia].
  apply strlen_ok; [|done|done]. destruct Hrd. unfold NULL. lia.
Qed.

(** C22: [itoa] writes the numeral of the value in the given base (2 to 36):
    reading the numeral back gives the value, every character of it is a
    digit or an upper-case letter, and it has no leading zero. *)
Theorem itoa_correct (m : mem) (value p base : Z)
    (Hb : 2 <= base <= 36) (Hv : is_u32 value) (Hm : mapped m p (zlen (numeral value base))) :
  itoa value p base m = Ok (p + zlen (numeral value base), write m p (numeral value base)) /\
  read_numeral base (numeral value base) = value /\
  Forall is_char (numeral value base) /\
  (0 < value -> head (numeral value base) <> Some (digit_char 0)).
Proof.
  assert (0 <= value < 2 ^ Z.of_nat 33) as Hv' by (unfold is_u32 in Hv; lia).
  split; [by apply itoa_ok|]. split; [apply read_numeral_ok; (done || lia)|].
  split; [by apply numeral_is_char|]. intros H0. apply numeral_head; [done | lia].
Qed.

(** C21: [vsprintf] writes the rendering of its format and arguments to the
    buffer and nothing else, as long as the buffer does not overlap the
    format, the arguments and the argument strings.  It writes no terminator:
    the buffer is the C string of the rendering, and the length returned is
    the rendering's, when the byte behind it was already 0. *)
Theorem vsprintf_correct (F : Z -> Prop) (m : mem) (str format ap : Z) (fmt : list Z)
    (args : list arg) (out : list Z)
    (Hrd : ready F m str format ap fmt args out) (Hr : render fmt args = Some out)
    (H0 : m !! (str + zlen out) = Some 0) (Hl : zlen out < 0x100000000) :
  exists m', vsprintf str format ap m = Ok (zlen out, m') /\
    sprintf str format ap m = Ok (zlen out, m') /\ cstring m' str out /\
    forall a, ~ str <= a < str + zlen out -> m' !! a = m !! a.
Proof.
  destruct (vsprintf_ok F m str format ap fmt args out Hrd Hr H0 Hl) as [E Hc].
  exists (write m str out). split; [done|]. split; [unfold sprintf; by rewrite (bind_ok _ _ _ _ _ E)|].
  split; [done|]. intros a. apply write_outside.
Qed.

Lemma ready_zeroed F m buf format ap fmt args out :
  mapped m buf 1024 -> outside F buf 1024 -> zlen out < 1024 ->
  ready F m buf format ap fmt args out ->
  ready F (write m buf (replicate (Z.to_nat 1024) 0)) buf format ap fmt args out /\
  write m buf (replicate (Z.to_nat 1024) 0) !! (buf + zlen out) = Some 0.
Proof.
  intros Hm Ho Hl [H1 H2 H3 H4 H5 H6].
  assert (zlen (replicate (Z.to_nat 1024) 0) = 1024) as Hz by (unfold zlen; by rewrite length_replicate).
  assert (agree F m (write m buf (replicate (Z.to_nat 1024) 0))) as Hag by (apply write_agree; by rewrite Hz).
  pose proof (zlen_nonneg out). split; [split; try done|].
  - by apply (cstring_agree F m).
  - by apply (args_at_agree F m).
  - by apply mapped_write.
  - rewrite lookup_write, Hz. destruct (Z.leb_spec buf (buf + zlen out)), (Z.ltb_spec (buf + zlen out) (buf + 1024));
      cbn [andb]; try lia. apply lookup_replicate_2. lia.
Qed.

(** [printf] hands the [write] system call its buffer holding the rendering
    as a C string, for every rendering of at most 1023 characters (nothing
    limits a longer one to the buffer); all other memory is as before. *)
Theorem printf_correct {St} (l : lens St mem) (F : Z -> Prop) (s : St) (write_call : Z -> M St Z)
    (buf format ap : Z) (fmt : list Z) (args : list arg) (out : list Z)
    (Hrd : ready F (view l s) buf format ap fmt args out) (Hr : render fmt args = Some out)
    (Hm : mapped (view l s) buf 1024) (Ho : outside F buf 1024) (Hl : zlen out < 1024) :
  exists m', cstring m' buf out /\ (forall a, ~ buf <= a < buf + 1024 -> m' !! a = view l s !! a) /\
    printf l write_call buf format ap s = write_call buf (put l m' s).
Proof.
  set (m := view l s) in *. destruct (ready_zeroed F m buf format ap fmt args out Hm Ho Hl Hrd) as [Hrd' H0].
  destruct (vsprintf_ok F _ buf format ap fmt args out Hrd' Hr H0) as [E Hc]; [lia|].
  eexists. split; [exact Hc|]. split.
  { intros a Ha. pose proof (zlen_nonneg out). rewrite !write_outside; [done | | lia].
    unfold zlen. rewrite length_replicate. lia. }
  unfold printf. destruct Hrd as [Hd _ _ _ _ _].
  assert (buf <> NULL) as Hn by (unfold NULL; lia). assert (is_u8 0) as H8 by (unfold is_u8; lia).
  pose proof (memset_ok m buf 0 (Z.to_nat 1024) Hn) as Ems. rewrite Z2Nat.id in Ems by lia.
  specialize (Ems H8 Hm). erewrite bind_ok; [|apply zoom_ok; erewrite bind_ok by exact Ems; exact E]. done.
Qed.

(** *** Concrete call: sprintf(buf, "%d-%x%c%s", -42, 255, 'z', "ab") with the
    buffer at 512 and everything else below 256. *)
Definition example_fmt : list Z := [37; 100; 45; 37; 120; 37; 99; 37; 115].
Definition example_args : list arg := [AInt (u32 (-42)); AInt 255; AChar 122; AStr 96 [97; 98]].
Definition example_out : list Z := [45; 52; 50; 45; 70; 70; 122; 97; 98].
Definition example_stack : mem :=
  write (write (write (write ∅ 32 (example_fmt ++ [0])) 68
    (le_bytes (u32 (-42)) ++ le_bytes 255 ++ le_bytes 122 ++ le_bytes 96)) 96 [97; 98; 0])
    512 (replicate 1024 0).

Lemma example_buffer n : n <= 1024 -> mapped example_stack 512 n.
Proof.
  intros Hn a Ha. unfold example_stack.
  eapply (bytes_at_mapped _ 512 (replicate 1024 0)); [apply bytes_at_write_eq|].
  unfold zlen. rewrite length_replicate. lia.
Qed.

Lemma example_ready : ready (fun a => a < 256) example_stack 512 32 64 example_fmt example_args example_out.
Proof.
  assert (forall l, forallb (fun c => (0 <? c) && (c <? 256)) l = true -> Forall is_char l) as Hch.
  { intros l Hl. apply List.Forall_forall. intros c Hc. rewrite forallb_forall in Hl.
    apply Hl in Hc. b2p. unfold is_char, is_u8. lia. }
  assert (cstring example_stack 96 [97; 98]) as Hs by (split; [by vm_compute | by apply Hch]).
  split.
  - lia.
  - split; [by vm_compute | by apply Hch].
  - intros a Ha. change (zlen example_fmt) with 9 in Ha. lia.
  - cbn [args_at arg_word example_args]. repeat split; try (by vm_compute); try (by apply Hs); try (intros a Ha; change (zlen [97; 98]) with 2 in *; lia);
      by apply u32_range.
  - by apply example_buffer.
  - intros a Ha. lia.
Qed.

Lemma itoa_correct_witness : itoa 255 512 16 example_stack = Ok (514, write example_stack 512 [70; 70]).
Proof.
  apply (itoa_correct example_stack 255 512 16); [lia | by unfold is_u32 | by apply example_buffer].
Defined.

Lemma vsprintf_correct_witness :
  exists m', vsprintf 512 32 64 example_stack = Ok (9, m') /\ sprintf 512 32 64 example_stack = Ok (9, m') /\
    cstring m' 512 example_out /\ forall a, ~ 512 <= a < 521 -> m' !! a = example_stack !! a.
Proof.
  apply (vsprintf_correct (fun a => a < 256) example_stack 512 32 64 example_fmt example_args example_out);
    [exact example_ready | by vm_compute..].
Defined.

Definition whole : lens mem mem.
Proof. by refine {| view := fun m => m; put := fun m _ => m |}. Defined.

Lemma printf_correct_witness :
  exists m', cstring m' 512 example_out /\
    printf whole strlen 512 32 64 example_stack = strlen 512 m'.
Proof.
  destruct (printf_correct whole (fun a => a < 256) example_stack strlen 512 32 64 example_fmt example_args example_out)
    as (m' & Hc & _ & E); [| | | | | exists m'; split; [exact Hc | exact E]].
  - exact example_ready.
  - by vm_compute.
  - by apply example_buffer.
  - intros a Ha. lia.
  - by vm_compute.
Defined.
