(* ===== verification/Descriptor.v ===== *)
(** * Segment descriptors and the task state segment: userprog/tss.c,
      userprog/tss.h, kernel/global.h (struct gdt_desc)

    The TSS is its 27 words; the GDT is a map from addresses to descriptors,
    loaded through the GDTR. *)
From stdpp Require Import base numbers list gmap fin_maps.
From Stdlib Require Import ZArith Lia Zbitwise.
From S2P Require Import Prelude Globals.

(** ** Data *)
Record gdt_desc := GdtDesc {
  limit_low_word : Z;
  base_low_word : Z;
  base_mid_byte : Z;
  attr_low_byte : Z;
  limit_high_attr_high : Z;
  base_high_byte : Z;
}.

(** [struct tss] as words, with the fields the code names. *)
Definition sizeof_tss : Z := 108.
Definition tss_esp0 : nat := 1.
Definition tss_ss0 : nat := 2.
Definition tss_trace : nat := 25.
Definition tss_io_base : nat := 26.

Record tss_state := TssState {
  tss : list Z;
  gdt : gmap Z gdt_desc;
  gdtr : Z;
  tr : Z;
}.

(** ** Operations *)
Definition make_gdt_desc (desc_addr limit attr_low attr_high : Z) : gdt_desc :=
  let desc_base := u32 desc_addr in
  {| limit_low_word := u16 (Z.land limit 0x0000ffff);
     base_low_word := u16 (Z.land desc_base 0x0000ffff);
     base_mid_byte := u8 (Z.shiftr (Z.land desc_base 0x00ff0000) 16);
     attr_low_byte := u8 attr_low;
     limit_high_attr_high := u8 (Z.shiftr (Z.land limit 0x000f0000) 16 + u8 attr_high);
     base_high_byte := u8 (Z.shiftr desc_base 24) |}.

Definition set_tss_word (i : nat) (v : Z) : M tss_state unit := fun s =>
  if decide (i < length (tss s))%nat then Ok (tt, TssState (<[i := v]> (tss s)) (gdt s) (gdtr s) (tr s)) else Fault.

Definition store_desc (a : Z) (d : gdt_desc) : M tss_state unit :=
  modify (fun s => TssState (tss s) (<[a := d]> (gdt s)) (gdtr s) (tr s)).

(** [tss_addr]: the address of the TSS. *)
Definition tss_init (tss_addr : Z) : M tss_state unit :=
  let tss_size := sizeof_tss in
  modify (fun s => TssState (replicate 27 0) (gdt s) (gdtr s) (tr s)) ;;;
  set_tss_word tss_ss0 SELECTOR_K_STACK ;;;
  set_tss_word tss_io_base tss_size ;;;
  store_desc 0xc0000920 (make_gdt_desc tss_addr (tss_size - 1) TSS_ATTR_LOW TSS_ATTR_HIGH) ;;;
  store_desc 0xc0000928 (make_gdt_desc 0 0xfffff GDT_CODE_ATTR_LOW_DPL3 GDT_ATTR_HIGH) ;;;
  store_desc 0xc0000930 (make_gdt_desc 0 0xfffff GDT_DATA_ATTR_LOW_DPL3 GDT_ATTR_HIGH) ;;;
  let gdt_ptr := Z.lor (8 * 7 - 1) (u64 (Z.shiftl 0xc0000900 16)) in
  modify (fun s => TssState (tss s) (gdt s) gdt_ptr (tr s)) ;;;
  modify (fun s => TssState (tss s) (gdt s) (gdtr s) SELECTOR_TSS).

(** ** How the processor reads them *)
Definition desc_base (d : gdt_desc) : Z := base_low_word d + base_mid_byte d * 2 ^ 16 + base_high_byte d * 2 ^ 24.
Definition desc_limit (d : gdt_desc) : Z := limit_low_word d + limit_high_attr_high d mod 16 * 2 ^ 16.
Definition desc_type (d : gdt_desc) : Z := attr_low_byte d mod 16.
Definition desc_is_segment (d : gdt_desc) : bool := Z.testbit (attr_low_byte d) 4.
Definition desc_dpl (d : gdt_desc) : Z := attr_low_byte d / 32 mod 4.
Definition desc_present (d : gdt_desc) : bool := Z.testbit (attr_low_byte d) 7.
Definition desc_flags (d : gdt_desc) : Z := limit_high_attr_high d / 16.

(** The last byte of the segment: the limit counts pages when flag 3 is set. *)
Definition desc_top (d : gdt_desc) : Z :=
  if Z.testbit (desc_flags d) 3 then desc_limit d * 4096 + 4095 else desc_limit d.

(** The descriptor a selector stands for: its index in the table at the GDTR's
    base, inside the GDTR's limit. *)
Definition selected (s : tss_state) (selector : Z) : option gdt_desc :=
  let i := Z.shiftr selector 3 in
  if 8 * i + 7 <=? gdtr s mod 2 ^ 16 then gdt s !! (Z.shiftr (gdtr s) 16 + 8 * i) else None.

(** Whether code of a privilege above IOPL may use a port: the I/O map base is
    the 16-bit word at offset 102 of the TSS; the two bytes of the map at the
    port must lie inside the segment and the port's bit be clear. *)
Definition tss_word (s : tss_state) (i : Z) : Z := default 0 (tss s !! Z.to_nat i).
Definition tss_byte (s : tss_state) (i : Z) : Z := tss_word s (i / 4) / 2 ^ (8 * (i mod 4)) mod 256.
Definition io_map_base (s : tss_state) : Z := tss_byte s 102 + 256 * tss_byte s 103.
Definition port_allowed (s : tss_state) (port : Z) : bool :=
  match selected s (tr s) with
  | Some d =>
      let b := io_map_base s + port / 8 in
      (b + 1 <=? desc_top d) && negb (Z.testbit (tss_byte s b) (port mod 8))
  | None => false
  end.

(** ** Proofs *)
Lemma land_ones_mod z n : 0 <= n -> Z.land z (Z.ones n) = z mod 2 ^ n.
Proof. intros Hn. by apply Z.land_ones. Qed.

Lemma shifted_field z lo n :
  0 <= lo -> 0 <= n -> Z.shiftr (Z.land z (Z.shiftl (Z.ones n) lo)) lo = z / 2 ^ lo mod 2 ^ n.
Proof.
  intros Hlo Hn. rewrite Z.shiftr_land, Z.shiftr_shiftl_l, Z.sub_diag, Z.shiftl_0_r by lia.
  by rewrite Z.land_ones, Z.shiftr_div_pow2 by lia.
Qed.

Lemma make_gdt_desc_fields base limit low high :
  is_u32 base -> 0 <= limit < 2 ^ 20 -> is_u8 low -> is_u8 high -> high mod 16 = 0 ->
  make_gdt_desc base limit low high =
  GdtDesc (limit mod 2 ^ 16) (base mod 2 ^ 16) (base / 2 ^ 16 mod 2 ^ 8) low (limit / 2 ^ 16 + high) (base / 2 ^ 24).
Proof.
  intros Hb Hl Hlo Hhi Hal. unfold make_gdt_desc. rewrite u32_id, (u8_id low), (u8_id high) by done.
  change 0x0000ffff with (Z.ones 16). change 0x00ff0000 with (Z.shiftl (Z.ones 8) 16). change 0x000f0000 with (Z.shiftl (Z.ones 4) 16).
  rewrite !land_ones_mod, !shifted_field, Z.shiftr_div_pow2 by lia. unfold is_u32, is_u8, u16, u8 in *.
  f_equal; Z.div_mod_to_equations; lia.
Qed.

(** ** Properties *)

(** A descriptor made by [make_gdt_desc] is read back by the processor as
    the base, the limit and the attributes it was made from. *)
Theorem gdt_desc_roundtrip (base limit low high : Z)
    (Hb : is_u32 base) (Hl : 0 <= limit < 2 ^ 20) (Hlo : is_u8 low) (Hhi : is_u8 high) (Hal : high mod 16 = 0) :
  let d := make_gdt_desc base limit low high in
  desc_base d = base /\ desc_limit d = limit /\ attr_low_byte d = low /\ desc_flags d = high / 16.
Proof.
  cbv zeta. rewrite make_gdt_desc_fields by done. unfold desc_base, desc_limit, desc_flags, is_u32, is_u8 in *. simpl.
  split; [|split; [|split; [done|]]]; Z.div_mod_to_equations; lia.
Qed.

Definition after_tss_init (tss_addr : Z) (s : tss_state) : tss_state :=
  TssState (<[tss_io_base := sizeof_tss]> (<[tss_ss0 := SELECTOR_K_STACK]> (replicate 27 0)))
    (<[0xc0000930 := make_gdt_desc 0 0xfffff GDT_DATA_ATTR_LOW_DPL3 GDT_ATTR_HIGH]>
      (<[0xc0000928 := make_gdt_desc 0 0xfffff GDT_CODE_ATTR_LOW_DPL3 GDT_ATTR_HIGH]>
        (<[0xc0000920 := make_gdt_desc tss_addr (sizeof_tss - 1) TSS_ATTR_LOW TSS_ATTR_HIGH]> (gdt s))))
    0xc00009000037 SELECTOR_TSS.

Lemma tss_init_eq tss_addr s : tss_init tss_addr s = Ok (tt, after_tss_init tss_addr s).
Proof. done. Qed.

(** The entry of the GDT a selector of the kernel stands for. *)
Lemma selected_after tss_addr s sel a :
  Z.shiftr sel 3 = a -> a = 4 \/ a = 5 \/ a = 6 ->
  selected (after_tss_init tss_addr s) sel = gdt (after_tss_init tss_addr s) !! (0xc0000900 + 8 * a).
Proof.
  intros E Ha. unfold selected. rewrite E. change (gdtr (after_tss_init tss_addr s) mod 2 ^ 16) with 55.
  change (Z.shiftr (gdtr (after_tss_init tss_addr s)) 16) with 0xc0000900. destruct (Z.leb_spec (8 * a + 7) 55); [done | lia].
Qed.

(** After [tss_init] the selectors the kernel uses stand for what it means
    them to: the user code and data selectors for segments of privilege 3 over
    the whole address space, code and data, and the task register for a
    present task state segment of privilege 0 at the TSS, whose ring-0 stack
    segment is the kernel's; other descriptors are as they were. *)
Theorem tss_init_correct (tss_addr : Z) (s : tss_state) (Ha : is_u32 tss_addr) :
  exists s', tss_init tss_addr s = Ok (tt, s') /\
    (exists d, selected s' SELECTOR_U_CODE = Some d /\ desc_base d = 0 /\ desc_top d = 0xffffffff /\
       desc_is_segment d = true /\ desc_type d = DESC_TYPE_CODE /\ desc_dpl d = 3 /\ desc_present d = true) /\
    (exists d, selected s' SELECTOR_U_DATA = Some d /\ desc_base d = 0 /\ desc_top d = 0xffffffff /\
       desc_is_segment d = true /\ desc_type d = DESC_TYPE_DATA /\ desc_dpl d = 3 /\ desc_present d = true) /\
    (exists d, selected s' (tr s') = Some d /\ desc_base d = tss_addr /\ sizeof_tss - 1 <= desc_top d /\
       desc_is_segment d = false /\ desc_type d = DESC_TYPE_TSS /\ desc_dpl d = 0 /\ desc_present d = true) /\
    tss_word s' 2 = SELECTOR_K_STACK /\ length (tss s') = 27%nat /\
    (forall a, a <> 0xc0000920 -> a <> 0xc0000928 -> a <> 0xc0000930 -> gdt s' !! a = gdt s !! a).
Proof.
  exists (after_tss_init tss_addr s). split; [apply tss_init_eq|]. split; [|split; [|split; [|split; [done|split; [done|]]]]].
  - eexists. split; [rewrite (selected_after _ _ _ 5) by (done || lia); simpl; by map_lookup | by vm_compute].
  - eexists. split; [rewrite (selected_after _ _ _ 6) by (done || lia); simpl; by map_lookup | by vm_compute].
  - eexists. split; [rewrite (selected_after _ _ _ 4) by (done || lia); simpl; by map_lookup|].
    rewrite make_gdt_desc_fields by (done || by vm_compute). unfold is_u32 in Ha.
    split; [unfold desc_base; simpl; Z.div_mod_to_equations; lia | by vm_compute].
  - intros a H1 H2 H3. simpl. by map_lookup.
Qed.

(** The I/O map base the processor reads is the high half of the word [trace],
    which is 0, and not [io_base]: a user process may use the ports whose bits
    in the TSS itself are clear, those of the keyboard among them. *)
Lemma tss_io_map_open (tss_addr port : Z) (s : tss_state) :
  0x60 <= port < 0x78 -> port_allowed (after_tss_init tss_addr s) port = true.
Proof.
  intros Hp. unfold port_allowed. rewrite (selected_after _ _ _ 4) by (done || lia). simpl gdt. map_lookup.
  assert (port ∈ seqZ 0x60 24) as Hin by (apply elem_of_seqZ; lia). clear Hp. revert port Hin. apply Forall_forall.
  repeat constructor.
Qed.

(** *** Concrete instances *)
Lemma gdt_desc_roundtrip_witness :
  desc_base (make_gdt_desc 0xc0012340 107 TSS_ATTR_LOW TSS_ATTR_HIGH) = 0xc0012340.
Proof. apply (gdt_desc_roundtrip 0xc0012340 107 TSS_ATTR_LOW TSS_ATTR_HIGH); by vm_compute. Defined.

Definition example_tss : tss_state := TssState (replicate 27 9) ∅ 0 0.

Lemma tss_init_correct_witness : exists s', tss_init 0xc0012340 example_tss = Ok (tt, s') /\
  exists d, selected s' SELECTOR_TSS = Some d /\ desc_base d = 0xc0012340.
Proof.
  destruct (tss_init_correct 0xc0012340 example_tss ltac:(unfold is_u32; lia)) as (s' & E & _ & _ & (d & Hd & Hb & _) & _).
  exists s'. split; [exact E|]. exists d. injection E as E. subst s'. split; [exact Hd | exact Hb].
Defined.
