(* ===== verification/Thread.v ===== *)
(** * Threads and the scheduler: thread/thread.c, thread/switch.S,
      device/timer.c (intr_timer_handler), userprog/process.c
      (process_activate), userprog/tss.c (update_tss_esp)

    The kernel's state is the store of list nodes with EFLAGS, the task
    structures by address, the locks and semaphores by address, the running thread and the
    machine.  The two list nodes of a task lie inside its task structure, at
    the offsets the compiler gives them. *)
From stdpp Require Import base numbers list gmap fin_maps.
From Stdlib Require Import ZArith Lia.
From S2P Require Import Prelude Globals Interrupt LinkedList Bitmap Paging PageAlloc.

(** ** Data *)
Inductive task_status :=
| TASK_RUNNING
| TASK_READY
| TASK_BLOCKED
| TASK_WAITING
| TASK_HANGING
| TASK_DIED.

#[export] Instance task_status_eq_dec : EqDecision task_status.
Proof. solve_decision. Defined.

(** [struct task_struct] without the two list nodes. *)
Record task_struct := Task {
  self_kstack : Z;
  pid : Z;
  status : task_status;
  name : list Z;
  priority : Z;
  ticks : Z;
  elapsed_ticks : Z;
  pgdir : Z;
  task_vaddr_pool : virtual_addr_pool;
  stack_magic : Z;
}.

(** [offset(struct task_struct, general_tag)] and [all_list_tag]. *)
Definition general_tag (t : Z) : Z := t + 36.
Definition all_list_tag (t : Z) : Z := t + 44.
(** [elem2entry(struct task_struct, general_tag, tag)]. *)
Definition general_entry (tag : Z) : Z := u32 (tag - 36).

(** The semaphores' values, by the address of the [struct semaphore], and the
    fields of the [struct lock]s, by the address of the lock; a lock's
    semaphore lies at offset 4 in it and a semaphore's list of waiters at
    offset 4 in the semaphore. *)
Record lock := Lock { holder : Z; holder_repeat_cnt : Z }.
Record sync_state := Sync { values : gmap Z Z; locks : gmap Z lock }.
Definition semaphore (plock : Z) : Z := plock + 4.
Definition waiters (psema : Z) : Z := psema + 4.

Record kstate := KState {
  lst : lstate;                    (* all list nodes, and EFLAGS *)
  tasks : gmap Z task_struct;
  sync : sync_state;
  cur : Z;                         (* running_thread() *)
  next_pid : Z;                    (* static in allocate_pid *)
  mach : mmu;
  esp0 : Z;                        (* tss.esp0 *)
  total_ticks : Z;                 (* the global [ticks] *)
}.

(** Addresses of the globals. *)
Class Layout := {
  thread_ready_list : Z;
  thread_all_list : Z;
  pid_lock : Z;
}.

(** ** State access *)
Definition lst_lens : lens kstate lstate.
Proof.
  refine {| view := lst; put := fun x s => KState x (tasks s) (sync s) (cur s) (next_pid s)
    (mach s) (esp0 s) (total_ticks s) |}; by intros; try destruct s.
Defined.

Definition mach_lens : lens kstate mmu.
Proof.
  refine {| view := mach; put := fun x s => KState (lst s) (tasks s) (sync s) (cur s) (next_pid s)
    x (esp0 s) (total_ticks s) |}; by intros; try destruct s.
Defined.

(** List operations, and the interrupt functions, on the kernel's state. *)
Definition klist {A} (m : M lstate A) : M kstate A := zoom lst_lens m.
Definition kflags {A} (m : M Z A) : M kstate A := zoom (lens_comp lst_lens eflags_lens) m.

Definition task_at (t : Z) : M kstate task_struct := s ← get; from_option_M (tasks s !! t).

Definition put_tasks (x : gmap Z task_struct) (s : kstate) : kstate :=
  KState (lst s) x (sync s) (cur s) (next_pid s) (mach s) (esp0 s) (total_ticks s).

(** Assignments to fields of a task structure. *)
Definition update_task (t : Z) (f : task_struct -> task_struct) : M kstate unit :=
  ts ← task_at t; modify (fun s => put_tasks (<[t := f ts]> (tasks s)) s).

Definition set_status (st : task_status) (ts : task_struct) : task_struct :=
  Task (self_kstack ts) (pid ts) st (name ts) (priority ts) (ticks ts) (elapsed_ticks ts)
    (pgdir ts) (task_vaddr_pool ts) (stack_magic ts).

Definition set_ticks (n : Z) (ts : task_struct) : task_struct :=
  Task (self_kstack ts) (pid ts) (status ts) (name ts) (priority ts) n (elapsed_ticks ts)
    (pgdir ts) (task_vaddr_pool ts) (stack_magic ts).

Definition set_elapsed (n : Z) (ts : task_struct) : task_struct :=
  Task (self_kstack ts) (pid ts) (status ts) (name ts) (priority ts) (ticks ts) n
    (pgdir ts) (task_vaddr_pool ts) (stack_magic ts).

Definition running_thread : M kstate Z := gets cur.

(** ** process_activate *)
Definition page_dir_activate (pthread : Z) : M kstate unit :=
  ts ← task_at pthread;
  pagedir_phy_addr ← (if negb (pgdir ts =? NULL) then zoom mach_lens (addr_v2p (pgdir ts))
                      else mret 0x100000);
  zoom mach_lens (modify (fun m => Mmu (ram m) pagedir_phy_addr)).

Definition update_tss_esp (pthread : Z) : M kstate unit :=
  modify (fun s => KState (lst s) (tasks s) (sync s) (cur s) (next_pid s) (mach s)
    (u32 (pthread + PG_SIZE)) (total_ticks s)).

Definition process_activate (pthread : Z) : M kstate unit :=
  ASSERT (negb (pthread =? NULL)) ;;;
  page_dir_activate pthread ;;;
  ts ← task_at pthread;
  when (negb (pgdir ts =? NULL)) (update_tss_esp pthread).

(** ** The scheduler *)

(** [switch_to] pushes the registers of [cur] on its stack, stores the stack
    pointer in its [self_kstack], and takes those of [next], so the call returns
    in [next]; it returns here when [cur] is chosen again.  Of a thread that is
    switched out, the continuation of [Switched] stands for what is saved: the
    words pushed and the field [self_kstack] of [cur] are not modelled (those
    of a thread that has not run yet are: [ThreadCreate.switch_restore]). *)
Definition put_cur (t : Z) (s : kstate) : kstate :=
  KState (lst s) (tasks s) (sync s) t (next_pid s) (mach s) (esp0 s) (total_ticks s).

Definition switch_to (c next : Z) : M kstate unit := fun s =>
  if next =? c then Ok (tt, s)
  else Switched (put_cur next s) (fun s' => Ok (tt, s')).

Section Scheduler.
Context `{!Layout}.

Definition schedule : M kstate unit :=
  st ← kflags get_intr_status;
  ASSERT (bool_decide (st = INTR_OFF)) ;;;
  c ← running_thread;
  ts ← task_at c;
  when (bool_decide (status ts = TASK_RUNNING)) (
    f ← klist (node_find thread_ready_list (general_tag c));
    ASSERT (f =? 0) ;;;
    klist (list_append thread_ready_list (general_tag c)) ;;;
    update_task c (fun ts => set_ticks (priority ts) ts) ;;;
    update_task c (set_status TASK_READY)) ;;;
  e ← klist (list_empty thread_ready_list);
  ASSERT (e =? 0) ;;;
  thread_tag ← klist (list_pop thread_ready_list);
  let next := general_entry thread_tag in
  update_task next (set_status TASK_RUNNING) ;;;
  process_activate next ;;;
  switch_to c next.

Definition can_block (stat : task_status) : bool :=
  bool_decide (stat = TASK_BLOCKED) || bool_decide (stat = TASK_WAITING) ||
  bool_decide (stat = TASK_HANGING).

Definition thread_block (stat : task_status) : M kstate unit :=
  ASSERT (can_block stat) ;;;
  old_status ← kflags intr_disable;
  cur_thread ← running_thread;
  update_task cur_thread (set_status stat) ;;;
  schedule ;;;
  _ ← kflags (set_intr_status old_status);
  mret tt.

Definition thread_unblock (pthread : Z) : M kstate unit :=
  old_status ← kflags intr_disable;
  ts ← task_at pthread;
  ASSERT (can_block (status ts)) ;;;
  when (negb (bool_decide (status ts = TASK_READY))) (
    f ← klist (node_find thread_ready_list (general_tag pthread));
    ASSERT (f =? 0) ;;;
    f ← klist (node_find thread_ready_list (general_tag pthread));
    when (negb (f =? 0)) PANIC ;;;
    klist (list_push thread_ready_list (general_tag pthread)) ;;;
    update_task pthread (set_status TASK_READY)) ;;;
  _ ← kflags (set_intr_status old_status);
  mret tt.

Definition STACK_MAGIC : Z := 0x20030621.

Definition intr_timer_handler : M kstate unit :=
  cur_thread ← running_thread;
  ts ← task_at cur_thread;
  ASSERT (stack_magic ts =? STACK_MAGIC) ;;;
  update_task cur_thread (fun ts => set_elapsed (u32 (elapsed_ticks ts + 1)) ts) ;;;
  modify (fun s => KState (lst s) (tasks s) (sync s) (cur s) (next_pid s) (mach s) (esp0 s)
    (u32 (total_ticks s + 1))) ;;;
  ts ← task_at cur_thread;
  if ticks ts =? 0 then schedule
  else update_task cur_thread (fun ts => set_ticks (u8 (ticks ts - 1)) ts).
End Scheduler.

(** ** Steps *)
Definition put_lst (x : lstate) (s : kstate) : kstate :=
  KState x (tasks s) (sync s) (cur s) (next_pid s) (mach s) (esp0 s) (total_ticks s).

Lemma wp_klist {A} (m : M lstate A) s (Q : A -> kstate -> Prop) :
  wp m (lst s) (fun a l => Q a (put_lst l s)) -> wp (klist m) s Q.
Proof. intros H. by apply wp_zoom. Qed.

(** A query of a list leaves the state as it is. *)
Lemma wp_klist_query {A} (m : M lstate A) s (P : A -> Prop) (Q : A -> kstate -> Prop) :
  wp m (lst s) (fun a l => l = lst s /\ P a) -> (forall a, P a -> Q a s) -> wp (klist m) s Q.
Proof.
  intros H HQ. apply wp_klist. eapply wp_mono; [exact H|]. intros a l [-> Ha].
  destruct s. by apply HQ.
Qed.

Lemma wp_kflags_disable s (Q : intr_status -> kstate -> Prop) :
  Q (status_of (if_flag (eflags (lst s))))
    (put_lst (LState (nodes (lst s)) (set_if false (eflags (lst s)))) s) ->
  wp (kflags intr_disable) s Q.
Proof. intros HQ. apply wp_zoom. by eapply wp_ok; [apply intr_disable_eq|]. Qed.

Lemma wp_kflags_set b s (Q : intr_status -> kstate -> Prop) :
  (forall st, Q st (put_lst (LState (nodes (lst s)) (set_if b (eflags (lst s)))) s)) ->
  wp (kflags (set_intr_status (status_of b))) s Q.
Proof. intros HQ. apply wp_zoom. by eapply wp_ok; [apply set_intr_status_eq|]. Qed.

Lemma wp_kflags_get s (Q : intr_status -> kstate -> Prop) :
  Q (status_of (if_flag (eflags (lst s)))) s -> wp (kflags get_intr_status) s Q.
Proof.
  intros HQ. apply wp_zoom. eapply wp_ok; [apply get_intr_status_eq|]. by destruct s as [[]].
Qed.

Lemma wp_task_at t ts s (Q : task_struct -> kstate -> Prop) :
  tasks s !! t = Some ts -> Q ts s -> wp (task_at t) s Q.
Proof. intros Ht HQ. unfold task_at. wp_steps. by eapply wp_from_option. Qed.

Lemma wp_update_task t f ts s (Q : unit -> kstate -> Prop) :
  tasks s !! t = Some ts -> Q tt (put_tasks (<[t := f ts]> (tasks s)) s) -> wp (update_task t f) s Q.
Proof. intros Ht HQ. unfold update_task. wp_step. by eapply wp_task_at. Qed.

Lemma update_task_eq t f ts s :
  tasks s !! t = Some ts -> update_task t f s = Ok (tt, put_tasks (<[t := f ts]> (tasks s)) s).
Proof. unfold update_task, task_at, mbind, M_bind, get. simpl. by intros ->. Qed.

(** *** Activation *)
Definition dir_ok (s : kstate) (ts : task_struct) : Prop :=
  pgdir ts = NULL \/ exists pa, addr_v2p (pgdir ts) (mach s) = Ok (pa, mach s).

(** CR3 and esp0 after [process_activate]. *)
Definition new_cr3 (s : kstate) (ts : task_struct) : Z :=
  if pgdir ts =? NULL then 0x100000
  else match addr_v2p (pgdir ts) (mach s) with Ok (pa, _) => pa | _ => 0 end.

Definition new_esp0 (s : kstate) (t : Z) (ts : task_struct) : Z :=
  if pgdir ts =? NULL then esp0 s else u32 (t + PG_SIZE).

Definition activated (s : kstate) (t : Z) (ts : task_struct) : kstate :=
  KState (lst s) (tasks s) (sync s) (cur s) (next_pid s) (Mmu (ram (mach s)) (new_cr3 s ts))
    (new_esp0 s t ts) (total_ticks s).

Lemma process_activate_ok s t ts :
  t <> NULL -> tasks s !! t = Some ts -> dir_ok s ts ->
  wp (process_activate t) s (fun _ s' => s' = activated s t ts).
Proof.
  intros Hn Ht Hd. unfold process_activate. wp_step.
  apply wp_ASSERT; [by destruct (Z.eqb_spec t NULL)|]. unfold page_dir_activate.
  wp_step. wp_step. eapply wp_task_at; [done|]. unfold activated, new_cr3, new_esp0.
  destruct (Z.eqb_spec (pgdir ts) NULL) as [E|E]; cbn [negb].
  - wp_step. wp_step. wp_step. wp_step. wp_step. eapply wp_task_at; [done|].
    rewrite E. by apply wp_ret.
  - destruct Hd as [|[pa Hpa]]; [done|]. rewrite Hpa. wp_step. wp_step. eapply wp_ok; [exact Hpa|].
    wp_step. wp_step. wp_step. eapply wp_task_at; [done|].
    destruct (Z.eqb_spec (pgdir ts) NULL); [done|]. by destruct s.
Qed.

(** ** The scheduler's invariant *)
Section SchedulerProofs.
Context `{!Layout}.

(** The ready list holds exactly the ready tasks [q], in order. *)
Record queue_ok (s : kstate) (L : gmap Z (list Z)) (q : list Z) : Prop := {
  so_lists : lists_ok (nodes (lst s)) L;
  so_ready : L !! thread_ready_list = Some (general_tag <$> q);
  so_addr : forall t ts, tasks s !! t = Some ts -> 0 < t < 0xfffff000;
  so_queued : forall t, t ∈ q -> exists ts, tasks s !! t = Some ts /\ status ts = TASK_READY;
  so_complete : forall t ts, tasks s !! t = Some ts -> status ts = TASK_READY -> t ∈ q;
  so_cur : is_Some (tasks s !! cur s);
}.

(** Only the running thread is running, and it is in no list. *)
Record sched_ok (s : kstate) (L : gmap Z (list Z)) (q : list Z) : Prop := {
  so_queue : queue_ok s L q;
  so_running : forall t ts, tasks s !! t = Some ts -> status ts = TASK_RUNNING ->
    t = cur s /\ unlinked (nodes (lst s)) L (general_tag t);
}.

Lemma general_tag_inj : Inj eq eq general_tag.
Proof. intros a b. unfold general_tag. lia. Qed.
#[local] Existing Instance general_tag_inj.

Lemma general_entry_tag t : 0 < t < 0xfffff000 -> general_entry (general_tag t) = t.
Proof. intros Ht. unfold general_entry, general_tag. rewrite u32_id; [lia | unfold is_u32; lia]. Qed.

Lemma ready_nodup s L q : queue_ok s L q -> NoDup q.
Proof.
  intros Hso. destruct (ok_lists _ _ (so_lists _ _ _ Hso) _ _ (so_ready _ _ _ Hso)) as [_ Hnd].
  unfold path in Hnd. apply NoDup_cons in Hnd as [_ Hnd]. apply NoDup_app in Hnd as (Hnd & _ & _).
  by apply NoDup_fmap_1 in Hnd.
Qed.

Lemma find_ready s L q t :
  queue_ok s L q ->
  wp (node_find thread_ready_list (general_tag t)) (lst s)
    (fun r l => l = lst s /\ r = if decide (t ∈ q) then 1 else 0).
Proof.
  intros Hso. eapply wp_mono; [apply (node_find_ok _ L _ _ _ (so_lists _ _ _ Hso) (so_ready _ _ _ Hso))|].
  intros r l [-> ->]. split; [done|]. destruct (decide (t ∈ q)) as [Hin|Hni].
  - by rewrite decide_True by (by apply list_elem_of_fmap_2).
  - rewrite decide_False; [done|]. intros (t' & Heq & Ht')%list_elem_of_fmap. by simplify_eq.
Qed.

(** The tasks after the current thread has been put back in the queue. *)
Definition requeued_tasks (s : kstate) (ts : task_struct) : gmap Z task_struct :=
  if decide (status ts = TASK_RUNNING)
  then <[cur s := set_status TASK_READY (set_ticks (priority ts) ts)]> (tasks s) else tasks s.

Definition requeued (s : kstate) (ts : task_struct) (q : list Z) : list Z :=
  if decide (status ts = TASK_RUNNING) then q ++ [cur s] else q.

Lemma running_not_queued s L q t ts :
  queue_ok s L q -> tasks s !! t = Some ts -> status ts = TASK_RUNNING -> t ∉ q.
Proof.
  intros Hq Ht Hr Hin. destruct (so_queued _ _ _ Hq t Hin) as (ts' & Ht' & Hs).
  assert (ts = ts') as -> by congruence. congruence.
Qed.

(** The state after [requeue]. *)
Definition requeued_state (s : kstate) (l : lstate) (ts : task_struct) : kstate :=
  put_tasks (requeued_tasks s ts) (put_lst l s).

Lemma requeue_ok s L q ts :
  sched_ok s L q -> tasks s !! cur s = Some ts ->
  wp (when (bool_decide (status ts = TASK_RUNNING)) (
    f ← klist (node_find thread_ready_list (general_tag (cur s)));
    ASSERT (f =? 0) ;;;
    klist (list_append thread_ready_list (general_tag (cur s))) ;;;
    update_task (cur s) (fun ts => set_ticks (priority ts) ts) ;;;
    update_task (cur s) (set_status TASK_READY))) s (fun _ s' => exists l,
    s' = requeued_state s l ts /\
    list_post (lst s) (<[thread_ready_list := general_tag <$> requeued s ts q]> L) l).
Proof.
  intros [Hq Hrun] Hts. unfold requeued_state, requeued_tasks, requeued. apply wp_when; intros Hst; b2p.
  - destruct (Hrun _ _ Hts Hst) as [_ Hun]. rewrite !(decide_True _ _ Hst).
    wp_step. apply (wp_klist_query _ _ (fun r => r = if decide (cur s ∈ q) then 1 else 0)).
    { by apply find_ready with (L := L). }
    intros f ->. rewrite decide_False by (by eapply running_not_queued). wp_step. apply wp_ASSERT; [done|].
    wp_step. apply wp_klist. eapply wp_mono.
    { apply (list_append_ok _ L _ _ _ (so_lists _ _ _ Hq) (so_ready _ _ _ Hq) Hun). }
    intros [] l Hl. wp_step. eapply wp_update_task; [exact Hts|].
    eapply wp_update_task; [apply lookup_insert_eq|]. exists l. split; [|by rewrite fmap_app].
    unfold put_tasks, put_lst. simpl. f_equal. apply insert_insert_eq.
  - rewrite !(decide_False _ _ Hst). exists (lst s). split; [by destruct s|].
    rewrite insert_id by apply Hq. split; [apply Hq | done].
Qed.

Definition none_running (s : kstate) : Prop :=
  forall t ts, tasks s !! t = Some ts -> status ts <> TASK_RUNNING.

Lemma requeued_queue_ok s L q ts l :
  sched_ok s L q -> tasks s !! cur s = Some ts ->
  list_post (lst s) (<[thread_ready_list := general_tag <$> requeued s ts q]> L) l ->
  let s1 := requeued_state s l ts in
  queue_ok s1 (<[thread_ready_list := general_tag <$> requeued s ts q]> L) (requeued s ts q) /\
  none_running s1.
Proof.
  intros [Hq Hrun] Hts (Hl & _ & _) s1. unfold s1, requeued_state, requeued_tasks, requeued in *.
  destruct (decide (status ts = TASK_RUNNING)) as [Hst|Hst].
  - split; [split|]; simpl.
    + done.
    + apply lookup_insert_eq.
    + intros t ts'. destruct (Z.eq_dec (cur s) t) as [<-|Hne].
      * rewrite lookup_insert_eq. intros _. by apply (so_addr _ _ _ Hq _ ts).
      * rewrite lookup_insert_ne by done. apply Hq.
    + intros t [Hin| ->%list_elem_of_singleton]%elem_of_app; [|rewrite lookup_insert_eq; eauto].
      destruct (Z.eq_dec (cur s) t) as [<-|Hne]; [rewrite lookup_insert_eq; eauto|].
      rewrite lookup_insert_ne by done. by apply Hq.
    + intros t ts'. rewrite elem_of_app, list_elem_of_singleton.
      destruct (Z.eq_dec (cur s) t) as [<-|Hne]; [by right|].
      rewrite lookup_insert_ne by done. left. by apply (so_complete _ _ _ Hq _ ts').
    + rewrite lookup_insert_eq. eauto.
    + intros t ts'. simpl. destruct (Z.eq_dec (cur s) t) as [<-|Hne].
      * rewrite lookup_insert_eq. by intros [= <-].
      * rewrite lookup_insert_ne by done. intros Ht Hr. by destruct (Hrun _ _ Ht Hr).
  - split; [split|]; simpl; try apply Hq.
    + done.
    + apply lookup_insert_eq.
    + intros t ts' Ht Hr. simpl in Ht. destruct (Hrun _ _ Ht Hr) as [-> _]. congruence.
Qed.

(** The state in which the first ready task is the running one. *)
Definition picked_state (s : kstate) (l : lstate) (next : Z) (nts : task_struct) : kstate :=
  activated (put_tasks (<[next := set_status TASK_RUNNING nts]> (tasks s)) (put_lst l s)) next nts.

(** The tail of [schedule]. *)
Lemma pick_eq s L c next rest nts :
  queue_ok s L (next :: rest) -> tasks s !! next = Some nts -> dir_ok s nts ->
  exists l, (thread_tag ← klist (list_pop thread_ready_list);
      update_task (general_entry thread_tag) (set_status TASK_RUNNING) ;;;
      process_activate (general_entry thread_tag) ;;;
      switch_to c (general_entry thread_tag)) s = switch_to c next (picked_state s l next nts) /\
    list_post (lst s) (<[thread_ready_list := general_tag <$> rest]> L) l /\
    unlinked (nodes l) (<[thread_ready_list := general_tag <$> rest]> L) (general_tag next).
Proof.
  intros Hq Hn Hd. pose proof (so_addr _ _ _ Hq next nts Hn) as Ha.
  pose proof (list_pop_ok _ L _ (general_tag next) _ (so_lists _ _ _ Hq)
    (so_ready _ _ _ Hq)) as Hpop.
  apply wp_ok_inv in Hpop as (r & l & Hpop & -> & Hl & Hun). exists l. split; [|done].
  erewrite bind_ok by (apply zoom_ok, Hpop). rewrite general_entry_tag by done.
  erewrite bind_ok by (by apply update_task_eq).
  assert (Hact : wp (process_activate next)
    (put_tasks (<[next := set_status TASK_RUNNING nts]> (tasks s)) (put_lst l s))
    (fun _ s' => s' = picked_state s l next nts)).
  { eapply (process_activate_ok _ next (set_status TASK_RUNNING nts)); [unfold NULL; lia | | exact Hd].
    apply lookup_insert_eq. }
  apply wp_ok_inv in Hact as ([] & s' & Hact & ->). by erewrite bind_ok by exact Hact.
Qed.

Lemma picked_sched_ok s L next rest nts l :
  queue_ok s L (next :: rest) -> none_running s -> tasks s !! next = Some nts ->
  list_post (lst s) (<[thread_ready_list := general_tag <$> rest]> L) l ->
  unlinked (nodes l) (<[thread_ready_list := general_tag <$> rest]> L) (general_tag next) ->
  sched_ok (put_cur next (picked_state s l next nts))
    (<[thread_ready_list := general_tag <$> rest]> L) rest.
Proof.
  intros Hq Hnone Hn (Hl & _ & _) Hun. pose proof (ready_nodup _ _ _ Hq) as Hnd.
  apply NoDup_cons in Hnd as [Hnin Hnd]. split; [split|]; simpl.
  - done.
  - apply lookup_insert_eq.
  - intros t ts. destruct (Z.eq_dec next t) as [<-|Hne].
    + intros _. by apply (so_addr _ _ _ Hq next nts).
    + rewrite lookup_insert_ne by done. apply Hq.
  - intros t Hin. destruct (Z.eq_dec next t) as [<-|Hne]; [done|]. rewrite lookup_insert_ne by done.
    apply (so_queued _ _ _ Hq). by right.
  - intros t ts. destruct (Z.eq_dec next t) as [<-|Hne].
    + rewrite lookup_insert_eq. by intros [= <-].
    + rewrite lookup_insert_ne by done. intros Ht Hs.
      pose proof (so_complete _ _ _ Hq t ts Ht Hs) as Hin. by apply elem_of_cons in Hin as [->|].
  - rewrite lookup_insert_eq. eauto.
  - intros t ts. destruct (Z.eq_dec next t) as [<-|Hne]; [done|]. rewrite lookup_insert_ne by done.
    intros Ht Hr. by destruct (Hnone t ts Ht).
Qed.
(** The state after [schedule] has chosen [next]. *)
Definition scheduled (s : kstate) (ts : task_struct) (next : Z) (nts : task_struct) (l : lstate) : kstate :=
  KState l (<[next := set_status TASK_RUNNING nts]> (requeued_tasks s ts)) (sync s) next (next_pid s)
    (Mmu (ram (mach s)) (new_cr3 s nts)) (new_esp0 s next nts) (total_ticks s).

Definition schedule_tail (c : Z) : M kstate unit :=
  e ← klist (list_empty thread_ready_list);
  ASSERT (e =? 0) ;;;
  thread_tag ← klist (list_pop thread_ready_list);
  update_task (general_entry thread_tag) (set_status TASK_RUNNING) ;;;
  process_activate (general_entry thread_tag) ;;;
  switch_to c (general_entry thread_tag).

Lemma schedule_requeue s L q ts :
  sched_ok s L q -> tasks s !! cur s = Some ts -> if_flag (eflags (lst s)) = false ->
  exists l, schedule s = schedule_tail (cur s) (requeued_state s l ts) /\
    list_post (lst s) (<[thread_ready_list := general_tag <$> requeued s ts q]> L) l.
Proof.
  intros Hs Hts Hif. pose proof (requeue_ok s L q ts Hs Hts) as Hr.
  apply wp_ok_inv in Hr as ([] & s1 & Hr & l & -> & Hl). exists l. split; [|done]. unfold schedule.
  assert (Hget : kflags get_intr_status s = Ok (INTR_OFF, s)).
  { unfold kflags. erewrite zoom_ok by apply get_intr_status_eq. simpl. rewrite Hif. by destruct s as [[]]. }
  erewrite bind_ok by exact Hget. rewrite bool_decide_true by done.
  erewrite bind_ok by done. erewrite bind_ok by done.
  assert (Hat : task_at (cur s) s = Ok (ts, s)) by (unfold task_at, mbind, M_bind, get; simpl; by rewrite Hts).
  erewrite bind_ok by exact Hat. by erewrite bind_ok by exact Hr.
Qed.

Lemma list_empty_query s L q :
  queue_ok s L q ->
  klist (list_empty thread_ready_list) s = Ok (if decide (q = []) then 1 else 0, s).
Proof.
  intros Hq. pose proof (list_empty_ok (lst s) L _ _ (so_lists _ _ _ Hq) (so_ready _ _ _ Hq)) as He.
  apply wp_ok_inv in He as (r & l & He & -> & Hr). unfold klist. erewrite zoom_ok by exact He.
  rewrite Hr. destruct q; by destruct s.
Qed.

Lemma schedule_spec s L q ts :
  sched_ok s L q -> tasks s !! cur s = Some ts -> if_flag (eflags (lst s)) = false ->
  match requeued s ts q with
  | [] => schedule s = Panic
  | next :: rest => forall nts,
      requeued_tasks s ts !! next = Some nts -> dir_ok s nts ->
      exists l, let s' := scheduled s ts next nts l in
        eflags l = eflags (lst s) /\ dom (nodes l) = dom (nodes (lst s)) /\
        sched_ok s' (<[thread_ready_list := general_tag <$> rest]> L) rest /\
        schedule s = if next =? cur s then Ok (tt, s') else Switched s' (fun s'' => Ok (tt, s''))
  end.
Proof.
  intros Hs Hts Hif. destruct (schedule_requeue s L q ts Hs Hts Hif) as (l1 & -> & Hl1).
  destruct (requeued_queue_ok s L q ts l1 Hs Hts Hl1) as [Hq1 Hnone].
  unfold schedule_tail. erewrite (bind_ok _ _ _ _ _ (list_empty_query _ _ _ Hq1)).
  destruct (requeued s ts q) as [|next rest]; [done|]. intros nts Hn Hd.
  rewrite decide_False by done. erewrite bind_ok by done.
  destruct (pick_eq _ _ (cur s) next rest nts Hq1 Hn Hd) as (l & -> & Hl & Hun). exists l.
  pose proof (picked_sched_ok _ _ next rest nts l Hq1 Hnone Hn Hl Hun) as Hs'.
  rewrite insert_insert_eq in Hs'. destruct Hl1 as (_ & He1 & Hd1), Hl as (_ & He & Hdm). simpl in He, Hdm.
  split; [congruence|]. split; [congruence|]. split; [exact Hs'|].
  unfold switch_to. by destruct (Z.eqb_spec next (cur s)) as [->|].
Qed.

(** *** Blocking and unblocking *)
Definition with_if (b : bool) (s : kstate) : kstate :=
  put_lst (LState (nodes (lst s)) (set_if b (eflags (lst s)))) s.

(** The state in which [thread_block] calls [schedule]. *)
Definition blocking (stat : task_status) (s : kstate) (ts : task_struct) : kstate :=
  put_tasks (<[cur s := set_status stat ts]> (tasks s)) (with_if false s).

(** No thread but the current one is running. *)
Definition only_running (s : kstate) : Prop :=
  forall t ts, tasks s !! t = Some ts -> status ts = TASK_RUNNING -> t = cur s.

Lemma sched_only_running s L q : sched_ok s L q -> only_running s.
Proof. intros Hs t ts Ht Hr. by destruct (so_running _ _ _ Hs _ _ Ht Hr). Qed.

Lemma blocking_sched_ok s L q ts stat :
  queue_ok s L q -> only_running s -> tasks s !! cur s = Some ts -> status ts = TASK_RUNNING ->
  stat <> TASK_READY -> stat <> TASK_RUNNING -> sched_ok (blocking stat s ts) L q.
Proof.
  intros Hq Hrun Hts Hst Hnr Hnrun. pose proof (running_not_queued _ _ _ _ _ Hq Hts Hst) as Hnin.
  split; [split|]; simpl; try apply Hq.
  - intros t ts'. destruct (Z.eq_dec (cur s) t) as [<-|Hne].
    + intros _. by apply (so_addr _ _ _ Hq _ ts).
    + rewrite lookup_insert_ne by done. apply Hq.
  - intros t Hin. rewrite lookup_insert_ne by congruence. by apply Hq.
  - intros t ts'. destruct (Z.eq_dec (cur s) t) as [<-|Hne].
    + rewrite lookup_insert_eq. by intros [= <-].
    + rewrite lookup_insert_ne by done. apply Hq.
  - rewrite lookup_insert_eq. eauto.
  - intros t ts'. destruct (Z.eq_dec (cur s) t) as [<-|Hne].
    + rewrite lookup_insert_eq. by intros [= <-].
    + rewrite lookup_insert_ne by done. intros Ht Hr. by destruct (Hne (eq_sym (Hrun _ _ Ht Hr))).
Qed.

Lemma can_block_status stat : can_block stat = true -> stat <> TASK_READY /\ stat <> TASK_RUNNING.
Proof. by destruct stat. Qed.

Lemma kflags_disable_eq s :
  kflags intr_disable s = Ok (status_of (if_flag (eflags (lst s))), with_if false s).
Proof. unfold kflags. by erewrite zoom_ok by apply intr_disable_eq. Qed.

Lemma kflags_set_eq b s : exists st, kflags (set_intr_status (status_of b)) s = Ok (st, with_if b s).
Proof. unfold kflags. eexists. by erewrite zoom_ok by apply set_intr_status_eq. Qed.

Lemma thread_block_spec s L q ts stat :
  queue_ok s L q -> only_running s -> tasks s !! cur s = Some ts -> status ts = TASK_RUNNING -> can_block stat = true ->
  match q with
  | [] => thread_block stat s = Panic
  | next :: rest => forall nts, tasks s !! next = Some nts -> dir_ok s nts ->
      exists l k, let s' := scheduled (blocking stat s ts) (set_status stat ts) next nts l in
        if_flag (eflags l) = false /\ dom (nodes l) = dom (nodes (lst s)) /\
        sched_ok s' (<[thread_ready_list := general_tag <$> rest]> L) rest /\
        thread_block stat s = Switched s' k /\
        forall s'', k s'' = Ok (tt, with_if (if_flag (eflags (lst s))) s'')
  end.
Proof.
  intros Hs Hone Hts Hst Hc. pose proof (can_block_status _ Hc) as [Hnr Hnrun].
  pose proof (blocking_sched_ok s L q ts stat Hs Hone Hts Hst Hnr Hnrun) as Hb.
  assert (Hb_ts : tasks (blocking stat s ts) !! cur (blocking stat s ts) = Some (set_status stat ts)).
  { apply lookup_insert_eq. }
  pose proof (schedule_spec _ _ _ _ Hb Hb_ts (if_flag_set_if _ _)) as Hsch.
  unfold requeued, requeued_tasks in Hsch. rewrite !decide_False in Hsch by done.
  assert (Htail : thread_block stat s =
    (schedule ;;; _ ← kflags (set_intr_status (status_of (if_flag (eflags (lst s))))); mret tt)
      (blocking stat s ts)).
  { unfold thread_block. rewrite Hc. erewrite bind_ok by done. erewrite bind_ok by apply kflags_disable_eq.
    erewrite bind_ok by done. by erewrite bind_ok by (by apply update_task_eq). }
  rewrite Htail. destruct q as [|next rest].
  - by erewrite bind_panic.
  - intros nts Hn Hd.
    assert (next <> cur s) as Hne.
    { intros ->. apply (running_not_queued _ _ _ _ _ Hs Hts Hst). by left. }
    assert (Hn2 : tasks (blocking stat s ts) !! next = Some nts) by (by simpl; rewrite lookup_insert_ne by done).
    destruct (Hsch nts Hn2 Hd) as (l & He & Hdm & Hok & Heq). exists l. eexists.
    split; [rewrite He; apply if_flag_set_if|]. split; [exact Hdm|]. split; [exact Hok|].
    simpl in Heq. destruct (Z.eqb_spec next (cur s)); [done|].
    unfold mbind at 1, M_bind at 1. rewrite Heq. simpl. split; [done|]. intros s''. simpl.
    destruct (kflags_set_eq (if_flag (eflags (lst s))) s'') as [st E].
    by erewrite bind_ok by exact E.
Qed.

(** [t] at the front of the ready list. *)
Definition unblocked (t : Z) (s : kstate) (ts : task_struct) (l : lstate) : kstate :=
  put_tasks (<[t := set_status TASK_READY ts]> (tasks s)) (put_lst l s).

Lemma unblocked_sched_ok s L q t ts l :
  sched_ok s L q -> tasks s !! t = Some ts -> can_block (status ts) = true ->
  list_post (lst s) (<[thread_ready_list := general_tag <$> (t :: q)]> L) l ->
  (forall c, t <> c -> unlinked (nodes (lst s)) L (general_tag c) ->
     unlinked (nodes l) (<[thread_ready_list := general_tag <$> (t :: q)]> L) (general_tag c)) ->
  sched_ok (unblocked t s ts l) (<[thread_ready_list := general_tag <$> (t :: q)]> L) (t :: q).
Proof.
  intros [Hq Hrun] Ht Hc (Hl & He & Hdm) Hun. pose proof (can_block_status _ Hc) as [Hnr Hnrun].
  split; [split|]; simpl.
  - done.
  - apply lookup_insert_eq.
  - intros t' ts'. destruct (Z.eq_dec t t') as [<-|Hne].
    + intros _. by apply (so_addr _ _ _ Hq _ ts).
    + rewrite lookup_insert_ne by done. apply Hq.
  - intros t'. rewrite elem_of_cons. intros Hin. destruct (Z.eq_dec t t') as [<-|Hne].
    + rewrite lookup_insert_eq. eauto.
    + rewrite lookup_insert_ne by done. destruct Hin as [->|Hin]; [done | by apply Hq].
  - intros t' ts'. rewrite elem_of_cons. destruct (Z.eq_dec t t') as [<-|Hne]; [by left|].
    rewrite lookup_insert_ne by done. intros H1 H2. right. by eapply Hq.
  - destruct (Z.eq_dec t (cur s)) as [->|Hne]; [rewrite lookup_insert_eq; eauto|].
    rewrite lookup_insert_ne by done. apply Hq.
  - intros t' ts'. destruct (Z.eq_dec t t') as [<-|Hne].
    + rewrite lookup_insert_eq. by intros [= <-].
    + rewrite lookup_insert_ne by done. intros H1 H2. destruct (Hrun _ _ H1 H2) as [-> Hu].
      split; [done|]. by apply Hun.
Qed.

Lemma unlinked_push ns ns' L l n xs m :
  dom ns' = dom ns -> L !! l = Some xs -> m <> n -> unlinked ns L m -> unlinked ns' (<[l := n :: xs]> L) m.
Proof.
  intros Hd HL Hne [Hin Hun]. split; [by rewrite Hd|]. intros l' xs'.
  destruct (Z.eq_dec l l') as [<-|Hne'].
  - rewrite lookup_insert_eq. intros [= <-]. pose proof (Hun l xs HL) as H1. unfold path in *.
    cbn [app]. rewrite elem_of_cons, elem_of_cons. rewrite elem_of_cons in H1. naive_solver.
  - rewrite lookup_insert_ne by done. apply Hun.
Qed.

Lemma thread_unblock_spec s L q t ts :
  sched_ok s L q -> tasks s !! t = Some ts -> unlinked (nodes (lst s)) L (general_tag t) ->
  if can_block (status ts) then
    exists l, thread_unblock t s = Ok (tt, unblocked t s ts l) /\
      eflags l = eflags (lst s) /\ dom (nodes l) = dom (nodes (lst s)) /\
      sched_ok (unblocked t s ts l) (<[thread_ready_list := general_tag <$> (t :: q)]> L) (t :: q)
  else thread_unblock t s = Panic.
Proof.
  intros Hs Ht Hun. pose proof (so_queue _ _ _ Hs) as Hq.
  assert (Hat : task_at t (with_if false s) = Ok (ts, with_if false s)).
  { unfold task_at, mbind, M_bind, get; simpl; by rewrite Ht. }
  destruct (can_block (status ts)) eqn:Hc.
  2: { unfold thread_unblock. erewrite bind_ok by apply kflags_disable_eq.
       erewrite bind_ok by exact Hat. erewrite bind_panic; [done|]. by rewrite Hc. }
  pose proof (can_block_status _ Hc) as [Hnr _].
  assert (t ∉ q) as Hnin.
  { intros Hin. destruct (so_queued _ _ _ Hq t Hin) as (ts' & Ht' & Hs'). congruence. }
  assert (wp (thread_unblock t) s (fun _ s' => exists l, s' = unblocked t s ts l /\
    list_post (lst s) (<[thread_ready_list := general_tag <$> (t :: q)]> L) l)) as Hwp.
  { assert (Hq' : queue_ok (with_if false s) L q) by (destruct Hq; split; done).
    unfold thread_unblock. wp_step. eapply wp_ok; [apply kflags_disable_eq|]. wp_step.
    eapply wp_ok; [exact Hat|]. wp_step. apply wp_ASSERT; [done|]. wp_step.
    rewrite bool_decide_false by done. cbn [negb when]. change (when true ?m) with m.
    wp_step. apply (wp_klist_query _ _ (fun r => r = if decide (t ∈ q) then 1 else 0)).
    { by apply find_ready with (L := L). }
    intros f ->. rewrite decide_False by done. wp_step. apply wp_ASSERT; [done|].
    wp_step. apply (wp_klist_query _ _ (fun r => r = if decide (t ∈ q) then 1 else 0)).
    { by apply find_ready with (L := L). }
    intros f ->. rewrite decide_False by done. wp_step. change (when (negb (0 =? 0)) PANIC) with (mret (M := M kstate) tt).
    wp_step. wp_step. apply wp_klist. eapply wp_mono.
    { by apply (list_push_ok _ L _ _ _ (so_lists _ _ _ Hq') (so_ready _ _ _ Hq')). }
    intros [] l (Hl & He & Hd). eapply wp_update_task; [exact Ht|]. wp_step.
    apply wp_kflags_set. intros _. wp_step. simpl in *.
    eexists. split; [reflexivity|]. simpl. split; [exact Hl|]. rewrite He, set_if_set_if, set_if_self. done. }
  apply wp_ok_inv in Hwp as ([] & s' & Hrun & l & -> & Hl). exists l. split; [done|].
  pose proof Hl as (_ & He & Hd). split; [done|]. split; [done|].
  apply unblocked_sched_ok; [done | done | done | done |]. intros c Hne Hu.
  apply unlinked_push with (ns := nodes (lst s)); [done | apply Hq | | done].
  unfold general_tag. lia.
Qed.

(** *** The timer interrupt *)

(** The counters after one tick of the running thread. *)
Definition ticked (s : kstate) (ts : task_struct) (n : Z) : kstate :=
  KState (lst s) (<[cur s := set_ticks n (set_elapsed (u32 (elapsed_ticks ts + 1)) ts)]> (tasks s))
    (sync s) (cur s) (next_pid s) (mach s) (esp0 s) (u32 (total_ticks s + 1)).

Lemma intr_timer_handler_eq s ts :
  tasks s !! cur s = Some ts ->
  intr_timer_handler s =
    if stack_magic ts =? STACK_MAGIC
    then if ticks ts =? 0 then schedule (ticked s ts (ticks ts))
         else Ok (tt, ticked s ts (u8 (ticks ts - 1)))
    else Panic.
Proof.
  intros Hts.
  assert (Hat : task_at (cur s) s = Ok (ts, s)) by (unfold task_at, mbind, M_bind, get; simpl; by rewrite Hts).
  unfold intr_timer_handler. erewrite bind_ok by done. erewrite bind_ok by exact Hat.
  destruct (stack_magic ts =? STACK_MAGIC); [|by erewrite bind_panic by done].
  erewrite bind_ok by done. erewrite bind_ok by (by apply update_task_eq). erewrite bind_ok by done.
  assert (Hat' : forall s', tasks s' = <[cur s := set_elapsed (u32 (elapsed_ticks ts + 1)) ts]> (tasks s) ->
    task_at (cur s) s' = Ok (set_elapsed (u32 (elapsed_ticks ts + 1)) ts, s')).
  { intros s' Hs'. unfold task_at, mbind, M_bind, get; simpl. by rewrite Hs', lookup_insert_eq. }
  erewrite bind_ok by (by apply Hat'). cbn [ticks set_elapsed]. destruct (ticks ts =? 0).
  - unfold ticked, put_tasks. simpl. by destruct ts.
  - erewrite update_task_eq by (simpl; apply lookup_insert_eq). unfold ticked, put_tasks. simpl.
    by rewrite insert_insert_eq.
Qed.

(** A change of the running thread's counters. *)
Lemma ticked_sched_ok s L q ts n :
  sched_ok s L q -> tasks s !! cur s = Some ts -> sched_ok (ticked s ts n) L q.
Proof.
  intros [Hq Hrun] Hts.
  assert (Hlk : forall t ts', tasks (ticked s ts n) !! t = Some ts' ->
    exists ts0, tasks s !! t = Some ts0 /\ status ts' = status ts0).
  { intros t ts'. simpl. destruct (Z.eq_dec (cur s) t) as [<-|Hne].
    - rewrite lookup_insert_eq. intros [= <-]. eauto.
    - rewrite lookup_insert_ne by done. eauto. }
  split; [split|].
  - apply Hq.
  - apply Hq.
  - intros t ts' (ts0 & Ht & _)%Hlk. by apply (so_addr _ _ _ Hq _ ts0).
  - intros t Hin. destruct (so_queued _ _ _ Hq t Hin) as (ts0 & Ht & Hs). simpl.
    destruct (Z.eq_dec (cur s) t) as [<-|Hne].
    + rewrite lookup_insert_eq. eexists. split; [done|]. simpl. congruence.
    + rewrite lookup_insert_ne by done. eauto.
  - intros t ts' (ts0 & Ht & E)%Hlk Hs. rewrite E in Hs. by eapply Hq.
  - simpl. rewrite lookup_insert_eq. eauto.
  - intros t ts' (ts0 & Ht & E)%Hlk Hs. rewrite E in Hs. by apply (Hrun t ts0).
Qed.

(** *** Computing threads under the timer

    The threads compute, and only the timer interrupts them: the interrupt
    gate clears IF, the handler runs, and the interrupted (or chosen) thread
    goes on with interrupts enabled. *)
Definition timer_interrupt (s : kstate) : option kstate :=
  match intr_timer_handler (with_if false s) with
  | Ok (_, s') | Switched s' _ => Some (with_if true s')
  | _ => None
  end.

Fixpoint timer_interrupts (n : nat) (s : kstate) : option kstate :=
  match n with
  | O => Some s
  | S n' => s' ← timer_interrupt s; timer_interrupts n' s'
  end.

Lemma timer_interrupts_add n m s s' s'' :
  timer_interrupts n s = Some s' -> timer_interrupts m s' = Some s'' ->
  timer_interrupts (n + m) s = Some s''.
Proof.
  revert s. induction n as [|n IH]; intros s; simpl; [by intros [= ->]|].
  destruct (timer_interrupt s) as [s1|]; [|done]. simpl. apply IH.
Qed.

(** A task fit to be scheduled: an intact stack, byte counters, and a page
    directory that is mapped in every address space of [C]. *)
Record task_ok (C : Z -> Prop) (m : gmap Z Z) (ts : task_struct) : Prop := {
  to_magic : stack_magic ts = STACK_MAGIC;
  to_ticks : is_u8 (ticks ts);
  to_priority : is_u8 (priority ts);
  to_dir : forall c, pgdir ts <> NULL -> C c ->
    exists pa, addr_v2p (pgdir ts) (Mmu m c) = Ok (pa, Mmu m c) /\ C pa;
}.

(** [C]: the values of CR3 in use. *)
Record running_ok (C : Z -> Prop) (s : kstate) (L : gmap Z (list Z)) (q : list Z) : Prop := {
  ru_sched : sched_ok s L q;
  ru_running : status <$> tasks s !! cur s = Some TASK_RUNNING;
  ru_tasks : map_Forall (fun _ => task_ok C (ram (mach s))) (tasks s);
  ru_cr3 : C (cr3 (mach s));
  ru_boot : C 0x100000;
}.

Lemma task_dir_ok C s ts : task_ok C (ram (mach s)) ts -> C (cr3 (mach s)) -> dir_ok s ts.
Proof.
  intros Hts Hc. destruct (Z.eq_dec (pgdir ts) NULL) as [|Hne]; [by left | right].
  destruct (to_dir _ _ _ Hts _ Hne Hc) as (pa & E & _). exists pa. by destruct (mach s).
Qed.

Lemma task_new_cr3 C s ts :
  task_ok C (ram (mach s)) ts -> C (cr3 (mach s)) -> C 0x100000 -> C (new_cr3 s ts).
Proof.
  intros Hts Hc Hb. unfold new_cr3. destruct (Z.eqb_spec (pgdir ts) NULL) as [|Hne]; [done|].
  destruct (to_dir _ _ _ Hts _ Hne Hc) as (pa & E & Hpa). destruct (mach s) as [r c]. simpl in *. by rewrite E.
Qed.

(** Interrupts left until the thread has used up its time slice. *)
Definition slice (s : kstate) (t : Z) : nat :=
  match tasks s !! t with Some ts => S (Z.to_nat (ticks ts)) | None => 0 end.

Definition slices (s : kstate) (q : list Z) : nat := sum_list (slice s <$> q).

Lemma sched_ok_with_if b s L q : sched_ok s L q -> sched_ok (with_if b s) L q.
Proof. intros [[] Hrun]. split; [split|]; done. Qed.

Lemma tick_step C s L q ts :
  running_ok C s L q -> tasks s !! cur s = Some ts -> ticks ts <> 0 ->
  exists s', timer_interrupt s = Some s' /\ running_ok C s' L q /\ cur s' = cur s /\
    tasks s' = <[cur s := set_ticks (ticks ts - 1) (set_elapsed (u32 (elapsed_ticks ts + 1)) ts)]> (tasks s).
Proof.
  intros [Hs Hrun Hall Hc Hb] Hts Hne. pose proof (Hall _ _ Hts) as Hok.
  pose proof (to_ticks _ _ _ Hok) as Hu8. unfold is_u8 in Hu8.
  unfold timer_interrupt. rewrite (intr_timer_handler_eq _ ts) by exact Hts.
  rewrite (to_magic _ _ _ Hok). change (STACK_MAGIC =? STACK_MAGIC) with true.
  destruct (Z.eqb_spec (ticks ts) 0); [done|]. rewrite u8_id by (unfold is_u8; lia).
  eexists. split; [reflexivity|]. split; [|done]. split.
  - by apply sched_ok_with_if, ticked_sched_ok, Hts; apply sched_ok_with_if.
  - cbn. rewrite lookup_insert_eq. cbn. rewrite Hts in Hrun. by injection Hrun as ->.
  - apply map_Forall_insert_2; [|exact Hall]. destruct Hok. split; simpl; [done | unfold is_u8; lia | done | done].
  - exact Hc.
  - exact Hb.
Qed.

Lemma requeued_slice s ts n t :
  status ts = TASK_RUNNING -> t <> cur s ->
  requeued_tasks (ticked (with_if false s) ts n) (set_ticks n (set_elapsed (u32 (elapsed_ticks ts + 1)) ts)) !! t
    = tasks s !! t.
Proof.
  intros Hst Hne. unfold requeued_tasks. rewrite decide_True by done. simpl.
  by rewrite !lookup_insert_ne by done.
Qed.

Lemma slice_step C s L q ts next rest :
  running_ok C s L q -> tasks s !! cur s = Some ts -> ticks ts = 0 -> q ++ [cur s] = next :: rest ->
  exists s', timer_interrupt s = Some s' /\
    running_ok C s' (<[thread_ready_list := general_tag <$> rest]> L) rest /\ cur s' = next /\
    forall t, t <> cur s -> slice s' t = slice s t.
Proof.
  intros [Hs Hrun Hall Hc Hb] Hts Hz Hnext. pose proof (Hall _ _ Hts) as Hok.
  assert (status ts = TASK_RUNNING) as Hst by (rewrite Hts in Hrun; by injection Hrun).
  set (s1 := ticked (with_if false s) ts 0).
  set (ts1 := set_ticks 0 (set_elapsed (u32 (elapsed_ticks ts + 1)) ts)).
  assert (sched_ok s1 L q) as Hs1 by (by apply ticked_sched_ok, Hts; apply sched_ok_with_if).
  assert (Hts1 : tasks s1 !! cur s1 = Some ts1) by apply lookup_insert_eq.
  pose proof (schedule_spec s1 L q ts1 Hs1 Hts1 (if_flag_set_if _ _)) as Hsch.
  assert (requeued s1 ts1 q = next :: rest) as E.
  { unfold requeued. by rewrite decide_True by done. }
  rewrite E in Hsch.
  assert (Hall2 : map_Forall (fun _ => task_ok C (ram (mach s))) (requeued_tasks s1 ts1)).
  { unfold requeued_tasks. rewrite decide_True by done. destruct Hok.
    repeat (apply map_Forall_insert_2; [split; simpl; try done; unfold is_u8; lia|]). done. }
  assert (exists nts, requeued_tasks s1 ts1 !! next = Some nts) as [nts Hnts].
  { destruct (Z.eq_dec next (cur s)) as [->|Hne].
    - unfold requeued_tasks. rewrite decide_True by done. rewrite lookup_insert_eq. eauto.
    - assert (next ∈ q ++ [cur s]) as Hin by (rewrite Hnext; by left).
      apply elem_of_app in Hin as [Hin|Hin%list_elem_of_singleton]; [|done].
      destruct (so_queued _ _ _ (so_queue _ _ _ Hs) _ Hin) as (nts & Hn & _).
      exists nts. unfold s1, ts1. by rewrite requeued_slice. }
  pose proof (Hall2 _ _ Hnts) as Hnok.
  destruct (Hsch nts Hnts (task_dir_ok C s1 nts Hnok Hc)) as (l & He & Hd & Hs' & Heq).
  exists (with_if true (scheduled s1 ts1 next nts l)).
  split; [|split; [split|split]].
  - unfold timer_interrupt. rewrite (intr_timer_handler_eq _ ts) by exact Hts.
    rewrite (to_magic _ _ _ Hok), Hz. cbn [Z.eqb STACK_MAGIC]. change (STACK_MAGIC =? STACK_MAGIC) with true.
    change (schedule (ticked (with_if false s) ts 0)) with (schedule s1). rewrite Heq.
    by destruct (next =? cur s1).
  - by apply sched_ok_with_if.
  - simpl. by rewrite lookup_insert_eq.
  - simpl. apply map_Forall_insert_2; [|exact Hall2]. destruct Hnok. by split.
  - by apply (task_new_cr3 C s1 nts).
  - done.
  - done.
  - intros t Hne. unfold slice. simpl. destruct (Z.eq_dec next t) as [<-|Hnt].
    + rewrite lookup_insert_eq. unfold s1, ts1 in Hnts. rewrite requeued_slice in Hnts by done. by rewrite Hnts.
    + rewrite lookup_insert_ne by done. unfold s1, ts1. by rewrite requeued_slice.
Qed.

(** A whole slice. *)
Lemma slice_run C n s L q ts next rest :
  running_ok C s L q -> tasks s !! cur s = Some ts -> ticks ts = Z.of_nat n -> q ++ [cur s] = next :: rest ->
  exists s' L', timer_interrupts (S n) s = Some s' /\ running_ok C s' L' rest /\ cur s' = next /\
    forall t, t <> cur s -> slice s' t = slice s t.
Proof.
  revert s L ts. induction n as [|n IH]; intros s L ts Hr Hts Hn Hq.
  - destruct (slice_step C s L q ts next rest Hr Hts Hn Hq) as (s' & E & Hr' & Hc & Hsl).
    exists s'. eexists. split; [by simpl; rewrite E|]. eauto.
  - destruct (tick_step C s L q ts Hr Hts) as (s1 & E & Hr1 & Hc1 & Ht1); [lia|].
    destruct (IH s1 L (set_ticks (ticks ts - 1) (set_elapsed (u32 (elapsed_ticks ts + 1)) ts)) Hr1)
      as (s' & L' & E' & Hr' & Hc & Hsl).
    + by rewrite Ht1, Hc1, lookup_insert_eq.
    + simpl. lia.
    + by rewrite Hc1.
    + exists s', L'. split; [by simpl timer_interrupts; rewrite E|]. split; [done|]. split; [done|].
      intros t Hne. rewrite Hsl by congruence. unfold slice. by rewrite Ht1, lookup_insert_ne by done.
Qed.

Lemma slices_ext s s' q : (forall t, t ∈ q -> slice s' t = slice s t) -> slices s' q = slices s q.
Proof.
  unfold slices. induction q as [|t q IH]; intros Hsl; [done|]. simpl. rewrite (Hsl t) by (by left).
  f_equal. apply IH. intros t' Ht'. apply Hsl. by right.
Qed.

Lemma rotation_run C pre : forall s L t post,
  running_ok C s L (pre ++ t :: post) ->
  exists s' L', timer_interrupts (slice s (cur s) + slices s pre) s = Some s' /\ cur s' = t /\
    running_ok C s' L' (post ++ cur s :: pre).
Proof.
  induction pre as [|u pre IH]; intros s L t post Hr.
  - destruct (tasks s !! cur s) as [ts|] eqn:Hts; [|by pose proof (ru_running _ _ _ _ Hr) as E; rewrite Hts in E].
    pose proof (to_ticks _ _ _ (ru_tasks _ _ _ _ Hr _ _ Hts)) as [Ht0 _].
    destruct (slice_run C (Z.to_nat (ticks ts)) s L (t :: post) ts t (post ++ [cur s]) Hr Hts) as (s' & L' & E & Hr' & Hc & _);
      [lia | done|].
    exists s', L'. split; [|done]. unfold slice, slices. simpl. rewrite Hts, Nat.add_0_r. exact E.
  - destruct (tasks s !! cur s) as [ts|] eqn:Hts; [|by pose proof (ru_running _ _ _ _ Hr) as E; rewrite Hts in E].
    pose proof (to_ticks _ _ _ (ru_tasks _ _ _ _ Hr _ _ Hts)) as [Ht0 _].
    assert (Hq : queue_ok s L (u :: pre ++ t :: post)) by apply Hr.
    pose proof (ready_nodup _ _ _ Hq) as Hnd.
    destruct (slice_run C (Z.to_nat (ticks ts)) s L (u :: pre ++ t :: post) ts u ((pre ++ t :: post) ++ [cur s]) Hr Hts)
      as (s1 & L1 & E1 & Hr1 & Hc1 & Hsl); [lia | done|].
    rewrite <- app_assoc in Hr1. cbn [app] in Hr1.
    destruct (IH s1 L1 t (post ++ [cur s]) Hr1) as (s' & L' & E & Hc & Hr').
    exists s', L'. rewrite Hc1, <- app_assoc in Hr'. split; [|done].
    assert (status ts = TASK_RUNNING) as Hst.
    { pose proof (ru_running _ _ _ _ Hr) as E2. rewrite Hts in E2. by injection E2. }
    assert (Hcq : cur s ∉ u :: pre ++ t :: post) by (by eapply running_not_queued).
    replace (slice s (cur s)) with (S (Z.to_nat (ticks ts))) by (unfold slice; by rewrite Hts).
    eapply timer_interrupts_add; [exact E1|]. rewrite Hc1 in E. rewrite Hsl in E by set_solver.
    rewrite (slices_ext s s1) in E; [exact E|]. intros x Hx. apply Hsl. intros ->. apply Hcq.
    right. apply elem_of_app. by left.
Qed.

(** ** Properties *)

(** C10: [schedule], with interrupts off: a running thread goes to the tail of
    the ready list with a fresh time slice; if the list is then empty the
    ASSERT stops the machine; otherwise the head of the list becomes the one
    running thread, its address space and kernel stack are activated, and the
    processor goes to it (the call returns at once when it is the caller, and
    otherwise when the caller is chosen again).  The ready list holds exactly
    the ready threads again, in FIFO order, and nothing else changes. *)
Theorem schedule_correct (s : kstate) (L : gmap Z (list Z)) (q : list Z) (ts : task_struct)
    (Hs : sched_ok s L q) (Hcur : tasks s !! cur s = Some ts)
    (Hoff : if_flag (eflags (lst s)) = false) :
  match requeued s ts q with
  | [] => schedule s = Panic
  | next :: rest => forall nts,
      requeued_tasks s ts !! next = Some nts -> dir_ok s nts ->
      exists l, let s' := scheduled s ts next nts l in
        eflags l = eflags (lst s) /\ dom (nodes l) = dom (nodes (lst s)) /\
        sched_ok s' (<[thread_ready_list := general_tag <$> rest]> L) rest /\
        schedule s = if next =? cur s then Ok (tt, s') else Switched s' (fun s'' => Ok (tt, s''))
  end.
Proof. by apply schedule_spec. Qed.

(** [thread_block] by the running thread: its status becomes [stat], it is
    in no ready list, and the processor goes to the head of the ready list
    (ASSERT stops the machine if there is none); when the thread is chosen
    again the call returns with the interrupt flag it was called with. *)
Theorem thread_block_correct (s : kstate) (L : gmap Z (list Z)) (q : list Z) (ts : task_struct)
    (stat : task_status) (Hs : queue_ok s L q) (Hone : only_running s) (Hcur : tasks s !! cur s = Some ts)
    (Hrun : status ts = TASK_RUNNING) (Hstat : can_block stat = true) :
  match q with
  | [] => thread_block stat s = Panic
  | next :: rest => forall nts, tasks s !! next = Some nts -> dir_ok s nts ->
      exists l k, let s' := scheduled (blocking stat s ts) (set_status stat ts) next nts l in
        if_flag (eflags l) = false /\ dom (nodes l) = dom (nodes (lst s)) /\
        sched_ok s' (<[thread_ready_list := general_tag <$> rest]> L) rest /\
        thread_block stat s = Switched s' k /\
        forall s'', k s'' = Ok (tt, with_if (if_flag (eflags (lst s))) s'')
  end.
Proof. by apply thread_block_spec. Qed.

(** [thread_unblock] of a thread that is in no list: a blocked, waiting or
    hanging thread becomes ready, at the front of the ready list, with the
    interrupt flag as it was; for any other status the ASSERT stops the
    machine. *)
Theorem thread_unblock_correct (s : kstate) (L : gmap Z (list Z)) (q : list Z) (t : Z) (ts : task_struct)
    (Hs : sched_ok s L q) (Ht : tasks s !! t = Some ts)
    (Hun : unlinked (nodes (lst s)) L (general_tag t)) :
  if can_block (status ts) then
    exists l, thread_unblock t s = Ok (tt, unblocked t s ts l) /\
      eflags l = eflags (lst s) /\ dom (nodes l) = dom (nodes (lst s)) /\
      sched_ok (unblocked t s ts l) (<[thread_ready_list := general_tag <$> (t :: q)]> L) (t :: q)
  else thread_unblock t s = Panic.
Proof. by apply thread_unblock_spec. Qed.

(** The timer interrupt stops the machine when the interrupted thread's
    stack has grown into its task structure; otherwise it counts the tick,
    takes one from the thread's time slice, and calls [schedule] only when the
    slice is used up. *)
Theorem timer_handler_correct (s : kstate) (L : gmap Z (list Z)) (q : list Z) (ts : task_struct)
    (Hs : sched_ok s L q) (Hcur : tasks s !! cur s = Some ts) (Hticks : is_u8 (ticks ts)) :
  intr_timer_handler s =
    (if stack_magic ts =? STACK_MAGIC
     then if ticks ts =? 0 then schedule (ticked s ts 0)
          else Ok (tt, ticked s ts (ticks ts - 1))
     else Panic) /\
  forall n, sched_ok (ticked s ts n) L q.
Proof.
  split; [|intros n; by apply ticked_sched_ok]. rewrite (intr_timer_handler_eq s ts Hcur).
  destruct (Z.eqb_spec (ticks ts) 0) as [->|Hne]; [done|]. unfold is_u8 in Hticks.
  by rewrite u8_id by (unfold is_u8; lia).
Qed.

(** C11: no starvation among computing threads: the thread behind [pre] in the
    ready list runs after exactly the remaining slice of the running thread
    and the slices of [pre]; then the threads before it, in the same order,
    are behind those after it. *)
Theorem round_robin (C : Z -> Prop) (s : kstate) (L : gmap Z (list Z)) (pre : list Z) (t : Z)
    (post : list Z) (Hok : running_ok C s L (pre ++ t :: post)) :
  exists s' L', timer_interrupts (slice s (cur s) + slices s pre) s = Some s' /\ cur s' = t /\
    running_ok C s' L' (post ++ cur s :: pre).
Proof. by eapply rotation_run. Qed.
End SchedulerProofs.

(** *** Concrete instances *)
#[local] Instance example_layout : Layout := {|
  thread_ready_list := 0x10000; thread_all_list := 0x10010; pid_lock := 0x10020 |}.

Definition example_task (st : task_status) (n : Z) : task_struct :=
  Task 0 1 st [] 31 n 0 NULL (VPool (Bitmap 0 0 []) 0) STACK_MAGIC.

(** A running thread with one tick left, a ready and a blocked one. *)
Definition example_kernel : kstate :=
  KState (LState {[0x10000 := Node NULL 0x2024; 0x2024 := Node 0x10000 0x10008; 0x10008 := Node 0x2024 NULL;
                   0x1024 := Node NULL NULL; 0x3024 := Node NULL NULL]} 0x2)
    {[0x1000 := example_task TASK_RUNNING 1; 0x2000 := example_task TASK_READY 31;
      0x3000 := example_task TASK_BLOCKED 31]}
    (Sync ∅ ∅) 0x1000 3 (Mmu ∅ 0x100000) 0 0.

Definition example_lists : gmap Z (list Z) := {[0x10000 := [0x2024]]}.

(** The tasks of the example, one by one. *)
Ltac each_task Ht :=
  unfold example_kernel in Ht; cbn [tasks mach ram] in Ht;
  destruct (proj1 (lookup_insert_Some _ _ _ _ _) Ht) as [[<- <-]|[_ Ht']]; clear Ht;
  [|destruct (proj1 (lookup_insert_Some _ _ _ _ _) Ht') as [[<- <-]|[_ Ht'']]; clear Ht';
    [|destruct (proj1 (lookup_singleton_Some _ _ _ _) Ht'') as [<- <-]; clear Ht'']].

Lemma example_unlinked t : (t =? 0x1000) || (t =? 0x3000) = true ->
  unlinked (nodes (lst example_kernel)) example_lists (general_tag t).
Proof.
  intros Ht. split.
  - apply elem_of_dom. apply orb_true_iff in Ht as [->%Z.eqb_eq| ->%Z.eqb_eq]; by vm_compute; eauto.
  - intros l xs Hl. unfold example_lists in Hl. apply lookup_singleton_Some in Hl as [<- <-].
    apply orb_true_iff in Ht as [->%Z.eqb_eq| ->%Z.eqb_eq]; refine (bool_decide_eq_true_1 _ _); by vm_compute.
Qed.

Lemma example_sched_ok : sched_ok example_kernel example_lists [0x2000].
Proof.
  split; [split|].
  - apply lists_ok_single. split; [by vm_compute|]. refine (bool_decide_eq_true_1 _ _); by vm_compute.
  - done.
  - intros t ts Ht. each_task Ht; lia.
  - intros t ->%list_elem_of_singleton. exists (example_task TASK_READY 31). split; [by vm_compute | done].
  - intros t ts Ht. by each_task Ht; intros; try apply list_elem_of_singleton.
  - by vm_compute; eauto.
  - intros t ts Ht. each_task Ht; try done. intros _. split; [done|]. by apply example_unlinked.
Qed.

Lemma kernel_thread_dir_ok s ts : pgdir ts = NULL -> dir_ok s ts.
Proof. by left. Qed.

Lemma schedule_correct_witness :
  exists s', schedule example_kernel = Switched s' (fun s'' => Ok (tt, s'')) /\ cur s' = 0x2000 /\
    sched_ok s' (<[0x10000 := [0x1024]]> example_lists) [0x1000].
Proof.
  pose proof (schedule_correct example_kernel example_lists [0x2000] (example_task TASK_RUNNING 1)
    example_sched_ok eq_refl eq_refl (example_task TASK_READY 31) eq_refl
    (kernel_thread_dir_ok _ (example_task TASK_READY 31) eq_refl)) as (l & _ & _ & Hs & E).
  eexists. split; [exact E|]. split; [done | exact Hs].
Defined.

Lemma thread_block_correct_witness :
  exists s' k, thread_block TASK_BLOCKED example_kernel = Switched s' k /\ cur s' = 0x2000 /\
    sched_ok s' (<[0x10000 := []]> example_lists) [] /\ forall s'', k s'' = Ok (tt, with_if false s'').
Proof.
  pose proof (thread_block_correct example_kernel example_lists [0x2000] (example_task TASK_RUNNING 1)
    TASK_BLOCKED (so_queue _ _ _ example_sched_ok) (sched_only_running _ _ _ example_sched_ok) eq_refl eq_refl eq_refl (example_task TASK_READY 31) eq_refl
    (kernel_thread_dir_ok _ (example_task TASK_READY 31) eq_refl)) as (l & k & _ & _ & Hs & E & Hk).
  eexists _, k. split; [exact E|]. split; [done|]. split; [exact Hs | exact Hk].
Defined.

Lemma thread_unblock_correct_witness :
  exists s', thread_unblock 0x3000 example_kernel = Ok (tt, s') /\
    sched_ok s' (<[0x10000 := [0x3024; 0x2024]]> example_lists) [0x3000; 0x2000].
Proof.
  pose proof (thread_unblock_correct example_kernel example_lists [0x2000] 0x3000 (example_task TASK_BLOCKED 31)
    example_sched_ok eq_refl (example_unlinked 0x3000 eq_refl)) as (l & E & _ & _ & Hs).
  eexists. split; [exact E | exact Hs].
Defined.

Lemma timer_handler_correct_witness :
  intr_timer_handler example_kernel = Ok (tt, ticked example_kernel (example_task TASK_RUNNING 1) 0).
Proof.
  destruct (timer_handler_correct example_kernel example_lists [0x2000] (example_task TASK_RUNNING 1)
    example_sched_ok eq_refl) as [E _]; [unfold is_u8; simpl; lia | exact E].
Defined.

Lemma example_running_ok :
  running_ok (fun c => c = 0x100000) example_kernel example_lists ([] ++ 0x2000 :: []).
Proof.
  split.
  - apply example_sched_ok.
  - done.
  - intros t ts Ht. each_task Ht; split; done.
  - done.
  - done.
Qed.

Lemma round_robin_witness :
  exists s' L', timer_interrupts 2 example_kernel = Some s' /\ cur s' = 0x2000 /\
    running_ok (fun c => c = 0x100000) s' L' [0x1000].
Proof. exact (round_robin _ example_kernel example_lists [] 0x2000 [] example_running_ok). Defined.
