(* ===== verification/Sync.v ===== *)
(** * Semaphores and locks: thread/sync.c, thread/sync.h

    Binary semaphores whose waiters are blocked threads, and re-entrant locks
    built on them.  The semaphore operations run with interrupts off and so
    have no window for an interrupt; the lock operations read and write the
    lock between windows ([window], one before each statement), because they
    run with the interrupt flag of their caller.

    [sema_down] waits in a loop that a thread leaves only when it finds the
    value positive; the model's loop takes the number of times it may look as
    fuel. *)
From stdpp Require Import base numbers list gmap fin_maps.
From Stdlib Require Import ZArith Lia.
From S2P Require Import Prelude Globals Interrupt LinkedList Bitmap Paging PageAlloc Thread.

(** A place where an interrupt may arrive. *)
Definition window {St} : M St unit := fun s => Window s (fun s' => Ok (tt, s')).

(** ** State access *)
Definition put_sync (x : sync_state) (s : kstate) : kstate :=
  KState (lst s) (tasks s) x (cur s) (next_pid s) (mach s) (esp0 s) (total_ticks s).

Definition get_value (psema : Z) : M kstate Z := s ← get; from_option_M (values (sync s) !! psema).

(** A store to a field of an object that exists. *)
Definition set_value (psema v : Z) : M kstate unit :=
  _ ← get_value psema;
  modify (fun s => put_sync (Sync (<[psema := v]> (values (sync s))) (locks (sync s))) s).

Definition get_lock (plock : Z) : M kstate lock := s ← get; from_option_M (locks (sync s) !! plock).

Definition put_lock (plock : Z) (l : lock) (s : kstate) : kstate :=
  put_sync (Sync (values (sync s)) (<[plock := l]> (locks (sync s)))) s.

Definition set_holder (plock h : Z) : M kstate unit :=
  l ← get_lock plock; modify (put_lock plock (Lock h (holder_repeat_cnt l))).

Definition set_repeat (plock n : Z) : M kstate unit :=
  l ← get_lock plock; modify (put_lock plock (Lock (holder l) n)).

(** ** Semaphores *)
Section Sync.
Context `{!Layout}.

Definition sema_init (psema value : Z) : M kstate unit :=
  set_value psema (u8 value) ;;;
  klist (list_init (waiters psema)).

Definition lock_init (plock : Z) : M kstate unit :=
  set_holder plock NULL ;;;
  set_repeat plock 0 ;;;
  sema_init (semaphore plock) 1.

(** The [while] loop of [sema_down]. *)
Fixpoint sema_down_loop (fuel : nat) (psema : Z) : M kstate unit :=
  match fuel with
  | O => nofuel
  | S fuel' =>
      v ← get_value psema;
      if v =? 0 then
        c ← running_thread;
        f ← klist (node_find (waiters psema) (general_tag c));
        ASSERT (f =? 0) ;;;
        f ← klist (node_find (waiters psema) (general_tag c));
        when (negb (f =? 0)) PANIC ;;;
        klist (list_append (waiters psema) (general_tag c)) ;;;
        thread_block TASK_BLOCKED ;;;
        sema_down_loop fuel' psema
      else mret tt
  end.

Definition sema_down (fuel : nat) (psema : Z) : M kstate unit :=
  old_status ← kflags intr_disable;
  sema_down_loop fuel psema ;;;
  v ← get_value psema;
  set_value psema (u8 (v - 1)) ;;;
  v ← get_value psema;
  ASSERT (v =? 0) ;;;
  _ ← kflags (set_intr_status old_status);
  mret tt.

Definition sema_up (psema : Z) : M kstate unit :=
  old_status ← kflags intr_disable;
  v ← get_value psema;
  ASSERT (v =? 0) ;;;
  e ← klist (list_empty (waiters psema));
  when (e =? 0) (
    tag ← klist (list_pop (waiters psema));
    thread_unblock (general_entry tag)) ;;;
  v ← get_value psema;
  set_value psema (u8 (v + 1)) ;;;
  v ← get_value psema;
  ASSERT (v =? 1) ;;;
  _ ← kflags (set_intr_status old_status);
  mret tt.

(** ** Locks *)
Definition lock_acquire (fuel : nat) (plock : Z) : M kstate unit :=
  window ;;;
  l ← get_lock plock;
  c ← running_thread;
  if negb (holder l =? c) then
    window ;;;
    sema_down fuel (semaphore plock) ;;;
    window ;;;
    c ← running_thread;
    set_holder plock c ;;;
    window ;;;
    l ← get_lock plock;
    ASSERT (holder_repeat_cnt l =? 0) ;;;
    window ;;;
    set_repeat plock 1
  else
    window ;;;
    l ← get_lock plock;
    set_repeat plock (u32 (holder_repeat_cnt l + 1)).

Definition lock_release (plock : Z) : M kstate unit :=
  window ;;;
  l ← get_lock plock;
  c ← running_thread;
  ASSERT (holder l =? c) ;;;
  window ;;;
  l ← get_lock plock;
  if 1 <? holder_repeat_cnt l then
    window ;;;
    l ← get_lock plock;
    set_repeat plock (u32 (holder_repeat_cnt l - 1))
  else
    window ;;;
    l ← get_lock plock;
    ASSERT (holder_repeat_cnt l =? 1) ;;;
    window ;;;
    set_holder plock NULL ;;;
    window ;;;
    set_repeat plock 0 ;;;
    window ;;;
    sema_up (semaphore plock).
End Sync.

(** ** Steps *)
Lemma get_value_eq psema v s :
  values (sync s) !! psema = Some v -> get_value psema s = Ok (v, s).
Proof. intros Hv. unfold get_value, mbind, M_bind, get. simpl. by rewrite Hv. Qed.

(** The state with the value of one semaphore changed. *)
Definition with_value (psema v : Z) (s : kstate) : kstate :=
  put_sync (Sync (<[psema := v]> (values (sync s))) (locks (sync s))) s.

Lemma set_value_eq psema v0 v s :
  values (sync s) !! psema = Some v0 -> set_value psema v s = Ok (tt, with_value psema v s).
Proof. intros Hv. unfold set_value. by erewrite bind_ok by (by apply get_value_eq). Qed.

Lemma get_lock_eq plock l s :
  locks (sync s) !! plock = Some l -> get_lock plock s = Ok (l, s).
Proof. intros Hl. unfold get_lock, mbind, M_bind, get. simpl. by rewrite Hl. Qed.

Lemma set_holder_eq plock l h s :
  locks (sync s) !! plock = Some l ->
  set_holder plock h s = Ok (tt, put_lock plock (Lock h (holder_repeat_cnt l)) s).
Proof. intros Hl. unfold set_holder. by erewrite bind_ok by (by apply get_lock_eq). Qed.

Lemma set_repeat_eq plock l n s :
  locks (sync s) !! plock = Some l ->
  set_repeat plock n s = Ok (tt, put_lock plock (Lock (holder l) n) s).
Proof. intros Hl. unfold set_repeat. by erewrite bind_ok by (by apply get_lock_eq). Qed.

(** A query of a list on the kernel's state. *)
Lemma klist_query_eq {A} (m : M lstate A) s a :
  wp m (lst s) (fun r l => l = lst s /\ r = a) -> klist m s = Ok (a, s).
Proof.
  intros H. apply wp_ok_inv in H as (r & l & H & -> & ->). unfold klist.
  erewrite zoom_ok by exact H. by destruct s.
Qed.

Lemma klist_eq {A} (m : M lstate A) s (P : A -> lstate -> Prop) :
  wp m (lst s) P -> exists a l, klist m s = Ok (a, put_lst l s) /\ P a l.
Proof.
  intros H. apply wp_ok_inv in H as (a & l & H & Hp). exists a, l. split; [|done].
  unfold klist. by erewrite zoom_ok by exact H.
Qed.

Lemma klist_empty_eq s L l xs :
  lists_ok (nodes (lst s)) L -> L !! l = Some xs ->
  klist (list_empty l) s = Ok (if decide (xs = []) then 1 else 0, s).
Proof. intros Hl HL. by apply klist_query_eq, (list_empty_ok _ L). Qed.

(** ** Semaphore invariant *)
Section SyncProofs.
Context `{!Layout}.

(** The semaphore at [psema] has value [v], and its waiters [ws], in order,
    are blocked. *)
Record sema_ok (s : kstate) (L : gmap Z (list Z)) (psema v : Z) (ws : list Z) : Prop := {
  se_value : values (sync s) !! psema = Some v;
  se_list : L !! waiters psema = Some (general_tag <$> ws);
  se_other : waiters psema <> thread_ready_list;
  se_blocked : forall w, w ∈ ws -> exists ts, tasks s !! w = Some ts /\ status ts = TASK_BLOCKED;
}.

(** Queue facts survive a change of another list. *)
Lemma queue_ok_other s L q w xs l :
  queue_ok s L q -> w <> thread_ready_list -> list_post (lst s) (<[w := xs]> L) l ->
  queue_ok (put_lst l s) (<[w := xs]> L) q.
Proof.
  intros Hq Hw (Hl & _ & _). split; simpl; try apply Hq; [exact Hl|].
  rewrite lookup_insert_ne by done. apply Hq.
Qed.

Lemma not_waiting s L psema v ws t :
  lists_ok (nodes (lst s)) L -> sema_ok s L psema v ws -> unlinked (nodes (lst s)) L (general_tag t) ->
  klist (node_find (waiters psema) (general_tag t)) s = Ok (0, s).
Proof.
  intros Hl Hse [_ Hun]. apply klist_query_eq.
  eapply wp_mono; [apply (node_find_ok _ L _ _ _ Hl (se_list _ _ _ _ _ Hse))|].
  intros r l [-> ->]. split; [done|]. rewrite decide_False; [done|]. intros Hin.
  apply (Hun _ _ (se_list _ _ _ _ _ Hse)). unfold path. rewrite elem_of_cons, elem_of_app. auto.
Qed.

(** [sema_down] with interrupts off, [old_status] to be restored. *)
Definition sema_down_rest (fuel : nat) (psema : Z) (old_status : intr_status) : M kstate unit :=
  sema_down_loop fuel psema ;;;
  v ← get_value psema;
  set_value psema (u8 (v - 1)) ;;;
  v ← get_value psema;
  ASSERT (v =? 0) ;;;
  _ ← kflags (set_intr_status old_status);
  mret tt.

Lemma sema_down_unfold fuel psema s :
  sema_down fuel psema s =
  sema_down_rest fuel psema (status_of (if_flag (eflags (lst s)))) (with_if false s).
Proof. unfold sema_down. by erewrite bind_ok by apply kflags_disable_eq. Qed.

(** A thread that finds the value 1 takes it. *)
Lemma sema_down_take fuel psema b s :
  values (sync s) !! psema = Some 1 ->
  sema_down_rest (S fuel) psema (status_of b) s = Ok (tt, with_if b (with_value psema 0 s)).
Proof.
  intros Hv. unfold sema_down_rest.
  erewrite (bind_ok (sema_down_loop (S fuel) psema)); [|simpl; by erewrite bind_ok by (by apply get_value_eq)].
  erewrite bind_ok by (by apply get_value_eq). change (u8 (1 - 1)) with 0.
  erewrite bind_ok by (by eapply set_value_eq).
  erewrite bind_ok by (apply get_value_eq, lookup_insert_eq). erewrite bind_ok by done.
  destruct (kflags_set_eq b (with_value psema 0 s)) as [st E]. by erewrite bind_ok by exact E.
Qed.

(** One round of the loop by a thread that finds the value 0: it joins the
    waiters and blocks. *)
Lemma sema_down_round fuel psema s L q ws :
  sched_ok s L q -> sema_ok s L psema 0 ws -> unlinked (nodes (lst s)) L (general_tag (cur s)) ->
  exists l, sema_down_loop (S fuel) psema s =
      (thread_block TASK_BLOCKED ;;; sema_down_loop fuel psema) (put_lst l s) /\
    list_post (lst s) (<[waiters psema := general_tag <$> (ws ++ [cur s])]> L) l.
Proof.
  intros Hs Hse Hun. pose proof (so_lists _ _ _ (so_queue _ _ _ Hs)) as Hl.
  pose proof (not_waiting s L psema 0 ws (cur s) Hl Hse Hun) as Hnot.
  destruct (klist_eq (list_append (waiters psema) (general_tag (cur s))) s _
    (list_append_ok _ L _ _ _ Hl (se_list _ _ _ _ _ Hse) Hun)) as ([] & l & Happ & Hpost).
  exists l. split; [|by rewrite fmap_app]. simpl sema_down_loop.
  erewrite bind_ok by (apply get_value_eq, Hse). change (0 =? 0) with true. cbv iota.
  erewrite bind_ok by done. erewrite bind_ok by exact Hnot. erewrite bind_ok by done.
  erewrite bind_ok by exact Hnot. erewrite bind_ok by done. by erewrite bind_ok by exact Happ.
Qed.

Lemma sema_ok_mono s s' L L' psema v ws :
  sema_ok s L psema v ws -> values (sync s') = values (sync s) ->
  L' !! waiters psema = L !! waiters psema ->
  (forall w ts, w ∈ ws -> tasks s !! w = Some ts -> status ts = TASK_BLOCKED ->
     exists ts', tasks s' !! w = Some ts' /\ status ts' = TASK_BLOCKED) ->
  sema_ok s' L' psema v ws.
Proof.
  intros [Hv Hw Ho Hb] Ev EL Ht. split; [by rewrite Ev | by rewrite EL | done|].
  intros w Hin. destruct (Hb w Hin) as (ts & Hw' & Hst). eauto.
Qed.

(** The semaphore after the running thread has joined its waiters and [next]
    runs. *)
Lemma waiting_sema_ok s L psema ws ts next nts l :
  sema_ok s L psema 0 ws -> tasks s !! next = Some nts -> status nts = TASK_READY -> next <> cur s ->
  tasks s !! cur s = Some ts ->
  sema_ok (scheduled (blocking TASK_BLOCKED s ts) (set_status TASK_BLOCKED ts) next nts l)
    (<[waiters psema := general_tag <$> (ws ++ [cur s])]> L) psema 0 (ws ++ [cur s]).
Proof.
  intros Hse Hn Hr Hne Hts. split; simpl.
  - apply Hse.
  - apply lookup_insert_eq.
  - apply Hse.
  - intros w Hw. unfold requeued_tasks. rewrite decide_False by done. simpl.
    destruct (Z.eq_dec next w) as [<-|Hnw].
    { exfalso. apply elem_of_app in Hw as [Hw|Hw%list_elem_of_singleton]; [|done].
      destruct (se_blocked _ _ _ _ _ Hse _ Hw) as (ts' & Ht' & Hb). congruence. }
    rewrite lookup_insert_ne by done. destruct (Z.eq_dec (cur s) w) as [<-|Hcw].
    { rewrite lookup_insert_eq. eauto. }
    rewrite lookup_insert_ne by done. apply Hse.
    apply elem_of_app in Hw as [Hw|Hw%list_elem_of_singleton]; [done | congruence].
Qed.

Lemma sema_down_wait fuel psema s L q ws ts :
  sched_ok s L q -> sema_ok s L psema 0 ws -> tasks s !! cur s = Some ts -> status ts = TASK_RUNNING ->
  match q with
  | [] => sema_down (S fuel) psema s = Panic
  | next :: rest => forall nts, tasks s !! next = Some nts -> dir_ok s nts ->
      let L' := <[thread_ready_list := general_tag <$> rest]>
        (<[waiters psema := general_tag <$> (ws ++ [cur s])]> L) in
      exists l k, let s' := scheduled (blocking TASK_BLOCKED s ts) (set_status TASK_BLOCKED ts) next nts l in
        if_flag (eflags l) = false /\ sched_ok s' L' rest /\ sema_ok s' L' psema 0 (ws ++ [cur s]) /\
        sema_down (S fuel) psema s = Switched s' k /\
        forall s'', k s'' =
          sema_down_rest fuel psema (status_of (if_flag (eflags (lst s)))) (with_if false s'')
  end.
Proof.
  intros Hs Hse Hts Hst. destruct (so_running _ _ _ Hs _ _ Hts Hst) as [_ Hun].
  set (s0 := with_if false s).
  assert (sched_ok s0 L q) as Hs0 by (by apply sched_ok_with_if).
  assert (sema_ok s0 L psema 0 ws) as Hse0 by (destruct Hse; by split).
  destruct (sema_down_round fuel psema s0 L q ws Hs0 Hse0 Hun) as (l1 & Hround & Hpost).
  pose proof (queue_ok_other s0 L q _ _ l1 (so_queue _ _ _ Hs0) (se_other _ _ _ _ _ Hse) Hpost) as Hq1.
  assert (only_running (put_lst l1 s0)) as Hone by exact (sched_only_running _ _ _ Hs0).
  pose proof (thread_block_spec (put_lst l1 s0) _ q ts TASK_BLOCKED Hq1 Hone Hts Hst eq_refl) as Hb.
  rewrite sema_down_unfold. fold s0. destruct q as [|next rest].
  { unfold sema_down_rest. erewrite bind_panic; [done|]. rewrite Hround. by erewrite bind_panic. }
  intros nts Hn Hd. destruct (Hb nts Hn Hd) as (l & k & Hif & _ & Hs' & E & Hk).
  destruct (so_queued _ _ _ (so_queue _ _ _ Hs) next (list_elem_of_here _ _)) as (nts' & Hn' & Hready).
  assert (nts' = nts) as -> by congruence.
  assert (next <> cur s) as Hne by (intros ->; congruence).
  exists l. eexists. split; [done|]. split; [exact Hs'|]. split; [|split].
  - eapply sema_ok_mono; [by apply (waiting_sema_ok s L psema ws ts next nts l)|done| |eauto].
    rewrite lookup_insert_ne by (apply not_eq_sym, Hse). done.
  - unfold sema_down_rest at 1. erewrite bind_switched; [reflexivity|]. rewrite Hround. by erewrite bind_switched by exact E.
  - intros s''. simpl. rewrite Hk. simpl. destruct Hpost as (_ & He & _). simpl in He.
    change (eflags (lst (put_lst l1 s0))) with (eflags l1). rewrite He, if_flag_set_if. reflexivity.
Qed.

(** *** Waking a thread *)
Lemma unlinked_shrink ns ns' L l xs xs' m :
  dom ns' = dom ns -> L !! l = Some xs -> xs' ⊆ xs -> unlinked ns L m -> unlinked ns' (<[l := xs']> L) m.
Proof.
  intros Hd HL Hsub [Hin Hun]. split; [by rewrite Hd|]. intros l' ys.
  destruct (Z.eq_dec l l') as [<-|Hne].
  - rewrite lookup_insert_eq. intros [= <-] Hm. apply (Hun _ _ HL). unfold path in *.
    rewrite elem_of_cons, elem_of_app in *. naive_solver.
  - rewrite lookup_insert_ne by done. apply Hun.
Qed.

Lemma sched_ok_shrink s L q w xs xs' l :
  sched_ok s L q -> L !! w = Some xs -> xs' ⊆ xs -> w <> thread_ready_list ->
  list_post (lst s) (<[w := xs']> L) l -> sched_ok (put_lst l s) (<[w := xs']> L) q.
Proof.
  intros Hs HL Hsub Hw Hpost. split.
  - by apply queue_ok_other; [apply Hs| |].
  - intros t ts Ht Hr. destruct (so_running _ _ _ Hs t ts Ht Hr) as [Hc Hun]. split; [done|].
    destruct Hpost as (_ & _ & Hd). by apply (unlinked_shrink (nodes (lst s)) _ L w xs xs').
Qed.

(** The end of [sema_up]: the value becomes 1. *)
Lemma sema_up_end psema b s :
  values (sync s) !! psema = Some 0 ->
  (v ← get_value psema; set_value psema (u8 (v + 1)) ;;; v ← get_value psema; ASSERT (v =? 1) ;;;
   _ ← kflags (set_intr_status (status_of b)); mret tt) s = Ok (tt, with_if b (with_value psema 1 s)).
Proof.
  intros Hv. erewrite bind_ok by (by apply get_value_eq). change (u8 (0 + 1)) with 1.
  erewrite bind_ok by (by eapply set_value_eq).
  erewrite bind_ok by (apply get_value_eq, lookup_insert_eq). erewrite bind_ok by done.
  destruct (kflags_set_eq b (with_value psema 1 s)) as [st E]. by erewrite bind_ok by exact E.
Qed.

Lemma with_if_restore s x : with_if (if_flag (eflags (lst s))) (with_value x 1 (with_if false s)) = with_value x 1 s.
Proof.
  unfold with_if, put_lst, with_value, put_sync. simpl. rewrite set_if_set_if, set_if_self. by destruct s as [[]].
Qed.

Lemma sema_up_none s L psema :
  lists_ok (nodes (lst s)) L -> sema_ok s L psema 0 [] -> sema_up psema s = Ok (tt, with_value psema 1 s).
Proof.
  intros Hl Hse. unfold sema_up. erewrite bind_ok by apply kflags_disable_eq.
  erewrite bind_ok by (apply get_value_eq, Hse). erewrite bind_ok by done.
  pose proof (klist_empty_eq (with_if false s) L _ _ Hl (se_list _ _ _ _ _ Hse)) as He.
  erewrite bind_ok by exact He. erewrite bind_ok by done.
  rewrite sema_up_end by apply Hse. by rewrite with_if_restore.
Qed.

Lemma sema_up_wake s L q psema w ws ts :
  sched_ok s L q -> sema_ok s L psema 0 (w :: ws) -> tasks s !! w = Some ts ->
  let L' := <[thread_ready_list := general_tag <$> (w :: q)]> (<[waiters psema := general_tag <$> ws]> L) in
  exists l, let s' := with_value psema 1 (unblocked w s ts l) in
    sema_up psema s = Ok (tt, s') /\ eflags l = eflags (lst s) /\
    sched_ok s' L' (w :: q) /\ (NoDup (w :: ws) -> sema_ok s' L' psema 1 ws).
Proof.
  intros Hs Hse Hw. set (s0 := with_if false s). pose proof (so_queue _ _ _ Hs) as Hq.
  destruct (se_blocked _ _ _ _ _ Hse w (list_elem_of_here _ _)) as (ts' & Hw' & Hblk).
  assert (ts' = ts) as -> by congruence.
  pose proof (klist_empty_eq s0 L _ _ (so_lists _ _ _ Hq) (se_list _ _ _ _ _ Hse)) as He.
  destruct (klist_eq (list_pop (waiters psema)) s0 _
    (list_pop_ok (lst s0) L _ (general_tag w) _ (so_lists _ _ _ Hq) (se_list _ _ _ _ _ Hse)))
    as (tag & l1 & Hpop & -> & Hpost & Hun).
  set (s1 := put_lst l1 s0).
  assert (sched_ok s1 (<[waiters psema := general_tag <$> ws]> L) q) as Hs1.
  { apply (sched_ok_shrink s0 L q _ (general_tag <$> (w :: ws))); [by apply sched_ok_with_if | apply Hse | |
      apply Hse | done]. intros x Hx. by right. }
  pose proof (thread_unblock_spec s1 _ q w ts Hs1 Hw Hun) as Hub.
  rewrite Hblk in Hub. destruct Hub as (l2 & Eub & Hf & _ & Hs2).
  exists (LState (nodes l2) (eflags (lst s))). split; [|split; [done|split]].
  - unfold sema_up. erewrite bind_ok by apply kflags_disable_eq. fold s0.
    erewrite bind_ok by (apply get_value_eq, Hse). erewrite bind_ok by done.
    erewrite bind_ok by exact He. cbn [Z.eqb when]. change (when true ?m) with m.
    assert (Ew : (tag ← klist (list_pop (waiters psema)); thread_unblock (general_entry tag)) s0 =
      Ok (tt, unblocked w s1 ts l2)).
    { erewrite bind_ok by exact Hpop. rewrite general_entry_tag by (by eapply (so_addr _ _ _ Hq)). exact Eub. }
    erewrite bind_ok by exact Ew. rewrite sema_up_end by apply Hse.
    unfold with_if, put_lst, with_value, put_sync, unblocked, put_tasks. simpl.
    rewrite Hf. change (lst s1) with l1. destruct Hpost as (_ & -> & _). simpl. by rewrite set_if_set_if, set_if_self.
  - destruct Hs2 as [[] Hr2]. split; [split|]; done.
  - intros [Hnin _]%NoDup_cons. eapply sema_ok_mono with (s := with_value psema 1 s0) (L := <[waiters psema := general_tag <$> ws]> L).
    + split; simpl; [apply lookup_insert_eq | apply lookup_insert_eq | apply Hse|].
      intros x Hx. apply (se_blocked _ _ _ _ _ Hse). by right.
    + done.
    + rewrite lookup_insert_ne by (apply not_eq_sym, Hse). done.
    + intros x xs Hx Hlk Hb. exists xs. simpl. rewrite lookup_insert_ne by congruence. done.
Qed.

(** ** Locks, when no interrupt arrives *)
Lemma wpk_window {St} (s : St) (Q : unit -> St -> Prop) R : Q tt s -> wpk window s Q R.
Proof. done. Qed.

Lemma wpk_eq {St A} (m : M St A) s a s' (Q : A -> St -> Prop) R :
  m s = Ok (a, s') -> Q a s' -> wpk m s Q R.
Proof. unfold wpk. by intros ->. Qed.

(** Steps over a window, and over a statement whose effect is an equation. *)
Ltac wpk_win := apply wpk_bind, wpk_window.
Ltac wpk_do tac := apply wpk_bind; eapply wpk_eq; [solve [tac] | cbv beta].

(** The lock after its semaphore has been taken. *)
Definition owned (plock n : Z) (s : kstate) : kstate := put_lock plock (Lock (cur s) n) s.

Lemma lock_acquire_end plock l s Q R :
  locks (sync s) !! plock = Some l -> holder_repeat_cnt l = 0 -> Q tt (owned plock 1 s) ->
  wpk (window ;;; c ← running_thread; set_holder plock c ;;; window ;;;
       l ← get_lock plock; ASSERT (holder_repeat_cnt l =? 0) ;;; window ;;; set_repeat plock 1) s Q R.
Proof.
  intros Hl Hn HQ. wpk_win. wpk_do done. wpk_do ltac:(by eapply set_holder_eq). rewrite Hn. wpk_win.
  wpk_do ltac:(apply get_lock_eq, lookup_insert_eq). wpk_do done. wpk_win.
  eapply wpk_eq; [apply set_repeat_eq, lookup_insert_eq|]. simpl.
  unfold owned, put_lock, put_sync in *. simpl in *. by rewrite insert_insert_eq.
Qed.

Lemma lock_acquire_again fuel plock n s Q R :
  locks (sync s) !! plock = Some (Lock (cur s) n) -> Q tt (owned plock (u32 (n + 1)) s) ->
  wpk (lock_acquire fuel plock) s Q R.
Proof.
  intros Hl HQ. unfold lock_acquire. wpk_win. wpk_do ltac:(by apply get_lock_eq). wpk_do done.
  cbn [holder]. rewrite Z.eqb_refl. cbn [negb]. wpk_win. wpk_do ltac:(by apply get_lock_eq).
  eapply wpk_eq; [by apply set_repeat_eq | exact HQ].
Qed.

Lemma lock_acquire_free fuel plock h s Q R :
  locks (sync s) !! plock = Some (Lock h 0) -> h <> cur s ->
  values (sync s) !! semaphore plock = Some 1 ->
  Q tt (owned plock 1 (with_value (semaphore plock) 0 s)) ->
  wpk (lock_acquire (S fuel) plock) s Q R.
Proof.
  intros Hl Hh Hv HQ. unfold lock_acquire. wpk_win. wpk_do ltac:(by apply get_lock_eq). wpk_do done.
  cbn [holder]. destruct (Z.eqb_spec h (cur s)); [done|]. cbn [negb]. wpk_win.
  wpk_do ltac:(rewrite sema_down_unfold; by apply sema_down_take).
  apply (lock_acquire_end _ (Lock h 0)); [done | done|].
  replace (with_if _ _) with (with_value (semaphore plock) 0 s); [done|].
  unfold with_if, put_lst, with_value, put_sync. simpl. rewrite set_if_set_if, set_if_self. by destruct s as [[]].
Qed.

(** What a thread that waited for the lock does when it runs again. *)
Definition resumes_with_lock (plock : Z) (b : bool) (k : kstate -> outcome unit kstate) : Prop :=
  forall s h, locks (sync s) !! plock = Some (Lock h 0) -> values (sync s) !! semaphore plock = Some 1 ->
    wpk_out (k s) (fun _ s' => s' = owned plock 1 (with_if b (with_value (semaphore plock) 0 s)))
      (fun _ _ => False).

Lemma lock_acquire_wait fuel plock l s s' k Q R :
  locks (sync s) !! plock = Some l -> holder l <> cur s ->
  sema_down (S fuel) (semaphore plock) s = Switched s' k ->
  (forall k', (forall s'', k' s'' = outcome_bind (k s'') (fun _ =>
      (window ;;; c ← running_thread; set_holder plock c ;;; window ;;; l ← get_lock plock;
       ASSERT (holder_repeat_cnt l =? 0) ;;; window ;;; set_repeat plock 1))) -> R s' k') ->
  wpk (lock_acquire (S fuel) plock) s Q R.
Proof.
  intros Hl Hh E HR. unfold lock_acquire. wpk_win. wpk_do ltac:(by apply get_lock_eq). wpk_do done.
  destruct (Z.eqb_spec (holder l) (cur s)); [done|]. cbn [negb]. wpk_win. unfold wpk.
  erewrite bind_switched by exact E. simpl. by apply HR.
Qed.

Lemma waited_for_lock fuel plock b k :
  (forall s, k s = outcome_bind (sema_down_rest (S fuel) (semaphore plock) (status_of b) (with_if false s)) (fun _ =>
      (window ;;; c ← running_thread; set_holder plock c ;;; window ;;; l ← get_lock plock;
       ASSERT (holder_repeat_cnt l =? 0) ;;; window ;;; set_repeat plock 1))) ->
  resumes_with_lock plock b k.
Proof.
  intros Hk s h Hl Hv. rewrite Hk, sema_down_take by exact Hv. simpl outcome_bind.
  apply (lock_acquire_end plock (Lock h 0)); [done | done|].
  unfold owned, put_lock, with_if, put_lst, with_value, put_sync. simpl. by rewrite set_if_set_if.
Qed.

(** A lock and its semaphore agree: free, or held at least once. *)
Definition lock_agrees (l : lock) (v : Z) : Prop :=
  (v = 1 /\ holder l = NULL /\ holder_repeat_cnt l = 0) \/
  (v = 0 /\ holder l <> NULL /\ 1 <= holder_repeat_cnt l < 0xffffffff).

Lemma lock_release_once plock n s Q R :
  locks (sync s) !! plock = Some (Lock (cur s) n) -> 1 < n < 0x100000000 ->
  Q tt (owned plock (n - 1) s) -> wpk (lock_release plock) s Q R.
Proof.
  intros Hl Hn HQ. unfold lock_release. wpk_win. wpk_do ltac:(by apply get_lock_eq). wpk_do done.
  cbn [holder holder_repeat_cnt]. rewrite Z.eqb_refl. wpk_do done. wpk_win. wpk_do ltac:(by apply get_lock_eq).
  cbn [holder holder_repeat_cnt]. destruct (Z.ltb_spec 1 n); [|lia]. wpk_win.
  wpk_do ltac:(by apply get_lock_eq). eapply wpk_eq; [by apply set_repeat_eq|].
  cbn [holder holder_repeat_cnt]. by rewrite u32_id by (unfold is_u32; lia).
Qed.

Lemma lock_release_last plock s s' Q R :
  locks (sync s) !! plock = Some (Lock (cur s) 1) ->
  sema_up (semaphore plock) (put_lock plock (Lock NULL 0) s) = Ok (tt, s') -> Q tt s' ->
  wpk (lock_release plock) s Q R.
Proof.
  intros Hl E HQ. unfold lock_release. wpk_win. wpk_do ltac:(by apply get_lock_eq). wpk_do done.
  cbn [holder holder_repeat_cnt]. rewrite Z.eqb_refl. wpk_do done. wpk_win. wpk_do ltac:(by apply get_lock_eq).
  cbn [holder_repeat_cnt]. change (1 <? 1) with false. cbv iota. wpk_win.
  wpk_do ltac:(by apply get_lock_eq). wpk_do done. wpk_win. wpk_do ltac:(by eapply set_holder_eq).
  cbn [holder_repeat_cnt]. wpk_win. wpk_do ltac:(eapply set_repeat_eq, lookup_insert_eq). cbn [holder].
  wpk_win. eapply wpk_eq; [|exact HQ]. rewrite <- E. f_equal.
  unfold put_lock, put_sync. simpl. by rewrite insert_insert_eq.
Qed.

(** ** Properties *)

(** [sema_down] by the running thread: with value 1 it takes the value and
    returns; with value 0 the thread joins the end of the waiters, blocks and
    hands the processor to the head of the ready list (ASSERT stops the
    machine if there is none), and when it is chosen again it looks again:
    finding 1 it takes it and returns with the caller's interrupt flag. *)
Theorem sema_down_correct (fuel : nat) (psema v : Z) (s : kstate) (L : gmap Z (list Z)) (q ws : list Z)
    (ts : task_struct) (Hs : sched_ok s L q) (Hse : sema_ok s L psema v ws)
    (Hcur : tasks s !! cur s = Some ts) (Hrun : status ts = TASK_RUNNING) (Hv : v = 0 \/ v = 1) :
  if v =? 1 then sema_down (S fuel) psema s = Ok (tt, with_value psema 0 s)
  else match q with
  | [] => sema_down (S fuel) psema s = Panic
  | next :: rest => forall nts, tasks s !! next = Some nts -> dir_ok s nts ->
      let L' := <[thread_ready_list := general_tag <$> rest]>
        (<[waiters psema := general_tag <$> (ws ++ [cur s])]> L) in
      exists l k, let s' := scheduled (blocking TASK_BLOCKED s ts) (set_status TASK_BLOCKED ts) next nts l in
        if_flag (eflags l) = false /\ sched_ok s' L' rest /\ sema_ok s' L' psema 0 (ws ++ [cur s]) /\
        sema_down (S fuel) psema s = Switched s' k /\
        forall s'' f, fuel = S f -> values (sync s'') !! psema = Some 1 ->
          k s'' = Ok (tt, with_if (if_flag (eflags (lst s))) (with_value psema 0 s''))
  end.
Proof.
  destruct Hv as [->| ->]; simpl.
  - pose proof (sema_down_wait fuel psema s L q ws ts Hs Hse Hcur Hrun) as Hw. destruct q as [|next rest]; [done|].
    intros nts Hn Hd. destruct (Hw nts Hn Hd) as (l & k & Hif & Hs' & Hse' & E & Hk). exists l, k.
    split; [done|]. split; [done|]. split; [done|]. split; [done|]. intros s'' f -> Hv.
    rewrite Hk, sema_down_take by done. unfold with_if, put_lst, with_value, put_sync. simpl.
    by rewrite set_if_set_if.
  - rewrite sema_down_unfold, sema_down_take by apply Hse.
    unfold with_if, put_lst, with_value, put_sync. simpl. rewrite set_if_set_if, set_if_self. by destruct s as [[]].
Qed.

(** [sema_up]: the ASSERT stops the machine unless the value is 0; then
    the value becomes 1, and the thread that waited longest, if any, leaves
    the waiters and becomes ready at the front of the ready list. *)
Theorem sema_up_correct (psema v : Z) (s : kstate) (L : gmap Z (list Z)) (q ws : list Z)
    (Hs : sched_ok s L q) (Hse : sema_ok s L psema v ws) (Hnd : NoDup ws) :
  if v =? 0 then
    match ws with
    | [] => sema_up psema s = Ok (tt, with_value psema 1 s)
    | w :: ws' => forall ts, tasks s !! w = Some ts ->
        let L' := <[thread_ready_list := general_tag <$> (w :: q)]>
          (<[waiters psema := general_tag <$> ws']> L) in
        exists l, let s' := with_value psema 1 (unblocked w s ts l) in
          sema_up psema s = Ok (tt, s') /\ eflags l = eflags (lst s) /\
          sched_ok s' L' (w :: q) /\ sema_ok s' L' psema 1 ws'
    end
  else sema_up psema s = Panic.
Proof.
  destruct (Z.eqb_spec v 0) as [->|Hv].
  - destruct ws as [|w ws]; [eapply sema_up_none; [apply Hs | done]|]. intros ts Hw L'.
    destruct (sema_up_wake s L q psema w ws ts Hs Hse Hw) as (l & E & He & Hs' & Hse').
    exists l. split; [done|]. split; [done|]. split; [done|]. by apply Hse'.
  - unfold sema_up. erewrite bind_ok by apply kflags_disable_eq.
    erewrite bind_ok by (apply get_value_eq, Hse). apply Z.eqb_neq in Hv. rewrite Hv. by erewrite bind_panic.
Qed.

(** C12: [lock_acquire], no interrupt arriving: the holder only counts one
    more acquisition; a free lock is taken; otherwise the thread waits, and
    when it runs again and finds the lock free it takes it. *)
Theorem lock_acquire_correct (fuel : nat) (plock v : Z) (l : lock) (s : kstate) (L : gmap Z (list Z))
    (q ws : list Z) (ts : task_struct) (next : Z) (rest : list Z) (nts : task_struct)
    (Hs : sched_ok s L q) (Hse : sema_ok s L (semaphore plock) v ws) (Hl : locks (sync s) !! plock = Some l)
    (Hagree : lock_agrees l v) (Hcur : tasks s !! cur s = Some ts) (Hrun : status ts = TASK_RUNNING)
    (Hq : q = next :: rest) (Hnext : tasks s !! next = Some nts) (Hdir : dir_ok s nts) :
  wpk (lock_acquire (S (S fuel)) plock) s
    (fun _ s' =>
       if holder l =? cur s then s' = owned plock (holder_repeat_cnt l + 1) s
       else v = 1 /\ s' = owned plock 1 (with_value (semaphore plock) 0 s))
    (fun s' k => v = 0 /\ holder l <> cur s /\ cur s' = next /\ locks (sync s') = locks (sync s) /\
       let L' := <[thread_ready_list := general_tag <$> rest]>
         (<[waiters (semaphore plock) := general_tag <$> (ws ++ [cur s])]> L) in
       sched_ok s' L' rest /\ sema_ok s' L' (semaphore plock) 0 (ws ++ [cur s]) /\
       resumes_with_lock plock (if_flag (eflags (lst s))) k).
Proof.
  pose proof (so_addr _ _ _ (so_queue _ _ _ Hs) _ _ Hcur) as Ha.
  destruct (Z.eqb_spec (holder l) (cur s)) as [Hh|Hh].
  - destruct l as [h n]. simpl in *. subst h. eapply lock_acquire_again; [exact Hl|].
    destruct Hagree as [(_ & E & _)|(_ & _ & Hn)]; simpl in *; [unfold NULL in E; lia|].
    by rewrite u32_id by (unfold is_u32; lia).
  - destruct Hagree as [(-> & E & Hn)|(-> & _ & _)].
    + destruct l as [h n]. simpl in *. subst n. eapply lock_acquire_free; [exact Hl | done | apply Hse | done].
    + subst q. destruct (sema_down_wait (S fuel) _ s L _ ws ts Hs Hse Hcur Hrun nts Hnext Hdir)
        as (l' & k & _ & Hs' & Hse' & E & Hk).
      eapply lock_acquire_wait; [exact Hl | done | exact E|]. intros k' Hk'.
      split; [done|]. split; [done|]. split; [done|]. split; [done|]. split; [done|]. split; [done|].
      apply (waited_for_lock fuel). intros s''. by rewrite Hk', Hk.
Qed.

(** C13: [lock_release], no interrupt arriving: the ASSERT stops the machine
    when the caller does not hold the lock; a lock held several times is only
    counted down; the last release frees the lock and wakes the thread that
    waited longest. *)
Theorem lock_release_correct (plock v : Z) (l : lock) (s : kstate) (L : gmap Z (list Z)) (q ws : list Z)
    (Hs : sched_ok s L q) (Hse : sema_ok s L (semaphore plock) v ws) (Hl : locks (sync s) !! plock = Some l)
    (Hagree : lock_agrees l v) (Hcur : cur s <> NULL) (Hnd : NoDup ws) :
  if holder l =? cur s then
    wpk (lock_release plock) s
      (fun _ s' =>
         if 1 <? holder_repeat_cnt l then s' = owned plock (holder_repeat_cnt l - 1) s
         else let s0 := put_lock plock (Lock NULL 0) s in
           match ws with
           | [] => s' = with_value (semaphore plock) 1 s0
           | w :: ws' => let L' := <[thread_ready_list := general_tag <$> (w :: q)]>
                 (<[waiters (semaphore plock) := general_tag <$> ws']> L) in
               exists ts lists, s' = with_value (semaphore plock) 1 (unblocked w s0 ts lists) /\
                 sched_ok s' L' (w :: q) /\ sema_ok s' L' (semaphore plock) 1 ws'
           end)
      (fun _ _ => False)
  else undisturbed (lock_release plock s) = Panic.
Proof.
  assert (Hlock : get_lock plock s = Ok (l, s)) by (by apply get_lock_eq).
  destruct (Z.eqb_spec (holder l) (cur s)) as [Hh|Hh].
  - destruct Hagree as [(_ & E & _)|(-> & _ & Hn)]; [congruence|].
    destruct l as [h n]. simpl in *. subst h. destruct (Z.ltb_spec 1 n) as [Hlt|Hge].
    + by eapply lock_release_once; [exact Hl | lia |].
    + replace n with 1 in Hl by lia. set (s0 := put_lock plock (Lock NULL 0) s).
      assert (sched_ok s0 L q) as Hs0 by (destruct Hs as [[] Hr]; split; [split|]; done).
      assert (sema_ok s0 L (semaphore plock) 0 ws) as Hse0 by (destruct Hse; by split).
      destruct ws as [|w ws].
      * eapply lock_release_last; [exact Hl | eapply sema_up_none; [apply Hs | done] | done].
      * destruct (se_blocked _ _ _ _ _ Hse w (list_elem_of_here _ _)) as (ts & Hw & _).
        destruct (sema_up_wake s0 L q _ w ws ts Hs0 Hse0 Hw) as (l2 & E & _ & Hs' & Hse').
        eapply lock_release_last; [exact Hl | exact E|]. exists ts, l2. split; [done|]. split; [done|]. by apply Hse'.
  - unfold lock_release, window, mbind, M_bind. simpl. rewrite Hlock. simpl.
    apply Z.eqb_neq in Hh. by rewrite Hh.
Qed.
End SyncProofs.

(** *** Concrete instances *)
#[local] Instance example_layout : Layout := {|
  thread_ready_list := 0x10000; thread_all_list := 0x10010; pid_lock := 0x10020 |}.

(** The thread at 0x1000 runs, 0x2000 is ready and 0x3000 waits for the lock
    at 0x20000, which [h] holds. *)
Definition example_kernel_lock (h : Z) : kstate :=
  KState (LState {[0x10000 := Node NULL 0x2024; 0x2024 := Node 0x10000 0x10008; 0x10008 := Node 0x2024 NULL;
                   0x20008 := Node NULL 0x3024; 0x3024 := Node 0x20008 0x20010; 0x20010 := Node 0x3024 NULL;
                   0x1024 := Node NULL NULL]} 0x202)
    (tasks example_kernel)
    (Sync {[0x20004 := 0]} {[0x20000 := Lock h 1]}) 0x1000 3 (Mmu ∅ 0x100000) 0 0.

Definition example_lock_lists : gmap Z (list Z) := {[0x10000 := [0x2024]; 0x20008 := [0x3024]]}.

Lemma example_lock_sched h : sched_ok (example_kernel_lock h) example_lock_lists [0x2000].
Proof.
  destruct example_sched_ok as [[_ _ Haddr Hqd Hcomp Hc] _]. split; [split|].
  - apply lists_ok_two; [by vm_compute | by vm_compute |]. refine (bool_decide_eq_true_1 _ _); by vm_compute.
  - done.
  - exact Haddr.
  - exact Hqd.
  - exact Hcomp.
  - exact Hc.
  - intros t ts Ht. unfold example_kernel_lock in Ht. cbn [tasks] in Ht. each_task Ht; try done.
    intros _. split; [done|]. split; [apply elem_of_dom; by vm_compute; eauto|].
    intros l xs Hl. unfold example_lock_lists in Hl.
    apply lookup_insert_Some in Hl as [[<- <-]|[_ [<- <-]%lookup_singleton_Some]];
      refine (bool_decide_eq_true_1 _ _); by vm_compute.
Qed.

Lemma example_lock_sema h : sema_ok (example_kernel_lock h) example_lock_lists (semaphore 0x20000) 0 [0x3000].
Proof.
  split; [done | done | done|]. intros w ->%list_elem_of_singleton.
  exists (example_task TASK_BLOCKED 31). split; [by vm_compute | done].
Qed.

Lemma sema_down_correct_witness :
  exists s' k, sema_down 2 0x20004 (example_kernel_lock 0x2000) = Switched s' k /\ cur s' = 0x2000 /\
    forall s'', values (sync s'') !! 0x20004 = Some 1 ->
      k s'' = Ok (tt, with_if true (with_value 0x20004 0 s'')).
Proof.
  pose proof (sema_down_correct 1 0x20004 0 (example_kernel_lock 0x2000) example_lock_lists [0x2000] [0x3000]
    (example_task TASK_RUNNING 1) (example_lock_sched _) (example_lock_sema _) eq_refl eq_refl (or_introl eq_refl)
    (example_task TASK_READY 31) eq_refl (kernel_thread_dir_ok _ (example_task TASK_READY 31) eq_refl))
    as (l & k & _ & _ & _ & E & Hk).
  eexists _, k. split; [exact E|]. split; [done|]. intros s''. by apply (Hk s'' 0%nat).
Defined.

Lemma sema_up_correct_witness :
  exists s', sema_up 0x20004 (example_kernel_lock 0x2000) = Ok (tt, s') /\
    sched_ok s' (<[0x10000 := [0x3024; 0x2024]]> (<[0x20008 := []]> example_lock_lists)) [0x3000; 0x2000].
Proof.
  pose proof (sema_up_correct 0x20004 0 (example_kernel_lock 0x2000) example_lock_lists [0x2000] [0x3000]
    (example_lock_sched _) (example_lock_sema _) (NoDup_singleton _) (example_task TASK_BLOCKED 31) eq_refl)
    as (l & E & _ & Hs & _).
  eexists. split; [exact E | exact Hs].
Defined.

Lemma example_agrees h : h <> NULL -> lock_agrees (Lock h 1) 0.
Proof. intros Hh. right. simpl. split; [done|]. split; [done | lia]. Qed.

Lemma lock_acquire_correct_witness :
  wpk (lock_acquire 2 0x20000) (example_kernel_lock 0x2000) (fun _ _ => False)
    (fun s' k => cur s' = 0x2000 /\ resumes_with_lock 0x20000 true k).
Proof.
  eapply wpk_mono; [apply (lock_acquire_correct 0 0x20000 0 (Lock 0x2000 1) (example_kernel_lock 0x2000)
    example_lock_lists [0x2000] [0x3000] (example_task TASK_RUNNING 1) 0x2000 [] (example_task TASK_READY 31)
    (example_lock_sched _) (example_lock_sema _) eq_refl (example_agrees 0x2000 ltac:(done)) eq_refl eq_refl
    eq_refl eq_refl (kernel_thread_dir_ok _ (example_task TASK_READY 31) eq_refl)) | |].
  - intros a s' [? _]. done.
  - intros s' k (_ & _ & Hc & _ & _ & _ & Hk). split; [exact Hc | exact Hk].
Defined.

Lemma lock_release_correct_witness :
  wpk (lock_release 0x20000) (example_kernel_lock 0x1000)
    (fun _ s' => sched_ok s' (<[0x10000 := [0x3024; 0x2024]]> (<[0x20008 := []]> example_lock_lists))
                   [0x3000; 0x2000] /\ values (sync s') !! 0x20004 = Some 1)
    (fun _ _ => False).
Proof.
  eapply wpk_mono; [apply (lock_release_correct 0x20000 0 (Lock 0x1000 1) (example_kernel_lock 0x1000)
    example_lock_lists [0x2000] [0x3000] (example_lock_sched _) (example_lock_sema _) eq_refl
    (example_agrees 0x1000 ltac:(done)) ltac:(done) (NoDup_singleton _)) | | done].
  intros a s' (ts & lists & -> & Hs & Hse). split; [exact Hs | apply Hse].
Defined.
