(* ===== verification/PoolLocks.v ===== *)
(** * The kernel's state and the locks of the memory pools

    The threads and the memory allocator share one machine: [kernel] holds
    both, seen through the lenses [threads] and [memory].
    [kernel_mem_pool.lock] and [user_mem_pool.lock] are locks of thread/sync.c:
    they give the interface [PoolLocks] the allocator and the heap rely on. *)
From stdpp Require Import base numbers list gmap fin_maps.
From Stdlib Require Import ZArith Lia.
From S2P Require Import Prelude Globals Interrupt LinkedList Bitmap Paging PageAlloc PageFree Pages Thread Sync.

(** ** A lock nobody contends for *)
Section LockBracket.
Context `{!Layout}.

(** The lock is free and nobody waits for it. *)
Definition lock_free (plock : Z) (s : kstate) : Prop := exists L,
  lists_ok (nodes (lst s)) L /\ sema_ok s L (semaphore plock) 1 [] /\
  locks (sync s) !! plock = Some (Lock NULL 0) /\ cur s <> NULL.

(** The running thread holds it. *)
Definition taken (plock : Z) (s : kstate) : kstate := owned plock 1 (with_value (semaphore plock) 0 s).

Lemma lock_free_acquire fuel plock s :
  lock_free plock s -> undisturbed (lock_acquire (S fuel) plock s) = Ok (tt, taken plock s).
Proof.
  intros (L & Hs & Hse & Hl & Hc).
  destruct (wpk_undisturbed (lock_acquire (S fuel) plock) s (fun _ s' => s' = taken plock s)) as ([] & s' & E & ->); [|done].
  eapply lock_acquire_free; [exact Hl | by apply not_eq_sym | apply Hse | done].
Qed.

Lemma lock_free_release plock s :
  lock_free plock s -> undisturbed (lock_release plock (taken plock s)) = Ok (tt, s).
Proof.
  intros (L & Hs & Hse & Hl & Hc). set (s2 := put_lock plock (Lock NULL 0) (taken plock s)).
  assert (sema_ok s2 L (semaphore plock) 0 []) as Hse2.
  { destruct Hse. split; try done. apply lookup_insert_eq. }
  pose proof (sema_up_none s2 L _ Hs Hse2) as Eup.
  destruct (wpk_undisturbed (lock_release plock) (taken plock s) (fun _ s' => s' = with_value (semaphore plock) 1 s2))
    as ([] & s' & E & ->).
  { eapply lock_release_last; [apply lookup_insert_eq | exact Eup | done]. }
  rewrite E. do 2 f_equal. unfold s2, taken, with_value, put_lock, owned, put_sync, put_lock. simpl.
  rewrite !insert_insert_eq. rewrite !insert_id by (done || apply Hse).
  by destruct s as [l t [v k] c p m e o].
Qed.

(** Only the lists, the lock and its semaphore matter to a lock. *)
Lemma lock_free_ext plock s s' :
  lock_free plock s -> nodes (lst s') = nodes (lst s) -> sync s' = sync s -> cur s' = cur s -> lock_free plock s'.
Proof.
  intros (L & Hl & [] & Hk & Hc) En Es Ec. exists L. rewrite En, Es, Ec. split; [done|]. split; [|done].
  split; rewrite ?Es; try done. by intros w ?%elem_of_nil.
Qed.

Lemma lock_free_mach plock m s : lock_free plock s -> lock_free plock (put mach_lens m s).
Proof. intros Hf. by apply (lock_free_ext plock s). Qed.

(** [lock_init] on a lock whose list of waiters is not in use. *)
Lemma lock_init_lists_ok plock s L :
  let w := waiters (semaphore plock) in
  lists_ok (nodes (lst s)) L -> is_Some (locks (sync s) !! plock) -> is_Some (values (sync s) !! semaphore plock) ->
  unlinked (nodes (lst s)) L (head_of w) -> unlinked (nodes (lst s)) L (tail_of w) -> cur s <> NULL -> w <> thread_ready_list ->
  wp (lock_init plock) s (fun _ s' => exists l,
    s' = put_lst l (put_lock plock (Lock NULL 0) (with_value (semaphore plock) 1 s)) /\
    list_post (lst s) (<[w := []]> L) l /\ sema_ok s' (<[w := []]> L) (semaphore plock) 1 [] /\
    locks (sync s') !! plock = Some (Lock NULL 0) /\ lock_free plock s').
Proof.
  intros w Hs [lk Hl] [v Hv] Hh Ht Hc Hw. unfold lock_init, sema_init.
  wp_step. eapply wp_ok; [by eapply set_holder_eq|]. wp_step. eapply wp_ok; [eapply set_repeat_eq, lookup_insert_eq|].
  wp_step. eapply wp_ok; [by eapply set_value_eq|]. change (u8 1) with 1. apply wp_klist. simpl lst.
  eapply wp_mono; [apply (list_init_ok (lst s) L w Hs Hh Ht)|]. intros [] l Hpost. exists l. cbv beta.
  match goal with |- ?t = ?u /\ _ => assert (t = u) as -> end.
  { unfold put_lst, put_lock, with_value, put_sync. simpl. by rewrite insert_insert_eq. }
  set (s' := put_lst l _).
  assert (sema_ok s' (<[w := []]> L) (semaphore plock) 1 []) as Hse.
  { split; simpl; [apply lookup_insert_eq | apply lookup_insert_eq | done | by intros x ?%elem_of_nil]. }
  assert (locks (sync s') !! plock = Some (Lock NULL 0)) as Hlk by apply lookup_insert_eq.
  do 4 (split; [done|]). exists (<[w := []]> L). by split; [apply Hpost|].
Qed.

(** The scheduler does not mind a new empty list. *)
Lemma sched_ok_new_list s s' l L q w :
  sched_ok s L q -> list_post (lst s) (<[w := []]> L) l -> w <> thread_ready_list ->
  (forall t ts, tasks s !! t = Some ts -> general_tag t <> head_of w /\ general_tag t <> tail_of w) ->
  lst s' = l -> tasks s' = tasks s -> cur s' = cur s -> sched_ok s' (<[w := []]> L) q.
Proof.
  intros Hs Hpost Hw Htags E1 E2 E3. split.
  - destruct Hs as [[] _]. split; rewrite ?E1, ?E2, ?E3; try done; [apply Hpost|]. by rewrite lookup_insert_ne.
  - intros t ts. rewrite E1, E2, E3. intros Ht' Hr. destruct (so_running _ _ _ Hs t ts Ht' Hr) as [Hct [Hd Hun]]. split; [done|].
    destruct Hpost as (_ & _ & Hdom). split; [simpl; by rewrite Hdom|]. intros f ys [[<- <-]|[_ Hf]]%lookup_insert_Some.
    + destruct (Htags t ts Ht'). unfold path. simpl. rewrite elem_of_cons, list_elem_of_singleton. naive_solver.
    + by apply Hun.
Qed.

Lemma lock_init_ok plock s L q :
  let w := waiters (semaphore plock) in
  sched_ok s L q -> cur s <> NULL -> is_Some (locks (sync s) !! plock) -> is_Some (values (sync s) !! semaphore plock) ->
  unlinked (nodes (lst s)) L (head_of w) -> unlinked (nodes (lst s)) L (tail_of w) -> w <> thread_ready_list ->
  (forall t ts, tasks s !! t = Some ts -> general_tag t <> head_of w /\ general_tag t <> tail_of w) ->
  wp (lock_init plock) s (fun _ s' => exists l,
    s' = put_lst l (put_lock plock (Lock NULL 0) (with_value (semaphore plock) 1 s)) /\
    list_post (lst s) (<[w := []]> L) l /\ sched_ok s' (<[w := []]> L) q /\ lock_free plock s').
Proof.
  intros w Hs Hc Hl Hv Hh Ht Hw Htags.
  eapply wp_mono; [by apply (lock_init_lists_ok plock s L (so_lists _ _ _ (so_queue _ _ _ Hs)))|].
  intros [] s' (l & -> & Hpost & _ & _ & Hfree). exists l. do 2 (split; [done|]). split; [|done].
  by apply (sched_ok_new_list s _ l L q w).
Qed.
End LockBracket.

(** ** The kernel *)

(** The memory allocator's state ([k_mem]: the pools, the machine, and the page
    directory and address pool of the running thread) and the rest of the
    threads' state. *)
Record kernel := Kernel {
  k_mem : mem_state;
  k_lst : lstate;
  k_tasks : gmap Z task_struct;
  k_sync : sync_state;
  k_cur : Z;
  k_next_pid : Z;
  k_esp0 : Z;
  k_ticks : Z;
  k_main_thread : Z;
}.

Definition memory : lens kernel mem_state.
Proof.
  refine {| view := k_mem; put := fun x k => Kernel x (k_lst k) (k_tasks k) (k_sync k) (k_cur k)
    (k_next_pid k) (k_esp0 k) (k_ticks k) (k_main_thread k) |}; by intros; try destruct s.
Defined.

Definition threads : lens kernel kstate.
Proof.
  refine {| view := fun k => KState (k_lst k) (k_tasks k) (k_sync k) (k_cur k) (k_next_pid k)
              (machine (k_mem k)) (k_esp0 k) (k_ticks k);
            put := fun s k => Kernel (put machine_lens (mach s) (k_mem k)) (lst s) (tasks s) (sync s) (cur s)
              (next_pid s) (esp0 s) (total_ticks s) (k_main_thread k) |}.
  - by intros [] [].
  - by intros [[]].
  - by intros [] [] [].
Defined.

Lemma view_threads_memory m k : view threads (put memory m k) = put mach_lens (machine m) (view threads k).
Proof. done. Qed.

(** Addresses of the two locks. *)
Class PoolLayout := { kernel_pool_lock : Z; user_pool_lock : Z }.

Section PoolLocks.
Context `{!Layout} `{!PoolLayout}.

Definition pool_lock (pf : pool_flags) : Z :=
  match pf with PF_KERNEL => kernel_pool_lock | PF_USER => user_pool_lock end.

#[export] Instance kernel_pool_locks : PoolLocks kernel mem_state.
Proof.
  refine {| inner := memory;
    pool_acquire := fun pf => zoom threads (lock_acquire 1 (pool_lock pf));
    pool_release := fun pf => zoom threads (lock_release (pool_lock pf));
    uncontended := fun pf k => lock_free (pool_lock pf) (view threads k) |}.
  - intros pf k Hun. set (p := pool_lock pf) in *. exists (put threads (taken p (view threads k)) k).
    split; [by apply undisturbed_zoom, lock_free_acquire|]. split; [by destruct k as [[]]|].
    intros x. pose proof (lock_free_release p _ (lock_free_mach p (machine x) _ Hun)) as E.
    apply (undisturbed_zoom threads _ (put memory x (put threads (taken p (view threads k)) k))) in E.
    etransitivity; [exact E|]. by destruct k as [[]], x.
  - intros pf k x Hun. rewrite view_threads_memory. by apply lock_free_mach.
Defined.
End PoolLocks.
