(* ===== verification/ThreadCreate.v ===== *)
(** * Creating threads: thread/thread.c, thread/switch.S

    [thread_start] takes a page for the task structure and the kernel stack of
    the new thread, fills both in and queues the thread; the first [switch_to]
    to it then enters [kernel_thread].  The task structure is an entry of
    [tasks] and its two list nodes entries of [nodes]; the stack of the thread
    is words of the machine, in the same page. *)
From stdpp Require Import base numbers list gmap fin_maps.
From Stdlib Require Import ZArith Lia.
From S2P Require Import Prelude Globals Interrupt LinkedList Bitmap Paging PageAlloc PageFree Pages CString Thread Sync PoolLocks.

(** ** Data *)
Definition sizeof_intr_stack : Z := 76.
Definition sizeof_thread_stack : Z := 32.

(** Offsets in [struct thread_stack]. *)
Definition ts_ebp : Z := 0.
Definition ts_ebx : Z := 4.
Definition ts_edi : Z := 8.
Definition ts_esi : Z := 12.
Definition ts_eip : Z := 16.
Definition ts_function : Z := 24.
Definition ts_func_args : Z := 28.

(** A task structure of zero bytes. *)
Definition zero_task : task_struct :=
  Task 0 0 TASK_RUNNING (replicate 16 0) 0 0 0 0 (VPool (Bitmap 0 0 []) 0) 0.

Definition set_self_kstack (v : Z) (ts : task_struct) : task_struct :=
  Task v (pid ts) (status ts) (name ts) (priority ts) (ticks ts) (elapsed_ticks ts)
    (pgdir ts) (task_vaddr_pool ts) (stack_magic ts).
Definition set_pid (v : Z) (ts : task_struct) : task_struct :=
  Task (self_kstack ts) v (status ts) (name ts) (priority ts) (ticks ts) (elapsed_ticks ts)
    (pgdir ts) (task_vaddr_pool ts) (stack_magic ts).
Definition set_name (v : list Z) (ts : task_struct) : task_struct :=
  Task (self_kstack ts) (pid ts) (status ts) v (priority ts) (ticks ts) (elapsed_ticks ts)
    (pgdir ts) (task_vaddr_pool ts) (stack_magic ts).
Definition set_priority (v : Z) (ts : task_struct) : task_struct :=
  Task (self_kstack ts) (pid ts) (status ts) (name ts) v (ticks ts) (elapsed_ticks ts)
    (pgdir ts) (task_vaddr_pool ts) (stack_magic ts).
Definition set_pgdir (v : Z) (ts : task_struct) : task_struct :=
  Task (self_kstack ts) (pid ts) (status ts) (name ts) (priority ts) (ticks ts) (elapsed_ticks ts)
    v (task_vaddr_pool ts) (stack_magic ts).
Definition set_vaddr_pool (v : virtual_addr_pool) (ts : task_struct) : task_struct :=
  Task (self_kstack ts) (pid ts) (status ts) (name ts) (priority ts) (ticks ts) (elapsed_ticks ts)
    (pgdir ts) v (stack_magic ts).
Definition set_stack_magic (v : Z) (ts : task_struct) : task_struct :=
  Task (self_kstack ts) (pid ts) (status ts) (name ts) (priority ts) (ticks ts) (elapsed_ticks ts)
    (pgdir ts) (task_vaddr_pool ts) v.

(** Address of [kernel_thread]. *)
Class KernelText := { kernel_thread_addr : Z }.

(** ** Operations *)

(** The [memset] of the whole structure with 0: from here on there is a task
    structure at the address. *)
Definition clear_task (pthread : Z) : M kstate unit :=
  ASSERT (negb (pthread =? NULL)) ;;;
  modify (fun s => KState
    (LState (<[general_tag pthread := Node NULL NULL]> (<[all_list_tag pthread := Node NULL NULL]> (nodes (lst s))))
            (eflags (lst s)))
    (<[pthread := zero_task]> (tasks s)) (sync s) (cur s) (next_pid s) (mach s) (esp0 s) (total_ticks s)).

(** [strcpy] into the array [name] of a task, run on a memory that holds the
    array and the source; the array after it, or [None] when the copy runs out
    of it. *)
Definition strcpy_name (dst src : list Z) : option (list Z) :=
  let m := write (write ∅ 0x1000 dst) 0x2000 (src ++ [0]) in
  match strcpy 0x1000 0x2000 m with
  | Ok (_, m') => mapM (fun i => m' !! (0x1000 + i)) (seqZ 0 (zlen dst))
  | _ => None
  end.

Definition store_mach (va v : Z) : M kstate unit := zoom mach_lens (store (u32 va) v).

Section ThreadCreate.
Context `{!Layout} `{!KernelText}.

(** The call of a function pointer. *)
Definition kernel_thread {St} (flags : lens St Z) (call : Z -> Z -> M St unit) (function func_args : Z) : M St unit :=
  _ ← zoom flags intr_enable; call function func_args.

Definition allocate_pid (fuel : nat) : M kstate Z :=
  lock_acquire fuel pid_lock ;;;
  modify (fun s => KState (lst s) (tasks s) (sync s) (cur s) (s16 (next_pid s + 1)) (mach s) (esp0 s) (total_ticks s)) ;;;
  lock_release pid_lock ;;;
  gets next_pid.

(** Pointer arithmetic on a [uint32_t *] counts words. *)
Definition thread_create (pthread function func_args : Z) : M kstate unit :=
  update_task pthread (fun ts => set_self_kstack (u32 (self_kstack ts - 4 * sizeof_intr_stack)) ts) ;;;
  update_task pthread (fun ts => set_self_kstack (u32 (self_kstack ts - 4 * sizeof_thread_stack)) ts) ;;;
  ts ← task_at pthread;
  let kthread_stack := self_kstack ts in
  store_mach (kthread_stack + ts_eip) kernel_thread_addr ;;;
  store_mach (kthread_stack + ts_function) function ;;;
  store_mach (kthread_stack + ts_func_args) func_args ;;;
  store_mach (kthread_stack + ts_ebp) 0 ;;;
  store_mach (kthread_stack + ts_ebx) 0 ;;;
  store_mach (kthread_stack + ts_esi) 0 ;;;
  store_mach (kthread_stack + ts_edi) 0.

(** [main_thread]: the value of the global. *)
Definition init_thread (fuel : nat) (main_thread pthread : Z) (nm : list Z) (prio : Z) : M kstate unit :=
  clear_task pthread ;;;
  update_task pthread (set_status (if pthread =? main_thread then TASK_RUNNING else TASK_READY)) ;;;
  update_task pthread (set_self_kstack (u32 (pthread + PG_SIZE))) ;;;
  p ← allocate_pid fuel;
  update_task pthread (set_pid p) ;;;
  update_task pthread (set_priority prio) ;;;
  update_task pthread (set_ticks prio) ;;;
  update_task pthread (set_elapsed 0) ;;;
  update_task pthread (set_pgdir NULL) ;;;
  ts ← task_at pthread;
  n ← from_option_M (strcpy_name (name ts) nm);
  update_task pthread (set_name n) ;;;
  update_task pthread (set_stack_magic 0x20030621).

(** The end of [thread_start] and of [process_execute]: the thread joins the
    two lists. *)
Definition enlist_ready (thread : Z) : M kstate unit :=
  f ← klist (node_find thread_ready_list (general_tag thread));
  ASSERT (f =? 0) ;;;
  klist (list_append thread_ready_list (general_tag thread)).

Definition enlist_all (thread : Z) : M kstate unit :=
  f ← klist (node_find thread_all_list (all_list_tag thread));
  ASSERT (f =? 0) ;;;
  klist (list_append thread_all_list (all_list_tag thread)).

Definition thread_start `{!PoolLayout} (fuel : nat) (nm : list Z) (prio function func_args : Z) : M kernel Z :=
  thread ← get_kernel_pages 1;
  main_thread ← gets k_main_thread;
  zoom threads (
    init_thread fuel main_thread thread nm prio ;;;
    thread_create thread function func_args ;;;
    enlist_ready thread ;;;
    enlist_all thread) ;;;
  mret thread.

Definition set_main_thread (t : Z) : M kernel unit :=
  modify (fun k => Kernel (k_mem k) (k_lst k) (k_tasks k) (k_sync k) (k_cur k) (k_next_pid k) (k_esp0 k) (k_ticks k) t).

Definition main_name : list Z := [109; 97; 105; 110].

Definition make_main_thread (fuel : nat) : M kernel unit :=
  t ← zoom threads running_thread;
  set_main_thread t ;;;
  main_thread ← gets k_main_thread;
  zoom threads (init_thread fuel main_thread main_thread main_name 31 ;;; enlist_all main_thread).

Definition thread_init (fuel : nat) : M kernel unit :=
  zoom threads (
    klist (list_init thread_ready_list) ;;;
    klist (list_init thread_all_list) ;;;
    lock_init pid_lock) ;;;
  make_main_thread fuel.
End ThreadCreate.

(** *** The second half of [switch_to]: the registers are popped from the stack
    of the next thread, and [ret] enters the code at the return address. *)
Record regs := Regs { r_ebp : Z; r_ebx : Z; r_edi : Z; r_esi : Z; r_eip : Z; r_esp : Z }.

Definition switch_restore (esp : Z) : M mmu regs :=
  ebp ← load (u32 esp);
  ebx ← load (u32 (esp + 4));
  edi ← load (u32 (esp + 8));
  esi ← load (u32 (esp + 12));
  eip ← load (u32 (esp + 16));
  mret (Regs ebp ebx edi esi eip (u32 (esp + 20))).

(** ** The name *)
Lemma mapM_lookup (m : gmap Z Z) p (l : list Z) :
  bytes_at m p l -> mapM (fun i => m !! (p + i)) (seqZ 0 (zlen l)) = Some l.
Proof.
  intros Hb. apply mapM_Some. apply Forall2_same_length_lookup. split.
  - rewrite length_seqZ. unfold zlen. lia.
  - intros i x y Hx Hy. apply lookup_seqZ in Hx as [-> _]. by apply bytes_at_lookup with (bs := l).
Qed.

(** A name that fits: the characters, without the terminator. *)
Definition name_ok (nm : list Z) : Prop := Forall is_char nm /\ (length nm <= 16)%nat.

Lemma strcpy_name_ok nm dst :
  Forall is_char nm -> (length nm <= length dst)%nat -> (length dst <= 16)%nat ->
  strcpy_name dst nm = Some (nm ++ drop (length nm) dst).
Proof.
  intros Hnm Hl Hd. unfold strcpy_name. set (m0 := write ∅ 0x1000 dst). set (m := write m0 0x2000 (nm ++ [0])).
  assert (bytes_at m 0x1000 dst) as Hdst.
  { apply bytes_at_write; [|apply bytes_at_write_eq]. unfold apart, zlen. lia. }
  rewrite (strcpy_ok m 0x1000 0x2000 nm).
  - replace (zlen dst) with (zlen (nm ++ drop (length nm) dst)) by (unfold zlen; rewrite length_app, length_drop; lia).
    apply mapM_lookup, bytes_at_app. split; [apply bytes_at_write_eq|].
    apply bytes_at_write; [by left|].
    rewrite <- (take_drop (length nm) dst) in Hdst at 1. apply bytes_at_app in Hdst as [_ Hdst].
    unfold zlen in *. rewrite length_take in Hdst. replace (length nm) with (length nm `min` length dst)%nat at 1 by lia. done.
  - done.
  - done.
  - split; [apply bytes_at_write_eq | done].
  - eapply (mapped_sub m 0x1000 (zlen dst)); [by apply bytes_at_mapped | lia | unfold zlen; lia].
  - unfold apart, zlen. lia.
Qed.

(** ** Words of a page *)

(** The page [p] is mapped to the frame [f], which holds no tables. *)
Record page_at (m : mmu) (p f : Z) : Prop := {
  pa_wf : pt_wf m;
  pa_aligned : p mod 4096 = 0;
  pa_data : data_pages m p 1;
  pa_frame : page_frame m p = Some f;
}.

(** Words stored into a frame, in order. *)
Definition poke (f : Z) (ws : list (Z * Z)) (m : mmu) : mmu :=
  foldl (fun m w => ram_store (f + 4 * w.1) w.2 m) m ws.

Lemma poke_app f ws ws' m : poke f (ws ++ ws') m = poke f ws' (poke f ws m).
Proof. apply foldl_app. Qed.

Lemma poke_cr3 f ws m : cr3 (poke f ws m) = cr3 m.
Proof. unfold poke. revert m. induction ws as [|w ws IH]; intros m; simpl; [done|]. by rewrite IH. Qed.

Lemma poke_one f w m j : ram_word (poke f [w] m) (f + 4 * j) = if j =? w.1 then w.2 else ram_word m (f + 4 * j).
Proof.
  unfold poke. simpl. rewrite ram_word_store. destruct (Z.eqb_spec j w.1) as [->|]; [by rewrite Z.eqb_refl|].
  by destruct (Z.eqb_spec (f + 4 * j) (f + 4 * w.1)); [lia|].
Qed.

(** The last word stored to a place is what is read there. *)
Lemma poke_words f ws m j :
  ram_word (poke f ws m) (f + 4 * j) = foldl (fun d w => if j =? w.1 then w.2 else d) (ram_word m (f + 4 * j)) ws.
Proof.
  induction ws as [|w ws IH] using rev_ind; [done|]. rewrite poke_app, poke_one, IH, foldl_app. done.
Qed.

Definition word_ok (w : Z * Z) : Prop := 0 <= w.1 < 1024 /\ is_u32 w.2.

Lemma page_at_frame m p f : page_at m p f -> is_u32 f /\ f mod 4096 = 0 /\ managed p /\ ~ pt_frame m f.
Proof.
  intros [Hwf Hal Hd Hf]. destruct (Hd 0 ltac:(lia)) as (Hm & g & Hg & Hn). rewrite Z.mul_0_l, Z.add_0_r in *.
  rewrite Hf in Hg. injection Hg as <-. destruct (page_frame_entry _ _ _ Hwf Hf) as (e & He & ->).
  destruct (frame_aligned e He) as (k & Ek & Hk). split; [rewrite Ek; unfold is_u32; lia|]. split; [by apply frame_of_aligned | done].
Qed.

Lemma page_top p : managed p -> p mod 4096 = 0 -> p + 4096 < 0x100000000.
Proof.
  intros [Hu Hd] Hal. rewrite PDE_IDX_div in Hd by done.
  pose proof (Z.div_mod p (2 ^ 22) ltac:(lia)). pose proof (Z.mod_pos_bound p (2 ^ 22)). lia.
Qed.

Lemma page_at_word m p f i : page_at m p f -> 0 <= i < 1024 -> translate m (p + 4 * i) = Some (f + 4 * i) /\ managed (p + 4 * i).
Proof.
  intros [Hwf Hal Hd Hf] Hi. destruct (data_word m p 1 i Hwf Hal Hd) as (g & Htr & Hm & _); [lia|].
  split; [|done]. rewrite Htr, Z.mod_small by lia. do 2 f_equal.
  destruct (Hd 0 ltac:(lia)) as ([Hu _] & f0 & Hf0 & _). replace (p + 0 * 4096) with p in * by lia.
  destruct (page_word_addr p i Hu Hal Hi) as (_ & Hu' & Hpg & Hoff).
  rewrite (translate_page_offset m p (p + 4 * i) Hu Hu' Hpg), Hoff in Htr. unfold page_frame in Hf.
  destruct (present _ && present _); [|done]. injection Hf as <-. injection Htr as Htr. rewrite Z.mod_small in Htr by lia. lia.
Qed.

Lemma changed_refl m p n : pt_wf m -> changed m m p n.
Proof. intros Hwf. split; [done | apply Hwf | done]. Qed.

Lemma changed_store m m' p n i pa v :
  changed m m' p n -> 0 <= i < n -> translate m (p + 4 * i) = Some pa -> is_u32 v -> changed m (ram_store pa v m') p n.
Proof.
  intros [Hc Hw Hr] Hi Htr Hv. split; [done | by apply words_store|]. intros a Ha. rewrite ram_word_store.
  destruct (Z.eqb_spec a pa) as [->|]; [by destruct (Ha i Hi)|]. by apply Hr.
Qed.

Lemma changed_poke m p f ws : page_at m p f -> Forall word_ok ws -> changed m (poke f ws m) p 1024.
Proof.
  intros Hp Hws. induction ws as [|w ws IH] using rev_ind; [by apply changed_refl, Hp|].
  apply Forall_app in Hws as [Hws [[Hi Hv] _]%Forall_cons]. unfold poke. rewrite foldl_app. simpl.
  eapply changed_store; [by apply IH | exact Hi | by apply page_at_word | done].
Qed.

Lemma poke_page m p f ws : page_at m p f -> Forall word_ok ws -> page_at (poke f ws m) p f.
Proof.
  intros Hp Hws. pose proof Hp as [Hwf Hal Hd Hf].
  destruct (changed_agree m _ p 1 1024 Hwf Hal Hd ltac:(lia) (changed_poke m p f ws Hp Hws)) as (Hwf' & Hdir & Htr).
  assert (forall v, managed v -> page_frame (poke f ws m) v = page_frame m v) as Hpf.
  { intros v Hv. by apply page_frame_translate, Htr. }
  split; [done | done | |].
  - intros k Hk. destruct (Hd k Hk) as (Hm & g & Hg & Hn). split; [done|]. exists g. split; [by rewrite Hpf|].
    intros Hpt. apply Hn. apply (pt_frame_dir m (poke f ws m)); try done. apply (changed_poke m p f ws Hp Hws).
  - rewrite Hpf; [done|]. destruct (Hd 0 ltac:(lia)) as [Hm _]. by rewrite Z.mul_0_l, Z.add_0_r in Hm.
Qed.

(** ** What the operations do *)
Definition with_next_pid (v : Z) (s : kstate) : kstate :=
  KState (lst s) (tasks s) (sync s) (cur s) v (mach s) (esp0 s) (total_ticks s).

(** The state after [clear_task]. *)
Definition fresh_nodes (p : Z) (l : lstate) : lstate :=
  LState (<[general_tag p := Node NULL NULL]> (<[all_list_tag p := Node NULL NULL]> (nodes l))) (eflags l).

Definition new_task (main p pid prio : Z) (nm : list Z) : task_struct :=
  Task (u32 (p + PG_SIZE)) pid (if p =? main then TASK_RUNNING else TASK_READY) (nm ++ drop (length nm) (replicate 16 0))
    prio prio 0 NULL (VPool (Bitmap 0 0 []) 0) 0x20030621.

Definition initialised (main p prio : Z) (nm : list Z) (s : kstate) : kstate :=
  let pid := s16 (next_pid s + 1) in
  with_next_pid pid (put_tasks (<[p := new_task main p pid prio nm]> (tasks s)) (put_lst (fresh_nodes p (lst s)) s)).

(** An assignment to the task at [p], in a state that shows it. *)
Lemma update_shown p f ts T s :
  update_task p f (put_tasks (<[p := ts]> T) s) = Ok (tt, put_tasks (<[p := f ts]> T) s).
Proof.
  erewrite update_task_eq by apply lookup_insert_eq. unfold put_tasks. simpl. by rewrite insert_insert_eq.
Qed.

Lemma update_shown_then {B} p f ts T s (k : M kstate B) :
  undisturbed ((update_task p f ;;; k) (put_tasks (<[p := ts]> T) s)) = undisturbed (k (put_tasks (<[p := f ts]> T) s)).
Proof. by erewrite undisturbed_bind by (by rewrite update_shown). Qed.

Lemma task_shown_then {B} p ts T s (k : task_struct -> M kstate B) :
  undisturbed ((task_at p ≫= k) (put_tasks (<[p := ts]> T) s)) = undisturbed (k ts (put_tasks (<[p := ts]> T) s)).
Proof.
  erewrite undisturbed_bind; [done|]. unfold task_at, mbind, M_bind, get. simpl. by rewrite lookup_insert_eq.
Qed.

Section ThreadCreateProofs.
Context `{!Layout} `{!KernelText}.

Lemma allocate_pid_eq fuel s :
  lock_free pid_lock s ->
  undisturbed (allocate_pid (S fuel) s) = Ok (s16 (next_pid s + 1), with_next_pid (s16 (next_pid s + 1)) s).
Proof.
  intros Hf. unfold allocate_pid. erewrite undisturbed_bind by (by apply lock_free_acquire).
  erewrite undisturbed_bind by reflexivity.
  assert (lock_free pid_lock (with_next_pid (s16 (next_pid s + 1)) s)) as Hf' by by apply (lock_free_ext _ s).
  erewrite undisturbed_bind; [|apply (lock_free_release pid_lock _ Hf')]. done.
Qed.

Lemma init_thread_eq fuel main p nm prio s :
  p <> NULL -> name_ok nm -> lock_free pid_lock (put_lst (fresh_nodes p (lst s)) s) ->
  undisturbed (init_thread (S fuel) main p nm prio s) = Ok (tt, initialised main p prio nm s).
Proof.
  intros Hp [Hnm Hlen] Hf. unfold init_thread. erewrite undisturbed_bind.
  2: { unfold clear_task. destruct (Z.eqb_spec p NULL); [done|]. reflexivity. }
  change (KState _ _ _ _ _ _ _ _) with (put_tasks (<[p := zero_task]> (tasks s)) (put_lst (fresh_nodes p (lst s)) s)).
  do 2 rewrite update_shown_then. erewrite undisturbed_bind; [|apply allocate_pid_eq; by apply (lock_free_ext _ _ _ Hf)].
  cbn [next_pid put_tasks put_lst].
  set (s1 := with_next_pid (s16 (next_pid s + 1)) (put_lst (fresh_nodes p (lst s)) s)).
  match goal with |- context [with_next_pid _ (put_tasks ?T _)] =>
    change (with_next_pid _ (put_tasks T _)) with (put_tasks T s1) end.
  do 5 rewrite update_shown_then. rewrite task_shown_then.
  cbn [name set_pgdir set_elapsed set_ticks set_priority set_pid set_self_kstack set_status zero_task].
  rewrite strcpy_name_ok by (done || simpl; lia). erewrite undisturbed_bind by reflexivity.
  rewrite update_shown_then, update_shown. reflexivity.
Qed.

(** *** The stack of a new thread *)
Definition stack_words (function func_args : Z) : list (Z * Z) :=
  [(920, kernel_thread_addr); (922, function); (923, func_args); (916, 0); (917, 0); (919, 0); (918, 0)].

Lemma store_page s p f i v va :
  page_at (mach s) p f -> 0 <= i < 1024 -> va = p + 4 * i ->
  store_mach va v s = Ok (tt, put mach_lens (ram_store (f + 4 * i) v (mach s)) s).
Proof.
  intros Hp Hi ->. destruct (page_at_word _ _ _ i Hp Hi) as [Htr [Hu _]]. unfold store_mach. apply zoom_ok.
  unfold store. rewrite u32_id by done. simpl. by rewrite Htr.
Qed.

(** Storing one more word. *)
Lemma store_poked {B} s p f i v va ws (k : M kstate B) :
  page_at (mach s) p f -> Forall word_ok ws -> word_ok (i, v) -> va = p + 4 * i ->
  (store_mach va v ;;; k) (put mach_lens (poke f ws (mach s)) s) = k (put mach_lens (poke f (ws ++ [(i, v)]) (mach s)) s).
Proof.
  intros Hp Hws [Hi Hv] E. erewrite bind_ok.
  2: { apply (store_page (put mach_lens (poke f ws (mach s)) s) p f i v va); [by apply poke_page | done | done]. }
  rewrite (put_put mach_lens). unfold poke. by rewrite foldl_app.
Qed.

Lemma kstack_top p : 0 < p < 0xfffff000 -> p mod 4096 = 0 ->
  u32 (u32 (u32 (p + PG_SIZE) - 4 * sizeof_intr_stack) - 4 * sizeof_thread_stack) = p + 3664.
Proof.
  intros Hp Hal. unfold PG_SIZE, sizeof_intr_stack, sizeof_thread_stack. assert (p + 4096 < 0x100000000) by (Z.div_mod_to_equations; lia).
  rewrite (u32_id (p + 4096)) by (unfold is_u32; lia). rewrite (u32_id (p + 4096 - _)) by (unfold is_u32; lia).
  rewrite u32_id by (unfold is_u32; lia). lia.
Qed.

Lemma stack_words_ok function func_args :
  is_u32 kernel_thread_addr -> is_u32 function -> is_u32 func_args -> Forall word_ok (stack_words function func_args).
Proof. intros H1 H2 H3. repeat constructor; simpl; try done; unfold is_u32 in *; lia. Qed.

Ltac words_ok := repeat first [apply Forall_nil_2 | apply Forall_cons_2; [assumption|]].

Ltac poked s p f i := rewrite (store_poked s p f i); [cbn [app] | assumption | words_ok | assumption | lia].

Lemma thread_create_eq p f function func_args ts T s :
  0 < p < 0xfffff000 -> page_at (mach s) p f -> self_kstack ts = u32 (p + PG_SIZE) ->
  is_u32 kernel_thread_addr -> is_u32 function -> is_u32 func_args ->
  thread_create p function func_args (put_tasks (<[p := ts]> T) s) =
  Ok (tt, put mach_lens (poke f (stack_words function func_args) (mach s))
            (put_tasks (<[p := set_self_kstack (p + 3664) ts]> T) s)).
Proof.
  intros Hp Hpg Hk H1 H2 H3. pose proof (pa_aligned _ _ _ Hpg) as Hal. unfold thread_create.
  erewrite bind_ok by apply update_shown. erewrite bind_ok by apply update_shown.
  cbn [self_kstack set_self_kstack]. rewrite Hk, kstack_top by done.
  set (s1 := put_tasks _ _). erewrite bind_ok.
  2: { unfold task_at, mbind, M_bind, get, s1. simpl. rewrite lookup_insert_eq. reflexivity. }
  cbn [self_kstack set_self_kstack]. cbv zeta.
  assert (page_at (mach s1) p f) as Hpg1 by done.
  match goal with |- ?m _ = _ => change (m (put mach_lens (poke f [] (mach s1)) s1) = Ok (tt,
    put mach_lens (poke f (stack_words function func_args) (mach s1)) s1)) end.
  pose proof (stack_words_ok _ _ H1 H2 H3) as Hws. unfold stack_words in Hws.
  unfold ts_eip, ts_function, ts_func_args, ts_ebp, ts_ebx, ts_esi, ts_edi.
  repeat (apply Forall_cons in Hws as [? Hws]).
  poked s1 p f 920.
  poked s1 p f 922.
  poked s1 p f 923.
  poked s1 p f 916.
  poked s1 p f 917.
  poked s1 p f 919.
  rewrite (store_page _ p f 918); [by rewrite (put_put mach_lens) | | lia | lia].
  apply poke_page; [done | words_ok].
Qed.

(** A thread about to run for the first time: [switch_to] pops zeroed registers
    and returns to [entry], whose two arguments lie above the return address. *)
Definition starts (m : mmu) (esp entry function func_args : Z) : Prop := exists r,
  switch_restore esp m = Ok (r, m) /\ r_eip r = entry /\
  r_ebp r = 0 /\ r_ebx r = 0 /\ r_edi r = 0 /\ r_esi r = 0 /\
  load (u32 (r_esp r + 4)) m = Ok (function, m) /\ load (u32 (r_esp r + 8)) m = Ok (func_args, m).

Lemma load_page m p f i va :
  page_at m p f -> 0 <= i < 1024 -> va = p + 4 * i -> load (u32 va) m = Ok (ram_word m (f + 4 * i), m).
Proof.
  intros Hp Hi ->. destruct (page_at_word _ _ _ i Hp Hi) as [Htr [Hu _]]. unfold load. by rewrite u32_id, Htr.
Qed.

(** The word read is the last one stored there. *)
Ltac read_poked m := unfold poke, stack_words; simpl; rewrite !ram_word_store; repeat case_match; b2p; try lia; done.

Ltac pop_word Hld i v m := erewrite bind_ok; [|apply (Hld i v); [lia | lia | read_poked m]].

Lemma stack_starts_in m m' p f function func_args :
  page_at m' p f -> is_u32 kernel_thread_addr -> is_u32 function -> is_u32 func_args -> 0 < p < 0xfffff000 ->
  (forall i, 0 <= i < 1024 -> ram_word m' (f + 4 * i) = ram_word (poke f (stack_words function func_args) m) (f + 4 * i)) ->
  starts m' (p + 3664) kernel_thread_addr function func_args.
Proof.
  intros Hpg H1 H2 H3 Ha Hw.
  assert (forall i v va, 0 <= i < 1024 -> va = p + 4 * i -> ram_word (poke f (stack_words function func_args) m) (f + 4 * i) = v ->
    load (u32 va) m' = Ok (v, m')) as Hld.
  { intros i v va Hi Hva <-. rewrite <- Hw by done. by apply (load_page m' p f). }
  assert (u32 (p + 3664 + 20) = p + 3684) as Er.
  { pose proof (pa_aligned _ _ _ Hpg). rewrite u32_id; unfold is_u32; Z.div_mod_to_equations; lia. }
  exists (Regs 0 0 0 0 kernel_thread_addr (p + 3684)). split; [|do 5 (split; [done|]); split].
  - unfold switch_restore.
    pop_word Hld 916 0 m.
    pop_word Hld 917 0 m.
    pop_word Hld 918 0 m.
    pop_word Hld 919 0 m.
    pop_word Hld 920 kernel_thread_addr m.
    by rewrite Er.
  - apply (Hld 922); [lia | simpl; lia |]. read_poked m.
  - apply (Hld 923); [lia | simpl; lia |]. read_poked m.
Qed.

Lemma stack_starts m p f function func_args :
  page_at m p f -> is_u32 kernel_thread_addr -> is_u32 function -> is_u32 func_args -> 0 < p < 0xfffff000 ->
  starts (poke f (stack_words function func_args) m) (p + 3664) kernel_thread_addr function func_args.
Proof.
  intros Hp H1 H2 H3 Ha. apply (stack_starts_in m _ p f); try done. apply poke_page; [done | by apply stack_words_ok].
Qed.

(** *** Joining the two lists *)
Lemma enlist_ok tag list_addr s L xs Q :
  lists_ok (nodes (lst s)) L -> L !! list_addr = Some xs -> unlinked (nodes (lst s)) L tag -> tag ∉ xs ->
  (forall l, list_post (lst s) (<[list_addr := xs ++ [tag]]> L) l -> Q tt (put_lst l s)) ->
  wp (f ← klist (node_find list_addr tag); ASSERT (f =? 0) ;;; klist (list_append list_addr tag)) s Q.
Proof.
  intros Hl HL Hun Hni HQ. wp_step.
  apply (wp_klist_query _ _ (fun r => r = if decide (tag ∈ xs) then 1 else 0)); [by apply (node_find_ok _ L)|].
  intros f ->. rewrite decide_False by done. wp_step. apply wp_ASSERT; [done|].
  apply wp_klist. eapply wp_mono; [by apply (list_append_ok (lst s) L list_addr xs tag)|]. intros [] l Hpost. by apply HQ.
Qed.

Lemma all_list_tag_inj : Inj eq eq all_list_tag.
Proof. intros a b. unfold all_list_tag. lia. Qed.
#[local] Existing Instance all_list_tag_inj.
#[local] Existing Instance general_tag_inj.

Definition both_lists (L : gmap Z (list Z)) (q all : list Z) : gmap Z (list Z) :=
  <[thread_all_list := all_list_tag <$> all]> (<[thread_ready_list := general_tag <$> q]> L).

Lemma enlist_both_ok p s L q all Q :
  lists_ok (nodes (lst s)) L -> L !! thread_ready_list = Some (general_tag <$> q) ->
  L !! thread_all_list = Some (all_list_tag <$> all) -> thread_all_list <> thread_ready_list ->
  unlinked (nodes (lst s)) L (general_tag p) -> unlinked (nodes (lst s)) L (all_list_tag p) -> p ∉ q -> p ∉ all ->
  (forall l, list_post (lst s) (both_lists L (q ++ [p]) (all ++ [p])) l -> Q tt (put_lst l s)) ->
  wp (enlist_ready p ;;; enlist_all p) s Q.
Proof.
  intros Hl Hr Ha Hne Hg Ht Hq Hall HQ. wp_step. eapply enlist_ok; try done.
  { intros (t & E & Hin)%list_elem_of_fmap. apply general_tag_inj in E as ->. done. }
  intros l1 (Hl1 & He1 & Hd1). eapply (enlist_ok _ _ (put_lst l1 s)); simpl; [exact Hl1 | | | |].
  - by rewrite lookup_insert_ne.
  - eapply (unlinked_insert _ _ _ _ (general_tag <$> q) [] (general_tag p)); [exact Ht | by rewrite app_nil_r | | done].
    unfold all_list_tag, general_tag. lia.
  - intros (t & E & Hin)%list_elem_of_fmap. apply all_list_tag_inj in E as ->. done.
  - intros l2 (Hl2 & He2 & Hd2). change (put_lst l2 (put_lst l1 s)) with (put_lst l2 s). apply HQ.
    unfold both_lists. rewrite !fmap_app. split; [done|]. split; congruence.
Qed.

(** *** The scheduler with a new ready thread *)
Lemma sched_ok_ext s s' L q :
  sched_ok s L q -> lst s' = lst s -> tasks s' = tasks s -> cur s' = cur s -> sched_ok s' L q.
Proof.
  intros [[Hl Hr Ha Hq Hc Hcur] Hrun] E1 E2 E3.
  split; [split|]; rewrite ?E1, ?E2, ?E3; assumption.
Qed.

Lemma sched_ok_spawn s L q p ts l all :
  sched_ok s L q -> tasks s !! p = None -> status ts = TASK_READY -> 0 < p < 0xfffff000 ->
  thread_all_list <> thread_ready_list ->
  (forall t, is_Some (tasks s !! t) -> all_list_tag p <> general_tag t) ->
  L !! thread_all_list = Some (all_list_tag <$> all) ->
  list_post (fresh_nodes p (lst s)) (both_lists L (q ++ [p]) (all ++ [p])) l ->
  sched_ok (put_tasks (<[p := ts]> (tasks s)) (put_lst l s)) (both_lists L (q ++ [p]) (all ++ [p])) (q ++ [p]).
Proof.
  intros [[Hl Hr Ha Hq Hc Hcur] Hrun] Hp Hst Hpa Hne Htag HL (Hl' & He' & Hd'). split; [split|]; simpl.
  - exact Hl'.
  - unfold both_lists. rewrite lookup_insert_ne by done. apply lookup_insert_eq.
  - intros t ts' [[<- _]|[_ Ht]]%lookup_insert_Some; [done | by eapply Ha].
  - intros t [Ht|Ht%list_elem_of_singleton]%elem_of_app.
    + destruct (Hq t Ht) as (ts' & Ht' & Hst'). exists ts'. rewrite lookup_insert_ne; [done | congruence].
    + subst t. exists ts. by rewrite lookup_insert_eq.
  - intros t ts' Ht Hst'. apply elem_of_app. apply lookup_insert_Some in Ht as [[<- _]|[_ Ht]].
    + right. by apply list_elem_of_singleton.
    + left. by eapply Hc.
  - destruct Hcur as [c Hcur]. rewrite lookup_insert_ne; [by eexists | congruence].
  - intros t ts' Ht Hst'. apply lookup_insert_Some in Ht as [[_ <-]|[Hne' Ht]]; [congruence|].
    destruct (Hrun t ts' Ht Hst') as [-> Hun]. split; [done|].
    assert (unlinked (nodes (fresh_nodes p (lst s))) L (general_tag (cur s))) as Hun1.
    { eapply unlinked_weaken; [|exact Hun]. simpl. rewrite !dom_insert_L. set_solver. }
    unfold both_lists. rewrite !fmap_app.
    eapply (unlinked_insert _ _ _ _ (all_list_tag <$> all) [] (all_list_tag p)); [| | |exact Hd'].
    + eapply (unlinked_insert _ _ _ _ (general_tag <$> q) [] (general_tag p)); [exact Hun1 | by rewrite app_nil_r | | done].
      intros E%general_tag_inj. congruence.
    + rewrite lookup_insert_ne by done. by rewrite app_nil_r.
    + intros E. destruct (Htag (cur s)); [done | congruence].
Qed.

(** ** The kernel's invariant

    The allocator and the scheduler are in order; [all] lists all threads; task
    structures and list nodes lie in pages that are not free; [pid_lock] and
    the lock of the kernel pool are free. *)
Definition lock_idle (plock : Z) (s : kstate) (L : gmap Z (list Z)) : Prop :=
  sema_ok s L (semaphore plock) 1 [] /\ locks (sync s) !! plock = Some (Lock NULL 0).

Record kernel_ok `{!PoolLayout} (k : kernel) (L : gmap Z (list Z)) (q all : list Z) : Prop := {
  ko_mem : mem_ok (k_mem k);
  ko_sched : sched_ok (view threads k) L q;
  ko_lists : thread_all_list <> thread_ready_list;
  ko_all : L !! thread_all_list = Some (all_list_tag <$> all);
  ko_tasks : forall t, is_Some (k_tasks k !! t) <-> t ∈ all;
  ko_aligned : forall t, t ∈ all -> t mod 4096 = 0;
  ko_pages : forall t, t ∈ all -> ~ vaddr_free (kernel_vaddr_pool (k_mem k)) t;
  ko_nodes : forall n, n ∈ dom (nodes (k_lst k)) -> ~ vaddr_free (kernel_vaddr_pool (k_mem k)) (n / 4096 * 4096);
  ko_pid_lock : lock_idle pid_lock (view threads k) L;
  ko_pool_lock : lock_idle kernel_pool_lock (view threads k) L;
  ko_main : k_main_thread k ∈ all;
}.

Lemma lock_idle_free plock s L q : sched_ok s L q -> lock_idle plock s L -> lock_free plock s.
Proof.
  intros [Hq _] [Hse Hl]. exists L. split; [apply Hq|]. do 2 (split; [done|]).
  destruct (so_cur _ _ _ Hq) as [ts Hts]. pose proof (so_addr _ _ _ Hq _ _ Hts). unfold NULL. lia.
Qed.

Lemma lock_idle_lists plock s s' L q' all all' :
  L !! thread_all_list = Some (all_list_tag <$> all) -> all <> [] -> sync s' = sync s ->
  lock_idle plock s L -> lock_idle plock s' (both_lists L q' all').
Proof.
  intros HL Hne Es [[H1 H2 H3 H4] Hk]. split; [|by rewrite Es].
  assert (thread_all_list <> waiters (semaphore plock)) as Hw.
  { intros E. rewrite <- E, HL in H2. injection H2 as H2. by destruct all. }
  split; rewrite ?Es; try done.
  - unfold both_lists. by rewrite !lookup_insert_ne by done.
  - by intros w ?%elem_of_nil.
Qed.

(** A page that has just been handed out. *)
Lemma got_page_at s m p :
  got_pages PF_KERNEL s m p 1 -> mem_ok s -> vaddr_free (kernel_vaddr_pool s) p /\ 0 < p < 0xfffff000 /\ p mod 4096 = 0 /\
  exists f, page_at (machine m) p f.
Proof.
  intros G Hok. destruct (gp_page _ _ _ _ _ G 0 ltac:(lia)) as (Hfree & Huse & _). rewrite Z.mul_0_l, Z.add_0_r in *.
  destruct (vaddr_free_range _ _ (mo_vpool s Hok PF_KERNEL ltac:(done)) Hfree) as (Hr & [Hu Hd] & Hal).
  destruct (in_use_page _ _ _ Huse) as (Hm & f & _ & Hf & _ & Hn). split; [exact Hfree|].
  split; [|split; [done|]].
  - rewrite PDE_IDX_div in Hd by done. Z.div_mod_to_equations; lia.
  - exists f. split; [apply (gp_ok _ _ _ _ _ G) | done | | done].
    intros k Hk. assert (k = 0) as -> by lia. rewrite Z.mul_0_l, Z.add_0_r. split; [done|]. by exists f.
Qed.

Lemma fresh_nodes_weaken p l :
  general_tag p ∉ dom (nodes l) -> all_list_tag p ∉ dom (nodes l) -> nodes l ⊆ nodes (fresh_nodes p l).
Proof.
  intros Hg Ht. simpl. etransitivity; [by apply insert_subseteq, not_elem_of_dom|]. apply insert_subseteq.
  rewrite lookup_insert_ne by (unfold all_list_tag, general_tag; lia). by apply not_elem_of_dom.
Qed.

Lemma lock_free_weaken plock s l :
  lock_free plock s -> nodes (lst s) ⊆ nodes l -> lock_free plock (put_lst l s).
Proof.
  intros (L & Hl & [] & Hk & Hc) Hsub. exists L. split; [by apply (lists_ok_weaken _ _ _ Hsub)|]. by split.
Qed.

(** The threads' state after [thread_start] on the page [p]. *)
Definition spawned (main p f prio function func_args : Z) (nm : list Z) (l : lstate) (s : kstate) : kstate :=
  let pid := s16 (next_pid s + 1) in
  KState l (<[p := set_self_kstack (p + 3664) (new_task main p pid prio nm)]> (tasks s)) (sync s) (cur s) pid
    (poke f (stack_words function func_args) (mach s)) (esp0 s) (total_ticks s).

Lemma spawn_ok fuel main p f nm prio function func_args s L q all :
  page_at (mach s) p f -> 0 < p < 0xfffff000 -> name_ok nm ->
  is_u32 kernel_thread_addr -> is_u32 function -> is_u32 func_args ->
  lock_free pid_lock s -> lists_ok (nodes (lst s)) L ->
  L !! thread_ready_list = Some (general_tag <$> q) -> L !! thread_all_list = Some (all_list_tag <$> all) ->
  thread_all_list <> thread_ready_list -> p ∉ q -> p ∉ all ->
  general_tag p ∉ dom (nodes (lst s)) -> all_list_tag p ∉ dom (nodes (lst s)) ->
  wpu (init_thread (S fuel) main p nm prio ;;; thread_create p function func_args ;;; enlist_ready p ;;; enlist_all p) s
    (fun _ s' => exists l, s' = spawned main p f prio function func_args nm l s /\
      list_post (fresh_nodes p (lst s)) (both_lists L (q ++ [p]) (all ++ [p])) l) False.
Proof.
  intros Hpg Hp Hnm H1 H2 H3 Hlock Hl Hr Ha Hne Hq Hall Hg Ht.
  assert (nodes (lst s) ⊆ nodes (fresh_nodes p (lst s))) as Hsub by by apply fresh_nodes_weaken.
  pose proof (lists_ok_weaken _ _ _ Hsub Hl) as Hl'.
  apply wpu_bind. eapply wpu_eq.
  { apply init_thread_eq; [unfold NULL; lia | done |]. by apply (lock_free_weaken _ s). }
  unfold initialised. set (s1 := with_next_pid (s16 (next_pid s + 1)) (put_lst (fresh_nodes p (lst s)) s)).
  match goal with |- context [with_next_pid _ (put_tasks ?T _)] => change (with_next_pid _ (put_tasks T _)) with (put_tasks T s1) end.
  apply wpu_bind. eapply wpu_eq.
  { by rewrite (thread_create_eq p f function func_args _ _ s1). }
  apply wpu_wp. eapply (enlist_both_ok p _ L q all); simpl; try done.
  - apply (unlinked_fresh _ _ _ _ Hl Hg). simpl. rewrite !dom_insert_L. set_solver.
  - apply (unlinked_fresh _ _ _ _ Hl Ht). simpl. rewrite !dom_insert_L. set_solver.
  - intros l Hpost. exists l. split; [done | exact Hpost].
Qed.

Section Start.
Context `{!PoolLayout}.

Lemma fresh_page_facts k L q all p :
  kernel_ok k L q all -> vaddr_free (kernel_vaddr_pool (k_mem k)) p -> p mod 4096 = 0 ->
  p ∉ all /\ p ∉ q /\ general_tag p ∉ dom (nodes (k_lst k)) /\ all_list_tag p ∉ dom (nodes (k_lst k)) /\
  (p =? k_main_thread k) = false /\ k_tasks k !! p = None.
Proof.
  intros Hok Hp Hal. assert (p ∉ all) as Hall by (intros Hin; by apply (ko_pages _ _ _ _ Hok p)).
  assert (k_tasks k !! p = None) as Hnone.
  { destruct (k_tasks k !! p) eqn:E; [|done]. destruct Hall. apply (ko_tasks _ _ _ _ Hok). by eexists. }
  assert (forall o, 0 <= o < 4096 -> p + o ∉ dom (nodes (k_lst k))) as Hnode.
  { intros o Ho Hin. apply (ko_nodes _ _ _ _ Hok) in Hin. destruct Hin.
    replace ((p + o) / 4096 * 4096) with p; [done|]. Z.div_mod_to_equations; lia. }
  split; [done|]. split; [|split; [|split; [|split]]].
  - intros Hin. destruct (so_queued _ _ _ (so_queue _ _ _ (ko_sched _ _ _ _ Hok)) p Hin) as (ts & Hts & _). simpl in Hts. congruence.
  - by apply Hnode.
  - by apply Hnode.
  - apply Z.eqb_neq. intros ->. apply Hall, (ko_main _ _ _ _ Hok).
  - done.
Qed.

(** The kernel after [thread_start]. *)
Definition started (p f prio function func_args : Z) (nm : list Z) (l : lstate) (k : kernel) : kernel :=
  put threads (spawned (k_main_thread k) p f prio function func_args nm l (view threads k)) k.

(** A ready thread in a page that was free joins the kernel. *)
Lemma joined_ok k m' L q all p ts pid l :
  kernel_ok k L q all -> mem_ok m' -> vaddr_free (kernel_vaddr_pool (k_mem k)) p -> p mod 4096 = 0 -> 0 < p < 0xfffff000 ->
  (forall v, vaddr_free (kernel_vaddr_pool m') v -> vaddr_free (kernel_vaddr_pool (k_mem k)) v /\ v <> p) ->
  status ts = TASK_READY -> list_post (fresh_nodes p (k_lst k)) (both_lists L (q ++ [p]) (all ++ [p])) l ->
  kernel_ok (Kernel m' l (<[p := ts]> (k_tasks k)) (k_sync k) (k_cur k) pid (k_esp0 k) (k_ticks k) (k_main_thread k))
    (both_lists L (q ++ [p]) (all ++ [p])) (q ++ [p]) (all ++ [p]).
Proof.
  intros Hok Hm Hfree Hal Hp Hfr Hst Hpost.
  destruct (fresh_page_facts k L q all p Hok Hfree Hal) as (Hall & Hq & Hg & Ht & Hmain & Hnone).
  assert (all <> []) as Hne by (intros E; pose proof (ko_main _ _ _ _ Hok) as Hin; rewrite E in Hin; by apply elem_of_nil in Hin).
  split.
  - exact Hm.
  - assert (sched_ok (put_tasks (<[p := ts]> (k_tasks k)) (put_lst l (view threads k)))
      (both_lists L (q ++ [p]) (all ++ [p])) (q ++ [p])) as Hs'.
    { eapply (sched_ok_spawn (view threads k)); try done; try apply Hok.
      intros t Hts. apply (ko_tasks _ _ _ _ Hok) in Hts. pose proof (ko_aligned _ _ _ _ Hok t Hts).
      unfold all_list_tag, general_tag. intros E. Z.div_mod_to_equations; lia. }
    eapply sched_ok_ext; [exact Hs' | reflexivity | reflexivity | reflexivity].
  - apply Hok.
  - apply lookup_insert_eq.
  - intros t. simpl. rewrite elem_of_app, list_elem_of_singleton, <- (ko_tasks _ _ _ _ Hok), lookup_insert_is_Some.
    clear. destruct (Z.eq_dec p t) as [->|Hpt]; [tauto|]. split; [intros [?|[_ ?]]; auto | intros [?|?]; [by right | by left]].
  - intros t [Hin| ->%list_elem_of_singleton]%elem_of_app; [by apply Hok | done].
  - intros t Hin Hv. apply Hfr in Hv as [Hv Hn]. apply elem_of_app in Hin as [Hin| ->%list_elem_of_singleton]; [|done].
    by apply (ko_pages _ _ _ _ Hok t).
  - intros n Hn Hv. apply Hfr in Hv as [Hv Hne'].
    destruct Hpost as (_ & _ & Hd). simpl in Hn. rewrite Hd in Hn. simpl in Hn. rewrite !dom_insert_L in Hn.
    assert (forall o, 0 <= o < 4096 -> n = p + o -> False) as Hsame.
    { intros o Ho ->. apply Hne'. Z.div_mod_to_equations; lia. }
    apply elem_of_union in Hn as [Hn%elem_of_singleton|Hn]; [by eapply (Hsame 36)|].
    apply elem_of_union in Hn as [Hn%elem_of_singleton|Hn]; [by eapply (Hsame 44)|]. by apply (ko_nodes _ _ _ _ Hok n).
  - eapply lock_idle_lists; [apply Hok | done | | apply Hok]. done.
  - eapply lock_idle_lists; [apply Hok | done | | apply Hok]. done.
  - apply elem_of_app. left. apply (ko_main _ _ _ _ Hok).
Qed.

Lemma started_ok k m L q all p f prio function func_args nm l :
  kernel_ok k L q all -> got_pages PF_KERNEL (k_mem k) m p 1 -> page_at (machine m) p f ->
  vaddr_free (kernel_vaddr_pool (k_mem k)) p -> 0 < p < 0xfffff000 ->
  is_u32 kernel_thread_addr -> is_u32 function -> is_u32 func_args ->
  list_post (fresh_nodes p (k_lst k)) (both_lists L (q ++ [p]) (all ++ [p])) l ->
  kernel_ok (started p f prio function func_args nm l (put memory m k)) (both_lists L (q ++ [p]) (all ++ [p])) (q ++ [p]) (all ++ [p]).
Proof.
  intros Hok G Hpg Hfree Hp Hk1 Hk2 Hk3 Hpost. pose proof (pa_aligned _ _ _ Hpg) as Hal.
  destruct (fresh_page_facts k L q all p Hok Hfree Hal) as (_ & _ & _ & _ & Hmain & _).
  apply (joined_ok k (put machine_lens (poke f (stack_words function func_args) (machine m)) m)); try done.
  - eapply mem_ok_changed; [apply (gp_ok _ _ _ _ _ G) | exact Hal | apply Hpg |].
    apply changed_poke; [done | by apply stack_words_ok].
  - intros v [Hv Hout]%(gp_vaddr _ _ _ _ _ G). split; [done | lia].
  - simpl. by rewrite Hmain.
Qed.

Lemma started_start p f prio function func_args nm l m k :
  started p f prio function func_args nm l (put memory m k) =
  put threads (spawned (k_main_thread k) p f prio function func_args nm l (view threads (put memory m k))) (put memory m k).
Proof. done. Qed.

(** What [thread_start] does to the kernel. *)
Lemma thread_start_steps fuel nm prio function func_args k L q all :
  kernel_ok k L q all -> name_ok nm -> is_u32 function -> is_u32 func_args -> is_u32 kernel_thread_addr ->
  wpu (thread_start (S fuel) nm prio function func_args) k (fun p k' => exists m f l,
      k' = started p f prio function func_args nm l (put memory m k) /\ got_pages PF_KERNEL (k_mem k) m p 1 /\
      page_at (machine m) p f /\ vaddr_free (kernel_vaddr_pool (k_mem k)) p /\ 0 < p < 0xfffff000 /\
      list_post (fresh_nodes p (k_lst k)) (both_lists L (q ++ [p]) (all ++ [p])) l)
    (malloc_panics PF_KERNEL (k_mem k) 1 \/ forall i, ~ free_run (vaddr_bitmap (kernel_vaddr_pool (k_mem k))) i 1).
Proof.
  intros Hok Hnm Hf Ha Hk. pose proof (ko_sched _ _ _ _ Hok) as Hs. unfold thread_start. apply wpu_bind.
  eapply wpu_mono; [apply (get_pages_ok PF_KERNEL 1 k); [apply Hok | done | by eapply lock_idle_free, Hok] | | by left].
  intros p k1 [(-> & -> & Hno)|(m & -> & Hp & _ & G)].
  - unfold wpu. simpl. right. exact Hno.
  - change (view inner k) with (k_mem k) in *. destruct (got_page_at _ _ _ G (ko_mem _ _ _ _ Hok)) as (Hfree & Hpa & Hal & f & Hpg).
    destruct (fresh_page_facts k L q all p Hok Hfree Hal) as (Hall & Hq & Hg & Ht & Hmain & Hnone).
    pose proof (ko_sched _ _ _ _ Hok) as [[Hl Hr _ _ _ _] _].
    apply wpu_bind, wpu_wp, wp_gets. apply wpu_bind, wpu_zoom. eapply wpu_mono.
    { apply (spawn_ok fuel (k_main_thread k) p f nm prio function func_args (view threads (put memory m k)) L q all); try done; try apply Hok.
      apply (lock_free_ext _ (view threads k)); try done. by eapply lock_idle_free, Hok. }
    2: done.
    intros [] s' (l & -> & Hpost). apply wpu_ret. rewrite <- started_start. by exists m, f, l.
Qed.

(** *** From the raw kernel *)
Definition headers : list Z :=
  let w := waiters (semaphore pid_lock) in
  [head_of thread_ready_list; tail_of thread_ready_list; head_of thread_all_list; tail_of thread_all_list; head_of w; tail_of w].

(** Before [thread_init]: no task; the ends of the three lists it initialises
    are nodes in no list, the fields of [pid_lock] exist, and the lock of the
    kernel pool is free. *)
Record kernel_raw (k : kernel) (L : gmap Z (list Z)) : Prop := {
  kr_mem : mem_ok (k_mem k);
  kr_tasks : k_tasks k = ∅;
  kr_lists : lists_ok (nodes (k_lst k)) L;
  kr_cur : 0 < k_cur k < 0xfffff000;
  kr_aligned : k_cur k mod 4096 = 0;
  kr_page : ~ vaddr_free (kernel_vaddr_pool (k_mem k)) (k_cur k);
  kr_nodes : forall n, n ∈ dom (nodes (k_lst k)) -> ~ vaddr_free (kernel_vaddr_pool (k_mem k)) (n / 4096 * 4096);
  kr_tags : general_tag (k_cur k) ∉ dom (nodes (k_lst k)) /\ all_list_tag (k_cur k) ∉ dom (nodes (k_lst k));
  kr_headers : Forall (unlinked (nodes (k_lst k)) L) headers;
  kr_distinct : NoDup headers;
  kr_pid_lock : is_Some (locks (k_sync k) !! pid_lock) /\ is_Some (values (k_sync k) !! semaphore pid_lock);
  kr_pool_lock : lock_idle kernel_pool_lock (view threads k) L /\ kernel_pool_lock <> pid_lock;
}.

Lemma headers_ne : NoDup headers -> thread_all_list <> thread_ready_list /\
  waiters (semaphore pid_lock) <> thread_ready_list /\ waiters (semaphore pid_lock) <> thread_all_list.
Proof. unfold headers, head_of. simpl. rewrite !NoDup_cons. set_solver. Qed.

Lemma unlinked_init ns ns' L l n :
  dom ns' = dom ns -> n <> head_of l -> n <> tail_of l -> unlinked ns L n -> unlinked ns' (<[l := []]> L) n.
Proof.
  intros Hd Hh Ht [Hn Hun]. split; [by rewrite Hd|]. intros l' xs [[<- <-]|[_ HL]]%lookup_insert_Some; [|by apply Hun].
  unfold path. simpl. rewrite elem_of_cons, list_elem_of_singleton. naive_solver.
Qed.

(** The kernel after [thread_init]. *)
Definition with_main (k : kernel) (l : lstate) : kernel :=
  let pid := s16 (k_next_pid k + 1) in
  Kernel (k_mem k) l (<[k_cur k := new_task (k_cur k) (k_cur k) pid 31 main_name]> (k_tasks k))
    (sync (put_lock pid_lock (Lock NULL 0) (with_value (semaphore pid_lock) 1 (view threads k)))) (k_cur k) pid
    (k_esp0 k) (k_ticks k) (k_cur k).

Definition raw_lists (L : gmap Z (list Z)) : gmap Z (list Z) :=
  <[waiters (semaphore pid_lock) := []]> (<[thread_all_list := []]> (<[thread_ready_list := []]> L)).

Lemma init_lists_ok s L :
  lists_ok (nodes (lst s)) L -> cur s <> NULL -> Forall (unlinked (nodes (lst s)) L) headers -> NoDup headers ->
  is_Some (locks (sync s) !! pid_lock) -> is_Some (values (sync s) !! semaphore pid_lock) ->
  wp (klist (list_init thread_ready_list) ;;; klist (list_init thread_all_list) ;;; lock_init pid_lock) s (fun _ s' => exists l,
    s' = put_lst l (put_lock pid_lock (Lock NULL 0) (with_value (semaphore pid_lock) 1 s)) /\
    list_post (lst s) (raw_lists L) l /\ lock_idle pid_lock s' (raw_lists L) /\ lock_free pid_lock s').
Proof.
  intros Hl Hc Hun Hnd Hlk Hv. unfold headers in Hun, Hnd. rewrite !Forall_cons in Hun. rewrite !NoDup_cons in Hnd.
  destruct Hun as (U1 & U2 & U3 & U4 & U5 & U6 & _). set_unfold in Hnd.
  destruct Hnd as (N1 & N2 & N3 & N4 & N5 & _). repeat match goal with N : ~ (_ \/ _) |- _ => apply Decidable.not_or in N as [] end.
  wp_step. apply wp_klist. eapply wp_mono; [by apply (list_init_ok (lst s) L)|]. intros [] l1 (Hl1 & He1 & Hd1).
  wp_step. apply wp_klist. eapply wp_mono.
  { apply (list_init_ok _ (<[thread_ready_list := []]> L)); [exact Hl1 | |]; (eapply unlinked_init; [exact Hd1 | congruence | congruence | done]). }
  intros [] l2 (Hl2 & He2 & Hd2). simpl in *.
  assert (forall n, n <> head_of thread_ready_list -> n <> tail_of thread_ready_list -> n <> head_of thread_all_list ->
    n <> tail_of thread_all_list -> unlinked (nodes (lst s)) L n ->
    unlinked (nodes l2) (<[thread_all_list := []]> (<[thread_ready_list := []]> L)) n) as Hkeep.
  { intros n A1 A2 A3 A4 Hn. apply (unlinked_init (nodes l1)); try done. by apply (unlinked_init (nodes (lst s))). }
  eapply wp_mono.
  { apply (lock_init_lists_ok pid_lock (put_lst l2 (put_lst l1 s)) _ Hl2 Hlk Hv); [| |done|].
    - apply Hkeep; congruence.
    - apply Hkeep; congruence.
    - unfold head_of in *. congruence. }
  intros [] s' (l & -> & (Hl3 & He3 & Hd3) & Hse & Hk & Hf). exists l. split; [done|].
  split; [split; [exact Hl3 | simpl in He3, Hd3; split; congruence]|]. split; [by split | done].
Qed.
Lemma enlist_main_ok fuel main s L :
  main <> NULL -> lock_free pid_lock s -> lists_ok (nodes (lst s)) L -> L !! thread_all_list = Some [] ->
  general_tag main ∉ dom (nodes (lst s)) -> all_list_tag main ∉ dom (nodes (lst s)) ->
  wpu (init_thread (S fuel) main main main_name 31 ;;; enlist_all main) s (fun _ s' => exists l,
    s' = put_lst l (initialised main main 31 main_name s) /\
    list_post (fresh_nodes main (lst s)) (<[thread_all_list := [all_list_tag main]]> L) l) False.
Proof.
  intros Hm Hlock Hl HL Hg Ht.
  assert (nodes (lst s) ⊆ nodes (fresh_nodes main (lst s))) as Hsub by by apply fresh_nodes_weaken.
  apply wpu_bind. eapply wpu_eq.
  { apply init_thread_eq; [done | by repeat constructor |]. by apply (lock_free_weaken _ s). }
  apply wpu_wp, (enlist_ok _ _ _ L []); simpl; try done.
  - by apply (lists_ok_weaken _ _ _ Hsub).
  - apply (unlinked_fresh _ _ _ _ Hl Ht). simpl. rewrite !dom_insert_L. set_solver.
  - by apply not_elem_of_nil.
  - intros l Hpost. by exists l.
Qed.

Definition main_lists (L : gmap Z (list Z)) (c : Z) : gmap Z (list Z) :=
  <[thread_all_list := [all_list_tag c]]> (raw_lists L).

Lemma thread_init_eq fuel k L :
  kernel_raw k L -> wpu (thread_init (S fuel)) k (fun _ k' => exists l,
    k' = with_main k l /\ lists_ok (nodes l) (main_lists L (k_cur k)) /\ eflags l = eflags (k_lst k) /\
    dom (nodes l) = dom (nodes (fresh_nodes (k_cur k) (k_lst k)))) False.
Proof.
  intros [Hmem Htasks Hl Hc Hal Hpg Hnd [Hg Ht] Hh Hdist [Hk Hv] [Hp Hne]]. unfold thread_init.
  apply wpu_bind, wpu_zoom, wpu_wp. eapply wp_mono; [apply (init_lists_ok (view threads k) L); try done; simpl; unfold NULL; lia|].
  intros [] s1 (l1 & -> & (Hl1 & He1 & Hd1) & _ & Hf). unfold make_main_thread.
  apply wpu_bind, wpu_zoom, wpu_wp, wp_gets. apply wpu_bind, wpu_wp, wp_modify. apply wpu_bind, wpu_wp, wp_gets.
  simpl k_main_thread. apply wpu_zoom. simpl cur. eapply wpu_mono.
  { eapply (enlist_main_ok fuel (k_cur k) _ (raw_lists L)); simpl; try done.
    - unfold NULL. lia.
    - destruct (headers_ne Hdist) as (_ & _ & Hw). unfold raw_lists. by rewrite lookup_insert_ne, lookup_insert_eq.
    - by rewrite Hd1.
    - by rewrite Hd1. }
  2: done.
  intros [] s2 (l2 & -> & Hl2 & He2 & Hd2). exists l2. split; [|split; [exact Hl2 | split]].
  - unfold with_main. simpl. by destruct (k_mem k).
  - by rewrite He2.
  - rewrite Hd2. simpl. by rewrite !dom_insert_L, Hd1.
Qed.
Lemma raw_unlisted k L l : kernel_raw k L -> l ∈ headers -> L !! l = None.
Proof.
  intros Hraw Hin. destruct (L !! l) as [xs|] eqn:E; [|done]. pose proof (kr_headers _ _ Hraw) as Hh.
  rewrite Forall_forall in Hh. destruct (Hh l Hin) as [_ Hun]. destruct (Hun l xs E). apply list_elem_of_here.
Qed.

Lemma main_lists_lookup k L x : NoDup headers -> main_lists L (k_cur k) !! x = if decide (x = thread_all_list) then Some [all_list_tag (k_cur k)]
  else if decide (x = waiters (semaphore pid_lock)) then Some [] else if decide (x = thread_ready_list) then Some [] else L !! x.
Proof. intros (Hne & Hw & Hw')%headers_ne. unfold main_lists, raw_lists. repeat case_decide; subst; by map_lookup. Qed.

(** A lock that is free before is free after. *)
Lemma with_main_idle k L l plock :
  kernel_raw k L -> plock <> pid_lock -> lock_idle plock (view threads k) L ->
  lock_idle plock (view threads (with_main k l)) (main_lists L (k_cur k)).
Proof.
  intros Hraw Hne [[V1 V2 V3 _] V4]. split; [split; simpl|].
  - rewrite lookup_insert_ne; [exact V1 | unfold semaphore; lia].
  - rewrite main_lists_lookup by apply Hraw. repeat case_decide; try done. exfalso.
    match goal with E : _ = thread_all_list |- _ => rewrite E in V2 end. rewrite (raw_unlisted k L) in V2; [done | done |].
    unfold headers, head_of. set_solver.
  - done.
  - by intros x ?%elem_of_nil.
  - simpl. by rewrite lookup_insert_ne.
Qed.

Lemma with_main_ok k L l :
  kernel_raw k L -> lists_ok (nodes l) (main_lists L (k_cur k)) ->
  dom (nodes l) = dom (nodes (fresh_nodes (k_cur k) (k_lst k))) ->
  kernel_ok (with_main k l) (main_lists L (k_cur k)) [] [k_cur k].
Proof.
  intros Hraw Hl Hd. pose proof (headers_ne (kr_distinct _ _ Hraw)) as (Hne & Hw & Hw'). set (w := waiters (semaphore pid_lock)) in *.
  pose proof (fun x => main_lists_lookup k L x (kr_distinct _ _ Hraw)) as HL. fold w in HL.
  assert (forall plock, lock_idle plock (view threads k) L -> waiters (semaphore plock) ∉ headers) as Hnoth.
  { intros plock [[_ Hs _ _] _] Hin. by rewrite (raw_unlisted k L _ Hraw Hin) in Hs. }
  assert (forall y, y ∈ headers -> y ∈ dom (nodes (k_lst k))) as Hdom.
  { intros y Hy. pose proof (kr_headers _ _ Hraw) as Hh. rewrite Forall_forall in Hh. by apply (Hh y Hy). }
  destruct (kr_pool_lock _ _ Hraw) as [Hpool Hpne].
  split; try apply Hraw; try done.
  - split; [split|]; simpl.
    + exact Hl.
    + rewrite HL. rewrite decide_False by done. by repeat case_decide.
    + intros t ts [[<- _]|[_ Ht]]%lookup_insert_Some; [apply Hraw|]. by rewrite (kr_tasks _ _ Hraw) in Ht.
    + by intros t ?%elem_of_nil.
    + intros t ts [[<- <-]|[_ Ht]]%lookup_insert_Some; [|by rewrite (kr_tasks _ _ Hraw) in Ht].
      unfold new_task. simpl. by rewrite Z.eqb_refl.
    + rewrite lookup_insert_eq. by eexists.
    + intros t ts [[<- <-]|[_ Ht]]%lookup_insert_Some _; [|by rewrite (kr_tasks _ _ Hraw) in Ht]. split; [done|].
      split; [rewrite Hd; simpl; rewrite !dom_insert_L; set_solver|]. intros x xs Hx Hin.
      destruct (kr_tags _ _ Hraw) as [Hg _]. apply Hg. rewrite HL in Hx. unfold path in Hin.
      assert (forall y, y ∈ [head_of x; tail_of x] -> x = thread_all_list \/ x = w \/ x = thread_ready_list ->
        y ∈ dom (nodes (k_lst k))) as Hhd.
      { intros y Hy Hx'. apply Hdom. unfold headers. fold w. rewrite !elem_of_cons in Hy. rewrite !elem_of_cons.
        destruct Hx' as [->|[->| ->]], Hy as [->|[->|[]%elem_of_nil]]; auto 10. }
      repeat case_decide; [| | |by eapply (lists_path_dom _ _ x xs); [apply Hraw | |]]; injection Hx as <-; cbn [app] in Hin.
      * apply elem_of_cons in Hin as [E|[E|Hin]%elem_of_cons]; [apply Hhd; set_solver | | apply Hhd; set_solver].
        unfold general_tag, all_list_tag in E. lia.
      * apply Hhd; [done | auto].
      * apply Hhd; [done | auto].
  - rewrite HL. by rewrite decide_True.
  - intros t. simpl. rewrite list_elem_of_singleton, (kr_tasks _ _ Hraw), lookup_insert_is_Some, lookup_empty.
    clear. split; [intros [?|[_ [? ?]]]; done | intros ->; by left].
  - intros t ->%list_elem_of_singleton. apply Hraw.
  - intros t ->%list_elem_of_singleton. apply Hraw.
  - intros n Hn. simpl in Hn. rewrite Hd in Hn. simpl in Hn. rewrite !dom_insert_L in Hn.
    assert (forall o, 0 <= o < 4096 -> n = k_cur k + o -> n / 4096 * 4096 = k_cur k) as Hsame.
    { intros o Ho ->. pose proof (kr_aligned _ _ Hraw). Z.div_mod_to_equations; lia. }
    apply elem_of_union in Hn as [Hn%elem_of_singleton|Hn]; [rewrite (Hsame 36) by (done || lia); apply Hraw|].
    apply elem_of_union in Hn as [Hn%elem_of_singleton|Hn]; [rewrite (Hsame 44) by (done || lia); apply Hraw|]. by apply Hraw.
  - split; [split; simpl|]; [apply lookup_insert_eq | | done | by intros x ?%elem_of_nil | apply lookup_insert_eq].
    fold w. rewrite HL. rewrite decide_False by done. by rewrite decide_True.
  - by apply with_main_idle.
  - by apply list_elem_of_singleton.
Qed.

(** ** Properties *)

(** C30: [thread_start] stops the machine when no page is left for the thread.
    Otherwise the new thread lives in a page that was free, is the last of the
    ready threads and of all threads, has the next pid, the name, the priority
    and a full time slice, and will, when it is first chosen, enter
    [kernel_thread] with its function and argument; the kernel's invariant
    holds of the new state and all other tasks are as they were. *)
Theorem thread_start_correct (fuel : nat) (nm : list Z) (prio function func_args : Z) (k : kernel)
    (L : gmap Z (list Z)) (q all : list Z)
    (Hok : kernel_ok k L q all) (Hnm : name_ok nm) (Hf : is_u32 function) (Ha : is_u32 func_args) (Hk : is_u32 kernel_thread_addr) :
  wpu (thread_start (S fuel) nm prio function func_args) k
    (fun t k' =>
      vaddr_free (kernel_vaddr_pool (k_mem k)) t /\
      kernel_ok k' (both_lists L (q ++ [t]) (all ++ [t])) (q ++ [t]) (all ++ [t]) /\
      k_tasks k' = <[t := Task (t + 3664) (s16 (k_next_pid k + 1)) TASK_READY (nm ++ drop (length nm) (replicate 16 0)) prio prio 0
                            NULL (VPool (Bitmap 0 0 []) 0) STACK_MAGIC]> (k_tasks k) /\
      k_cur k' = k_cur k /\ eflags (k_lst k') = eflags (k_lst k) /\ k_next_pid k' = s16 (k_next_pid k + 1) /\
      starts (machine (k_mem k')) (t + 3664) kernel_thread_addr function func_args)
    (malloc_panics PF_KERNEL (k_mem k) 1 \/ forall i, ~ free_run (vaddr_bitmap (kernel_vaddr_pool (k_mem k))) i 1).
Proof.
  eapply wpu_mono; [by apply (thread_start_steps fuel nm prio function func_args k L q all) | | done].
  intros p k' (m & f & l & -> & G & Hpg & Hfree & Hpa & Hpost).
  destruct (fresh_page_facts k L q all p Hok Hfree (pa_aligned _ _ _ Hpg)) as (_ & _ & _ & _ & Hmain & _).
  split; [done|]. split; [by apply started_ok|]. split; [|split; [done|]].
  - simpl. f_equal. unfold new_task, set_self_kstack. simpl. by rewrite Hmain.
  - split; [|split; [done|]]; [by destruct Hpost as (_ & He & _)|]. simpl. by apply stack_starts.
Qed.

(** [thread_init] turns the code that is running into the main thread, with
    pid, name, priority 31 and its task structure in the page of its stack, and
    establishes the invariant the other thread operations keep: no ready
    thread, one thread in all. *)
Theorem thread_init_correct (fuel : nat) (k : kernel) (L : gmap Z (list Z)) (Hraw : kernel_raw k L) :
  exists k', undisturbed (thread_init (S fuel) k) = Ok (tt, k') /\
    kernel_ok k' (main_lists L (k_cur k)) [] [k_cur k] /\
    k_main_thread k' = k_cur k /\ k_cur k' = k_cur k /\ k_mem k' = k_mem k /\ eflags (k_lst k') = eflags (k_lst k) /\
    k_tasks k' = {[k_cur k := Task (u32 (k_cur k + PG_SIZE)) (s16 (k_next_pid k + 1)) TASK_RUNNING
      (main_name ++ replicate 12 0) 31 31 0 NULL (VPool (Bitmap 0 0 []) 0) STACK_MAGIC]}.
Proof.
  destruct (wpu_outcome _ _ _ _ (thread_init_eq fuel k L Hraw)) as [([] & k' & E & l & -> & Hl & He & Hd)|[_ []]].
  exists (with_main k l). split; [exact E|]. split; [by apply with_main_ok|]. do 3 (split; [done|]). split; [exact He|].
  simpl. rewrite (kr_tasks _ _ Hraw). unfold new_task. by rewrite Z.eqb_refl.
Qed.
End Start.
End ThreadCreateProofs.

(** *** Concrete instances: the memory of [PageAlloc]; the code runs on the
    stack at 0x1000 *)
#[local] Instance example_layout : Layout := {|
  thread_ready_list := 0x10000; thread_all_list := 0x10010; pid_lock := 0x10020 |}.
#[local] Instance example_pools : PoolLayout := {| kernel_pool_lock := 0x10040; user_pool_lock := 0x10060 |}.
#[local] Instance example_text : KernelText := {| kernel_thread_addr := 0xc0001200 |}.

Definition example_kernel_nodes : gmap Z list_node :=
  {[0x10000 := Node 0 0; 0x10008 := Node 0 0; 0x10010 := Node 0 0; 0x10018 := Node 0 0; 0x10028 := Node 0 0;
    0x10030 := Node 0 0; 0x10048 := Node NULL 0x10050; 0x10050 := Node 0x10048 NULL]}.

Definition example_raw_kernel : kernel :=
  Kernel example_mem (LState example_kernel_nodes 2) ∅
    (Sync {[0x10024 := 0; 0x10044 := 1]} {[0x10020 := Lock 7 7; 0x10040 := Lock NULL 0]}) 0x1000 0 0 0 NULL.

Definition example_kernel_lists : gmap Z (list Z) := {[0x10048 := []]}.

Lemma example_kernel_lists_only l xs : example_kernel_lists !! l = Some xs -> l = 0x10048 /\ xs = [].
Proof. intros Hl. unfold example_kernel_lists in Hl. by apply lookup_singleton_Some in Hl as [<- <-]. Qed.

Lemma example_kernel_raw : kernel_raw example_raw_kernel example_kernel_lists.
Proof.
  assert (forall a, a < 0xc0100000 -> ~ vaddr_free (kernel_vaddr_pool example_mem) a) as Hfree.
  { intros a Ha (i & Hi & _ & E). unfold example_mem in E. simpl in E. unfold K_HEAP_START in E. lia. }
  assert (forall n, n ∈ dom example_kernel_nodes -> 0 <= n < 0x20000) as Hdom.
  { assert (map_Forall (fun n (_ : list_node) => 0 <= n < 0x20000) example_kernel_nodes) as Hall.
    { refine (bool_decide_eq_true_1 _ _). by vm_compute. }
    intros n [v Hv]%elem_of_dom. exact (map_Forall_lookup_1 _ _ _ _ Hall Hv). }
  split.
  - exact example_mem_ok.
  - done.
  - apply lists_ok_single. split; [by vm_compute|]. refine (bool_decide_eq_true_1 _ _). by vm_compute.
  - simpl. lia.
  - done.
  - apply Hfree. simpl. lia.
  - intros n Hn. apply Hfree. apply Hdom in Hn. Z.div_mod_to_equations. lia.
  - split; intros [v Hv]%elem_of_dom; by vm_compute in Hv.
  - repeat constructor; try (apply elem_of_dom; by vm_compute; eauto);
      intros l xs [-> ->]%example_kernel_lists_only; refine (bool_decide_eq_true_1 _ _); by vm_compute.
  - refine (bool_decide_eq_true_1 _ _). by vm_compute.
  - split; by eexists.
  - split; [|done]. split; [split; try done; by intros x ?%elem_of_nil | done].
Qed.

Lemma thread_init_correct_witness : exists k', undisturbed (thread_init 1 example_raw_kernel) = Ok (tt, k') /\
  kernel_ok k' (main_lists example_kernel_lists 0x1000) [] [0x1000].
Proof.
  destruct (thread_init_correct 0 example_raw_kernel example_kernel_lists example_kernel_raw) as (k' & E & Hk & _).
  exists k'. split; [exact E | exact Hk].
Defined.

Lemma example_kernel_ok : exists l, kernel_ok (with_main example_raw_kernel l) (main_lists example_kernel_lists 0x1000) [] [0x1000].
Proof.
  destruct (wpu_outcome _ _ _ _ (thread_init_eq 0 _ _ example_kernel_raw)) as [(_ & _ & _ & l & _ & Hl & _ & Hd)|[_ []]].
  exists l. by apply (with_main_ok example_raw_kernel _ _ example_kernel_raw).
Qed.

(** The page 0xc0101000 is there for a thread. *)
Lemma example_page_left :
  ~ (malloc_panics PF_KERNEL example_mem 1 \/ forall i, ~ free_run (vaddr_bitmap (kernel_vaddr_pool example_mem)) i 1).
Proof.
  assert (first_run (kernel_vaddr_pool example_mem) 0xc0101000 1) as Hrun.
  { exists 1. split; [|split; [lia | done]]. right. split.
    - split; [lia | split; [by cbn|]]. intros j Hj. by assert (j = 1) as -> by lia.
    - intros i (Hi & _ & Hf). destruct (Z.eq_dec i 0) as [->|]; [|lia]. by specialize (Hf 0 ltac:(lia)). }
  intros [[Hn|[Hall|(va & Hv & [[Hpf _]|Hne])]]|Hno]; [lia | | done | |].
  - specialize (Hall 1 ltac:(vm_compute; split; congruence)). discriminate Hall.
  - pose proof (first_run_unique _ _ _ _ Hv Hrun) as ->. by apply Hne; vm_compute.
  - apply (Hno 1). split; [lia | split; [by cbn|]]. intros j Hj. by assert (j = 1) as -> by lia.
Qed.

Lemma thread_start_correct_witness : exists k t k',
  undisturbed (thread_start 1 [107; 97] 31 0xc0001500 0xc0005000 k) = Ok (t, k') /\
  kernel_ok k' (both_lists (main_lists example_kernel_lists 0x1000) [t] [0x1000; t]) [t] [0x1000; t].
Proof.
  destruct example_kernel_ok as [l Hok]. exists (with_main example_raw_kernel l).
  destruct (wpu_outcome _ _ _ _ (thread_start_correct 0 [107; 97] 31 0xc0001500 0xc0005000 (with_main example_raw_kernel l)
    _ [] [0x1000] Hok ltac:(split; [by repeat constructor | simpl; lia]) ltac:(unfold is_u32; lia) ltac:(unfold is_u32; lia)
    ltac:(unfold is_u32; simpl; lia))) as [(t & k' & E & _ & Hk & _)|[_ Hp]].
  - exists t, k'. split; [exact E | exact Hk].
  - by destruct example_page_left.
Defined.
