(* ===== verification/System.v ===== *)
(** * The kernel as a whole: threads, page allocator, heap, system calls

    [system] joins the state of the threads and of the allocator ([kernel])
    with that of the heap and of the system calls.  The heap's client interface
    to the pool locks ([PoolLocks]) is implemented by the locks of the threads,
    so the theorems of the heap hold of the kernel's own locks. *)
From stdpp Require Import base numbers list gmap fin_maps.
From Stdlib Require Import ZArith Lia.
From S2P Require Import Prelude Globals Interrupt LinkedList Bitmap Paging PageAlloc PageFree Pages Heap CString Thread Sync PoolLocks.

Record system := System {
  s_kernel : kernel;
  s_heap_nodes : gmap Z list_node;    (* the nodes of the heap's free lists *)
  s_arenas : gmap Z arena;
  s_descs : gmap Z mem_block_desc;
  s_k_block_descs : Z;
  s_u_block_descs : Z;                (* running_thread()->u_block_descs *)
  s_bytes : CString.mem;              (* strings of the callers *)
  s_screen : list Z;                  (* what print.S has been given *)
  s_table : list Z;                   (* syscall_table *)
}.

Definition kern : lens system kernel.
Proof.
  refine {| view := s_kernel; put := fun x s => System x (s_heap_nodes s) (s_arenas s) (s_descs s) (s_k_block_descs s)
    (s_u_block_descs s) (s_bytes s) (s_screen s) (s_table s) |}; by intros; try destruct s.
Defined.

Definition bytes : lens system CString.mem.
Proof.
  refine {| view := s_bytes; put := fun x s => System (s_kernel s) (s_heap_nodes s) (s_arenas s) (s_descs s) (s_k_block_descs s)
    (s_u_block_descs s) x (s_screen s) (s_table s) |}; by intros; try destruct s.
Defined.

Definition with_eflags (e : Z) (k : kernel) : kernel :=
  Kernel (k_mem k) (LState (nodes (k_lst k)) e) (k_tasks k) (k_sync k) (k_cur k) (k_next_pid k) (k_esp0 k) (k_ticks k)
    (k_main_thread k).

(** The heap shares EFLAGS and the allocator with the kernel. *)
Definition heap : lens system heap_state.
Proof.
  refine {|
    view := fun s => Heap.Heap (LState (s_heap_nodes s) (eflags (k_lst (s_kernel s)))) (s_arenas s) (s_descs s)
      (s_k_block_descs s) (s_u_block_descs s) (k_mem (s_kernel s));
    put := fun h s => System (put memory (hmem h) (with_eflags (eflags (hlists h)) (s_kernel s))) (nodes (hlists h)) (arenas h)
      (descs h) (k_block_descs h) (u_block_descs h) (s_bytes s) (s_screen s) (s_table s) |}.
  - by intros [[]].
  - by intros [[? []]].
  - done.
Defined.

Section System.
Context `{!Layout} `{!PoolLayout}.

Definition lock_op (m : M kstate unit) : M system unit := zoom (lens_comp kern threads) m.

(** The locks do not look at EFLAGS, the machine or the allocator. *)
Lemma view_threads_heap h s :
  view (lens_comp kern threads) (put heap h s) =
  put mach_lens (machine (hmem h)) (put_lst (LState (nodes (k_lst (s_kernel s))) (eflags (hlists h))) (view (lens_comp kern threads) s)).
Proof. done. Qed.

#[export] Instance system_locks : PoolLocks system heap_state.
Proof.
  refine {| inner := heap;
    pool_acquire := fun pf => lock_op (lock_acquire 1 (pool_lock pf));
    pool_release := fun pf => lock_op (lock_release (pool_lock pf));
    uncontended := fun pf s => lock_free (pool_lock pf) (view (lens_comp kern threads) s) |}.
  - intros pf s Hun. set (p := pool_lock pf) in *. set (l := lens_comp kern threads) in *.
    exists (put l (taken p (view l s)) s). split; [by apply undisturbed_zoom, lock_free_acquire|].
    split; [by destruct s as [[[] []]]|].
    intros h. assert (lock_free p (view l (put heap h s))) as Hun'.
    { unfold l. rewrite view_threads_heap. by apply (lock_free_ext p (view l s)). }
    pose proof (lock_free_release p _ Hun') as E.
    apply (undisturbed_zoom l _ (put heap h (put l (taken p (view l s)) s))) in E.
    etransitivity; [exact E|]. by destruct s as [[[] []]], h as [[] ? ? ? ? []].
  - intros pf s h Hun. rewrite view_threads_heap. by eapply lock_free_ext.
Defined.
End System.
