(* ===== verification/Console.v ===== *)
(** * The console: device/console.c

    Three print functions behind one lock.  The screen is the sequence of the
    characters [put_char] is given; [Print] says how it shows them. *)
From stdpp Require Import base numbers list gmap fin_maps.
From Stdlib Require Import ZArith Lia.
From S2P Require Import Prelude Globals Interrupt LinkedList Bitmap Paging PageAlloc PageFree Pages Heap CString PrintStr Thread Sync PoolLocks System.

(** ** print.S *)
Definition put_char (c : Z) : M system unit :=
  modify (fun s => System.System (s_kernel s) (s_heap_nodes s) (s_arenas s) (s_descs s) (s_k_block_descs s) (s_u_block_descs s)
    (s_bytes s) (s_screen s ++ [u8 c]) (s_table s)).

Definition put_str (p : Z) : M system unit := PrintStr.put_str bytes put_char p.
Definition put_int (v : Z) : M system unit := PrintStr.put_int put_char v.

(** ** console.c *)
Class ConsoleLayout := { console_lock : Z }.

Section Console.
Context `{!Layout} `{!ConsoleLayout}.

Definition console_init : M system unit := lock_op (lock_init console_lock).
Definition console_acquire (fuel : nat) : M system unit := lock_op (lock_acquire fuel console_lock).
Definition console_release : M system unit := lock_op (lock_release console_lock).

Definition console_put_str (fuel : nat) (str : Z) : M system unit :=
  console_acquire fuel ;;; put_str str ;;; console_release.

Definition console_put_char (fuel : nat) (char_ascii : Z) : M system unit :=
  console_acquire fuel ;;; put_char char_ascii ;;; console_release.

Definition console_put_int (fuel : nat) (num : Z) : M system unit :=
  console_acquire fuel ;;; put_int num ;;; console_release.
End Console.

(** ** What is printed *)
Definition printed (cs : list Z) (s : system) : system :=
  System.System (s_kernel s) (s_heap_nodes s) (s_arenas s) (s_descs s) (s_k_block_descs s) (s_u_block_descs s)
    (s_bytes s) (s_screen s ++ cs) (s_table s).

Lemma printed_app cs cs' s : printed cs' (printed cs s) = printed (cs ++ cs') s.
Proof. unfold printed. simpl. by rewrite app_assoc. Qed.

Lemma printed_nil s : printed [] s = s.
Proof. unfold printed. rewrite app_nil_r. by destruct s. Qed.

Lemma console_keeps_bytes : keeps_bytes bytes put_char.
Proof. by intros ? ?. Qed.

Lemma put_chars_eq l s : Forall is_u8 l -> put_chars put_char l s = Ok (tt, printed l s).
Proof.
  intros Hl. revert s. induction Hl as [|c l Hc _ IH]; intros s; simpl; [by rewrite printed_nil|].
  erewrite bind_ok by reflexivity. rewrite IH, (u8_id c) by done.
  change (Ok (tt, printed l (printed [c] s)) = Ok (tt, printed (c :: l) s)). by rewrite printed_app.
Qed.

Lemma put_str_eq p cs s : cstring (s_bytes s) p cs -> put_str p s = Ok (tt, printed cs s).
Proof.
  intros Hs. unfold put_str. rewrite (PrintStr.put_str_chars bytes put_char p cs s console_keeps_bytes Hs). apply put_chars_eq.
  destruct Hs as [_ Hs]. eapply Forall_impl; [exact Hs|]. by intros c [].
Qed.

Lemma put_int_eq v : is_u32 v -> exists cs, (forall s, put_int v s = Ok (tt, printed cs s)) /\ hex_numeral v cs.
Proof.
  intros Hv. exists (int_digits v). pose proof (int_digits_ok v Hv) as Hn. split; [|done]. intros s. unfold put_int.
  rewrite put_int_digits by done. by apply put_chars_eq, Hn.
Qed.

Section ConsoleProofs.
Context `{!Layout} `{!ConsoleLayout}.

Definition sys_threads : lens system kstate := lens_comp kern threads.

Lemma console_bracket fuel (m : M system unit) cs s :
  lock_free console_lock (view sys_threads s) ->
  (forall k, m (put sys_threads k s) = Ok (tt, printed cs (put sys_threads k s))) ->
  undisturbed ((console_acquire (S fuel) ;;; m ;;; console_release) s) = Ok (tt, printed cs s).
Proof.
  intros Hf Hm. pose proof (lock_free_acquire fuel _ _ Hf) as Ea. pose proof (lock_free_release _ _ Hf) as Er.
  erewrite undisturbed_bind; [|unfold console_acquire, lock_op; apply undisturbed_zoom; exact Ea].
  erewrite undisturbed_bind; [|by rewrite Hm]. unfold console_release, lock_op.
  apply (undisturbed_zoom sys_threads _ (printed cs (put sys_threads (taken console_lock (view sys_threads s)) s))) in Er.
  etransitivity; [exact Er|]. by destruct s as [[[] []]].
Qed.

(** What is printed does not change the string in the caller's memory. *)
Lemma console_put_str_ok fuel p cs s :
  lock_free console_lock (view sys_threads s) -> cstring (s_bytes s) p cs ->
  undisturbed (console_put_str (S fuel) p s) = Ok (tt, printed cs s).
Proof. intros Hf Hs. apply console_bracket; [done|]. intros k. by apply put_str_eq. Qed.

Lemma console_put_char_ok fuel c s :
  lock_free console_lock (view sys_threads s) -> is_u8 c -> undisturbed (console_put_char (S fuel) c s) = Ok (tt, printed [c] s).
Proof. intros Hf Hc. apply console_bracket; [done|]. intros k. unfold put_char, modify. by rewrite u8_id. Qed.

Lemma console_put_int_ok fuel v s :
  lock_free console_lock (view sys_threads s) -> is_u32 v ->
  exists ds, undisturbed (console_put_int (S fuel) v s) = Ok (tt, printed ds s) /\ hex_numeral v ds.
Proof. intros Hf Hv. destruct (put_int_eq v Hv) as (ds & E & Hn). exists ds. split; [|done]. by apply console_bracket. Qed.

(** ** Properties *)

(** The console functions, their lock not being contended for, print the
    string, the character, and the shortest upper-case hexadecimal numeral that
    reads back as the number, and leave everything else, the lock included, as
    it was. *)
Theorem console_put_correct (fuel : nat) (s : system) (p c v : Z) (cs : list Z)
    (Hf : lock_free console_lock (view sys_threads s)) (Hs : cstring (s_bytes s) p cs) (Hc : is_u8 c) (Hv : is_u32 v) :
  undisturbed (console_put_str (S fuel) p s) = Ok (tt, printed cs s) /\
  undisturbed (console_put_char (S fuel) c s) = Ok (tt, printed [c] s) /\
  exists ds, undisturbed (console_put_int (S fuel) v s) = Ok (tt, printed ds s) /\ hex_numeral v ds.
Proof.
  split; [by apply console_put_str_ok|]. split; [by apply console_put_char_ok | by apply console_put_int_ok].
Qed.
End ConsoleProofs.

(** *** Concrete instance: the kernel of [IoQueue] with a console lock *)
#[local] Instance example_layout : Layout := {|
  thread_ready_list := 0x10000; thread_all_list := 0x10010; pid_lock := 0x10020 |}.
#[local] Instance example_console : ConsoleLayout := {| console_lock := 0x30000 |}.

Definition example_console_kernel : kernel :=
  Kernel example_mem (LState {[0x30008 := Node NULL 0x30010; 0x30010 := Node 0x30008 NULL]} 2) ∅
    (Sync {[0x30004 := 1]} {[0x30000 := Lock NULL 0]}) 0x1000 3 0 0 NULL.

Definition example_system : system :=
  System.System example_console_kernel ∅ ∅ ∅ 0 0 {[0x500 := 72; 0x501 := 105; 0x502 := 0]} [] (replicate 32 0).

Lemma example_console_free : lock_free console_lock (view sys_threads example_system).
Proof.
  exists {[0x30008 := []]}. split; [|split; [|done]].
  - apply lists_ok_single. split; [by vm_compute|]. refine (bool_decide_eq_true_1 _ _). by vm_compute.
  - split; try done. by intros x ?%elem_of_nil.
Qed.

Lemma console_put_correct_witness :
  undisturbed (console_put_str 1 0x500 example_system) = Ok (tt, printed [72; 105] example_system).
Proof.
  apply (console_put_correct 0 example_system 0x500 33 0xbeef [72; 105] example_console_free).
  - by repeat split; repeat constructor.
  - unfold is_u8; lia.
  - unfold is_u32; lia.
Defined.
