(* ===== verification/Messages.v ===== *)
(** * The messages of a stopped kernel: kernel/debug.c (panic_spin),
      kernel/interrupt.c (general_intr_handler)

    Both print and then spin.  The first is modelled over the console's screen,
    the second, which places the cursor itself, over the memory of the
    display.  String literals are given by their characters. *)
From stdpp Require Import base numbers list gmap fin_maps strings.
From Stdlib Require Import ZArith Lia.
From S2P Require Import Prelude Globals Interrupt LinkedList Bitmap Paging PageAlloc PageFree Pages Heap CString Print PrintStr Thread Sync PoolLocks System Console.

(** ** debug.c *)
Definition eflags_part : lens system Z := lens_comp sys_threads (lens_comp lst_lens eflags_lens).

Definition put_lit (s : string) : M system unit := put_chars put_char (codes s).
Definition put_nl : M system unit := put_char 10.

(** Everything up to [while(1)]. *)
Definition panic_message (filename line func condition : Z) : M system unit :=
  _ ← zoom eflags_part intr_disable;
  put_nl ;;; put_lit "!!!error!!!" ;;; put_nl ;;;
  put_lit "filename:" ;;; put_str filename ;;; put_nl ;;;
  put_lit "line:0x" ;;; put_int line ;;; put_nl ;;;
  put_lit "function:" ;;; put_str func ;;; put_nl ;;;
  put_lit "condition:" ;;; put_str condition ;;; put_nl.

Definition panic_spin (filename line func condition : Z) : M system unit :=
  panic_message filename line func condition ;;; PANIC.

(** ** What it prints *)
Definition panic_text (file digits func cond : list Z) : list Z :=
  [10] ++ codes "!!!error!!!" ++ [10] ++ codes "filename:" ++ file ++ [10] ++ codes "line:0x" ++ digits ++ [10] ++
  codes "function:" ++ func ++ [10] ++ codes "condition:" ++ cond ++ [10].

Lemma codes_u8 s : Forall is_u8 (codes s).
Proof.
  apply Forall_fmap, Forall_true. intros a. unfold compose, code, is_u8. pose proof (Ascii.N_ascii_bounded a). lia.
Qed.

Lemma put_lit_ok l s : put_lit l s = Ok (tt, printed (codes l) s).
Proof. apply put_chars_eq, codes_u8. Qed.

Lemma put_nl_ok s : put_nl s = Ok (tt, printed [10] s).
Proof. done. Qed.

(** One more message is printed. *)
Lemma more (m : M system unit) cs cs' s :
  m (printed cs s) = Ok (tt, printed cs' (printed cs s)) -> m (printed cs s) = Ok (tt, printed (cs ++ cs') s).
Proof. by rewrite printed_app. Qed.

(** [panic_spin] prints where and why it was called, and never returns;
    interrupts are off from then on, and nothing else changes. *)
Theorem panic_spin_correct (filename line func condition : Z) (s : system) (file fn cond : list Z)
    (Hfile : cstring (s_bytes s) filename file) (Hfunc : cstring (s_bytes s) func fn)
    (Hcond : cstring (s_bytes s) condition cond) (Hline : is_u32 line) :
  (exists digits, panic_message filename line func condition s =
    Ok (tt, printed (panic_text file digits fn cond) (put eflags_part (set_if false (view eflags_part s)) s)) /\
    hex_numeral line digits) /\
  panic_spin filename line func condition s = Panic.
Proof.
  destruct (put_int_eq line Hline) as (digits & Hd & Hn). set (s0 := put eflags_part _ s).
  assert (panic_message filename line func condition s = Ok (tt, printed (panic_text file digits fn cond) s0)) as E.
  { unfold panic_message. erewrite bind_ok by (apply zoom_ok; apply intr_disable_eq). fold s0.
    assert (forall cs, s_bytes (printed cs s0) = s_bytes s) as Hb by done.
    erewrite bind_ok by apply put_nl_ok.
    repeat (erewrite bind_ok by (apply more; first [apply put_lit_ok | apply put_nl_ok | apply Hd | apply put_str_eq; rewrite Hb; eassumption])).
    rewrite (more put_nl _ [10]) by apply put_nl_ok. unfold panic_text. by rewrite <- !app_assoc. }
  split; [by exists digits|]. unfold panic_spin. by erewrite bind_ok by exact E.
Qed.

(** ** interrupt.c: the default handler

    The display, and the names of the exceptions. *)
Definition display : Type := vga * intr_state.
Definition on_screen (m : M vga unit) : M display unit := zoom fst_lens m.
Definition show (l : list Z) : M display unit := on_screen (put_chars Print.put_char l).

(** The result tells whether it reaches [while(1)]; [cr2] holds the address of
    a page fault. *)
Definition general_intr_handler (cr2 vec_index : Z) : M display bool :=
  if (vec_index =? 0x27) || (vec_index =? 0x2f) then mret false
  else
    on_screen (set_cursor 0) ;;;
    for_loop 320 0 (fun _ => on_screen (Print.put_char 32)) ;;;
    on_screen (set_cursor 0) ;;;
    show (codes "!!! exception message begin !!!" ++ [10]) ;;;
    on_screen (set_cursor 88) ;;;
    s ← get;
    name ← from_option_M (array_get (intr_name (snd s)) vec_index);
    show (codes name) ;;;
    when (vec_index =? 14) (
      show ([10] ++ codes "page fault addr is 0x") ;;;
      on_screen (PrintStr.put_int Print.put_char cr2)) ;;;
    show ([10] ++ codes "!!! exception message end !!!" ++ [10]) ;;;
    mret true.

(** *** The screen as cells: character and attribute by position *)
Record cells_at (f : Z -> Z * Z) (pos : Z) (s : vga) : Prop := {
  ca_cells : forall i, 0 <= i < 2000 -> vram s (2 * i) = fst (f i) /\ vram s (2 * i + 1) = snd (f i);
  ca_cursor : crt_regs s 0x0e = pos / 256 /\ crt_regs s 0x0f = pos mod 256;
}.

(** [l] from [pos] on, in normal attribute. *)
Definition with_text (pos : Z) (l : list Z) (f : Z -> Z * Z) : Z -> Z * Z :=
  fun i => if (pos <=? i) && (i <? pos + Z.of_nat (length l)) then (nth (Z.to_nat (i - pos)) l 32, 7) else f i.

Lemma cells_at_ext f g pos s : (forall i, 0 <= i < 2000 -> f i = g i) -> cells_at f pos s -> cells_at g pos s.
Proof. intros H [C P]. split; [|done]. intros i Hi. rewrite <- H by done. by apply C. Qed.

Lemma set_cursor_at f pos pos' s : 0 <= pos' < 2000 -> cells_at f pos s -> wp (set_cursor pos') s (fun _ s' => cells_at f pos' s').
Proof.
  intros Hp [C _]. eapply wp_mono; [apply set_cursor_ok; lia|]. intros [] s' (V & P). split; [|done]. by rewrite V.
Qed.

(** A character that is shown. *)
Definition plain (c : Z) : Prop := is_u8 c /\ c <> 8 /\ c <> 10 /\ c <> 13.
#[export] Instance plain_dec c : Decision (plain c) := _.

Lemma put_plain_at f pos c s : plain c -> 0 <= pos < 1999 -> cells_at f pos s ->
  wp (Print.put_char c) s (fun _ s' => cells_at (with_text pos [c] f) (pos + 1) s').
Proof.
  intros (Hu & N1 & N2 & N3) Hp [C [C1 C2]]. unfold Print.put_char. apply wp_bind.
  eapply wp_ok; [by apply (get_cursor_eq s pos); [lia|..]|]. cbv beta zeta. rewrite (u8_id c Hu).
  destruct (Z.eqb_spec c 0x0d), (Z.eqb_spec c 0x0a), (Z.eqb_spec c 0x08); try lia. cbn [orb].
  destruct (shift_pos pos) as (-> & E & _); [lia|]. apply wp_bind. unfold gs_byte.
  rewrite (proj2 (Z.leb_le (2 * pos) 0x7fff)) by lia. apply wp_modify. rewrite (u16_id (2 * pos + 1)) by (unfold is_u16; lia).
  apply wp_bind. rewrite (proj2 (Z.leb_le (2 * pos + 1) 0x7fff)) by lia. apply wp_modify.
  rewrite E, (u16_id (pos + 1)) by (unfold is_u16; lia).
  assert (s16 (pos + 1) = pos + 1) as -> by (unfold s16; rewrite Z.mod_small; lia).
  rewrite (proj2 (Z.ltb_lt (pos + 1) 2000)) by lia. eapply wp_mono; [apply set_cursor_ok; lia|].
  intros [] s' (V & P). split; [|done]. intros i Hi. rewrite V. simpl. unfold upd, with_text. simpl length.
  destruct (C i Hi) as [V1 V2]. change (Z.of_nat 1) with 1.
  destruct (Z.leb_spec pos i), (Z.ltb_spec i (pos + 1)); cbn [andb]; repeat case_match; b2p; try lia; simpl; try done.
  by replace (i - pos) with 0 by lia.
Qed.

Lemma put_newline_at f pos s : 0 <= pos < 1920 -> cells_at f pos s ->
  wp (Print.put_char 10) s (fun _ s' => cells_at f (80 * (pos / 80) + 80) s').
Proof.
  intros Hp [C [C1 C2]]. unfold Print.put_char. apply wp_bind.
  eapply wp_ok; [by apply (get_cursor_eq s pos); [lia|..]|]. cbv beta zeta. change (u8 10) with 10. cbn [orb Z.eqb Pos.eqb].
  pose proof (Z.div_mod pos 80). pose proof (Z.mod_pos_bound pos 80).
  assert (pos / 80 < 24) by (apply Z.div_lt_upper_bound; lia). assert (0 <= pos / 80) by (apply Z.div_pos; lia).
  replace (pos - pos mod 80 + 80) with (80 * (pos / 80) + 80) by lia. rewrite u16_id by (unfold is_u16; lia).
  assert (s16 (80 * (pos / 80) + 80) = 80 * (pos / 80) + 80) as -> by (unfold s16; rewrite Z.mod_small; lia).
  rewrite (proj2 (Z.ltb_lt _ 2000)) by lia. eapply wp_mono; [apply set_cursor_ok; lia|].
  intros [] s' (V & P). split; [|done]. by rewrite V.
Qed.

Lemma with_text_snoc pos l c f i :
  with_text (pos + Z.of_nat (length l)) [c] (with_text pos l f) i = with_text pos (l ++ [c]) f i.
Proof.
  unfold with_text. rewrite length_app. simpl length. change (Z.of_nat 1) with 1.
  destruct (Z.leb_spec (pos + Z.of_nat (length l)) i), (Z.ltb_spec i (pos + Z.of_nat (length l) + 1)), (Z.leb_spec pos i),
    (Z.ltb_spec i (pos + Z.of_nat (length l))), (Z.ltb_spec i (pos + Z.of_nat (length l + 1))); try lia; cbn [andb]; try done; f_equal.
  - replace (Z.to_nat (i - pos)) with (length l) by lia. rewrite nth_middle.
    by replace (i - (pos + Z.of_nat (length l))) with 0 by lia.
  - by rewrite app_nth1 by lia.
Qed.

Lemma with_text_cons pos c l f i : with_text (pos + 1) l (with_text pos [c] f) i = with_text pos (c :: l) f i.
Proof.
  unfold with_text. simpl length. change (Z.of_nat 1) with 1.
  destruct (Z.leb_spec (pos + 1) i), (Z.ltb_spec i (pos + 1 + Z.of_nat (length l))), (Z.leb_spec pos i), (Z.ltb_spec i (pos + 1)),
    (Z.ltb_spec i (pos + Z.of_nat (S (length l)))); try lia; cbn [andb]; try done; f_equal.
  - by replace (Z.to_nat (i - pos)) with (S (Z.to_nat (i - (pos + 1)))) by lia.
  - by replace (i - pos) with 0 by lia.
Qed.

Lemma put_text_at l : forall f pos s, Forall plain l -> 0 <= pos -> pos + Z.of_nat (length l) < 2000 -> cells_at f pos s ->
  wp (put_chars Print.put_char l) s (fun _ s' => cells_at (with_text pos l f) (pos + Z.of_nat (length l)) s').
Proof.
  induction l as [|c l IH]; intros f pos s Hl Hp Hb Hs.
  - apply wp_ret. rewrite Z.add_0_r. eapply cells_at_ext; [|exact Hs]. intros i Hi. unfold with_text. simpl.
    by destruct (Z.leb_spec pos i), (Z.ltb_spec i (pos + Z.of_nat 0)); try lia.
  - inversion Hl; subst. cbn [length] in Hb. cbn [put_chars length]. apply wp_bind.
    eapply wp_mono; [apply (put_plain_at f pos); [done | lia | done]|]. intros [] s1 H1'.
    eapply wp_mono; [apply (IH (with_text pos [c] f) (pos + 1)); [done | lia | lia | exact H1']|]. intros [] s2 H2'.
    replace (pos + Z.of_nat (S (length l))) with (pos + 1 + Z.of_nat (length l)) by lia.
    eapply cells_at_ext; [|exact H2']. intros i _. apply with_text_cons.
Qed.

Lemma hex_char_plain v : plain (hex_char v).
Proof.
  unfold plain, hex_char, is_u8. change 0xf with (Z.ones 4). rewrite Z.land_ones by lia. change (2 ^ 4) with 16.
  pose proof (Z.mod_pos_bound v 16). destruct (Z.ltb_spec 9 (v mod 16)); lia.
Qed.

Lemma put_int_buffer_plain n v buf : Forall plain buf ->
  Forall plain (put_int_buffer n v buf) /\ length (put_int_buffer n v buf) = (n + length buf)%nat.
Proof.
  revert v buf. induction n as [|n IH]; intros v buf Hb; [done|]. cbn [put_int_buffer].
  destruct (IH (Z.shiftr v 4) (hex_char v :: buf)) as [I1 I2]; [constructor; [apply hex_char_plain | done]|].
  split; [done|]. rewrite I2. simpl. lia.
Qed.

Lemma skip_prefix_0_sub l : Forall plain l -> Forall plain (skip_prefix_0 l) /\ (length (skip_prefix_0 l) <= length l)%nat.
Proof.
  induction 1 as [|c l Hc Hl [I1 I2]]; simpl; [done|]. destruct (c =? 48); [split; [done | lia]|]. split; [by constructor | simpl; lia].
Qed.

Lemma int_digits_plain v : Forall plain (int_digits v) /\ (length (int_digits v) <= 8)%nat.
Proof.
  unfold int_digits. destruct (put_int_buffer_plain 8 v [] (Forall_nil_2 _)) as [H1 H2]. apply skip_prefix_0_sub in H1 as [H3 H4].
  destruct (skip_prefix_0 _); [|split; [done | simpl in *; lia]]. split; [|simpl; lia]. repeat constructor; done.
Qed.

Lemma put_int_at f pos v s : 0 <= pos < 1900 -> cells_at f pos s ->
  wp (PrintStr.put_int Print.put_char v) s (fun _ s' =>
    cells_at (with_text pos (int_digits v) f) (pos + Z.of_nat (length (int_digits v))) s').
Proof.
  intros Hp Hs. destruct (int_digits_plain v) as [Hd Hl]. revert Hd Hl. unfold PrintStr.put_int, int_digits.
  destruct (skip_prefix_0 _) as [|c l]; intros Hd Hl.
  - apply put_plain_at; [by inversion Hd | lia | done].
  - apply put_text_at; [done | lia | lia | done].
Qed.

Lemma with_text_app pos l l' f i :
  with_text (pos + Z.of_nat (length l)) l' (with_text pos l f) i = with_text pos (l ++ l') f i.
Proof.
  revert pos f i. induction l as [|c l IH]; intros pos f i; cbn [app length].
  - rewrite Z.add_0_r. unfold with_text. case_match; [done|]. cbn [length]. destruct (Z.leb_spec pos i), (Z.ltb_spec i (pos + Z.of_nat 0)); done || lia.
  - rewrite <- with_text_cons, <- IH. replace (pos + 1 + Z.of_nat (length l)) with (pos + Z.of_nat (S (length l))) by lia.
    unfold with_text at 1 3. case_match; [done|]. symmetry. apply with_text_cons.
Qed.

(** The first four lines, whatever the screen held before. *)
Definition banner (name : list Z) (f : Z -> Z * Z) : Z -> Z * Z :=
  with_text 88 name (with_text 0 (codes "!!! exception message begin !!!") (with_text 0 (replicate 320 32) f)).

Definition fault_line (cr2 : Z) (f : Z -> Z * Z) : Z -> Z * Z :=
  with_text 160 (codes "page fault addr is 0x" ++ int_digits cr2) f.

Definition end_line (pos : Z) (f : Z -> Z * Z) : Z -> Z * Z := with_text pos (codes "!!! exception message end !!!") f.

Lemma clear_lines_at f s : cells_at f 0 s ->
  wp (for_loop 320 0 (fun _ => Print.put_char 32)) s (fun _ s' => cells_at (with_text 0 (replicate 320 32) f) 320 s').
Proof.
  intros Hs. apply (wp_for_loop _ _ _ _ (fun k s' => cells_at (with_text 0 (replicate (Z.to_nat k) 32) f) k s')).
  - eapply cells_at_ext; [|exact Hs]. intros i Hi. unfold with_text. simpl.
    by destruct (Z.leb_spec 0 i), (Z.ltb_spec i (0 + Z.of_nat 0)); try lia.
  - intros k s1 Hk H1'. eapply wp_mono; [apply (put_plain_at (with_text 0 (replicate (Z.to_nat k) 32) f) k); [done | lia | exact H1']|]. intros [] s2 H2'.
    eapply cells_at_ext; [|exact H2']. intros i _. replace (Z.to_nat (k + 1)) with (Z.to_nat k + 1)%nat by lia. rewrite replicate_add.
    change (replicate 1 32) with [32]. rewrite <- with_text_snoc. rewrite length_replicate. by replace (0 + Z.of_nat (Z.to_nat k)) with k by lia.
  - done.
Qed.

(** Text and a line end. *)
Lemma put_line_at l f pos s : Forall plain l -> 0 <= pos -> pos + Z.of_nat (length l) < 1920 -> cells_at f pos s ->
  wp (put_chars Print.put_char (l ++ [10])) s (fun _ s' => cells_at (with_text pos l f) (80 * ((pos + Z.of_nat (length l)) / 80) + 80) s').
Proof.
  intros Hl Hp Hb. revert f pos s Hp Hb. induction Hl as [|c l Hc Hl IH]; intros f pos s Hp Hb Hs.
  - cbn [app put_chars]. apply wp_bind. eapply wp_mono; [apply (put_newline_at f pos); [simpl in Hb; lia | done]|]. intros [] s1 H1'.
    apply wp_ret. simpl length. rewrite Z.add_0_r. eapply cells_at_ext; [|exact H1']. intros i _. unfold with_text. simpl.
    by destruct (Z.leb_spec pos i), (Z.ltb_spec i (pos + Z.of_nat 0)); try lia.
  - cbn [length] in Hb. cbn [app put_chars length]. apply wp_bind.
    eapply wp_mono; [apply (put_plain_at f pos); [done | lia | done]|]. intros [] s1 H1'.
    eapply wp_mono; [apply (IH (with_text pos [c] f) (pos + 1)); [lia | lia | exact H1']|]. intros [] s2 H2'.
    replace (pos + Z.of_nat (S (length l))) with (pos + 1 + Z.of_nat (length l)) by lia.
    eapply cells_at_ext; [|exact H2']. intros i _. apply with_text_cons.
Qed.

(** A line end, then text. *)
Lemma put_next_line_at l f pos s k : Forall plain l -> pos / 80 = k -> 0 <= pos < 1840 -> (length l < 80)%nat -> cells_at f pos s ->
  wp (put_chars Print.put_char ([10] ++ l)) s (fun _ s' => cells_at (with_text (80 * k + 80) l f) (80 * k + 80 + Z.of_nat (length l)) s').
Proof.
  intros Hl Hk Hp Hlen Hs. assert (0 <= k < 23) by (subst k; split; [apply Z.div_pos; lia | apply Z.div_lt_upper_bound; lia]).
  cbn [app put_chars]. apply wp_bind. eapply wp_mono; [apply (put_newline_at f pos); [lia | done]|]. intros [] s1 H1'. rewrite Hk in H1'.
  apply put_text_at; [done | lia | lia | done].
Qed.

Lemma show_ok l d Q : wp (put_chars Print.put_char l) (fst d) (fun _ s' => Q tt (s', snd d)) -> wp (show l) d Q.
Proof. intros H. apply wp_zoom. eapply wp_mono; [exact H|]. by intros []. Qed.

Lemma for_loop_on_screen n k m d Q :
  wp (for_loop n k (fun _ => m)) (fst d) (fun _ s' => Q tt (s', snd d)) -> wp (for_loop n k (fun _ => on_screen m)) d Q.
Proof.
  revert k d. induction n as [|n IH]; intros k [s i] H; cbn [for_loop] in *; [exact H|].
  apply wp_bind, wp_zoom. apply wp_bind_inv in H. eapply wp_mono; [exact H|]. intros [] s' H'. by apply IH.
Qed.

Lemma begin_plain : Forall plain (codes "!!! exception message begin !!!") /\ Forall plain (codes "!!! exception message end !!!") /\
  Forall plain (codes "page fault addr is 0x").
Proof. repeat split; apply (bool_decide_unpack _); vm_compute; exact I. Qed.

(** The last line, and the end. *)
Lemma end_line_ok f pos k d :
  pos / 80 = k -> 0 <= pos < 1840 -> cells_at f pos (fst d) ->
  wp (show ([10] ++ codes "!!! exception message end !!!" ++ [10]) ;;; mret true) d (fun r d' =>
    r = true /\ snd d' = snd d /\ cells_at (end_line (80 * k + 80) f) (80 * k + 160) (fst d')).
Proof.
  intros Hk Hp Hs. assert (0 <= k < 23) by (subst k; split; [apply Z.div_pos; lia | apply Z.div_lt_upper_bound; lia]).
  apply wp_bind, show_ok. cbn [app put_chars]. apply wp_bind.
  eapply wp_mono; [apply (put_newline_at f pos); [lia | exact Hs]|]. intros [] s1 H1'. rewrite Hk in H1'.
  eapply wp_mono; [apply (put_line_at _ f (80 * k + 80)); [apply begin_plain | lia | simpl; lia | exact H1']|]. intros [] s2 H2'.
  apply wp_ret. split; [done|]. split; [done|]. simpl fst. 
  replace (80 * ((80 * k + 80 + Z.of_nat (length (codes "!!! exception message end !!!"))) / 80) + 80) with (80 * k + 160) in H2'; [exact H2'|].
  change (Z.of_nat _) with 29. rewrite <- (Z.div_unique (80 * k + 80 + 29) 80 (k + 1) 29) by lia. lia.
Qed.

(** The default handler lets the spurious vectors return.  For any other it
    clears the first four lines of the screen and prints there the name of the
    exception and, for a page fault, the address in hexadecimal, whatever the
    screen held and wherever the cursor was; the other lines stay, and it goes
    on to spin. *)
Theorem general_intr_handler_message (cr2 vec pos : Z) (name : string) (f : Z -> Z * Z) (d : display)
    (Hvec : vec <> 0x27 /\ vec <> 0x2f) (Hname : array_get (intr_name (snd d)) vec = Some name)
    (Hplain : Forall plain (codes name)) (Hlen : (length (codes name) < 72)%nat) (Hcr2 : is_u32 cr2)
    (Hs : cells_at f pos (fst d)) :
  (exists d', general_intr_handler cr2 vec d = Ok (true, d') /\ snd d' = snd d /\
    if vec =? 14 then cells_at (end_line 240 (fault_line cr2 (banner (codes name) f))) 320 (fst d') /\ hex_numeral cr2 (int_digits cr2)
    else cells_at (end_line 160 (banner (codes name) f)) 240 (fst d')) /\
  general_intr_handler cr2 0x27 d = Ok (false, d) /\ general_intr_handler cr2 0x2f d = Ok (false, d).
Proof.
  split; [|done]. set (Q := fun r d' => r = true /\ snd d' = snd d /\
    if vec =? 14 then cells_at (end_line 240 (fault_line cr2 (banner (codes name) f))) 320 (fst d') /\ hex_numeral cr2 (int_digits cr2)
    else cells_at (end_line 160 (banner (codes name) f)) 240 (fst d')).
  assert (wp (general_intr_handler cr2 vec) d Q) as Hw.
  2: { apply wp_ok_inv in Hw as (r & d' & E & -> & H2' & H3'). by exists d'. }
  destruct d as [s i]. simpl in Hname, Hs. unfold general_intr_handler.
  destruct (Z.eqb_spec vec 0x27), (Z.eqb_spec vec 0x2f); try lia. cbn [orb].
  apply wp_bind, wp_zoom. eapply wp_mono; [apply (set_cursor_at f pos 0); [lia | exact Hs]|]. intros [] s1 H1'.
  apply wp_bind, for_loop_on_screen. eapply wp_mono; [exact (clear_lines_at f s1 H1')|]. intros [] s2 H2'.
  apply wp_bind, wp_zoom. eapply wp_mono; [eapply (set_cursor_at _ 320 0); [|exact H2']; lia|]. intros [] s3 H3'.
  apply wp_bind, show_ok. eapply wp_mono; [eapply (put_line_at _ _ 0 s3 (proj1 begin_plain)); [| |exact H3']; [lia | simpl; lia]|].
  intros [] s4 H4'. apply wp_bind, wp_zoom. eapply wp_mono; [eapply (set_cursor_at _ _ 88); [|exact H4']; lia|]. intros [] s5 H5'.
  apply wp_bind, wp_get, wp_bind. eapply wp_from_option; [exact Hname|].
  apply wp_bind, show_ok. eapply wp_mono; [eapply (put_text_at _ _ 88 s5 Hplain); [| |exact H5']; lia|]. intros [] s6 H6'.
  fold (banner (codes name) f) in H6'. assert ((88 + Z.of_nat (length (codes name))) / 80 = 1) as Hrow.
  { symmetry. apply (Z.div_unique _ _ _ (8 + Z.of_nat (length (codes name)))); lia. }
  apply wp_bind. unfold when, Q. destruct (Z.eqb_spec vec 14) as [->|Hne].
  - destruct (int_digits_plain cr2) as [Hd Hdl]. apply wp_bind, show_ok.
    eapply wp_mono; [eapply (put_next_line_at _ _ _ s6 1 (proj2 (proj2 begin_plain)) Hrow); [| |exact H6']; [lia | simpl; lia]|].
    intros [] s7 H7'. change (80 * 1 + 80) with 160 in H7'.
    change (160 + Z.of_nat (length (codes "page fault addr is 0x"))) with 181 in H7'.
    apply wp_zoom. eapply wp_mono; [eapply (put_int_at _ 181 cr2 s7); [lia | exact H7']|].
    intros [] s8 H8'. eapply wp_mono.
    { eapply (end_line_ok (fault_line cr2 (banner (codes name) f)) (181 + Z.of_nat (length (int_digits cr2))) 2 (s8, i)).
      - symmetry. apply (Z.div_unique _ _ _ (21 + Z.of_nat (length (int_digits cr2)))); lia.
      - lia.
      - eapply cells_at_ext; [|exact H8']. intros j _. unfold fault_line. by rewrite <- with_text_app. }
    intros r d' (-> & E & C). split; [done|]. split; [done|]. split; [exact C | by apply int_digits_ok].
  - apply wp_ret. eapply wp_mono; [apply (end_line_ok (banner (codes name) f) _ 1 (s6, i) Hrow); [lia | exact H6']|].
    intros r d' (-> & E & C). done.
Qed.

(** *** Concrete instances *)
Lemma panic_spin_correct_witness :
  panic_spin 0x500 0x1f 0x500 0x500 example_system = Panic.
Proof.
  apply (panic_spin_correct 0x500 0x1f 0x500 0x500 example_system [72; 105] [72; 105] [72; 105]).
  - by repeat split; repeat constructor.
  - by repeat split; repeat constructor.
  - by repeat split; repeat constructor.
  - unfold is_u32; lia.
Defined.

(** A page fault on a screen full of [x]. *)
Definition example_display : display :=
  (Vga (fun a => if Z.even a then 120 else 4) 0 (fun _ => 0), IntrState [] (replicate 14 "unknown"%string ++ ["#PF Page-Fault Exception"%string]) [] 0 []).

Lemma example_display_cells : cells_at (fun _ => (120, 4)) 0 (fst example_display).
Proof. split; [|done]. intros i Hi. simpl. rewrite Z.even_add, !Z.even_mul. done. Qed.

Lemma general_intr_handler_message_witness :
  exists d', general_intr_handler 0xdeadbeef 14 example_display = Ok (true, d') /\
    cells_at (end_line 240 (fault_line 0xdeadbeef (banner (codes "#PF Page-Fault Exception") (fun _ => (120, 4))))) 320 (fst d').
Proof.
  destruct (general_intr_handler_message 0xdeadbeef 14 0 "#PF Page-Fault Exception" (fun _ => (120, 4)) example_display)
    as ((d' & E & _ & C & _) & _).
  - split; discriminate.
  - reflexivity.
  - apply (bool_decide_unpack _). vm_compute. exact I.
  - apply Nat.ltb_lt. vm_compute. reflexivity.
  - unfold is_u32; lia.
  - exact example_display_cells.
  - exists d'. split; [exact E | exact C].
Defined.
