(* ===== verification/Syscall.v ===== *)
(** * System calls: userprog/syscallInit.c, lib/user/syscall.c,
      kernel/kernel.S (syscall_handler)

    A process raises interrupt 0x80 with the number of the call in EAX and up
    to three arguments; the handler calls the entry of [syscall_table] with
    interrupts off and hands its result back in EAX. *)
From stdpp Require Import base numbers list gmap fin_maps.
From Stdlib Require Import ZArith Lia.
From S2P Require Import Prelude Globals Interrupt LinkedList Bitmap Paging PageAlloc PageFree Pages Heap HeapInit HeapAlloc HeapFree CString Thread Sync PoolLocks System PrintStr Console.

(** ** syscall.h, syscallInit.h *)
Definition SYS_GETPID : Z := 0.
Definition SYS_WRITE : Z := 1.
Definition SYS_MALLOC : Z := 2.
Definition SYS_FREE : Z := 3.
Definition syscall_cnt : Z := 32.

(** Addresses of the four functions. *)
Class SyscallText := {
  sys_getpid_addr : Z;
  sys_write_addr : Z;
  sys_malloc_addr : Z;
  sys_free_addr : Z;
  sys_addrs_distinct : NoDup [sys_getpid_addr; sys_write_addr; sys_malloc_addr; sys_free_addr];
}.

Section Syscall.
Context `{!Layout} `{!PoolLayout} `{!ConsoleLayout} `{!SyscallText}.

(** ** Kernel side *)
Definition sys_getpid : M system Z :=
  ts ← zoom sys_threads (t ← running_thread; task_at t);
  mret (u32 (pid ts)).

Definition sys_write (fuel : nat) (str : Z) : M system Z :=
  console_put_str fuel str ;;;
  zoom bytes (strlen str).

Definition with_table (l : list Z) (s : system) : system :=
  System.System (s_kernel s) (s_heap_nodes s) (s_arenas s) (s_descs s) (s_k_block_descs s) (s_u_block_descs s) (s_bytes s) (s_screen s) l.

Definition set_table (i f : Z) : M system unit := fun s =>
  match array_set (s_table s) i f with
  | Some l => Ok (tt, with_table l s)
  | None => Fault
  end.

Definition syscall_init : M system unit :=
  set_table SYS_GETPID sys_getpid_addr ;;;
  set_table SYS_WRITE sys_write_addr ;;;
  set_table SYS_MALLOC sys_malloc_addr ;;;
  set_table SYS_FREE sys_free_addr.

(** [call f]: the function at an address; there is none but these. *)
Definition invoke (fuel : nat) (f arg1 : Z) : M system Z :=
  if f =? sys_getpid_addr then sys_getpid
  else if f =? sys_write_addr then sys_write fuel arg1
  else if f =? sys_malloc_addr then sys_malloc arg1
  else if f =? sys_free_addr then sys_free arg1 ;;; mret 0
  else fault.

Definition syscall_handler (fuel : nat) (eax ebx ecx edx : Z) : M system Z :=
  s ← get;
  f ← from_option_M (array_get (s_table s) eax);
  invoke fuel f ebx.

Definition set_eflags (e : Z) : M system unit := zoom kern (modify (with_eflags e)).

(** [int $0x80]: the gate clears the interrupt flag, [iret] restores EFLAGS. *)
Definition int80 (fuel : nat) (eax ebx ecx edx : Z) : M system Z :=
  s ← get;
  let e := eflags (k_lst (s_kernel s)) in
  set_eflags (set_if false e) ;;;
  r ← syscall_handler fuel eax ebx ecx edx;
  set_eflags e ;;;
  mret r.

(** ** User side: the registers a macro does not set have any content. *)
Definition _syscall0 (fuel : nat) (ebx ecx edx NUMBER : Z) : M system Z := r ← int80 fuel NUMBER ebx ecx edx; mret (s32 r).
Definition _syscall1 (fuel : nat) (ecx edx NUMBER ARG1 : Z) : M system Z := r ← int80 fuel NUMBER ARG1 ecx edx; mret (s32 r).
Definition _syscall2 (fuel : nat) (edx NUMBER ARG1 ARG2 : Z) : M system Z := r ← int80 fuel NUMBER ARG1 ARG2 edx; mret (s32 r).
Definition _syscall3 (fuel : nat) (NUMBER ARG1 ARG2 ARG3 : Z) : M system Z := r ← int80 fuel NUMBER ARG1 ARG2 ARG3; mret (s32 r).

Definition getpid (fuel : nat) (ebx ecx edx : Z) : M system Z := r ← _syscall0 fuel ebx ecx edx SYS_GETPID; mret (u32 r).
Definition write (fuel : nat) (ecx edx str : Z) : M system Z := r ← _syscall1 fuel ecx edx SYS_WRITE str; mret (u32 r).
Definition malloc (fuel : nat) (ecx edx size : Z) : M system Z := r ← _syscall1 fuel ecx edx SYS_MALLOC size; mret (u32 r).
Definition free (fuel : nat) (ecx edx ptr : Z) : M system unit := _ ← _syscall1 fuel ecx edx SYS_FREE ptr; mret tt.

(** ** Kernel code on behalf of a process *)
Definition flags_of (s : system) : Z := eflags (k_lst (s_kernel s)).
Definition flags (e : Z) (s : system) : system := put kern (with_eflags e (s_kernel s)) s.

(** [m] with interrupts off, EFLAGS afterwards as before. *)
Definition in_kernel {A} (m : M system A) : M system A :=
  e ← gets flags_of;
  set_eflags (set_if false e) ;;;
  r ← m;
  set_eflags e ;;;
  mret r.

Definition table_ready (s : system) : Prop :=
  array_get (s_table s) SYS_GETPID = Some sys_getpid_addr /\ array_get (s_table s) SYS_WRITE = Some sys_write_addr /\
  array_get (s_table s) SYS_MALLOC = Some sys_malloc_addr /\ array_get (s_table s) SYS_FREE = Some sys_free_addr.

Lemma u32_s32 z : u32 (s32 z) = u32 z.
Proof. unfold u32, s32. rewrite Zminus_mod_idemp_l. f_equal. lia. Qed.

Lemma in_kernel_undisturbed {A} (m : M system A) s a s' :
  undisturbed (m (flags (set_if false (flags_of s)) s)) = Ok (a, s') ->
  undisturbed (in_kernel m s) = Ok (a, flags (flags_of s) s').
Proof.
  intros E. unfold in_kernel. erewrite bind_ok by reflexivity. erewrite bind_ok by reflexivity.
  erewrite undisturbed_bind by exact E. by destruct s' as [[]].
Qed.

Lemma in_kernel_panic {A} (m : M system A) s :
  undisturbed (m (flags (set_if false (flags_of s)) s)) = Panic -> undisturbed (in_kernel m s) = Panic.
Proof.
  intros E. unfold in_kernel. erewrite bind_ok by reflexivity. erewrite bind_ok by reflexivity.
  unfold mbind, M_bind. change (kern.(put _ _) _ _) with (flags (set_if false (flags_of s)) s).
  induction (m _) as [[]| | | | |]; simpl in *; eauto; done.
Qed.

(** *** The table *)
Lemma invoke_eqs fuel a :
  invoke fuel sys_getpid_addr a = sys_getpid /\ invoke fuel sys_write_addr a = sys_write fuel a /\
  invoke fuel sys_malloc_addr a = sys_malloc a /\ invoke fuel sys_free_addr a = (sys_free a ;;; mret 0).
Proof.
  pose proof sys_addrs_distinct as Hd. rewrite !NoDup_cons, !not_elem_of_cons in Hd. destruct Hd as ((?&?&?&_)&(?&?&_)&(?&_)&_).
  unfold invoke. rewrite !Z.eqb_refl. repeat split; repeat match goal with |- context [?x =? ?y] => destruct (Z.eqb_spec x y); [congruence|] end; done.
Qed.

Lemma int80_eq fuel n f b c d s :
  array_get (s_table s) n = Some f -> int80 fuel n b c d s = in_kernel (invoke fuel f b) s.
Proof.
  intros E. unfold int80, in_kernel. do 2 (erewrite bind_ok by reflexivity). symmetry. do 2 (erewrite bind_ok by reflexivity).
  
  unfold mbind at 1 3, M_bind. f_equal. unfold syscall_handler. erewrite bind_ok by reflexivity.
  change (s_table (put kern _ s)) with (s_table s). by rewrite E.
Qed.

Lemma bind_at {A B} (m m' : M system A) (k : A -> M system B) s : m s = m' s -> (x ← m; k x) s = (x ← m'; k x) s.
Proof. unfold mbind, M_bind. by intros ->. Qed.

(** A wrapper sees the 32-bit result of the kernel function behind it. *)
Lemma wrapper_equiv (m : M system Z) s :
  outcome_equiv ((r ← (r ← in_kernel m; mret (s32 r)); mret (u32 r)) s) ((r ← in_kernel m; mret (u32 r)) s).
Proof.
  etransitivity; [apply bind_assoc_equiv|]. apply outcome_bind_equiv; [done|]. intros r s'.
  change (outcome_equiv (Ok (u32 (s32 r), s')) (Ok (u32 r, s'))). by rewrite u32_s32.
Qed.

Lemma discard_equiv (m : M system unit) s :
  outcome_equiv ((_ ← (r ← in_kernel (m ;;; mret 0); mret (s32 r)); mret tt) s) (in_kernel m s).
Proof.
  unfold in_kernel, mbind, M_bind. simpl.
  induction (m _) as [[[] s2]| | | | |]; simpl; eauto.
Qed.

Lemma syscall_table_ready s :
  length (s_table s) = Z.to_nat syscall_cnt -> exists s', syscall_init s = Ok (tt, s') /\ table_ready s' /\
    length (s_table s') = Z.to_nat syscall_cnt /\ exists l, s' = with_table l s.
Proof.
  intros Hl.
  assert (forall i f s1, length (s_table s1) = 32%nat -> 0 <= i < 32 -> set_table i f s1 = Ok (tt, with_table (<[Z.to_nat i := f]> (s_table s1)) s1)) as Eset.
  { intros i f s1 Hl1 Hi. unfold set_table. by rewrite array_set_eq by lia. }
  change (Z.to_nat syscall_cnt) with 32%nat in *.
  unfold syscall_init. do 3 (erewrite bind_ok by (apply Eset; [simpl; by rewrite ?length_insert | done])).
  rewrite Eset by (simpl; rewrite ?length_insert; done). eexists. split; [reflexivity|]. cbn [s_table with_table].
  split; [|split; [by rewrite !length_insert | by eexists]]. unfold table_ready. cbn [s_table with_table].
  by rewrite !array_get_insert by (rewrite ?length_insert, Hl; done).
Qed.

Lemma wrappers_equiv fuel ebx ecx edx x s :
  table_ready s ->
  outcome_equiv (getpid fuel ebx ecx edx s) ((r ← in_kernel sys_getpid; mret (u32 r)) s) /\
  outcome_equiv (write fuel ecx edx x s) ((r ← in_kernel (sys_write fuel x); mret (u32 r)) s) /\
  outcome_equiv (malloc fuel ecx edx x s) ((r ← in_kernel (sys_malloc x); mret (u32 r)) s) /\
  outcome_equiv (free fuel ecx edx x s) (in_kernel (sys_free x) s).
Proof.
  intros (Tg & Tw & Tm & Tf). unfold getpid, write, malloc, free, _syscall0, _syscall1.
  split; [|split; [|split]].
  - erewrite bind_at by (apply bind_at, (int80_eq _ _ _ _ _ _ _ Tg)). destruct (invoke_eqs fuel ebx) as (-> & _). apply wrapper_equiv.
  - erewrite bind_at by (apply bind_at, (int80_eq _ _ _ _ _ _ _ Tw)). destruct (invoke_eqs fuel x) as (_ & -> & _). apply wrapper_equiv.
  - erewrite bind_at by (apply bind_at, (int80_eq _ _ _ _ _ _ _ Tm)). destruct (invoke_eqs fuel x) as (_ & _ & -> & _). apply wrapper_equiv.
  - erewrite bind_at by (apply bind_at, (int80_eq _ _ _ _ _ _ _ Tf)). destruct (invoke_eqs fuel x) as (_ & _ & _ & ->). apply discard_equiv.
Qed.

(** *** Seen by the heap *)
Definition heap_flags (e : Z) (h : heap_state) : heap_state := put hlists_lens (LState (nodes (hlists h)) e) h.

Lemma heap_ok_flags e h Ls : heap_ok h Ls -> heap_ok (heap_flags e h) Ls.
Proof.
  intros [? ? ? ? ? ? ? ? ? ? Ha ? ?]. split; try done. intros a ar Har. destruct (Ha a ar Har) as [? ? Hk].
  split; [done.. |]. destruct Hk as [Hk|(i & xs & [? ? ? ? ? ? ?])]; [by left|]. right. exists i, xs. by split.
Qed.

Lemma flags_put_heap e e' h s : flags e (put heap h (flags e' s)) = put heap (heap_flags e h) s.
Proof. by destruct s as [[]], h as [[]]. Qed.

Lemma lock_free_flags p e s : lock_free p (view sys_threads s) -> lock_free p (view sys_threads (flags e s)).
Proof. intros Hf. by apply (lock_free_ext p (view sys_threads s)). Qed.

Lemma flags_flags_of e s : flags (flags_of s) (flags e s) = s.
Proof. by destruct s as [[? [] ? ? ? ? ? ? ?]]. Qed.

Lemma undisturbed_equiv {A} (o o' : outcome A system) :
  outcome_equiv o o' -> (forall x, undisturbed o' = Ok x -> undisturbed o = Ok x) /\ (undisturbed o' = Panic -> undisturbed o = Panic).
Proof.
  induction 1 as [o|s k k' _ _|s k k' _ IH]; [done | done |]. apply IH.
Qed.

Lemma result_u32 (m : M system Z) s r s' :
  is_u32 r -> undisturbed (m s) = Ok (r, s') -> undisturbed ((r ← m; mret (u32 r)) s) = Ok (r, s').
Proof. intros Hr E. erewrite undisturbed_bind by exact E. unfold mret, M_ret. simpl. by rewrite u32_id. Qed.

Lemma result_panic (m : M system Z) s : undisturbed (m s) = Panic -> undisturbed ((r ← m; mret (u32 r)) s) = Panic.
Proof. unfold mbind, M_bind. induction (m s) as [[]| | | | |]; simpl; eauto; done. Qed.

Lemma given_u32 h Ls p sz : heap_ok h Ls -> given h Ls p sz -> is_u32 p.
Proof.
  intros Hok (a & ar & Ha & Hcase). destruct (arena_page _ _ _ _ Hok Ha) as (_ & _ & Hm & _).
  destruct Hcase as [(_ & -> & _)|(i & j & xs & Hi & _ & Hj & -> & _)]; [|by apply managed_block].
  replace (a + 12) with (block a 0 0) by (unfold block; lia). by apply managed_block.
Qed.

Lemma user_write_ok fuel ecx edx s p cs :
  table_ready s -> lock_free console_lock (view sys_threads s) -> p <> NULL -> cstring (s_bytes s) p cs -> zlen cs < 0x100000000 ->
  undisturbed (write (S fuel) ecx edx p s) = Ok (zlen cs, printed cs s).
Proof.
  intros Ht Hf Hp Hs Hl. destruct (wrappers_equiv (S fuel) 0 ecx edx p s Ht) as (_ & Ew & _).
  apply (proj1 (undisturbed_equiv _ _ Ew)), result_u32; [pose proof (zlen_nonneg cs); unfold is_u32; lia|].
  erewrite in_kernel_undisturbed; [|unfold sys_write; erewrite undisturbed_bind by
    (apply console_put_str_ok; [by apply lock_free_flags | exact Hs]);
    rewrite (zoom_ok bytes _ _ (zlen cs) (s_bytes s)) by (by apply strlen_ok); reflexivity].
  by destruct s as [[? [] ? ? ? ? ? ? ?]].
Qed.

(** *** The heap of a process *)
Section UserHeap.
Context (fuel : nat) (ecx edx : Z) (s : system) (Ls : gmap Z (list Z)).
Hypothesis Ht : table_ready s.
Hypothesis Hok : heap_ok (view heap s) Ls.
Hypothesis Hun : lock_free (pool_lock (heap_pf (view heap s))) (view sys_threads s).

Let h := view heap s.
Let s0 := flags (set_if false (flags_of s)) s.
Let h0 := heap_flags (set_if false (flags_of s)) h.

Lemma user_malloc_ok size :
  is_u32 size -> (1024 < size -> pool_size (pool_get (heap_pf h) (hmem h)) + 4108 < 0x100000000) ->
  wpu (malloc fuel ecx edx size) s (fun p s' =>
    (p = NULL /\ s' = s /\ (pool_size (pool_get (heap_pf h) (hmem h)) < size \/ no_pages h (pages_needed size))) \/
    exists h', s' = put heap h' s /\ malloc_done h Ls size p h') (malloc_panics (heap_pf h) (hmem h) (pages_needed size)).
Proof.
  intros Hsize Hpool. assert (heap_ok h0 Ls) as Hok0 by (by apply heap_ok_flags).
  assert (uncontended (PoolLocks := system_locks) (heap_pf h0) s0) as Hun0 by (by apply lock_free_flags).
  destruct (wrappers_equiv fuel 0 ecx edx size s Ht) as (_ & _ & Em & _).
  destruct (wpu_outcome _ _ _ _ (@sys_malloc_ok system system_locks size s0 h0 Ls eq_refl Hok0 Hun0 ltac:(apply Hsize) Hpool))
    as [(p & st' & E & [(-> & -> & Hc)|(h' & -> & Hd)])|[E Hp]].
  - eapply wpu_eq; [|left; by split].
    apply (proj1 (undisturbed_equiv _ _ Em)), result_u32; [by unfold is_u32|].
    erewrite in_kernel_undisturbed by exact E. unfold s0. by rewrite flags_flags_of.
  - destruct Hd as (Ls' & sz & Hn & Hpf & Hok' & Hg & Hsz & Hk).
    eapply wpu_eq; [|right; exists (heap_flags (flags_of s) h'); split; [reflexivity|]; exists Ls', sz; do 2 (split; [done|]);
      split; [by apply heap_ok_flags | done]].
    apply (proj1 (undisturbed_equiv _ _ Em)), result_u32; [eapply (given_u32 h' Ls'); [done|]; apply Hg; by right|].
    erewrite in_kernel_undisturbed by exact E. by rewrite <- (flags_put_heap (flags_of s) (set_if false (flags_of s))).
  - unfold wpu. rewrite (proj2 (undisturbed_equiv _ _ Em)); [exact Hp|]. by apply result_panic, in_kernel_panic.
Qed.

Lemma user_free_ok p sz : given h Ls p sz ->
  wpu (free fuel ecx edx p) s (fun _ s' => exists h', s' = put heap h' s /\ given_back h Ls p h') False.
Proof.
  intros Hg. assert (heap_ok h0 Ls) as Hok0 by (by apply heap_ok_flags).
  assert (uncontended (PoolLocks := system_locks) (heap_pf h0) s0) as Hun0 by (by apply lock_free_flags).
  destruct (wrappers_equiv fuel 0 ecx edx p s Ht) as (_ & _ & _ & Ef).
  destruct (wpu_outcome _ _ _ _ (@sys_free_ok system system_locks s0 h0 Ls p sz eq_refl Hok0 Hun0 Hg)) as [([] & st' & E & h' & -> & Hd)|[_ []]].
  destruct Hd as (Ls' & Hok' & Hpf & Hg' & Hk).
  eapply wpu_eq; [|exists (heap_flags (flags_of s) h'); split; [reflexivity|]; exists Ls'; split; [by apply heap_ok_flags | done]].
  apply (proj1 (undisturbed_equiv _ _ Ef)). erewrite in_kernel_undisturbed by exact E.
  by rewrite <- (flags_put_heap (flags_of s) (set_if false (flags_of s))).
Qed.

Lemma user_free_null : undisturbed (free fuel ecx edx NULL s) = Panic.
Proof.
  destruct (wrappers_equiv fuel 0 ecx edx NULL s Ht) as (_ & _ & _ & Ef).
  by apply (proj2 (undisturbed_equiv _ _ Ef)), in_kernel_panic.
Qed.
End UserHeap.

(** ** Properties *)

(** C38: [syscall_init] changes only the table of system calls, and once it has
    run, each user function is, at every point where others may run, the
    kernel function behind it executed with interrupts off (EFLAGS afterwards as
    before), its result cut to 32 bits, whatever the registers hold that the
    wrapper does not set.  The number of a call is not tested: one
    beyond the table reads past it. *)
Theorem syscalls_equivalent (fuel : nat) (ebx ecx edx x : Z) (s : system) (Hlen : length (s_table s) = Z.to_nat syscall_cnt) :
  exists l, syscall_init s = Ok (tt, with_table l s) /\
    forall s1, s_table s1 = l ->
      outcome_equiv (getpid fuel ebx ecx edx s1) ((r ← in_kernel sys_getpid; mret (u32 r)) s1) /\
      outcome_equiv (write fuel ecx edx x s1) ((r ← in_kernel (sys_write fuel x); mret (u32 r)) s1) /\
      outcome_equiv (malloc fuel ecx edx x s1) ((r ← in_kernel (sys_malloc x); mret (u32 r)) s1) /\
      outcome_equiv (free fuel ecx edx x s1) (in_kernel (sys_free x) s1) /\
      forall n, syscall_cnt <= n -> int80 fuel n ebx ecx edx s1 = Fault.
Proof.
  destruct (syscall_table_ready s Hlen) as (s' & E & T & Hl & l & ->). exists l. split; [exact E|].
  intros s1 Ht. simpl in Hl. rewrite <- Ht in Hl. assert (table_ready s1) as T1 by (unfold table_ready in *; by rewrite Ht).
  destruct (wrappers_equiv fuel ebx ecx edx x s1 T1) as (Eg & Ew & Em & Ef). do 4 (split; [done|]).
  intros n Hn. unfold int80. do 2 (erewrite bind_ok by reflexivity). apply bind_fault. unfold syscall_handler.
  erewrite bind_ok by reflexivity. apply bind_fault. change (s_table (put kern _ s1)) with (s_table s1).
  destruct (array_get (s_table s1) n) as [f|] eqn:Ea; [|done]. apply array_get_Some_range in Ea. unfold syscall_cnt in *. lia.
Qed.

(** In a process, [getpid] returns the pid of the running task; [write] of a
    string, the console not being contended for, prints it and returns its
    length. *)
Theorem user_calls_correct (fuel : nat) (ebx ecx edx : Z) (s : system) (ts : task_struct) (p : Z) (cs : list Z)
    (Ht : table_ready s) (Hcur : k_tasks (s_kernel s) !! k_cur (s_kernel s) = Some ts)
    (Hf : lock_free console_lock (view sys_threads s)) (Hp : p <> NULL) (Hs : cstring (s_bytes s) p cs)
    (Hl : zlen cs < 0x100000000) :
  undisturbed (getpid fuel ebx ecx edx s) = Ok (u32 (pid ts), s) /\
  undisturbed (write (S fuel) ecx edx p s) = Ok (zlen cs, printed cs s).
Proof.
  destruct (wrappers_equiv fuel ebx ecx edx p s Ht) as (Eg & _).
  split.
  - apply (proj1 (undisturbed_equiv _ _ Eg)), result_u32; [apply u32_range|].
    erewrite in_kernel_undisturbed; [by rewrite flags_flags_of|]. unfold sys_getpid. set (s0 := flags _ s).
    erewrite bind_ok; [|apply (zoom_ok sys_threads _ s0 ts (view sys_threads s0))].
    { rewrite (put_view sys_threads). reflexivity. }
    unfold running_thread, task_at, gets, get, mbind, M_bind. simpl. by rewrite Hcur.
  - by apply user_write_ok.
Qed.

(** In a process, [malloc] and [free] do what [sys_malloc] and [sys_free] do on
    the process's heap, the pool's lock not being contended for: [malloc] returns
    NULL with nothing changed, stops the machine as [malloc_page] does, or
    hands out fresh memory; [free] takes back memory that is held, and
    [free(NULL)] stops the machine. *)
Theorem user_heap_correct (fuel : nat) (ecx edx size : Z) (s : system) (Ls : gmap Z (list Z))
    (Ht : table_ready s) (Hok : heap_ok (view heap s) Ls) (Hun : lock_free (pool_lock (heap_pf (view heap s))) (view sys_threads s)) (Hsize : is_u32 size)
    (Hpool : pool_size (pool_get (heap_pf (view heap s)) (k_mem (s_kernel s))) + 4108 < 0x100000000) :
  let h := view heap s in
  let run := undisturbed (malloc fuel ecx edx size s) in
  ((run = Ok (NULL, s) /\ (pool_size (pool_get (heap_pf h) (hmem h)) < size \/ no_pages h (pages_needed size))) \/
   (exists p h', run = Ok (p, put heap h' s) /\ malloc_done h Ls size p h') \/
   (run = Panic /\ malloc_panics (heap_pf h) (hmem h) (pages_needed size))) /\
  (forall p sz, given h Ls p sz ->
    exists h', undisturbed (free fuel ecx edx p s) = Ok (tt, put heap h' s) /\ given_back h Ls p h') /\
  undisturbed (free fuel ecx edx NULL s) = Panic.
Proof.
  intros h run. split; [|split; [|by apply user_free_null]].
  - destruct (wpu_outcome _ _ _ _ (user_malloc_ok fuel ecx edx s Ls Ht Hok Hun size Hsize (fun _ => Hpool)))
      as [(p & s' & E & [(-> & -> & Hc)|(h' & -> & Hd)])|[E Hp]]; [by left | right; left; by exists p, h' | by right; right].
  - intros p sz Hg. destruct (wpu_outcome _ _ _ _ (user_free_ok fuel ecx edx s Ls Ht Hok Hun p sz Hg)) as [([] & s' & E & h' & -> & Hd)|[_ []]].
    by exists h'.
Qed.
End Syscall.

(** *** Concrete instances: the system of [Console] with a table, and with a heap *)
#[local] Instance example_layout : Layout := {|
  thread_ready_list := 0x10000; thread_all_list := 0x10010; pid_lock := 0x10020 |}.
#[local] Instance example_console : ConsoleLayout := {| console_lock := 0x30000 |}.
#[local] Instance example_pools : PoolLayout := {| kernel_pool_lock := 0x30000; user_pool_lock := 0x30000 |}.

#[local] Instance example_text : SyscallText.
Proof.
  refine {| sys_getpid_addr := 0xc0001000; sys_write_addr := 0xc0001040; sys_malloc_addr := 0xc0001080;
            sys_free_addr := 0xc00010c0 |}.
  refine (bool_decide_eq_true_1 _ _). by vm_compute.
Defined.

Definition example_table : list Z := [0xc0001000; 0xc0001040; 0xc0001080; 0xc00010c0] ++ replicate 28 0.

Lemma syscalls_equivalent_witness : exists l, syscall_init example_system = Ok (tt, with_table l example_system) /\
  outcome_equiv (free 1 7 9 0x500 (with_table l example_system)) (in_kernel (sys_free 0x500) (with_table l example_system)).
Proof.
  destruct (syscalls_equivalent 1 5 7 9 0x500 example_system eq_refl) as (l & E & Hall).
  destruct (Hall (with_table l example_system) eq_refl) as (_ & _ & _ & Hf & _). exists l. split; [exact E | exact Hf].
Defined.

(** The system of [Console] with this table, a running task, and the heap [h]. *)
Definition example_process (h : heap_state) : system :=
  System.System (Kernel (hmem h) (LState {[0x30008 := Node NULL 0x30010; 0x30010 := Node 0x30008 NULL]} (eflags (hlists h)))
      {[0x1000 := example_task TASK_RUNNING 1]} (Sync {[0x30004 := 1]} {[0x30000 := Lock NULL 0]}) 0x1000 3 0 0 NULL)
    (nodes (hlists h)) (arenas h) (descs h) (k_block_descs h) (u_block_descs h) (s_bytes example_system) [] example_table.

Lemma example_process_free h : lock_free 0x30000 (view sys_threads (example_process h)).
Proof. by refine (lock_free_ext 0x30000 (view sys_threads example_system) _ example_console_free _ _ _). Qed.

Lemma user_calls_correct_witness : exists s,
  undisturbed (getpid 0 5 7 9 s) = Ok (1, s) /\
  undisturbed (write 1 7 9 0x500 s) = Ok (2, printed [72; 105] s).
Proof.
  set (s := example_process (Heap.Heap (LState ∅ 0x202) ∅ ∅ 0 0 example_mem)). exists s.
  apply (user_calls_correct 0 5 7 9 s (example_task TASK_RUNNING 1) 0x500 [72; 105]).
  - by repeat split.
  - reflexivity.
  - exact (example_process_free _).
  - discriminate.
  - by repeat split; repeat constructor.
  - reflexivity.
Defined.

Lemma user_heap_correct_witness : exists h Ls p h', heap_ok h Ls /\
  undisturbed (malloc 1 7 9 100 (example_process h)) = Ok (p, put heap h' (example_process h)) /\ malloc_done h Ls 100 p h'.
Proof.
  destruct example_heap_exists as (h & Ls & Hok & _ & Hm & Hpf). 
  assert (view heap (example_process h) = h) as E by by destruct h as [[]].
  destruct (user_heap_correct 1 7 9 100 (example_process h) Ls ltac:(by repeat split) ltac:(by rewrite E)
    ltac:(rewrite E, Hpf; apply example_process_free) ltac:(unfold is_u32; lia)
    ltac:(rewrite E, Hpf; simpl; rewrite Hm; cbn; lia)) as [[[_ [Hsz|Hno]]|[(p & h' & Er & Hd)|[_ Hp]]] _].
  - exfalso. rewrite E, Hm, Hpf in Hsz. cbn in Hsz. lia.
  - exfalso. rewrite E in Hno. exact (example_run_exists h Hm Hpf Hno).
  - rewrite E in Hd. exists h, Ls, p, h'. split; [exact Hok|]. split; [exact Er | exact Hd].
  - exfalso. rewrite E, Hm, Hpf in Hp. exact (example_page_to_have Hp).
Defined.
