(* ===== verification/PageDir.v ===== *)
(** * Address spaces of processes: userprog/process.c (create_page_dir)

    A process has a page directory of its own, a page of the kernel's memory:
    its upper quarter is a copy of the kernel's, so that the kernel is mapped
    in every address space, the rest is empty, and its last entry points at
    itself, as the window through which page tables are edited needs. *)
From stdpp Require Import base numbers list gmap fin_maps.
From Stdlib Require Import ZArith Lia.
From S2P Require Import Prelude Globals Interrupt LinkedList Bitmap Paging PageAlloc PageFree Pages Supply Heap HeapAlloc CString Thread Sync PoolLocks ThreadCreate System Console.

(** ** Operations *)

(** [memcpy] of [4 * n] bytes between aligned addresses, by words. *)
Definition copy_words (dst src : Z) (n : nat) : M mmu unit :=
  for_loop n 0 (fun i => w ← load (u32 (src + 4 * i)); store (u32 (dst + 4 * i)) w).

(** Address of the message of a failed [create_page_dir]. *)
Class PageDirText := { create_page_dir_msg : Z }.

Definition sys_machine : lens system mmu := lens_comp kern (lens_comp memory machine_lens).

(** The directory is filled in and points at itself. *)
Definition fill_page_dir (page_dir_vaddr : Z) : M mmu unit :=
  copy_words (u32 (page_dir_vaddr + 0x300 * 4)) (u32 (0xfffff000 + 0x300 * 4)) 256 ;;;
  new_page_dir_phy_addr ← addr_v2p page_dir_vaddr;
  store (u32 (page_dir_vaddr + 4 * 1023)) (Z.lor (Z.lor (Z.lor new_page_dir_phy_addr PG_US_U) PG_RW_W) PG_P_1).

Section PageDir.
Context `{!Layout} `{!PoolLayout} `{!ConsoleLayout} `{!PageDirText}.

Definition create_page_dir (fuel : nat) : M system Z :=
  page_dir_vaddr ← zoom kern (get_kernel_pages 1);
  if page_dir_vaddr =? NULL then
    console_put_str fuel create_page_dir_msg ;;; mret NULL
  else
    zoom sys_machine (fill_page_dir page_dir_vaddr) ;;;
    mret page_dir_vaddr.
End PageDir.

(** ** What is written *)

(** The first [n] entries of the kernel's half, and where they go. *)
Definition kernel_entries (m : mmu) (n : Z) : list (Z * Z) :=
  (fun i => (768 + i, dir_entry m (768 + i))) <$> seqZ 0 n.

Lemma kernel_entries_S m n : 0 <= n -> kernel_entries m (n + 1) = kernel_entries m n ++ [(768 + n, dir_entry m (768 + n))].
Proof.
  intros Hn. unfold kernel_entries. rewrite seqZ_app by lia. by rewrite fmap_app.
Qed.

Lemma kernel_entries_word f m0 m n j :
  0 <= n -> ram_word (poke f (kernel_entries m0 n) m) (f + 4 * j) =
  if (768 <=? j) && (j <? 768 + n) then dir_entry m0 j else ram_word m (f + 4 * j).
Proof.
  revert n. apply natlike_ind.
  - unfold kernel_entries. simpl. destruct (Z.leb_spec 768 j), (Z.ltb_spec j (768 + 0)); simpl; done || lia.
  - intros n Hn IH. replace (Z.succ n) with (n + 1) by lia. rewrite kernel_entries_S, poke_app, poke_one, IH by done. simpl.
    destruct (Z.eqb_spec j (768 + n)) as [->|].
    + destruct (Z.leb_spec 768 (768 + n)), (Z.ltb_spec (768 + n) (768 + (n + 1))); simpl; done || lia.
    + destruct (Z.leb_spec 768 j), (Z.ltb_spec j (768 + n)), (Z.ltb_spec j (768 + (n + 1))); simpl; done || lia.
Qed.

Lemma kernel_entries_ok m n : pt_wf m -> 0 <= n <= 256 -> Forall word_ok (kernel_entries m n).
Proof.
  intros Hwf Hn. unfold kernel_entries. apply Forall_fmap, Forall_forall. intros i [? ?]%elem_of_seqZ.
  split; simpl; [lia|]. by apply ram_word_u32, Hwf.
Qed.

(** The state of the page while the directory is built. *)
Lemma poke_dir m p f ws i :
  page_at m p f -> Forall word_ok ws -> 0 <= i < 1024 -> dir_entry (poke f ws m) i = dir_entry m i.
Proof.
  intros Hp Hws Hi. pose proof Hp as [Hwf Hal Hd Hf].
  destruct (changed_agree m _ p 1 1024 Hwf Hal Hd ltac:(lia) (changed_poke m p f ws Hp Hws)) as (_ & Hdir & _). by apply Hdir.
Qed.

(** The directory seen through its own last entry. *)
Lemma load_dir m j : pt_wf m -> 0 <= j < 1024 -> load (u32 (0xfffff000 + 4 * j)) m = Ok (dir_entry m j, m).
Proof.
  intros Hwf Hj. destruct (split_addr j 0 0) as (Hu & Hd & _ & _); [lia..|].
  assert (u32 (0xfffff000 + 4 * j) = pde_ptr (j * 2 ^ 22 + 0 * 2 ^ 12 + 0)) as ->.
  { unfold pde_ptr. rewrite Hd. f_equal. lia. }
  unfold load. rewrite translate_pde_ptr; [|apply Hwf | done]. unfold dir_entry, pde_addr. by rewrite Hd.
Qed.

Lemma store_page_word m p f i v : page_at m p f -> 0 <= i < 1024 -> store (u32 (p + 4 * i)) v m = Ok (tt, poke f [(i, v)] m).
Proof.
  intros Hp Hi. destruct (page_at_word m p f i Hp Hi) as [Htr [Hu _]]. unfold store. rewrite u32_id by done. by rewrite Htr.
Qed.

(** The machine after [fill_page_dir] on the page of frame [f]. *)
Definition page_dir (f : Z) (m : mmu) : mmu := poke f [(1023, entry f)] (poke f (kernel_entries m 256) m).

Lemma copy_dir_ok m p f :
  page_at m p f -> wp (copy_words (u32 (p + 0x300 * 4)) (u32 (0xfffff000 + 0x300 * 4)) 256) m
    (fun _ m' => m' = poke f (kernel_entries m 256) m).
Proof.
  intros Hp. destruct (page_at_frame _ _ _ Hp) as (_ & _ & Hm & _). pose proof (page_top p Hm (pa_aligned _ _ _ Hp)) as Htop.
  destruct Hm as [Hu _]. unfold copy_words. rewrite (u32_id (p + _)), (u32_id (0xfffff000 + _)) by (unfold is_u32 in *; lia).
  apply (wp_for_loop _ _ _ _ (fun i m' => m' = poke f (kernel_entries m i) m)); [done | | by intros m'].
  intros i m' Hi ->. assert (Forall word_ok (kernel_entries m i)) as Hws by (apply kernel_entries_ok; [apply Hp | lia]).
  pose proof (poke_page m p f _ Hp Hws) as Hp'. wp_step.
  replace (0xfffff000 + 0x300 * 4 + 4 * i) with (0xfffff000 + 4 * (768 + i)) by lia.
  eapply wp_ok; [apply load_dir; [apply Hp' | lia]|]. cbv beta.
  replace (p + 0x300 * 4 + 4 * i) with (p + 4 * (768 + i)) by lia. eapply wp_ok; [apply store_page_word; [done | lia]|].
  cbv beta. rewrite kernel_entries_S, poke_app by lia. by rewrite (poke_dir m p f) by (done || lia).
Qed.

Lemma fill_page_dir_eq m p f : page_at m p f -> fill_page_dir p m = Ok (tt, page_dir f m).
Proof.
  intros Hp. destruct (page_at_frame _ _ _ Hp) as (Hfu & Hfa & Hm & _). unfold fill_page_dir.
  assert (Forall word_ok (kernel_entries m 256)) as Hws by (apply kernel_entries_ok; [apply Hp | lia]).
  pose proof (poke_page m p f _ Hp Hws) as Hp'. pose proof Hm as [Hu _].
  destruct (wp_ok_inv _ _ _ (copy_dir_ok m p f Hp)) as ([] & m' & E & ->). erewrite bind_ok by exact E.
  erewrite bind_ok.
  2: { rewrite addr_v2p_ok by (done || apply Hp'). pose proof (pa_frame _ _ _ Hp') as Hf. 
       apply page_frame_present in Hf as [Hpr Hfr]. rewrite Hfr, Hpr.
       rewrite land_low_12, (pa_aligned _ _ _ Hp), Z.add_0_r. reflexivity. }
  by rewrite (store_page_word _ p f) by (done || lia).
Qed.

(** *** The address space of the new directory *)

(** The machine with the directory at [f] loaded. *)
Definition in_space (f : Z) (m : mmu) : mmu := Mmu (ram m) f.

(** The space of [f] in [m] has the kernel half of the space [k], an empty user
    half, and its own window. *)
Record process_space (k m : mmu) (f : Z) : Prop := {
  ps_wf : pt_wf (in_space f m);
  ps_kernel : forall va, managed va -> 768 <= PDE_IDX va -> translate (in_space f m) va = translate k va;
  ps_user : forall va, is_u32 va -> PDE_IDX va < 768 -> translate (in_space f m) va = None;
}.

Lemma page_dir_word m p f j :
  page_at m p f -> 0 <= j < 1024 -> ram_word (page_dir f m) (f + 4 * j) =
  if j =? 1023 then entry f else if 768 <=? j then dir_entry m j else ram_word m (f + 4 * j).
Proof.
  intros Hp Hj. unfold page_dir. rewrite poke_one. cbn [fst snd]. destruct (j =? 1023); [done|].
  rewrite kernel_entries_word by lia. destruct (Z.ltb_spec j (768 + 256)); [|lia]. by rewrite andb_true_r.
Qed.

Lemma page_dir_ok m p f : page_at m p f -> page_at (page_dir f m) p f /\ changed m (page_dir f m) p 1024.
Proof.
  intros Hp. destruct (page_at_frame _ _ _ Hp) as (Hfu & Hfa & _). destruct (entry_ok f Hfu Hfa) as (He & _).
  assert (Forall word_ok (kernel_entries m 256 ++ [(1023, entry f)])) as Hws.
  { apply Forall_app. split; [apply kernel_entries_ok; [apply Hp | lia]|]. constructor; [split; [simpl; lia | done] | constructor]. }
  unfold page_dir. rewrite <- poke_app. split; [by apply poke_page | by apply changed_poke].
Qed.

(** Words outside the frame of the directory. *)
Lemma page_dir_rest m p f g k :
  page_at m p f -> g mod 4096 = 0 -> g <> f -> 0 <= k < 1024 -> ram_word (page_dir f m) (g + 4 * k) = ram_word m (g + 4 * k).
Proof.
  intros Hp Hg Hne Hk. destruct (page_at_frame _ _ _ Hp) as (_ & Hfa & _). apply (proj2 (page_dir_ok m p f Hp)).
  intros i Hi E. destruct (page_at_word m p f i Hp Hi) as [Htr _]. rewrite Htr in E. injection E as E.
  by apply aligned_word_neq in E as [-> _].
Qed.

Lemma new_space_dir m p f j :
  page_at m p f -> (forall i, 0 <= i < 1024 -> ram_word m (f + 4 * i) = 0) -> 0 <= j < 1024 ->
  dir_entry (in_space f (page_dir f m)) j = if j =? 1023 then entry f else if 768 <=? j then dir_entry m j else 0.
Proof.
  intros Hp Hz Hj. destruct (page_at_frame _ _ _ Hp) as (Hfu & Hfa & _). unfold dir_entry at 1. simpl.
  assert (frame_of f = f) as ->.
  { unfold frame_of. rewrite land_high_20 by done. Z.div_mod_to_equations. lia. }
  change (ram_word (in_space f (page_dir f m))) with (ram_word (page_dir f m)).
  rewrite (page_dir_word m p f) by done. rewrite Hz by done. done.
Qed.

Lemma new_space_ok m p f :
  page_at m p f -> (forall i, 0 <= i < 1024 -> ram_word m (f + 4 * i) = 0) -> process_space m (page_dir f m) f.
Proof.
  intros Hp Hz. pose proof (pa_wf _ _ _ Hp) as Hwf. destruct (page_at_frame _ _ _ Hp) as (Hfu & Hfa & _ & Hn).
  destruct (entry_ok f Hfu Hfa) as (_ & Hep & Hef). destruct (page_dir_ok m p f Hp) as [Hp' Hch].
  pose proof (fun j => new_space_dir m p f j Hp Hz) as Hdir. set (m' := in_space f (page_dir f m)) in *.
  assert (frame_of f = f) as Hff by (unfold frame_of; rewrite land_high_20 by done; Z.div_mod_to_equations; lia).
  assert (forall j, 0 <= j < 1023 -> present (dir_entry m' j) = true -> 768 <= j /\ dir_entry m' j = dir_entry m j /\
    present (dir_entry m j) = true) as Hpres.
  { intros j Hj Hpj. rewrite Hdir in * by lia. destruct (Z.eqb_spec j 1023); [lia|].
    destruct (Z.leb_spec 768 j); [done | discriminate Hpj]. }
  split; change (in_space f (page_dir f m)) with m'.
  - split.
    + apply Hch.
    + done.
    + unfold self_mapped. fold (dir_entry m' 1023). rewrite Hdir by lia. simpl cr3. by rewrite Hff.
    + intros i Hi Hpi. destruct (Hpres i Hi Hpi) as (_ & -> & Hpi'). simpl cr3. rewrite Hff. intros E. apply Hn. right. by exists i.
    + intros i j Hi Hj Hne Hpi Hpj. destruct (Hpres i ltac:(lia) Hpi) as (_ & -> & Hpi').
      destruct (Hpres j ltac:(lia) Hpj) as (_ & -> & Hpj'). by apply (wf_distinct m Hwf).
  - intros va [Hu Hd] Hk. assert (dir_entry m' (PDE_IDX va) = dir_entry m (PDE_IDX va)) as E.
    { rewrite Hdir by lia. destruct (Z.eqb_spec (PDE_IDX va) 1023); [lia|]. by destruct (Z.leb_spec 768 (PDE_IDX va)); [|lia]. }
    unfold translate, pte_of, pte_addr. rewrite !pde_of_dir, E. destruct (present (dir_entry m (PDE_IDX va))) eqn:Hpr; [|done].
    assert (ram_word m' (frame_of (dir_entry m (PDE_IDX va)) + 4 * PTE_IDX va) =
      ram_word m (frame_of (dir_entry m (PDE_IDX va)) + 4 * PTE_IDX va)) as ->; [|done].
    change (ram_word m') with (ram_word (page_dir f m)). apply (page_dir_rest m p); [done | | | by apply PTE_IDX_range].
    + by apply frame_of_aligned, ram_word_u32, Hwf.
    + intros Ef. apply Hn. right. exists (PDE_IDX va). split; [lia | done].
  - intros va Hu Hk. pose proof (PDE_IDX_range va Hu). unfold translate. rewrite pde_of_dir, Hdir by lia.
    destruct (Z.eqb_spec (PDE_IDX va) 1023); [lia|]. by destruct (Z.leb_spec 768 (PDE_IDX va)); [lia|].
Qed.

Lemma process_space_self m p f :
  page_at m p f -> process_space m (page_dir f m) f -> process_space (page_dir f m) (page_dir f m) f.
Proof.
  intros Hp [S1 S2 S3]. split; [done | | done]. intros va Hva Hk. rewrite S2 by done. symmetry.
  destruct (page_dir_ok m p f Hp) as [_ Hch].
  by apply (changed_agree m _ p 1 1024 (pa_wf _ _ _ Hp) (pa_aligned _ _ _ Hp) (pa_data _ _ _ Hp) ltac:(lia) Hch).
Qed.

(** ** create_page_dir *)
Definition kmem : lens system mem_state := lens_comp kern memory.

(** A directory for a process has been made in the page [p] of frame [f]. *)
Record dir_made (s s' : mem_state) (p f : Z) : Prop := {
  dm_ok : mem_ok s';
  dm_fresh : vaddr_free (kernel_vaddr_pool s) p /\ frame_free (kernel_mem_pool s) f;
  dm_page : page_at (machine s') p f;
  dm_space : process_space (machine s') (machine s') f;
  dm_pgdir : cur_pgdir s' = cur_pgdir s;
  dm_start : vaddr_start (kernel_vaddr_pool s') = vaddr_start (kernel_vaddr_pool s);
  dm_vaddr : forall v, vaddr_free (kernel_vaddr_pool s') v <-> vaddr_free (kernel_vaddr_pool s) v /\ v <> p;
  dm_user : userprog_vaddr_pool s' = userprog_vaddr_pool s;
  dm_keep : forall v, page_in_use PF_KERNEL s v ->
    page_in_use PF_KERNEL s' v /\ page_frame (machine s') v = page_frame (machine s) v;
  dm_data : forall v g k, page_in_use PF_KERNEL s v -> page_frame (machine s) v = Some g -> 0 <= k < 1024 ->
    ram_word (machine s') (g + 4 * k) = ram_word (machine s) (g + 4 * k);
  dm_spent : spent 1 1 1 s s';
}.

Lemma same_page_free p v s : vpool_ok (kernel_vaddr_pool s) -> vaddr_free (kernel_vaddr_pool s) v -> p mod 4096 = 0 ->
  ~ p <= v < p + 1 * 4096 <-> v <> p.
Proof.
  intros Hok Hv Hp. destruct (vaddr_free_range _ _ Hok Hv) as (_ & _ & Hal).
  split; [intros H ->; lia|]. intros Hne Hin. apply Hne. Z.div_mod_to_equations. lia.
Qed.

Lemma dir_made_intro s m p f :
  mem_ok s -> got_pages PF_KERNEL s m p 1 -> page_at (machine m) p f ->
  dir_made s (put machine_lens (page_dir f (machine m)) m) p f.
Proof.
  intros Hok G Hp. destruct (page_dir_ok _ _ _ Hp) as [Hp' Hch]. destruct (gp_page _ _ _ _ _ G 0 ltac:(lia)) as (Hfree & Hu & f' & Hf' & Hff).
  rewrite Z.mul_0_l, Z.add_0_r in *. rewrite (pa_frame _ _ _ Hp) in Hf'. injection Hf' as <-.
  destruct (mem_ok_changed m _ p 1 (gp_ok _ _ _ _ _ G) (pa_aligned _ _ _ Hp) (pa_data _ _ _ Hp) Hch) as (Hok' & Hpf & Hpt).
  assert (forall i, 0 <= i < 1024 -> ram_word (machine m) (f + 4 * i) = 0) as Hz.
  { intros i Hi. destruct (gp_zero _ _ _ _ _ G i ltac:(lia)) as (pa & Htr & Hz).
    destruct (page_at_word _ _ _ i Hp Hi) as [Htr' _]. congruence. }
  split; try done.
  - by eapply process_space_self, new_space_ok.
  - apply G.
  - apply (gp_start _ _ _ _ _ G).
  - intros v. change (kernel_vaddr_pool (put machine_lens _ m)) with (vpool_get PF_KERNEL m). rewrite (gp_vaddr _ _ _ _ _ G).
    split; intros [Hv Hn]; (split; [done|]); by apply (same_page_free p v s); try apply Hp; try apply (mo_vpool s Hok PF_KERNEL).
  - apply (gp_other _ _ _ _ _ G PF_USER). done.
  - intros v Hv. destruct (gp_keep _ _ _ _ _ G v Hv) as [Hv' E]. split; [by apply in_use_cleared|].
    rewrite <- E. apply Hpf. by apply (in_use_page _ _ _ Hv).
  - intros v g k Hv Hg Hk. destruct (in_use_page _ _ _ Hv) as (Hm & _). destruct (gp_keep _ _ _ _ _ G v Hv) as [Hv' E].
    assert (v mod 4096 = 0) as Hal.
    { destruct Hv as ((i & _ & _ & ->) & _). rewrite Z_mod_plus_full. by apply (mo_vpool s Hok PF_KERNEL). }
    destruct (page_frame_entry _ _ _ (mo_pt _ Hok) Hg) as (e & He & Ee).
    simpl. rewrite (page_dir_rest _ p f); [by apply (gp_data _ _ _ _ _ G v) | done | rewrite Ee; by apply frame_of_aligned | | done].
    intros ->. destruct (Hu) as (_ & _ & _). destruct Hv as (_ & Hnv & _). apply Hnv.
    assert (v = p) as ->; [|done]. pose proof (in_use_page _ _ _ Hu) as (Hmp & _). rewrite Hg in E.
    pose proof (mo_inj m (gp_ok _ _ _ _ _ G) v p f Hm Hmp E (pa_frame _ _ _ Hp)) as Hpg.
    apply aligned_same_page; [done | apply Hp | done].
  - apply spent_poke. exact (spent_got _ _ _ _ G ltac:(lia)).
Qed.

Section PageDirProofs.
Context `{!Layout} `{!PoolLayout} `{!ConsoleLayout} `{!PageDirText}.

Lemma create_page_dir_ok fuel s cs :
  mem_ok (view kmem s) -> lock_free kernel_pool_lock (view sys_threads s) -> lock_free console_lock (view sys_threads s) ->
  cstring (s_bytes s) create_page_dir_msg cs ->
  wpu (create_page_dir (S fuel)) s (fun p s' =>
    (p = NULL /\ s' = printed cs s /\ forall i, ~ free_run (vaddr_bitmap (kernel_vaddr_pool (view kmem s))) i 1) \/
    (p <> NULL /\ exists m f, s' = put kmem m s /\ dir_made (view kmem s) m p f))
    (malloc_panics PF_KERNEL (view kmem s) 1).
Proof.
  intros Hok Hl Hc Hs. unfold create_page_dir. apply wpu_bind, wpu_zoom.
  eapply wpu_mono; [by apply (get_pages_ok PF_KERNEL 1 (view kern s)) | | done].
  intros p k' [(-> & -> & Hno)|(m & -> & Hp & _ & G)].
  - rewrite (put_view kern). cbn [Z.eqb NULL]. apply wpu_bind. eapply wpu_eq; [by apply console_put_str_ok|]. apply wpu_ret. by left.
  - destruct (Z.eqb_spec p NULL); [done|]. destruct (got_page_at _ _ _ G Hok) as (_ & _ & _ & f & Hpg).
    apply wpu_bind, wpu_wp, wp_zoom. eapply wp_ok; [by apply (fill_page_dir_eq (machine m) p f)|].
    apply wpu_ret. right. split; [done|]. exists (put machine_lens (page_dir f (machine m)) m), f. split; [done|].
    by apply dir_made_intro.
Qed.

(** ** Properties *)

(** C32: [create_page_dir] stops the machine as [get_kernel_pages] does, or
    prints its message and returns NULL when the kernel has no free page, or
    makes an address space: a page that was free holds, in a frame that was
    free, a directory that maps the kernel as every other space does, nothing
    below the kernel, and itself in its last entry, so that it can be edited
    through its window once it is loaded; all pages in use keep their frames
    and their contents. *)
Theorem create_page_dir_correct (fuel : nat) (s : system) (cs : list Z)
    (Hok : mem_ok (view kmem s)) (Hl : lock_free kernel_pool_lock (view sys_threads s))
    (Hc : lock_free console_lock (view sys_threads s)) (Hs : cstring (s_bytes s) create_page_dir_msg cs) :
  wpu (create_page_dir (S fuel)) s (fun p s' =>
    (p = NULL /\ s' = printed cs s /\ forall i, ~ free_run (vaddr_bitmap (kernel_vaddr_pool (view kmem s))) i 1) \/
    (exists m f, s' = put kmem m s /\ mem_ok m /\
      vaddr_free (kernel_vaddr_pool (view kmem s)) p /\ frame_free (kernel_mem_pool (view kmem s)) f /\
      page_frame (machine m) p = Some f /\
      pt_wf (in_space f (machine m)) /\
      (forall va, managed va -> 768 <= PDE_IDX va -> translate (in_space f (machine m)) va = translate (machine m) va) /\
      (forall va, is_u32 va -> PDE_IDX va < 768 -> translate (in_space f (machine m)) va = None) /\
      (forall v g, page_in_use PF_KERNEL (view kmem s) v -> page_frame (machine (view kmem s)) v = Some g ->
        page_frame (machine m) v = Some g /\
        forall k, 0 <= k < 1024 -> ram_word (machine m) (g + 4 * k) = ram_word (machine (view kmem s)) (g + 4 * k))))
    (malloc_panics PF_KERNEL (view kmem s) 1).
Proof.
  eapply wpu_mono; [by apply create_page_dir_ok | | done]. intros p s' [Hnull|(_ & m & f & -> & D)]; [by left | right].
  exists m, f. destruct D as [D1 [D2 D2'] D3 [S1 S2 S3] _ _ _ _ D4 D5]. do 4 (split; [done|]). split; [apply D3|].
  do 3 (split; [done|]). intros v g Hv Hg. destruct (D4 v Hv) as [_ E]. split; [by rewrite E|]. intros k Hk. by apply (D5 v).
Qed.
End PageDirProofs.

(** *** Concrete instance: the system of [Console], its lock also that of the pools *)
#[local] Instance example_layout : Layout := {|
  thread_ready_list := 0x10000; thread_all_list := 0x10010; pid_lock := 0x10020 |}.
#[local] Instance example_console : ConsoleLayout := {| console_lock := 0x30000 |}.
#[local] Instance example_pools : PoolLayout := {| kernel_pool_lock := 0x30000; user_pool_lock := 0x30000 |}.
#[local] Instance example_msg : PageDirText := {| create_page_dir_msg := 0x500 |}.

Lemma create_page_dir_correct_witness : exists p m f,
  undisturbed (create_page_dir 1 example_system) = Ok (p, put kmem m example_system) /\
  page_frame (machine m) p = Some f /\ pt_wf (in_space f (machine m)) /\
  translate (in_space f (machine m)) 0x8048000 = None.
Proof.
  assert (cstring (s_bytes example_system) create_page_dir_msg [72; 105]) as Hs by (by repeat split; repeat constructor).
  assert (lock_free kernel_pool_lock (view sys_threads example_system)) as Hl by exact example_console_free.
  destruct (wpu_outcome _ _ _ _ (create_page_dir_correct 0 example_system [72; 105] example_mem_ok Hl example_console_free Hs)) as [(p & s' & E & [(_ & _ & Hno)|(m & f & -> & _ & _ & _ & Hf & Hwf & _ & Hu & _)])|[_ Hp]].
  - exfalso. apply (Hno 1). split; [lia | split; [by cbn|]]. intros j Hj. assert (j = 1) as -> by lia. done.
  - exists p, m, f. split; [exact E|]. split; [exact Hf|]. split; [exact Hwf|]. apply Hu; [unfold is_u32; lia | by vm_compute].
  - exfalso. exact (example_page_to_have Hp).
Defined.
