(* ===== verification/UserEntry.v ===== *)
(** * Entering a process: userprog/process.c (start_process), kernel/kernel.S
      (intr_exit)

    The first thing a new process does is to run [start_process] in the
    kernel: it builds, at the top of its kernel stack, the frame an interrupt
    from user mode would have left, maps the user stack, and leaves through the
    common exit of interrupts. *)
From stdpp Require Import base numbers list gmap fin_maps.
From Stdlib Require Import ZArith Lia.
From S2P Require Import Prelude Globals Interrupt LinkedList Bitmap Paging PageAlloc PageFree Pages CString Thread Sync PoolLocks ThreadCreate Descriptor.

Definition USER_VADDR_START : Z := 0x8048000.
Definition USER_STACK3_VADDR : Z := 0xc0000000 - 0x1000.
Definition DEFAULT_PRIO : Z := 31.

(** Offsets in [struct intr_stack]. *)
Definition is_edi : Z := 4.
Definition is_esi : Z := 8.
Definition is_ebp : Z := 12.
Definition is_esp_dummy : Z := 16.
Definition is_ebx : Z := 20.
Definition is_edx : Z := 24.
Definition is_ecx : Z := 28.
Definition is_eax : Z := 32.
Definition is_gs : Z := 36.
Definition is_fs : Z := 40.
Definition is_es : Z := 44.
Definition is_ds : Z := 48.
Definition is_eip : Z := 56.
Definition is_cs : Z := 60.
Definition is_eflags : Z := 64.
Definition is_esp : Z := 68.
Definition is_ss : Z := 72.

(** ** Operations *)
Section UserEntry.
Context `{!Layout} `{!PoolLayout}.

(** The address of the frame, which is then loaded into ESP. *)
Definition start_process (filename_ : Z) : M kernel Z :=
  let function := filename_ in
  cur ← zoom threads running_thread;
  zoom threads (update_task cur (fun ts => set_self_kstack (u32 (self_kstack ts + 4 * sizeof_thread_stack)) ts)) ;;;
  ts ← zoom threads (task_at cur);
  let proc_stack := self_kstack ts in
  zoom threads (
    store_mach (proc_stack + is_edi) 0 ;;;
    store_mach (proc_stack + is_esi) 0 ;;;
    store_mach (proc_stack + is_ebp) 0 ;;;
    store_mach (proc_stack + is_esp_dummy) 0 ;;;
    store_mach (proc_stack + is_ebx) 0 ;;;
    store_mach (proc_stack + is_edx) 0 ;;;
    store_mach (proc_stack + is_ecx) 0 ;;;
    store_mach (proc_stack + is_eax) 0 ;;;
    store_mach (proc_stack + is_gs) 0 ;;;
    store_mach (proc_stack + is_ds) SELECTOR_U_DATA ;;;
    store_mach (proc_stack + is_es) SELECTOR_U_DATA ;;;
    store_mach (proc_stack + is_fs) SELECTOR_U_DATA ;;;
    store_mach (proc_stack + is_eip) function ;;;
    store_mach (proc_stack + is_cs) SELECTOR_U_CODE ;;;
    store_mach (proc_stack + is_eflags) (Z.lor (Z.lor EFLAGS_IOPL_0 EFLAGS_MBS) EFLAGS_IF_1)) ;;;
  page ← get_a_page PF_USER USER_STACK3_VADDR;
  zoom threads (
    store_mach (proc_stack + is_esp) (u32 (page + PG_SIZE)) ;;;
    store_mach (proc_stack + is_ss) SELECTOR_U_DATA) ;;;
  mret proc_stack.
End UserEntry.

(** [intr_exit]: the frame is popped, [iret] last. *)
Record context := Context_ {
  c_edi : Z; c_esi : Z; c_ebp : Z; c_ebx : Z; c_edx : Z; c_ecx : Z; c_eax : Z;
  c_gs : Z; c_fs : Z; c_es : Z; c_ds : Z;
  c_eip : Z; c_cs : Z; c_eflags : Z; c_esp : Z; c_ss : Z;
}.

(** To a less privileged level: [iret] also pops ESP and SS. *)
Definition intr_exit (esp : Z) : M mmu context :=
  let pop o := load (u32 (esp + o)) in
  edi ← pop 4; esi ← pop 8; ebp ← pop 12; _ ← pop 16; ebx ← pop 20; edx ← pop 24; ecx ← pop 28; eax ← pop 32;
  gs ← pop 36; fs ← pop 40; es ← pop 44; ds ← pop 48;
  eip ← pop 56; cs ← pop 60; eflags ← pop 64; esp' ← pop 68; ss ← pop 72;
  mret (Context_ edi esi ebp ebx edx ecx eax gs fs es ds eip cs eflags esp' ss).

(** ** The frame *)
Definition frame_words (function : Z) : list (Z * Z) :=
  [(949, 0); (950, 0); (951, 0); (952, 0); (953, 0); (954, 0); (955, 0); (956, 0); (957, 0);
   (960, SELECTOR_U_DATA); (959, SELECTOR_U_DATA); (958, SELECTOR_U_DATA); (962, function); (963, SELECTOR_U_CODE); (964, 0x202)].

Definition frame_rest : list (Z * Z) := [(965, 0xc0000000); (966, SELECTOR_U_DATA)].

Lemma selectors_u32 : is_u32 SELECTOR_U_DATA /\ is_u32 SELECTOR_U_CODE.
Proof. by vm_compute. Qed.

Lemma frame_words_ok function : is_u32 function -> Forall word_ok (frame_words function) /\ Forall word_ok frame_rest.
Proof.
  intros Hf. destruct selectors_u32 as [Hd Hc].
  split; repeat (constructor; [split; cbn [fst snd]; [lia | done || (unfold is_u32; lia)]|]); constructor.
Qed.

Ltac word_in := first [apply Forall_nil_2 | apply Forall_cons_2; [assumption | word_in]].

(** A store to the word [i] of the page. *)
Ltac frame_store s p f i := rewrite (store_poked s p f i); [cbn [app] | assumption | word_in | assumption | lia].

Ltac pop_at Hld o j := erewrite bind_ok by (apply (Hld o j); [lia | lia | reflexivity]).

Section UserEntryProofs.
Context `{!Layout} `{!PoolLayout}.

(** The frame's stores before [get_a_page]. *)
Lemma frame_stores s p f function :
  page_at (mach s) p f -> is_u32 function ->
  wp (store_mach (p + 3792 + is_edi) 0 ;;;
    store_mach (p + 3792 + is_esi) 0 ;;;
    store_mach (p + 3792 + is_ebp) 0 ;;;
    store_mach (p + 3792 + is_esp_dummy) 0 ;;;
    store_mach (p + 3792 + is_ebx) 0 ;;;
    store_mach (p + 3792 + is_edx) 0 ;;;
    store_mach (p + 3792 + is_ecx) 0 ;;;
    store_mach (p + 3792 + is_eax) 0 ;;;
    store_mach (p + 3792 + is_gs) 0 ;;;
    store_mach (p + 3792 + is_ds) SELECTOR_U_DATA ;;;
    store_mach (p + 3792 + is_es) SELECTOR_U_DATA ;;;
    store_mach (p + 3792 + is_fs) SELECTOR_U_DATA ;;;
    store_mach (p + 3792 + is_eip) function ;;;
    store_mach (p + 3792 + is_cs) SELECTOR_U_CODE ;;;
    store_mach (p + 3792 + is_eflags) (Z.lor (Z.lor EFLAGS_IOPL_0 EFLAGS_MBS) EFLAGS_IF_1)) s
   (fun _ s' => s' = put mach_lens (poke f (frame_words function) (mach s)) s).
Proof.
  intros Hp Hf. destruct (frame_words_ok function Hf) as [Hws _]. unfold frame_words in Hws.
  repeat (apply Forall_cons in Hws as [? Hws]).
  replace s with (put mach_lens (poke f [] (mach s)) s) at 1 by apply (put_view mach_lens).
  unfold wp. unfold is_edi, is_esi, is_ebp, is_esp_dummy, is_ebx, is_edx, is_ecx, is_eax, is_gs, is_ds, is_es, is_fs, is_eip, is_cs, is_eflags.
  change (Z.lor (Z.lor EFLAGS_IOPL_0 EFLAGS_MBS) EFLAGS_IF_1) with 0x202.
  frame_store s p f 949. frame_store s p f 950. frame_store s p f 951. frame_store s p f 952. frame_store s p f 953.
  frame_store s p f 954. frame_store s p f 955. frame_store s p f 956. frame_store s p f 957. frame_store s p f 960.
  frame_store s p f 959. frame_store s p f 958. frame_store s p f 962. frame_store s p f 963.
  rewrite (store_page _ p f 964); [by rewrite (put_put mach_lens) | | lia | lia]. apply poke_page; [done | word_in].
Qed.

(** Entering user mode at [function] on the user stack. *)
Definition user_context (function : Z) : context :=
  Context_ 0 0 0 0 0 0 0 0 SELECTOR_U_DATA SELECTOR_U_DATA SELECTOR_U_DATA function SELECTOR_U_CODE 0x202 0xc0000000 SELECTOR_U_DATA.

Lemma intr_exit_frame m m0 p f function :
  page_at m p f -> (forall j, 0 <= j < 1024 -> ram_word m (f + 4 * j) =
    ram_word (poke f frame_rest (poke f (frame_words function) m0)) (f + 4 * j)) ->
  intr_exit (p + 3792) m = Ok (user_context function, m).
Proof.
  intros Hp Hw.
  assert (forall o j v, o = 4 * (j - 948) -> 0 <= j < 1024 ->
    foldl (fun d w => if j =? w.1 then w.2 else d) (foldl (fun d w => if j =? w.1 then w.2 else d) (ram_word m0 (f + 4 * j)) (frame_words function)) frame_rest = v ->
    load (u32 (p + 3792 + o)) m = Ok (v, m)) as Hld.
  { intros o j v -> Hj <-. rewrite (load_page m p f j) by (done || lia). by rewrite Hw, !poke_words. }
  unfold intr_exit. pop_at Hld 4 949. pop_at Hld 8 950. pop_at Hld 12 951. pop_at Hld 16 952. pop_at Hld 20 953.
  pop_at Hld 24 954. pop_at Hld 28 955. pop_at Hld 32 956. pop_at Hld 36 957. pop_at Hld 40 958. pop_at Hld 44 959.
  pop_at Hld 48 960. pop_at Hld 56 962. pop_at Hld 60 963. pop_at Hld 64 964. pop_at Hld 68 965. pop_at Hld 72 966.
  reflexivity.
Qed.

(** The running process is about to enter user mode for the first time: its
    kernel stack is as [thread_create] left it, its own directory is loaded,
    and its user stack is not mapped yet. *)
Record entering (k : kernel) (ts : task_struct) (f : Z) : Prop := {
  en_mem : mem_ok (k_mem k);
  en_task : k_tasks k !! k_cur k = Some ts;
  en_kstack : self_kstack ts = k_cur k + 3664;
  en_page : page_at (machine (k_mem k)) (k_cur k) f;
  en_user : cur_pgdir (k_mem k) <> NULL;
  en_stack : vaddr_free (userprog_vaddr_pool (k_mem k)) USER_STACK3_VADDR;
  en_lock : lock_free user_pool_lock (view threads k);
}.

Definition with_frame (k : kernel) (ts : task_struct) (f function : Z) : kernel :=
  put threads (put mach_lens (poke f (frame_words function) (machine (k_mem k)))
    (put_tasks (<[k_cur k := set_self_kstack (k_cur k + 3792) ts]> (k_tasks k)) (view threads k))) k.

Lemma with_frame_mem k ts f function :
  k_mem (with_frame k ts f function) = put machine_lens (poke f (frame_words function) (machine (k_mem k))) (k_mem k).
Proof. by destruct k as [[]]. Qed.

(** Mapping the user stack keeps the page of the frame and its words. *)
Lemma stack_mapped_page k ts f function m p' :
  entering k ts f -> is_u32 function ->
  let s := k_mem (with_frame k ts f function) in
  vpool_take (userprog_vaddr_pool s) p' USER_STACK3_VADDR 1 ->
  pages_mapped PF_USER (put (vpool_lens PF_USER) p' s) m USER_STACK3_VADDR 1 ->
  page_at (machine m) (k_cur k) f /\
  forall j, 0 <= j < 1024 -> ram_word (machine m) (f + 4 * j) = ram_word (poke f (frame_words function) (machine (k_mem k))) (f + 4 * j).
Proof.
  intros [E1 E2 E3 E4 E5 E6 E7] Hf s Ht P. subst s. rewrite with_frame_mem in *. destruct (frame_words_ok function Hf) as [Hws _].
  pose proof (poke_page _ _ _ _ E4 Hws) as Hp. set (m1 := poke f (frame_words function) (machine (k_mem k))) in *.
  destruct (page_at_frame _ _ _ Hp) as (Hfu & Hfa & Hm & Hn).
  set (s1 := put machine_lens m1 (k_mem k)) in *.
  destruct (mem_ok_changed (k_mem k) m1 (k_cur k) 1 E1 (pa_aligned _ _ _ E4) (pa_data _ _ _ E4) (changed_poke _ _ _ _ E4 Hws))
    as (Hok1 & _ & _). fold s1 in Hok1.
  assert (live s1 PF_USER) as Hl by (intros _; exact E5).
  pose proof (mem_ok_vtake s1 PF_USER p' USER_STACK3_VADDR 1 Hok1 Hl Ht) as Hok2.
  assert (page_frame (machine m) (k_cur k) = Some f) as Hpf.
  { rewrite (pm_other _ _ _ _ _ P), machine_put_vpool; [apply Hp | done|]. intros Hin.
    assert (k_cur k = USER_STACK3_VADDR) as E.
    { pose proof (pa_aligned _ _ _ Hp). unfold USER_STACK3_VADDR in *. Z.div_mod_to_equations. lia. }
    pose proof (mo_unmapped s1 Hok1 PF_USER _ Hl E6) as Hun. rewrite <- E in Hun. simpl in Hun. by rewrite (pa_frame _ _ _ Hp) in Hun. }
  assert (~ pt_frame (machine m) f) as Hn'.
  { intros Hpt. destruct (pm_pt _ _ _ _ _ P f Hpt) as [Hpt'|Hfr]; rewrite ?machine_put_vpool in *; [done|].
    apply (mo_mapped _ Hok2 (k_cur k) f Hm); [|done]. rewrite machine_put_vpool. apply Hp. }
  split.
  - split; [apply (pm_ok _ _ _ _ _ P) | apply Hp | | done]. intros j Hj. replace (k_cur k + j * 4096) with (k_cur k) by lia.
    split; [done|]. by exists f.
  - intros j Hj. rewrite (pm_data _ _ _ _ _ P) by done. by rewrite machine_put_vpool.
Qed.

(** The frames that mapping the stack needs do not depend on the page of the frame. *)
Lemma with_frame_enough k ts f function :
  entering k ts f -> is_u32 function -> enough (k_mem k) PF_USER 767 767 1 -> enough (k_mem (with_frame k ts f function)) PF_USER 767 767 1.
Proof.
  intros [E1 E2 E3 E4 E5 E6 E7] Hf. destruct (frame_words_ok function Hf) as [Hws _]. rewrite with_frame_mem. intros [He1 He2]. split; [done|]. simpl kernel_mem_pool.
  destruct (changed_agree _ _ (k_cur k) 1 1024 (mo_pt _ E1) (pa_aligned _ _ _ E4) (pa_data _ _ _ E4) ltac:(lia) (changed_poke _ _ _ _ E4 Hws))
    as (_ & Hdir & _).
  etransitivity; [|exact He2]. apply Z.eq_le_incl. apply count_n_ext. intros i Hi.
  change (Z.of_nat (Z.to_nat (767 - 767 + 1))) with 1 in Hi. by rewrite <- Hdir by lia.
Qed.

(** The two words stored after the stack's page is mapped. *)
Lemma rest_stores s p f :
  page_at (mach s) p f ->
  wp (store_mach (p + 3792 + is_esp) (u32 (USER_STACK3_VADDR + PG_SIZE)) ;;; store_mach (p + 3792 + is_ss) SELECTOR_U_DATA) s
    (fun _ s' => s' = put mach_lens (poke f frame_rest (mach s)) s).
Proof.
  intros Hpg. destruct (frame_words_ok 0) as [_ Hws]; [by unfold is_u32|].
  replace s with (put mach_lens (poke f [] (mach s)) s) at 1 by apply (put_view mach_lens).
  unfold wp, is_esp, is_ss. change (u32 (USER_STACK3_VADDR + PG_SIZE)) with 0xc0000000.
  apply Forall_cons in Hws as [? [? _]%Forall_cons]. frame_store s p f 965.
  rewrite (store_page _ p f 966); [by rewrite (put_put mach_lens) | | lia | lia]. apply poke_page; [done | word_in].
Qed.

(** Memory when the frame is complete. *)
Lemma process_memory k ts f function m p' :
  entering k ts f -> is_u32 function ->
  let s := k_mem (with_frame k ts f function) in
  vpool_take (userprog_vaddr_pool s) p' USER_STACK3_VADDR 1 ->
  pages_mapped PF_USER (put (vpool_lens PF_USER) p' s) m USER_STACK3_VADDR 1 ->
  let mf := poke f frame_rest (machine m) in
  intr_exit (k_cur k + 3792) mf = Ok (Context_ 0 0 0 0 0 0 0 0 SELECTOR_U_DATA SELECTOR_U_DATA SELECTOR_U_DATA function
    SELECTOR_U_CODE 0x202 0xc0000000 SELECTOR_U_DATA, mf) /\
  mem_ok (put machine_lens mf m) /\
  (exists g, page_frame mf USER_STACK3_VADDR = Some g /\ frame_free (user_mem_pool (k_mem k)) g) /\
  (forall v, managed v -> ~ USER_STACK3_VADDR <= v < 0xc0000000 -> page_frame mf v = page_frame (machine (k_mem k)) v).
Proof.
  intros Hen Hf s Ht P mf. destruct (stack_mapped_page k ts f function m p' Hen Hf Ht P) as [Hpg Hw].
  subst s. rewrite with_frame_mem in Ht, P. destruct Hen as [E1 E2 E3 E4 E5 E6 E7]. destruct (frame_words_ok function Hf) as [Hws Hws'].
  destruct (mem_ok_changed (k_mem k) _ (k_cur k) 1 E1 (pa_aligned _ _ _ E4) (pa_data _ _ _ E4) (changed_poke _ _ _ _ E4 Hws)) as (_ & Hpf1 & _).
  destruct (mem_ok_changed m _ (k_cur k) 1 (pm_ok _ _ _ _ _ P) (pa_aligned _ _ _ Hpg) (pa_data _ _ _ Hpg) (changed_poke _ _ _ _ Hpg Hws'))
    as (Hok2 & Hpf2 & _). fold mf in Hok2, Hpf2. split; [|split; [exact Hok2|split]].
  - apply (intr_exit_frame mf (machine (k_mem k)) (k_cur k) f); [by apply poke_page|]. intros j Hj. unfold mf. rewrite poke_words, Hw by done.
    by rewrite <- poke_words.
  - destruct (pm_pages _ _ _ _ _ P 0 ltac:(lia)) as (g & Hg & Hfr & _). rewrite Z.mul_0_l, Z.add_0_r in Hg. exists g.
    rewrite Hpf2; [split; [done|]|].
    + rewrite pool_get_put_vpool in Hfr. exact Hfr.
    + split; [by unfold is_u32, USER_STACK3_VADDR | by vm_compute].
  - intros v Hv Hout. rewrite Hpf2 by done.
    rewrite (pm_other _ _ _ _ _ P) by (done || (unfold USER_STACK3_VADDR in *; lia)). rewrite machine_put_vpool. by apply Hpf1.
Qed.

(** ** Properties *)

(** C33: a process that enters user mode for the first time: [start_process]
    builds its frame above the stack of its kernel side and maps the page of
    its user stack, on a frame of the user pool that was free; leaving through
    [intr_exit] then starts its program in user mode (selectors of privilege
    level 3, interrupts on, I/O privilege level 0), with cleared registers and
    the stack at the top of user space.  It stops the machine when no frame is
    left for the stack or for its page table. *)
Theorem start_process_correct (k : kernel) (ts : task_struct) (f function : Z)
    (Hen : entering k ts f) (Hf : is_u32 function) :
  wpu (start_process function) k (fun r k' =>
      r = k_cur k + 3792 /\
      intr_exit r (machine (k_mem k')) = Ok (Context_ 0 0 0 0 0 0 0 0 SELECTOR_U_DATA SELECTOR_U_DATA SELECTOR_U_DATA function
        SELECTOR_U_CODE 0x202 0xc0000000 SELECTOR_U_DATA, machine (k_mem k')) /\
      mem_ok (k_mem k') /\
      (exists g, page_frame (machine (k_mem k')) USER_STACK3_VADDR = Some g /\ frame_free (user_mem_pool (k_mem k)) g) /\
      (forall v, managed v -> ~ USER_STACK3_VADDR <= v < 0xc0000000 ->
        page_frame (machine (k_mem k')) v = page_frame (machine (k_mem k)) v) /\
      k_tasks k' = <[k_cur k := set_self_kstack r ts]> (k_tasks k) /\ k_cur k' = k_cur k /\ k_lst k' = k_lst k)
    (~ enough (k_mem k) PF_USER 767 767 1).
Proof.
  pose proof Hen as [E1 E2 E3 E4 E5 E6 E7]. destruct (frame_words_ok function Hf) as [Hws Hws'].
  unfold start_process. cbv zeta. set (p := k_cur k) in *.
  assert (p < 0xfffff000) as Hp.
  { destruct (page_at_frame _ _ _ E4) as (_ & _ & Hm & _). pose proof (page_top p Hm (pa_aligned _ _ _ E4)). lia. }
  assert (0 <= p) as Hp0 by apply (page_at_frame _ _ _ E4).
  apply wpu_bind, wpu_zoom, wpu_wp, wp_gets. rewrite (put_view threads). simpl cur. fold p.
  apply wpu_bind, wpu_zoom, wpu_wp. eapply wp_ok; [by apply update_task_eq|].
  cbv beta. rewrite E3. unfold sizeof_thread_stack. replace (p + 3664 + 4 * 32) with (p + 3792) by lia.
  rewrite u32_id by (unfold is_u32; lia). set (T := <[p := set_self_kstack (p + 3792) ts]> (k_tasks k)).
  set (k1 := put threads (put_tasks T (view threads k)) k).
  apply wpu_bind, wpu_zoom, wpu_wp. eapply (wp_ok _ _ (set_self_kstack (p + 3792) ts) (view threads k1)).
  { unfold task_at, mbind, M_bind, get. simpl. unfold T. by rewrite lookup_insert_eq. }
  rewrite (put_view threads). cbn [self_kstack set_self_kstack].
  apply wpu_bind, wpu_zoom, wpu_wp. eapply wp_mono; [apply (frame_stores (view threads k1) p f function); [|done]|].
  { by destruct k as [[]]. }
  intros [] s' ->. match goal with |- wpu _ ?st _ _ => replace st with (with_frame k ts f function) by (by destruct k as [[]]) end.
  set (k2 := with_frame k ts f function).
  assert (view (@inner _ _ kernel_pool_locks) k2 = put machine_lens (poke f (frame_words function) (machine (k_mem k))) (k_mem k)) as Ev
    by by apply with_frame_mem.
  apply wpu_bind. eapply wpu_mono; [apply (get_a_page_ok PF_USER USER_STACK3_VADDR k2)| |].
  - rewrite Ev. eapply mem_ok_changed; [exact E1 | apply E4 | apply E4 | by apply changed_poke].
  - rewrite Ev. intros _. exact E5.
  - by apply (lock_free_ext _ (view threads k)).
  - rewrite Ev. exact E6.
  - rewrite Ev. simpl. by destruct (Z.eqb_spec (cur_pgdir (k_mem k)) NULL).
  - intros page k3 (m & p' & -> & -> & Ht & P).
    destruct (stack_mapped_page k ts f function m p' Hen Hf Ht P) as [Hpg _].
    destruct (process_memory k ts f function m p' Hen Hf Ht P) as (Hx & Hok2 & Hg & Hother). fold p in Hpg, Hx.
    set (k3 := put inner m k2). apply wpu_bind, wpu_zoom, wpu_wp.
    eapply wp_mono; [exact (rest_stores (view threads k3) p f Hpg)|]. intros [] s' ->. apply wpu_ret.
    change (mach (view threads k3)) with (machine m). set (mf := poke f frame_rest (machine m)) in *.
    assert (k_mem (put threads (put mach_lens mf (view threads k3)) k3) = put machine_lens mf m) as Em by by destruct m.
    rewrite Em. split; [done|]. split; [exact Hx|]. split; [exact Hok2|]. split; [exact Hg|]. split; [exact Hother|]. by destruct k as [[]].
  - intros Hne He. apply Hne. by apply with_frame_enough.
Qed.
End UserEntryProofs.

(** *** Concrete instance: a process in the page 0xc0100000 of [example_mem],
    with the eight pages below 0xc0000000 as its space *)
#[local] Instance example_layout : Layout := {|
  thread_ready_list := 0x10000; thread_all_list := 0x10010; pid_lock := 0x10020 |}.
#[local] Instance example_pools : PoolLayout := {| kernel_pool_lock := 0x10040; user_pool_lock := 0x10040 |}.

Definition example_process_mem : mem_state :=
  MemState example_mmu example_kpool example_upool (kernel_vaddr_pool example_mem) (VPool (Bitmap 1 0xc0101000 [0]) 0xbfff8000) 0xc0100000.

Lemma example_process_mem_ok : mem_ok example_process_mem.
Proof.
  pose proof example_mem_ok as [M1 M2 M3 M4 M5 M6 M7 M8 M9]. split.
  - done.
  - intros []; [apply (M2 PF_KERNEL) | apply (M2 PF_USER)].
  - done.
  - intros [] _; [by apply (M4 PF_KERNEL)|]. split; [apply one_byte_ok; unfold is_u8; lia | done | done | done].
  - done.
  - intros f Hf [pf Hfr]. apply (M6 f Hf). by exists pf; destruct pf.
  - intros va f Hva Hf [pf Hfr]. apply (M7 va f Hva Hf). by exists pf; destruct pf.
  - done.
  - intros [] va _ Hv; [by apply (M9 PF_KERNEL)|]. destruct Hv as (i & Hi & _ & ->). simpl vaddr_start.
    assert (0 <= i < 8) by exact Hi. assert (is_u32 (0xbfff8000 + i * 4096)) as Hu by (unfold is_u32; lia).
    simpl machine. rewrite example_page_frame.
    + destruct (Z.eqb_spec ((0xbfff8000 + i * 4096) / 4096) 0xc0100); [Z.div_mod_to_equations; lia | done].
    + split; [done|]. rewrite PDE_IDX_div by done. Z.div_mod_to_equations. lia.
Qed.

Definition example_process_task : task_struct :=
  Task 0xc0100e50 1 TASK_RUNNING [] 31 31 0 0xc0101000 (userprog_vaddr_pool example_process_mem) STACK_MAGIC.

Definition example_process : kernel :=
  Kernel example_process_mem (LState {[0x10048 := Node NULL 0x10050; 0x10050 := Node 0x10048 NULL]} 0x202)
    {[0xc0100000 := example_process_task]} (Sync {[0x10044 := 1]} {[0x10040 := Lock NULL 0]}) 0xc0100000 1 0 0 NULL.

Lemma example_entering : entering example_process example_process_task 0x200000.
Proof.
  split; try done.
  - exact example_process_mem_ok.
  - split; [apply example_mmu_wf | done | | by vm_compute].
    intros j Hj. assert (j = 0) as -> by lia. assert (managed (0xc0100000 + 0 * 4096)) as Hm.
    { split; [by unfold is_u32 | by vm_compute]. }
    split; [done|]. exists 0x200000. split; [by vm_compute|]. intros [?|?]%example_pt_frame; lia.
  - by exists 7.
  - exists {[0x10048 := []]}. split; [|split; [|done]].
    + apply lists_ok_single. split; [by vm_compute|]. refine (bool_decide_eq_true_1 _ _). by vm_compute.
    + split; try done. by intros x ?%elem_of_nil.
Qed.

Lemma start_process_correct_witness : exists k',
  undisturbed (start_process 0xc0001500 example_process) = Ok (0xc0100ed0, k') /\
  intr_exit 0xc0100ed0 (machine (k_mem k')) = Ok (user_context 0xc0001500, machine (k_mem k')).
Proof.
  destruct (wpu_outcome _ _ _ _ (start_process_correct example_process example_process_task 0x200000 0xc0001500 example_entering
    ltac:(by unfold is_u32))) as [(r & k' & E & Hr & Hx & _)|[_ Hne]].
  - rewrite Hr in E, Hx. exists k'. split; [exact E | exact Hx].
  - exfalso. apply Hne. by vm_compute.
Defined.
