(* ===== verification/Entry.v ===== *)
(** * Interrupt entries: kernel/kernel.S (VECTOR, intr_exit, syscall_handler)

    What the processor and the stub of a vector push, the handler's call, and
    the way back.  The stack is the list of its words, the top one first; the
    frame lies on it as [struct intr_stack] (thread.h) has it, and [intr_exit]
    on the frame of a new process is in [UserEntry]. *)
From stdpp Require Import base numbers list.
From Stdlib Require Import ZArith Lia.
From S2P Require Import Prelude Globals UserEntry.

(** The stack, and the bytes written to ports. *)
Record entry_state := EntryState { stack : list Z; ports : list (Z * Z) }.

Definition push (v : Z) : M entry_state unit := modify (fun s => EntryState (v :: stack s) (ports s)).
Definition pop : M entry_state Z := fun s =>
  match stack s with v :: l => Ok (v, EntryState l (ports s)) | [] => Fault end.
Definition out (port al : Z) : M entry_state unit := modify (fun s => EntryState (stack s) (ports s ++ [(port, al)])).

Fixpoint add_esp (words : nat) : M entry_state unit :=
  match words with O => mret tt | S n => _ ← pop; add_esp n end.

(** [mov [esp + 4 * i], v] *)
Definition set_word (i : nat) (v : Z) : M entry_state unit := fun s =>
  if (i <? length (stack s))%nat then Ok (tt, EntryState (<[i := v]> (stack s)) (ports s)) else Fault.

(** ** The processor *)

(** Exceptions for which it pushes an error code. *)
Definition error_vectors : list Z := [0x08; 0x0a; 0x0b; 0x0c; 0x0d; 0x0e; 0x11; 0x1e].

(** The requested privilege of a code selector: 3 in a process, 0 in the kernel. *)
Definition in_user (cs : Z) : bool := negb (Z.land cs 3 =? 0).

(** What an interrupt of the code running with [c] leaves on the kernel's stack. *)
Definition interrupt (n code : Z) (c : context) : M entry_state unit :=
  (if in_user (c_cs c) then push (c_ss c) ;;; push (c_esp c) else mret tt) ;;;
  push (c_eflags c) ;;;
  push (c_cs c) ;;;
  push (c_eip c) ;;;
  (if bool_decide (n ∈ error_vectors) then push code else mret tt).

Definition pushad (sp : Z) (c : context) : M entry_state unit :=
  push (c_eax c) ;;; push (c_ecx c) ;;; push (c_edx c) ;;; push (c_ebx c) ;;; push sp ;;; push (c_ebp c) ;;; push (c_esi c) ;;; push (c_edi c).

(** ** kernel.S *)
Inductive flavour := ERROR_CODE | ZERO.

(** The second argument of each [VECTOR]. *)
Definition vector_flavour (n : Z) : flavour := if n =? 0x1e then ERROR_CODE else ZERO.

(** [popad] drops the ESP of [pushad]; [iret] takes ESP and SS only to a less
    privileged level, else ESP is where the pops have left it: at the place it
    had ([c0]) if the stack is as it was. *)
Definition intr_exit (c0 : context) : M entry_state context :=
  add_esp 1 ;;;
  edi ← pop; esi ← pop; ebp ← pop; _ ← pop; ebx ← pop; edx ← pop; ecx ← pop; eax ← pop;
  gs ← pop; fs ← pop; es ← pop; ds ← pop;
  add_esp 1 ;;;
  eip ← pop; cs ← pop; eflags ← pop;
  if in_user cs then
    esp ← pop; ss ← pop;
    mret (Context_ edi esi ebp ebx edx ecx eax gs fs es ds eip cs eflags esp ss)
  else mret (Context_ edi esi ebp ebx edx ecx eax gs fs es ds eip cs eflags (c_esp c0) (c_ss c0)).

Definition save (c : context) (sp : Z) : M entry_state unit :=
  push (c_ds c) ;;; push (c_es c) ;;; push (c_fs c) ;;; push (c_gs c) ;;; pushad sp c.

(** [handler]: the call of [handlers[n]]. *)
Definition intr_entry (handler : Z -> M entry_state unit) (n sp : Z) (c : context) : M entry_state context :=
  match vector_flavour n with ZERO => push 0 | ERROR_CODE => mret tt end ;;;
  save c sp ;;;
  out 0xa0 0x20 ;;;
  out 0x20 0x20 ;;;
  push n ;;;
  handler n ;;;
  intr_exit c.

(** [call eax]: the call of [syscall_table[eax]] and its result. *)
Definition syscall_handler (call : Z -> M entry_state Z) (sp : Z) (c : context) : M entry_state context :=
  push 0 ;;;
  save c sp ;;;
  push 0x80 ;;;
  push (c_edx c) ;;; push (c_ecx c) ;;; push (c_ebx c) ;;;
  eax ← call (c_eax c);
  add_esp 3 ;;;
  set_word 8 eax ;;;
  intr_exit c.

(** ** Frames *)
Definition with_eax (v : Z) (c : context) : context :=
  Context_ (c_edi c) (c_esi c) (c_ebp c) (c_ebx c) (c_edx c) (c_ecx c) v (c_gs c) (c_fs c) (c_es c) (c_ds c)
    (c_eip c) (c_cs c) (c_eflags c) (c_esp c) (c_ss c).

(** The frame at the handler's call. *)
Definition frame (n sp code : Z) (c : context) : list Z :=
  [n; c_edi c; c_esi c; c_ebp c; sp; c_ebx c; c_edx c; c_ecx c; c_eax c; c_gs c; c_fs c; c_es c; c_ds c; code; c_eip c; c_cs c; c_eflags c] ++
  (if in_user (c_cs c) then [c_esp c; c_ss c] else []).

(** [intr_exit] on what it takes for a frame, to the kernel and to a process. *)
Lemma intr_exit_pops c0 n edi esi ebp sp ebx edx ecx eax gs fs es ds code eip cs eflags l p :
  let m := intr_exit c0 (EntryState (n :: edi :: esi :: ebp :: sp :: ebx :: edx :: ecx :: eax :: gs :: fs :: es :: ds :: code :: eip :: cs :: eflags :: l) p) in
  (in_user cs = false -> m = Ok (Context_ edi esi ebp ebx edx ecx eax gs fs es ds eip cs eflags (c_esp c0) (c_ss c0), EntryState l p)) /\
  (in_user cs = true -> forall esp ss l', l = esp :: ss :: l' ->
    m = Ok (Context_ edi esi ebp ebx edx ecx eax gs fs es ds eip cs eflags esp ss, EntryState l' p)).
Proof.
  intros m. unfold m, intr_exit. do 17 (erewrite bind_ok by reflexivity). split; [by intros ->|].
  intros -> esp ss l' ->. by do 2 (erewrite bind_ok by reflexivity).
Qed.

Lemma intr_exit_ok n sp code c c0 st p :
  c_esp c0 = c_esp c -> c_ss c0 = c_ss c -> intr_exit c0 (EntryState (frame n sp code c ++ st) p) = Ok (c, EntryState st p).
Proof.
  intros E1 E2. destruct c as [edi esi ebp ebx edx ecx eax gs fs es ds eip cs eflags esp ss]. unfold frame. cbn [c_esp c_ss] in E1, E2.
  cbn [c_edi c_esi c_ebp c_ebx c_edx c_ecx c_eax c_gs c_fs c_es c_ds c_eip c_cs c_eflags c_esp c_ss app].
  match goal with |- intr_exit c0 (EntryState (_ :: _ :: _ :: _ :: _ :: _ :: _ :: _ :: _ :: _ :: _ :: _ :: _ :: _ :: _ :: _ :: _ :: ?l) p) = _ =>
    destruct (intr_exit_pops c0 n edi esi ebp sp ebx edx ecx eax gs fs es ds code eip cs eflags l p) as [Hk Hu] end.
  destruct (in_user cs); [by rewrite (Hu eq_refl esp ss st) | by rewrite (Hk eq_refl), E1, E2].
Qed.

Lemma push_ok v l p : push v (EntryState l p) = Ok (tt, EntryState (v :: l) p).
Proof. done. Qed.

Lemma out_ok port al l p : out port al (EntryState l p) = Ok (tt, EntryState l (p ++ [(port, al)])).
Proof. done. Qed.

Lemma save_ok c sp st p :
  save c sp (EntryState st p) = Ok (tt, EntryState ([c_edi c; c_esi c; c_ebp c; sp; c_ebx c; c_edx c; c_ecx c; c_eax c; c_gs c; c_fs c; c_es c; c_ds c] ++ st) p).
Proof. done. Qed.

Lemma interrupt_ok n code c st p :
  interrupt n code c (EntryState st p) = Ok (tt, EntryState ((if bool_decide (n ∈ error_vectors) then [code] else []) ++
    [c_eip c; c_cs c; c_eflags c] ++ (if in_user (c_cs c) then [c_esp c; c_ss c] else []) ++ st) p).
Proof. unfold interrupt. by destruct (in_user (c_cs c)), (bool_decide (n ∈ error_vectors)). Qed.

(** The error code in the frame, or the stub's 0 in its place. *)
Definition code_word (n code : Z) : Z := if bool_decide (n ∈ error_vectors) then code else 0.

(** The stub up to the handler. *)
Lemma entry_frame handler n sp code c st p :
  (n ∈ error_vectors <-> n = 0x1e) ->
  (interrupt n code c ;;; intr_entry handler n sp c) (EntryState st p) =
  (handler n ;;; intr_exit c) (EntryState (frame n sp (code_word n code) c ++ st) (p ++ [(0xa0, 0x20)] ++ [(0x20, 0x20)])).
Proof.
  intros Hf. rewrite (bind_ok _ _ _ _ _ (interrupt_ok n code c st p)). unfold intr_entry, frame. rewrite <- (app_assoc _ _ st), (app_assoc p).
  set (st1 := (if bool_decide (n ∈ error_vectors) then [code] else []) ++ _). assert (exists l, (match vector_flavour n with ZERO => push 0 | ERROR_CODE => mret tt end) (EntryState st1 p) =
    Ok (tt, EntryState (code_word n code :: l) p) /\ l = [c_eip c; c_cs c; c_eflags c] ++ (if in_user (c_cs c) then [c_esp c; c_ss c] else []) ++ st) as (l & E & El).
  { unfold vector_flavour, code_word, st1. destruct (Z.eqb_spec n 0x1e) as [->|Hn].
    - rewrite bool_decide_eq_true_2 by by apply Hf. eexists. split; reflexivity.
    - rewrite bool_decide_eq_false_2 by by rewrite Hf. eexists. split; reflexivity. }
  rewrite (bind_ok _ _ _ _ _ E), (bind_ok _ _ _ _ _ (save_ok _ _ _ _)), (bind_ok _ _ _ _ _ (out_ok _ _ _ _)),
    (bind_ok _ _ _ _ _ (out_ok _ _ _ _)), (bind_ok _ _ _ _ _ (push_ok _ _ _)). by rewrite El.
Qed.

Lemma add_esp_3 a b c l p : add_esp 3 (EntryState (a :: b :: c :: l) p) = Ok (tt, EntryState l p).
Proof. done. Qed.

(** The word of EAX in the frame. *)
Lemma set_eax v a0 a1 a2 a3 a4 a5 a6 a7 a8 l p :
  set_word 8 v (EntryState (a0 :: a1 :: a2 :: a3 :: a4 :: a5 :: a6 :: a7 :: a8 :: l) p) =
  Ok (tt, EntryState (a0 :: a1 :: a2 :: a3 :: a4 :: a5 :: a6 :: a7 :: v :: l) p).
Proof. done. Qed.

(** ** Properties *)

(** C40: an interrupt or exception for which the stub of the vector agrees with
    the processor about the error code: the handler is called, both interrupt
    controllers having been told, with the number of the vector on top of the
    frame; when it returns with the stack as it found it, the interrupted code
    goes on, in the kernel or in a process, with all its registers and flags
    and the stack as they were.  In a system call it gets the result of the
    function, called with EBX, ECX, EDX, in EAX. *)
Theorem interrupt_roundtrip (handler : Z -> M entry_state unit) (call : Z -> M entry_state Z) (n sp code r : Z) (c : context)
    (st : list Z) (p : list (Z * Z)) (s1 s2 : entry_state)
    (Hn : n ∈ error_vectors <-> vector_flavour n = ERROR_CODE)
    (Hh : handler n (EntryState (frame n sp (code_word n code) c ++ st) (p ++ [(0xa0, 0x20); (0x20, 0x20)])) = Ok (tt, s1))
    (Hs1 : stack s1 = frame n sp (code_word n code) c ++ st)
    (Hc : call (c_eax c) (EntryState ([c_ebx c; c_ecx c; c_edx c] ++ frame 0x80 sp 0 c ++ st) p) = Ok (r, s2))
    (Hs2 : stack s2 = [c_ebx c; c_ecx c; c_edx c] ++ frame 0x80 sp 0 c ++ st) :
  (interrupt n code c ;;; intr_entry handler n sp c) (EntryState st p) = Ok (c, EntryState st (ports s1)) /\
  (interrupt 0x80 code c ;;; syscall_handler call sp c) (EntryState st p) = Ok (with_eax r c, EntryState st (ports s2)).
Proof.
  assert (n ∈ error_vectors <-> n = 0x1e) as Hn'.
  { rewrite Hn. unfold vector_flavour. by destruct (Z.eqb_spec n 0x1e). }
  split.
  - rewrite entry_frame by done. erewrite bind_ok by exact Hh. destruct s1 as [l p1]. cbn in Hs1. subst l. by apply intr_exit_ok.
  - rewrite (bind_ok _ _ _ _ _ (interrupt_ok 0x80 code c st p)). assert (bool_decide (0x80 ∈ error_vectors) = false) as -> by done.
    unfold syscall_handler. rewrite (bind_ok _ _ _ _ _ (push_ok _ _ _)), (bind_ok _ _ _ _ _ (save_ok _ _ _ _)).
    do 4 rewrite (bind_ok _ _ _ _ _ (push_ok _ _ _)).
    assert (forall l, frame 0x80 sp 0 c ++ l = 0x80 :: [c_edi c; c_esi c; c_ebp c; sp; c_ebx c; c_edx c; c_ecx c; c_eax c; c_gs c; c_fs c; c_es c; c_ds c] ++
      0 :: [c_eip c; c_cs c; c_eflags c] ++ (if in_user (c_cs c) then [c_esp c; c_ss c] else []) ++ l) as Hfr.
    { intros l. unfold frame. by rewrite <- app_assoc. }
    rewrite (Hfr st) in Hc, Hs2. rewrite app_nil_l. rewrite (bind_ok _ _ _ _ _ Hc). destruct s2 as [l p2]. cbn [stack] in Hs2. subst l. cbn [app ports].
    rewrite (bind_ok _ _ _ _ _ (add_esp_3 _ _ _ _ _)), (bind_ok _ _ _ _ _ (set_eax _ _ _ _ _ _ _ _ _ _ _ _)).
    pose proof (intr_exit_ok 0x80 sp 0 (with_eax r c) c st p2 eq_refl eq_refl) as E. unfold frame in E. rewrite <- app_assoc in E. exact E.
Qed.

(** [intr_exit] after an exception whose error code the stub has covered with
    a 0 of its own takes the code as the address to go on at. *)
Theorem error_code_taken_for_eip (handler : Z -> M entry_state unit) (n sp code w : Z) (c : context) (st : list Z)
    (p : list (Z * Z)) (s1 : entry_state)
    (Hn : n ∈ [0x08; 0x0a; 0x0b; 0x0c; 0x0d; 0x0e; 0x11])
    (Hh : forall s, exists p', handler n s = Ok (tt, EntryState (stack s) p')) :
  exists c' s', (interrupt n code c ;;; intr_entry handler n sp c) (EntryState (w :: st) p) = Ok (c', s') /\
    c_eip c' = code /\ c_cs c' = c_eip c /\ c_eflags c' = c_cs c.
Proof.
  assert (n ∈ error_vectors /\ vector_flavour n = ZERO) as [He Hf].
  { rewrite !elem_of_cons in Hn. destruct Hn as [->|[->|[->|[->|[->|[->|[->|[]%elem_of_nil]]]]]]]; (split; [|reflexivity]);
      unfold error_vectors; rewrite !elem_of_cons; tauto. }
  rewrite (bind_ok _ _ _ _ _ (interrupt_ok n code c (w :: st) p)), bool_decide_eq_true_2 by done. unfold intr_entry. rewrite Hf.
  rewrite (bind_ok _ _ _ _ _ (push_ok _ _ _)), (bind_ok _ _ _ _ _ (save_ok _ _ _ _)), (bind_ok _ _ _ _ _ (out_ok _ _ _ _)),
    (bind_ok _ _ _ _ _ (out_ok _ _ _ _)), (bind_ok _ _ _ _ _ (push_ok _ _ _)).
  match goal with |- context [(handler n ;;; intr_exit c) ?s] => destruct (Hh s) as [p' E] end.
  rewrite (bind_ok _ _ _ _ _ E). cbn [stack app].
  match goal with |- context [intr_exit c (EntryState ?l p')] => match l with n :: ?edi :: ?esi :: ?ebp :: sp :: ?ebx :: ?edx :: ?ecx :: ?eax ::
    ?gs :: ?fs :: ?es :: ?ds :: 0 :: code :: ?eip :: ?cs :: ?l' =>
    destruct (intr_exit_pops c n edi esi ebp sp ebx edx ecx eax gs fs es ds 0 code eip cs l' p') as [Hk Hu] end end.
  destruct (in_user (c_eip c)).
  - destruct (in_user (c_cs c)); (eexists _, _; split; [by apply Hu | done]).
  - eexists _, _. split; [by apply Hk | done].
Qed.

(** *** Concrete instances: the timer in a process; [sys_getpid] *)
Definition example_context : context :=
  Context_ 1 2 3 4 5 6 0 0 0x33 0x33 0x33 0x8048010 0x2b 0x202 0xbffffff0 0x33.

Lemma interrupt_roundtrip_witness : exists s1 s2,
  (interrupt 0x20 0 example_context ;;; intr_entry (fun _ => mret tt) 0x20 7 example_context) (EntryState [] []) = Ok (example_context, s1) /\
  (interrupt 0x80 0 example_context ;;; syscall_handler (fun _ => mret 9) 7 example_context) (EntryState [] []) = Ok (with_eax 9 example_context, s2).
Proof.
  exists (EntryState [] [(0xa0, 0x20); (0x20, 0x20)]), (EntryState [] []).
  apply (interrupt_roundtrip (fun _ => mret tt) (fun _ => mret 9) 0x20 7 0 9 example_context [] []
    (EntryState (frame 0x20 7 (code_word 0x20 0) example_context ++ []) [(0xa0, 0x20); (0x20, 0x20)])
    (EntryState ([4; 6; 5] ++ frame 0x80 7 0 example_context ++ []) [])); [|reflexivity..]. split; [|done]. intros Hn.
  apply (bool_decide_eq_true_2 (0x20 ∈ error_vectors)) in Hn. discriminate Hn.
Defined.
