(* ===== verification/HeapShare.v ===== *)
(** * A heap beside other users of the allocator

    The heap of the running thread stays in order while the kernel takes pages
    for other purposes, and while the descriptors of another heap are made in
    such a page. *)
From stdpp Require Import base numbers list gmap fin_maps.
From Stdlib Require Import ZArith Lia.
From S2P Require Import Prelude Globals Interrupt LinkedList Bitmap Paging PageAlloc PageFree Pages Heap HeapInit HeapAlloc.

(** ** Other pages are taken *)

(** From [m] to [m'] pages of the pool [pf] may have been taken; those in use
    are still in use. *)
Record pages_taken (pf : pool_flags) (m m' : mem_state) : Prop := {
  pt_ok : mem_ok m';
  pt_pgdir : cur_pgdir m' = cur_pgdir m;
  pt_start : vaddr_start (kernel_vaddr_pool m') = vaddr_start (kernel_vaddr_pool m);
  pt_free : forall v, vaddr_free (vpool_get pf m') v -> vaddr_free (vpool_get pf m) v;
  pt_keep : forall v, page_in_use pf m v -> page_in_use pf m' v /\ page_frame (machine m') v = page_frame (machine m) v;
  pt_data : forall v f k, page_in_use pf m v -> page_frame (machine m) v = Some f -> 0 <= k < 1024 ->
    ram_word (machine m') (f + 4 * k) = ram_word (machine m) (f + 4 * k);
}.

Lemma pages_taken_refl pf m : mem_ok m -> pages_taken pf m m.
Proof. by split. Qed.

Lemma pages_taken_trans pf m m1 m2 : pages_taken pf m m1 -> pages_taken pf m1 m2 -> pages_taken pf m m2.
Proof.
  intros [A1 A2 A3 A4 A5 A6] [B1 B2 B3 B4 B5 B6]. split; try congruence; [by auto | |].
  - intros v Hv. destruct (A5 v Hv) as [H1 E1]. destruct (B5 v H1) as [H2 E2]. split; [done | congruence].
  - intros v f k Hv Hf Hk. destruct (A5 v Hv) as [H1 E1]. rewrite (B6 v f k), (A6 v f k); congruence || done.
Qed.

Lemma got_pages_taken pf m m' va n : got_pages pf m m' va n -> pages_taken pf m m'.
Proof.
  intros G. split; try apply G.
  destruct pf; [apply (gp_start _ _ _ _ _ G) | f_equal; by apply (gp_other _ _ _ _ _ G PF_KERNEL)].
Qed.

Lemma heap_ok_taken h m Ls : heap_ok h Ls -> pages_taken (heap_pf h) (hmem h) m -> heap_ok (put hmem_lens m h) Ls.
Proof.
  intros [O1 O2 O3 O4 O5 O6 O7 O8 O9 O10 O11 O12 O13] [T1 T2 T3 T4 T5 _].
  assert (heap_pf (put hmem_lens m h) = heap_pf h) as Epf by (unfold heap_pf; simpl; by rewrite T2).
  assert (forall i, desc_addr (put hmem_lens m h) i = desc_addr h i) as Ed by (intros i; unfold desc_addr, heap_descs; simpl; by rewrite T2).
  assert (heap_descs (put hmem_lens m h) = heap_descs h) as Edd by (unfold heap_descs; simpl; by rewrite T2).
  split; rewrite ?Epf, ?Edd; try done.
  - unfold live. simpl. by rewrite T2.
  - simpl. by rewrite T3.
  - intros i Hi. rewrite Ed. by apply O5.
  - intros i Hi. rewrite Ed. by apply O7.
  - intros i xs x Hi. setoid_rewrite Ed. by apply O8.
  - intros f ys x a ar. setoid_rewrite Ed. by apply O10.
  - intros a ar Ha. destruct (O11 a ar Ha) as [P1 P2 P3]. split; [done | |].
    + rewrite Epf. intros k Hk. by apply T5, P2.
    + destruct P3 as [?|(i & xs & [S1 S2 S3 S4 S5 S6 S7])]; [by left | right]. exists i, xs. by split; rewrite ?Ed.
  - intros va x Hva. by apply O12, T4.
Qed.

Lemma given_taken h m Ls p sz :
  cur_pgdir m = cur_pgdir (hmem h) -> given (put hmem_lens m h) Ls p sz <-> given h Ls p sz.
Proof. intros E. unfold given, desc_addr, heap_descs. simpl. by rewrite E. Qed.

(** ** Descriptors of another heap *)
Section NewDescs.
Context (h : heap_state) (Ls Ls' : gmap Z (list Z)) (t d : Z) (l : lstate) (ds : gmap Z mem_block_desc).
Hypothesis Hok : heap_ok h Ls.
(** The page [t] is in use and nothing of the heap is in it. *)
Hypothesis Halign : t mod 4096 = 0.
Hypothesis Htaken : ~ vaddr_free (vpool_get (heap_pf h) (hmem h)) t.
Hypothesis Hnodes : forall x, t <= x < t + 4096 -> nodes (hlists h) !! x = None.
Hypothesis Harenas : forall a ar, arenas h !! a = Some ar -> t + 4096 <= a \/ a + arena_pages ar * 4096 <= t.
(** The descriptors lie in it. *)
Hypothesis Hin : t <= d /\ d + 168 <= t + 4096.
Hypothesis Hdom : forall x, x ∈ dom (nodes l) -> x ∈ dom (nodes (hlists h)) \/ t <= x < t + 4096.
Hypothesis Hdom' : dom (nodes (hlists h)) ⊆ dom (nodes l).
Hypothesis Hlists : lists_ok (nodes l) Ls'.
Hypothesis Hmade : descs_made d 0 Ls Ls' (descs h) ds.

Let h' := put_descs ds (put hlists_lens l h).

Lemma new_desc_list i j : 0 <= i < 7 -> 0 <= j < 7 -> desc_addr h i <> d + sizeof_block_desc * j.
Proof.
  intros Hi Hj E. destruct (ho_free _ _ Hok i Hi) as [xs Hxs].
  assert (head_of (free_list (desc_addr h i)) ∈ dom (nodes (hlists h))) as Hd.
  { apply (lists_path_dom _ _ _ _ _ (ho_lists _ _ Hok) Hxs). apply list_elem_of_here. }
  apply elem_of_dom in Hd as [v Hv]. rewrite Hnodes in Hv; [done|]. rewrite E.
  unfold head_of, free_list, sizeof_block_desc. lia.
Qed.

Lemma old_list_kept i : 0 <= i < 7 -> Ls' !! free_list (desc_addr h i) = Ls !! free_list (desc_addr h i).
Proof.
  intros Hi. apply (made_lists_kept _ _ _ _ _ _ Hmade). intros j Hj E. apply (new_desc_list i j); [done..|]. unfold free_list in E. lia.
Qed.

Lemma new_list_path j x : 0 <= j < 7 -> x ∈ path (free_list (d + sizeof_block_desc * j)) [] -> t <= x < t + 4096.
Proof.
  intros Hj. unfold path. cbn [app]. rewrite elem_of_cons, list_elem_of_singleton.
  unfold head_of, tail_of, free_list, sizeof_block_desc. lia.
Qed.

Lemma heap_ok_new_descs : heap_ok h' Ls'.
Proof.
  pose proof Hok as [O1 O2 O3 O4 O5 O6 O7 O8 O9 O10 O11 O12 O13].
  split; try done.
  - intros i Hi. change (desc_addr h' i) with (desc_addr h i). simpl. rewrite (made_descs_kept _ _ _ _ _ _ Hmade); [by apply O5|].
    intros j Hj. by apply new_desc_list.
  - intros i Hi. change (desc_addr h' i) with (desc_addr h i). rewrite old_list_kept by done. by apply O7.
  - intros i xs x Hi. change (desc_addr h' i) with (desc_addr h i). rewrite old_list_kept by done. by apply O8.
  - intros f ys a ar Hf Ha. destruct (descs_made_cases _ _ _ _ _ _ _ Hmade Hf) as [[-> (j & Hj & ->)]|Hf']; [|by eapply O9].
    pose proof (Harenas a ar Ha). unfold head_of, tail_of, free_list, sizeof_block_desc. lia.
  - intros f ys x a ar Hf Hx Ha Hr. destruct (descs_made_cases _ _ _ _ _ _ _ Hmade Hf) as [[-> _]|Hf'].
    + by apply elem_of_nil in Hx.
    + by eapply (O10 f ys x a ar).
  - intros a ar Ha. destruct (O11 a ar Ha) as [P1 P2 P3]. split; [done | done |].
    destruct P3 as [?|(i & xs & [S1 S2 S3 S4 S5 S6 S7])]; [by left | right]. exists i, xs. split; try done.
    + change (desc_addr h' i) with (desc_addr h i). by rewrite old_list_kept.
    + intros j Hj. by apply Hdom', S6.
    + intros j Hj Hn. destruct (S7 j Hj Hn) as [U1 U2]. split; [by apply Hdom'|]. intros f ys Hf.
      destruct (descs_made_cases _ _ _ _ _ _ _ Hmade Hf) as [[-> (j' & Hj' & ->)]|Hf']; [|by eapply U2].
      intros Hp%new_list_path; [|done]. pose proof (Harenas a ar Ha) as Hdis. pose proof (block_range a i j S1 Hj).
      pose proof (bsz_bounds i S1). unfold arena_pages in Hdis. rewrite S3 in Hdis. simpl in Hdis. lia.
  - intros va x Hva Hx. split; [|by apply (O12 va)]. apply not_elem_of_dom. intros [Hd|Hd]%Hdom.
    + apply elem_of_dom in Hd as [v Hv]. by rewrite (proj1 (O12 va x Hva Hx)) in Hv.
    + apply Htaken. replace t with va; [done|].
      destruct (vaddr_free_range _ _ (mo_vpool _ O1 _ O2) Hva) as (_ & _ & Hal). Z.div_mod_to_equations. lia.
Qed.

Lemma given_new_descs p sz : given h' Ls' p sz <-> given h Ls p sz.
Proof.
  split; intros (a & ar & Ha & Hc); exists a, ar; (split; [done|]);
    (destruct Hc as [?|(i & j & xs & Hi & Hd & Hj & E & Hx & Hr)]; [by left | right; exists i, j, xs]).
  - change (desc_addr h' i) with (desc_addr h i) in *. by rewrite old_list_kept in Hx.
  - change (desc_addr h' i) with (desc_addr h i). by rewrite old_list_kept.
Qed.
End NewDescs.
