(* ===== verification/Process.v ===== *)
(** * Creating processes: userprog/process.c (create_user_vaddr_bitmap,
      process_execute)

    A process is a thread with an address space, a pool of addresses and a
    heap of its own; its function is [start_process] ([UserEntry]), with the
    program as argument. *)
From stdpp Require Import base numbers list gmap fin_maps.
From Stdlib Require Import ZArith Lia.
From S2P Require Import Prelude Globals Interrupt LinkedList Bitmap Paging PageAlloc PageFree Pages Supply Heap HeapInit HeapAlloc CString Thread Sync PoolLocks ThreadCreate System Console Syscall PageDir UserEntry HeapShare.

(** Address of [start_process]. *)
Class ProcessText := { start_process_addr : Z }.

(** [offset(struct task_struct, u_block_descs)]. *)
Definition u_block_descs_of (t : Z) : Z := t + 68.

(** ** Operations *)

(** The part of the [memset] in [init_thread] that makes the descriptors of a
    process accessible. *)
Definition desc_headers (d : Z) : gset Z :=
  list_to_set ((fun i => head_of (free_list (d + sizeof_block_desc * i))) <$> seqZ 0 MEM_BLOCK_DESC_CNT) ∪
  list_to_set ((fun i => tail_of (free_list (d + sizeof_block_desc * i))) <$> seqZ 0 MEM_BLOCK_DESC_CNT).

Definition blank_headers (d : Z) : gmap Z list_node := gset_to_gmap (Node NULL NULL) (desc_headers d).

Definition clear_descs (pthread : Z) : M system unit :=
  modify (fun s => System.System (s_kernel s) (blank_headers (u_block_descs_of pthread) ∪ s_heap_nodes s) (s_arenas s) (s_descs s)
    (s_k_block_descs s) (s_u_block_descs s) (s_bytes s) (s_screen s) (s_table s)).

(** [bitmap_init] on the bitmap of a task. *)
Definition with_task_bitmap (t : Z) (m : M bitmap unit) : M kstate unit :=
  ts ← task_at t;
  match m (vaddr_bitmap (task_vaddr_pool ts)) with
  | Ok (_, b) => update_task t (fun ts => set_vaddr_pool (VPool b (vaddr_start (task_vaddr_pool ts))) ts)
  | Panic => PANIC
  | NoFuel => nofuel
  | _ => fault
  end.

Definition set_bitmap (b : bitmap) (ts : task_struct) : task_struct :=
  set_vaddr_pool (VPool b (vaddr_start (task_vaddr_pool ts))) ts.

(** [(0xc0000000 - USER_VADDR_START) / PG_SIZE / 8]. *)
Definition user_bitmap_len : Z := u32 (0xc0000000 - USER_VADDR_START) / PG_SIZE / 8.

Section Process.
Context `{!Layout} `{!PoolLayout} `{!KernelText} `{!ConsoleLayout} `{!PageDirText} `{!ProcessText}.

(** The bytes behind the new pointer are those of cleared pages. *)
Definition create_user_vaddr_bitmap (user_prog : Z) : M system unit :=
  zoom sys_threads (update_task user_prog (fun ts => set_vaddr_pool (VPool (vaddr_bitmap (task_vaddr_pool ts)) USER_VADDR_START) ts)) ;;;
  let bitmap_pg_cnt := DIV_ROUND_UP user_bitmap_len PG_SIZE in
  bits_addr ← zoom kern (get_kernel_pages bitmap_pg_cnt);
  zoom sys_threads (update_task user_prog (set_bitmap (Bitmap user_bitmap_len bits_addr (replicate (Z.to_nat user_bitmap_len) 0)))) ;;;
  zoom sys_threads (with_task_bitmap user_prog bitmap_init).

Definition process_execute (fuel : nat) (filename : Z) (nm : list Z) : M system unit :=
  thread ← zoom kern (get_kernel_pages 1);
  main_thread ← gets (fun s => k_main_thread (s_kernel s));
  zoom sys_threads (init_thread fuel main_thread thread nm DEFAULT_PRIO) ;;;
  clear_descs thread ;;;
  create_user_vaddr_bitmap thread ;;;
  zoom sys_threads (thread_create thread start_process_addr filename) ;;;
  dir ← create_page_dir fuel;
  zoom sys_threads (update_task thread (set_pgdir dir)) ;;;
  zoom heap (block_desc_init (u_block_descs_of thread)) ;;;
  zoom sys_threads (
    old_status ← kflags intr_disable;
    enlist_ready thread ;;;
    enlist_all thread ;;;
    _ ← kflags (set_intr_status old_status);
    mret tt).
End Process.

(** ** The address pool of a process *)
Lemma user_bitmap_len_eq : user_bitmap_len = 94199 /\ DIV_ROUND_UP user_bitmap_len PG_SIZE = 23.
Proof. by vm_compute. Qed.

(** All pages from 0x8048000 to 0xc0000000, none taken. *)
Record user_pool (p : virtual_addr_pool) (bits_at : Z) : Prop := {
  up_bitmap : bitmap_ok (vaddr_bitmap p);
  up_bits : bits_addr (vaddr_bitmap p) = bits_at;
  up_top : vpool_top p = 0xc0000000;
  up_free : forall va, vaddr_free p va <-> va mod 4096 = 0 /\ USER_VADDR_START <= va < 0xc0000000;
}.

Lemma user_pool_intro b a :
  bitmap_ok b -> btmp_bytes_len b = user_bitmap_len -> bits_addr b = a -> (forall i, bit b i = false) ->
  user_pool (VPool b USER_VADDR_START) a.
Proof.
  intros Hok Hlen Ha Hz. rewrite (proj1 user_bitmap_len_eq) in Hlen.
  assert (nbits b = 753592) as Hn by (unfold nbits; rewrite Hlen; done).
  split; [done | done | unfold vpool_top; simpl; by rewrite Hn |]. intros va. unfold vaddr_free. simpl. rewrite Hn.
  unfold USER_VADDR_START. split.
  - intros (i & Hi & _ & ->). split; [Z.div_mod_to_equations; lia | lia].
  - intros [Hm Hr]. exists ((va - 0x8048000) / 4096). split; [Z.div_mod_to_equations; lia|]. split; [apply Hz|].
    Z.div_mod_to_equations; lia.
Qed.

Lemma zero_bitmap_ok n a : 0 <= n < 0x10000000 -> bitmap_ok (Bitmap n a (replicate (Z.to_nat n) 0)).
Proof.
  intros Hn. split; [exact Hn | | by apply Forall_replicate]. cbn [bits btmp_bytes_len]. rewrite length_replicate. lia.
Qed.

Lemma bitmap_init_null b : bits_addr b = NULL -> bitmap_init b = Panic.
Proof. intros E. unfold bitmap_init. erewrite bind_ok by reflexivity. by rewrite E. Qed.

#[local] Opaque user_bitmap_len.

(** ** The page of the task while more memory is taken *)

(** [n] pages of kernel memory are not to be had. *)
Definition lacking (m : mem_state) (n : Z) : Prop :=
  malloc_panics PF_KERNEL m n \/ forall i, ~ free_run (vaddr_bitmap (kernel_vaddr_pool m)) i n.

(** The task's page [p], taken from [m0], is in use in [m] on the frame [f]. *)
Record task_page (m0 m : mem_state) (p f : Z) : Prop := {
  tp_free : vaddr_free (kernel_vaddr_pool m0) p;
  tp_use : page_in_use PF_KERNEL m p;
  tp_at : page_at (machine m) p f;
  tp_taken : pages_taken PF_KERNEL m0 m;
}.

Lemma task_page_got m0 m p :
  mem_ok m0 -> got_pages PF_KERNEL m0 m p 1 -> exists f, task_page m0 m p f /\ 0 < p < 0xfffff000 /\ p mod 4096 = 0.
Proof.
  intros Hok G. destruct (got_page_at _ _ _ G Hok) as (Hfree & Hp & Hal & f & Hpg). exists f. split; [|done].
  destruct (gp_page _ _ _ _ _ G 0 ltac:(lia)) as (_ & Hu & _). rewrite Z.mul_0_l, Z.add_0_r in Hu.
  split; [done | done | done | by eapply got_pages_taken].
Qed.

(** It stays there, with its words, when others take pages. *)
Lemma task_page_kept m0 m m' p f :
  task_page m0 m p f -> pages_taken PF_KERNEL m m' ->
  task_page m0 m' p f /\ forall j, 0 <= j < 1024 -> ram_word (machine m') (f + 4 * j) = ram_word (machine m) (f + 4 * j).
Proof.
  intros [T1 T2 T3 T4] Ht. destruct (pt_keep _ _ _ Ht p T2) as [Hu E]. pose proof (pa_frame _ _ _ T3) as Hf.
  split; [|intros j Hj; by apply (pt_data _ _ _ Ht p)]. rewrite <- E in Hf.
  destruct (in_use_page _ _ _ Hu) as (Hm & g & _ & Hg & _ & Hn). rewrite Hf in Hg. injection Hg as <-.
  split; [done | done | | by eapply pages_taken_trans]. split; [apply (pt_ok _ _ _ Ht) | apply T3 | | done].
  intros k Hk. assert (k = 0) as -> by lia. rewrite Z.mul_0_l, Z.add_0_r. split; [done|]. by exists f.
Qed.

(** Words are written into it. *)
Lemma task_page_poke m0 m p f ws :
  task_page m0 m p f -> Forall word_ok ws -> task_page m0 (put machine_lens (poke f ws (machine m)) m) p f.
Proof.
  intros [T1 T2 T3 [P1 P2 P3 P4 P5 P6]] Hws. pose proof (changed_poke _ _ _ _ T3 Hws) as Hch.
  destruct (mem_ok_changed m _ p 1 P1 (pa_aligned _ _ _ T3) (pa_data _ _ _ T3) Hch) as (Hok' & Hpf & Hpt).
  split; [done | by apply in_use_cleared | by apply poke_page |]. split; try done.
  - intros v Hv. destruct (P5 v Hv) as [Hv' E]. split; [by apply in_use_cleared|].
    rewrite <- E. apply Hpf. by apply (in_use_page _ _ _ Hv').
  - intros v g k Hv Hg Hk. destruct (P5 v Hv) as [Hv' E]. rewrite <- (P6 v g k Hv Hg Hk). simpl.
    rewrite Hg in E. destruct (page_frame_entry _ _ _ (mo_pt _ P1) E) as (e & He & Ee).
    destruct (page_at_frame _ _ _ T3) as (_ & Hfa & Hm & _).
    apply Hch. intros i Hi Htr. destruct (page_at_word _ _ _ i T3 ltac:(lia)) as [Htr' _]. rewrite Htr' in Htr. injection Htr as Htr.
    apply aligned_word_neq in Htr as [<- _]; [|done | rewrite Ee; by apply frame_of_aligned | lia | done].
    pose proof (in_use_page _ _ _ Hv') as (Hmv & _).
    pose proof (mo_inj m P1 v p f Hmv Hm E (pa_frame _ _ _ T3)) as Hpg.
    assert (v = p) as ->; [|by apply (proj1 (proj2 Hv))]. apply aligned_same_page; [|apply T3 | done].
    destruct Hv as ((j & _ & _ & ->) & _). rewrite Z_mod_plus_full.
    change (vaddr_start (kernel_vaddr_pool m0) mod 4096 = 0). rewrite <- P3. by apply (mo_vpool m P1 PF_KERNEL).
Qed.

Lemma dir_made_taken m m' p f : dir_made m m' p f -> pages_taken PF_KERNEL m m'.
Proof. intros D. split; apply D. Qed.

(** ** The heap while the descriptors of the process are made *)
Lemma desc_headers_in d x : x ∈ desc_headers d -> d <= x < d + 168.
Proof.
  unfold desc_headers, head_of, tail_of, free_list, sizeof_block_desc, MEM_BLOCK_DESC_CNT.
  rewrite elem_of_union, !elem_of_list_to_set, !list_elem_of_fmap.
  intros [(i & -> & Hi%elem_of_seqZ)|(i & -> & Hi%elem_of_seqZ)]; lia.
Qed.

Section NewHeap.
Context (h : heap_state) (Ls : gmap Z (list Z)) (m : mem_state) (p f : Z).
Hypothesis Hok : heap_ok h Ls.
Hypothesis Hkern : cur_pgdir (hmem h) = NULL.
Hypothesis Htask : task_page (hmem h) m p f.

Let d := u_block_descs_of p.
Let hn := blank_headers d ∪ nodes (hlists h).

Lemma task_in_page x : d <= x < d + 168 -> p <= x < p + 4096.
Proof. unfold d, u_block_descs_of. lia. Qed.

Lemma kernel_heap : heap_pf h = PF_KERNEL.
Proof. unfold heap_pf. by rewrite Hkern. Qed.

Lemma task_no_node x : p <= x < p + 4096 -> nodes (hlists h) !! x = None.
Proof.
  intros Hx. apply (ho_fresh _ _ Hok p x); [|done]. rewrite kernel_heap. apply (tp_free _ _ _ _ Htask).
Qed.

Lemma blank_disjoint : blank_headers d ##ₘ nodes (hlists h).
Proof.
  apply map_disjoint_dom. unfold blank_headers. rewrite dom_gset_to_gmap. intros x Hx%desc_headers_in Hn.
  apply elem_of_dom in Hn as [v Hv]. by rewrite task_no_node in Hv by by apply task_in_page.
Qed.

Lemma blank_lists : lists_ok hn Ls.
Proof.
  eapply lists_ok_weaken; [|apply (ho_lists _ _ Hok)]. apply map_union_subseteq_r, blank_disjoint.
Qed.

Lemma blank_dom x : x ∈ dom hn -> x ∈ dom (nodes (hlists h)) \/ p <= x < p + 4096.
Proof.
  unfold hn, blank_headers. rewrite dom_union_L, dom_gset_to_gmap. intros [Hx|Hx]%elem_of_union; [right | by left].
  by apply task_in_page, desc_headers_in.
Qed.

Lemma blank_unlinked x : x ∈ desc_headers d -> unlinked hn Ls x.
Proof.
  intros Hx. split.
  - unfold hn, blank_headers. rewrite dom_union_L, dom_gset_to_gmap. by apply elem_of_union_l.
  - intros l xs HL Hin. pose proof (lists_path_dom _ _ _ _ _ (ho_lists _ _ Hok) HL Hin) as [v Hv]%elem_of_dom.
    by rewrite task_no_node in Hv by by apply task_in_page, desc_headers_in.
Qed.

Lemma blank_headers_ok : HeapInit.headers d 0 hn Ls.
Proof.
  intros i Hi. split; apply blank_unlinked; apply elem_of_union; [left | right]; apply elem_of_list_to_set, list_elem_of_fmap;
    exists i; (split; [done|]); apply elem_of_seqZ; unfold MEM_BLOCK_DESC_CNT; lia.
Qed.

Lemma arena_beside a ar : arenas h !! a = Some ar -> p + 4096 <= a \/ a + arena_pages ar * 4096 <= p.
Proof.
  intros Ha. destruct (ho_arena _ _ Hok a ar Ha) as [Hal Hpg _]. rewrite kernel_heap in Hpg.
  destruct (decide (p + 4096 <= a \/ a + arena_pages ar * 4096 <= p)) as [|Hn]; [done | exfalso].
  pose proof (pa_aligned _ _ _ (tp_at _ _ _ _ Htask)) as Hp.
  assert (0 <= (p - a) / 4096 < arena_pages ar /\ a + (p - a) / 4096 * 4096 = p) as [Hk E].
  { pose proof (Z.div_mod p 4096 ltac:(lia)). pose proof (Z.div_mod a 4096 ltac:(lia)). Z.div_mod_to_equations. lia. }
  apply (proj1 (proj2 (Hpg _ Hk))). rewrite E. apply (tp_free _ _ _ _ Htask).
Qed.

Lemma new_heap_ok l ds Ls' :
  lists_ok (nodes l) Ls' -> dom (nodes l) = dom hn -> descs_made d 0 Ls Ls' (descs h) ds ->
  let h' := put_descs ds (put hlists_lens l (put hmem_lens m h)) in
  heap_ok h' Ls' /\ forall x sz, given h' Ls' x sz <-> given h Ls x sz.
Proof.
  intros Hl Hd Hmade. pose proof (tp_taken _ _ _ _ Htask) as Ht. pose proof (tp_at _ _ _ _ Htask) as Hat.
  assert (heap_ok (put hmem_lens m h) Ls) as Hok'.
  { apply heap_ok_taken; [exact Hok|]. by rewrite kernel_heap. }
  assert (heap_pf (put hmem_lens m h) = PF_KERNEL) as Epf.
  { unfold heap_pf. simpl. by rewrite (pt_pgdir _ _ _ Ht), Hkern. }
  assert (~ vaddr_free (vpool_get (heap_pf (put hmem_lens m h)) (hmem (put hmem_lens m h))) p) as Hnf.
  { rewrite Epf. apply (proj1 (proj2 (tp_use _ _ _ _ Htask))). }
  assert (forall x, x ∈ dom (nodes l) -> x ∈ dom (nodes (hlists (put hmem_lens m h))) \/ p <= x < p + 4096) as Hdom.
  { intros x. rewrite Hd. apply blank_dom. }
  assert (dom (nodes (hlists (put hmem_lens m h))) ⊆ dom (nodes l)) as Hsub.
  { rewrite Hd. unfold hn. rewrite dom_union_L. set_solver. }
  assert (p <= d /\ d + 168 <= p + 4096) as Hin by (unfold d, u_block_descs_of; lia).
  split.
  - by apply (heap_ok_new_descs _ Ls Ls' p d l ds Hok' (pa_aligned _ _ _ Hat) Hnf task_no_node arena_beside).
  - intros x sz. rewrite <- (given_taken h m Ls x sz) by apply (pt_pgdir _ _ _ Ht).
    by apply (given_new_descs (put hmem_lens m h) Ls Ls' p d l ds Hok' task_no_node Hin).
Qed.
End NewHeap.

(** ** States of the system while the process is made *)
Definition sysm (s : system) (m : mem_state) (l : lstate) (T : gmap Z task_struct) (pid : Z) (hn : gmap Z list_node)
    (ds : gmap Z mem_block_desc) (sc : list Z) : system :=
  let k := s_kernel s in
  System.System (Kernel m l T (k_sync k) (k_cur k) pid (k_esp0 k) (k_ticks k) (k_main_thread k)) hn (s_arenas s) ds
    (s_k_block_descs s) (s_u_block_descs s) (s_bytes s) sc (s_table s).

Lemma sysm_self s : s = sysm s (k_mem (s_kernel s)) (k_lst (s_kernel s)) (k_tasks (s_kernel s)) (k_next_pid (s_kernel s))
  (s_heap_nodes s) (s_descs s) (s_screen s).
Proof. by destruct s as [[]]. Qed.

Lemma wpu_at {St A} (m : M St A) s s' (Q : A -> St -> Prop) P : s = s' -> wpu m s' Q P -> wpu m s Q P.
Proof. by intros ->. Qed.

(** A step of the threads that does not change the machine. *)
Lemma threads_step s m l T pid hn ds sc l' T' pid' :
  put sys_threads (KState l' T' (k_sync (s_kernel s)) (k_cur (s_kernel s)) pid' (machine m) (k_esp0 (s_kernel s)) (k_ticks (s_kernel s)))
    (sysm s m l T pid hn ds sc) = sysm s m l' T' pid' hn ds sc.
Proof. by destruct m. Qed.

Lemma machine_step s m l T pid hn ds sc x :
  put sys_threads (put mach_lens x (view sys_threads (sysm s m l T pid hn ds sc))) (sysm s m l T pid hn ds sc) =
  sysm s (put machine_lens x m) l T pid hn ds sc.
Proof. done. Qed.

Section ProcessProofs.
Context `{!Layout} `{!PoolLayout} `{!KernelText} `{!ConsoleLayout} `{!PageDirText} `{!ProcessText}.

Lemma lock_free_sysm plock s m l T pid hn ds sc :
  lock_free plock (view sys_threads s) -> nodes (k_lst (s_kernel s)) ⊆ nodes l ->
  lock_free plock (view sys_threads (sysm s m l T pid hn ds sc)).
Proof.
  intros Hf Hsub. pose proof (lock_free_weaken plock (view sys_threads s) l Hf Hsub) as Hw.
  by apply (lock_free_ext plock _ _ Hw).
Qed.

Lemma get_pages_sysm n s m l T pid hn ds sc :
  mem_ok m -> lock_free kernel_pool_lock (view sys_threads (sysm s m l T pid hn ds sc)) ->
  wpu (zoom kern (get_kernel_pages n)) (sysm s m l T pid hn ds sc) (fun va s' =>
    (va = NULL /\ s' = sysm s m l T pid hn ds sc /\ forall i, ~ free_run (vaddr_bitmap (kernel_vaddr_pool m)) i n) \/
    (exists m', s' = sysm s m' l T pid hn ds sc /\ va <> NULL /\ got_pages PF_KERNEL m m' va n))
    (malloc_panics PF_KERNEL m n).
Proof.
  intros Hm Hl. apply wpu_zoom. eapply wpu_mono; [by apply (get_pages_ok PF_KERNEL n (view kern (sysm s m l T pid hn ds sc))) | | done].
  intros va k [(-> & -> & Hno)|(m' & -> & Hva & _ & G)]; [by left | right]. by exists m'.
Qed.

Lemma init_sysm fuel main p nm s m l T pid hn ds sc :
  p <> NULL -> name_ok nm -> lock_free pid_lock (view sys_threads (sysm s m (fresh_nodes p l) T pid hn ds sc)) ->
  wpu (zoom sys_threads (init_thread (S fuel) main p nm DEFAULT_PRIO)) (sysm s m l T pid hn ds sc) (fun _ s' =>
    s' = sysm s m (fresh_nodes p l) (<[p := new_task main p (s16 (pid + 1)) DEFAULT_PRIO nm]> T) (s16 (pid + 1)) hn ds sc) False.
Proof.
  intros Hp Hnm Hl. apply wpu_zoom. eapply wpu_eq; [by apply init_thread_eq|]. exact (threads_step s m l T pid hn ds sc _ _ _).
Qed.

(** A field of the new task is assigned. *)
Lemma update_sysm p f ts s m l T pid hn ds sc :
  wpu (zoom sys_threads (update_task p f)) (sysm s m l (<[p := ts]> T) pid hn ds sc)
    (fun _ s' => s' = sysm s m l (<[p := f ts]> T) pid hn ds sc) False.
Proof.
  pose proof (update_shown p f ts T (view sys_threads (sysm s m l T pid hn ds sc))) as E.
  apply wpu_zoom. eapply wpu_eq; [exact (f_equal undisturbed E)|]. exact (threads_step s m l _ pid hn ds sc _ _ _).
Qed.

Lemma bitmap_sysm p ts b0 a s m l T pid hn ds sc :
  vaddr_bitmap (task_vaddr_pool ts) = b0 -> vaddr_start (task_vaddr_pool ts) = USER_VADDR_START ->
  bitmap_ok b0 -> btmp_bytes_len b0 = user_bitmap_len -> bits_addr b0 = a -> a <> NULL ->
  wpu (zoom sys_threads (with_task_bitmap p bitmap_init)) (sysm s m l (<[p := ts]> T) pid hn ds sc)
    (fun _ s' => exists pool, user_pool pool a /\ s' = sysm s m l (<[p := set_vaddr_pool pool ts]> T) pid hn ds sc) False.
Proof.
  intros Hb Hst Hok Hlen Ha Hn. destruct (wp_ok_inv _ _ _ (bitmap_init_ok b0 Hok ltac:(congruence))) as ([] & b & E & Hok' & Hl' & Ha' & Hz).
  apply wpu_zoom. unfold with_task_bitmap. apply wpu_bind. eapply wpu_eq.
  { unfold task_at, mbind, M_bind, get. simpl. rewrite lookup_insert_eq. reflexivity. }
  rewrite Hb, E. cbv iota. pose proof (update_shown p (fun ts => set_vaddr_pool (VPool b (vaddr_start (task_vaddr_pool ts))) ts)
    ts T (view sys_threads (sysm s m l T pid hn ds sc))) as Eu.
  eapply wpu_eq; [exact (f_equal undisturbed Eu)|].
  exists (VPool b USER_VADDR_START). split; [apply user_pool_intro; congruence || done|]. rewrite Hst. exact (threads_step s m l _ pid hn ds sc _ _ _).
Qed.

Lemma user_bitmap_sysm p ts s m l T pid hn ds sc :
  mem_ok m -> lock_free kernel_pool_lock (view sys_threads (sysm s m l T pid hn ds sc)) ->
  wpu (create_user_vaddr_bitmap p) (sysm s m l (<[p := ts]> T) pid hn ds sc) (fun _ s' => exists m' a pool,
      got_pages PF_KERNEL m m' a 23 /\ user_pool pool a /\ s' = sysm s m' l (<[p := set_vaddr_pool pool ts]> T) pid hn ds sc)
    (malloc_panics PF_KERNEL m 23 \/ forall i, ~ free_run (vaddr_bitmap (kernel_vaddr_pool m)) i 23).
Proof.
  intros Hm Hl. destruct user_bitmap_len_eq as [Elen E23]. unfold create_user_vaddr_bitmap. cbv zeta. rewrite E23.
  apply wpu_bind. eapply wpu_mono; [apply update_sysm | | done]. intros [] ? ->.
  apply wpu_bind. eapply wpu_mono; [apply get_pages_sysm; [done|] | | by left].
  { by apply (lock_free_ext _ _ _ Hl). }
  intros a s2 [(-> & -> & Hno)|(m' & -> & Ha & G)].
  - apply wpu_bind. eapply wpu_mono; [apply update_sysm | | done]. intros [] ? ->.
    apply wpu_zoom. unfold with_task_bitmap. apply wpu_bind. eapply wpu_eq.
    { unfold task_at, mbind, M_bind, get. simpl. rewrite lookup_insert_eq. reflexivity. }
    rewrite bitmap_init_null by done. unfold wpu. simpl. by right.
  - apply wpu_bind. eapply wpu_mono; [apply update_sysm | | done]. intros [] ? ->.
    eapply wpu_mono; [eapply bitmap_sysm; [reflexivity | reflexivity | | reflexivity | reflexivity | done] | | done].
    { apply zero_bitmap_ok. by rewrite Elen. }
    intros [] ? (pool & Hp & ->). exists m', a, pool. done.
Qed.

Lemma stack_sysm p f function func_args ts s m l T pid hn ds sc :
  0 < p < 0xfffff000 -> page_at (machine m) p f -> self_kstack ts = u32 (p + PG_SIZE) ->
  is_u32 kernel_thread_addr -> is_u32 function -> is_u32 func_args ->
  wpu (zoom sys_threads (thread_create p function func_args)) (sysm s m l (<[p := ts]> T) pid hn ds sc) (fun _ s' =>
    s' = sysm s (put machine_lens (poke f (stack_words function func_args) (machine m)) m) l (<[p := set_self_kstack (p + 3664) ts]> T)
           pid hn ds sc) False.
Proof.
  intros Hp Hpg Hk H1' H2' H3'.
  pose proof (thread_create_eq p f function func_args ts T (view sys_threads (sysm s m l T pid hn ds sc)) Hp Hpg Hk H1' H2' H3') as E.
  apply wpu_zoom. eapply wpu_eq; [exact (f_equal undisturbed E)|]. done.
Qed.

Lemma descs_sysm d Ls s m l T pid hn ds sc :
  HeapInit.headers d 0 hn Ls -> lists_ok hn Ls ->
  wpu (zoom heap (block_desc_init d)) (sysm s m l T pid hn ds sc) (fun _ s' => exists hn' ds' Ls',
    s' = sysm s m l T pid hn' ds' sc /\ lists_ok hn' Ls' /\ dom hn' = dom hn /\ descs_made d 0 Ls Ls' ds ds') False.
Proof.
  intros Hh Hl. apply wpu_wp, wp_zoom. unfold block_desc_init. change 16 with (u16 (bsz 0)).
  eapply wp_mono; [by apply (block_desc_init_loop_ok _ d 0 (view heap (sysm s m l T pid hn ds sc)) Ls)|].
  intros [] ? (l' & ds' & Ls' & -> & (P1 & P2 & P3) & D). exists (nodes l'), ds', Ls'. split; [|done].
  simpl in P2. unfold sysm. destruct l', l. simpl in *. by rewrite P2.
Qed.

Lemma enlist_sysm p L q all s m l T pid hn ds sc :
  lists_ok (nodes l) L -> L !! thread_ready_list = Some (general_tag <$> q) ->
  L !! thread_all_list = Some (all_list_tag <$> all) -> thread_all_list <> thread_ready_list ->
  unlinked (nodes l) L (general_tag p) -> unlinked (nodes l) L (all_list_tag p) -> p ∉ q -> p ∉ all ->
  wpu (zoom sys_threads (old_status ← kflags intr_disable; enlist_ready p ;;; enlist_all p ;;;
      _ ← kflags (set_intr_status old_status); mret tt)) (sysm s m l T pid hn ds sc)
    (fun _ s' => exists l', s' = sysm s m l' T pid hn ds sc /\ list_post l (both_lists L (q ++ [p]) (all ++ [p])) l') False.
Proof.
  intros Hl Hr Ha Hne Hg Ht Hq Hall. apply wpu_wp, wp_zoom. wp_step. apply wp_kflags_disable.
  set (l0 := LState (nodes l) (set_if false (eflags l))). set (s0 := put_lst l0 (view sys_threads (sysm s m l T pid hn ds sc))).
  apply wp_bind. eapply wp_mono.
  { apply (wp_bind_inv (enlist_ready p) (fun _ => enlist_all p) s0 (fun _ s' => exists l2, s' = put_lst l2 s0 /\
      list_post l0 (both_lists L (q ++ [p]) (all ++ [p])) l2)).
    apply (enlist_both_ok p s0 L q all); try done. intros l2 Hpost. by exists l2. }
  intros [] s1 Hs1. wp_step. eapply wp_mono; [exact Hs1|]. intros [] ? (l2 & -> & Hl2 & He2 & Hd2).
  wp_step. apply wp_kflags_set. intros _. wp_step.
  exists (LState (nodes l2) (set_if (if_flag (eflags l)) (eflags l2))). split; [by destruct m|].
  split; [exact Hl2|]. split; [|exact Hd2]. simpl. rewrite He2. simpl. by rewrite set_if_set_if, set_if_self.
Qed.

(** What [create_page_dir] gives the process: an address space, or nothing but
    a message [cs] on the screen. *)
Definition space_made (cs sc sc' : list Z) (m : mem_state) (d : Z) : Prop :=
  (d = NULL /\ sc' = sc ++ cs) \/
  (d <> NULL /\ sc' = sc /\ exists f, page_frame (machine m) d = Some f /\ process_space (machine m) (machine m) f).

Lemma dir_sysm fuel cs s m l T pid hn ds sc :
  mem_ok m -> lock_free kernel_pool_lock (view sys_threads (sysm s m l T pid hn ds sc)) ->
  lock_free console_lock (view sys_threads (sysm s m l T pid hn ds sc)) -> cstring (s_bytes s) create_page_dir_msg cs ->
  wpu (create_page_dir (S fuel)) (sysm s m l T pid hn ds sc) (fun d s' => exists m' sc',
      s' = sysm s m' l T pid hn ds sc' /\ pages_taken PF_KERNEL m m' /\ space_made cs sc sc' m' d /\ spent 1 1 1 m m' /\
      (d = NULL -> forall i, ~ free_run (vaddr_bitmap (kernel_vaddr_pool m)) i 1))
    (malloc_panics PF_KERNEL m 1).
Proof.
  intros Hm Hl Hc Hs. eapply wpu_mono; [by apply (create_page_dir_ok fuel (sysm s m l T pid hn ds sc) cs) | | done].
  intros d s' [(-> & -> & Hno)|(Hd & m' & f & -> & D)].
  - exists m, (sc ++ cs). split; [done|]. split; [by apply pages_taken_refl|]. split; [by left|]. split; [|done].
    apply (spent_more 0 0 0); [lia..|]. by apply spent_none.
  - exists m', sc. split; [done|]. split; [by eapply dir_made_taken|]. split; [right; split; [done|]; split; [done|] | by split; [apply D|]].
    exists f. split; [apply (pa_frame _ _ _ (dm_page _ _ _ _ D)) | apply D].
Qed.

(** Memory that is enough for a process: a run of 25 free addresses (the task,
    the 23 pages of its bitmap, its directory), as many frames, and four for
    page tables. *)
Definition enough_for_process (m : mem_state) : Prop := supply PF_KERNEL m 25 25 4.

(** A process [p] has been made. *)
Record process_made (s s' : system) (p filename : Z) (nm cs : list Z) (L : gmap Z (list Z)) (q all : list Z)
    (Ls : gmap Z (list Z)) : Prop := {
  pc_page : vaddr_free (kernel_vaddr_pool (k_mem (s_kernel s))) p;
  pc_kernel : kernel_ok (s_kernel s') (both_lists L (q ++ [p]) (all ++ [p])) (q ++ [p]) (all ++ [p]);
  pc_task : exists dir pool bits,
    k_tasks (s_kernel s') = <[p := Task (p + 3664) (s16 (k_next_pid (s_kernel s) + 1)) TASK_READY
      (nm ++ drop (length nm) (replicate 16 0)) DEFAULT_PRIO DEFAULT_PRIO 0 dir pool STACK_MAGIC]> (k_tasks (s_kernel s)) /\
    user_pool pool bits /\ space_made cs (s_screen s) (s_screen s') (k_mem (s_kernel s')) dir /\
    (enough_for_process (k_mem (s_kernel s)) -> dir <> NULL);
  pc_starts : starts (machine (k_mem (s_kernel s'))) (p + 3664) kernel_thread_addr start_process_addr filename;
  pc_heap : exists Ls', heap_ok (view heap s') Ls' /\ (forall x sz, given (view heap s') Ls' x sz <-> given (view heap s) Ls x sz) /\
    forall i, 0 <= i < 7 -> s_descs s' !! (u_block_descs_of p + sizeof_block_desc * i) = Some (BlockDesc (bsz i) (bpa i)) /\
      Ls' !! free_list (u_block_descs_of p + sizeof_block_desc * i) = Some [];
  pc_rest : k_cur (s_kernel s') = k_cur (s_kernel s) /\ eflags (k_lst (s_kernel s')) = eflags (k_lst (s_kernel s)) /\
    k_next_pid (s_kernel s') = s16 (k_next_pid (s_kernel s) + 1) /\ s_arenas s' = s_arenas s;
}.

(** Requests for memory that has been used up in part, since [m0]. *)
Lemma spent_enough m0 m n f t k :
  spent n f t m0 m -> mem_ok m -> 0 <= n -> n + k <= 25 -> f + k <= 25 -> t + tables k <= 4 -> 0 < k ->
  lacking m k -> ~ enough_for_process m0.
Proof.
  intros Hs Hok Hn0 Hn Hf Ht Hk Hl He. pose proof (Hs 25 25 4 ltac:(lia) He) as Hleft. destruct Hl as [Hp|Hno].
  - apply (supply_no_panic PF_KERNEL m _ _ _ Hok ltac:(done) Hleft k); [lia..|exact Hp].
  - destruct (supply_run PF_KERNEL m _ _ _ Hleft k) as [i Hi]; [lia|]. by apply (Hno i).
Qed.

Definition process_task (p pid : Z) (nm : list Z) (pool : virtual_addr_pool) (dir : Z) : task_struct :=
  Task (p + 3664) pid TASK_READY (nm ++ drop (length nm) (replicate 16 0)) DEFAULT_PRIO DEFAULT_PRIO 0 dir pool STACK_MAGIC.

(** The state a process is made in: what the steps leave behind. *)
Record made_in (s s' : system) (p f filename : Z) (nm cs : list Z) (L : gmap Z (list Z)) (q all : list Z)
    (Ls Ls' : gmap Z (list Z)) (m : mem_state) (l : lstate) (hn : gmap Z list_node) (ds : gmap Z mem_block_desc)
    (dir : Z) (pool : virtual_addr_pool) (bits : Z) (sc : list Z) : Prop := {
  mi_state : s' = sysm s m l (<[p := process_task p (s16 (k_next_pid (s_kernel s) + 1)) nm pool dir]> (k_tasks (s_kernel s)))
    (s16 (k_next_pid (s_kernel s) + 1)) hn ds sc;
  mi_addr : 0 < p < 0xfffff000;
  mi_page : task_page (k_mem (s_kernel s)) m p f;
  mi_words : exists m0, forall j, 0 <= j < 1024 ->
    ram_word (machine m) (f + 4 * j) = ram_word (poke f (stack_words start_process_addr filename) m0) (f + 4 * j);
  mi_lists : list_post (fresh_nodes p (k_lst (s_kernel s))) (both_lists L (q ++ [p]) (all ++ [p])) l;
  mi_heap_lists : lists_ok hn Ls' /\ dom hn = dom (blank_headers (u_block_descs_of p) ∪ s_heap_nodes s);
  mi_descs : descs_made (u_block_descs_of p) 0 Ls Ls' (s_descs s) ds;
  mi_pool : user_pool pool bits;
  mi_space : space_made cs (s_screen s) sc m dir;
  mi_dir : enough_for_process (k_mem (s_kernel s)) -> dir <> NULL;
  mi_spent : spent 25 25 4 (k_mem (s_kernel s)) m;
}.

Section Made.
Context (s : system) (filename : Z) (nm cs : list Z) (L : gmap Z (list Z)) (q all : list Z) (Ls : gmap Z (list Z)).
Hypothesis Hok : kernel_ok (s_kernel s) L q all.
Hypothesis Hheap : heap_ok (view heap s) Ls.
Hypothesis Hkern : cur_pgdir (k_mem (s_kernel s)) = NULL.
Hypothesis Hfile : is_u32 filename.
Hypothesis Hstart : is_u32 start_process_addr.
Hypothesis Hthread : is_u32 kernel_thread_addr.

Lemma made_in_made s' p f Ls' m l hn ds dir pool bits sc :
  made_in s s' p f filename nm cs L q all Ls Ls' m l hn ds dir pool bits sc ->
  process_made s s' p filename nm cs L q all Ls.
Proof.
  intros [-> Ha Hp [m0 Hw] Hpost [Hl' Hd'] Hds Hpool Hsp Hdir _]. pose proof (tp_at _ _ _ _ Hp) as Hat. pose proof (tp_use _ _ _ _ Hp) as Hu.
  split.
  - apply Hp.
  - apply (joined_ok (s_kernel s)); try done.
    + apply (pt_ok _ _ _ (tp_taken _ _ _ _ Hp)).
    + apply Hp.
    + apply Hat.
    + intros v Hv. split; [by apply (pt_free _ _ _ (tp_taken _ _ _ _ Hp))|]. intros ->. by apply (proj1 (proj2 Hu)).
  - exists dir, pool, bits. done.
  - by apply (stack_starts_in m0 _ p f).
  - destruct (new_heap_ok (view heap s) Ls m p f Hheap Hkern Hp (LState hn (eflags l)) ds Ls' Hl' Hd' Hds) as [H1' H2'].
    exists Ls'. split; [exact H1'|]. split; [exact H2'|].
    intros i Hi. split; [exact (made_desc _ _ _ _ _ _ Hds i Hi) | exact (HeapInit.made_list _ _ _ _ _ _ Hds i Hi)].
  - split; [done|]. split; [|done]. by destruct Hpost as (_ & He & _).
Qed.

(** From the task with its pool of addresses on. *)
Lemma process_rest fuel p f m2 pool bits ts :
  lock_free console_lock (view sys_threads s) -> cstring (s_bytes s) create_page_dir_msg cs ->
  task_page (k_mem (s_kernel s)) m2 p f -> spent 24 24 3 (k_mem (s_kernel s)) m2 -> 0 < p < 0xfffff000 -> user_pool pool bits ->
  self_kstack ts = u32 (p + PG_SIZE) ->
  (forall dir, set_pgdir dir (set_self_kstack (p + 3664) ts) = process_task p (s16 (k_next_pid (s_kernel s) + 1)) nm pool dir) ->
  wpu (zoom sys_threads (thread_create p start_process_addr filename) ;;; dir ← create_page_dir (S fuel);
      zoom sys_threads (update_task p (set_pgdir dir)) ;;; zoom heap (block_desc_init (u_block_descs_of p)) ;;;
      zoom sys_threads (old_status ← kflags intr_disable; enlist_ready p ;;; enlist_all p ;;;
        _ ← kflags (set_intr_status old_status); mret tt))
    (sysm s m2 (fresh_nodes p (k_lst (s_kernel s))) (<[p := ts]> (k_tasks (s_kernel s))) (s16 (k_next_pid (s_kernel s) + 1))
      (blank_headers (u_block_descs_of p) ∪ s_heap_nodes s) (s_descs s) (s_screen s))
    (fun _ s' => exists Ls' m l hn ds dir sc, made_in s s' p f filename nm cs L q all Ls Ls' m l hn ds dir pool bits sc)
    (~ enough_for_process (k_mem (s_kernel s))).
Proof.
  intros Hcon Hcs Hp2 Hsp2 Ha Hpool Hk Hts. pose proof (ko_sched _ _ _ _ Hok) as Hs. set (k := s_kernel s) in *.
  assert (lock_free kernel_pool_lock (view sys_threads s)) as Hpl by (eapply lock_idle_free; [exact Hs | apply Hok]).
  pose proof Hs as [[Hl Hr _ _ _ _] _]. pose proof (pa_aligned _ _ _ (tp_at _ _ _ _ Hp2)) as Hal.
  destruct (fresh_page_facts k L q all p Hok (tp_free _ _ _ _ Hp2) Hal) as (Hall & Hq & Hg & Ht & _).
  assert (nodes (k_lst k) ⊆ nodes (fresh_nodes p (k_lst k))) as Hsub by by apply fresh_nodes_weaken.
  apply wpu_bind. eapply wpu_mono; [eapply stack_sysm; [exact Ha | apply Hp2 | exact Hk | done..] | | done]. intros [] ? ->.
  pose proof (task_page_poke _ _ _ _ _ Hp2 (stack_words_ok _ _ Hthread Hstart Hfile)) as Hp3.
  pose proof (spent_poke _ _ _ _ _ (poke f (stack_words start_process_addr filename) (machine m2)) Hsp2) as Hsp3.
  set (m3 := put machine_lens _ m2) in *. pose proof (pt_ok _ _ _ (tp_taken _ _ _ _ Hp3)) as Hok3.
  apply wpu_bind. eapply wpu_mono; [eapply dir_sysm; [apply (pt_ok _ _ _ (tp_taken _ _ _ _ Hp3)) | by apply lock_free_sysm | by apply lock_free_sysm | exact Hcs] | |].
  2: { intros Hlack. apply (spent_enough _ m3 24 24 3 1 Hsp3 Hok3); (done || by left). }
  intros dir ? (m4 & sc & -> & Ht4 & Hsp & Hsp4 & Hnull). destruct (task_page_kept _ _ _ _ _ Hp3 Ht4) as [Hp4 Hw].
  apply wpu_bind. eapply wpu_mono; [apply update_sysm | | done]. intros [] ? ->. rewrite Hts.
  apply wpu_bind. eapply wpu_mono; [apply (descs_sysm _ Ls) | | done].
  { by apply (blank_headers_ok (view heap s) Ls m4 p f). }
  { by apply (blank_lists (view heap s) Ls m4 p f). }
  intros [] ? (hn' & ds' & Ls' & -> & Hl' & Hd' & Hds).
  eapply wpu_mono; [eapply (enlist_sysm p L q all); try done | | done].
  { by apply (lists_ok_weaken _ _ _ Hsub). }
  { apply Hok. }
  { apply Hok. }
  { apply (unlinked_fresh _ _ _ _ Hl Hg). simpl. rewrite !dom_insert_L. set_solver. }
  { apply (unlinked_fresh _ _ _ _ Hl Ht). simpl. rewrite !dom_insert_L. set_solver. }
  intros [] ? (l' & -> & Hpost). exists Ls', m4, l', hn', ds', dir, sc. split; try done; [by exists (machine m2) | |].
  - intros He Hd. apply (spent_enough _ m3 24 24 3 1 Hsp3 Hok3); try done. right. by apply Hnull.
  - exact (spent_trans 24 24 3 1 1 1 _ _ _ ltac:(lia) Hsp3 Hsp4).
Qed.

Lemma process_steps fuel :
  lock_free console_lock (view sys_threads s) -> cstring (s_bytes s) create_page_dir_msg cs -> name_ok nm ->
  wpu (process_execute (S fuel) filename nm) s (fun _ s' => exists p f Ls' m l hn ds dir pool bits sc,
    made_in s s' p f filename nm cs L q all Ls Ls' m l hn ds dir pool bits sc) (~ enough_for_process (k_mem (s_kernel s))).
Proof.
  intros Hcon Hcs Hnm. pose proof (ko_mem _ _ _ _ Hok) as Hmem. pose proof (ko_sched _ _ _ _ Hok) as Hs.
  assert (lock_free kernel_pool_lock (view sys_threads s)) as Hpl by (eapply lock_idle_free; [exact Hs | apply Hok]).
  assert (lock_free pid_lock (view sys_threads s)) as Hid by (eapply lock_idle_free; [exact Hs | apply Hok]).
  eapply wpu_at; [apply sysm_self|]. set (k := s_kernel s) in *. unfold process_execute.
  apply wpu_bind. eapply wpu_mono; [apply get_pages_sysm; [done|] | |].
  3: { intros ?. apply (spent_enough _ (k_mem k) 0 0 0 1); try done; [by apply spent_none | by left]. }
  { by apply lock_free_sysm. }
  intros p s1 [(-> & -> & Hno)|(m1 & -> & Hp & G1)].
  { unfold wpu. simpl. apply (spent_enough _ (k_mem k) 0 0 0 1); try done; [by apply spent_none | by right]. }
  destruct (task_page_got _ _ _ Hmem G1) as (f & Hp1 & Ha & Hal). pose proof (spent_got _ _ _ _ G1 ltac:(lia)) as Hsp1.
  destruct (fresh_page_facts k L q all p Hok (tp_free _ _ _ _ Hp1) Hal) as (_ & _ & Hg & Ht & Hmain & _).
  assert (nodes (k_lst k) ⊆ nodes (fresh_nodes p (k_lst k))) as Hsub by by apply fresh_nodes_weaken.
  apply wpu_bind, wpu_wp, wp_gets. simpl k_main_thread.
  apply wpu_bind. eapply wpu_mono; [apply init_sysm; [done | done | by apply lock_free_sysm] | | done]. intros [] ? ->.
  apply wpu_bind, wpu_wp, wp_modify. set (hn := blank_headers (u_block_descs_of p) ∪ s_heap_nodes s).
  match goal with |- wpu _ ?x _ _ => change x with (sysm s m1 (fresh_nodes p (k_lst k))
    (<[p := new_task (k_main_thread k) p (s16 (k_next_pid k + 1)) DEFAULT_PRIO nm]> (k_tasks k))
    (s16 (k_next_pid k + 1)) hn (s_descs s) (s_screen s)) end.
  apply wpu_bind. eapply wpu_mono; [apply user_bitmap_sysm; [apply (gp_ok _ _ _ _ _ G1) | by apply lock_free_sysm] | |].
  2: { intros Hlack. apply (spent_enough _ m1 1 1 1 23 Hsp1 (gp_ok _ _ _ _ _ G1)); done. }
  intros [] ? (m2 & bits & pool & G2 & Hpool & ->).
  destruct (task_page_kept _ _ _ _ _ Hp1 (got_pages_taken _ _ _ _ _ G2)) as [Hp2 _].
  pose proof (spent_trans 1 1 1 23 23 2 _ _ _ ltac:(lia) Hsp1 (spent_got _ _ _ _ G2 ltac:(lia))) as Hsp2.
  eapply wpu_mono; [apply (process_rest fuel p f m2 pool bits); try done | | done].
  { intros dir. unfold process_task, new_task. simpl. by rewrite Hmain. }
  { intros [] s' (Ls' & m & l & hn' & ds & dir & sc & Hin). by exists p, f, Ls', m, l, hn', ds, dir, pool, bits, sc. }
Qed.

(** ** Properties *)

(** C31: [process_execute], called by a kernel thread, makes a process: a page
    that was free holds its task, the last of the ready threads and of all
    threads, with the next pid, priority 31, a pool of the addresses from
    0x8048000 to the kernel with none taken, and descriptors of empty free
    lists for its heap; when it is first chosen it enters [start_process] with
    its program.  The kernel's invariant and its heap, with all that was
    allocated, survive.  With memory enough for a process at the start (a run
    of 25 free addresses, 25 free frames and four for tables) it never stops the
    machine, and the process has a directory that maps the kernel and nothing
    else; with less it may stop the machine, or leave the process with no
    directory, after a message. *)
Theorem process_execute_correct (fuel : nat)
    (Hcon : lock_free console_lock (view sys_threads s)) (Hcs : cstring (s_bytes s) create_page_dir_msg cs) (Hnm : name_ok nm) :
  wpu (process_execute (S fuel) filename nm) s
    (fun _ s' => exists p, process_made s s' p filename nm cs L q all Ls) (~ enough_for_process (k_mem (s_kernel s))).
Proof.
  eapply wpu_mono; [by apply process_steps | | done]. intros [] s' (p & f & Ls' & m & l & hn & ds & dir & pool & bits & sc & Hin).
  exists p. by eapply made_in_made.
Qed.

(** [create_user_vaddr_bitmap] gives a task the addresses from 0x8048000 up
    to the kernel, none taken, in 23 pages of kernel memory for the bitmap; it
    stops the machine, instead of reporting it, when they are not to be had. *)
Theorem create_user_vaddr_bitmap_correct (p : Z) (ts : task_struct) (m : mem_state) (l : lstate) (T : gmap Z task_struct)
    (Hm : mem_ok m) (Hl : lock_free kernel_pool_lock (view sys_threads s)) (Hsub : nodes (k_lst (s_kernel s)) ⊆ nodes l) :
  let s0 := sysm s m l (<[p := ts]> T) (k_next_pid (s_kernel s)) (s_heap_nodes s) (s_descs s) (s_screen s) in
  wpu (create_user_vaddr_bitmap p) s0 (fun _ s' => exists m' bits pool,
      got_pages PF_KERNEL m m' bits 23 /\ bitmap_ok (vaddr_bitmap pool) /\ bits_addr (vaddr_bitmap pool) = bits /\
      (forall va, vaddr_free pool va <-> va mod 4096 = 0 /\ USER_VADDR_START <= va < 0xc0000000) /\
      s' = sysm s m' l (<[p := set_vaddr_pool pool ts]> T) (k_next_pid (s_kernel s)) (s_heap_nodes s) (s_descs s) (s_screen s))
    (lacking m 23).
Proof.
  intros s0. eapply wpu_mono; [apply user_bitmap_sysm; [done | by apply lock_free_sysm] | | done].
  intros [] s' (m' & a & pool & G & [U1 U2 _ U4] & ->). by exists m', a, pool.
Qed.
End Made.
End ProcessProofs.

(** *** Concrete instance: the kernel of [ThreadCreate] with the heap of [HeapInit] *)
#[local] Existing Instance ThreadCreate.example_layout.
#[local] Existing Instance ThreadCreate.example_pools.
#[local] Existing Instance ThreadCreate.example_text.
#[local] Instance example_console : ConsoleLayout := {| console_lock := 0x10040 |}.
#[local] Instance example_dir_msg : PageDirText := {| create_page_dir_msg := 0x500 |}.
#[local] Instance example_entry : ProcessText := {| start_process_addr := 0xc0001900 |}.

Definition example_process_system (k : kernel) (h : heap_state) : system :=
  System.System k (nodes (hlists h)) (arenas h) (descs h) (k_block_descs h) (u_block_descs h) {[0x500 := 72; 0x501 := 0]} [] [].

Lemma example_process_heap k h Ls : heap_ok h Ls -> hmem h = k_mem k -> heap_ok (view heap (example_process_system k h)) Ls.
Proof.
  intros Hh Hm. apply (heap_ok_flags (eflags (k_lst k))) in Hh. destruct h as [[] ? ? ? ? ?]. simpl in Hm. by subst.
Qed.

Lemma example_process_start : exists s L q all Ls, kernel_ok (s_kernel s) L q all /\ heap_ok (view heap s) Ls /\
  k_mem (s_kernel s) = example_mem /\ lock_free console_lock (view sys_threads s) /\ cstring (s_bytes s) create_page_dir_msg [72].
Proof.
  destruct example_kernel_ok as [l Hok]. destruct example_heap_exists as (h & Ls & Hh & _ & Hm & _).
  exists (example_process_system (with_main example_raw_kernel l) h), (main_lists example_kernel_lists 0x1000), [], [0x1000], Ls.
  split; [exact Hok|]. split; [apply example_process_heap; [exact Hh | exact Hm]|]. split; [done|].
  split; [|by repeat split; repeat constructor].
  exact (lock_idle_free kernel_pool_lock _ _ _ (ko_sched _ _ _ _ Hok) (ko_pool_lock _ _ _ _ Hok)).
Qed.

Lemma process_execute_correct_witness : exists s L q all Ls s' p,
  undisturbed (process_execute 1 0x8048000 [112] s) = Ok (tt, s') /\
  process_made s s' p 0x8048000 [112] [72] L q all Ls /\ enough_for_process (k_mem (s_kernel s)).
Proof.
  destruct example_process_start as (s & L & q & all & Ls & Hok & Hh & Hm & Hc & Hs).
  assert (enough_for_process (k_mem (s_kernel s))) as He.
  { rewrite Hm. unfold enough_for_process. by apply (supply_less _ _ 30 30 30 example_supply). }
  destruct (wpu_outcome _ _ _ _ (process_execute_correct s 0x8048000 [112] [72] L q all Ls Hok Hh ltac:(by rewrite Hm)
    ltac:(split; vm_compute; congruence) ltac:(split; vm_compute; congruence) ltac:(split; vm_compute; congruence)
    0 Hc Hs ltac:(split; [by repeat constructor | simpl; lia]))) as [([] & s' & E & p & Hp)|[_ Hno]]; [|exfalso; exact (Hno He)].
  exists s, L, q, all, Ls, s', p. split; [exact E|]. split; [exact Hp | exact He].
Defined.

Lemma create_user_vaddr_bitmap_correct_witness : exists s p ts m,
  wpu (create_user_vaddr_bitmap p) (sysm s m (k_lst (s_kernel s)) (<[p := ts]> (k_tasks (s_kernel s))) (k_next_pid (s_kernel s))
      (s_heap_nodes s) (s_descs s) (s_screen s))
    (fun _ s' => exists pool, vaddr_free pool 0x8048000 /\ k_tasks (s_kernel s') !! p = Some (set_vaddr_pool pool ts)) (lacking m 23).
Proof.
  destruct example_process_start as (s & L & q & all & Ls & Hok & _). exists s, 0xc0101000, zero_task, (k_mem (s_kernel s)).
  eapply wpu_mono; [apply (create_user_vaddr_bitmap_correct s 0xc0101000 zero_task (k_mem (s_kernel s))); [apply Hok | | done] | | done].
  2: { intros [] s' (m' & bits & pool & _ & _ & _ & Hf & ->). exists pool. split; [by apply Hf | apply lookup_insert_eq]. }
  exact (lock_idle_free kernel_pool_lock _ _ _ (ko_sched _ _ _ _ Hok) (ko_pool_lock _ _ _ _ Hok)).
Defined.
