(* ===== verification/IoQueue.v ===== *)
(** * The ring buffer between the keyboard and its readers: device/ioqueue.c,
      device/ioqueue.h

    A queue of 63 bytes in a ring of 64, with at most one producer and one
    consumer asleep on it.  A queue lies at an address; its lock is its first
    field and so has the same address. *)
From stdpp Require Import base numbers list gmap fin_maps.
From Stdlib Require Import ZArith Lia.
From S2P Require Import Prelude Globals Interrupt LinkedList Bitmap Paging PageAlloc Thread Sync PoolLocks.

Definition bufsize : Z := 64.

(** [struct ioqueue] without its lock. *)
Record ioqueue := IOQueue {
  producer : Z;
  consumer : Z;
  buf : list Z;
  head : Z;
  tail : Z;
}.

Record io_state := IO { queues : gmap Z ioqueue; kst : kstate }.

Definition kst_lens : lens io_state kstate.
Proof. by refine {| view := kst; put := fun x s => IO (queues s) x |}; intros; try destruct s. Defined.

Definition on_kst {A} (m : M kstate A) : M io_state A := zoom kst_lens m.

Definition queue_at (ioq : Z) : M io_state ioqueue := s ← get; from_option_M (queues s !! ioq).

Definition put_queue (ioq : Z) (q : ioqueue) (s : io_state) : io_state := IO (<[ioq := q]> (queues s)) (kst s).

Definition set_queue (ioq : Z) (f : ioqueue -> ioqueue) : M io_state unit :=
  q ← queue_at ioq; modify (put_queue ioq (f q)).

(** The two fields of type [struct task_struct *] the code passes by address. *)
Inductive waiting := PRODUCER | CONSUMER.

Definition waiter (w : waiting) (q : ioqueue) : Z :=
  match w with PRODUCER => producer q | CONSUMER => consumer q end.

Definition with_waiter (w : waiting) (t : Z) (q : ioqueue) : ioqueue :=
  match w with
  | PRODUCER => IOQueue t (consumer q) (buf q) (head q) (tail q)
  | CONSUMER => IOQueue (producer q) t (buf q) (head q) (tail q)
  end.

(** ** Operations *)
Section IoQueue.
Context `{!Layout}.

Definition ioqueue_init (ioq : Z) : M io_state unit :=
  on_kst (lock_init ioq) ;;;
  set_queue ioq (with_waiter PRODUCER NULL) ;;;
  set_queue ioq (with_waiter CONSUMER NULL) ;;;
  set_queue ioq (fun q => IOQueue (producer q) (consumer q) (buf q) 0 (tail q)) ;;;
  set_queue ioq (fun q => IOQueue (producer q) (consumer q) (buf q) (head q) 0).

Definition next_pos (pos : Z) : Z := s32 (u32 (u32 pos + 1) mod bufsize).

Definition intr_is_off : M io_state bool :=
  st ← on_kst (kflags get_intr_status); mret (bool_decide (st = INTR_OFF)).

Definition ioq_full (ioq : Z) : M io_state bool :=
  off ← intr_is_off; ASSERT off ;;;
  q ← queue_at ioq; mret (next_pos (head q) =? tail q).

Definition ioq_empty (ioq : Z) : M io_state bool :=
  off ← intr_is_off; ASSERT off ;;;
  q ← queue_at ioq; mret (head q =? tail q).

Definition ioq_wait (ioq : Z) (w : waiting) : M io_state unit :=
  q ← queue_at ioq;
  ASSERT (waiter w q =? NULL) ;;;
  t ← on_kst running_thread;
  set_queue ioq (with_waiter w t) ;;;
  on_kst (thread_block TASK_BLOCKED).

Definition wakeup (ioq : Z) (w : waiting) : M io_state unit :=
  q ← queue_at ioq;
  ASSERT (negb (waiter w q =? NULL)) ;;;
  on_kst (thread_unblock (waiter w q)) ;;;
  set_queue ioq (with_waiter w NULL).

(** [while (cond(ioq)) {...}], with the number of looks as fuel, and that of
    the semaphore's loop. *)
Fixpoint wait_loop (fuel sfuel : nat) (cond : M io_state bool) (ioq : Z) (w : waiting) : M io_state unit :=
  match fuel with
  | O => nofuel
  | S fuel' =>
      c ← cond;
      if c : bool then
        on_kst (lock_acquire sfuel ioq) ;;;
        ioq_wait ioq w ;;;
        on_kst (lock_release ioq) ;;;
        wait_loop fuel' sfuel cond ioq w
      else mret tt
  end.

Definition ioq_getchar (fuel sfuel : nat) (ioq : Z) : M io_state Z :=
  off ← intr_is_off; ASSERT off ;;;
  wait_loop fuel sfuel (ioq_empty ioq) ioq CONSUMER ;;;
  q ← queue_at ioq;
  byte ← from_option_M (array_get (buf q) (tail q));
  set_queue ioq (fun q => IOQueue (producer q) (consumer q) (buf q) (head q) (next_pos (tail q))) ;;;
  q ← queue_at ioq;
  when (negb (producer q =? NULL)) (wakeup ioq PRODUCER) ;;;
  mret byte.

Definition ioq_putchar (fuel sfuel : nat) (ioq byte : Z) : M io_state unit :=
  off ← intr_is_off; ASSERT off ;;;
  wait_loop fuel sfuel (ioq_full ioq) ioq PRODUCER ;;;
  q ← queue_at ioq;
  b ← from_option_M (array_set (buf q) (head q) byte);
  set_queue ioq (fun q => IOQueue (producer q) (consumer q) b (head q) (tail q)) ;;;
  set_queue ioq (fun q => IOQueue (producer q) (consumer q) (buf q) (next_pos (head q)) (tail q)) ;;;
  q ← queue_at ioq;
  when (negb (consumer q =? NULL)) (wakeup ioq CONSUMER).
End IoQueue.

(** ** The ring as a sequence *)
Record ring_ok (q : ioqueue) : Prop := {
  ro_buf : length (buf q) = 64%nat;
  ro_bytes : Forall is_u8 (buf q);
  ro_head : 0 <= head q < bufsize;
  ro_tail : 0 <= tail q < bufsize;
}.

Definition used (q : ioqueue) : Z := (head q - tail q) mod bufsize.

Definition slot (q : ioqueue) (k : Z) : Z := default 0 (buf q !! Z.to_nat ((tail q + k) mod bufsize)).

(** The bytes in the queue, the oldest first. *)
Definition contents (q : ioqueue) : list Z := slot q <$> seqZ 0 (used q).

Ltac ring_lia := unfold bufsize in *; Z.div_mod_to_equations; lia.

Lemma used_range q : 0 <= used q < bufsize.
Proof. apply Z.mod_pos_bound. done. Qed.

Lemma length_contents q : Z.of_nat (length (contents q)) = used q.
Proof. unfold contents. rewrite length_fmap, length_seqZ. pose proof (used_range q). lia. Qed.

Lemma next_pos_mod p : 0 <= p < bufsize -> next_pos p = (p + 1) mod bufsize.
Proof.
  intros Hp. unfold next_pos. assert (is_u32 p) by (unfold is_u32, bufsize in *; lia).
  rewrite (u32_id p), (u32_id (p + 1)) by (unfold is_u32, bufsize in *; lia).
  pose proof (Z.mod_pos_bound (p + 1) bufsize). apply s32_id. unfold bufsize in *; lia.
Qed.

Lemma full_used q : ring_ok q -> (next_pos (head q) =? tail q) = (used q =? 63).
Proof.
  intros [_ _ Hh Ht]. rewrite next_pos_mod by done. unfold used.
  destruct (Z.eqb_spec ((head q + 1) mod bufsize) (tail q)), (Z.eqb_spec ((head q - tail q) mod bufsize) 63); try done; ring_lia.
Qed.

Lemma empty_used q : ring_ok q -> (head q =? tail q) = (used q =? 0).
Proof.
  intros [_ _ Hh Ht]. unfold used.
  destruct (Z.eqb_spec (head q) (tail q)), (Z.eqb_spec ((head q - tail q) mod bufsize) 0); try done; ring_lia.
Qed.

(** The queue after a byte has been put in, and after one has been taken. *)
Definition enqueued (b : Z) (q : ioqueue) : ioqueue :=
  IOQueue (producer q) (consumer q) (<[Z.to_nat (head q) := b]> (buf q)) (next_pos (head q)) (tail q).

Definition dequeued (q : ioqueue) : ioqueue :=
  IOQueue (producer q) (consumer q) (buf q) (head q) (next_pos (tail q)).

Lemma enqueued_ok b q : ring_ok q -> is_u8 b -> ring_ok (enqueued b q).
Proof.
  intros [H1 H2 H3 H4] Hb. split; simpl; [by rewrite length_insert | by apply Forall_insert | | done].
  rewrite next_pos_mod by done. by apply Z.mod_pos_bound.
Qed.

Lemma dequeued_ok q : ring_ok q -> ring_ok (dequeued q).
Proof.
  intros [H1 H2 H3 H4]. split; simpl; try done. rewrite next_pos_mod by done. by apply Z.mod_pos_bound.
Qed.

Lemma contents_enqueued b q : ring_ok q -> used q < 63 -> contents (enqueued b q) = contents q ++ [b].
Proof.
  intros Hq Hu. pose proof Hq as [H1 _ H3 H4]. pose proof (used_range q) as Hr.
  assert (used (enqueued b q) = used q + 1) as E.
  { unfold used in *. simpl. rewrite next_pos_mod by done. ring_lia. }
  unfold contents. rewrite E, seqZ_app, fmap_app by lia. f_equal.
  - apply list_fmap_ext. intros i k Hk. apply lookup_seqZ in Hk as [-> Hk]. unfold slot. simpl.
    rewrite list_lookup_insert_ne; [done|]. unfold used in *. intros E2. apply Z2Nat.inj in E2; try ring_lia.
  - simpl. f_equal. unfold slot. simpl.
    replace ((tail q + (Z.of_nat 0 + (0 + used q))) mod bufsize) with (head q) by (unfold used in *; ring_lia).
    rewrite list_lookup_insert_eq; [done|]. unfold bufsize in *. lia.
Qed.

Lemma contents_dequeued q : ring_ok q -> 0 < used q ->
  exists b, array_get (buf q) (tail q) = Some b /\ contents q = b :: contents (dequeued q) /\ is_u8 b.
Proof.
  intros Hq Hu. pose proof Hq as [H1 H2 H3 H4].
  destruct (array_get_is_Some (buf q) (tail q)) as [b Hb]; [unfold bufsize in *; lia|]. exists b. split; [done|].
  assert (buf q !! Z.to_nat (tail q) = Some b) as Hl.
  { unfold array_get in Hb. by destruct (0 <=? tail q). }
  split; [|by eapply Forall_lookup_1].
  assert (used (dequeued q) = used q - 1) as E.
  { unfold used in *. simpl. rewrite next_pos_mod by done. ring_lia. }
  unfold contents. rewrite (seqZ_cons 0) by done. simpl. f_equal.
  - unfold slot. rewrite Z.add_0_r, Z.mod_small by done. by rewrite Hl.
  - rewrite E. replace (seqZ (Z.succ 0) (Z.pred (used q))) with (Z.add 1 <$> seqZ 0 (used q - 1)).
    2: { rewrite fmap_add_seqZ. f_equal; lia. }
    rewrite <- list_fmap_compose. apply list_fmap_ext. intros i k Hk. simpl. unfold slot. simpl.
    rewrite next_pos_mod by done. do 3 f_equal. rewrite Z.add_mod_idemp_l by done. f_equal. lia.
Qed.

(** ** Steps *)
Lemma queue_at_eq ioq q s : queues s !! ioq = Some q -> queue_at ioq s = Ok (q, s).
Proof. intros Hq. unfold queue_at, mbind, M_bind, get. simpl. by rewrite Hq. Qed.

Lemma set_queue_eq ioq f q s : queues s !! ioq = Some q -> set_queue ioq f s = Ok (tt, put_queue ioq (f q) s).
Proof. intros Hq. unfold set_queue. by erewrite bind_ok by (by apply queue_at_eq). Qed.

Lemma put_kst s : IO (queues s) (kst s) = s.
Proof. by destruct s. Qed.

Lemma intr_is_off_eq s : if_flag (eflags (lst (kst s))) = false -> intr_is_off s = Ok (true, s).
Proof.
  intros Hif. unfold intr_is_off, on_kst. assert (kflags get_intr_status (kst s) = Ok (INTR_OFF, kst s)) as E.
  { unfold kflags. erewrite zoom_ok by apply get_intr_status_eq. simpl. rewrite Hif. by destruct (kst s) as [[]]. }
  erewrite bind_ok by (apply zoom_ok; exact E). by destruct s.
Qed.

Section IoQueueProofs.
Context `{!Layout}.

Lemma ioq_full_eq s ioq q :
  if_flag (eflags (lst (kst s))) = false -> queues s !! ioq = Some q -> ring_ok q ->
  ioq_full ioq s = Ok (used q =? 63, s).
Proof.
  intros Hif Hq Hr. unfold ioq_full. erewrite bind_ok by (by apply intr_is_off_eq). erewrite bind_ok by done.
  erewrite bind_ok by (by apply queue_at_eq). by rewrite full_used.
Qed.

Lemma ioq_empty_eq s ioq q :
  if_flag (eflags (lst (kst s))) = false -> queues s !! ioq = Some q -> ring_ok q ->
  ioq_empty ioq s = Ok (used q =? 0, s).
Proof.
  intros Hif Hq Hr. unfold ioq_empty. erewrite bind_ok by (by apply intr_is_off_eq). erewrite bind_ok by done.
  erewrite bind_ok by (by apply queue_at_eq). by rewrite empty_used.
Qed.

Lemma wait_loop_pass fuel sfuel cond ioq w s :
  cond s = Ok (false, s) -> wait_loop (S fuel) sfuel cond ioq w s = Ok (tt, s).
Proof. intros E. simpl. by erewrite bind_ok by exact E. Qed.

(** The sleeper [t], if there is one, is woken. *)
Definition woken (t : Z) (k k' : kstate) : Prop :=
  if t =? NULL then k' = k else thread_unblock t k = Ok (tt, k').

Lemma wake_eq ioq w q s k' :
  queues s !! ioq = Some q -> woken (waiter w q) (kst s) k' ->
  when (negb (waiter w q =? NULL)) (wakeup ioq w) s = Ok (tt, IO (<[ioq := with_waiter w NULL q]> (queues s)) k').
Proof.
  intros Hq Hw. unfold woken in Hw. destruct (Z.eqb_spec (waiter w q) NULL) as [E|E]; simpl.
  - assert (with_waiter w NULL q = q) as -> by (destruct w, q; simpl in *; by rewrite E).
    rewrite insert_id by done. subst k'. by destruct s.
  - unfold wakeup. erewrite bind_ok by (by apply queue_at_eq). destruct (Z.eqb_spec (waiter w q) NULL); [done|].
    erewrite bind_ok by done. erewrite bind_ok by (unfold on_kst; apply zoom_ok; exact Hw).
    by erewrite set_queue_eq.
Qed.

Lemma ioq_putchar_eq fuel sfuel s ioq q b k' :
  if_flag (eflags (lst (kst s))) = false -> queues s !! ioq = Some q -> ring_ok q -> used q < 63 ->
  woken (consumer q) (kst s) k' ->
  ioq_putchar (S fuel) sfuel ioq b s = Ok (tt, IO (<[ioq := with_waiter CONSUMER NULL (enqueued b q)]> (queues s)) k').
Proof.
  intros Hif Hq Hr Hu Hw. unfold ioq_putchar. erewrite bind_ok by (by apply intr_is_off_eq). erewrite bind_ok by done.
  erewrite bind_ok.
  2: { apply wait_loop_pass. erewrite ioq_full_eq by done. by destruct (Z.eqb_spec (used q) 63); [lia|]. }
  erewrite bind_ok by (by apply queue_at_eq).
  assert (array_set (buf q) (head q) b = Some (<[Z.to_nat (head q) := b]> (buf q))) as Es.
  { destruct Hr. apply array_set_eq. unfold bufsize in *. lia. }
  rewrite Es. erewrite bind_ok by done. erewrite bind_ok by (by apply set_queue_eq).
  erewrite bind_ok by (apply set_queue_eq, lookup_insert_eq). erewrite bind_ok by (apply queue_at_eq, lookup_insert_eq).
  simpl. unfold put_queue. simpl. rewrite insert_insert_eq.
  pose proof (wake_eq ioq CONSUMER (enqueued b q) (put_queue ioq (enqueued b q) s) k' (lookup_insert_eq _ _ _) Hw) as E.
  simpl in E. rewrite insert_insert_eq in E. exact E.
Qed.

Lemma ioq_getchar_eq fuel sfuel s ioq q b k' :
  if_flag (eflags (lst (kst s))) = false -> queues s !! ioq = Some q -> ring_ok q -> 0 < used q ->
  array_get (buf q) (tail q) = Some b -> woken (producer q) (kst s) k' ->
  ioq_getchar (S fuel) sfuel ioq s = Ok (b, IO (<[ioq := with_waiter PRODUCER NULL (dequeued q)]> (queues s)) k').
Proof.
  intros Hif Hq Hr Hu Hb Hw. unfold ioq_getchar. erewrite bind_ok by (by apply intr_is_off_eq). erewrite bind_ok by done.
  erewrite bind_ok.
  2: { apply wait_loop_pass. erewrite ioq_empty_eq by done. by destruct (Z.eqb_spec (used q) 0); [lia|]. }
  erewrite bind_ok by (by apply queue_at_eq). rewrite Hb. erewrite bind_ok by done.
  erewrite bind_ok by (by apply set_queue_eq). erewrite bind_ok by (apply queue_at_eq, lookup_insert_eq).
  pose proof (wake_eq ioq PRODUCER (dequeued q) (put_queue ioq (dequeued q) s) k' (lookup_insert_eq _ _ _) Hw) as E.
  simpl in E. rewrite insert_insert_eq in E. by erewrite bind_ok by exact E.
Qed.
(** A sleeper is blocked and in no list. *)
Definition asleep (t : Z) (k : kstate) (L : gmap Z (list Z)) : Prop :=
  exists ts, tasks k !! t = Some ts /\ status ts = TASK_BLOCKED /\ unlinked (nodes (lst k)) L (general_tag t).

Lemma asleep_woken t k L r :
  sched_ok k L r -> (t <> NULL -> asleep t k L) -> exists k', woken t k k' /\
    (if t =? NULL then k' = k else exists L', sched_ok k' L' (t :: r)) /\ eflags (lst k') = eflags (lst k).
Proof.
  intros Hs Ha. unfold woken. destruct (Z.eqb_spec t NULL) as [E|E]; [by exists k|].
  destruct (Ha E) as (ts & Ht & Hb & Hun). pose proof (thread_unblock_spec k L r t ts Hs Ht Hun) as Hsp.
  assert (can_block (status ts) = true) as Hc by (by rewrite Hb). rewrite Hc in Hsp.
  destruct Hsp as (l & Eu & He & _ & Hs'). exists (unblocked t k ts l). split; [exact Eu|]. split; [by eexists | exact He].
Qed.

(** *** A reader finds the queue empty *)
Lemma ioq_wait_eq s ioq q w L ts next rest nts :
  queues s !! ioq = Some q -> waiter w q = NULL -> sched_ok (kst s) L (next :: rest) ->
  tasks (kst s) !! cur (kst s) = Some ts -> status ts = TASK_RUNNING ->
  tasks (kst s) !! next = Some nts -> dir_ok (kst s) nts ->
  exists l k, let k' := scheduled (blocking TASK_BLOCKED (kst s) ts) (set_status TASK_BLOCKED ts) next nts l in
    ioq_wait ioq w s = Switched (IO (<[ioq := with_waiter w (cur (kst s)) q]> (queues s)) k') k /\
    sched_ok k' (<[thread_ready_list := general_tag <$> rest]> L) rest /\
    forall s'', k s'' = Ok (tt, IO (queues s'') (with_if (if_flag (eflags (lst (kst s)))) (kst s''))).
Proof.
  intros Hq Hw Hs Hts Hst Hn Hd.
  pose proof (thread_block_spec (kst s) L _ ts TASK_BLOCKED (so_queue _ _ _ Hs) (sched_only_running _ _ _ Hs) Hts Hst
    eq_refl nts Hn Hd) as (l & k & _ & _ & Hs' & E & Hk).
  exists l. eexists. split; [|split; [exact Hs'|]].
  - unfold ioq_wait. erewrite bind_ok by (by apply queue_at_eq). rewrite Hw. erewrite bind_ok by done.
    erewrite bind_ok by (unfold on_kst, running_thread; apply zoom_ok; done). erewrite bind_ok by (by apply set_queue_eq).
    unfold on_kst. erewrite zoom_switched; [reflexivity|]. exact E.
  - intros s''. simpl. by rewrite Hk.
Qed.

Lemma with_if_off k : if_flag (eflags (lst k)) = false -> with_if false k = k.
Proof.
  intros Hif. unfold with_if. rewrite <- Hif, set_if_self. by destruct k as [[]].
Qed.

(** [taken] keeps the scheduler's facts. *)
Lemma taken_sched_ok p k L r : sched_ok k L r -> sched_ok (taken p k) L r.
Proof. intros [[] Hr]. split; [split|]; done. Qed.

Lemma wait_loop_sleeps fuel cond s ioq q w L ts next rest nts :
  cond s = Ok (true, s) -> if_flag (eflags (lst (kst s))) = false ->
  queues s !! ioq = Some q -> waiter w q = NULL -> lock_free ioq (kst s) ->
  sched_ok (kst s) L (next :: rest) -> tasks (kst s) !! cur (kst s) = Some ts -> status ts = TASK_RUNNING ->
  tasks (kst s) !! next = Some nts -> dir_ok (kst s) nts ->
  exists l k, let k' := scheduled (blocking TASK_BLOCKED (taken ioq (kst s)) ts) (set_status TASK_BLOCKED ts) next nts l in
    undisturbed (wait_loop (S fuel) 1 cond ioq w s) =
      Switched (IO (<[ioq := with_waiter w (cur (kst s)) q]> (queues s)) k') k /\
    sched_ok k' (<[thread_ready_list := general_tag <$> rest]> L) rest /\
    forall s'' k0, kst s'' = taken ioq k0 -> lock_free ioq k0 -> if_flag (eflags (lst k0)) = false ->
      undisturbed (k s'') = undisturbed (wait_loop fuel 1 cond ioq w (IO (queues s'') k0)).
Proof.
  intros Hc Hif Hq Hw Hfree Hs Hts Hst Hn Hd.
  destruct (ioq_wait_eq (IO (queues s) (taken ioq (kst s))) ioq q w L ts next rest nts) as (l & k & E & Hs' & Hk); try done.
  { by apply taken_sched_ok. }
  exists l. eexists. split; [|split; [exact Hs'|]].
  - cbn [wait_loop]. erewrite bind_ok by exact Hc. cbv iota.
    erewrite undisturbed_bind; [|unfold on_kst; apply undisturbed_zoom, lock_free_acquire, Hfree].
    apply undisturbed_switched. change (put kst_lens (taken ioq (view kst_lens s)) s) with (IO (queues s) (taken ioq (kst s))).
    rewrite E. reflexivity.
  - intros s'' k0 Ek Hf0 Hif0. cbv beta. rewrite Hk, Ek.
    change (if_flag _) with (if_flag (eflags (lst (kst s)))). rewrite Hif, with_if_off by done. cbn [outcome_bind].
    erewrite undisturbed_bind; [|unfold on_kst; apply undisturbed_zoom; simpl; by apply lock_free_release]. reflexivity.
Qed.
(** ** The queue as a bounded FIFO *)
Inductive ioq_op := Put (byte : Z) | Take.

Fixpoint run_ioq (ioq : Z) (ops : list ioq_op) : M io_state (list Z) :=
  match ops with
  | [] => mret []
  | Put byte :: ops => ioq_putchar 1 1 ioq byte ;;; run_ioq ioq ops
  | Take :: ops => b ← ioq_getchar 1 1 ioq; bs ← run_ioq ioq ops; mret (b :: bs)
  end.

(** The specification: what is taken and what is left; no operation that would
    have to wait. *)
Fixpoint fifo (capacity : nat) (xs : list Z) (ops : list ioq_op) : option (list Z * list Z) :=
  match ops with
  | [] => Some ([], xs)
  | Put byte :: ops =>
      if decide (is_u8 byte /\ (length xs < capacity)%nat) then fifo capacity (xs ++ [byte]) ops else None
  | Take :: ops =>
      match xs with
      | [] => None
      | x :: xs => '(out, rest) ← fifo capacity xs ops; Some (x :: out, rest)
      end
  end.

Lemma with_no_waiter q w : waiter w q = NULL -> with_waiter w NULL q = q.
Proof. by destruct w, q; simpl; intros ->. Qed.

(** A queue before its initialisation: its lock exists, and the two ends of its
    list of waiters are in no list. *)
Record ioq_raw (ioq : Z) (s : io_state) (q : ioqueue) (L : gmap Z (list Z)) (r : list Z) : Prop := {
  ir_sched : sched_ok (kst s) L r;
  ir_cur : cur (kst s) <> NULL;
  ir_queue : queues s !! ioq = Some q;
  ir_buf : length (buf q) = 64%nat;
  ir_bytes : Forall is_u8 (buf q);
  ir_lock : is_Some (locks (sync (kst s)) !! ioq);
  ir_value : is_Some (values (sync (kst s)) !! semaphore ioq);
  ir_head : unlinked (nodes (lst (kst s))) L (head_of (waiters (semaphore ioq)));
  ir_tail : unlinked (nodes (lst (kst s))) L (tail_of (waiters (semaphore ioq)));
  ir_other : waiters (semaphore ioq) <> thread_ready_list;
  ir_tags : forall t ts, tasks (kst s) !! t = Some ts ->
    general_tag t <> head_of (waiters (semaphore ioq)) /\ general_tag t <> tail_of (waiters (semaphore ioq));
}.

Lemma ioqueue_init_eq s ioq q k :
  queues s !! ioq = Some q -> lock_init ioq (kst s) = Ok (tt, k) ->
  ioqueue_init ioq s = Ok (tt, IO (<[ioq := IOQueue NULL NULL (buf q) 0 0]> (queues s)) k).
Proof.
  intros Hq E. unfold ioqueue_init. erewrite bind_ok by (unfold on_kst; apply zoom_ok; exact E).
  erewrite bind_ok by (by apply set_queue_eq). do 2 erewrite bind_ok by (apply set_queue_eq, lookup_insert_eq).
  erewrite set_queue_eq by apply lookup_insert_eq. unfold put_queue. cbn [queues kst]. by rewrite !insert_insert_eq.
Qed.

Lemma empty_ring bs : length bs = 64%nat -> Forall is_u8 bs -> ring_ok (IOQueue NULL NULL bs 0 0).
Proof. by split. Qed.

Lemma ioqueue_init_ok s ioq q L r :
  ioq_raw ioq s q L r -> exists s', ioqueue_init ioq s = Ok (tt, s') /\
    queues s' = <[ioq := IOQueue NULL NULL (buf q) 0 0]> (queues s) /\ ring_ok (IOQueue NULL NULL (buf q) 0 0) /\
    eflags (lst (kst s')) = eflags (lst (kst s)) /\
    lock_free ioq (kst s') /\ sched_ok (kst s') (<[waiters (semaphore ioq) := []]> L) r.
Proof.
  intros [Hs Hc Hq Hbuf Hbytes Hlock Hval Hhead Htail Hother Htags].
  destruct (wp_ok_inv _ _ _ (lock_init_ok ioq (kst s) L r Hs Hc Hlock Hval Hhead Htail Hother Htags))
    as ([] & k & E & l & Ek & (_ & He & _) & Hs' & Hfree).
  eexists. split; [by apply ioqueue_init_eq|]. simpl. split; [done|]. split; [by apply empty_ring|]. split; [by rewrite Ek|]. done.
Qed.

(** ** Properties *)

(** [ioq_putchar] on a queue that is not full, interrupts off: the byte
    joins the end of the queue, and the sleeping consumer, if any, becomes the
    first of the ready threads. *)
Theorem ioq_putchar_correct (s : io_state) (ioq : Z) (q : ioqueue) (b : Z) (L : gmap Z (list Z)) (r : list Z)
    (Hif : if_flag (eflags (lst (kst s))) = false) (Hq : queues s !! ioq = Some q) (Hr : ring_ok q)
    (Hb : is_u8 b) (Hroom : (length (contents q) < 63)%nat)
    (Hs : sched_ok (kst s) L r) (Hw : consumer q <> NULL -> asleep (consumer q) (kst s) L) :
  exists q' k', ioq_putchar 1 1 ioq b s = Ok (tt, IO (<[ioq := q']> (queues s)) k') /\
    ring_ok q' /\ contents q' = contents q ++ [b] /\ consumer q' = NULL /\ producer q' = producer q /\
    if consumer q =? NULL then k' = kst s else exists L', sched_ok k' L' (consumer q :: r).
Proof.
  destruct (asleep_woken (consumer q) (kst s) L r Hs Hw) as (k' & Hwk & Hk' & _). pose proof (length_contents q).
  eexists _, k'. split; [by apply (ioq_putchar_eq 0 1 s ioq q b k' Hif Hq Hr); [lia|]|].
  destruct (enqueued_ok b q Hr Hb) as [P1 P2 P3 P4].
  split; [by split|]. split; [|done].
  assert (used q < 63) as Hu by lia. exact (contents_enqueued b q Hr Hu).
Qed.

(** [ioq_getchar] on a queue that is not empty, interrupts off, takes the
    oldest byte, and the sleeping producer, if any, becomes the first of the
    ready threads. *)
Theorem ioq_getchar_correct (s : io_state) (ioq : Z) (q : ioqueue) (b : Z) (bs : list Z) (L : gmap Z (list Z)) (r : list Z)
    (Hif : if_flag (eflags (lst (kst s))) = false) (Hq : queues s !! ioq = Some q) (Hr : ring_ok q)
    (Hc : contents q = b :: bs)
    (Hs : sched_ok (kst s) L r) (Hw : producer q <> NULL -> asleep (producer q) (kst s) L) :
  exists q' k', ioq_getchar 1 1 ioq s = Ok (b, IO (<[ioq := q']> (queues s)) k') /\
    ring_ok q' /\ contents q' = bs /\ producer q' = NULL /\ consumer q' = consumer q /\
    if producer q =? NULL then k' = kst s else exists L', sched_ok k' L' (producer q :: r).
Proof.
  destruct (asleep_woken (producer q) (kst s) L r Hs Hw) as (k' & Hwk & Hk' & _). pose proof (length_contents q) as Hlen.
  rewrite Hc in Hlen. simpl in Hlen. assert (0 < used q) as Hu by lia.
  destruct (contents_dequeued q Hr Hu) as (b' & Hb' & Hcont & _). rewrite Hc in Hcont. injection Hcont as <- Hbs.
  eexists _, k'. split; [by apply (ioq_getchar_eq 0 1 s ioq q b k' Hif Hq Hr Hu)|].
  destruct (dequeued_ok q Hr) as [P1 P2 P3 P4]. split; [by split|]. by split.
Qed.

(** C25: as long as nobody sleeps on it and no operation has to wait, the queue
    behaves as a first-in first-out queue that holds at most 63 bytes. *)
Theorem ioq_refines_fifo (ops : list ioq_op) (s : io_state) (ioq : Z) (q : ioqueue) (out rest : list Z)
    (Hif : if_flag (eflags (lst (kst s))) = false) (Hq : queues s !! ioq = Some q) (Hr : ring_ok q)
    (Hp : producer q = NULL) (Hc : consumer q = NULL) (Hspec : fifo 63 (contents q) ops = Some (out, rest)) :
  exists q', run_ioq ioq ops s = Ok (out, IO (<[ioq := q']> (queues s)) (kst s)) /\ ring_ok q' /\ contents q' = rest.
Proof.
  revert s q out Hif Hq Hr Hp Hc Hspec. induction ops as [|[b|] ops IH]; intros s q out Hif Hq Hr Hp Hc Hspec; simpl in Hspec.
  - injection Hspec as <- <-. exists q. simpl. rewrite insert_id by done. by rewrite put_kst.
  - case_decide as Hroom; [|done]. destruct Hroom as [Hb Hroom]. pose proof (length_contents q).
    assert (used q < 63) as Hu by lia. rewrite <- (contents_enqueued b q Hr Hu) in Hspec. simpl.
    erewrite bind_ok.
    2: { apply (ioq_putchar_eq 0 1 s ioq q b (kst s)); try done. unfold woken. by rewrite Hc. }
    rewrite with_no_waiter by done.
    destruct (IH (IO (<[ioq := enqueued b q]> (queues s)) (kst s)) (enqueued b q) out) as (q' & E & H'); try done.
    { apply lookup_insert_eq. } { by apply enqueued_ok. }
    exists q'. rewrite E. simpl. by rewrite insert_insert_eq.
  - destruct (contents q) as [|x xs] eqn:Ec; [done|]. pose proof (length_contents q) as Hlen. rewrite Ec in Hlen. simpl in Hlen.
    assert (0 < used q) as Hu by lia. destruct (contents_dequeued q Hr Hu) as (b & Hb & Hcont & _).
    rewrite Ec in Hcont. injection Hcont as <- ->.
    destruct (fifo 63 (contents (dequeued q)) ops) as [[out' rest']|] eqn:Ef; [|done]. simpl in Hspec. injection Hspec as <- <-.
    simpl. erewrite bind_ok.
    2: { apply (ioq_getchar_eq 0 1 s ioq q x (kst s)); try done. unfold woken. by rewrite Hp. }
    rewrite with_no_waiter by done.
    destruct (IH (IO (<[ioq := dequeued q]> (queues s)) (kst s)) (dequeued q) out') as (q' & E & H'); try done.
    { apply lookup_insert_eq. } { by apply dequeued_ok. }
    exists q'. erewrite bind_ok by exact E. simpl. by rewrite insert_insert_eq.
Qed.

(** C26: a reader of an empty queue, interrupts off, takes the queue's lock,
    registers as its consumer, blocks and lets the first ready thread run.
    When it is chosen again, still owner of the lock, and finds the queue not
    empty, it frees the lock and returns the oldest byte. *)
Theorem ioq_getchar_waits (s : io_state) (ioq : Z) (q : ioqueue) (L : gmap Z (list Z)) (ts nts : task_struct)
    (next : Z) (rest : list Z)
    (Hif : if_flag (eflags (lst (kst s))) = false) (Hq : queues s !! ioq = Some q) (Hr : ring_ok q)
    (Hempty : contents q = []) (Hc : consumer q = NULL) (Hfree : lock_free ioq (kst s))
    (Hs : sched_ok (kst s) L (next :: rest)) (Hts : tasks (kst s) !! cur (kst s) = Some ts) (Hst : status ts = TASK_RUNNING)
    (Hn : tasks (kst s) !! next = Some nts) (Hd : dir_ok (kst s) nts) :
  exists s' k, undisturbed (ioq_getchar 2 1 ioq s) = Switched s' k /\
    cur (kst s') = next /\ queues s' = <[ioq := with_waiter CONSUMER (cur (kst s)) q]> (queues s) /\
    (exists L', sched_ok (kst s') L' rest) /\
    forall s'' k0 q'' b bs, kst s'' = taken ioq k0 -> lock_free ioq k0 -> if_flag (eflags (lst k0)) = false ->
      queues s'' !! ioq = Some q'' -> ring_ok q'' -> contents q'' = b :: bs -> producer q'' = NULL ->
      undisturbed (k s'') = Ok (b, IO (<[ioq := dequeued q'']> (queues s'')) k0) /\ contents (dequeued q'') = bs.
Proof.
  assert (ioq_empty ioq s = Ok (true, s)) as Eempty.
  { erewrite ioq_empty_eq by done. by rewrite <- length_contents, Hempty. }
  destruct (wait_loop_sleeps 1 (ioq_empty ioq) s ioq q CONSUMER L ts next rest nts Eempty Hif Hq Hc Hfree Hs Hts Hst Hn Hd)
    as (l & k & E & Hs' & Hk).
  eexists. eexists. split.
  { unfold ioq_getchar. erewrite bind_ok by (by apply intr_is_off_eq). erewrite bind_ok by done.
    apply undisturbed_switched. exact E. }
  split; [reflexivity|]. split; [reflexivity|]. split.
  - eexists. exact Hs'.
  - intros s'' k0 q'' b bs Ek Hf0 Hif0 Hq'' Hr'' Hc'' Hp''. cbv beta.
    pose proof (length_contents q'') as Hlen. rewrite Hc'' in Hlen. simpl in Hlen. assert (0 < used q'') as Hu by lia.
    destruct (contents_dequeued q'' Hr'' Hu) as (b' & Hb' & Hcont & _). rewrite Hc'' in Hcont. injection Hcont as <- Hbs.
    split; [|done]. set (s0 := IO (queues s'') k0).
    assert (ioq_getchar 1 1 ioq s0 = Ok (b, IO (<[ioq := with_waiter PRODUCER NULL (dequeued q'')]> (queues s'')) k0)) as Eget.
    { apply (ioq_getchar_eq 0 1 s0 ioq q'' b k0); try done. unfold woken. by rewrite Hp''. }
    rewrite with_no_waiter in Eget by done.
    assert (wait_loop 1 1 (ioq_empty ioq) ioq CONSUMER s0 = Ok (tt, s0)) as Epass.
    { apply wait_loop_pass. erewrite ioq_empty_eq by done. by destruct (Z.eqb_spec (used q'') 0); [lia|]. }
    pose proof (Hk s'' k0 Ek Hf0 Hif0) as Hres. fold s0 in Hres. rewrite Epass in Hres.
    etransitivity; [exact (undisturbed_bind (fun _ => k s'') _ s'' tt s0 Hres)|].
    unfold ioq_getchar in Eget. erewrite (bind_ok intr_is_off) in Eget by (by apply intr_is_off_eq).
    erewrite (bind_ok (ASSERT true)) in Eget by done. erewrite (bind_ok (wait_loop _ _ _ _ _)) in Eget by exact Epass.
    exact (f_equal undisturbed Eget).
Qed.

(** [ioqueue_init] leaves an empty queue with a free lock on which nobody
    sleeps. *)
Theorem ioqueue_init_correct (s : io_state) (ioq : Z) (q : ioqueue) (L : gmap Z (list Z)) (r : list Z)
    (Hraw : ioq_raw ioq s q L r) :
  exists s' q', ioqueue_init ioq s = Ok (tt, s') /\ queues s' = <[ioq := q']> (queues s) /\
    ring_ok q' /\ contents q' = [] /\ producer q' = NULL /\ consumer q' = NULL /\
    lock_free ioq (kst s') /\ sched_ok (kst s') (<[waiters (semaphore ioq) := []]> L) r.
Proof.
  destruct (ioqueue_init_ok s ioq q L r Hraw) as (s' & E & Hq & Hr & _ & Hf & Hs').
  exists s', (IOQueue NULL NULL (buf q) 0 0). by destruct Hr.
Qed.
End IoQueueProofs.

(** *** Concrete instances: the thread at 0x1000 runs with interrupts off,
    0x2000 is ready; a queue at 0x30000. *)
#[local] Instance example_layout : Layout := {|
  thread_ready_list := 0x10000; thread_all_list := 0x10010; pid_lock := 0x10020 |}.

Definition example_io_kernel : kstate :=
  KState (LState {[0x10000 := Node NULL 0x2024; 0x2024 := Node 0x10000 0x10008; 0x10008 := Node 0x2024 NULL;
                   0x1024 := Node NULL NULL; 0x3024 := Node NULL NULL;
                   0x30008 := Node NULL 0x30010; 0x30010 := Node 0x30008 NULL]} 2)
    (tasks example_kernel)
    (Sync {[0x30004 := 1]} {[0x30000 := Lock NULL 0]}) 0x1000 3 (Mmu ∅ 0x100000) 0 0.

Definition example_io_lists : gmap Z (list Z) := {[0x10000 := [0x2024]; 0x30008 := []]}.

Lemma example_io_unlinked t : (t =? 0x1000) || (t =? 0x3000) = true ->
  unlinked (nodes (lst example_io_kernel)) example_io_lists (general_tag t).
Proof.
  intros Ht. split.
  - apply elem_of_dom. apply orb_true_iff in Ht as [->%Z.eqb_eq| ->%Z.eqb_eq]; by vm_compute; eauto.
  - intros l xs Hl. unfold example_io_lists in Hl.
    apply lookup_insert_Some in Hl as [[<- <-]|[_ [<- <-]%lookup_singleton_Some]];
      apply orb_true_iff in Ht as [->%Z.eqb_eq| ->%Z.eqb_eq]; refine (bool_decide_eq_true_1 _ _); by vm_compute.
Qed.

Lemma example_io_sched : sched_ok example_io_kernel example_io_lists [0x2000].
Proof.
  destruct example_sched_ok as [[_ _ Haddr Hqd Hcomp Hc] _]. split; [split|].
  - apply lists_ok_two; [by vm_compute | by vm_compute |]. refine (bool_decide_eq_true_1 _ _); by vm_compute.
  - done.
  - exact Haddr.
  - exact Hqd.
  - exact Hcomp.
  - exact Hc.
  - intros t ts Ht. unfold example_io_kernel in Ht. cbn [tasks] in Ht. each_task Ht; try done.
    intros _. split; [done|]. by apply example_io_unlinked.
Qed.

Lemma example_io_free : lock_free 0x30000 example_io_kernel.
Proof.
  exists example_io_lists. split; [apply example_io_sched|]. split; [|done].
  split; [done | done | done | by intros x ?%elem_of_nil].
Qed.

(** Two bytes in the ring, across its end; the thread 0x3000 sleeps on it. *)
Definition example_queue (p c : Z) : ioqueue := IOQueue p c (<[63%nat := 65]> (<[0%nat := 66]> (replicate 64 0))) 1 63.

Lemma example_ring p c : ring_ok (example_queue p c).
Proof.
  split; [done | | done | done]. repeat apply Forall_insert; try (unfold is_u8; lia).
  apply Forall_replicate. unfold is_u8; lia.
Qed.

Definition example_io (q : ioqueue) : io_state := IO {[0x30000 := q]} example_io_kernel.

Lemma example_asleep : asleep 0x3000 example_io_kernel example_io_lists.
Proof. exists (example_task TASK_BLOCKED 31). split; [by vm_compute|]. split; [done | by apply example_io_unlinked]. Qed.

Lemma ioq_putchar_correct_witness : exists q' k',
  ioq_putchar 1 1 0x30000 67 (example_io (example_queue NULL 0x3000)) = Ok (tt, IO (<[0x30000 := q']> {[0x30000 := example_queue NULL 0x3000]}) k') /\
  contents q' = [65; 66; 67] /\ exists L', sched_ok k' L' [0x3000; 0x2000].
Proof.
  destruct (ioq_putchar_correct (example_io (example_queue NULL 0x3000)) 0x30000 (example_queue NULL 0x3000) 67
    example_io_lists [0x2000] eq_refl eq_refl (example_ring _ _) ltac:(unfold is_u8; lia) ltac:(vm_compute; lia)
    example_io_sched (fun _ => example_asleep)) as (q' & k' & E & _ & Hc & _ & _ & Hk).
  exists q', k'. split; [exact E|]. split; [exact Hc | exact Hk].
Defined.

Lemma ioq_getchar_correct_witness : exists q' k',
  ioq_getchar 1 1 0x30000 (example_io (example_queue 0x3000 NULL)) = Ok (65, IO (<[0x30000 := q']> {[0x30000 := example_queue 0x3000 NULL]}) k') /\
  contents q' = [66] /\ exists L', sched_ok k' L' [0x3000; 0x2000].
Proof.
  destruct (ioq_getchar_correct (example_io (example_queue 0x3000 NULL)) 0x30000 (example_queue 0x3000 NULL) 65 [66]
    example_io_lists [0x2000] eq_refl eq_refl (example_ring _ _) eq_refl example_io_sched (fun _ => example_asleep))
    as (q' & k' & E & _ & Hc & _ & _ & Hk).
  exists q', k'. split; [exact E|]. split; [exact Hc | exact Hk].
Defined.

Lemma ioq_refines_fifo_witness : exists s',
  run_ioq 0x30000 [Put 67; Take; Take; Put 68] (example_io (example_queue NULL NULL)) = Ok ([65; 66], s').
Proof.
  destruct (ioq_refines_fifo [Put 67; Take; Take; Put 68] (example_io (example_queue NULL NULL)) 0x30000 (example_queue NULL NULL)
    [65; 66] [67; 68] eq_refl eq_refl (example_ring _ _) eq_refl eq_refl ltac:(by vm_compute)) as (q' & E & _).
  eexists. exact E.
Defined.

Definition example_empty : ioqueue := IOQueue NULL NULL (replicate 64 0) 5 5.

Lemma ioq_getchar_waits_witness : exists s' k,
  undisturbed (ioq_getchar 2 1 0x30000 (example_io example_empty)) = Switched s' k /\ cur (kst s') = 0x2000.
Proof.
  destruct (ioq_getchar_waits (example_io example_empty) 0x30000 example_empty example_io_lists (example_task TASK_RUNNING 1)
    (example_task TASK_READY 31) 0x2000 [] eq_refl eq_refl
    ltac:(split; [done | apply Forall_replicate; unfold is_u8; lia | done | done]) eq_refl eq_refl example_io_free
    example_io_sched eq_refl eq_refl eq_refl (or_introl eq_refl)) as (s' & k & E & Hc & _).
  exists s', k. split; [exact E | exact Hc].
Defined.

(** The same kernel before the queue's lock is initialised. *)
Definition example_raw_lists : gmap Z (list Z) := {[0x10000 := [0x2024]]}.

Lemma example_raw_only l xs : example_raw_lists !! l = Some xs -> l = 0x10000 /\ xs = [0x2024].
Proof. intros Hl. unfold example_raw_lists in Hl. by apply lookup_singleton_Some in Hl as [<- <-]. Qed.

Lemma example_raw_sched : sched_ok example_io_kernel example_raw_lists [0x2000].
Proof.
  destruct example_io_sched as [[Hl Hr Haddr Hqd Hcomp Hc] Hrun]. split; [split; try done|].
  - split.
    + intros l xs [-> ->]%example_raw_only. by apply (ok_lists _ _ Hl).
    + intros l l' xs xs' Hne [-> _]%example_raw_only [-> _]%example_raw_only. done.
  - intros t ts Ht Hst. destruct (Hrun t ts Ht Hst) as [E [Hd Hun]]. split; [done|]. split; [done|].
    intros l xs [-> ->]%example_raw_only. by apply Hun.
Qed.

Lemma example_raw_header x : (x =? 0x30008) || (x =? 0x30010) = true -> unlinked (nodes (lst example_io_kernel)) example_raw_lists x.
Proof.
  intros Hx. split.
  - apply elem_of_dom. apply orb_true_iff in Hx as [->%Z.eqb_eq| ->%Z.eqb_eq]; by vm_compute; eauto.
  - intros l xs [-> ->]%example_raw_only.
    apply orb_true_iff in Hx as [->%Z.eqb_eq| ->%Z.eqb_eq]; refine (bool_decide_eq_true_1 _ _); by vm_compute.
Qed.

Lemma example_raw_ring : ioq_raw 0x30000 (example_io (example_queue 7 8)) (example_queue 7 8) example_raw_lists [0x2000].
Proof.
  split.
  - exact example_raw_sched.
  - done.
  - done.
  - done.
  - apply (example_ring 7 8).
  - by eexists.
  - by eexists.
  - by apply (example_raw_header 0x30008).
  - by apply (example_raw_header 0x30010).
  - done.
  - intros t ts Ht. assert (t = 0x1000 \/ t = 0x2000 \/ t = 0x3000) as Hc.
    { unfold example_io, example_io_kernel in Ht. cbn [kst tasks] in Ht. each_task Ht; auto. }
    unfold general_tag, waiters, semaphore, head_of, tail_of. lia.
Qed.

Lemma ioqueue_init_correct_witness : exists s',
  ioqueue_init 0x30000 (example_io (example_queue 7 8)) = Ok (tt, s') /\ lock_free 0x30000 (kst s').
Proof.
  destruct (ioqueue_init_correct _ _ _ _ _ example_raw_ring) as (s' & q' & E & _ & _ & _ & _ & _ & Hf & _).
  exists s'. split; [exact E | exact Hf].
Defined.
