(* ===== verification/Keyboard.v ===== *)
(** * The keyboard driver: device/keyboard.c, device/keyboard.h

    The handler of IRQ 1 turns the scan codes of the keyboard into characters
    and puts them into the ring [kbd_buf].  The five flags of the driver are
    [bool]s of the source, that is, signed chars. *)
From Stdlib Require Import ZArith Lia Ascii String.
From stdpp Require Import base numbers list gmap fin_maps.
From S2P Require Import Prelude Globals Interrupt LinkedList Bitmap Paging PageAlloc Thread Sync PoolLocks IoQueue.

(** ** Data *)

Definition esc : Z := 27.
Definition backspace : Z := 8.
Definition tab : Z := 9.
Definition enter : Z := 13.
Definition char_invisible : Z := 0.

Definition shift_l_make : Z := 0x2a.
Definition shift_r_make : Z := 0x36.
Definition alt_l_make : Z := 0x38.
Definition alt_r_make : Z := 0xe038.
Definition ctrl_l_make : Z := 0x1d.
Definition ctrl_r_make : Z := 0xe01d.
Definition caps_lock_make : Z := 0x3a.

Definition row (a b : ascii) : list Z := [code a; code b].
Definition same (c : Z) : list Z := [c; c].

Definition keymap : list (list Z) :=
  [same 0; same esc;
   row "1" "!"; row "2" "@"; row "3" "#"; row "4" "$"; row "5" "%"; row "6" "^"; row "7" "&";
   row "8" "*"; row "9" "("; row "0" ")"; row "-" "_"; row "=" "+";
   same backspace; same tab;
   row "q" "Q"; row "w" "W"; row "e" "E"; row "r" "R"; row "t" "T"; row "y" "Y"; row "u" "U";
   row "i" "I"; row "o" "O"; row "p" "P"; row "[" "{"; row "]" "}";
   same enter; same char_invisible;
   row "a" "A"; row "s" "S"; row "d" "D"; row "f" "F"; row "g" "G"; row "h" "H"; row "j" "J";
   row "k" "K"; row "l" "L"; row ";" ":"; [39; 34]; row "`" "~";
   same char_invisible; row "\" "|";
   row "z" "Z"; row "x" "X"; row "c" "C"; row "v" "V"; row "b" "B"; row "n" "N"; row "m" "M";
   row "," "<"; row "." ">"; row "/" "?";
   same char_invisible; row "*" "*"; same char_invisible; row " " " "; same char_invisible].

Record kbd_state := Kbd {
  ctrl_status : Z;
  shift_status : Z;
  alt_status : Z;
  caps_lock_status : Z;
  ext_scancode : Z;
  kio : io_state;
  kintr : intr_state;
}.

Definition io_lens : lens kbd_state io_state.
Proof.
  refine {| view := kio; put := fun x s => Kbd (ctrl_status s) (shift_status s) (alt_status s)
    (caps_lock_status s) (ext_scancode s) x (kintr s) |}; by intros; try destruct s.
Defined.

Definition kintr_lens : lens kbd_state intr_state.
Proof.
  refine {| view := kintr; put := fun x s => Kbd (ctrl_status s) (shift_status s) (alt_status s)
    (caps_lock_status s) (ext_scancode s) (kio s) x |}; by intros; try destruct s.
Defined.

Definition with_ctrl (v : Z) (s : kbd_state) : kbd_state :=
  Kbd v (shift_status s) (alt_status s) (caps_lock_status s) (ext_scancode s) (kio s) (kintr s).
Definition with_shift (v : Z) (s : kbd_state) : kbd_state :=
  Kbd (ctrl_status s) v (alt_status s) (caps_lock_status s) (ext_scancode s) (kio s) (kintr s).
Definition with_alt (v : Z) (s : kbd_state) : kbd_state :=
  Kbd (ctrl_status s) (shift_status s) v (caps_lock_status s) (ext_scancode s) (kio s) (kintr s).
Definition with_caps (v : Z) (s : kbd_state) : kbd_state :=
  Kbd (ctrl_status s) (shift_status s) (alt_status s) v (ext_scancode s) (kio s) (kintr s).
Definition with_ext (v : Z) (s : kbd_state) : kbd_state :=
  Kbd (ctrl_status s) (shift_status s) (alt_status s) (caps_lock_status s) v (kio s) (kintr s).

(** Addresses of the queue and of the handler. *)
Class KbdLayout := { kbd_buf : Z; intr_keyboard_handler_addr : Z }.

(** ** Operations *)

(** Keys with two characters that are not letters. *)
Definition two_char_key (scancode : Z) : bool :=
  (scancode <? 0x0e) || (scancode =? 0x29) || (scancode =? 0x1a) || (scancode =? 0x1b) ||
  (scancode =? 0x2b) || (scancode =? 0x27) || (scancode =? 0x28) || (scancode =? 0x33) ||
  (scancode =? 0x34) || (scancode =? 0x35).

Section Keyboard.
Context `{!Layout} `{!KbdLayout}.

(** The handler, [data] being the byte read from [KBD_BUF_PORT]; the fuel is
    that of [ioq_putchar].  The message for an unknown key is not modelled. *)
Definition intr_keyboard_handler (fuel sfuel : nat) (data : Z) : M kbd_state unit :=
  ctrl_down_last ← gets ctrl_status;
  shift_down_last ← gets shift_status;
  caps_lock_last ← gets caps_lock_status;
  let scancode := u16 data in
  if scancode =? 0xe0 then modify (with_ext C_true)
  else
  ext ← gets ext_scancode;
  let scancode := if ext =? C_true then Z.lor 0xe000 scancode else scancode in
  when (ext =? C_true) (modify (with_ext C_false)) ;;;
  let break_code := negb (Z.land scancode 0x0080 =? 0) in
  if break_code then
    let make_code := Z.land scancode 0xff7f in
    if (make_code =? ctrl_l_make) || (make_code =? ctrl_r_make) then modify (with_ctrl C_false)
    else if (make_code =? shift_l_make) || (make_code =? shift_r_make) then modify (with_shift C_false)
    else when ((make_code =? alt_l_make) || (make_code =? alt_r_make)) (modify (with_alt C_false))
  else if ((0x00 <? scancode) && (scancode <? 0x3b)) || (scancode =? alt_r_make) || (scancode =? ctrl_r_make) then
    let shift := if two_char_key scancode then (if negb (shift_down_last =? 0) then C_true else C_false)
                 else s8 (Z.lxor shift_down_last caps_lock_last) in
    let scancode := Z.land scancode 0x00ff in
    let index := u8 scancode in
    entry ← from_option_M (array_get keymap index);
    c ← from_option_M (array_get entry shift);
    let cur_char := u8 c in
    if negb (cur_char =? 0) then
      full ← zoom io_lens (ioq_full kbd_buf);
      when (negb full) (zoom io_lens (ioq_putchar fuel sfuel kbd_buf cur_char))
    else if (scancode =? ctrl_l_make) || (scancode =? ctrl_r_make) then modify (with_ctrl C_true)
    else if (scancode =? shift_l_make) || (scancode =? shift_r_make) then modify (with_shift C_true)
    else if (scancode =? alt_l_make) || (scancode =? alt_r_make) then modify (with_alt C_true)
    else when (scancode =? caps_lock_make) (modify (fun s => with_caps (s8 (Z.lxor (caps_lock_status s) 1)) s))
  else mret tt.

Definition keyboard_init : M kbd_state unit :=
  zoom io_lens (ioqueue_init kbd_buf) ;;;
  zoom kintr_lens (register_handler 0x21 intr_keyboard_handler_addr).
End Keyboard.

(** ** The keyboard as its user sees it

    Keys go down and up; the modifiers are those held, Caps Lock a toggle, and
    the characters those of the US layout. *)
Inductive modifier := Ctrl | Shift | Alt.

Record board := Board { ctrl_held : bool; shift_held : bool; alt_held : bool; caps : bool }.

Definition held (b : board) (m : modifier) : bool :=
  match m with Ctrl => ctrl_held b | Shift => shift_held b | Alt => alt_held b end.

(** A key, by the last byte of its scan code. *)
Inductive key := Plain (c : Z) | Extended (c : Z).

Inductive event := Down (k : key) | Up (k : key).

Definition key_ok (k : key) : bool :=
  match k with Plain c | Extended c => (0 <? c) && (c <? 0x80) && negb (c =? 0x60) end.

Definition event_key (e : event) : key := match e with Down k | Up k => k end.

(** What the hardware sends. *)
Definition bytes_of (e : event) : list Z :=
  match e with
  | Down (Plain c) => [c]
  | Up (Plain c) => [c + 0x80]
  | Down (Extended c) => [0xe0; c]
  | Up (Extended c) => [0xe0; c + 0x80]
  end.

Definition modifier_of (k : key) : option modifier :=
  match k with
  | Plain 0x1d | Extended 0x1d => Some Ctrl
  | Plain 0x2a | Plain 0x36 => Some Shift
  | Plain 0x38 | Extended 0x38 => Some Alt
  | _ => None
  end.

Definition is_caps_lock (k : key) : bool := match k with Plain 0x3a => true | _ => false end.

(** The US layout, from scan code 1 on, without modifiers. *)
Definition us_layout : list Z :=
  [27] ++ codes "1234567890-=" ++ [8; 9] ++ codes "qwertyuiop[]" ++ [13; 0] ++ codes "asdfghjkl;'`" ++ [0] ++
  codes "\zxcvbnm,./" ++ [0] ++ codes "*" ++ [0] ++ codes " ".

Definition is_letter (c : Z) : bool := (97 <=? c) && (c <=? 122).

Definition shifted_symbols : list (Z * Z) :=
  (39, 34) :: zip (codes "1234567890-=[];`\,./") (codes "!@#$%^&*()_+{}:~|<>?").

Definition shifted (c : Z) : Z :=
  match list_find (fun p => p.1 = c) shifted_symbols with Some (_, (_, d)) => d | None => c end.

(** The character a key types; [0] for none. *)
Definition typed (shift caps : bool) (k : key) : Z :=
  match k with
  | Plain c =>
      let u := default 0 (array_get us_layout (c - 1)) in
      if is_letter u then (if xorb shift caps then u - 32 else u) else if shift then shifted u else u
  | Extended _ => 0
  end.

Definition hold (m : modifier) (v : bool) (b : board) : board :=
  match m with
  | Ctrl => Board v (shift_held b) (alt_held b) (caps b)
  | Shift => Board (ctrl_held b) v (alt_held b) (caps b)
  | Alt => Board (ctrl_held b) (shift_held b) v (caps b)
  end.

(** One event: the board after it, and the characters typed. *)
Definition press (b : board) (e : event) : board * list Z :=
  match e with
  | Down k =>
      match modifier_of k with
      | Some m => (hold m true b, [])
      | None =>
          if is_caps_lock k then (Board (ctrl_held b) (shift_held b) (alt_held b) (negb (caps b)), [])
          else let c := typed (held b Shift) (caps b) k in (b, if c =? 0 then [] else [c])
      end
  | Up k => (match modifier_of k with Some m => hold m false b | None => b end, [])
  end.

Fixpoint presses (b : board) (es : list event) : board * list Z :=
  match es with
  | [] => (b, [])
  | e :: es => let '(b, cs) := press b e in let '(b, cs') := presses b es in (b, cs ++ cs')
  end.

(** ** What one byte does *)
Inductive action := AExtend | AHold (m : modifier) (v : Z) | AToggle | AEmit (c : Z) | ANone | AFault.

#[export] Instance modifier_eq_dec : EqDecision modifier.
Proof. solve_decision. Defined.

#[export] Instance action_eq_dec : EqDecision action.
Proof. solve_decision. Defined.

(** The handler's decision, as a function of the flags it reads. *)
Definition react (ext sh ca data : Z) : action :=
  if data =? 0xe0 then AExtend
  else
  let sc := if ext =? C_true then Z.lor 0xe000 data else data in
  if negb (Z.land sc 0x80 =? 0) then
    let mk := Z.land sc 0xff7f in
    if (mk =? ctrl_l_make) || (mk =? ctrl_r_make) then AHold Ctrl 0
    else if (mk =? shift_l_make) || (mk =? shift_r_make) then AHold Shift 0
    else if (mk =? alt_l_make) || (mk =? alt_r_make) then AHold Alt 0 else ANone
  else if ((0x00 <? sc) && (sc <? 0x3b)) || (sc =? alt_r_make) || (sc =? ctrl_r_make) then
    let shift := if two_char_key sc then (if negb (sh =? 0) then C_true else C_false) else s8 (Z.lxor sh ca) in
    let sc := Z.land sc 0x00ff in
    match array_get keymap (u8 sc) ≫= (fun l => array_get l shift) with
    | None => AFault
    | Some c =>
        if negb (u8 c =? 0) then AEmit (u8 c)
        else if (sc =? ctrl_l_make) || (sc =? ctrl_r_make) then AHold Ctrl 1
        else if (sc =? shift_l_make) || (sc =? shift_r_make) then AHold Shift 1
        else if (sc =? alt_l_make) || (sc =? alt_r_make) then AHold Alt 1
        else if sc =? caps_lock_make then AToggle else ANone
    end
  else ANone.

Definition with_mod (m : modifier) (v : Z) (s : kbd_state) : kbd_state :=
  match m with Ctrl => with_ctrl v s | Shift => with_shift v s | Alt => with_alt v s end.

(** *** The decision agrees with the layout *)
Definition event_action (sh ca : bool) (e : event) : action :=
  match e with
  | Down k =>
      match modifier_of k with
      | Some m => AHold m 1
      | None => if is_caps_lock k then AToggle else let c := typed sh ca k in if c =? 0 then ANone else AEmit c
      end
  | Up k => match modifier_of k with Some m => AHold m 0 | None => ANone end
  end.

Definition extended (e : event) : bool := match event_key e with Plain _ => false | Extended _ => true end.

Definition last_byte (e : event) : Z :=
  match e with Down (Plain c) | Down (Extended c) => c | Up (Plain c) | Up (Extended c) => c + 0x80 end.

Lemma bytes_of_eq e : bytes_of e = (if extended e then [0xe0] else []) ++ [last_byte e].
Proof. by destruct e as [[c|c]|[c|c]]. Qed.

Definition bools : list bool := [false; true].

Lemma elem_of_bools b : b ∈ bools.
Proof. unfold bools. rewrite elem_of_cons, list_elem_of_singleton. destruct b; auto. Qed.

Definition react_agrees (e : event) : bool :=
  negb (key_ok (event_key e)) ||
  forallb (fun sh => forallb (fun ca => bool_decide
    (react (Z.b2z (extended e)) (Z.b2z sh) (Z.b2z ca) (last_byte e) = event_action sh ca e)) bools) bools.

Lemma react_agrees_all :
  forallb (fun c => react_agrees (Down (Plain c)) && react_agrees (Down (Extended c)) &&
    react_agrees (Up (Plain c)) && react_agrees (Up (Extended c))) (seqZ 0 0x80) = true.
Proof. by vm_compute. Qed.

Lemma forallb_elem {A} (f : A -> bool) l x : forallb f l = true -> x ∈ l -> f x = true.
Proof. rewrite forallb_forall. intros Hf Hx. by apply Hf, list_elem_of_In. Qed.

Lemma react_event sh ca e :
  key_ok (event_key e) = true ->
  react (Z.b2z (extended e)) (Z.b2z sh) (Z.b2z ca) (last_byte e) = event_action sh ca e.
Proof.
  intros Hk. assert (react_agrees e = true) as Ha.
  { pose proof react_agrees_all as Hall.
    assert (forall c, key_ok (Plain c) = true -> c ∈ seqZ 0 0x80) as Hin.
    { intros c Hc. unfold key_ok in Hc. b2p. apply elem_of_seqZ. lia. }
    destruct e as [[c|c]|[c|c]]; apply (forallb_elem _ _ c) in Hall; try (by apply Hin);
      cbv beta in Hall; b2p; done. }
  unfold react_agrees in Ha. rewrite Hk in Ha. simpl negb in Ha. rewrite orb_false_l in Ha.
  apply (forallb_elem _ _ sh) in Ha; [|apply elem_of_bools]. apply (forallb_elem _ _ ca) in Ha; [|apply elem_of_bools].
  by apply bool_decide_eq_true in Ha.
Qed.

(** Whatever byte arrives, the table is read inside its bounds. *)
Definition action_ok (a : action) : bool :=
  match a with AFault => false | AEmit c => (0 <=? c) && (c <? 0x100) | AHold _ v => (v =? 0) || (v =? 1) | _ => true end.

Lemma react_total_all :
  forallb (fun data => forallb (fun x => forallb (fun sh => forallb (fun ca =>
    action_ok (react (Z.b2z x) (Z.b2z sh) (Z.b2z ca) data)) bools) bools) bools) (seqZ 0 0x100) = true.
Proof. by vm_compute. Qed.

Definition is_flag (v : Z) : Prop := v = 0 \/ v = 1.

Lemma is_flag_b2z v : is_flag v <-> exists b, v = Z.b2z b.
Proof.
  split; [intros [->| ->]; [by exists false | by exists true] | intros [[] ->]; [by right | by left]].
Qed.

Lemma react_total x sh ca data :
  is_flag x -> is_flag sh -> is_flag ca -> is_u8 data -> action_ok (react x sh ca data) = true.
Proof.
  intros [x' ->]%is_flag_b2z [sh' ->]%is_flag_b2z [ca' ->]%is_flag_b2z Hd. pose proof react_total_all as Hall.
  apply (forallb_elem _ _ data) in Hall; [|apply elem_of_seqZ; unfold is_u8 in Hd; lia].
  apply (forallb_elem _ _ x') in Hall; [|apply elem_of_bools].
  apply (forallb_elem _ _ sh') in Hall; [|apply elem_of_bools].
  by apply (forallb_elem _ _ ca') in Hall; [|apply elem_of_bools].
Qed.

Section KeyboardProofs.
Context `{!Layout} `{!KbdLayout}.

Definition emit (fuel sfuel : nat) (c : Z) : M kbd_state unit :=
  full ← zoom io_lens (ioq_full kbd_buf); when (negb full) (zoom io_lens (ioq_putchar fuel sfuel kbd_buf c)).

Definition perform (fuel sfuel : nat) (a : action) : M kbd_state unit :=
  match a with
  | AExtend => modify (with_ext C_true)
  | AHold m v => modify (fun s => with_mod m v (with_ext C_false s))
  | AToggle => modify (fun s => with_caps (s8 (Z.lxor (caps_lock_status s) 1)) (with_ext C_false s))
  | AEmit c => modify (with_ext C_false) ;;; emit fuel sfuel c
  | ANone => modify (with_ext C_false)
  | AFault => fault
  end.

Lemma with_ext_same s : ext_scancode s = 0 -> with_ext C_false s = s.
Proof. destruct s. simpl. by intros ->. Qed.

Lemma handler_eq fuel sfuel data s :
  is_u8 data -> is_flag (ext_scancode s) ->
  intr_keyboard_handler fuel sfuel data s =
  perform fuel sfuel (react (ext_scancode s) (shift_status s) (caps_lock_status s) data) s.
Proof.
  intros Hd Hx. unfold intr_keyboard_handler, react.
  rewrite (u16_id data) by (unfold is_u8, is_u16 in *; lia).
  do 3 erewrite (bind_ok (gets _)) by done. cbv zeta. destruct (data =? 0xe0); [done|].
  erewrite (bind_ok (gets _)) by done.
  match goal with |- context [when ?c ?m ;;; _] =>
    assert (when c m s = Ok (tt, with_ext C_false s)) as E end.
  { destruct Hx as [Hx|Hx]; rewrite Hx; [by rewrite with_ext_same | done]. }
  erewrite bind_ok by exact E. clear E.
  set (sc := if ext_scancode s =? C_true then _ else _).
  destruct (negb (Z.land sc 0x80 =? 0)).
  { by repeat (case_match; try done). }
  destruct (_ || _ || _); [|done].
  destruct (array_get keymap _) as [l|]; [|done]. erewrite bind_ok by done. cbn [option_bind mbind option_bind].
  destruct (array_get l _) as [c|]; [|done]. erewrite bind_ok by done.
  destruct (negb (u8 c =? 0)) .
  { reflexivity. }
  by repeat (case_match; try done).
Qed.

Lemma handler_prefix fuel sfuel s : intr_keyboard_handler fuel sfuel 0xe0 s = Ok (tt, with_ext C_true s).
Proof. unfold intr_keyboard_handler. by do 3 erewrite (bind_ok (gets _)) by done. Qed.

(** *** The queue under the keyboard *)

(** The characters waiting in the queue, which nobody but a reader sleeps on. *)
Definition ring_state (k : io_state) (text : list Z) : Prop := exists q L r,
  queues k !! kbd_buf = Some q /\ ring_ok q /\ contents q = text /\ sched_ok (kst k) L r /\
  (consumer q <> NULL -> asleep (consumer q) (kst k) L) /\ if_flag (eflags (lst (kst k))) = false.

(** What the queue holds when [cs] arrive. *)
Definition received (text cs : list Z) : list Z := take 63 (text ++ cs).

Lemma ring_state_length k text : ring_state k text -> (length text <= 63)%nat.
Proof.
  intros (q & L & r & _ & _ & <- & _). pose proof (length_contents q). pose proof (used_range q).
  unfold bufsize in *. lia.
Qed.

Lemma emit_ok fuel sfuel c s text :
  ring_state (kio s) text -> is_u8 c -> exists k,
  emit (S fuel) sfuel c s = Ok (tt, put io_lens k s) /\ ring_state k (received text [c]).
Proof.
  intros Hring Hc. pose proof (ring_state_length _ _ Hring) as Hlen.
  destruct Hring as (q & L & r & Hq & Hr & Ht & Hs & Hw & Hif). pose proof (length_contents q) as Hcl.
  unfold emit. erewrite bind_ok by (apply zoom_ok, (ioq_full_eq _ _ q); done). cbn [view io_lens].
  assert (put io_lens (kio s) s = s) as -> by apply (put_view io_lens).
  unfold received. destruct (Z.eqb_spec (used q) 63) as [Hu|Hu]; cbn [negb when].
  - exists (kio s). split; [by rewrite (put_view io_lens)|]. exists q, L, r.
    rewrite take_app_le by (subst text; lia). rewrite take_ge by (subst text; lia). done.
  - destruct (asleep_woken (consumer q) (kst (kio s)) L r Hs Hw) as (k' & Hwk & Hk' & He).
    pose proof (used_range q) as Hrange. assert (used q < 63) as Hroom by (unfold bufsize in *; lia).
    eexists. split; [by apply zoom_ok, (ioq_putchar_eq fuel sfuel (kio s) kbd_buf q c k' Hif Hq Hr Hroom Hwk)|].
    rewrite take_ge by (rewrite length_app; subst text; simpl; lia). subst text.
    assert (exists L' r', sched_ok k' L' r') as (L' & r' & Hs').
    { destruct (consumer q =? NULL); [subst k'; by eexists _, _|]. destruct Hk' as [L' ?]. by eexists _, _. }
    exists (with_waiter CONSUMER NULL (enqueued c q)), L', r'. simpl.
    destruct (enqueued_ok c q Hr Hc) as [P1 P2 P3 P4].
    split; [apply lookup_insert_eq|]. split; [by split|]. split; [by apply contents_enqueued|].
    split; [done|]. split; [done|]. by rewrite He.
Qed.

(** *** Runs *)
Fixpoint handle (fuel sfuel : nat) (data : list Z) : M kbd_state unit :=
  match data with
  | [] => mret tt
  | b :: data => intr_keyboard_handler fuel sfuel b ;;; handle fuel sfuel data
  end.

Lemma handle_app fuel sfuel l k s s1 :
  handle fuel sfuel l s = Ok (tt, s1) -> handle fuel sfuel (l ++ k) s = handle fuel sfuel k s1.
Proof.
  revert s. induction l as [|b l IH]; intros s; simpl; [by intros [= ->]|].
  destruct (intr_keyboard_handler fuel sfuel b s) as [[[] s']|? ?|? ?| | |] eqn:E;
    unfold mbind, M_bind; rewrite E; simpl; try done. apply IH.
Qed.

(** The driver's flags are flags and its queue is in order. *)
Record kbd_ok (s : kbd_state) (text : list Z) : Prop := {
  ko_ctrl : is_flag (ctrl_status s);
  ko_shift : is_flag (shift_status s);
  ko_alt : is_flag (alt_status s);
  ko_caps : is_flag (caps_lock_status s);
  ko_ext : is_flag (ext_scancode s);
  ko_ring : ring_state (kio s) text;
}.

Lemma flag_toggle v : is_flag v -> is_flag (s8 (Z.lxor v 1)).
Proof. intros [->| ->]; [by right | by left]. Qed.

Lemma handler_ok fuel sfuel data s text :
  kbd_ok s text -> is_u8 data -> exists s' cs,
  intr_keyboard_handler (S fuel) sfuel data s = Ok (tt, s') /\ kbd_ok s' (received text cs) /\ (length cs <= 1)%nat.
Proof.
  intros Hok Hd. pose proof Hok as [Hc Hs Ha Hl Hx Hr]. rewrite handler_eq by done.
  pose proof (react_total _ _ _ _ Hx Hs Hl Hd) as Ht.
  assert (received text [] = text) as E0.
  { unfold received. rewrite app_nil_r. apply take_ge. by eapply ring_state_length. }
  destruct (react _ _ _ data) as [|m v| |c| |]; try done.
  - eexists _, []. split; [reflexivity|]. rewrite E0. split; [by split; try done; right | simpl; lia].
  - eexists _, []. split; [reflexivity|]. rewrite E0. assert (is_flag v) as Hv.
    { simpl in Ht. apply orb_true_iff in Ht as [?%Z.eqb_eq|?%Z.eqb_eq]; [by left | by right]. }
    split; [by destruct m; split; try done; left | simpl; lia].
  - eexists _, []. split; [reflexivity|]. rewrite E0. split; [split; try done; [by apply flag_toggle | by left] | simpl; lia].
  - simpl in Ht. b2p. destruct (emit_ok fuel sfuel c (with_ext C_false s) text) as (k & E & Hk); [done | done|].
    eexists _, [c]. split; [unfold perform; erewrite bind_ok by done; exact E|].
    split; [by split; try done; left | simpl; lia].
  - eexists _, []. split; [reflexivity|]. rewrite E0. split; [by split; try done; left | simpl; lia].
Qed.

(** *** Simulation of the user's view *)

(** The flags are those of the board ([x]: a prefix byte has arrived) and the
    queue holds [text]. *)
Record kbd_rep (x : bool) (s : kbd_state) (b : board) (text : list Z) : Prop := {
  kr_ctrl : ctrl_status s = Z.b2z (held b Ctrl);
  kr_shift : shift_status s = Z.b2z (held b Shift);
  kr_alt : alt_status s = Z.b2z (held b Alt);
  kr_caps : caps_lock_status s = Z.b2z (caps b);
  kr_ext : ext_scancode s = Z.b2z x;
  kr_ring : ring_state (kio s) text;
}.

Lemma b2z_flag b : is_flag (Z.b2z b).
Proof. apply is_flag_b2z. by exists b. Qed.

Lemma received_nil k text : ring_state k text -> received text [] = text.
Proof. intros Hr. unfold received. rewrite app_nil_r. apply take_ge. by eapply ring_state_length. Qed.

Lemma received_app text cs cs' : received (received text cs) cs' = received text (cs ++ cs').
Proof.
  unfold received. rewrite app_assoc. generalize (text ++ cs). intros l.
  destruct (decide (length l <= 63)%nat); [by rewrite (take_ge l)|].
  rewrite !take_app_le by (rewrite ?length_take; lia). apply take_ge. rewrite length_take. lia.
Qed.

Lemma typed_u8 sh ca k : typed sh ca k = 0 \/ is_u8 (typed sh ca k).
Proof.
  destruct k as [c|c]; [|by left]. right. unfold typed.
  assert (forall u, u ∈ 0 :: us_layout -> is_u8 (if is_letter u then (if xorb sh ca then u - 32 else u)
    else if sh then shifted u else u)) as Hall.
  { apply Forall_forall. destruct sh, ca; refine (bool_decide_eq_true_1 _ _); by vm_compute. }
  apply Hall. destruct (array_get us_layout (c - 1)) as [u|] eqn:E; simpl; [|by left].
  right. unfold array_get in E. destruct (0 <=? c - 1); [|done]. by eapply list_elem_of_lookup_2.
Qed.

Lemma last_byte_step fuel sfuel e s b text :
  key_ok (event_key e) = true -> kbd_rep (extended e) s b text -> exists s',
  intr_keyboard_handler (S fuel) sfuel (last_byte e) s = Ok (tt, s') /\
  kbd_rep false s' (press b e).1 (received text (press b e).2).
Proof.
  intros Hk [Hc Hs Ha Hl Hx Hr]. assert (is_u8 (last_byte e)) as Hd.
  { unfold is_u8. destruct e as [[c|c]|[c|c]]; simpl in *; b2p; lia. }
  rewrite handler_eq by (done || rewrite Hx; apply b2z_flag). rewrite Hx, Hs, Hl, react_event by done.
  unfold event_action, press. pose proof (received_nil _ _ Hr) as E0.
  destruct e as [k|k]; destruct (modifier_of k) as [m|].
  - eexists. split; [reflexivity|]. simpl. rewrite E0. by destruct m.
  - destruct (is_caps_lock k).
    + eexists. split; [reflexivity|]. simpl. rewrite E0. split; try done. simpl. rewrite Hl. by destruct (caps b).
    + cbv zeta. destruct (Z.eqb_spec (typed (held b Shift) (caps b) k) 0) as [Et|Et]; cbn [fst snd].
      * eexists. split; [reflexivity|]. by rewrite E0.
      * destruct (typed_u8 (held b Shift) (caps b) k) as [|Hu]; [done|].
        destruct (emit_ok fuel sfuel (typed (held b Shift) (caps b) k) (with_ext C_false s) text) as (k' & E & Hk'); [done | done|].
        eexists. split; [unfold perform; erewrite bind_ok by done; exact E|]. done.
  - eexists. split; [reflexivity|]. simpl. rewrite E0. by destruct m.
  - eexists. split; [reflexivity|]. simpl. by rewrite E0.
Qed.

Lemma event_step fuel sfuel e s b text :
  key_ok (event_key e) = true -> kbd_rep false s b text -> exists s',
  handle (S fuel) sfuel (bytes_of e) s = Ok (tt, s') /\ kbd_rep false s' (press b e).1 (received text (press b e).2).
Proof.
  intros Hk Hrep. rewrite bytes_of_eq. destruct (extended e) eqn:Hx; cbn [app handle].
  - erewrite bind_ok by apply handler_prefix.
    destruct (last_byte_step fuel sfuel e (with_ext C_true s) b text Hk) as (s' & E & Hs').
    { rewrite Hx. destruct Hrep. by split. }
    exists s'. by erewrite bind_ok by exact E.
  - destruct (last_byte_step fuel sfuel e s b text Hk) as (s' & E & Hs'); [by rewrite Hx|].
    exists s'. by erewrite bind_ok by exact E.
Qed.

Lemma events_run fuel sfuel es : forall s b text,
  Forall (fun e => key_ok (event_key e) = true) es -> kbd_rep false s b text -> exists s',
  handle (S fuel) sfuel (es ≫= bytes_of) s = Ok (tt, s') /\ kbd_rep false s' (presses b es).1 (received text (presses b es).2).
Proof.
  induction es as [|e es IH]; intros s b text Hes Hrep; simpl.
  - exists s. split; [done|]. by rewrite (received_nil _ _ (kr_ring _ _ _ _ Hrep)).
  - apply Forall_cons in Hes as [He Hes]. destruct (event_step fuel sfuel e s b text He Hrep) as (s1 & E1 & Hrep1).
    destruct (IH _ _ _ Hes Hrep1) as (s2 & E2 & Hrep2). exists s2. split; [by erewrite handle_app by exact E1|].
    revert Hrep2. destruct (press b e) as [b1 cs]. simpl. destruct (presses b1 es) as [b2 cs']. simpl.
    by rewrite received_app.
Qed.

(** *** Typing *)
Definition stroke (shift : bool) (k : Z) : list event :=
  if shift then [Down (Plain 0x2a); Down (Plain k); Up (Plain k); Up (Plain 0x2a)]
  else [Down (Plain k); Up (Plain k)].

(** A way to type the character, Caps Lock being in the given state. *)
Definition find_stroke (ca : bool) (c : Z) : option (list event) :=
  '(_, p) ← list_find (fun p => typed p.1 ca (Plain p.2) = c)
      (list_prod bools (filter (fun k => modifier_of (Plain k) = None) (seqZ 1 57)));
  Some (stroke p.1 p.2).

Definition type_char (ca : bool) (c : Z) : list event := default [] (find_stroke ca c).

(** The characters a keyboard has. *)
Definition typable (c : Z) : bool := ((32 <=? c) && (c <? 127)) || (c =? 8) || (c =? 9) || (c =? 13) || (c =? 27).

Definition idle (ca : bool) : board := Board false false false ca.

#[export] Instance board_eq_dec : EqDecision board.
Proof. solve_decision. Defined.

Definition stroke_ok (ca : bool) (c : Z) : bool :=
  negb (typable c) ||
  bool_decide (presses (idle ca) (type_char ca c) = (idle ca, [c])) &&
  forallb (fun e => key_ok (event_key e)) (type_char ca c).

Lemma stroke_ok_all : forallb (fun c => forallb (fun ca => stroke_ok ca c) bools) (seqZ 0 0x80) = true.
Proof. by vm_compute. Qed.

Lemma typable_stroke ca c :
  typable c = true -> presses (idle ca) (type_char ca c) = (idle ca, [c]) /\
    Forall (fun e => key_ok (event_key e) = true) (type_char ca c).
Proof.
  intros Hc. assert (stroke_ok ca c = true) as Hs.
  { pose proof stroke_ok_all as Hall. apply (forallb_elem _ _ c) in Hall.
    2: { apply elem_of_seqZ. unfold typable in Hc. repeat (apply orb_true_iff in Hc as [Hc|Hc]); b2p; lia. }
    by apply (forallb_elem _ _ ca) in Hall; [|apply elem_of_bools]. }
  unfold stroke_ok in Hs. rewrite Hc in Hs. simpl negb in Hs. rewrite orb_false_l in Hs.
  apply andb_true_iff in Hs as [Hp Hk]. b2p. split; [done|].
  apply Forall_forall. intros e He. exact (forallb_elem _ _ e Hk He).
Qed.

Lemma presses_app b es es' :
  presses b (es ++ es') = ((presses (presses b es).1 es').1, (presses b es).2 ++ (presses (presses b es).1 es').2).
Proof.
  revert b. induction es as [|e es IH]; intros b; simpl; [by destruct (presses b es')|].
  destruct (press b e) as [b1 cs]. rewrite IH. destruct (presses b1 es) as [b2 cs2]. simpl.
  by destruct (presses b2 es') as [b3 cs3]; simpl; rewrite app_assoc.
Qed.

Lemma text_presses ca text :
  Forall (fun c => typable c = true) text -> presses (idle ca) (text ≫= type_char ca) = (idle ca, text) /\
    Forall (fun e => key_ok (event_key e) = true) (text ≫= type_char ca).
Proof.
  induction 1 as [|c text Hc _ [IH1 IH2]]; [done|]. destruct (typable_stroke ca c Hc) as [E1 E2].
  rewrite bind_cons, presses_app, E1. cbn [fst snd]. rewrite IH1. split; [done|]. by apply Forall_app.
Qed.

(** ** Properties *)

(** C27: the driver shows its user a keyboard of the US layout: after any
    sequence of key presses and releases the flags are the modifiers held and
    Caps Lock, and the queue has received, up to its 63 places, the characters
    typed: letters in upper case when exactly one of Shift and Caps Lock is
    on, other characters by Shift alone. *)
Theorem keyboard_refines (fuel sfuel : nat) (es : list event) (s : kbd_state) (b : board) (text : list Z)
    (Hes : Forall (fun e => key_ok (event_key e) = true) es) (Hrep : kbd_rep false s b text) :
  exists s', handle (S fuel) sfuel (es ≫= bytes_of) s = Ok (tt, s') /\
    kbd_rep false s' (presses b es).1 (received text (presses b es).2).
Proof. by apply events_run. Qed.

(** C28: what is typed is what arrives: for every text of printable ASCII
    characters, tab, backspace, enter and escape there are keystrokes, with
    Caps Lock on or off, that put exactly the text into the queue and leave the
    modifiers as they were. *)
Theorem typing_roundtrip (fuel sfuel : nat) (ca : bool) (text old : list Z) (s : kbd_state)
    (Htext : Forall (fun c => typable c = true) text) (Hrep : kbd_rep false s (idle ca) old)
    (Hroom : (length old + length text <= 63)%nat) :
  exists s', handle (S fuel) sfuel ((text ≫= type_char ca) ≫= bytes_of) s = Ok (tt, s') /\
    kbd_rep false s' (idle ca) (old ++ text).
Proof.
  destruct (text_presses ca text Htext) as [E Hes]. destruct (events_run fuel sfuel _ _ _ _ Hes Hrep) as (s' & Es & Hs').
  exists s'. split; [exact Es|]. rewrite E in Hs'. unfold received in Hs'. simpl in Hs'.
  by rewrite take_ge in Hs' by (rewrite length_app; lia).
Qed.

(** C29: whatever bytes the keyboard sends, the handler returns: it never
    panics, waits or reads outside [keymap], its flags stay 0 or 1 and the
    queue stays in order. *)
Theorem keyboard_handler_safe (fuel sfuel : nat) (data : list Z) (s : kbd_state) (text : list Z)
    (Hdata : Forall is_u8 data) (Hok : kbd_ok s text) :
  exists s' cs, handle (S fuel) sfuel data s = Ok (tt, s') /\ kbd_ok s' (received text cs) /\
    (length cs <= length data)%nat.
Proof.
  revert s text Hok. induction Hdata as [|d data Hd _ IH]; intros s text Hok; simpl.
  - exists s, []. split; [done|]. by rewrite (received_nil _ _ (ko_ring _ _ Hok)).
  - destruct (handler_ok fuel sfuel d s text Hok Hd) as (s1 & cs & E1 & Hok1 & Hl1).
    destruct (IH s1 _ Hok1) as (s2 & cs' & E2 & Hok2 & Hl2). exists s2, (cs ++ cs').
    split; [by erewrite bind_ok by exact E1|]. rewrite received_app in Hok2. split; [done|]. rewrite length_app. lia.
Qed.

(** [keyboard_init], from the zeroed flags, leaves the driver idle with an
    empty queue and its handler registered for IRQ 1. *)
Theorem keyboard_init_correct (s : kbd_state) (q : ioqueue) (L : gmap Z (list Z)) (r : list Z)
    (Hraw : ioq_raw kbd_buf (kio s) q L r) (Hif : if_flag (eflags (lst (kst (kio s)))) = false)
    (Hflags : s = Kbd 0 0 0 0 0 (kio s) (kintr s)) (Hh : (0x21 < length (handlers (kintr s)))%nat) :
  exists s', keyboard_init s = Ok (tt, s') /\ kbd_rep false s' (idle false) [] /\
    array_get (handlers (kintr s')) 0x21 = Some intr_keyboard_handler_addr /\
    (forall i, i <> 0x21 -> array_get (handlers (kintr s')) i = array_get (handlers (kintr s)) i).
Proof.
  destruct (ioqueue_init_ok _ _ _ _ _ Hraw) as (k & E & Hq & Hr & He & _ & Hs').
  eexists. split.
  { unfold keyboard_init. erewrite bind_ok by (apply zoom_ok; exact E). apply zoom_ok.
    unfold register_handler, set_handler, mbind, M_bind, get. cbn [view kintr_lens put io_lens kintr].
    rewrite array_set_eq by lia. reflexivity. }
  split; [|split; [|intros i Hi]].
  - rewrite Hflags. split; try done. simpl. eexists _, _, _. split; [rewrite Hq; apply lookup_insert_eq|].
    do 2 (split; [done|]). split; [exact Hs'|]. split; [done|]. by rewrite He.
  - simpl. rewrite array_get_insert by lia. done.
  - simpl. rewrite array_get_insert by lia. by destruct (Z.eqb_spec 0x21 i); [congruence|].
Qed.
End KeyboardProofs.

(** *** Concrete instances: the keyboard over the queue of [IoQueue] *)
#[local] Instance example_kbd_layout : KbdLayout := {| kbd_buf := 0x30000; intr_keyboard_handler_addr := 0xc0005000 |}.
#[local] Existing Instance IoQueue.example_layout.

Definition example_intr : intr_state :=
  IntrState (replicate 0x81 gate_desc_zero) (replicate 0x81 EmptyString) (replicate 0x81 0) 0 [].

Definition example_keyboard (ca : Z) (q : ioqueue) : kbd_state := Kbd 0 0 0 ca 0 (example_io q) example_intr.

(** The thread 0x3000 waits for a character. *)
Lemma example_kbd_rep ca : kbd_rep false (example_keyboard (Z.b2z ca) (example_queue NULL 0x3000)) (idle ca) [65; 66].
Proof.
  split; try done. exists (example_queue NULL 0x3000), example_io_lists, [0x2000].
  split; [done|]. split; [apply example_ring|]. split; [done|]. split; [exact example_io_sched|].
  split; [intros _; exact example_asleep | done].
Qed.

(** Shift down, "h", shift up, "i", the right Ctrl key, "!". *)
Lemma keyboard_refines_witness : exists s',
  handle 1 1 ([Down (Plain 0x2a); Down (Plain 0x23); Up (Plain 0x2a); Down (Plain 0x17); Down (Extended 0x1d);
     Down (Plain 0x36); Down (Plain 2)] ≫= bytes_of) (example_keyboard 0 (example_queue NULL 0x3000)) = Ok (tt, s') /\
  ctrl_status s' = 1 /\ ring_state (kio s') [65; 66; 72; 105; 33].
Proof.
  destruct (keyboard_refines 0 1 [Down (Plain 0x2a); Down (Plain 0x23); Up (Plain 0x2a); Down (Plain 0x17); Down (Extended 0x1d);
     Down (Plain 0x36); Down (Plain 2)] (example_keyboard 0 (example_queue NULL 0x3000)) (idle false) [65; 66]
     ltac:(by repeat constructor) (example_kbd_rep false)) as (s' & E & Hrep).
  exists s'. split; [exact E|]. split; [exact (kr_ctrl _ _ _ _ Hrep) | exact (kr_ring _ _ _ _ Hrep)].
Defined.

Lemma typing_roundtrip_witness : exists s',
  handle 1 1 ((codes "Hi!" ≫= type_char true) ≫= bytes_of) (example_keyboard 1 (example_queue NULL 0x3000)) = Ok (tt, s') /\
  ring_state (kio s') (codes "ABHi!").
Proof.
  destruct (typing_roundtrip 0 1 true (codes "Hi!") [65; 66] (example_keyboard 1 (example_queue NULL 0x3000))
    ltac:(by repeat constructor) (example_kbd_rep true) ltac:(simpl; lia)) as (s' & E & Hrep).
  exists s'. split; [exact E | exact (kr_ring _ _ _ _ Hrep)].
Defined.

Lemma keyboard_handler_safe_witness : exists s' cs,
  handle 1 1 [0xe1; 0x1d; 0xff; 0x45; 0] (example_keyboard 0 (example_queue NULL 0x3000)) = Ok (tt, s') /\
  kbd_ok s' (received [65; 66] cs).
Proof.
  destruct (keyboard_handler_safe 0 1 [0xe1; 0x1d; 0xff; 0x45; 0] (example_keyboard 0 (example_queue NULL 0x3000)) [65; 66]
    ltac:(repeat constructor; unfold is_u8; lia)) as (s' & cs & E & Hok & _).
  - destruct (example_kbd_rep false) as [_ _ _ _ _ Hr]. split; try (by left). exact Hr.
  - exists s', cs. split; [exact E | exact Hok].
Defined.

Lemma keyboard_init_correct_witness : exists s',
  keyboard_init (example_keyboard 0 (example_queue 7 8)) = Ok (tt, s') /\
  array_get (handlers (kintr s')) 0x21 = Some 0xc0005000.
Proof.
  assert (ioq_raw kbd_buf (kio (example_keyboard 0 (example_queue 7 8))) (example_queue 7 8) example_raw_lists [0x2000]) as Hraw.
  { exact example_raw_ring. }
  destruct (keyboard_init_correct _ _ _ _ Hraw eq_refl eq_refl ltac:(simpl; lia)) as (s' & E & _ & Hh & _).
  exists s'. split; [exact E | exact Hh].
Defined.
