(* ===== verification/Programs.v ===== *)
(** * The programs of the demonstration: kernel/main.c (k_thread_a, k_thread_b,
      u_prog_a, u_prog_b)

    Two kernel threads and two processes allocate three pieces of memory, print
    their addresses, wait in a loop that counts down, and free them.  A body
    ends where the code enters [while(1)]. *)
From stdpp Require Import base numbers list gmap fin_maps strings.
From Stdlib Require Import ZArith Lia.
From S2P Require Import Prelude Globals Interrupt LinkedList Bitmap Paging PageAlloc Pages Supply Heap HeapInit HeapAlloc HeapFree HeapUse CString Stdio Thread Sync PoolLocks ThreadCreate System PrintStr Console Syscall Keyboard.

(** [while (cpu_delay-- > 0);] *)
Fixpoint delay {St} (fuel : nat) (cpu_delay : Z) : M St unit :=
  match fuel with
  | O => nofuel
  | S fuel' => if 0 <? cpu_delay then delay fuel' (s32 (cpu_delay - 1)) else mret tt
  end.

(** Addresses of the strings of main.c. *)
Class MainText := {
  thread_a_msg : Z;
  thread_b_msg : Z;
  prog_a_format : Z;
  prog_b_format : Z;
}.

(** A 32-bit store, as [push] does it. *)
Definition store32 (p w : Z) : M mem unit :=
  store8 p w ;;; store8 (p + 1) (Z.shiftr w 8) ;;; store8 (p + 2) (Z.shiftr w 16) ;;; store8 (p + 3) (Z.shiftr w 24).

Section Programs.
Context `{!Layout} `{!PoolLayout} `{!ConsoleLayout} `{!SyscallText} `{!MainText}.

(** [fuel]: of the locks; [dfuel]: of the delay; [ecx], [edx]: what these
    registers hold at the system calls. *)
Definition k_thread (fuel dfuel : nat) (ecx edx : Z) (msg count : Z) : M system unit :=
  addr1 ← sys_malloc 256;
  addr2 ← sys_malloc 255;
  addr3 ← sys_malloc 254;
  console_put_str fuel msg ;;;
  console_put_int fuel (u32 (s32 addr1)) ;;;
  console_put_char fuel 44 ;;;
  console_put_int fuel (u32 (s32 addr2)) ;;;
  console_put_char fuel 44 ;;;
  console_put_int fuel (u32 (s32 addr3)) ;;;
  console_put_char fuel 10 ;;;
  delay dfuel count ;;;
  free fuel ecx edx addr1 ;;;
  free fuel ecx edx addr2 ;;;
  free fuel ecx edx addr3.

Definition k_thread_a (fuel dfuel : nat) (ecx edx : Z) : M system unit := k_thread fuel dfuel ecx edx thread_a_msg 1000000000.
Definition k_thread_b (fuel dfuel : nat) (ecx edx : Z) : M system unit := k_thread fuel dfuel ecx edx thread_b_msg 100000.

(** [ap]: where the stack has the arguments of [printf]; [buf]: its local array. *)
Definition u_prog (fuel dfuel : nat) (ecx edx ap buf : Z) (format : Z) : M system unit :=
  addr1 ← malloc fuel ecx edx 256;
  addr2 ← malloc fuel ecx edx 255;
  addr3 ← malloc fuel ecx edx 254;
  zoom bytes (store32 (ap + 12) (u32 (s32 addr3)) ;;; store32 (ap + 8) (u32 (s32 addr2)) ;;; store32 (ap + 4) (u32 (s32 addr1)) ;;; store32 ap format) ;;;
  _ ← printf bytes (write fuel ecx edx) buf format ap;
  delay dfuel 100000 ;;;
  free fuel ecx edx addr1 ;;;
  free fuel ecx edx addr2 ;;;
  free fuel ecx edx addr3.

Definition u_prog_a (fuel dfuel : nat) (ecx edx ap buf : Z) : M system unit := u_prog fuel dfuel ecx edx ap buf prog_a_format.
Definition u_prog_b (fuel dfuel : nat) (ecx edx ap buf : Z) : M system unit := u_prog fuel dfuel ecx edx ap buf prog_b_format.
End Programs.

(** ** The delay *)
Lemma delay_ends {St} n c (s : St) : 0 <= c < 0x80000000 -> c < Z.of_nat n -> delay n c s = Ok (tt, s).
Proof.
  revert c. induction n as [|n IH]; intros c Hc Hn; simpl; [lia|].
  destruct (Z.ltb_spec 0 c); [|done]. rewrite s32_id by lia. apply IH; lia.
Qed.

(** It goes round once for every unit. *)
Lemma delay_fuel {St} n c (s : St) : 0 <= c < 0x80000000 -> Z.of_nat n <= c -> delay n c s = NoFuel.
Proof.
  revert c. induction n as [|n IH]; intros c Hc Hn; simpl; [done|].
  destruct (Z.ltb_spec 0 c); [|lia]. rewrite s32_id by lia. apply IH; lia.
Qed.

(** ** Arguments on the stack, and what printf makes of them *)
Lemma store32_ok p w m : is_u32 w -> mapped m p 4 -> store32 p w m = Ok (tt, CString.write m p (le_bytes w)).
Proof.
  intros Hw Hm. unfold store32. pose proof (mapped_insert m p 4 p (u8 w) Hm) as M1.
  pose proof (mapped_insert _ p 4 (p + 1) (u8 (Z.shiftr w 8)) M1) as M2.
  pose proof (mapped_insert _ p 4 (p + 2) (u8 (Z.shiftr w 16)) M2) as M3.
  erewrite bind_ok by (apply store8_ok, Hm; lia). erewrite bind_ok by (apply store8_ok, M1; lia).
  erewrite bind_ok by (apply store8_ok, M2; lia). rewrite store8_ok by (apply M3; lia).
  unfold u8, le_bytes. rewrite !Z.shiftr_div_pow2 by lia. simpl CString.write.
  by replace (p + 1 + 1 + 1) with (p + 3) by lia; replace (p + 1 + 1) with (p + 2) by lia.
Qed.

Lemma render_plain pre fmt args : Forall (fun c => c <> ch_percent) pre -> render (pre ++ fmt) args = app pre <$> render fmt args.
Proof.
  induction 1 as [|c pre Hc _ IH]; simpl; [by destruct (render fmt args)|].
  destruct (Z.eqb_spec c ch_percent); [done|]. simpl. rewrite IH. by destruct (render fmt args).
Qed.

(** "%x,0x%x,0x%x\n" *)
Definition three_hex : list Z := codes "%x,0x%x,0x%x" ++ [10].

Definition hex_report (pre : list Z) (a1 a2 a3 : Z) : list Z :=
  pre ++ numeral a1 16 ++ codes ",0x" ++ numeral a2 16 ++ codes ",0x" ++ numeral a3 16 ++ [10].

Lemma render_report pre a1 a2 a3 : Forall (fun c => c <> ch_percent) pre ->
  render (pre ++ three_hex) [AInt a1; AInt a2; AInt a3] = Some (hex_report pre a1 a2 a3).
Proof. intros Hp. by rewrite render_plain. Qed.

Lemma numeral_short v : zlen (numeral v 16) <= 33.
Proof.
  unfold numeral. assert (forall n v, zlen (to_digits n v 16) <= Z.of_nat n) as Hn; [|apply (Hn 33%nat)].
  intros n. induction n as [|n IH]; intros w; simpl; [done|]. rewrite zlen_app. change (zlen [digit_char (w mod 16)]) with 1.
  destruct (negb (w / 16 =? 0)); [specialize (IH (w / 16)); lia | change (zlen (@nil Z)) with 0; lia].
Qed.

Lemma hex_report_short pre a1 a2 a3 : zlen pre < 900 -> zlen (hex_report pre a1 a2 a3) < 1024.
Proof.
  intros Hp. unfold hex_report. rewrite !zlen_app. pose proof (numeral_short a1). pose proof (numeral_short a2). pose proof (numeral_short a3).
  change (zlen (codes ",0x")) with 3. change (zlen [10]) with 1. lia.
Qed.

(** The memory [m] of a process has room for the frame of [printf] and the
    string [fmt] apart from it. *)
Record stack_room (m : mem) (ap buf format : Z) (fmt : list Z) : Prop := {
  rm_args : mapped m ap 16;
  rm_buf : 0 < buf /\ mapped m buf 1024;
  rm_format : is_u32 format /\ cstring m format fmt;
  rm_apart : CString.apart ap 16 buf 1024 /\ CString.apart ap 16 format (zlen fmt + 1) /\ CString.apart buf 1024 format (zlen fmt + 1);
}.

Definition pushed (ap format a1 a2 a3 : Z) (m : mem) : mem :=
  CString.write (CString.write (CString.write (CString.write m (ap + 12) (le_bytes a3)) (ap + 8) (le_bytes a2)) (ap + 4) (le_bytes a1))
    ap (le_bytes format).

Lemma push_args_ok m ap buf format fmt a1 a2 a3 :
  stack_room m ap buf format fmt -> is_u32 a1 -> is_u32 a2 -> is_u32 a3 ->
  (store32 (ap + 12) a3 ;;; store32 (ap + 8) a2 ;;; store32 (ap + 4) a1 ;;; store32 ap format) m = Ok (tt, pushed ap format a1 a2 a3 m).
Proof.
  intros [Hm _ [Hf _] _] U1 U2 U3. erewrite bind_ok by (apply store32_ok; [done | apply (mapped_sub _ _ _ _ _ Hm); lia]).
  erewrite bind_ok by (apply store32_ok; [done | apply mapped_write, (mapped_sub _ _ _ _ _ Hm); lia]).
  erewrite bind_ok by (apply store32_ok; [done | do 2 apply mapped_write; apply (mapped_sub _ _ _ _ _ Hm); lia]).
  apply store32_ok; [done|]. do 3 apply mapped_write. apply (mapped_sub _ _ _ _ _ Hm); lia.
Qed.

Lemma pushed_outside ap format a1 a2 a3 m x : ~ ap <= x < ap + 16 -> pushed ap format a1 a2 a3 m !! x = m !! x.
Proof.
  intros Hx. assert (forall w, zlen (le_bytes w) = 4) as Hl by done. unfold pushed. by rewrite !write_outside by (rewrite Hl; lia).
Qed.

Lemma pushed_args (F : Z -> Prop) ap format a1 a2 a3 m :
  (forall x, ap <= x < ap + 16 -> F x) -> is_u32 a1 -> is_u32 a2 -> is_u32 a3 ->
  args_at F (pushed ap format a1 a2 a3 m) ap [AInt a1; AInt a2; AInt a3].
Proof.
  intros HF U1 U2 U3. assert (forall w, zlen (le_bytes w) = 4) as Hl by done. unfold pushed.
  cbn [args_at arg_word]. replace (ap + 4 + 4) with (ap + 8) by lia. replace (ap + 8 + 4) with (ap + 12) by lia.
  split; [|split; [intros x Hx; apply HF; lia | split; [done | split; [done | split; [|split; [intros x Hx; apply HF; lia | split; [done | split; [done | split; [|split; [intros x Hx; apply HF; lia | done]]]]]]]]]].
  - apply bytes_at_write; [unfold CString.apart; rewrite !Hl; lia | apply bytes_at_write_eq].
  - do 2 (apply bytes_at_write; [unfold CString.apart; rewrite !Hl; lia |]). apply bytes_at_write_eq.
  - do 3 (apply bytes_at_write; [unfold CString.apart; rewrite !Hl; lia |]). apply bytes_at_write_eq.
Qed.

(** [printf] on this frame. *)
Lemma printf_report {St} (l : lens St mem) (write_call : Z -> M St Z) ap buf format pre a1 a2 a3 s :
  stack_room (view l s) ap buf format (pre ++ three_hex) -> is_u32 a1 -> is_u32 a2 -> is_u32 a3 ->
  Forall (fun c => c <> ch_percent) pre -> zlen pre < 900 ->
  exists m', cstring m' buf (hex_report pre a1 a2 a3) /\
    (forall x, ~ ap <= x < ap + 16 -> ~ buf <= x < buf + 1024 -> m' !! x = view l s !! x) /\
    printf l write_call buf format ap (put l (pushed ap format a1 a2 a3 (view l s)) s) = write_call buf (put l m' s).
Proof.
  intros [Hm [Hb Hbm] [Hf Hfmt] (A1 & A2 & A3)] U1 U2 U3 Hp Hlen. unfold CString.apart in *.
  set (fmt := pre ++ three_hex) in *. set (mp := pushed ap format a1 a2 a3 (view l s)).
  set (F := fun x => ap <= x < ap + 16 \/ format <= x < format + zlen fmt + 1).
  pose proof (hex_report_short pre a1 a2 a3 Hlen) as Hshort. set (out := hex_report pre a1 a2 a3) in *.
  assert (mapped mp buf 1024) as Hbm' by (unfold mp, pushed; by do 4 apply mapped_write).
  assert (outside F buf 1024) as Ho by (intros x Hx; unfold F; lia).
  destruct (printf_correct l F (put l mp s) write_call buf format ap fmt [AInt a1; AInt a2; AInt a3] out) as (m' & Hc & Hk & E);
    rewrite ?(view_put l); try done.
  - split.
    + exact Hb.
    + destruct Hfmt as [Hfb Hfc]. split; [|done]. eapply bytes_at_ext; [|exact Hfb]. intros x Hx. apply pushed_outside.
      rewrite zlen_app in Hx. change (zlen [0]) with 1 in Hx. lia.
    + intros x Hx. right. lia.
    + apply pushed_args; [intros x Hx; by left | done..].
    + intros x Hx. apply Hbm'. lia.
    + intros x Hx. apply Ho. lia.
  - by apply render_report.
  - exists m'. split; [exact Hc|]. rewrite (view_put l) in Hk. split; [|by rewrite (put_put l) in E].
    intros x H1 H2. rewrite Hk by done. by apply pushed_outside.
Qed.

(** ** The system while a program runs *)
Section ProgramProofs.
Context `{!Layout} `{!PoolLayout} `{!ConsoleLayout} `{!SyscallText} `{!MainText}.

(** The heap is in order and no other thread is inside it or the console. *)
Record can_run (s : system) (Ls : gmap Z (list Z)) : Prop := {
  cr_heap : heap_ok (view heap s) Ls;
  cr_table : table_ready s;
  cr_pool : lock_free (pool_lock (heap_pf (view heap s))) (view sys_threads s);
  cr_console : lock_free console_lock (view sys_threads s);
}.

Lemma lock_free_heap p h s : lock_free p (view sys_threads s) -> lock_free p (view sys_threads (put heap h s)).
Proof. intros Hf. by apply (lock_free_ext p (view sys_threads s)). Qed.

Lemma can_run_put s Ls h Ls' : can_run s Ls -> heap_pf h = heap_pf (view heap s) -> heap_ok h Ls' -> can_run (put heap h s) Ls'.
Proof.
  intros [H1' H2' H3' H4'] Hpf Hok. split; rewrite ?(view_put heap).
  - done.
  - exact H2'.
  - rewrite Hpf. by apply lock_free_heap.
  - by apply lock_free_heap.
Qed.

Lemma can_run_printed cs s Ls : can_run s Ls -> can_run (printed cs s) Ls.
Proof. by intros []. Qed.

(** The heap can get three pages, and three tables for them, from the memory as
    it is now: enough for three requests of at most 256 bytes. *)
Definition supplied (s : system) : Prop :=
  let h := view heap s in
  256 <= pool_size (pool_get (heap_pf h) (hmem h)) /\ supply (heap_pf h) (hmem h) 3 3 3.

(** What of it is left after some requests, for [n] more. *)
Definition left_for (n : Z) (s0 : system) (h : heap_state) : Prop :=
  supplied s0 -> 256 <= pool_size (pool_get (heap_pf h) (hmem h)) /\ supply (heap_pf h) (hmem h) n n n.

Lemma needs_one_page size : size <= 256 -> pages_needed size = 1.
Proof. intros Hs. unfold pages_needed. by destruct (Z.leb_spec size 1024); [|lia]. Qed.

Lemma left_covered n s0 h size :
  left_for n s0 h -> supplied s0 -> 1 <= n -> size <= 256 -> covered h size n n n.
Proof.
  intros Hl [Hsz Hs]%Hl Hn Hle. unfold covered. rewrite (needs_one_page size) by done. cbv zeta.
  change (tables 1) with 1. split; [lia|]. split; [done|]. lia.
Qed.

Lemma left_taken n s0 h h' :
  left_for n s0 h -> 1 <= n -> heap_pf h' = heap_pf h -> takes_pages (heap_pf h) (hmem h) (hmem h') 1 -> left_for (n - 1) s0 h'.
Proof.
  intros Hl Hn Hpf Ht Hsup. destruct (Hl Hsup) as [Hsz Hs]. rewrite Hpf, (takes_size _ _ _ _ _ Ht). split; [done|].
  apply (takes_supply _ _ _ 1 n n n Ht); [lia | exact Hs].
Qed.

Definition in_order (s : system) (Ls : gmap Z (list Z)) (h : heap_state) (Ls' : gmap Z (list Z)) : Prop :=
  can_run (put heap h s) Ls' /\ heap_pf h = heap_pf (view heap s).

(** What an allocation does: [malloc] and [sys_malloc] alike. *)
Definition allocates (alloc : Z -> M system Z) : Prop := forall s Ls size, can_run s Ls -> 0 <= size <= 256 ->
  wpu (alloc size) s (fun p s' =>
    (p = NULL /\ s' = s /\ (pool_size (pool_get (heap_pf (view heap s)) (hmem (view heap s))) < size \/ no_pages (view heap s) 1)) \/
    exists h, s' = put heap h s /\ malloc_done (view heap s) Ls size p h) (malloc_panics (heap_pf (view heap s)) (hmem (view heap s)) 1).

Lemma sys_malloc_allocates : allocates sys_malloc.
Proof.
  intros s Ls size [Hok Ht Hp Hc] Hs. rewrite <- (needs_one_page size) by lia.
  apply (@sys_malloc_ok system system_locks); [done | exact Hok | exact Hp | lia | lia].
Qed.

Lemma malloc_allocates fuel ecx edx : allocates (malloc fuel ecx edx).
Proof.
  intros s Ls size [Hok Ht Hp Hc] Hs. rewrite <- (needs_one_page size) by lia.
  apply user_malloc_ok; [done | exact Hok | exact Hp | unfold is_u32; lia | lia].
Qed.

(** No address but NULL occurs twice. *)
Fixpoint distinct (l : list Z) : Prop :=
  match l with [] => True | a :: l => (a <> NULL -> a ∉ l) /\ distinct l end.

Lemma distinct_snoc l a : distinct (l ++ [a]) -> distinct l /\ (a <> NULL -> a ∉ l).
Proof.
  induction l as [|b l IH]; simpl; [intros _; split; [done|]; intros _; apply not_elem_of_nil|].
  intros [Hb [Hl Ha]%IH]. setoid_rewrite elem_of_app in Hb. split.
  - split; [intros Hn Hin; apply (Hb Hn); by left | done].
  - intros Hn [->|Hin]%elem_of_cons; [apply (Hb Hn); right; left | by apply (Ha Hn)].
Qed.

(** The pieces [l] were handed out since [s0]. *)
Record pieces (s0 : system) (Ls0 : gmap Z (list Z)) (h : heap_state) (Ls : gmap Z (list Z)) (l : list Z) : Prop := {
  pc_order : in_order s0 Ls0 h Ls;
  pc_given : forall x n, given (view heap s0) Ls0 x n <-> given h Ls x n /\ x ∉ l;
  pc_null : NULL ∈ l -> ~ supplied s0;
  pc_each : forall a, a ∈ l -> a <> NULL -> exists n, given h Ls a n;
  pc_distinct : distinct l;
}.

Lemma pieces_nil s Ls : can_run s Ls -> pieces s Ls (view heap s) Ls [].
Proof.
  intros Hc. split.
  - split; [by rewrite (put_view heap) | done].
  - intros x n. split; [by intros; split; [|apply not_elem_of_nil] | by intros []].
  - by intros ?%elem_of_nil.
  - by intros a ?%elem_of_nil.
  - done.
Qed.

(** One allocation. *)
Lemma alloc_step alloc s0 Ls0 h Ls l size k :
  allocates alloc -> pieces s0 Ls0 h Ls l -> left_for k s0 h -> 1 <= k -> 0 <= size <= 256 ->
  wpu (alloc size) (put heap h s0) (fun a s' => exists h' Ls', s' = put heap h' s0 /\ pieces s0 Ls0 h' Ls' (a :: l) /\
    left_for (k - 1) s0 h' /\
    (a = NULL \/ exists n, size <= n <= rounded size /\ gives h Ls h' Ls' a n)) (~ supplied s0).
Proof.
  intros Hal Hp Hleft Hn1 Hs. pose proof Hp as [[Hc Hpf] Hg Hn He Hdi]. pose proof (cr_heap _ _ Hc) as Hok0. rewrite (view_put heap) in Hok0.
  eapply wpu_mono; [by apply Hal | |].
  - rewrite (view_put heap). intros a s' [(-> & -> & Hlack)|(h' & -> & Hd)].
    + assert (~ supplied s0) as Hno.
      { intros Hsup. pose proof (left_covered k s0 h size Hleft Hsup Hn1 ltac:(lia)) as Hcov. destruct Hlack as [Hlt|Hno].
        - destruct Hcov as (Hle & _). lia.
        - apply (covered_run _ _ _ _ _ Hcov). by rewrite (needs_one_page size) by lia. }
      exists h, Ls. split; [done|]. split; [|split; [by intros ?%Hno | by left]]. split; [done | | | |].
      * intros x n. rewrite Hg, not_elem_of_cons. split; [|naive_solver]. intros [Hx Hl]. split; [done|]. split; [|done].
        intros ->. by apply (given_not_null _ _ _ _ Hok0 Hx).
      * by intros _.
      * intros a [->|Ha]%elem_of_cons; [done|]. by apply He.
      * done.
    + destruct Hd as (Ls' & sz & Hna & Hpf' & Hok' & [Hgv Hnew] & Hsz & Htk). rewrite (put_put heap).
      rewrite (needs_one_page size) in Htk by lia.
      exists h', Ls'. split; [done|]. split; [|split; [by apply (left_taken k s0 h) | right; exists sz; split; [done | by split]]]. split.
      * split; [|by rewrite Hpf']. rewrite <- (put_put heap h' h s0).
        apply (can_run_put _ Ls); rewrite ?(view_put heap); try done. 
      * intros x n. rewrite Hg, Hgv, not_elem_of_cons. split.
        -- intros [Hx Hl]. split; [by left|]. split; [|done]. intros ->. by apply (Hnew n).
        -- intros [[Hx|[-> _]] [Hne Hl]]; done.
      * intros [E|Hin]%elem_of_cons; [by rewrite <- E in Hna | by apply Hn].
      * intros x [->|Hx]%elem_of_cons Hne; [exists sz; apply Hgv; by right|]. destruct (He x Hx Hne) as [n Hx'].
        exists n. apply Hgv. by left.
      * split; [|done]. intros _ Hin. destruct (He a Hin Hna) as [n Hx]. by apply (Hnew n).
  - intros Hpan Hsup. rewrite (view_put heap) in Hpan. rewrite <- (needs_one_page size) in Hpan by lia.
    apply (covered_no_panic h Ls size k k k Hok0); [|exact Hpan]. by apply (left_covered k s0); [| | |lia].
Qed.
(** One piece is freed, the oldest first. *)
Lemma free_step fuel ecx edx s0 Ls0 h Ls l a :
  pieces s0 Ls0 h Ls (l ++ [a]) ->
  wpu (free fuel ecx edx a) (put heap h s0) (fun _ s' => a <> NULL /\ exists h' Ls', s' = put heap h' s0 /\ pieces s0 Ls0 h' Ls' l)
    (~ supplied s0).
Proof.
  intros [[Hc Hpf] Hg Hn He Hdi]. pose proof Hc as [Hok Ht Hp _]. destruct (Z.eq_dec a NULL) as [->|Hna].
  { unfold wpu. rewrite user_free_null by done. apply Hn, elem_of_app. by right; left. }
  destruct (He a ltac:(apply elem_of_app; by right; left) Hna) as [n Ha]. destruct (distinct_snoc _ _ Hdi) as [Hdl Hal].
  eapply wpu_mono; [apply (user_free_ok fuel ecx edx _ Ls Ht Hok Hp a n); by rewrite (view_put heap) | | done].
  rewrite (view_put heap). intros [] s' (h' & -> & Ls' & Hok' & Hpf' & Hgv & _). destruct Hpf' as [Hpf' _]. split; [done|].
  exists h', Ls'. rewrite (put_put heap). split; [done|]. split.
  - split; [|by rewrite Hpf']. rewrite <- (put_put heap h' h s0). apply (can_run_put _ Ls); rewrite ?(view_put heap); done.
  - intros x m. rewrite Hg, Hgv, not_elem_of_app, not_elem_of_cons. pose proof (not_elem_of_nil x). tauto.
  - intros Hin. apply Hn, elem_of_app. by left.
  - intros x Hx Hnx. destruct (He x ltac:(apply elem_of_app; by left) Hnx) as [m Hm]. exists m. apply Hgv. split; [done|].
    intros ->. by apply (Hal Hna).
  - done.
Qed.

(** The heap after all three are free again: what was held before is held. *)
Lemma free_three fuel ecx edx s0 Ls0 h Ls a1 a2 a3 :
  pieces s0 Ls0 h Ls [a3; a2; a1] ->
  wpu (free fuel ecx edx a1 ;;; free fuel ecx edx a2 ;;; free fuel ecx edx a3) (put heap h s0)
    (fun _ s' => (a1 <> NULL /\ a2 <> NULL /\ a3 <> NULL) /\ exists h' Ls', s' = put heap h' s0 /\ can_run s' Ls' /\
      forall x n, given h' Ls' x n <-> given (view heap s0) Ls0 x n) (~ supplied s0).
Proof.
  intros P3. apply wpu_bind. eapply wpu_mono; [exact (free_step fuel ecx edx s0 Ls0 h Ls [a3; a2] a1 P3) | | done].
  intros [] ? (N1 & h2 & Ls2 & -> & P2). apply wpu_bind. eapply wpu_mono; [exact (free_step fuel ecx edx s0 Ls0 h2 Ls2 [a3] a2 P2) | | done].
  intros [] ? (N2 & h1 & Ls1 & -> & P1). eapply wpu_mono; [exact (free_step fuel ecx edx s0 Ls0 h1 Ls1 [] a3 P1) | | done].
  intros [] ? (N3 & h' & Ls' & -> & [[Hc Hpf] Hg _ _ _]). split; [done|]. exists h', Ls'. split; [done|]. split; [done|].
  intros x n. rewrite Hg. split; [|by intros []]. intros Hx. split; [done | apply not_elem_of_nil].
Qed.
(** ** The kernel threads *)

(** The line that reports three addresses. *)
Definition report (cs : list Z) (a1 a2 a3 : Z) (text : list Z) : Prop := exists d1 d2 d3,
  hex_numeral a1 d1 /\ hex_numeral a2 d2 /\ hex_numeral a3 d3 /\ text = cs ++ d1 ++ [44] ++ d2 ++ [44] ++ d3 ++ [10].

Lemma int_cast a : is_u32 a -> u32 (s32 a) = a.
Proof. intros Ha. by rewrite u32_s32, u32_id. Qed.

Lemma report_ok {A} fuel msg cs a1 a2 a3 s (k : M system A) (Q : A -> system -> Prop) P :
  lock_free console_lock (view sys_threads s) -> cstring (s_bytes s) msg cs -> is_u32 a1 -> is_u32 a2 -> is_u32 a3 ->
  (forall text, report cs a1 a2 a3 text -> wpu k (printed text s) Q P) ->
  wpu (console_put_str (S fuel) msg ;;; console_put_int (S fuel) (u32 (s32 a1)) ;;; console_put_char (S fuel) 44 ;;;
    console_put_int (S fuel) (u32 (s32 a2)) ;;; console_put_char (S fuel) 44 ;;; console_put_int (S fuel) (u32 (s32 a3)) ;;;
    console_put_char (S fuel) 10 ;;; k) s Q P.
Proof.
  intros Hf Hs H1' H2' H3' HQ. rewrite !int_cast by done.
  apply wpu_bind. eapply wpu_eq; [by apply console_put_str_ok|].
  destruct (console_put_int_ok fuel a1 (printed cs s) Hf H1') as (d1 & E1 & N1). apply wpu_bind. eapply wpu_eq; [exact E1|].
  apply wpu_bind. eapply wpu_eq; [by apply console_put_char_ok; [exact Hf | unfold is_u8; lia]|]. rewrite !printed_app.
  match goal with |- wpu _ (printed ?t s) _ _ => destruct (console_put_int_ok fuel a2 (printed t s) Hf H2') as (d2 & E2 & N2) end.
  apply wpu_bind. eapply wpu_eq; [exact E2|].
  apply wpu_bind. eapply wpu_eq; [by apply console_put_char_ok; [exact Hf | unfold is_u8; lia]|]. rewrite !printed_app.
  match goal with |- wpu _ (printed ?t s) _ _ => destruct (console_put_int_ok fuel a3 (printed t s) Hf H3') as (d3 & E3 & N3) end.
  apply wpu_bind. eapply wpu_eq; [exact E3|].
  apply wpu_bind. eapply wpu_eq; [by apply console_put_char_ok; [exact Hf | unfold is_u8; lia]|]. rewrite !printed_app.
  apply HQ. exists d1, d2, d3. split; [exact N1|]. split; [exact N2|]. split; [exact N3|]. by rewrite <- !app_assoc.
Qed.

(** Three pieces of the sizes asked for, new and apart from each other. *)
Definition three_given (s0 : system) (Ls0 : gmap Z (list Z)) (a1 a2 a3 : Z) : Prop := exists h Ls n1 n2 n3,
  heap_ok h Ls /\ given h Ls a1 n1 /\ given h Ls a2 n2 /\ given h Ls a3 n3 /\ 256 <= n1 /\ 255 <= n2 /\ 254 <= n3 /\
  a1 <> a2 /\ a1 <> a3 /\ a2 <> a3 /\ forall x n, given (view heap s0) Ls0 x n -> given h Ls x n /\ x ∉ [a1; a2; a3].

(** Three allocations, then [k]. *)
Lemma three_allocs {A} alloc s Ls (k : Z -> Z -> Z -> M system A) Q :
  allocates alloc -> can_run s Ls ->
  (forall a1 a2 a3 h Ls', pieces s Ls h Ls' [a3; a2; a1] -> is_u32 a1 -> is_u32 a2 -> is_u32 a3 ->
    (a1 <> NULL /\ a2 <> NULL /\ a3 <> NULL -> three_given s Ls a1 a2 a3) -> wpu (k a1 a2 a3) (put heap h s) Q (~ supplied s)) ->
  wpu (addr1 ← alloc 256; addr2 ← alloc 255; addr3 ← alloc 254; k addr1 addr2 addr3) s Q (~ supplied s).
Proof.
  intros Hal Hc HQ. pose proof (pieces_nil s Ls Hc) as P0. rewrite <- (put_view heap s).
  assert (left_for 3 s (view heap s)) as L0 by by intros ?.
  apply wpu_bind. eapply wpu_mono; [apply (alloc_step alloc s Ls _ _ _ 256 3 Hal P0 L0); lia | | done].
  rewrite (put_view heap). intros a1 ? (h1 & Ls1 & -> & P1 & L1 & C1).
  apply wpu_bind. eapply wpu_mono; [apply (alloc_step alloc s Ls _ _ _ 255 2 Hal P1 L1); lia | | done].
  intros a2 ? (h2 & Ls2 & -> & P2 & L2 & C2).
  apply wpu_bind. eapply wpu_mono; [apply (alloc_step alloc s Ls _ _ _ 254 1 Hal P2 L2); lia | | done].
  intros a3 ? (h3 & Ls3 & -> & P3 & _ & C3). pose proof P3 as [[Hc3 _] Hg Hn He (D3 & D2 & D1 & _)].
  pose proof (cr_heap _ _ Hc3) as Hok3. rewrite (view_put heap) in Hok3.
  assert (forall a, a ∈ [a3; a2; a1] -> is_u32 a) as Hu.
  { intros a Ha. destruct (Z.eq_dec a NULL) as [->|Hne]; [done|]. destruct (He a Ha Hne) as [n Hx]. by eapply given_u32. }
  setoid_rewrite elem_of_cons in Hu. setoid_rewrite elem_of_cons in Hu. setoid_rewrite elem_of_cons in Hu.
  eapply HQ; [exact P3 | apply Hu; by right; right; left | apply Hu; by right; left | apply Hu; by left |]. intros (N1 & N2 & N3).
  destruct C1 as [|(n1 & S1 & G1 & _)]; [done|]. destruct C2 as [|(n2 & S2 & G2 & _)]; [done|]. destruct C3 as [|(n3 & S3 & G3 & _)]; [done|].
  specialize (D3 N3). specialize (D2 N2).
  apply not_elem_of_cons in D3 as [N32 [N31 _]%not_elem_of_cons]. apply not_elem_of_cons in D2 as [N21 _].
  exists h3, Ls3, n1, n2, n3. split; [exact Hok3|].
  split; [apply G3; left; apply G2; left; apply G1; by right|].
  split; [apply G3; left; apply G2; by right|]. split; [apply G3; by right|]. do 3 (split; [lia|]).
  do 3 (split; [by apply not_eq_sym|]).
  intros x n Hx. apply Hg in Hx as [Hx Hnl]. split; [done|]. rewrite !not_elem_of_cons in *. tauto.
Qed.
Lemma k_thread_ok fuel dfuel ecx edx msg count cs s Ls :
  can_run s Ls -> cstring (s_bytes s) msg cs -> 0 <= count < 0x80000000 -> count < Z.of_nat dfuel ->
  wpu (k_thread (S fuel) dfuel ecx edx msg count) s (fun _ s' => exists a1 a2 a3 text h Ls',
    three_given s Ls a1 a2 a3 /\ report cs a1 a2 a3 text /\ s' = put heap h (printed text s) /\ can_run s' Ls' /\
    forall x n, given h Ls' x n <-> given (view heap s) Ls x n) (~ supplied s).
Proof.
  intros Hc Hs Hcount Hd. unfold k_thread. apply (three_allocs _ s Ls); [apply sys_malloc_allocates | done|].
  intros a1 a2 a3 h Ls1 [[Hc1 Hpf] Hg Hn He Hdi] U1 U2 U3 Hthree.
  apply (report_ok _ _ cs); [apply Hc1 | exact Hs | done..|]. intros text Htext.
  apply wpu_bind. eapply wpu_eq; [by rewrite delay_ends|].
  change (printed text (put heap h s)) with (put heap h (printed text s)).
  assert (pieces (printed text s) Ls h Ls1 [a3; a2; a1]) as P'.
  { split; try done. split; [by apply (can_run_printed text) in Hc1 | done]. }
  eapply wpu_mono; [by apply (free_three (S fuel) ecx edx (printed text s) Ls h Ls1) | | done].
  intros [] s' (N & h' & Ls' & -> & Hc' & Hg'). exists a1, a2, a3, text, h', Ls'. split; [by apply Hthree|]. done.
Qed.

(** ** The processes *)
Lemma can_run_bytes m s Ls : can_run s Ls -> can_run (put bytes m s) Ls.
Proof. by intros []. Qed.

Lemma u_prog_ok fuel dfuel ecx edx ap buf format pre s Ls :
  can_run s Ls -> stack_room (s_bytes s) ap buf format (pre ++ three_hex) ->
  Forall (fun c => c <> ch_percent) pre -> zlen pre < 900 -> 100000 < Z.of_nat dfuel ->
  wpu (u_prog (S fuel) dfuel ecx edx ap buf format) s (fun _ s' => exists a1 a2 a3 m h Ls',
    three_given s Ls a1 a2 a3 /\ s' = put heap h (printed (hex_report pre a1 a2 a3) (put bytes m s)) /\ can_run s' Ls' /\
    (forall x n, given h Ls' x n <-> given (view heap s) Ls x n) /\
    forall x, ~ ap <= x < ap + 16 -> ~ buf <= x < buf + 1024 -> m !! x = s_bytes s !! x) (~ supplied s).
Proof.
  intros Hc Hroom Hpre Hlen Hd. unfold u_prog. apply (three_allocs _ s Ls); [apply malloc_allocates | done|].
  intros a1 a2 a3 h Ls1 [[Hc1 Hpf] Hg Hn He Hdi] U1 U2 U3 Hthree. rewrite !int_cast by done.
  pose proof Hroom as [_ [Hb _] _ _]. set (s1 := put heap h s) in *.
  apply wpu_bind, wpu_zoom. eapply wpu_eq; [exact (f_equal undisturbed (push_args_ok (s_bytes s) ap buf format _ a1 a2 a3 Hroom U1 U2 U3))|].
  destruct (printf_report bytes (write (S fuel) ecx edx) ap buf format pre a1 a2 a3 s1 Hroom U1 U2 U3 Hpre Hlen) as (m & Hcs & Hkeep & E).
  apply wpu_bind. change (view bytes s1) with (s_bytes s) in *.
  eapply wpu_eq.
  { etransitivity; [exact (f_equal undisturbed E)|]. pose proof (hex_report_short pre a1 a2 a3 Hlen).
    destruct (can_run_bytes m _ _ Hc1) as [_ Ht' _ Hl']. apply user_write_ok; [exact Ht' | exact Hl' | unfold NULL; lia | exact Hcs | lia]. }
  apply wpu_bind. eapply wpu_eq; [rewrite delay_ends by lia; reflexivity|].
  set (s2 := printed (hex_report pre a1 a2 a3) (put bytes m s)).
  change (printed (hex_report pre a1 a2 a3) (put bytes m s1)) with (put heap h s2).
  assert (pieces s2 Ls h Ls1 [a3; a2; a1]) as P'.
  { split; try done. split; [|done]. by apply (can_run_bytes m), (can_run_printed (hex_report pre a1 a2 a3)) in Hc1. }
  eapply wpu_mono; [by apply (free_three (S fuel) ecx edx s2 Ls h Ls1) | | done].
  intros [] s' (N & h' & Ls' & -> & Hc' & Hg'). exists a1, a2, a3, m, h', Ls'. split; [by apply Hthree|]. done.
Qed.

(** ** Properties *)

(** C34: a kernel thread of the demonstration, no other thread being in the heap
    or the console: it gets three new pieces of memory of at least 256, 255 and
    254 bytes, prints its message and their addresses in hexadecimal, leaves
    its delay loop (for which a billion and one rounds are enough, and a
    billion are not), gives everything back, so that exactly what was held
    before is held, and reaches its last loop.  It stops the machine only when
    the memory it starts with has not a run of three free addresses and three
    free frames, and three more for page tables. *)
Theorem k_threads_end (fuel dfuel : nat) (ecx edx : Z) (cs : list Z) (s : system) (Ls : gmap Z (list Z))
    (Hc : can_run s Ls) (Hd : 1000000000 < Z.of_nat dfuel) :
  let ends m := wpu m s (fun _ s' => exists a1 a2 a3 text h Ls',
    three_given s Ls a1 a2 a3 /\ report cs a1 a2 a3 text /\ s' = put heap h (printed text s) /\ can_run s' Ls' /\
    forall x n, given h Ls' x n <-> given (view heap s) Ls x n) (~ supplied s) in
  (cstring (s_bytes s) thread_a_msg cs -> ends (k_thread_a (S fuel) dfuel ecx edx)) /\
  (cstring (s_bytes s) thread_b_msg cs -> ends (k_thread_b (S fuel) dfuel ecx edx)) /\
  forall n, (delay n 1000000000 s = NoFuel <-> Z.of_nat n <= 1000000000).
Proof.
  intros ends. split; [|split].
  - intros Hs. apply (k_thread_ok fuel dfuel ecx edx thread_a_msg 1000000000 cs s Ls Hc Hs); lia.
  - intros Hs. apply (k_thread_ok fuel dfuel ecx edx thread_b_msg 100000 cs s Ls Hc Hs); lia.
  - intros n. split; [|apply delay_fuel; lia]. intros E. destruct (Z.le_gt_cases (Z.of_nat n) 1000000000) as [|Hn]; [done|].
    rewrite delay_ends in E by lia. done.
Qed.

(** C35: a process of the demonstration does the same through system calls; its
    message goes through [printf], in a frame on its own stack, and of its
    memory only this frame changes.  It stops the machine only when the memory
    it starts with has not three free pages for its heap ([supplied]). *)
Theorem u_progs_end (fuel dfuel : nat) (ecx edx ap buf : Z) (pre : list Z) (s : system) (Ls : gmap Z (list Z))
    (Hc : can_run s Ls) (Hpre : Forall (fun c => c <> ch_percent) pre) (Hlen : zlen pre < 900) (Hd : 100000 < Z.of_nat dfuel) :
  let ends m := wpu m s (fun _ s' => exists a1 a2 a3 m h Ls',
    three_given s Ls a1 a2 a3 /\ s' = put heap h (printed (hex_report pre a1 a2 a3) (put bytes m s)) /\ can_run s' Ls' /\
    (forall x n, given h Ls' x n <-> given (view heap s) Ls x n) /\
    forall x, ~ ap <= x < ap + 16 -> ~ buf <= x < buf + 1024 -> m !! x = s_bytes s !! x) (~ supplied s) in
  (stack_room (s_bytes s) ap buf prog_a_format (pre ++ three_hex) -> ends (u_prog_a (S fuel) dfuel ecx edx ap buf)) /\
  (stack_room (s_bytes s) ap buf prog_b_format (pre ++ three_hex) -> ends (u_prog_b (S fuel) dfuel ecx edx ap buf)).
Proof. intros ends. split; intros Hroom; by apply u_prog_ok. Qed.
End ProgramProofs.

(** *** Concrete instances: the system of [Syscall], with the heap of [HeapInit] *)
#[local] Existing Instance Syscall.example_layout.
#[local] Existing Instance Syscall.example_console.
#[local] Existing Instance Syscall.example_pools.
#[local] Existing Instance Syscall.example_text.
#[local] Instance example_main_text : MainText := {|
  thread_a_msg := 0x500; thread_b_msg := 0x500; prog_a_format := 0x500; prog_b_format := 0x500 |}.

Lemma example_can_run m : exists h Ls, can_run (put bytes m (example_process h)) Ls /\ supplied (put bytes m (example_process h)).
Proof.
  destruct example_heap_exists as (h & Ls & Hok & _ & Hm & Hpf). exists h, Ls.
  assert (view heap (example_process h) = h) as E by by destruct h as [[]]. split.
  - apply can_run_bytes. split; rewrite ?E; [exact Hok | by repeat split | rewrite Hpf; apply example_process_free | apply example_process_free].
  - unfold supplied. change (view heap (put bytes m (example_process h))) with (view heap (example_process h)).
    rewrite E, Hpf, Hm. split; [by vm_compute | exact example_three].
Qed.

Lemma k_threads_end_witness : exists dfuel s Ls s' a1 a2 a3 text h Ls', can_run s Ls /\
  undisturbed (k_thread_a 1 dfuel 7 9 s) = Ok (tt, s') /\
  three_given s Ls a1 a2 a3 /\ report [72; 105] a1 a2 a3 text /\ s' = put heap h (printed text s) /\ can_run s' Ls'.
Proof.
  assert (exists dfuel, 1000000000 < Z.of_nat dfuel) as (dfuel & Hd).
  { exists (Z.to_nat 1000000001). rewrite Z2Nat.id by lia. lia. }
  destruct (example_can_run (s_bytes example_system)) as (h0 & Ls & Hc & Hsup).
  destruct (k_threads_end 0 dfuel 7 9 [72; 105] _ Ls Hc Hd) as (Ha & _ & _).
  destruct (wpu_outcome _ _ _ _ (Ha ltac:(by repeat split; repeat constructor)))
    as [([] & s' & E & a1 & a2 & a3 & text & h & Ls' & T & R & Es & Hc' & _)|[_ Hno]]; [|exfalso; exact (Hno Hsup)].
  exists dfuel, (put bytes (s_bytes example_system) (example_process h0)), Ls, s', a1, a2, a3, text, h, Ls'.
  split; [exact Hc|]. split; [exact E|]. split; [exact T|]. split; [exact R|]. split; [exact Es | exact Hc'].
Defined.

(** The format at 0x500, the frame of [printf] from 0x600 on. *)
Definition example_room : mem :=
  CString.write (CString.write (CString.write ∅ 0x500 ((codes "at 0x" ++ three_hex) ++ [0])) 0x600 (replicate 16 0)) 0x700 (replicate 1024 0).

Lemma example_stack_room : stack_room example_room 0x600 0x700 0x500 (codes "at 0x" ++ three_hex).
Proof.
  split.
  - apply mapped_write. eapply (bytes_at_mapped _ _ (replicate 16 0)), bytes_at_write_eq.
  - split; [done|]. eapply (bytes_at_mapped _ _ (replicate 1024 0)), bytes_at_write_eq.
  - split; [done|]. split; [by vm_compute|]. by repeat constructor.
  - unfold CString.apart. change (zlen (codes "at 0x" ++ three_hex) + 1) with 19. lia.
Qed.

Lemma u_progs_end_witness : exists dfuel s Ls s' a1 a2 a3 m h Ls', can_run s Ls /\
  undisturbed (u_prog_a 1 dfuel 7 9 0x600 0x700 s) = Ok (tt, s') /\ three_given s Ls a1 a2 a3 /\
  s' = put heap h (printed (hex_report (codes "at 0x") a1 a2 a3) (put bytes m s)) /\ can_run s' Ls'.
Proof.
  assert (exists dfuel, 100000 < Z.of_nat dfuel) as (dfuel & Hd).
  { exists (Z.to_nat 100001). rewrite Z2Nat.id by lia. lia. }
  destruct (example_can_run example_room) as (h0 & Ls & Hc & Hsup).
  destruct (u_progs_end 0 dfuel 7 9 0x600 0x700 (codes "at 0x") _ Ls Hc ltac:(by repeat constructor) ltac:(done) Hd) as [Ha _].
  destruct (wpu_outcome _ _ _ _ (Ha example_stack_room))
    as [([] & s' & E & a1 & a2 & a3 & m & h & Ls' & T & Es & Hc' & _)|[_ Hno]]; [|exfalso; exact (Hno Hsup)].
  exists dfuel, (put bytes example_room (example_process h0)), Ls, s', a1, a2, a3, m, h, Ls'.
  split; [exact Hc|]. split; [exact E|]. split; [exact T|]. split; [exact Es | exact Hc'].
Defined.
