(* ===== verification/Boot.v ===== *)
(** * Starting the kernel: kernel/init.c, kernel/memory.c (mem_init)

    [boot_state] joins the state of all components; [init_all] runs their
    initialisations, in the source's order, on what the loader has left.  The
    messages printed on the way are not modelled. *)
From stdpp Require Import base numbers list gmap fin_maps strings.
From Stdlib Require Import ZArith Lia.
From S2P Require Import Prelude Globals Interrupt Timer LinkedList Bitmap Paging PageAlloc PageFree PageInit Loader Pages Heap HeapInit HeapAlloc HeapFree CString Descriptor Thread Sync PoolLocks ThreadCreate System Console Syscall PageDir IoQueue Keyboard.

Record boot_state := Boot {
  b_sys : system;
  b_intr : intr_state;
  b_queues : gmap Z ioqueue;
  b_ctrl : Z;                         (* the five flags of the keyboard driver *)
  b_shift : Z;
  b_alt : Z;
  b_caps : Z;
  b_ext : Z;
  b_tss : tss_state;
}.

Definition sys_part : lens boot_state system.
Proof.
  refine {| view := b_sys; put := fun x s => Boot x (b_intr s) (b_queues s) (b_ctrl s) (b_shift s) (b_alt s) (b_caps s) (b_ext s) (b_tss s) |};
    by intros; try destruct s.
Defined.

Definition intr_part : lens boot_state intr_state.
Proof.
  refine {| view := b_intr; put := fun x s => Boot (b_sys s) x (b_queues s) (b_ctrl s) (b_shift s) (b_alt s) (b_caps s) (b_ext s) (b_tss s) |};
    by intros; try destruct s.
Defined.

Definition tss_part : lens boot_state tss_state.
Proof.
  refine {| view := b_tss; put := fun x s => Boot (b_sys s) (b_intr s) (b_queues s) (b_ctrl s) (b_shift s) (b_alt s) (b_caps s) (b_ext s) x |};
    by intros; try destruct s.
Defined.

(** The keyboard shares the threads and the table of handlers. *)
Definition kbd_part : lens boot_state kbd_state.
Proof.
  refine {|
    view := fun s => Kbd (b_ctrl s) (b_shift s) (b_alt s) (b_caps s) (b_ext s) (IO (b_queues s) (view sys_threads (b_sys s))) (b_intr s);
    put := fun x s => Boot (put sys_threads (kst (kio x)) (b_sys s)) (kintr x) (queues (kio x)) (ctrl_status x) (shift_status x)
      (alt_status x) (caps_lock_status x) (ext_scancode x) (b_tss s) |}.
  - intros [? ? ? ? ? [] ?] []. cbn -[sys_threads]. by rewrite (view_put sys_threads).
  - intros []. cbn -[sys_threads]. by rewrite (put_view sys_threads).
  - intros [? ? ? ? ? [] ?] [? ? ? ? ? [] ?] []. cbn -[sys_threads]. by rewrite (put_put sys_threads).
Defined.

(** Link-time addresses. *)
Class BootLayout := {
  intr_entry_table : list Z;
  syscall_handler_at : Z;
  general_intr_handler_at : Z;
  idt_at : Z;
  intr_timer_handler_at : Z;
  tss_at : Z;
}.

Section Boot.
Context `{!Layout} `{!PoolLayout} `{!ConsoleLayout} `{!SyscallText} `{!KbdLayout} `{!BootLayout}.

(** [byte_at]: the bytes of memory under the bitmaps of the pools. *)
Definition mem_init (byte_at : Z -> Z) : M system unit :=
  mem_bytes_total ← zoom sys_machine (load 0xb00);
  zoom sys_threads (lock_init kernel_pool_lock) ;;;
  zoom sys_threads (lock_init user_pool_lock) ;;;
  zoom kmem (mem_pool_init byte_at mem_bytes_total) ;;;
  d ← gets s_k_block_descs;
  zoom heap (block_desc_init d).

Definition init_all (fuel : nat) (byte_at : Z -> Z) : M boot_state unit :=
  zoom intr_part (init_intr intr_entry_table syscall_handler_at general_intr_handler_at idt_at) ;;;
  zoom intr_part (init_timer intr_timer_handler_at) ;;;
  zoom sys_part (mem_init byte_at) ;;;
  zoom sys_part (zoom kern (thread_init fuel)) ;;;
  zoom sys_part console_init ;;;
  zoom kbd_part keyboard_init ;;;
  zoom tss_part (tss_init tss_at) ;;;
  zoom sys_part syscall_init.
End Boot.

(** ** Lists whose ends are not in use *)
Definition spare (ns : gmap Z list_node) (L : gmap Z (list Z)) (l : Z) : Prop :=
  unlinked ns L (head_of l) /\ unlinked ns L (tail_of l).

Definition apart (l l' : Z) : Prop :=
  head_of l <> head_of l' /\ head_of l <> tail_of l' /\ tail_of l <> head_of l' /\ tail_of l <> tail_of l'.

Lemma spare_init ns ns' L l l' : dom ns' = dom ns -> apart l l' -> spare ns L l -> spare ns' (<[l' := []]> L) l.
Proof. intros Hd (A1 & A2 & A3 & A4) [S1 S2]. split; by eapply unlinked_init. Qed.

Lemma spare_insert ns ns' L l l' xs :
  dom ns ⊆ dom ns' -> apart l l' -> head_of l ∉ xs -> tail_of l ∉ xs -> spare ns L l -> spare ns' (<[l' := xs]> L) l.
Proof.
  intros Hd (A1 & A2 & A3 & A4) X1 X2 [[S1 S2] [S3 S4]].
  assert (forall n, n ∉ xs -> n <> head_of l' -> n <> tail_of l' -> n ∉ path l' xs) as Hp.
  { intros n Hn Hh Ht. unfold path. rewrite elem_of_cons, elem_of_app, list_elem_of_singleton. naive_solver. }
  split; (split; [by apply Hd|]); intros f ys [[<- <-]|[_ Hf]]%lookup_insert_Some; eauto.
Qed.

(** ** Locks made at start-up *)
Section BootProofs.
Context `{!Layout} `{!PoolLayout} `{!ConsoleLayout} `{!SyscallText} `{!KbdLayout} `{!BootLayout}.

Definition lock_made (plock : Z) (l : lstate) (s : kstate) : kstate :=
  put_lst l (put_lock plock (Lock NULL 0) (with_value (semaphore plock) 1 s)).

Lemma lock_made_ok plock s L :
  let w := waiters (semaphore plock) in
  lists_ok (nodes (lst s)) L -> is_Some (locks (sync s) !! plock) -> is_Some (values (sync s) !! semaphore plock) ->
  spare (nodes (lst s)) L w -> cur s <> NULL -> w <> thread_ready_list ->
  wp (lock_init plock) s (fun _ s' => exists l, s' = lock_made plock l s /\ list_post (lst s) (<[w := []]> L) l /\
    lock_idle plock s' (<[w := []]> L)).
Proof.
  intros w Hl Hlk Hv [H1' H2'] Hc Hw. eapply wp_mono; [by apply (lock_init_lists_ok plock s L)|].
  intros [] s' (l & -> & Hpost & Hse & Hk & _). exists l. done.
Qed.

Lemma lock_idle_ext p s s' L : lock_idle p s L -> sync s' = sync s -> lock_idle p s' L.
Proof. intros [[V1 V2 V3 V4] V5] E. split; [split|]; rewrite ?E; try done. by intros x ?%elem_of_nil. Qed.

Lemma lock_idle_made p plock l s L :
  lock_idle p s L -> p <> plock -> lock_idle p (lock_made plock l s) (<[waiters (semaphore plock) := []]> L).
Proof.
  intros [[V1 V2 V3 V4] V5] Hne. split; [split; simpl|].
  - rewrite lookup_insert_ne; [exact V1 | unfold semaphore; lia].
  - rewrite lookup_insert_ne; [exact V2 | unfold waiters, semaphore; lia].
  - done.
  - done.
  - simpl. by rewrite lookup_insert_ne.
Qed.

Definition boot_locks : list Z := [pid_lock; kernel_pool_lock; user_pool_lock; console_lock; kbd_buf].
Definition boot_lists : list Z := thread_ready_list :: thread_all_list :: ((fun p => waiters (semaphore p)) <$> boot_locks).

(** What the loader leaves: paging on, the size of memory at 0xb00, the code
    running on the stack of the main thread, in the page [MAIN_PCB]; all
    variables exist, and no list has been made.  Kernel data lies below the
    place of the bitmaps, and there is so little memory that these end below
    the main thread's page: with more than about 343 MB they would run into it. *)
Record system_raw (s : system) (total : Z) : Prop := {
  sr_tables : boot_tables (machine (k_mem (s_kernel s)));
  sr_pgdir : cur_pgdir (k_mem (s_kernel s)) = NULL;
  sr_total : load 0xb00 (machine (k_mem (s_kernel s))) = Ok (total, machine (k_mem (s_kernel s)));
  sr_range : 0x200000 <= total <= 0x15755000;
  sr_tasks : k_tasks (s_kernel s) = ∅;
  sr_cur : k_cur (s_kernel s) = MAIN_PCB;
  sr_nodes : forall n, n ∈ dom (nodes (k_lst (s_kernel s))) -> n < MEM_BITMAP_BASE;
  sr_ends : Forall (fun l => head_of l ∈ dom (nodes (k_lst (s_kernel s))) /\ tail_of l ∈ dom (nodes (k_lst (s_kernel s)))) boot_lists;
  sr_apart : forall l l', l ∈ boot_lists -> l' ∈ boot_lists -> l <> l' -> apart l l';
  sr_distinct : NoDup boot_lists;
  sr_locks : Forall (fun p => is_Some (locks (k_sync (s_kernel s)) !! p) /\ is_Some (values (k_sync (s_kernel s)) !! semaphore p)) boot_locks;
  sr_descs : 0 < s_k_block_descs s;
  sr_arenas : s_arenas s = ∅;
  sr_headers : HeapInit.headers (s_k_block_descs s) 0 (s_heap_nodes s) ∅;
  sr_heap_nodes : forall n, n ∈ dom (s_heap_nodes s) -> n < MEM_BITMAP_BASE;
}.

(** The main thread's page, above all other data of the kernel. *)
Lemma raw_cur s total : system_raw s total ->
  0 < k_cur (s_kernel s) < K_HEAP_START /\ k_cur (s_kernel s) mod 4096 = 0.
Proof. intros Hr. by rewrite (sr_cur _ _ Hr). Qed.

Lemma raw_nodes s total n : system_raw s total -> n ∈ dom (nodes (k_lst (s_kernel s))) ->
  n < K_HEAP_START /\ n / 4096 * 4096 <> k_cur (s_kernel s).
Proof.
  intros Hr Hn%(sr_nodes _ _ Hr). rewrite (sr_cur _ _ Hr). unfold MEM_BITMAP_BASE, MAIN_PCB, K_HEAP_START in *.
  split; [lia|]. Z.div_mod_to_equations. lia.
Qed.

(** Nothing else of the kernel's data changes on the way. *)
Record same_place (s s' : system) : Prop := {
  sp_cur : k_cur (s_kernel s') = k_cur (s_kernel s);
  sp_flags : eflags (k_lst (s_kernel s')) = eflags (k_lst (s_kernel s));
  sp_nodes : dom (nodes (k_lst (s_kernel s'))) = dom (nodes (k_lst (s_kernel s)));
  sp_locks : dom (locks (k_sync (s_kernel s'))) = dom (locks (k_sync (s_kernel s)));
  sp_values : dom (values (k_sync (s_kernel s'))) = dom (values (k_sync (s_kernel s)));
  sp_table : s_table s' = s_table s;
  sp_text : s_bytes s' = s_bytes s /\ s_screen s' = s_screen s;
}.

Lemma raw_lock_init plock s L (Q : system -> Prop) :
  let w := waiters (semaphore plock) in
  lists_ok (nodes (k_lst (s_kernel s))) L -> is_Some (locks (k_sync (s_kernel s)) !! plock) ->
  is_Some (values (k_sync (s_kernel s)) !! semaphore plock) ->
  spare (nodes (k_lst (s_kernel s))) L w -> k_cur (s_kernel s) <> NULL -> w <> thread_ready_list ->
  (forall s' l, s' = put sys_threads (lock_made plock l (view sys_threads s)) s -> same_place s s' ->
    lists_ok (nodes (k_lst (s_kernel s'))) (<[w := []]> L) -> lock_idle plock (view sys_threads s') (<[w := []]> L) -> Q s') ->
  wp (zoom sys_threads (lock_init plock)) s (fun _ s' => Q s').
Proof.
  intros w Hl Hlk Hv Hsp Hc Hw HQ. apply wp_zoom. eapply wp_mono; [by apply (lock_made_ok plock (view sys_threads s) L)|].
  intros [] x (l & -> & (P1 & P2 & P3) & Hidle). eapply HQ; [reflexivity | | exact P1 | by rewrite (view_put sys_threads)].
  split; try done.
  - simpl. destruct Hlk as [v Hv']. rewrite dom_insert_L. apply elem_of_dom_2 in Hv'. set_solver.
  - simpl. destruct Hv as [v Hv']. rewrite dom_insert_L. apply elem_of_dom_2 in Hv'. set_solver.
Qed.

(** *** mem_init *)
Definition pool_lists : gmap Z (list Z) :=
  <[waiters (semaphore user_pool_lock) := []]> (<[waiters (semaphore kernel_pool_lock) := []]> ∅).

Definition later_lists : list Z :=
  thread_ready_list :: thread_all_list :: ((fun p => waiters (semaphore p)) <$> [pid_lock; console_lock; kbd_buf]).

Ltac boot_in := unfold boot_locks; rewrite !elem_of_cons; tauto.

Lemma boot_locks_distinct s total : system_raw s total -> NoDup boot_locks.
Proof.
  intros Hr. pose proof (sr_distinct _ _ Hr) as Hd. unfold boot_lists in Hd.
  apply NoDup_cons in Hd as [_ [_ Hd]%NoDup_cons]. by apply NoDup_fmap_1 in Hd.
Qed.

Lemma boot_locks_ne s total : system_raw s total ->
  (pid_lock <> kernel_pool_lock /\ pid_lock <> user_pool_lock /\ pid_lock <> console_lock /\ pid_lock <> kbd_buf) /\
  (kernel_pool_lock <> user_pool_lock /\ kernel_pool_lock <> console_lock /\ kernel_pool_lock <> kbd_buf) /\
  (user_pool_lock <> console_lock /\ user_pool_lock <> kbd_buf) /\ console_lock <> kbd_buf.
Proof.
  intros Hr. pose proof (boot_locks_distinct _ _ Hr) as Hd. unfold boot_locks in Hd. rewrite !NoDup_cons, !not_elem_of_cons in Hd. tauto.
Qed.

(** The initial lists are all spare. *)
Lemma raw_spare s total l : system_raw s total -> l ∈ boot_lists -> spare (nodes (k_lst (s_kernel s))) ∅ l.
Proof.
  intros Hr Hl. pose proof (sr_ends _ _ Hr) as He. rewrite Forall_forall in He. destruct (He l Hl) as [H1' H2'].
  by split; (split; [done|]); intros f ys Hf; rewrite lookup_empty in Hf.
Qed.

Lemma later_boot l : l ∈ later_lists -> l ∈ boot_lists.
Proof. unfold later_lists, boot_lists, boot_locks. simpl. rewrite !elem_of_cons. naive_solver. Qed.

Lemma raw_locks s total p : system_raw s total -> p ∈ boot_locks ->
  is_Some (locks (k_sync (s_kernel s)) !! p) /\ is_Some (values (k_sync (s_kernel s)) !! semaphore p).
Proof. intros Hr Hp. pose proof (sr_locks _ _ Hr) as Hl. rewrite Forall_forall in Hl. by apply Hl. Qed.

Lemma place_locks s s' p : same_place s s' ->
  is_Some (locks (k_sync (s_kernel s)) !! p) /\ is_Some (values (k_sync (s_kernel s)) !! semaphore p) ->
  is_Some (locks (k_sync (s_kernel s')) !! p) /\ is_Some (values (k_sync (s_kernel s')) !! semaphore p).
Proof.
  intros Hp [H1' H2']. apply elem_of_dom in H1', H2'. rewrite <- (sp_locks _ _ Hp) in H1'. rewrite <- (sp_values _ _ Hp) in H2'.
  by apply elem_of_dom in H1', H2'.
Qed.

Lemma same_place_trans s1 s2 s3 : same_place s1 s2 -> same_place s2 s3 -> same_place s1 s3.
Proof. intros [? ? ? ? ? ? [? ?]] [? ? ? ? ? ? [? ?]]. split; [congruence..|]. split; congruence. Qed.

Lemma free_above m va : vaddr_start (kernel_vaddr_pool m) = K_HEAP_START -> vaddr_free (kernel_vaddr_pool m) va -> K_HEAP_START <= va.
Proof. intros E (i & Hi & _ & ->). rewrite E. lia. Qed.

Lemma lock_list_ne s total p : system_raw s total -> p ∈ boot_locks -> let w := waiters (semaphore p) in
  w ∈ boot_lists /\ w <> thread_ready_list /\ w <> thread_all_list.
Proof.
  intros Hr Hp w. pose proof (sr_distinct _ _ Hr) as Hd. unfold boot_lists in Hd. apply NoDup_cons in Hd as [N1 [N2 _]%NoDup_cons].
  assert (w ∈ (fun p => waiters (semaphore p)) <$> boot_locks) as Hw by (apply list_elem_of_fmap; by exists p).
  split; [by do 2 right|]. split; [intros E; apply N1; right; by rewrite <- E | intros E; apply N2; by rewrite <- E].
Qed.

Lemma later_ne s total l : system_raw s total -> l ∈ later_lists -> l ∈ boot_lists /\
  l <> waiters (semaphore kernel_pool_lock) /\ l <> waiters (semaphore user_pool_lock).
Proof.
  intros Hr Hl. split; [by apply later_boot|].
  destruct (lock_list_ne s total kernel_pool_lock Hr ltac:(boot_in)) as (_ & Nk & Nk').
  destruct (lock_list_ne s total user_pool_lock Hr ltac:(boot_in)) as (_ & Nu & Nu').
  destruct (boot_locks_ne _ _ Hr) as ((D1 & D2 & _) & (D3 & D4 & D5) & (D6 & D7) & _).
  unfold later_lists in Hl. simpl in Hl. rewrite !elem_of_cons in Hl. unfold waiters, semaphore in *.
  destruct Hl as [->|[->|[->|[->|[->|[]%elem_of_nil]]]]]; split; congruence || lia.
Qed.

(** [lock_init] leaves the allocator, the tasks and the heap alone. *)
Lemma lock_made_frame plock l s :
  let s' := put sys_threads (lock_made plock l (view sys_threads s)) s in
  k_mem (s_kernel s') = k_mem (s_kernel s) /\ k_tasks (s_kernel s') = k_tasks (s_kernel s) /\
  s_heap_nodes s' = s_heap_nodes s /\ s_arenas s' = s_arenas s /\ s_descs s' = s_descs s /\
  s_k_block_descs s' = s_k_block_descs s /\ s_u_block_descs s' = s_u_block_descs s /\ k_next_pid (s_kernel s') = k_next_pid (s_kernel s).
Proof. by destruct s as [[[]]]. Qed.

Lemma pool_locks_ok s total :
  system_raw s total ->
  wp (zoom sys_threads (lock_init kernel_pool_lock) ;;; zoom sys_threads (lock_init user_pool_lock)) s (fun _ s' =>
    same_place s s' /\ lists_ok (nodes (k_lst (s_kernel s'))) pool_lists /\
    lock_idle kernel_pool_lock (view sys_threads s') pool_lists /\ lock_idle user_pool_lock (view sys_threads s') pool_lists /\
    (forall l, l ∈ later_lists -> spare (nodes (k_lst (s_kernel s'))) pool_lists l) /\
    k_mem (s_kernel s') = k_mem (s_kernel s) /\ k_tasks (s_kernel s') = k_tasks (s_kernel s) /\
    s_heap_nodes s' = s_heap_nodes s /\ s_arenas s' = s_arenas s /\ s_descs s' = s_descs s /\
    s_k_block_descs s' = s_k_block_descs s /\ s_u_block_descs s' = s_u_block_descs s /\ k_next_pid (s_kernel s') = k_next_pid (s_kernel s)).
Proof.
  intros Hr. assert (k_cur (s_kernel s) <> NULL) as Hc by (pose proof (raw_cur _ _ Hr); unfold NULL; lia).
  destruct (lock_list_ne s total kernel_pool_lock Hr ltac:(boot_in)) as (Ik & Nk & Nk').
  destruct (lock_list_ne s total user_pool_lock Hr ltac:(boot_in)) as (Iu & Nu & Nu').
  destruct (boot_locks_ne _ _ Hr) as (_ & (Hku & _) & _).
  set (wk := waiters (semaphore kernel_pool_lock)) in *. set (wu := waiters (semaphore user_pool_lock)) in *.
  assert (wk <> wu) as Hw by (unfold wk, wu, waiters, semaphore; lia).
  destruct (raw_locks s total kernel_pool_lock Hr ltac:(boot_in)) as [K1 K2].
  pose proof (raw_locks s total user_pool_lock Hr ltac:(boot_in)) as U12.
  apply wp_bind. apply (raw_lock_init kernel_pool_lock s ∅); [apply no_lists_ok | exact K1 | exact K2 | by eapply raw_spare | exact Hc | exact Nk |].
  intros s1 l1 -> P1 L1 I1. destruct (place_locks _ _ _ P1 U12) as [U1 U2].
  assert (forall l, l ∈ boot_lists -> l <> wk -> spare (nodes l1) (<[wk := []]> ∅) l) as S1.
  { intros l Hl Hne. apply (spare_init (nodes (k_lst (s_kernel s)))); [apply (sp_nodes _ _ P1) | by apply (sr_apart _ _ Hr) | by eapply raw_spare]. }
  apply (raw_lock_init user_pool_lock _ (<[wk := []]> ∅)); [exact L1 | exact U1 | exact U2 | by apply S1, not_eq_sym | exact Hc | exact Nu |].
  intros s2 l2 -> P2 L2 I2. split; [by eapply same_place_trans|]. split; [exact L2|].
  split; [|split; [exact I2 | split; [|by destruct s as [[[]]]]]].
  - apply (lock_idle_made _ user_pool_lock l2) in I1; [exact I1 | done].
  - intros l Hl. destruct (later_ne s total l Hr Hl) as (Hb & N1 & N2).
    apply (spare_init (nodes l1)); [apply (sp_nodes _ _ P2) | by apply (sr_apart _ _ Hr) | by apply S1].
Qed.

Record mem_inited (total : Z) (s s' : system) : Prop := {
  md_place : same_place s s';
  md_raw : kernel_raw (s_kernel s') pool_lists;
  md_user : lock_idle user_pool_lock (view sys_threads s') pool_lists;
  md_spare : forall l, l ∈ later_lists -> spare (nodes (k_lst (s_kernel s'))) pool_lists l;
  md_heap : exists Ls, heap_ok (view heap s') Ls /\ forall i, 0 <= i < 7 -> Ls !! free_list (desc_addr (view heap s') i) = Some [];
  md_arenas : s_arenas s' = ∅;
  md_pgdir : cur_pgdir (k_mem (s_kernel s')) = NULL;
  md_pid : k_next_pid (s_kernel s') = k_next_pid (s_kernel s);
  md_bitmaps : bitmaps_between (k_mem (s_kernel s')) MEM_BITMAP_BASE MAIN_PCB;
  md_fresh : fresh_pools (k_mem (s_kernel s')) (8 * (kernel_pages total / 8));
}.

(** The kernel is as [thread_init] needs it. *)
Lemma raw_kernel s total s' :
  system_raw s total -> same_place s s' -> lists_ok (nodes (k_lst (s_kernel s'))) pool_lists ->
  lock_idle kernel_pool_lock (view sys_threads s') pool_lists ->
  (forall l, l ∈ later_lists -> spare (nodes (k_lst (s_kernel s'))) pool_lists l) ->
  k_tasks (s_kernel s') = ∅ -> mem_ok (k_mem (s_kernel s')) -> vaddr_start (kernel_vaddr_pool (k_mem (s_kernel s'))) = K_HEAP_START ->
  kernel_raw (s_kernel s') pool_lists.
Proof.
  intros Hr P Hl Hk Hsp Ht Hm Hst. destruct (raw_cur _ _ Hr) as [Hc Hal]. pose proof (sp_cur _ _ P) as Ec. pose proof (sp_nodes _ _ P) as En.
  destruct (boot_locks_ne _ _ Hr) as ((Hpk & _) & _).
  destruct (lock_list_ne s total pid_lock Hr ltac:(boot_in)) as (Ip & Np & Np').
  assert (thread_ready_list ∈ boot_lists /\ thread_all_list ∈ boot_lists) as [Ir Ia] by (unfold boot_lists; rewrite !elem_of_cons; tauto).
  assert (thread_ready_list <> thread_all_list) as Hra.
  { pose proof (sr_distinct _ _ Hr) as Hd. unfold boot_lists in Hd. apply NoDup_cons in Hd as [N _]. intros E. apply N. rewrite E. left. }
  assert (forall n, n ∈ dom (nodes (k_lst (s_kernel s'))) -> n < K_HEAP_START /\ n / 4096 * 4096 <> k_cur (s_kernel s)) as Hn.
  { intros n. rewrite En. by apply (raw_nodes _ total). }
  assert (forall o, 0 <= o < 4096 -> k_cur (s_kernel s') + o ∉ dom (nodes (k_lst (s_kernel s')))) as Htag.
  { intros o Ho [_ Hin]%Hn. apply Hin. rewrite Ec. Z.div_mod_to_equations. lia. }
  destruct (Hsp thread_ready_list ltac:(left)), (Hsp thread_all_list ltac:(right; left)),
    (Hsp (waiters (semaphore pid_lock)) ltac:(right; right; left)).
  split; try done; rewrite ?Ec; try done.
  - unfold K_HEAP_START in Hc. lia.
  - intros Hf%(free_above _ _ Hst). lia.
  - intros n [Hlt _]%Hn Hf%(free_above _ _ Hst). Z.div_mod_to_equations. lia.
  - rewrite <- Ec. split; by apply Htag.
  - unfold headers. rewrite !Forall_cons. do 6 (split; [done|]). apply Forall_nil_2.
  - destruct (sr_apart _ _ Hr thread_ready_list thread_all_list Ir Ia Hra) as (A1 & A2 & A3 & A4).
    destruct (sr_apart _ _ Hr thread_ready_list _ Ir Ip (not_eq_sym Np)) as (B1 & B2 & B3 & B4).
    destruct (sr_apart _ _ Hr thread_all_list _ Ia Ip (not_eq_sym Np')) as (C1 & C2 & C3 & C4).
    unfold headers. rewrite !NoDup_cons, !not_elem_of_cons. repeat split; try done; try apply not_elem_of_nil; try apply NoDup_nil_2;
      unfold head_of, tail_of; lia.
  - eapply place_locks; [exact P|]. apply (raw_locks s total); [done | boot_in].
Qed.

Lemma mem_init_ok byte_at s total :
  (forall a, is_u8 (byte_at a)) -> system_raw s total -> wp (mem_init byte_at) s (fun _ s' => mem_inited total s s').
Proof.
  intros Hbytes Hr. unfold mem_init. apply wp_bind, wp_zoom. eapply wp_ok; [apply (sr_total _ _ Hr)|]. cbv beta.
  change (put sys_machine (machine (k_mem (s_kernel s))) s) with (put sys_machine (view sys_machine s) s). rewrite (put_view sys_machine).
  apply wp_bind. eapply wp_mono; [exact (wp_bind_inv _ _ _ _ (pool_locks_ok s total Hr))|].
  intros [] s1 Hs1. apply wp_bind. eapply wp_mono; [exact Hs1|]. clear s1 Hs1.
  intros [] s1 (P1 & L1 & K1 & U1 & S1 & Em & Et & En & Ea & Ed & Ek & Eu & Ep).
  apply wp_bind, wp_zoom. eapply wp_mono.
  { pose proof (sr_range _ _ Hr). apply (mem_pool_boot_ok byte_at (view kmem s1) total Hbytes); [lia|..]; change (view kmem s1) with (k_mem (s_kernel s1));
      rewrite Em; apply Hr. }
  intros [] m (Hm & Emach & Hpg & Hst & Hfresh & Hmaps). set (s2 := put kmem m s1).
  assert (same_place s s2) as P2 by (eapply same_place_trans; [exact P1|]; done).
  assert (heap_pf (view heap s2) = PF_KERNEL) as Epf by (unfold heap_pf; simpl; by rewrite Hpg).
  assert (heap_descs (view heap s2) = s_k_block_descs s) as Edd by (unfold heap_descs; simpl; by rewrite Hpg, <- Ek).
  assert (heap_raw (view heap s2)) as Hraw.
  { split; rewrite ?Epf, ?Edd; try done.
    - simpl. by rewrite Hst.
    - apply Hr.
    - simpl. by rewrite Ea, (sr_arenas _ _ Hr).
    - simpl. rewrite En. apply Hr.
    - intros va x Hva%(free_above _ _ Hst) Hx. simpl. rewrite En. apply not_elem_of_dom. intros Hin%(sr_heap_nodes _ _ Hr). unfold MEM_BITMAP_BASE in Hin. unfold K_HEAP_START in Hva. lia. }
  apply wp_bind. apply wp_gets. apply wp_zoom. change (s_k_block_descs s2) with (s_k_block_descs s1). rewrite Ek, <- Edd.
  eapply wp_mono; [by apply block_desc_init_ok|]. intros [] h (Ls & Hok & Hempty & Har & Hmem & Hdd & Hfl).
  assert (k_lst (s_kernel (put heap h s2)) = k_lst (s_kernel s1)) as El.
  { simpl in Hfl |- *. rewrite Hfl. by destruct (k_lst (s_kernel s1)). }
  assert (same_place s2 (put heap h s2)) as P3.
  { split; try done; simpl; by rewrite ?El. }
  assert (k_mem (s_kernel (put heap h s2)) = m) as Em3 by exact Hmem.
  pose proof (same_place_trans _ _ _ P2 P3) as P4.
  split; rewrite ?El, ?Em3; try done.
  - apply (raw_kernel s total); rewrite ?El, ?Em3; try done.
    + by apply (lock_idle_ext _ (view sys_threads s1)).
    + simpl. by rewrite Et, (sr_tasks _ _ Hr).
  - by apply (lock_idle_ext _ (view sys_threads s1)).
  - exists Ls. by rewrite (view_put heap).
  - apply Hmaps. apply (sr_range _ _ Hr).
Qed.

(** *** The threads *)

(** [thread_init] has run on the system [s1]; the locks [left] are not made yet. *)
Record threads_up (s1 s : system) (L : gmap Z (list Z)) (left : list Z) : Prop := {
  tu_kernel : kernel_ok (s_kernel s) L [] [k_cur (s_kernel s1)];
  tu_user : lock_idle user_pool_lock (view sys_threads s) L;
  tu_left : forall p, p ∈ left -> spare (nodes (k_lst (s_kernel s))) L (waiters (semaphore p)) /\
    is_Some (locks (k_sync (s_kernel s)) !! p) /\ is_Some (values (k_sync (s_kernel s)) !! semaphore p);
  tu_heap : view heap s = view heap s1;
  tu_arenas : s_arenas s = s_arenas s1;
  tu_table : s_table s = s_table s1;
  tu_cur : k_cur (s_kernel s) = k_cur (s_kernel s1) /\ k_main_thread (s_kernel s) = k_cur (s_kernel s1) /\
    eflags (k_lst (s_kernel s)) = eflags (k_lst (s_kernel s1));
  tu_main : k_tasks (s_kernel s) = {[k_cur (s_kernel s1) := new_task (k_cur (s_kernel s1)) (k_cur (s_kernel s1))
    (s16 (k_next_pid (s_kernel s1) + 1)) 31 main_name]};
  tu_text : s_bytes s = s_bytes s1 /\ s_screen s = s_screen s1;
}.

(** A lock of the kernel's that is not in use yet. *)
Lemma kernel_ok_new_lock plock k l L q all :
  let w := waiters (semaphore plock) in
  kernel_ok k L q all -> plock <> pid_lock -> plock <> kernel_pool_lock -> w <> thread_ready_list -> w <> thread_all_list ->
  (forall t, t ∈ all -> general_tag t <> head_of w /\ general_tag t <> tail_of w) ->
  list_post (k_lst k) (<[w := []]> L) l ->
  kernel_ok (put threads (lock_made plock l (view threads k)) k) (<[w := []]> L) q all.
Proof.
  intros w Hok Np Nk Nr Na Htags Hpost.
  assert (k_mem (put threads (lock_made plock l (view threads k)) k) = k_mem k) as Em by by destruct k as [[]].
  destruct Hok as [O1 O2 O3 O4 O5 O6 O7 O8 O9 O10 O11]. split; try done.
  - by rewrite Em.
  - rewrite (view_put threads). eapply (sched_ok_new_list (view threads k)); try done.
    intros t ts Ht. apply Htags, O5. by exists ts.
  - by rewrite lookup_insert_ne.
  - intros n Hn. rewrite Em. apply O8.
    destruct Hpost as (_ & _ & Hd). simpl in Hn. by rewrite Hd in Hn.
  - rewrite (view_put threads). apply lock_idle_made; [done | by apply not_eq_sym].
  - rewrite (view_put threads). apply lock_idle_made; [done | by apply not_eq_sym].
Qed.

Section Up.
Context (s0 s1 : system) (total : Z).
Hypothesis Hraw : system_raw s0 total.
Hypothesis Hmem : mem_inited total s0 s1.

(** The task structure of the main thread is apart from the lists. *)
Lemma main_tag_apart l : l ∈ boot_lists -> general_tag (k_cur (s_kernel s1)) <> head_of l /\ general_tag (k_cur (s_kernel s1)) <> tail_of l /\
  all_list_tag (k_cur (s_kernel s1)) <> head_of l /\ all_list_tag (k_cur (s_kernel s1)) <> tail_of l.
Proof.
  intros Hl. rewrite (sp_cur _ _ (md_place _ _ _ Hmem)). destruct (raw_cur _ _ Hraw) as [_ Hal].
  pose proof (sr_ends _ _ Hraw) as He. rewrite Forall_forall in He. destruct (He l Hl) as [Hh Ht].
  apply (raw_nodes _ _ _ Hraw) in Hh as [_ Hh]. apply (raw_nodes _ _ _ Hraw) in Ht as [_ Ht].
  unfold general_tag, all_list_tag. repeat split; intros E; [apply Hh | apply Ht | apply Hh | apply Ht]; rewrite <- E; Z.div_mod_to_equations; lia.
Qed.

Lemma boot_heads : thread_ready_list ∈ boot_lists /\ thread_all_list ∈ boot_lists.
Proof. unfold boot_lists. rewrite !elem_of_cons. tauto. Qed.

(** [thread_init] makes no lock but [pid_lock]. *)
Lemma lookup_with_main k l p :
  p <> pid_lock -> is_Some (locks (k_sync k) !! p) /\ is_Some (values (k_sync k) !! semaphore p) ->
  is_Some (locks (k_sync (with_main k l)) !! p) /\ is_Some (values (k_sync (with_main k l)) !! semaphore p).
Proof.
  intros Hp [H1' H2']. unfold with_main. simpl. rewrite !lookup_insert_ne; [done | unfold semaphore; lia | done].
Qed.

Lemma threads_up_ok fuel :
  wpu (zoom kern (thread_init (S fuel))) s1 (fun _ s2 =>
    threads_up s1 s2 (main_lists pool_lists (k_cur (s_kernel s1))) [console_lock; kbd_buf]) False.
Proof.
  pose proof (md_raw _ _ _ Hmem) as Hkr. apply wpu_zoom. eapply wpu_mono; [by apply thread_init_eq | | done].
  intros [] k2 (l & -> & Hl & He & Hd). set (c := k_cur (s_kernel s1)) in *.
  assert (dom (nodes (k_lst (s_kernel s1))) ⊆ dom (nodes l)) as Hsub by (rewrite Hd; simpl; rewrite !dom_insert_L; set_solver).
  destruct (boot_locks_ne _ _ Hraw) as ((N1 & N2 & N3 & N4) & (N5 & N6 & N7) & (N8 & N9) & N10).
  split.
  - by apply (with_main_ok (s_kernel s1)).
  - apply with_main_idle; [done | by apply not_eq_sym | apply (md_user _ _ _ Hmem)].
  - intros p Hp. assert (p ∈ boot_locks) as Hb by (apply elem_of_cons in Hp as [->|[->|[]%elem_of_nil]%elem_of_cons]; boot_in).
    destruct (lock_list_ne _ _ _ Hraw Hb) as (Ib & Nr & Na). destruct (main_tag_apart _ Ib) as (_ & _ & T1 & T2).
    assert (p <> pid_lock) as Npid.
    { apply elem_of_cons in Hp as [->|[->|[]%elem_of_nil]%elem_of_cons]; by apply not_eq_sym. }
    split; [|apply (lookup_with_main _ _ _ Npid), (place_locks _ _ _ (md_place _ _ _ Hmem)), (raw_locks _ _ _ Hraw Hb)].
    assert (waiters (semaphore p) <> waiters (semaphore pid_lock)) as Nw by (unfold waiters, semaphore; lia).
    destruct (lock_list_ne _ _ pid_lock Hraw ltac:(boot_in)) as (Ip & _ & _).
    pose proof (boot_heads) as [Ir Ia].
    apply (spare_insert (nodes (k_lst (s_kernel s1)))); [exact Hsub | by apply (sr_apart _ _ Hraw) | | |].
    + by apply not_elem_of_cons; split; [apply not_eq_sym | apply not_elem_of_nil].
    + by apply not_elem_of_cons; split; [apply not_eq_sym | apply not_elem_of_nil].
    + unfold raw_lists. do 3 (eapply spare_init; [reflexivity | by apply (sr_apart _ _ Hraw) |]).
      apply (md_spare _ _ _ Hmem). unfold later_lists. apply elem_of_cons in Hp as [->|[->|[]%elem_of_nil]%elem_of_cons];
        simpl; rewrite !elem_of_cons; tauto.
  - simpl. unfold with_main. simpl. by rewrite He.
  - done.
  - done.
  - split; [done|]. split; [done | exact He].
  - simpl. by rewrite (kr_tasks _ _ Hkr).
  - done.
Qed.

Lemma next_lock_ok p left L s :
  threads_up s1 s L (p :: left) -> p ∈ boot_locks -> p <> pid_lock -> p <> kernel_pool_lock -> p <> user_pool_lock ->
  p ∉ left -> (forall p', p' ∈ left -> p' ∈ boot_locks) ->
  exists l, lock_init p (view sys_threads s) = Ok (tt, lock_made p l (view sys_threads s)) /\
    let s' := put sys_threads (lock_made p l (view sys_threads s)) s in
    threads_up s1 s' (<[waiters (semaphore p) := []]> L) left /\
    lock_idle p (view sys_threads s') (<[waiters (semaphore p) := []]> L).
Proof.
  intros [U1 U2 U3 U4 U5 U6 (U7 & U8 & U9) U10 U11] Hp Np Nk Nu Hl Hb.
  destruct (lock_list_ne _ _ _ Hraw Hp) as (Iw & Nr & Na). destruct (main_tag_apart _ Iw) as (T1 & T2 & _).
  destruct (U3 p ltac:(left)) as (Hsp & Hlk & Hv). pose proof (so_lists _ _ _ (so_queue _ _ _ (ko_sched _ _ _ _ U1))) as Hlists.
  assert (cur (view sys_threads s) <> NULL) as Hc.
  { simpl. rewrite U7, (sp_cur _ _ (md_place _ _ _ Hmem)). pose proof (raw_cur _ _ Hraw). unfold NULL. lia. }
  destruct (wp_ok_inv _ _ _ (lock_made_ok p (view sys_threads s) L Hlists Hlk Hv Hsp Hc Nr)) as ([] & x & E & l & -> & Hpost & Hidle).
  exists l. split; [exact E|]. cbv zeta. destruct Hpost as (P1 & P2 & P3).
  split; [|by rewrite (view_put sys_threads)]. split; try done.
  - change (s_kernel (put sys_threads _ s)) with (put threads (lock_made p l (view threads (s_kernel s))) (s_kernel s)).
    apply kernel_ok_new_lock; try done. intros t ->%list_elem_of_singleton. done.
  - rewrite (view_put sys_threads). apply lock_idle_made; [exact U2 | by apply not_eq_sym].
  - intros p' Hp'. destruct (U3 p' ltac:(by right)) as (Hsp' & Hlk' & Hv'). assert (p' <> p) as Hne by (intros ->; done).
    destruct (lock_list_ne _ _ _ Hraw (Hb p' Hp')) as (Iw' & _ & _).
    split; [|split].
    + apply (spare_init (nodes (k_lst (s_kernel s)))); [exact P3 | | exact Hsp'].
      apply (sr_apart _ _ Hraw); [done | done|]. unfold waiters, semaphore. lia.
    + simpl. by rewrite lookup_insert_ne by (by apply not_eq_sym).
    + simpl. by rewrite lookup_insert_ne by (unfold semaphore; lia).
  - rewrite <- U4. simpl in P2. simpl. rewrite P2. by destruct (k_mem (s_kernel s)).
  - split; [exact U7|]. split; [exact U8|]. by rewrite <- U9.
Qed.
End Up.

(** *** All of it *)

(** What the loader leaves, for all components. *)
Record boot_raw (b : boot_state) (total : Z) : Prop := {
  br_system : system_raw (b_sys b) total;
  br_tables : tables_sized (b_intr b);
  br_queue : exists q, b_queues b !! kbd_buf = Some q /\ length (buf q) = 64%nat /\ Forall is_u8 (buf q);
  br_flags : b_ctrl b = 0 /\ b_shift b = 0 /\ b_alt b = 0 /\ b_caps b = 0 /\ b_ext b = 0;
  br_if : if_flag (eflags (k_lst (s_kernel (b_sys b)))) = false;
  br_table : length (s_table (b_sys b)) = Z.to_nat syscall_cnt;
}.

(** The kernel after [init_all]. *)
Record booted (total : Z) (b b' : boot_state) : Prop := {
  bt_kernel : exists L, kernel_ok (s_kernel (b_sys b')) L [] [k_cur (s_kernel (b_sys b))] /\
    lock_idle user_pool_lock (view sys_threads (b_sys b')) L /\ lock_idle console_lock (view sys_threads (b_sys b')) L;
  bt_heap : exists Ls, heap_ok (view heap (b_sys b')) Ls /\ (forall p sz, ~ given (view heap (b_sys b')) Ls p sz) /\
    cur_pgdir (k_mem (s_kernel (b_sys b'))) = NULL;
  bt_fresh : fresh_pools (k_mem (s_kernel (b_sys b'))) (8 * (kernel_pages total / 8));
  bt_bitmaps : bitmaps_between (k_mem (s_kernel (b_sys b'))) MEM_BITMAP_BASE (k_cur (s_kernel (b_sys b')));
  bt_main : k_cur (s_kernel (b_sys b')) = k_cur (s_kernel (b_sys b)) /\
    k_main_thread (s_kernel (b_sys b')) = k_cur (s_kernel (b_sys b)) /\
    eflags (k_lst (s_kernel (b_sys b'))) = eflags (k_lst (s_kernel (b_sys b))) /\
    exists ts, k_tasks (s_kernel (b_sys b')) = {[k_cur (s_kernel (b_sys b)) := ts]} /\ status ts = TASK_RUNNING /\
      pid ts = s16 (k_next_pid (s_kernel (b_sys b)) + 1) /\ priority ts = 31;
  bt_keyboard : kbd_rep false (view kbd_part b') (idle false) [];
  bt_vectors : (forall i f, 0 <= i < 0x80 -> array_get intr_entry_table i = Some f ->
      exists g, array_get (idt (b_intr b')) i = Some g /\ gate_ok g f 0) /\
    (exists g, array_get (idt (b_intr b')) 0x80 = Some g /\ gate_ok g syscall_handler_at 3);
  bt_handlers : forall i, 0 <= i < IDT_DESC_CNT -> array_get (handlers (b_intr b')) i =
    Some (if i =? 0x20 then intr_timer_handler_at else if i =? 0x21 then intr_keyboard_handler_addr else general_intr_handler_at);
  bt_names : forall i, 0 <= i < IDT_DESC_CNT -> array_get (intr_name (b_intr b')) i = Some (vector_name i);
  bt_pics : pics_ready (port_log (b_intr b'));
  bt_timer : counter0 (port_log (b_intr b')) = Some (Counter 2 (Some 11931) None);
  bt_tss : b_tss b' = after_tss_init tss_at (b_tss b);
  bt_table : table_ready (b_sys b');
  bt_text : s_bytes (b_sys b') = s_bytes (b_sys b) /\ s_screen (b_sys b') = s_screen (b_sys b);
}.

(** The tables of interrupts, as the three components that use them leave them. *)
Lemma boot_tables_ok i1 addr :
  intr_ready intr_entry_table syscall_handler_at general_intr_handler_at idt_at i1 ->
  let i2 := IntrState (idt i1) (intr_name i1) (<[0x20%nat := intr_timer_handler_at]> (handlers i1)) (idtr i1) (port_log i1 ++ timer_log) in
  (0x20 < length (handlers i1))%nat /\
  register_handler 0x21 addr i2 = Ok (tt, IntrState (idt i1) (intr_name i1) (<[0x21%nat := addr]> (handlers i2)) (idtr i1) (port_log i2)) /\
  forall i, 0 <= i < IDT_DESC_CNT -> array_get (<[0x21%nat := addr]> (handlers i2)) i =
    Some (if i =? 0x20 then intr_timer_handler_at else if i =? 0x21 then addr else general_intr_handler_at).
Proof.
  intros R i2. pose proof (ir_handlers _ _ _ _ _ R) as Hh.
  assert (0x80 < Z.of_nat (length (handlers i1))) as Hlen.
  { specialize (Hh 0x80 ltac:(unfold IDT_DESC_CNT; lia)). unfold array_get in Hh. simpl in Hh. by apply lookup_lt_Some in Hh; lia. }
  split; [lia|]. split.
  - unfold register_handler, set_handler. rewrite array_set_eq; [done|]. simpl. rewrite length_insert. lia.
  - intros i Hi. change 0x21%nat with (Z.to_nat 0x21). rewrite array_get_insert by (simpl; rewrite length_insert; lia).
    simpl handlers. change 0x20%nat with (Z.to_nat 0x20). rewrite array_get_insert by lia. rewrite Hh by done.
    rewrite (Z.eqb_sym 0x21), (Z.eqb_sym 0x20). destruct (Z.eqb_spec i 0x21) as [->|]; [done|]. by destruct (i =? 0x20).
Qed.

(** The part of the system's threads, memory and heap. *)
Record system_up (total : Z) (s0 s1 s : system) (L : gmap Z (list Z)) : Prop := {
  su_mem : mem_inited total s0 s1;
  su_threads : threads_up s1 s L [];
  su_console : lock_idle console_lock (view sys_threads s) L;
}.

Lemma booted_intro b b' s1 s L q i1 total :
  boot_raw b total -> system_up total (b_sys b) s1 s L -> b_queues b !! kbd_buf = Some q -> length (buf q) = 64%nat -> Forall is_u8 (buf q) ->
  intr_ready intr_entry_table syscall_handler_at general_intr_handler_at idt_at i1 ->
  let i2 := IntrState (idt i1) (intr_name i1) (<[0x20%nat := intr_timer_handler_at]> (handlers i1)) (idtr i1) (port_log i1 ++ timer_log) in
  b_sys b' = with_table (s_table (b_sys b')) s -> table_ready (b_sys b') ->
  b_intr b' = IntrState (idt i1) (intr_name i1) (<[0x21%nat := intr_keyboard_handler_addr]> (handlers i2)) (idtr i1) (port_log i2) ->
  b_queues b' = <[kbd_buf := IOQueue NULL NULL (buf q) 0 0]> (b_queues b) ->
  b_ctrl b' = 0 -> b_shift b' = 0 -> b_alt b' = 0 -> b_caps b' = 0 -> b_ext b' = 0 -> b_tss b' = after_tss_init tss_at (b_tss b) ->
  booted total b b'.
Proof.
  intros Hb [M U C] Hq Hlen Hbytes R i2 Es Htab Ei Eq F1 F2 F3 F4 F5 Et.
  destruct U as [U1 U2 U3 U4 U5 U6 (U7 & U8 & U9) U10 [U11 U12]]. pose proof (md_place _ _ _ M) as P.
  assert (k_cur (s_kernel s1) = k_cur (s_kernel (b_sys b))) as Ec by apply P. rewrite Ec in *.
  assert (s_kernel (b_sys b') = s_kernel s) as Ek by (by rewrite Es).
  assert (view heap (b_sys b') = view heap s1) as Eh by (rewrite <- U4, Es; done).
  assert (view sys_threads (b_sys b') = view sys_threads s) as Ev by (rewrite Es; done).
  assert (eflags (k_lst (s_kernel s)) = eflags (k_lst (s_kernel (b_sys b)))) as Ef by (rewrite U9; apply P).
  destruct (boot_tables_ok i1 intr_keyboard_handler_addr R) as (_ & _ & Hh).
  split; rewrite ?Ek, ?Ev, ?Eh, ?Ei; try done.
  - by exists L.
  - destruct (md_heap _ _ _ M) as (Ls & Hok & _). exists Ls. split; [exact Hok|].
    assert (k_mem (s_kernel s) = k_mem (s_kernel s1)) as Em by (exact (f_equal hmem U4)).
    split; [|by rewrite Em; apply (md_pgdir _ _ _ M)].
    intros p sz (a & ar & Ha & _). simpl in Ha. by rewrite (md_arenas _ _ _ M) in Ha.
  - assert (k_mem (s_kernel s) = k_mem (s_kernel s1)) as Em by (exact (f_equal hmem U4)). rewrite Em. apply M.
  - assert (k_mem (s_kernel s) = k_mem (s_kernel s1)) as Em by (exact (f_equal hmem U4)).
    rewrite Em, U7, (sr_cur _ _ (br_system _ _ Hb)). apply M.
  - split; [done|]. split; [done|]. split; [done|]. eexists. split; [exact U10|].
    rewrite (md_pid _ _ _ M). unfold new_task. by rewrite Z.eqb_refl.
  - assert (ring_state (kio (view kbd_part b')) []) as Hring; [|by split].
    change (kio (view kbd_part b')) with (IO (b_queues b') (view sys_threads (b_sys b'))). rewrite Eq, Ev.
    exists (IOQueue NULL NULL (buf q) 0 0), L, []. cbn [queues kst].
    split; [apply lookup_insert_eq|]. split; [by apply empty_ring|]. split; [done|]. split; [apply U1|].
    split; [done|]. simpl. rewrite Ef. apply (br_if _ _ Hb).
  - split; [apply (ir_gates _ _ _ _ _ R) | apply (ir_syscall _ _ _ _ _ R)].
  - apply (ir_names _ _ _ _ _ R).
  - simpl. rewrite <- app_nil_r. apply pics_ready_app; [|by repeat constructor].
    apply pics_ready_app; [apply (ir_pics _ _ _ _ _ R) | by repeat constructor].
  - apply timer_counter.
  - destruct (sp_text _ _ P) as [T1 T2]. rewrite Es. simpl. split; congruence.
Qed.

Lemma init_all_ok fuel byte_at b total :
  boot_raw b total -> (forall a, is_u8 (byte_at a)) -> Z.of_nat (length intr_entry_table) = IDT_DESC_CNT ->
  (forall i f, array_get intr_entry_table i = Some f -> is_u32 f) -> is_u32 syscall_handler_at -> is_u32 idt_at ->
  wpu (init_all (S fuel) byte_at) b (fun _ b' => booted total b b') False.
Proof.
  intros Hb Hbytes Hlength Hentries Hsys Hidt.
  destruct (br_queue _ _ Hb) as (q & Hq & Hlen & Hbuf). destruct (br_flags _ _ Hb) as (F1 & F2 & F3 & F4 & F5).
  unfold init_all. apply wpu_bind, wpu_wp, wp_zoom. eapply wp_mono.
  { apply init_intr_ok; try done. apply (br_tables _ _ Hb). }
  intros [] i1 R. set (i2 := IntrState (idt i1) (intr_name i1) (<[0x20%nat := intr_timer_handler_at]> (handlers i1)) (idtr i1) (port_log i1 ++ timer_log)).
  destruct (boot_tables_ok i1 intr_keyboard_handler_addr R) as (Hlen' & Ereg & _). cbv zeta in Ereg.
  apply wpu_bind, wpu_wp, wp_zoom. eapply wp_ok; [by apply init_timer_eq|]. cbv beta.
  apply wpu_bind, wpu_wp, wp_zoom. eapply wp_mono; [by apply (mem_init_ok byte_at (b_sys b) total); [|apply Hb]|].
  intros [] s1 Hmem. apply wpu_bind, wpu_zoom. eapply wpu_mono; [apply (threads_up_ok _ s1 total (br_system _ _ Hb) Hmem) | | done].
  intros [] s2 U2. destruct (boot_locks_ne _ _ (br_system _ _ Hb)) as ((N1 & N2 & N3 & N4) & (N5 & N6 & N7) & (N8 & N9) & N10).
  destruct (next_lock_ok _ s1 total (br_system _ _ Hb) Hmem console_lock [kbd_buf] _ s2 U2 ltac:(boot_in)) as (l3 & E3 & U3 & C3);
    [by apply not_eq_sym.. | by apply not_elem_of_cons; split; [|apply not_elem_of_nil] | by intros p' ->%list_elem_of_singleton; boot_in |].
  apply wpu_bind, wpu_zoom. unfold console_init, lock_op. apply wpu_zoom. eapply wpu_eq; [exact (f_equal undisturbed E3)|].
  set (s3 := put sys_threads (lock_made console_lock l3 (view sys_threads s2)) s2) in *.
  destruct (next_lock_ok _ s1 total (br_system _ _ Hb) Hmem kbd_buf [] _ s3 U3 ltac:(boot_in)) as (l4 & E4 & U4 & _);
    [by apply not_eq_sym.. | apply not_elem_of_nil | by intros p' ?%elem_of_nil |].
  set (s4 := put sys_threads (lock_made kbd_buf l4 (view sys_threads s3)) s3) in *.
  match goal with |- wpu _ ?x _ _ => change x with (Boot s3 i2 (b_queues b) (b_ctrl b) (b_shift b) (b_alt b) (b_caps b) (b_ext b) (b_tss b)) end.
  apply wpu_bind, wpu_wp, wp_zoom. eapply wp_ok.
  { unfold keyboard_init.
    erewrite bind_ok by (apply zoom_ok, (ioqueue_init_eq _ _ q); [exact Hq | exact E4]). apply zoom_ok. exact Ereg. }
  cbv beta. apply wpu_bind, wpu_wp, wp_zoom. eapply wp_ok; [apply tss_init_eq|]. cbv beta.
  assert (length (s_table s4) = Z.to_nat syscall_cnt) as Hlt.
  { rewrite (tu_table _ _ _ _ U4), (sp_table _ _ (md_place _ _ _ Hmem)). apply (br_table _ _ Hb). }
  destruct (syscall_table_ready s4 Hlt) as (s5 & E5 & Htab & _ & tl & Es5).
  apply wpu_wp, wp_zoom. eapply wp_ok; [exact E5|]. cbv beta.
  eapply (booted_intro b _ s1 s4 _ q i1 total); try done; [split; [exact Hmem | exact U4 |]|].
  - unfold s4. rewrite (view_put sys_threads). apply lock_idle_made; [exact C3 | done].
  - simpl. by rewrite Es5.
Qed.

(** ** Properties *)

(** C6: [init_all], run on what the loader leaves in a machine with 2 MB to
    about 343 MB of memory, puts every component into the state its own
    operations need, none spoiling what another has set up: the scheduler with
    the main thread alone, the allocator and the kernel's heap with nothing
    handed out, the allocator's bitmaps between the kernel's data and the main
    thread's page, all locks free, an idle keyboard with an empty queue, the
    interrupt tables with the handlers of timer and keyboard and the names of
    the exceptions, the interrupt controllers programmed with only the two
    lines enabled, the timer at 100 interrupts a second, the descriptors of the
    TSS and of the user segments, and the table of system calls; interrupts
    stay off.  (With more memory the bitmaps would run into the main thread's
    page, which is why it is excluded.) *)
Theorem init_all_correct (fuel : nat) (byte_at : Z -> Z) (b : boot_state) (total : Z)
    (Hb : boot_raw b total) (Hbytes : forall a, is_u8 (byte_at a))
    (Hlength : Z.of_nat (length intr_entry_table) = IDT_DESC_CNT)
    (Hentries : forall i f, array_get intr_entry_table i = Some f -> is_u32 f)
    (Hsys : is_u32 syscall_handler_at) (Hidt : is_u32 idt_at) :
  exists b', undisturbed (init_all (S fuel) byte_at b) = Ok (tt, b') /\ booted total b b'.
Proof.
  destruct (wpu_outcome _ _ _ _ (init_all_ok fuel byte_at b total Hb Hbytes Hlength Hentries Hsys Hidt)) as [([] & b' & E & Hbt)|[_ []]].
  by exists b'.
Qed.
End BootProofs.

(** *** A concrete machine: the loader's page tables in 32 MB, every variable
    with arbitrary contents *)
#[local] Existing Instance ThreadCreate.example_layout.
#[local] Existing Instance ThreadCreate.example_pools.
#[local] Existing Instance ThreadCreate.example_text.
#[local] Existing Instance Syscall.example_text.
#[local] Instance example_console : ConsoleLayout := {| console_lock := 0x10080 |}.
#[local] Instance example_kbd_layout : KbdLayout := {| kbd_buf := 0x100a0; intr_keyboard_handler_addr := 0xc0005000 |}.
#[local] Instance example_boot_layout : BootLayout := {|
  intr_entry_table := example_entries; syscall_handler_at := 0xc0002000; general_intr_handler_at := 0xc0003000;
  idt_at := 0xc0010000; intr_timer_handler_at := 0xc0004000; tss_at := 0xc0006000 |}.

Definition example_boot_ends : gset Z := list_to_set ((head_of <$> boot_lists) ++ (tail_of <$> boot_lists)).
Definition example_boot_locks : gset Z := list_to_set boot_locks.
Definition example_boot_values : gset Z := list_to_set (semaphore <$> boot_locks).

Definition example_boot_mem (m : mmu) : mem_state :=
  MemState m (MemPool (Bitmap 0 0 []) 0 0) (MemPool (Bitmap 0 0 []) 0 0) (VPool (Bitmap 0 0 []) 0)
    (VPool (Bitmap 0 0 []) 0) NULL.

Definition example_boot_system (m : mmu) : system :=
  System.System
    (Kernel (example_boot_mem m) (LState (gset_to_gmap (Node 3 5) example_boot_ends) 2) ∅
      (Sync (gset_to_gmap 7 example_boot_values) (gset_to_gmap (Lock 7 7) example_boot_locks)) 0xc009e000 0 0 0 NULL)
    example_headers ∅ ∅ 0xc0010000 0 ∅ [] (replicate 32 0).

Definition example_boot_state (m : mmu) : boot_state :=
  Boot (example_boot_system m) example_tables {[0x100a0 := IOQueue 7 8 (replicate 64 0) 5 9]} 0 0 0 0 0 (TssState [] ∅ 0 0).

Lemma example_boot_node n : n ∈ example_boot_ends <-> n ∈ (head_of <$> boot_lists) ++ (tail_of <$> boot_lists).
Proof. apply elem_of_list_to_set. Qed.

Lemma example_boot_raw m : boot_tables m -> load 0xb00 m = Ok (0x2000000, m) -> boot_raw (example_boot_state m) 0x2000000.
Proof.
  intros Hb Hl. split; [split| | | | | ]; try done.
  - intros n. simpl. rewrite dom_gset_to_gmap, example_boot_node. revert n. apply Forall_forall.
    refine (bool_decide_eq_true_1 _ _). by vm_compute.
  - simpl nodes. rewrite dom_gset_to_gmap. apply Forall_forall. intros l Hl'. rewrite !example_boot_node, !elem_of_app, !list_elem_of_fmap.
    split; [left | right]; by exists l.
  - assert (Forall (fun l => Forall (fun l' => l = l' \/ apart l l') boot_lists) boot_lists) as Hap.
    { unfold apart. refine (bool_decide_eq_true_1 _ _). by vm_compute. }
    intros l l' H1 H2 Hne. rewrite Forall_forall in Hap. specialize (Hap l H1). rewrite Forall_forall in Hap.
    by destruct (Hap l' H2).
  - refine (bool_decide_eq_true_1 _ _). by vm_compute.
  - repeat constructor; by eexists.
  - exact (hr_headers _ example_raw).
  - intros n. simpl. unfold example_headers. rewrite dom_gset_to_gmap, elem_of_union, !elem_of_list_to_set, !list_elem_of_fmap.
    unfold MEM_BITMAP_BASE. intros [(i & -> & Hi%elem_of_seqZ)|(i & -> & Hi%elem_of_seqZ)]; lia.
  - eexists. split; [apply lookup_singleton_eq|]. split; [done|]. apply (Forall_replicate is_u8 64 0). unfold is_u8. lia.
Qed.

Lemma init_all_correct_witness : exists b b', boot_raw b 0x2000000 /\
  undisturbed (init_all 1 (fun _ => 0) b) = Ok (tt, b') /\ booted 0x2000000 b b'.
Proof.
  destruct example_machine_ok as [Hb Hl]. pose proof (example_boot_raw _ Hb Hl) as Hraw.
  destruct (init_all_correct 0 (fun _ => 0) (example_boot_state example_machine) 0x2000000 Hraw) as (b' & E & Hbt).
  - intros a. unfold is_u8. lia.
  - reflexivity.
  - exact example_entries_u32.
  - unfold is_u32. simpl. lia.
  - unfold is_u32. simpl. lia.
  - exists (example_boot_state example_machine), b'. split; [exact Hraw|]. split; [exact E | exact Hbt].
Defined.
