(* ===== verification/PowerOn.v ===== *)
(** * From the power switch to a running kernel

    The loader ([LoadBoot]) and the kernel's initialisation ([Boot]) one after
    the other: the kernel starts on the memory and the page tables the loader
    leaves. *)
From stdpp Require Import base numbers list gmap fin_maps strings.
From Stdlib Require Import ZArith Lia.
From S2P Require Import Prelude Globals Interrupt LinkedList Bitmap Paging PageAlloc PageInit Loader LoadKernel LoadBoot Thread Sync PoolLocks ThreadCreate System Console Syscall PageDir Keyboard Boot.

(** The machine in the state of the kernel. *)
Definition machine_part : lens boot_state mmu := lens_comp sys_part sys_machine.

Section PowerOn.
Context `{!Drive} `{!Layout} `{!PoolLayout} `{!ConsoleLayout} `{!SyscallText} `{!KbdLayout} `{!BootLayout}.

(** The loader's jump enters the kernel, whose data are those of its image;
    [main] starts with [init_all]. *)
Definition power_on (map : list ards) (fuel : nat) (byte_at : Z -> Z) : M (pc * boot_state) unit :=
  entry ← zoom fst_lens (boot map fuel);
  if entry =? KERNEL_ENTRY_POINT then
    modify (fun s => (fst s, put machine_part (p_mem (fst s)) (snd s))) ;;;
    zoom snd_lens (init_all fuel byte_at)
  else fault.

(** The kernel's data, with any machine. *)
Lemma boot_raw_machine b total m total' :
  boot_raw b total -> boot_tables m -> load 0xb00 m = Ok (total', m) -> 0x200000 <= total' <= 0x15755000 ->
  boot_raw (put machine_part m b) total'.
Proof.
  intros [[S1 S2 S3 S4 S5 S6 S7 S8 S9 S10 S11 S12 S13 S14 S15] B2 B3 B4 B5 B6] Ht Hl Hr.
  destruct b as [sy i q c sh al ca ex t]. destruct sy as [k hn ar de kb ub by_ sc tb]. destruct k as [mm ls ta sy' cu np es ti mt].
  destruct mm as [ma kp kv up uv cp]. split; done.
Qed.

(** ** Property *)

(** C7: a machine with the loader and the kernel on its disk, 2 MB to
    about 343 MB of memory, zero from 0x101400 to 0x1fffff where page tables
    will be ([clear_tables]), and a drive that keeps pace, switched on, comes
    through boot sector, loader and [init_all] with every component of the
    kernel in the state its operations need ([booted], as for C6). *)
Theorem power_on_correct (map : list ards) (fuel : nat) (byte_at : Z -> Z) (limit : Z) (l : list phdr) (phoff size : Z)
    (s : pc) (b : boot_state) (total : Z)
    (Hpace : keeps_pace) (Hfuel : (latency 0 <= fuel)%nat) (Hs : good s) (Hp : p_paging s = false) (Hz : clear_tables (byte s))
    (Hloader : loader_file (disk_byte LOADER_START_SECTOR) limit)
    (Hmap : Forall ards_ok map) (Hne : map <> []) (Hlen : (length map <= 12)%nat) (Hsize : 0x200000 <= max_end 0 map <= 0x15755000)
    (Hkernel : kernel_file (disk_byte KERNEL_START_SECTOR) 102400 l phoff size)
    (Hb : boot_raw b total) (Hbytes : forall a, is_u8 (byte_at a))
    (Hlength : Z.of_nat (length intr_entry_table) = IDT_DESC_CNT)
    (Hentries : forall i f, array_get intr_entry_table i = Some f -> is_u32 f)
    (Hsys : is_u32 syscall_handler_at) (Hidt : is_u32 idt_at) :
  exists s' b', undisturbed (power_on map (S fuel) byte_at (s, b)) = Ok (tt, (s', b')) /\
    boot_tables (p_mem s') /\ booted (max_end 0 map) (put machine_part (p_mem s') b) b'.
Proof.
  assert (latency 0 < S fuel)%nat as Hf by lia.
  assert (wpu (power_on map (S fuel) byte_at) (s, b) (fun _ r => boot_tables (p_mem (fst r)) /\
    booted (max_end 0 map) (put machine_part (p_mem (fst r)) b) (snd r)) False) as Hw.
  2: { apply wpu_outcome in Hw as [([] & [s' b'] & E & Hr)|[_ []]]. by exists s', b'. }
  unfold power_on. apply wpu_bind, wpu_wp, wp_zoom.
  eapply wp_mono; [by apply (boot_machine map (S fuel) limit l phoff size s)|]. intros r s' (-> & Ht & Hl).
  change (KERNEL_ENTRY_POINT =? KERNEL_ENTRY_POINT) with true. cbv match. apply wpu_bind, wpu_wp, wp_modify. cbn [fst snd put fst_lens].
  apply wpu_zoom. eapply wpu_mono; [apply (init_all_ok fuel byte_at _ (max_end 0 map)); [by apply (boot_raw_machine b total)|done..] | | done].
  intros [] b' Hbt. cbv beta. split; [exact Ht | exact Hbt].
Qed.
End PowerOn.

(** *** Concrete instance: the disk of [LoadBoot], the kernel's data of [Boot] *)
#[local] Existing Instance ThreadCreate.example_layout.
#[local] Existing Instance ThreadCreate.example_pools.
#[local] Existing Instance ThreadCreate.example_text.
#[local] Existing Instance Syscall.example_text.
#[local] Existing Instance Boot.example_console.
#[local] Existing Instance Boot.example_kbd_layout.
#[local] Existing Instance Boot.example_boot_layout.
#[local] Existing Instance LoadBoot.example_drive.

Lemma power_on_correct_witness :
  exists s' b', undisturbed (power_on example_map 4 (fun _ => 0) (example_pc, example_boot_state example_machine)) = Ok (tt, (s', b')) /\
    booted (max_end 0 example_map) (put machine_part (p_mem s') (example_boot_state example_machine)) b'.
Proof.
  destruct example_machine_ok as [Hb Hl].
  destruct (power_on_correct example_map 3 (fun _ => 0) 31 example_phdrs 52 32 example_pc (example_boot_state example_machine) 0x2000000)
    as (s' & b' & E & _ & Hbt).
  - exact example_pace.
  - simpl. lia.
  - by split.
  - reflexivity.
  - intros a _. apply example_pc_byte.
  - exact example_loader_file.
  - exact example_areas_ok.
  - discriminate.
  - simpl. lia.
  - split; discriminate.
  - exact example_kernel_file.
  - exact (example_boot_raw _ Hb Hl).
  - intros a. unfold is_u8. lia.
  - reflexivity.
  - exact example_entries_u32.
  - unfold is_u32. simpl. lia.
  - unfold is_u32. simpl. lia.
  - exists s', b'. split; [exact E | exact Hbt].
Defined.
