(* ===== verification/Main.v ===== *)
(** * The kernel's main function: kernel/main.c (main)

    After [init_all] interrupts are switched on and two kernel threads and two
    processes are made; the function ends in [while(1)], where the model
    stops.  The programs themselves are in [Programs]. *)
From stdpp Require Import base numbers list gmap fin_maps strings.
From Stdlib Require Import ZArith Lia.
From S2P Require Import Prelude Globals Interrupt Timer LinkedList Bitmap Paging PageAlloc PageFree PageInit Loader Pages Supply Heap HeapInit HeapAlloc HeapFree CString Descriptor Thread Sync PoolLocks ThreadCreate System PrintStr Console Syscall PageDir UserEntry HeapShare Process IoQueue Keyboard Boot.

(** Addresses of the functions and strings of main.c. *)
Class MainCode := {
  k_thread_a_at : Z;
  k_thread_b_at : Z;
  u_prog_a_at : Z;
  u_prog_b_at : Z;
  arg_a_at : Z;
  arg_b_at : Z;
  kernel_msg : Z;
}.

Section Main.
Context `{!Layout} `{!PoolLayout} `{!KernelText} `{!ConsoleLayout} `{!PageDirText} `{!ProcessText} `{!SyscallText} `{!KbdLayout}
  `{!BootLayout} `{!MainCode}.

Definition start_programs (fuel : nat) : M system unit :=
  _ ← zoom sys_threads (kflags intr_enable);
  _ ← zoom kern (thread_start fuel (codes "k_thread_a") 31 k_thread_a_at arg_a_at);
  process_execute fuel u_prog_a_at (codes "user_prog_a") ;;;
  process_execute fuel u_prog_b_at (codes "user_prog_b") ;;;
  _ ← zoom kern (thread_start fuel (codes "k_thread_b") 31 k_thread_b_at arg_b_at);
  mret tt.

Definition main (fuel : nat) (byte_at : Z -> Z) : M boot_state unit :=
  zoom sys_part (put_str kernel_msg) ;;;
  init_all fuel byte_at ;;;
  zoom sys_part (start_programs fuel).
End Main.

(** ** What a thread enters when it is first chosen, as long as it is not *)
Definition will_start `{!KernelText} (m : mem_state) (t function arg : Z) : Prop := exists m0 f mm,
  task_page m0 m t f /\ 0 < t < 0xfffff000 /\
  forall j, 0 <= j < 1024 -> ram_word (machine m) (f + 4 * j) = ram_word (poke f (stack_words function arg) mm) (f + 4 * j).

Section MainProofs.
Context `{!Layout} `{!PoolLayout} `{!KernelText} `{!ConsoleLayout} `{!PageDirText} `{!ProcessText} `{!SyscallText} `{!KbdLayout}
  `{!BootLayout} `{!MainCode}.
Context (cs : list Z).
Hypothesis Hthread : is_u32 kernel_thread_addr.
Hypothesis Hstart : is_u32 start_process_addr.

Lemma will_start_kept m m' t function arg : pages_taken PF_KERNEL m m' -> will_start m t function arg -> will_start m' t function arg.
Proof.
  intros Ht (m0 & f & mm & Hp & Ha & Hw). destruct (task_page_kept _ _ _ _ _ Hp Ht) as [Hp' Hk].
  exists m0, f, mm. split; [done|]. split; [done|]. intros j Hj. by rewrite Hk, Hw.
Qed.

Lemma will_start_starts m t function arg : is_u32 function -> is_u32 arg ->
  will_start m t function arg -> starts (machine m) (t + 3664) kernel_thread_addr function arg.
Proof. intros Hf Ha (m0 & f & mm & Hp & Hr & Hw). apply (stack_starts_in mm _ t f); try done. apply Hp. Qed.

(** The system while threads are added to it, since it was [s0]. *)
Record running (s0 s : system) (L : gmap Z (list Z)) (q all : list Z) : Prop := {
  rn_kernel : kernel_ok (s_kernel s) L q all;
  rn_heap : exists Ls, heap_ok (view heap s) Ls;
  rn_pgdir : cur_pgdir (k_mem (s_kernel s)) = NULL;
  rn_console : lock_idle console_lock (view sys_threads s) L;
  rn_taken : pages_taken PF_KERNEL (k_mem (s_kernel s0)) (k_mem (s_kernel s));
  rn_same : k_cur (s_kernel s) = k_cur (s_kernel s0) /\ eflags (k_lst (s_kernel s)) = eflags (k_lst (s_kernel s0)) /\ s_bytes s = s_bytes s0;
}.

(** One more thread [t], for which at most [n] addresses, [n] frames and [tb]
    tables were used up. *)
Definition one_more (s0 s s' : system) (L : gmap Z (list Z)) (q all : list Z) (function arg t n tb : Z) : Prop :=
  running s0 s' (both_lists L (q ++ [t]) (all ++ [t])) (q ++ [t]) (all ++ [t]) /\
  will_start (k_mem (s_kernel s')) t function arg /\ pages_taken PF_KERNEL (k_mem (s_kernel s)) (k_mem (s_kernel s')) /\
  spent n n tb (k_mem (s_kernel s)) (k_mem (s_kernel s')).

Lemma running_all s0 s L q all : running s0 s L q all -> all <> [].
Proof. intros Hr E. pose proof (ko_main _ _ _ _ (rn_kernel _ _ _ _ _ Hr)) as Hin. rewrite E in Hin. by apply elem_of_nil in Hin. Qed.

Lemma thread_more fuel nm prio function arg s0 s L q all :
  running s0 s L q all -> name_ok nm -> is_u32 function -> is_u32 arg ->
  wpu (zoom kern (thread_start (S fuel) nm prio function arg)) s (fun t s' => one_more s0 s s' L q all function arg t 1 1)
    (~ supply PF_KERNEL (k_mem (s_kernel s)) 1 1 1).
Proof.
  intros Hr Hnm Hf Ha. pose proof Hr as [Hk [Ls Hh] Hpg Hc Ht (E1 & E2 & E3)].
  apply wpu_zoom. eapply wpu_mono; [by apply (thread_start_steps fuel nm prio function arg (s_kernel s) L q all) | |].
  2: { intros Hl Hsup. destruct Hl as [Hp|Hno].
       - apply (supply_no_panic PF_KERNEL (k_mem (s_kernel s)) 1 1 1 (ko_mem _ _ _ _ Hk) ltac:(done) Hsup 1); try lia; [by vm_compute | exact Hp].
       - destruct (supply_run PF_KERNEL (k_mem (s_kernel s)) 1 1 1 Hsup 1) as [i Hi]; [lia | by apply (Hno i)]. }
  intros t k' (m & f & l & -> & G & Hpage & Hfree & Hta & Hpost).
  destruct (task_page_got _ _ _ (ko_mem _ _ _ _ Hk) G) as (f' & Htp & _ & Hal).
  pose proof (task_page_poke _ _ _ _ _ Htp (stack_words_ok _ _ Hthread Hf Ha)) as Htp'.
  assert (f' = f) as ->.
  { pose proof (pa_frame _ _ _ (tp_at _ _ _ _ Htp)) as Ef. rewrite (pa_frame _ _ _ Hpage) in Ef. congruence. }
  set (m' := put machine_lens (poke f (stack_words function arg) (machine m)) m) in *.
  pose proof (tp_taken _ _ _ _ Htp') as Htk.
  split; [|split; [|split; [exact Htk | exact (spent_poke _ _ _ _ _ _ (spent_got _ _ _ _ G ltac:(lia)))]]].
  - split.
    + by apply (started_ok (s_kernel s)).
    + assert (heap_pf (view heap s) = PF_KERNEL) as Epf by (unfold heap_pf; simpl; by rewrite Hpg).
      exists Ls. apply (heap_ok_flags (eflags l) (put hmem_lens m' (view heap s))), heap_ok_taken; [exact Hh | by rewrite Epf].
    + rewrite <- Hpg. exact (pt_pgdir _ _ _ Htk).
    + apply (lock_idle_lists console_lock (view sys_threads s) _ L (q ++ [t]) all (all ++ [t])); [apply Hk | by eapply running_all | done | done].
    + by eapply pages_taken_trans.
    + destruct Hpost as (_ & He & _). split; [exact E1|]. split; [|exact E3]. simpl. by rewrite He.
  - exists (k_mem (s_kernel s)), f, (machine m). done.
Qed.

Lemma process_more fuel nm filename s0 s L q all :
  running s0 s L q all -> name_ok nm -> is_u32 filename -> cstring (s_bytes s0) create_page_dir_msg cs ->
  wpu (process_execute (S fuel) filename nm) s
    (fun _ s' => exists p, one_more s0 s s' L q all start_process_addr filename p 25 4)
    (~ enough_for_process (k_mem (s_kernel s))).
Proof.
  intros Hr Hnm Hf Hcs. pose proof Hr as [Hk [Ls Hh] Hpg Hc Ht (E1 & E2 & E3)].
  eapply wpu_mono; [apply (process_steps s filename nm cs L q all Ls Hk Hh Hpg Hf Hstart Hthread fuel) | | done].
  - exact (lock_idle_free console_lock _ _ _ (ko_sched _ _ _ _ Hk) Hc).
  - by rewrite E3.
  - exact Hnm.
  - intros [] s' (p & f & Ls' & m & l & hn & ds & dir & pool & bits & sc & Hin). exists p.
    pose proof (made_in_made s filename nm cs L q all Ls Hk Hh Hpg Hf Hstart Hthread _ _ _ _ _ _ _ _ _ _ _ _ Hin) as Hm.
    destruct Hin as [-> Hpa Hpage [m0 Hw] Hpost _ _ _ _ _ Hspent]. pose proof (tp_taken _ _ _ _ Hpage) as Htk.
    split; [|split; [|split; [exact Htk | exact Hspent]]].
    + split.
      * apply Hm.
      * destruct (pc_heap _ _ _ _ _ _ _ _ _ _ Hm) as (Lsp & Hhp & _). by exists Lsp.
      * rewrite <- Hpg. exact (pt_pgdir _ _ _ Htk).
      * apply (lock_idle_lists console_lock (view sys_threads s) _ L (q ++ [p]) all (all ++ [p])); [apply Hk | by eapply running_all | done | done].
      * by eapply pages_taken_trans.
      * destruct (pc_rest _ _ _ _ _ _ _ _ _ _ Hm) as (C1 & C2 & _). split; [by rewrite C1|]. split; [by rewrite C2 | exact E3].
    + by exists (k_mem (s_kernel s)), f, m0.
Qed.

(** Interrupts are switched on. *)
Lemma running_flags s e L q all :
  let s' := flags e s in
  kernel_ok (s_kernel s) L q all -> (exists Ls, heap_ok (view heap s) Ls) -> cur_pgdir (k_mem (s_kernel s)) = NULL ->
  lock_idle console_lock (view sys_threads s) L -> running s' s' L q all.
Proof.
  intros s' Hk [Ls Hh] Hpg Hc. split; try done.
  - destruct Hk as [K1 [[Q1 Q2 Q3 Q4 Q5 Q6] Q7] K3 K4 K5 K6 K7 K8 K9 K10 K11].
    split; try done; by apply (lock_idle_ext _ (view threads (s_kernel s))).
  - exists Ls. by apply (heap_ok_flags e) in Hh.
  - by apply (lock_idle_ext _ (view sys_threads s)).
  - apply pages_taken_refl, Hk.
Qed.
(** The state [main] ends in: the running code, and four threads ready to run,
    in the order they were made. *)
Record all_started (c : Z) (s : system) (ka pa pb kb : Z) : Prop := {
  as_kernel : exists L, kernel_ok (s_kernel s) L [ka; pa; pb; kb] [c; ka; pa; pb; kb] /\ lock_idle console_lock (view sys_threads s) L;
  as_heap : exists Ls, heap_ok (view heap s) Ls;
  as_running : k_cur (s_kernel s) = c /\ if_flag (eflags (k_lst (s_kernel s))) = true;
  as_starts : let m := machine (k_mem (s_kernel s)) in
    starts m (ka + 3664) kernel_thread_addr k_thread_a_at arg_a_at /\
    starts m (pa + 3664) kernel_thread_addr start_process_addr u_prog_a_at /\
    starts m (pb + 3664) kernel_thread_addr start_process_addr u_prog_b_at /\
    starts m (kb + 3664) kernel_thread_addr k_thread_b_at arg_b_at;
}.

Definition code_addrs : list Z := [k_thread_a_at; k_thread_b_at; u_prog_a_at; u_prog_b_at; arg_a_at; arg_b_at].

Lemma start_programs_ok fuel s L c :
  kernel_ok (s_kernel s) L [] [c] -> k_cur (s_kernel s) = c -> (exists Ls, heap_ok (view heap s) Ls) ->
  cur_pgdir (k_mem (s_kernel s)) = NULL -> lock_idle console_lock (view sys_threads s) L ->
  cstring (s_bytes s) create_page_dir_msg cs -> Forall is_u32 code_addrs ->
  wpu (start_programs (S fuel)) s (fun _ s' => exists ka pa pb kb, all_started c s' ka pa pb kb)
    (~ supply PF_KERNEL (k_mem (s_kernel s)) 52 52 10).
Proof.
  intros Hk Hcur Hh Hpg Hc Hcs Hu. unfold code_addrs in Hu. rewrite !Forall_cons in Hu. destruct Hu as (U1 & U2 & U3 & U4 & U5 & U6 & _).
  unfold start_programs. apply wpu_bind, wpu_wp, wp_zoom, wp_zoom. eapply wp_ok; [apply intr_enable_eq|].
  set (e := set_if true (eflags (k_lst (s_kernel s)))). pose proof (running_flags s e L [] [c] Hk Hh Hpg Hc) as R0.
  match goal with |- wpu _ ?x _ _ => assert (x = flags e s) as -> by (by unfold flags, e; destruct s as [[[]]]) end.
  apply wpu_bind. eapply wpu_mono; [apply (thread_more fuel _ _ _ _ _ _ _ _ _ R0); [by repeat constructor | done..] | |].
  2: { intros Hno Hs. by apply Hno, (supply_less _ _ 52 52 10 Hs). }
  intros ka s1 (R1 & W1 & T1 & S1).
  apply wpu_bind. eapply wpu_mono; [apply (process_more fuel _ _ _ _ _ _ _ R1); [by repeat constructor | done..] | |].
  2: { intros Hno Hs. apply Hno, (supply_less _ _ 51 51 9); [exact (S1 52 52 10 ltac:(lia) Hs) | lia..]. }
  intros [] s2 (pa & R2 & W2 & T2 & S2'). pose proof (spent_trans 1 1 1 25 25 4 _ _ _ ltac:(lia) S1 S2') as S2.
  apply wpu_bind. eapply wpu_mono; [apply (process_more fuel _ _ _ _ _ _ _ R2); [by repeat constructor | done..] | |].
  2: { intros Hno Hs. apply Hno, (supply_less _ _ 26 26 5); [exact (S2 52 52 10 ltac:(lia) Hs) | lia..]. }
  intros [] s3 (pb & R3 & W3 & T3 & S3'). pose proof (spent_trans 26 26 5 25 25 4 _ _ _ ltac:(lia) S2 S3') as S3.
  apply wpu_bind. eapply wpu_mono; [apply (thread_more fuel _ _ _ _ _ _ _ _ _ R3); [by repeat constructor | done..] | |].
  2: { intros Hno Hs. apply Hno. exact (S3 52 52 10 ltac:(lia) Hs). }
  intros kb s4 (R4 & W4 & T4 & _). apply wpu_ret. exists ka, pa, pb, kb. simpl app in R4.
  destruct R4 as [K H' _ C _ (E1 & E2 & _)]. pose proof (pages_taken_trans _ _ _ _ T3 T4) as T34.
  pose proof (pages_taken_trans _ _ _ _ T2 T34) as T24. split.
  - by eexists.
  - exact H'.
  - split; [by rewrite E1|]. rewrite E2. simpl. apply if_flag_set_if.
  - split; [|split; [|split]]; apply will_start_starts; try done; [eapply will_start_kept; [exact T24 | exact W1] |
      eapply will_start_kept; [exact T34 | exact W2] | eapply will_start_kept; [exact T4 | exact W3]].
Qed.

Lemma boot_raw_printed t b total :
  boot_raw b total -> boot_raw (put sys_part (printed t (b_sys b)) b) total.
Proof. intros [[] ? ? ? ? ?]. by split; [split|..]. Qed.

(** ** Properties *)

(** C8: [main], started on what the loader leaves in a machine with 2.5 MB to
    about 343 MB of memory, does not stop the machine: it prints its greeting,
    brings up all components ([booted]), switches interrupts on, and reaches its
    last loop as the running thread with four threads ready behind it, in the
    order made: kernel thread a, process a, process b, kernel thread b.  Each has
    a stack with which [switch_to] enters its function, for the processes
    [start_process] with the program; scheduler, allocator, heap and console are
    in order. *)
Theorem main_correct (fuel : nat) (byte_at : Z -> Z) (b : boot_state) (total : Z) (greeting : list Z)
    (Hb : boot_raw b total) (Hmin : 0x280000 <= total) (Hbytes : forall a, is_u8 (byte_at a))
    (Hlength : Z.of_nat (length intr_entry_table) = IDT_DESC_CNT)
    (Hentries : forall i f, array_get intr_entry_table i = Some f -> is_u32 f)
    (Hsys : is_u32 syscall_handler_at) (Hidt : is_u32 idt_at) (Hcode : Forall is_u32 code_addrs)
    (Hmsg : cstring (s_bytes (b_sys b)) kernel_msg greeting) (Hcs : cstring (s_bytes (b_sys b)) create_page_dir_msg cs) :
  let b0 := put sys_part (printed greeting (b_sys b)) b in
  exists b1 b' ka pa pb kb, undisturbed (init_all (S fuel) byte_at b0) = Ok (tt, b1) /\ booted total b0 b1 /\
    undisturbed (main (S fuel) byte_at b) = Ok (tt, b') /\
    all_started (k_cur (s_kernel (b_sys b))) (b_sys b') ka pa pb kb.
Proof.
  intros b0. pose proof (boot_raw_printed greeting b total Hb) as Hb0. fold b0 in Hb0.
  destruct (wpu_outcome _ _ _ _ (init_all_ok fuel byte_at b0 total Hb0 Hbytes Hlength Hentries Hsys Hidt)) as [([] & b1 & E & Hbt)|[_ []]].
  assert (wpu (main (S fuel) byte_at) b (fun _ b' => exists ka pa pb kb,
    all_started (k_cur (s_kernel (b_sys b))) (b_sys b') ka pa pb kb) False) as Hw.
  2: { apply wpu_outcome in Hw as [([] & b' & Em & ka & pa & pb & kb & Ha)|[_ []]]. by exists b1, b', ka, pa, pb, kb. }
  unfold main.
  apply wpu_bind, wpu_wp, wp_zoom. eapply wp_ok; [apply put_str_eq; exact Hmsg|]. fold b0.
  apply wpu_bind. eapply wpu_eq; [exact E|]. apply wpu_zoom.
  destruct (bt_kernel _ _ _ Hbt) as (L & Hk & _ & Hc). destruct (bt_heap _ _ _ Hbt) as (Ls & Hh & _ & Hpg).
  destruct (bt_main _ _ _ Hbt) as (Hcur & _). destruct (bt_text _ _ _ Hbt) as [Ht _].
  eapply wpu_mono; [apply (start_programs_ok fuel (b_sys b1) L (k_cur (s_kernel (b_sys b)))); try done; [by exists Ls | by rewrite Ht] | |].
  - intros [] s' (ka & pa & pb & kb & H'). by exists ka, pa, pb, kb.
  - intros Hno. apply Hno, (fresh_supply _ _ _ _ _ (bt_fresh _ _ _ Hbt)); unfold kernel_pages; Z.div_mod_to_equations; lia.
Qed.
End MainProofs.

(** *** Concrete instance: the machine of [Boot] *)
#[local] Existing Instance ThreadCreate.example_layout.
#[local] Existing Instance ThreadCreate.example_pools.
#[local] Existing Instance ThreadCreate.example_text.
#[local] Existing Instance Syscall.example_text.
#[local] Existing Instance Boot.example_console.
#[local] Existing Instance Boot.example_kbd_layout.
#[local] Existing Instance Boot.example_boot_layout.
#[local] Existing Instance Process.example_dir_msg.
#[local] Existing Instance Process.example_entry.
#[local] Instance example_main_code : MainCode := {|
  k_thread_a_at := 0xc0001600; k_thread_b_at := 0xc0001640; u_prog_a_at := 0xc0001680; u_prog_b_at := 0xc00016c0;
  arg_a_at := 0xc0005000; arg_b_at := 0xc0005010; kernel_msg := 0x500 |}.

(** The state of [Boot] with one string. *)
Definition example_main_state (m : mmu) : boot_state :=
  put sys_part (put bytes {[0x500 := 72; 0x501 := 0]} (example_boot_system m)) (example_boot_state m).

Lemma example_main_raw m : boot_raw (example_boot_state m) 0x2000000 -> boot_raw (example_main_state m) 0x2000000.
Proof. intros [[] ? ? ? ? ?]. by split; [split|..]. Qed.

Lemma main_correct_witness : exists b b' ka pa pb kb, boot_raw b 0x2000000 /\
  undisturbed (main 1 (fun _ => 0) b) = Ok (tt, b') /\ all_started 0xc009e000 (b_sys b') ka pa pb kb.
Proof.
  destruct example_machine_ok as [Hb Hl]. pose proof (example_main_raw _ (example_boot_raw _ Hb Hl)) as Hraw.
  assert (is_u32 kernel_thread_addr /\ is_u32 start_process_addr) as [U1 U2] by (unfold is_u32; simpl; lia).
  assert (cstring (s_bytes (b_sys (example_main_state example_machine))) 0x500 [72]) as Hs by by repeat split; repeat constructor.
  destruct (main_correct [72] U1 U2 0 (fun _ => 0) (example_main_state example_machine) 0x2000000 [72] Hraw)
    as (_ & b' & ka & pa & pb & kb & _ & _ & E & Ha).
  - lia.
  - intros a. unfold is_u8. lia.
  - reflexivity.
  - exact example_entries_u32.
  - unfold is_u32. simpl. lia.
  - unfold is_u32. simpl. lia.
  - unfold code_addrs. repeat constructor; simpl; lia.
  - exact Hs.
  - exact Hs.
  - exists (example_main_state example_machine), b', ka, pa, pb, kb. split; [exact Hraw|]. split; [exact E | exact Ha].
Defined.
